(* ===== verification/_CoqProject ===== *)
-Q . S2P
Prelude.v
Text.v
Paths.v
Json.v
Effects.v
Hashing.v
Uuid.v
Base64.v
Versions.v
Cohorts.v
Flags.v
Campaigns.v
Queue.v
Tokens.v
AdminAuth.v
Relay.v
Ingest.v
Worker.v
RuntimeConfig.v
Quota.v
Config.v
LlmProxy.v
GetConfig.v
Gate.v
Catalog.v
AuditLog.v
Binaries.v
Deploy.v
Download.v
Fleet.v
AdminDb.v
AdminRoutes.v
AdminCatalog.v
AdminSettings.v
Communications.v
AdminForms.v
AdminFacts.v
Chunks.v
PackageForms.v
PackageFacts.v
PackageDisk.v
PublicUrl.v
Suggest.v
SuggestFacts.v
AdminLogin.v
LoginFacts.v
Traffic.v
LogFilter.v
Wizard.v
WizardFacts.v
PublicCatalog.v
PublicFacts.v
Forward.v
AuditQuery.v
Devices.v
FileBrowser.v
FileFacts.v
Schema.v
SchemaFacts.v
Startup.v
StartupFacts.v
Dashboard.v
Edge.v
