(* ===== verification/Prelude.v ===== *)
(** * Device Management: a verification development

    The program (Python, under [src/app]) is the server of a fleet of office
    plugins. A plugin enrols, gets relay credentials, and polls
    [/config/config.json] for its configuration, its feature flags and its update
    directive; it sends telemetry and calls an OpenAI-compatible LLM proxy with
    the tokens it got; administrators edit flags, cohorts, campaigns and the
    runtime settings; a database queue carries the background work; several pods
    share one PostgreSQL database.

    ** How the program is modelled
    Each handler or service function is a Rocq function under its Python name, of
    its arguments, the clock, the random draws and the state it reads, to its
    result and the state it leaves. A function that may raise returns a [result];
    handlers that change several tables run in the state and exception monad of
    [Effects], where an exception keeps the state reached unless a transaction
    undoes it; a query that may fail takes a [table], [None] when it raises; an
    HTTP error is an [http_error] or a response. A [dict] is an association list
    in insertion order ([dget], [dset], [dupdate]); a [str] is a string of code
    points below 256, [bytes] a string of bytes; integers are unbounded, as in
    Python; times are integers. Tables are lists of records; the disk and the
    bucket are finite maps. Concurrency is a step relation: workers on the queue,
    reloads and commits on a pod, requests on the response cache. Code that is not
    in the repository is an argument: the Fernet cipher, the regular expression
    engine, the container format of archives, the identity provider, the collector,
    the bucket, the HTTP call to a backend.

    ** The files
    - [Prelude]: results, tables, dictionaries, tactics, hints, list lemmas.
    - [Text], [Json], [Hashing], [Base64]: what the program uses of [str], [int],
      [json], [hashlib], [hmac] and [base64], executable, with the round trips of
      JSON and of the URL-safe encoding ([crypto.b64url_encode] and its inverse).
      JSON numbers with a fraction are outside the model.
    - [Effects]: the monad, with the classes [Keeps] (what a computation leaves
      alone) and [Maintains] (the invariant it maintains).
    - [Paths]: [pathsafe.py] over the resolution of symbolic links of [os.path].
    - [Uuid]: [uuid.UUID] and [uuid5] with SHA-1, and [_normalize_client_uuid].
    - [Versions]: [_parse_version_tuple], [_infer_platform_variant].
    - [Cohorts]: [_resolve_device_cohorts] with its group cache, and
      [admin/services/cohorts.py].
    - [Flags]: what is served ([_resolve_feature_flags], [_resolve_forced_flags],
      the merge of [get_config]) and the catalogue ([admin/services/flags.py]).
    - [Campaigns]: the active campaign, the staged rollout, the update directive,
      the status reports, creation and life cycle.
    - [Queue]: [postgres_queue.py] operation by operation, and the loop of
      [_run_queue_worker_loop] as a relation over any number of workers.
    - [Tokens]: [services/crypto.py], the telemetry and the LLM tokens.
    - [AdminAuth]: the session and the guards of [admin/auth.py].
    - [RuntimeConfig]: [runtime_config.py], its store and its two routes, and a
      pod whose reloads interleave with the commits of the administrators.
    - [Fleet]: the pods of [runtime_config.py]: their table, the loop that keeps a
      pod on the current generation, the readiness probe and the views.
    - [Relay]: the relay credentials in both stores, and [llm/auth.py].
    - [Quota]: [llm/throttle.py]; the class [QuotaStore] is the interface with its
      law, and the table and the in-process dictionary are its instances.
    - [Config]: the functions that build a configuration.
    - [LlmProxy]: guardrails, pipeline, backends, forwarding and routes of
      [app/llm]; proved against the interface of [Quota].
    - [GetConfig]: the whole of [get_config] with the response cache.
    - [Ingest]: access tokens, enrolment, the telemetry relay and the handling of
      queue jobs, over the tables they write.
    - [Worker]: [_run_queue_worker_loop] as a program over [Ingest] and [Queue],
      related to the worker relation of [Queue].
    - [Gate]: boot gate, middlewares and the service-token routes.
    - [Catalog]: plugins, artifacts, versions and variants with the services that
      write them, and the queries of the download pages. [AuditLog]: the audit entry.
    - [Binaries]: where packages are stored and how they are served. [Deploy]: the
      deployment of a plugin and the upload of an artifact. [Download]: the public
      downloads and the update manifests.
    - [AdminDb]: the tables that the administration pages write, their constraints,
      and transactions in which a refused statement aborts what follows.
      [AdminRoutes], [AdminCatalog], [AdminSettings], [Communications]: the form
      handlers of [admin/router.py] with the services they call. [AdminForms]: all
      forms as one type, what holds of each. [AdminFacts]: what particular forms do.
    - [Chunks]: uploads in pieces, on a disk that maps paths to contents.
      [PackageForms]: the forms that receive a package, on the database and the
      disk. [PackageFacts]: what holds of all of them and what an uploaded version
      publishes. [PackageDisk]: where they write.
    - [PublicUrl]: [validate_public_url] with the parts of [urllib.parse] and
      [ipaddress] that it uses. [Suggest], [SuggestFacts]: [suggest_utils.py] and the
      route that asks a model for the description of a plugin.
    - [AdminLogin], [LoginFacts]: the login of [admin/auth.py] with its discovery, the
      callback and the logout of [admin/router.py].
    - [Traffic]: [llm/traffic.py], in one process and as a relation over several, and
      the series of [admin/services/llm_traffic.py]. [LogFilter]: [logfilters.py].
    - [Wizard], [WizardFacts]: the version of a package, the check of a slug, the
      migration of the configuration templates.
    - [PublicCatalog], [PublicFacts]: the public catalogue and its icons. [Forward]:
      the token proxy, the relay of assistants, the telemetry token.
    - [AuditQuery]: the journal of the administration: filters, pages, export.
    - [FileBrowser], [FileFacts]: the file browser and the files API.
    - [Schema], [SchemaFacts]: [apply_schema], its script, two migrations. [Startup],
      [StartupFacts]: the rest of [services/db.py] and the startup of [main.py].
    - [Devices]: [admin/services/devices.py], its pages and the revocation of the relay
      credentials of a device. [Dashboard]: the statistics and the progress of a
      campaign, the tiles and versions of the dashboard, the adoption curves, with the
      floating-point quotients that they show. [Edge]: the layers around every handler.

    ** What is proved
    - Serving: which cohorts, flags and features a device gets and with which
      precedence; which campaign, and exactly when an update or a rollback is
      ordered; that a staged rollout only widens; that access control is applied
      and that no secret passes through the shared cache.
    - Credentials: a revocation that ends the credentials of one device and no other;
      round trips and soundness of the telemetry, LLM, session and
      relay credentials, separation of the token scopes, rotation, and that the
      LLM proxy calls a backend only for an authenticated caller, once, without
      the caller's credentials.
    - State: the invariant of the queue and the absence of double processing
      under any interleaving, bounds of the retry delay, deduplication, the
      reconciliation of the flag catalogue, the exactness of the quota for every
      implementation of its interface, and for the runtime configuration the
      round trip of an edit and the agreement of a pod with its recorded
      generation. The loop of a pod survives every failure, and one turn without
      failure brings the pod to the current generation, with its row up to date.
    - Ingestion: an enrolment is accepted only with a verified token and a valid
      body, and a refused one leaves the tables as they were; an enrolment left to the queue
      has the effect of one handled at once (refinement); telemetry is delivered
      to the collector; every client identifier that is stored is canonical.
    - Worker: the loop refines the step relation of the queue; any run of the
      workers on a given queue does a bounded number of claims, outcomes and
      failures, and the single-pass loop returns.
    - Releases: a deployment leaves one published version and one open campaign,
      whose artifact carries the hash of the bytes stored; what was deployed or
      uploaded is what is downloaded; writes stay under the directory of the
      binaries, and a path that passes [safe_path_join] is confined to its base;
      the catalogue keeps its keys and references under any requests.
    - Administration: a form that is refused changes nothing, one that is accepted
      leaves the constraints of the schema true and an entry of the audit log under
      the administrator's name; what duplication, the purges and the creation of a
      campaign leave in the tables. A file sent in pieces is given back whole, in any
      order of the pieces; an uploaded version is published alone, with the bytes
      stored and their checksum, and the campaign that serves it; the uploads that
      check their paths write below the directory of the binaries only.
    - Login: a session is granted only to the browser that was redirected, for claims
      verified for this client and with the required group, and the provider receives
      the verifier of the challenge it was shown.
    - Outgoing requests: which addresses are public, that a suggestion makes at most
      one fetch and one call of the model and returns neutral values, that the limit of
      calls is exact in every window; that a relayed request goes once, to the
      configured upstream, without the headers of the connection.
    - Reading: the export of the journal reads back as its entries and the pages of the
      journal put together are the whole; the public list says of each plugin what its
      page says; the browser shows nothing outside its three directories, and what the
      files API lists is what it serves. The counters of the devices, the two views of
      a campaign and the adoption curves agree with the rows they are computed from.
    - Accounting: whatever the interleaving of the processes and the failures of their
      flushes, every request to a model is in the table, in memory, or counted as lost
      or as counted again; the log filter reports every line it drops.
    - Database: one application of the schema brings a database of any age to a state
      that the next one leaves alone, and the backfill of the journal changes nothing on
      its pages; a start prepares the database, its schema and its role, and never
      raises; the wait for the server ends.
    - Behaviour that differs from what the code or its comments intend, each
      stated as a theorem or an example: the cache that answers before the access
      check, jobs lost with their worker, the reload race, the rotation without
      database, the dropped switch, cohorts of a Keycloak group, versions of two
      components, deferred updates, long quota windows, the empty session secret;
      artifacts shared by the plugins of a device type, campaigns that reach the
      devices of other plugins, deployments that fail half way, withdrawn variants
      that stay downloadable, telemetry sent again, a link that defeats the
      resolution of paths, purges that delete variants of published versions, an
      access form without effect, communications that cannot be created, templates
      that are lost and answered as saved, templates of uploaded versions that are
      not stored, deployments named after an entry of their package and written
      outside the directory, pieces of an earlier upload in a later one; shared
      addresses taken for public, a rate limit that a header evades, a discovery used
      before it is rewritten, flushes that count again, platform keys that the
      migration replaces, the textual maximum of versions, hidden plugins served,
      relayed paths that leave the realm, listings that follow links, fixups that
      need a table not created yet, a password that is not quoted in a URL, devices in
      no counter, overrides of others on the page of a device, a stage of rollout that is
      always the last, an active share above a hundred percent, answers whose identifier
      is not the one of the audit lines.

    ** Fuel
    Recursion that is not structural takes fuel bounded by the input: the JSON
    reader by twice the length of the text, placeholder substitution and pattern
    compilation by the length, decimal printing by the number of bits; the round
    trip lemmas and [substitute_go_fuel] show that it is enough. The resolution of
    a path takes the length of the path and of the links not seen yet, which
    [resolve_total] shows to suffice; the worker loop takes the work left in the
    queue, which [Worker] shows to suffice for a single pass; the version pattern of
    a package takes the length of the text.

    ** Not modelled
    The list queries and HTML pages of the administration that only read and are not
    named above (lists of plugins, flags and communications, debug pages), the activity
    of a device, whose query names a column that does not exist, the probes and metrics
    ([healthz], [metrics], [ops_health_full], [services/health.py]): they show the
    state and change nothing. The metrics of Prometheus, traces, the log lines of
    [llm/audit.py], the pool of HTTP connections, the thread that waits for
    notifications, the CORS layer of the framework and the limits on the size of a body
    other than those of the handlers: no decision depends on
    them. The declarations of [settings.py] appear as fields of the models. Scripts and
    the third and fourth migrations, which create tables of their own, are left out. *)
From stdpp Require Export base gmap list strings.
From Stdlib Require Export ZArith Lia.

(** ** Scope, automation *)
Declare Scope dm_scope.
Delimit Scope dm_scope with dm.
Open Scope dm_scope.

Create HintDb dm.

(** Case analysis on the scrutinee of a [match] or [if] of the goal or of a
    hypothesis, keeping the equation. *)
Ltac case_match_goal :=
  match goal with
  | |- context [match ?x with _ => _ end] => destruct x eqn:?
  end.
Ltac case_match_hyp H :=
  match type of H with
  | context [match ?x with _ => _ end] => destruct x eqn:?
  end.

(** Splits boolean conjunctions and comparisons found in hypotheses. *)
Ltac bool_hyps :=
  repeat match goal with
  | H : (_ && _)%bool = true |- _ => apply andb_true_iff in H; destruct H
  | H : (_ || _)%bool = false |- _ => apply orb_false_iff in H; destruct H
  | H : negb _ = true |- _ => apply negb_true_iff in H
  | H : negb _ = false |- _ => apply negb_false_iff in H
  | H : bool_decide _ = true |- _ => apply bool_decide_eq_true in H
  | H : bool_decide _ = false |- _ => apply bool_decide_eq_false in H
  | H : (_ =? _)%Z = true |- _ => apply Z.eqb_eq in H
  | H : (_ =? _)%Z = false |- _ => apply Z.eqb_neq in H
  | H : (_ <? _)%Z = true |- _ => apply Z.ltb_lt in H
  | H : (_ <? _)%Z = false |- _ => apply Z.ltb_ge in H
  | H : (_ <=? _)%Z = true |- _ => apply Z.leb_le in H
  | H : (_ <=? _)%Z = false |- _ => apply Z.leb_gt in H
  end.

(** ** Results: a Python function that may raise *)
Inductive result (E A : Type) : Type :=
| Ok (a : A)
| Err (e : E).
Arguments Ok {E A} a.
Arguments Err {E A} e.

Definition rbind {E A B} (m : result E A) (f : A → result E B) : result E B :=
  match m with Ok a => f a | Err e => Err e end.

Notation "'let*' x ':=' m 'in' k" := (rbind m (λ x, k))
  (at level 10, x name, m at level 100, k at level 200) : dm_scope.

(** A loop that stops at the first exception. *)
Fixpoint mapR {E A B} (f : A → result E B) (l : list A) : result E (list B) :=
  match l with [] => Ok [] | x :: r => rbind (f x) (λ y, rbind (mapR f r) (λ ys, Ok (y :: ys))) end.
Lemma mapR_ok {E A B} (f : A → result E B) l ys : mapR f l = Ok ys ↔ Forall2 (λ x y, f x = Ok y) l ys.
Proof.
  revert ys. induction l as [|x l IH]; intros ys; cbn [mapR].
  - split; [by intros [= <-]|by inversion 1].
  - destruct (f x) as [y|e] eqn:Hx; cbn [rbind]; [|split; [done|inversion 1; congruence]].
    destruct (mapR f l) as [zs|e]; cbn [rbind].
    + split; [intros [= <-]; constructor; [done|by apply IH]|]. inversion_clear 1. rewrite Hx in H0. simplify_eq.
      f_equal. f_equal. apply IH in H1. congruence.
    + split; [done|]. inversion_clear 1. apply IH in H1. done.
Qed.
Lemma mapR_ext {E A B} (f g : A → result E B) l : (∀ x, x ∈ l → f x = g x) → mapR f l = mapR g l.
Proof.
  induction l as [|x l IH]; intros H; [done|]. cbn [mapR]. rewrite H by (by left). rewrite IH; [done|]. intros y Hy. apply H. by right.
Qed.

(** An exception whose content the program never inspects. *)
Definition exn := unit.

(** [try m except: d] *)
Definition try_or {E A} (m : result E A) (d : A) : A :=
  match m with Ok a => a | Err _ => d end.

(** An [HTTPException] or an error response: status and detail. *)
Record http_error : Type := HttpError { he_status : Z; he_detail : string }.

(** ** Tables
    A table of the database, as a query sees it: [None] stands for a query that
    raises (the table does not exist yet, the connection is lost). *)
Definition table (A : Type) : Type := option (list A).

(** [ORDER BY key DESC LIMIT 1] over rows that are stored in insertion order:
    the first row with the greatest key. *)
Fixpoint first_max {A} (key : A → Z) (l : list A) : option A :=
  match l with
  | [] => None
  | a :: r =>
      match first_max key r with
      | None => Some a
      | Some b => if (key a <? key b)%Z then Some b else Some a
      end
  end.

(** Sums of integers over a list. *)
Fixpoint zsum {A} (g : A → Z) (l : list A) : Z := match l with [] => 0%Z | x :: r => (g x + zsum g r)%Z end.
Lemma zsum_insert {A} (g : A → Z) l i x y : l !! i = Some x → zsum g (<[i := y]> l) = (zsum g l - g x + g y)%Z.
Proof.
  revert i. induction l as [|z l IH]; intros [|i]; simpl; [done|done|intros [= ->]; lia|]. intros H. rewrite (IH i H). lia.
Qed.
Lemma zsum_app {A} (g : A → Z) l l' : zsum g (l ++ l') = (zsum g l + zsum g l')%Z.
Proof. induction l as [|x l IH]; [done|]. cbn [zsum app]. lia. Qed.

(** ** Dictionaries
    A Python [dict] with string keys: an association list in insertion order,
    assignment replaces in place or appends. *)
Section dict.
Context {A : Type}.
Implicit Types (d : list (string * A)) (k : string).

Fixpoint dget k d : option A :=
  match d with
  | [] => None
  | (k', v) :: r => if decide (k = k') then Some v else dget k r
  end.

Fixpoint dset k (v : A) d : list (string * A) :=
  match d with
  | [] => [(k, v)]
  | (k', v') :: r => if decide (k = k') then (k', v) :: r else (k', v') :: dset k v r
  end.

Fixpoint dpop k d : list (string * A) :=
  match d with
  | [] => []
  | (k', v) :: r => if decide (k = k') then dpop k r else (k', v) :: dpop k r
  end.

Fixpoint dupdate d d' : list (string * A) :=
  match d' with
  | [] => d
  | (k, v) :: r => dupdate (dset k v d) r
  end.

Definition dkeys d : list string := d.*1.

(** A dict has each key once. *)
Definition dict_wf d : Prop := NoDup (dkeys d).

Lemma dget_dset_eq k v d : dget k (dset k v d) = Some v.
Proof.
  induction d as [|[k' v'] d IH]; simpl; repeat (case_decide; simpl); congruence.
Qed.

Lemma dget_dset_ne k k' v d : k ≠ k' → dget k (dset k' v d) = dget k d.
Proof.
  intros Hne. induction d as [|[k1 v1] d IH]; simpl; repeat (case_decide; simpl); congruence.
Qed.

Lemma dget_dset k k' v d :
  dget k (dset k' v d) = if decide (k = k') then Some v else dget k d.
Proof. case_decide; subst; auto using dget_dset_eq, dget_dset_ne. Qed.

Lemma dget_dpop_ne k k' d : k ≠ k' → dget k (dpop k' d) = dget k d.
Proof.
  intros Hne. induction d as [|[k1 v1] d IH]; simpl; repeat (case_decide; simpl); congruence.
Qed.

Lemma dget_dpop_eq k d : dget k (dpop k d) = None.
Proof. induction d as [|[k1 v1] d IH]; simpl; repeat (case_decide; simpl); congruence. Qed.

Lemma dget_None k d : dget k d = None ↔ k ∉ dkeys d.
Proof.
  induction d as [|[k1 v1] d IH]; simpl; [set_solver|].
  case_decide; subst; set_solver.
Qed.

Lemma dget_Some_elem k v d : dget k d = Some v → (k, v) ∈ d.
Proof.
  induction d as [|[k1 v1] d IH]; simpl; [done|].
  case_decide; simplify_eq; set_solver.
Qed.

Lemma elem_of_dset k v k' v' d : (k, v) ∈ dset k' v' d → k = k' ∧ v = v' ∨ (k, v) ∈ d.
Proof.
  induction d as [|[k1 v1] d IH]; simpl.
  - intros Hin%list_elem_of_singleton. simplify_eq. by left.
  - case_decide; intros [Heq|Hin]%elem_of_cons; simplify_eq; [by left|right; by right|right; by left|].
    destruct (IH Hin) as [|]; [by left|right; by right].
Qed.

Lemma dget_elem_wf k v d : dict_wf d → (k, v) ∈ d → dget k d = Some v.
Proof.
  unfold dict_wf. induction d as [|[k1 v1] d IH]; simpl; [set_solver|].
  rewrite NoDup_cons. intros [Hn Hd] [?|?]%elem_of_cons; simplify_eq.
  - by rewrite decide_True.
  - rewrite decide_False; [by apply IH|].
    intros ->. apply Hn. apply list_elem_of_fmap. by exists (k1, v).
Qed.

Lemma dupdate_dget k d d' :
  dict_wf d' →
  dget k (dupdate d d') = match dget k d' with Some v => Some v | None => dget k d end.
Proof.
  unfold dict_wf. revert d. induction d' as [|[k1 v1] d' IH]; intros d; simpl; [done|].
  rewrite NoDup_cons. intros [Hn Hd]. rewrite (IH _ Hd), dget_dset.
  case_decide; subst; [|by destruct (dget k d')].
  assert (dget k1 d' = None) as -> by (by apply dget_None). done.
Qed.

Lemma dkeys_dset k v d :
  dkeys (dset k v d) = if decide (k ∈ dkeys d) then dkeys d else dkeys d ++ [k].
Proof.
  induction d as [|[k1 v1] d IH]; [done|]. simpl dset.
  destruct (decide (k = k1)) as [->|Hne].
  - rewrite decide_True by (simpl; set_solver). done.
  - simpl. rewrite IH. repeat case_decide; simpl in *; set_solver.
Qed.

Lemma dset_wf k v d : dict_wf d → dict_wf (dset k v d).
Proof.
  unfold dict_wf. intros Hd. rewrite dkeys_dset. case_decide; [done|].
  apply NoDup_app; split; [done|]. split; [set_solver|]. apply NoDup_singleton.
Qed.

Lemma dupdate_wf d d' : dict_wf d → dict_wf (dupdate d d').
Proof. revert d. induction d' as [|[k v] d' IH]; simpl; auto using dset_wf. Qed.

Lemma dpop_wf k d : dict_wf d → dict_wf (dpop k d).
Proof.
  unfold dict_wf. induction d as [|[k1 v1] d IH]; simpl; [done|].
  rewrite NoDup_cons. intros [Hn Hd]. case_decide; [auto|]. simpl.
  rewrite NoDup_cons. split; [|auto]. intros Hin. apply Hn.
  clear -Hin. induction d as [|[k2 v2] d IH]; simpl in *; [set_solver|].
  case_decide; set_solver.
Qed.
End dict.

#[export] Hint Resolve dset_wf dupdate_wf dpop_wf dget_dset_eq : dm.
Create Rewrite HintDb dm_rw.
#[export] Hint Rewrite @dget_dset_eq @dget_dpop_eq : dm_rw.

(** ** Lists *)
Section list_facts.
Context {A : Type}.
Implicit Types (l : list A).

Lemma first_max_Some (key : A → Z) l a :
  first_max key l = Some a → a ∈ l ∧ ∀ b, b ∈ l → (key b ≤ key a)%Z.
Proof.
  revert a. induction l as [|x l IH]; simpl; [done|]. intros a.
  destruct (first_max key l) as [b|] eqn:E.
  - destruct (IH b eq_refl) as [Hb Hmax].
    destruct (key x <? key b)%Z eqn:Hc; intros ?; simplify_eq; bool_hyps;
      (split; [set_solver|]); intros c [->|Hc']%elem_of_cons; try lia; auto.
    specialize (Hmax c Hc'). lia.
  - intros ?; simplify_eq. destruct l; [|simpl in E; repeat case_match; done].
    split; [set_solver|]. intros b [->|?]%elem_of_cons; [lia|set_solver].
Qed.

Lemma forallb_true_elem (p : A → bool) l : forallb p l = true ↔ ∀ x, x ∈ l → p x = true.
Proof. rewrite forallb_forall. by setoid_rewrite list_elem_of_In. Qed.

Lemma forallb_false_elem (p : A → bool) l : forallb p l = false ↔ ∃ x, x ∈ l ∧ p x = false.
Proof.
  induction l as [|y l IH]; simpl; [set_solver|]. rewrite andb_false_iff, IH. set_solver.
Qed.

Lemma NoDup_key {B} (f : A → B) l x y : NoDup (f <$> l) → x ∈ l → y ∈ l → f x = f y → x = y.
Proof.
  intros Hn Hx Hy Hf. apply list_elem_of_lookup in Hx as [i Hx]. apply list_elem_of_lookup in Hy as [j Hy].
  assert (i = j) as ->; [|congruence].
  eapply NoDup_lookup; [exact Hn|by rewrite list_lookup_fmap, Hx|by rewrite list_lookup_fmap, Hy, Hf].
Qed.

Lemma find_app (p : A → bool) l1 l2 :
  find p (l1 ++ l2) = match find p l1 with Some x => Some x | None => find p l2 end.
Proof. induction l1 as [|x l1 IH]; simpl; [done|]. by destruct (p x). Qed.

Lemma filter_none (P : A → Prop) `{!∀ x, Decision (P x)} l : (∀ x, x ∈ l → ¬ P x) → filter P l = [].
Proof.
  induction l as [|y l IH]; intros Hn; [done|]. rewrite filter_cons, decide_False by (apply Hn; set_solver).
  apply IH. set_solver.
Qed.

Lemma first_max_None (key : A → Z) l : first_max key l = None ↔ l = [].
Proof. destruct l; simpl; [done|]. repeat case_match; naive_solver. Qed.
End list_facts.
