(* ===== verification/Text.v ===== *)
(** * Python text
    What the program uses of Python's [str], [bytes] and [int]: a [str] is a
    Rocq [string] read as the sequence of its code points, which covers the code
    points below 256; [bytes] is a [string] read as the sequence of its bytes. *)
From S2P Require Import Prelude.
From Stdlib Require Import Ascii String.
Open Scope Z_scope.

(** ** Characters *)
Definition code (c : ascii) : Z := Z.of_N (N_of_ascii c).
Definition chr (z : Z) : ascii := ascii_of_N (Z.to_N z).

Definition py_isspace (c : ascii) : bool :=
  let n := code c in
  ((9 <=? n) && (n <=? 13)) || ((28 <=? n) && (n <=? 32)) || (n =? 133) || (n =? 160).

Definition digit_val (c : ascii) : option Z :=
  let n := code c in if (48 <=? n) && (n <=? 57) then Some (n - 48) else None.

Definition is_digit (c : ascii) : bool := match digit_val c with Some _ => true | None => false end.

Definition lower_char (c : ascii) : ascii :=
  let n := code c in
  if ((65 <=? n) && (n <=? 90)) || ((192 <=? n) && (n <=? 222) && negb (n =? 215))
  then chr (n + 32) else c.

(** [round] of the fraction [n / d], to the even one of two. *)
Definition half_even (n d : Z) : Z :=
  let q := n / d in let r := n mod d in
  if 2 * r <? d then q else if d <? 2 * r then q + 1 else if Z.even q then q else q + 1.

(** ** str methods *)
Fixpoint smap (f : ascii → ascii) (s : string) : string :=
  match s with "" => "" | String c r => String (f c) (smap f r) end.
Fixpoint sforall (p : ascii → bool) (s : string) : bool :=
  match s with "" => true | String c r => p c && sforall p r end.

Definition lower (s : string) : string := smap lower_char s.

Fixpoint lstrip_by (p : ascii → bool) (s : string) : string :=
  match s with
  | "" => ""
  | String c r => if p c then lstrip_by p r else s
  end.
Fixpoint rstrip_by (p : ascii → bool) (s : string) : string :=
  match s with
  | "" => ""
  | String c r =>
      match rstrip_by p r with
      | "" => if p c then "" else String c ""
      | r' => String c r'
      end
  end.
Definition strip (s : string) : string := rstrip_by py_isspace (lstrip_by py_isspace s).
Definition is_char (c : ascii) : ascii → bool := λ c', bool_decide (c' = c).
Definition rstrip_char (c : ascii) (s : string) : string := rstrip_by (is_char c) s.
Definition lstrip_char (c : ascii) (s : string) : string := lstrip_by (is_char c) s.

(** [bool(s)] *)
Definition truthy_str (s : string) : bool := match s with "" => false | _ => true end.
(** [a or b] on strings *)
Definition str_or (a b : string) : string := if truthy_str a then a else b.

Definition starts_with (p s : string) : bool := String.prefix p s.
Fixpoint sdrop (n : nat) (s : string) : string :=
  match n, s with
  | O, _ => s
  | S _, "" => ""
  | S m, String _ r => sdrop m r
  end.
Fixpoint stake (n : nat) (s : string) : string :=
  match n, s with
  | O, _ => ""
  | S _, "" => ""
  | S m, String c r => String c (stake m r)
  end.
Fixpoint srev_app (s acc : string) : string :=
  match s with "" => acc | String c r => srev_app r (String c acc) end.
Definition srev (s : string) : string := srev_app s "".
Definition ends_with (p s : string) : bool := starts_with (srev p) (srev s).
(** [p in s] *)
Fixpoint contains (p s : string) : bool :=
  starts_with p s || match s with "" => false | String _ r => contains p r end.

(** [s.split(c)] for a one-character separator: never empty. *)
Fixpoint split_on (c : ascii) (s : string) : list string :=
  match s with
  | "" => [""]
  | String a r =>
      if decide (a = c) then "" :: split_on c r
      else match split_on c r with
           | [] => [String a ""]
           | w :: ws => String a w :: ws
           end
  end.
(** [s.split(c, 1)] when the separator occurs. *)
Fixpoint split_once (c : ascii) (s : string) : option (string * string) :=
  match s with
  | "" => None
  | String a r =>
      if decide (a = c) then Some ("", r)
      else match split_once c r with
           | None => None
           | Some (l, t) => Some (String a l, t)
           end
  end.
Fixpoint sjoin (sep : string) (l : list string) : string :=
  match l with
  | [] => ""
  | [w] => w
  | w :: ws => w +:+ sep +:+ sjoin sep ws
  end.
(** [os.path.basename] *)
Definition basename (s : string) : string := List.last (split_on "/" s) "".

(** [s.isdigit()]: the superscripts two, three and one count as digits. *)
Definition py_isdigit (s : string) : bool :=
  truthy_str s && sforall (λ c, is_digit c || (code c =? 178) || (code c =? 179) || (code c =? 185)) s.

(** Byte-wise lexicographic order, the order [sorted] uses on [str]. *)
Definition str_ltb (a b : string) : bool := String.ltb a b.
Fixpoint insert_str (x : string) (l : list string) : list string :=
  match l with [] => [x] | y :: r => if str_ltb y x then y :: insert_str x r else x :: l end.
(** [sorted(l)] of strings *)
Definition py_sorted (l : list string) : list string := foldr insert_str [] l.

(** ** int and str of an int *)
Fixpoint digits_go (acc : Z) (prev : bool) (s : string) : option Z :=
  match s with
  | "" => if prev then Some acc else None
  | String c r =>
      match digit_val c with
      | Some d => digits_go (acc * 10 + d) true r
      | None => if is_char "_" c && prev then digits_go acc false r else None
      end
  end.
(** [int(s)]: surrounding whitespace, a sign, digits with single underscores. *)
Definition py_int (s : string) : option Z :=
  match strip s with
  | String "-" r => Z.opp <$> digits_go 0 false r
  | String "+" r => digits_go 0 false r
  | t => digits_go 0 false t
  end.

Definition digit_char (d : Z) : ascii := chr (48 + d).
Fixpoint dec_go (fuel : nat) (z : Z) (acc : string) : string :=
  match fuel with
  | O => acc
  | S f => if z <? 10 then String (digit_char z) acc
           else dec_go f (z / 10) (String (digit_char (z mod 10)) acc)
  end.
Definition dec_fuel (z : Z) : nat := S (Z.to_nat (Z.log2 z)).
(** [str(z)] *)
Definition py_str_int (z : Z) : string :=
  if z <? 0 then String "-" (dec_go (dec_fuel (- z)) (- z) "")
  else dec_go (dec_fuel z) z "".

(** ** Hexadecimal *)
Definition hex_digit (d : Z) : ascii := if d <? 10 then chr (48 + d) else chr (87 + d).
Definition hex_val (c : ascii) : option Z :=
  let n := code c in
  if (48 <=? n) && (n <=? 57) then Some (n - 48)
  else if (97 <=? n) && (n <=? 102) then Some (n - 87)
  else if (65 <=? n) && (n <=? 70) then Some (n - 55)
  else None.

(** ** Encodings: [s.encode("utf-8")] for code points below 256, and back *)
Fixpoint utf8_encode (s : string) : string :=
  match s with
  | "" => ""
  | String c r =>
      if code c <? 128 then String c (utf8_encode r)
      else String (chr (192 + code c / 64)) (String (chr (128 + code c mod 64)) (utf8_encode r))
  end.
Definition is_ascii (s : string) : bool := sforall (λ c, code c <? 128) s.
(** [b.decode("utf-8")]; [None] when it raises or leaves the modelled range. *)
Fixpoint utf8_decode (s : string) : option string :=
  match s with
  | "" => Some ""
  | String c r =>
      if code c <? 128 then String c <$> utf8_decode r
      else match r with
           | String d r' =>
               if ((code c =? 194) || (code c =? 195)) && (128 <=? code d) && (code d <? 192)
               then String (chr ((code c - 192) * 64 + (code d - 128))) <$> utf8_decode r'
               else None
           | "" => None
           end
  end.

(** ** Characters: facts *)
Lemma code_range c : 0 ≤ code c < 256.
Proof.
  unfold code. pose proof (N_ascii_bounded c). lia.
Qed.

Lemma code_chr z : 0 ≤ z < 256 → code (chr z) = z.
Proof. intros H. unfold code, chr. rewrite N_ascii_embedding by lia. lia. Qed.

Lemma chr_code c : chr (code c) = c.
Proof. unfold code, chr. rewrite N2Z.id. apply ascii_N_embedding. Qed.

Lemma code_inj c c' : code c = code c' → c = c'.
Proof. intros H. rewrite <- (chr_code c), <- (chr_code c'). congruence. Qed.

Lemma digit_val_digit_char d : 0 ≤ d < 10 → digit_val (digit_char d) = Some d.
Proof.
  intros H. unfold digit_val, digit_char. rewrite code_chr by lia.
  replace (48 + d - 48) with d by lia.
  replace ((48 <=? 48 + d) && (48 + d <=? 57)) with true; [done|].
  symmetry. rewrite andb_true_iff, !Z.leb_le. lia.
Qed.

(** ** Strings: facts *)
Lemma sapp_nil_l s : "" +:+ s = s.
Proof. done. Qed.
Lemma sapp_cons c s t : String c s +:+ t = String c (s +:+ t).
Proof. done. Qed.
Lemma sapp_nil_r s : s +:+ "" = s.
Proof. induction s as [|c s IH]; [done|]. by rewrite sapp_cons, IH. Qed.
Lemma sapp_assoc s t u : (s +:+ t) +:+ u = s +:+ (t +:+ u).
Proof. induction s as [|c s IH]; [done|]. by rewrite !sapp_cons, IH. Qed.

Create Rewrite HintDb text_rw.
#[export] Hint Rewrite sapp_nil_l sapp_cons sapp_nil_r sapp_assoc : text_rw.

Lemma slen_app s t : String.length (s +:+ t) = (String.length s + String.length t)%nat.
Proof. induction s as [|c s IH]; [done|]. rewrite sapp_cons. simpl. by rewrite IH. Qed.
Lemma stake_app s t : stake (String.length s) (s +:+ t) = s.
Proof. induction s as [|c s IH]; [by destruct t|]. rewrite sapp_cons. simpl. by rewrite IH. Qed.
Lemma sdrop_app s t : sdrop (String.length s) (s +:+ t) = t.
Proof. induction s as [|c s IH]; [by destruct t|]. rewrite sapp_cons. exact IH. Qed.
Lemma truthy_str_true s : truthy_str s = true ↔ s ≠ "".
Proof. by destruct s. Qed.
Lemma truthy_str_false s : truthy_str s = false ↔ s = "".
Proof. by destruct s. Qed.

Lemma sforall_app p s t : sforall p (s +:+ t) = sforall p s && sforall p t.
Proof.
  induction s as [|c s IH]; [done|]. rewrite sapp_cons. simpl. rewrite IH.
  by rewrite andb_assoc.
Qed.

Lemma sforall_impl (p q : ascii → bool) s :
  (∀ c, p c = true → q c = true) → sforall p s = true → sforall q s = true.
Proof. intros Hpq. induction s as [|c s IH]; simpl; [done|]. intros. bool_hyps. by rewrite Hpq, IH. Qed.

Lemma split_on_none c s : sforall (λ a, negb (is_char c a)) s = true → split_on c s = [s].
Proof.
  unfold is_char. induction s as [|a s IH]; simpl; intros H; [done|]. bool_hyps. rewrite IH by done. by rewrite decide_False.
Qed.
Lemma split_on_app c s t : sforall (λ a, negb (is_char c a)) s = true → split_on c (s +:+ String c t) = s :: split_on c t.
Proof.
  unfold is_char. induction s as [|a s IH]; simpl; intros H.
  - by rewrite decide_True.
  - bool_hyps. rewrite decide_False by done. by rewrite IH.
Qed.

Lemma split_once_app c s t :
  sforall (λ a, negb (is_char c a)) s = true →
  split_once c (s +:+ String c t) = Some (s, t).
Proof.
  unfold is_char. induction s as [|a s IH]; simpl; intros H.
  - by rewrite decide_True.
  - bool_hyps. rewrite decide_False by done. by rewrite IH.
Qed.

Lemma split_once_Some c s l t : split_once c s = Some (l, t) → s = l +:+ String c t.
Proof.
  revert l t. induction s as [|a s IH]; simpl; [done|]. intros l t.
  case_decide; subst.
  - intros [= <- <-]. by rewrite sapp_nil_l.
  - destruct (split_once c s) as [[l' t']|] eqn:E; [|done].
    intros [= <- <-]. rewrite (IH _ _ eq_refl). by rewrite sapp_cons.
Qed.

Lemma starts_with_app p s : starts_with p (p +:+ s) = true.
Proof.
  unfold starts_with. induction p as [|c p IH]; [by destruct s|].
  rewrite sapp_cons. simpl. destruct (ascii_dec c c); [apply IH|done].
Qed.

Lemma starts_with_true p s : starts_with p s = true → ∃ r, s = p +:+ r.
Proof.
  unfold starts_with. revert s. induction p as [|c p IH]; intros s; simpl.
  - intros _. by exists s.
  - destruct s as [|a s]; [done|]. simpl. destruct (ascii_dec c a) as [<-|]; [|done].
    intros [r ->]%IH. exists r. by rewrite sapp_cons.
Qed.
Lemma starts_with_char c a s : starts_with (String c "") (String a s) = is_char c a.
Proof.
  unfold is_char. case_bool_decide as Ha; [subst; exact (starts_with_app (String c "") s)|].
  destruct (starts_with _ _) eqn:E; [|done]. apply starts_with_true in E as [r Hr]. rewrite sapp_cons in Hr. congruence.
Qed.

Lemma utf8_encode_ascii s : is_ascii s = true → utf8_encode s = s.
Proof.
  unfold is_ascii. induction s as [|c s IH]; simpl; [done|]. intros H. bool_hyps.
  case_match; bool_hyps; [by rewrite IH|lia].
Qed.

Lemma utf8_decode_encode s : utf8_decode (utf8_encode s) = Some s.
Proof.
  induction s as [|c s IH]; [done|]. simpl utf8_encode.
  pose proof (code_range c) as Hr.
  destruct (code c <? 128) eqn:E; bool_hyps.
  - simpl. rewrite (proj2 (Z.ltb_lt _ _)) by lia. by rewrite IH.
  - assert (Hd : code c / 64 = 2 ∨ code c / 64 = 3).
    { assert (2 ≤ code c / 64 < 4); [|lia].
      split; [apply Z.div_le_lower_bound|apply Z.div_lt_upper_bound]; lia. }
    assert (Hm : 0 ≤ code c mod 64 < 64) by (apply Z.mod_pos_bound; lia).
    simpl. rewrite !code_chr by lia.
    rewrite (proj2 (Z.ltb_ge _ _)) by lia.
    replace (((192 + code c / 64 =? 194) || (192 + code c / 64 =? 195)) &&
             (128 <=? 128 + code c mod 64) && (128 + code c mod 64 <? 192)) with true.
    2: { symmetry. rewrite !andb_true_iff, orb_true_iff, !Z.eqb_eq, Z.leb_le, Z.ltb_lt. lia. }
    rewrite IH. simpl. do 2 f_equal. rewrite <- (chr_code c) at 3. f_equal.
    pose proof (Z.div_mod (code c) 64). lia.
Qed.

(** ** [int(str(z)) = z] *)
Lemma dec_go_acc fuel z acc :
  dec_go fuel z acc = dec_go fuel z "" +:+ acc.
Proof.
  revert z acc. induction fuel as [|f IH]; intros z acc; [done|]. simpl.
  case_match; [done|]. rewrite IH. rewrite (IH _ (String _ "")).
  by rewrite sapp_assoc.
Qed.

Lemma digits_go_app a b acc s t :
  digits_go acc b s = Some a → s ≠ "" →
  sforall is_digit s = true →
  digits_go acc b (s +:+ t) = digits_go a true t.
Proof.
  revert acc b. induction s as [|c s IH]; [done|]. intros acc b H _ Hd.
  simpl in Hd. bool_hyps. rewrite sapp_cons. simpl in *. unfold is_digit in *.
  destruct (digit_val c) as [d|]; [|done].
  destruct s as [|c' s]; [|by apply IH].
  simpl in *. rewrite sapp_nil_l. congruence.
Qed.

Lemma dec_fuel_step z : 10 ≤ z → ∃ f, dec_fuel z = S f ∧ (dec_fuel (z / 10) ≤ f)%nat.
Proof.
  intros Hz. unfold dec_fuel. eexists; split; [done|].
  assert (Z.log2 (z / 10) < Z.log2 z).
  { apply Z.log2_lt_pow2; [apply Z.div_str_pos; lia|].
    apply Z.div_lt_upper_bound; [lia|].
    pose proof (Z.log2_spec z ltac:(lia)) as [_ H]. rewrite Z.pow_succ_r in H by apply Z.log2_nonneg.
    assert (0 < 2 ^ Z.log2 z) by (apply Z.pow_pos_nonneg; [lia|apply Z.log2_nonneg]). lia. }
  pose proof (Z.log2_nonneg (z / 10)). lia.
Qed.

Lemma dec_go_spec fuel z :
  0 ≤ z → (dec_fuel z ≤ fuel)%nat →
  sforall is_digit (dec_go fuel z "") = true ∧ dec_go fuel z "" ≠ "" ∧
  digits_go 0 false (dec_go fuel z "") = Some z.
Proof.
  revert z. induction fuel as [|f IH]; intros z Hz Hf; [unfold dec_fuel in Hf; lia|].
  simpl. destruct (z <? 10) eqn:E; bool_hyps.
  - simpl. unfold is_digit. rewrite !digit_val_digit_char by lia. simpl.
    split; [done|]. split; [done|]. f_equal; lia.
  - destruct (dec_fuel_step z ltac:(lia)) as (f' & Hf' & Hle).
    assert (Hq : 0 ≤ z / 10) by (apply Z.div_pos; lia).
    assert (Hm : 0 ≤ z mod 10 < 10) by (apply Z.mod_pos_bound; lia).
    destruct (IH (z / 10) Hq ltac:(lia)) as (Hd & Hne & Hgo).
    rewrite dec_go_acc. split; [|split].
    + rewrite sforall_app, Hd. simpl. unfold is_digit. by rewrite digit_val_digit_char.
    + by destruct (dec_go f (z / 10) "").
    + erewrite digits_go_app by done. simpl. rewrite digit_val_digit_char by done.
      f_equal. pose proof (Z.div_mod z 10). lia.
Qed.

Lemma is_digit_not_space c : is_digit c = true → py_isspace c = false.
Proof.
  unfold is_digit, digit_val, py_isspace. case_match; [|done]. intros _.
  destruct ((48 <=? code c) && (code c <=? 57)) eqn:E; [|done]. bool_hyps.
  rewrite !orb_false_iff, !andb_false_iff, !Z.leb_gt, !Z.eqb_neq. lia.
Qed.

Lemma lstrip_by_head p c s : p c = false → lstrip_by p (String c s) = String c s.
Proof. simpl. by intros ->. Qed.

Lemma rstrip_by_none p s : sforall (λ c, negb (p c)) s = true → rstrip_by p s = s.
Proof.
  induction s as [|c s IH]; simpl; [done|]. intros H. bool_hyps.
  rewrite IH by done. destruct s; [by rewrite H|done].
Qed.

Lemma lstrip_by_none p s : sforall (λ c, negb (p c)) s = true → lstrip_by p s = s.
Proof. destruct s as [|c s]; simpl; [done|]. intros [H%negb_true_iff _]%andb_true_iff. by rewrite H. Qed.
Lemma strip_no_space s : sforall (λ c, negb (py_isspace c)) s = true → strip s = s.
Proof.
  intros H. unfold strip. replace (lstrip_by py_isspace s) with s.
  - by apply rstrip_by_none.
  - destruct s; [done|]. simpl in H. bool_hyps. by rewrite lstrip_by_head.
Qed.

Lemma py_int_str_int z : py_int (py_str_int z) = Some z.
Proof.
  unfold py_str_int. destruct (z <? 0) eqn:E; bool_hyps.
  - destruct (dec_go_spec (dec_fuel (-z)) (-z) ltac:(lia) ltac:(lia)) as (Hd & Hne & Hgo).
    generalize dependent (dec_go (dec_fuel (-z)) (-z) ""). intros t Hd Hne Hgo.
    unfold py_int. rewrite strip_no_space.
    + rewrite Hgo. simpl. f_equal. lia.
    + simpl. eapply sforall_impl; [|exact Hd]. intros c Hc. by rewrite is_digit_not_space.
  - destruct (dec_go_spec (dec_fuel z) z ltac:(lia) ltac:(lia)) as (Hd & Hne & Hgo).
    unfold py_int. rewrite strip_no_space.
    + destruct (dec_go (dec_fuel z) z "") as [|c s] eqn:Es; [done|].
      simpl in Hd. bool_hyps. destruct (decide (c = "-"%char)) as [->|]; [done|].
      destruct (decide (c = "+"%char)) as [->|]; [done|].
      rewrite <- Hgo. clear -n n0. destruct c as [[] [] [] [] [] [] [] []]; done.
    + eapply sforall_impl; [|exact Hd]. intros c Hc. by rewrite is_digit_not_space.
Qed.

(** [strip] and [lower] reach a fixed point at once. *)
Lemma lstrip_by_idem p s : lstrip_by p (lstrip_by p s) = lstrip_by p s.
Proof. induction s as [|c s IH]; simpl; [done|]. destruct (p c) eqn:E; [done|]. simpl. by rewrite E. Qed.

Lemma rstrip_by_idem p s : rstrip_by p (rstrip_by p s) = rstrip_by p s.
Proof.
  induction s as [|c s IH]; simpl; [done|].
  destruct (rstrip_by p s) as [|d r] eqn:E.
  - destruct (p c) eqn:Ec; simpl; by rewrite ?Ec.
  - simpl in *. by rewrite IH.
Qed.

Lemma rstrip_by_head p c s : p c = false → ∃ r, rstrip_by p (String c s) = String c r.
Proof. intros H. simpl. rewrite H. destruct (rstrip_by p s); eauto. Qed.

Lemma lstrip_by_cases p s : lstrip_by p s = "" ∨ ∃ c r, lstrip_by p s = String c r ∧ p c = false.
Proof. induction s as [|c s IH]; simpl; [auto|]. destruct (p c) eqn:E; [done|]. right; eauto. Qed.

Lemma strip_idem s : strip (strip s) = strip s.
Proof.
  unfold strip. destruct (lstrip_by_cases py_isspace s) as [->|(c & r & -> & Hc)]; [done|].
  destruct (rstrip_by_head py_isspace c r Hc) as [r' Hr].
  rewrite <- (rstrip_by_idem _ (String c r)) at 2. f_equal. rewrite Hr. by apply lstrip_by_head.
Qed.

#[export] Hint Resolve code_range strip_idem : dm.

(** ** Sorting *)
Lemma insert_str_perm x l : insert_str x l ≡ₚ x :: l.
Proof. induction l as [|y l IH]; simpl; [done|]. case_match; [|done]. rewrite IH. by constructor. Qed.
Lemma py_sorted_perm l : py_sorted l ≡ₚ l.
Proof. induction l as [|x l IH]; simpl; [done|]. by rewrite insert_str_perm, IH. Qed.
Lemma elem_of_py_sorted x l : x ∈ py_sorted l ↔ x ∈ l.
Proof. by rewrite py_sorted_perm. Qed.
