(* ===== verification/Paths.v ===== *)
(** * Safe paths
    [app/pathsafe.py], through which every path built from a user's value goes,
    and what it uses of [os.path] (Python 3.12): [realpath] with its cache of the
    links seen, [join], [normpath], [basename]. The file system is the finite map
    of its symbolic links, from physical paths (lists of components) to the text
    of their target; the working directory is a physical path. *)
From S2P Require Import Prelude Text.
From Stdlib Require Import Ascii String.
Open Scope Z_scope.


(** ** [os.path] *)
Module OsPath.
Definition isabs (s : string) : bool := starts_with "/" s.
Definition tail_str (cs : list string) : string := foldr (λ c s, String "/" (c +:+ s)) "" cs.
(** The absolute path of these components. *)
Definition path_str (cs : list string) : string := match cs with [] => "/" | _ => tail_str cs end.
Definition join (a b : string) : string :=
  if isabs b then b
  else if negb (truthy_str a) || ends_with "/" a then a +:+ b else a +:+ String "/" b.

Definition norm_step (acc : list string) (c : string) : list string :=
  if decide (c = "" ∨ c = ".") then acc
  else if decide (c = "..") then removelast acc else acc ++ [c].
(** [normpath] of an absolute path: exactly two leading slashes are kept. *)
Definition normpath (s : string) : string :=
  let p := path_str (foldl norm_step [] (split_on "/" s)) in
  if starts_with "//" s && negb (starts_with "///" s) then String "/" p else p.

(** The result of the resolution: a physical path, or, from the link that leads
    back to itself on, the text that is left as it is. *)
Inductive resolution : Type := Done (p : list string) | Looped (raw : string).

Section realpath.
Variable fs : gmap (list string) string.

(** [rest]: the components still to be resolved; [None]: out of fuel. *)
Fixpoint _joinrealpath (fuel : nat) (path rest : list string) (seen : gmap (list string) (option (list string))) : option (resolution * gmap (list string) (option (list string))) :=
  match fuel with
  | O => None
  | S n =>
      match rest with
      | [] => Some (Done path, seen)
      | name :: rest' =>
          if decide (name = "" ∨ name = ".") then _joinrealpath n path rest' seen
          else if decide (name = "..") then _joinrealpath n (removelast path) rest' seen
          else
            let newpath := path ++ [name] in
            match fs !! newpath with
            | None => _joinrealpath n newpath rest' seen
            | Some target =>
                match seen !! newpath with
                | Some (Some p) => _joinrealpath n p rest' seen
                | Some None => Some (Looped (join (path_str newpath) (sjoin "/" rest')), seen)
                | None =>
                    match _joinrealpath n (if isabs target then [] else path) (split_on "/" target)
                            (<[newpath := None]> seen) with
                    | None => None
                    | Some (Looped raw, seen') => Some (Looped (join raw (sjoin "/" rest')), seen')
                    | Some (Done p, seen') => _joinrealpath n p rest' (<[newpath := Some p]> seen')
                    end
                end
            end
      end
  end.

(** What the links that are not seen yet can still add. *)
Definition unseen (seen : gmap (list string) (option (list string))) : gmap (list string) string := filter (λ kt, seen !! kt.1 = None) fs.
Definition weight (m : gmap (list string) string) : nat := map_fold (λ _ t n, S (List.length (split_on "/" t)) + n)%nat O m.
Definition real_fuel (rest : list string) : nat := S (List.length rest + weight fs).
Definition resolve (cwd : list string) (filename : string) : option (resolution * gmap (list string) (option (list string))) :=
  let rest := split_on "/" filename in
  _joinrealpath (real_fuel rest) (if isabs filename then [] else cwd) rest ∅.

Definition realpath (cwd : list string) (filename : string) : string :=
  match resolve cwd filename with
  | Some (Done p, _) => path_str p
  | Some (Looped raw, _) => normpath raw
  | None => filename
  end.
End realpath.
End OsPath.
Import OsPath.

(** ** [app/pathsafe.py] *)
Definition safe_path_join (fs : gmap (list string) string) (cwd : list string) (base_dir relative_path : string) : result http_error string :=
  let base_abs := realpath fs cwd base_dir in
  let candidate := realpath fs cwd (join base_abs (lstrip_char "/" relative_path)) in
  if bool_decide (candidate = base_abs) || starts_with (base_abs +:+ "/") candidate then Ok candidate
  else Err (HttpError 400 "Invalid path").

Definition is_alnum (c : ascii) : bool :=
  let n := code c in ((48 <=? n) && (n <=? 57)) || ((65 <=? n) && (n <=? 90)) || ((97 <=? n) && (n <=? 122)).
(** [_SAFE_SEGMENT.fullmatch] *)
Definition _SAFE_SEGMENT (s : string) : bool :=
  match s with
  | "" => false
  | String c r => is_alnum c && sforall (λ a, is_alnum a || is_char "." a || is_char "_" a || is_char "+" a || is_char "-" a) r
  end.
Definition safe_segment (value field : string) : result http_error string :=
  let v := basename value in
  if _SAFE_SEGMENT v then Ok v else Err (HttpError 400 ("invalid " +:+ field)).

(** ** Termination *)
Section termination.
Variable fs : gmap (list string) string.

Lemma weight_delete m k t : m !! k = Some t → weight m = (S (List.length (split_on "/" t)) + weight (delete k m))%nat.
Proof.
  intros Hk. unfold weight. rewrite <- (map_fold_delete_L (λ _ t n, S (List.length (split_on "/" t)) + n)%nat O k t m); [done| |done].
  intros. lia.
Qed.

Lemma weight_subseteq m m' : m ⊆ m' → (weight m ≤ weight m')%nat.
Proof.
  revert m'. induction m as [|k t m Hk IH] using map_ind; intros m' Hm; [change (weight ∅) with O; lia|].
  assert (Hk' : m' !! k = Some t) by (eapply lookup_weaken; [apply lookup_insert_eq|done]).
  rewrite (weight_delete m' k t Hk'), (weight_delete (<[k:=t]> m) k t) by apply lookup_insert_eq.
  rewrite delete_insert_id by done. specialize (IH (delete k m')). enough (m ⊆ delete k m') by (specialize (IH H); lia).
  apply map_subseteq_spec. intros i x Hi. rewrite lookup_delete_ne by congruence.
  eapply lookup_weaken; [|done]. rewrite lookup_insert_ne; congruence.
Qed.

Lemma unseen_insert seen k v : unseen fs (<[k := v]> seen) = delete k (unseen fs seen).
Proof.
  apply map_eq. intros i. unfold unseen. destruct (decide (i = k)) as [->|Hne].
  - rewrite lookup_delete_eq. apply map_lookup_filter_None. right. intros x _. simpl. by rewrite lookup_insert_eq.
  - rewrite lookup_delete_ne by done. apply option_eq. intros x. rewrite !map_lookup_filter_Some. simpl.
    by rewrite lookup_insert_ne by done.
Qed.

(** The links seen stay seen. *)
Lemma unseen_mono seen seen' : (∀ k, is_Some (seen !! k) → is_Some (seen' !! k)) → unseen fs seen' ⊆ unseen fs seen.
Proof.
  intros H. apply map_subseteq_spec. intros k x. unfold unseen. rewrite !map_lookup_filter_Some. simpl. intros [Hx Hs].
  split; [done|]. destruct (seen !! k) eqn:E; [|done]. destruct (H k); [done|congruence].
Qed.

Lemma seen_grows fuel path rest seen r seen' :
  _joinrealpath fs fuel path rest seen = Some (r, seen') → ∀ k, is_Some (seen !! k) → is_Some (seen' !! k).
Proof.
  revert path rest seen r seen'. induction fuel as [|n IH]; intros path rest seen r seen'; [done|]. simpl.
  destruct rest as [|name rest]; [by intros [= <- <-]|]. repeat case_decide; [by apply IH..|].
  destruct (fs !! _) as [t|] eqn:Et; [|by apply IH].
  destruct (seen !! _) as [[p|]|] eqn:Es; [by apply IH|by intros [= <- <-]|].
  destruct (_joinrealpath fs n _ _ _) as [[[p|raw] s1]|] eqn:E1; [|intros [= <- <-] k Hk|done].
  - intros H1 k Hk. eapply IH; [exact H1|]. destruct (decide (k = path ++ [name])) as [->|Hne];
      [by rewrite lookup_insert_eq|rewrite lookup_insert_ne by done].
    eapply IH; [exact E1|]. rewrite lookup_insert_ne by done. done.
  - eapply IH; [exact E1|]. destruct (decide (k = path ++ [name])) as [->|Hne];
      [by rewrite lookup_insert_eq|by rewrite lookup_insert_ne].
Qed.

Lemma joinrealpath_total fuel path rest seen :
  (List.length rest + weight (unseen fs seen) < fuel)%nat → is_Some (_joinrealpath fs fuel path rest seen).
Proof.
  revert path rest seen. induction fuel as [|n IH]; intros path rest seen Hf; [lia|]. simpl.
  destruct rest as [|name rest]; [by eexists|]. simpl in Hf. repeat case_decide; [apply IH; lia..|].
  destruct (fs !! _) as [t|] eqn:Et; [|apply IH; lia].
  destruct (seen !! _) as [[p|]|] eqn:Es; [apply IH; lia|by eexists|].
  assert (Hu : unseen fs seen !! (path ++ [name]) = Some t) by (by apply map_lookup_filter_Some).
  rewrite (weight_delete _ _ _ Hu) in Hf.
  destruct (IH (if isabs t then [] else path) (split_on "/" t) (<[path ++ [name] := None]> seen)) as [[r s1] Hr].
  { rewrite unseen_insert. lia. }
  rewrite Hr. destruct r as [p|raw]; [|by eexists]. apply IH.
  assert (weight (unseen fs (<[path ++ [name] := Some p]> s1)) ≤ weight (delete (path ++ [name]) (unseen fs seen)))%nat; [|lia].
  rewrite <- (unseen_insert seen _ None). apply weight_subseteq, unseen_mono. intros k Hk.
  destruct (decide (k = path ++ [name])) as [->|Hne]; [by rewrite lookup_insert_eq|rewrite lookup_insert_ne by done].
  by eapply seen_grows.
Qed.

(** Whatever links the file system has, loops included, the resolution ends. *)
Lemma resolve_total cwd filename : is_Some (resolve fs cwd filename).
Proof.
  apply joinrealpath_total. unfold real_fuel. pose proof (weight_subseteq (unseen fs ∅) fs (map_filter_subseteq _ _)). lia.
Qed.
End termination.

(** ** Confinement *)
Definition no_slash (c : string) : bool := sforall (λ a, negb (is_char "/" a)) c.
(** A component of a resolved path. *)
Definition comp_ok (c : string) : Prop := c ≠ "" ∧ c ≠ "." ∧ c ≠ ".." ∧ no_slash c = true.

Lemma split_on_no_slash s : Forall (λ c, no_slash c = true) (split_on "/" s).
Proof.
  induction s as [|a s IH]; simpl; [by repeat constructor|]. case_decide as Ha; [by constructor|].
  destruct (split_on "/" s) as [|w ws]; [|inversion_clear IH as [|?? Hw Hws]]; constructor; try done.
  - unfold no_slash. simpl. unfold is_char. by rewrite bool_decide_eq_false_2.
  - unfold no_slash in *. simpl. unfold is_char at 1. by rewrite bool_decide_eq_false_2.
Qed.

Lemma Forall_removelast {A} (P : A → Prop) l : Forall P l → Forall P (removelast l).
Proof. induction 1 as [|x l Hx Hl IH]; simpl; [constructor|]. destruct l; [constructor|]. by constructor. Qed.
Lemma removelast_prefix {A} (l : list A) : removelast l `prefix_of` l.
Proof.
  induction l as [|x l IH]; [done|]. simpl. destruct l; [apply prefix_nil|]. by apply prefix_cons.
Qed.

Lemma norm_step_ok acc c : no_slash c = true → Forall comp_ok acc → Forall comp_ok (norm_step acc c).
Proof.
  intros Hc Ha. unfold norm_step. case_decide as Hd; [done|]. case_decide; [by apply Forall_removelast|].
  apply Forall_app. split; [done|]. repeat constructor; tauto.
Qed.
Lemma norm_ok s : Forall comp_ok (foldl norm_step [] (split_on "/" s)).
Proof.
  enough (∀ l acc, Forall (λ c, no_slash c = true) l → Forall comp_ok acc → Forall comp_ok (foldl norm_step acc l)) as H
    by (apply H; [apply split_on_no_slash|constructor]).
  induction l as [|c l IH]; intros acc Hl Ha; [done|]. inversion_clear Hl. apply IH; [done|]. by apply norm_step_ok.
Qed.

(** No link on the way to the path, nor at its end. *)
Definition link_free (fs : gmap (list string) string) (cs : list string) : Prop :=
  ∀ p, p `prefix_of` cs → p ≠ [] → fs !! p = None.
Definition physical (fs : gmap (list string) string) (cs : list string) : Prop := Forall comp_ok cs ∧ link_free fs cs.

Lemma physical_nil fs : physical fs [].
Proof. split; [constructor|]. by intros p ->%prefix_nil_inv. Qed.
Lemma physical_pop fs cs : physical fs cs → physical fs (removelast cs).
Proof.
  intros [Hc Hl]. split; [by apply Forall_removelast|]. intros p Hp. apply Hl. etrans; [exact Hp|apply removelast_prefix].
Qed.
Lemma physical_snoc fs cs c : physical fs cs → comp_ok c → fs !! (cs ++ [c]) = None → physical fs (cs ++ [c]).
Proof.
  intros [Hc Hl] Hok Hn. split; [apply Forall_app; split; [done|by apply Forall_singleton]|].
  intros p [k Hk] Hne. destruct k as [|x k _] using rev_ind.
  - rewrite app_nil_r in Hk. by rewrite <- Hk.
  - rewrite app_assoc in Hk. apply app_inj_tail in Hk as [Hk _]. apply Hl; [by exists k|done].
Qed.
#[local] Hint Resolve physical_nil physical_pop physical_snoc : dm.

(** Every resolved path is physical, the cached ones included. *)
Definition cache_ok (fs : gmap (list string) string) (seen : gmap (list string) (option (list string))) : Prop :=
  ∀ k p, seen !! k = Some (Some p) → physical fs p.
Lemma cache_ok_insert fs seen k v : cache_ok fs seen → (∀ p, v = Some p → physical fs p) → cache_ok fs (<[k := v]> seen).
Proof. intros Hs Hv k' p [[_ H]|[_ H]]%lookup_insert_Some; eauto. Qed.

Lemma joinrealpath_physical fs fuel path rest seen r seen' :
  _joinrealpath fs fuel path rest seen = Some (r, seen') →
  physical fs path → Forall (λ c, no_slash c = true) rest → cache_ok fs seen →
  cache_ok fs seen' ∧ match r with Done p => physical fs p | Looped _ => True end.
Proof.
  revert path rest seen r seen'. induction fuel as [|n IH]; intros path rest seen r seen'; [done|]. simpl.
  destruct rest as [|name rest]; [by intros [= <- <-]|]. intros H Hp Hr Hs. inversion_clear Hr as [|?? Hn Hr'].
  repeat case_decide; [by eapply IH|by eapply IH; eauto with dm|].
  assert (Hok : comp_ok name) by (split_and!; tauto).
  destruct (fs !! _) as [t|] eqn:Et; [|by eapply IH; eauto with dm].
  destruct (seen !! _) as [[p|]|] eqn:Es; [by eapply IH; eauto|by injection H as <- <-|].
  destruct (_joinrealpath fs n _ _ _) as [[[p|raw] s1]|] eqn:E1; [| |done].
  - eapply IH in E1 as [Hs1 Hp1]; [|by case_match; auto with dm|apply split_on_no_slash|by apply cache_ok_insert].
    eapply IH; [exact H|done|done|]. apply cache_ok_insert; [done|]. by intros ? [= <-].
  - injection H as <- <-. eapply IH in E1 as [Hs1 _];
      [done|by case_match; auto with dm|apply split_on_no_slash|by apply cache_ok_insert].
Qed.

(** The components of a path that [realpath] returns. *)
Definition canonical (s : string) (cs : list string) : Prop :=
  Forall comp_ok cs ∧ (s = path_str cs ∨ s = String "/" (path_str cs)).

Lemma realpath_canonical fs cwd filename : physical fs cwd →
  ∃ cs, canonical (realpath fs cwd filename) cs ∧
    ((∃ raw seen, resolve fs cwd filename = Some (Looped raw, seen)) ∨ realpath fs cwd filename = path_str cs ∧ link_free fs cs).
Proof.
  intros Hcwd. unfold realpath. destruct (resolve_total fs cwd filename) as [[r seen] Hr]. rewrite Hr. destruct r as [p|raw].
  - eapply joinrealpath_physical in Hr as [_ [Hok Hl]];
      [|by case_match; auto with dm|apply split_on_no_slash|by intros k p' H%lookup_empty_Some].
    exists p. split; [split; [done|by left]|by right].
  - exists (foldl norm_step [] (split_on "/" raw)). split; [|left; by eexists _, _].
    split; [apply norm_ok|]. unfold normpath. case_match; [by right|by left].
Qed.

(** A path that starts with a base and a slash has the components of the base. *)
Lemma app_slash_inj b c s t :
  no_slash b = true → no_slash c = true → b +:+ String "/" s = c +:+ String "/" t → b = c ∧ s = t.
Proof.
  revert c. induction b as [|x b IH]; intros [|y c] Hb Hc; unfold no_slash in *; simpl in *; intros H;
    simplify_eq; bool_hyps; try done. destruct (IH c) as [-> ->]; auto.
Qed.
Lemma tail_str_slash cs s : ∃ t, tail_str cs +:+ String "/" s = String "/" t.
Proof. destruct cs; simpl; eauto. Qed.

Lemma tail_str_prefix bs cs s :
  Forall comp_ok bs → Forall comp_ok cs → tail_str cs = tail_str bs +:+ String "/" s → bs `prefix_of` cs.
Proof.
  revert cs s. induction bs as [|b bs IH]; intros cs s Hb Hc H; [apply prefix_nil|].
  destruct cs as [|c cs]; [done|]. apply Forall_cons in Hb as [(_ & _ & _ & Hb1) Hb]. apply Forall_cons in Hc as [(_ & _ & _ & Hc1) Hc].
  simpl in H. injection H as H. rewrite sapp_assoc in H. destruct (tail_str_slash bs s) as [t Ht].
  rewrite Ht in H. destruct cs as [|c' cs].
  { exfalso. simpl in H. rewrite sapp_nil_r in H. subst c. unfold no_slash in Hc1.
    rewrite sforall_app in Hc1. simpl in Hc1. by rewrite andb_false_r in Hc1. }
  simpl in H. apply app_slash_inj in H as [-> H]; [|done..]. apply prefix_cons.
  apply (IH (c' :: cs) s); [done..|]. simpl. by rewrite Ht, H.
Qed.

Lemma comp_ok_head c : comp_ok c → ∃ a r, c = String a r ∧ a ≠ "/"%char.
Proof. intros (Hc & _ & _ & Hn). destruct c as [|a c]; [done|]. exists a, c. split; [done|]. by intros ->. Qed.

Lemma starts_with_base b p bs cs :
  canonical b bs → canonical p cs → starts_with (b +:+ "/") p = true → bs `prefix_of` cs.
Proof.
  intros [Hb Hbs] [Hc Hp] (s & Hs)%starts_with_true. rewrite sapp_assoc in Hs. simpl in Hs.
  destruct bs as [|b1 bs]; [apply prefix_nil|]. pose proof Hb as [Hb1 _]%Forall_cons.
  apply comp_ok_head in Hb1 as (x & b1' & -> & Hx). destruct cs as [|c1 cs].
  { simpl in *. destruct Hbs as [->| ->], Hp as [->| ->]; rewrite ?sapp_cons in Hs; congruence. }
  pose proof Hc as [Hc1 _]%Forall_cons. apply comp_ok_head in Hc1 as (y & c1' & -> & Hy).
  apply (tail_str_prefix _ _ s Hb Hc). simpl in *. destruct Hbs as [->| ->], Hp as [->| ->]; autorewrite with text_rw in *; congruence.
Qed.

Lemma tail_str_inj bs cs :
  Forall comp_ok bs → Forall comp_ok cs → tail_str bs +:+ "/" = tail_str cs +:+ "/" → bs = cs.
Proof.
  revert cs. induction bs as [|b bs IH]; intros [|c cs] Hb Hc H; [done|..].
  - apply Forall_cons in Hc as [(a & r & -> & _)%comp_ok_head _]. simpl in H. autorewrite with text_rw in H. congruence.
  - apply Forall_cons in Hb as [(a & r & -> & _)%comp_ok_head _]. simpl in H. autorewrite with text_rw in H. congruence.
  - apply Forall_cons in Hb as [(_ & _ & _ & Hb1) Hb]. apply Forall_cons in Hc as [(_ & _ & _ & Hc1) Hc].
    simpl in H. rewrite !sapp_cons in H. injection H as H. rewrite !sapp_assoc in H.
    destruct (tail_str_slash bs "") as [t Ht], (tail_str_slash cs "") as [u Hu]. rewrite Ht, Hu in H.
    apply app_slash_inj in H as [-> ->]; [|done..]. f_equal. apply IH; congruence.
Qed.

Lemma canonical_inj p bs cs : canonical p bs → canonical p cs → bs = cs.
Proof.
  intros [Hb Hbs] [Hc Hcs]. destruct bs as [|b bs], cs as [|c cs]; [done|..].
  - apply Forall_cons in Hc as [(a & r & -> & Ha)%comp_ok_head _]. simpl in *. autorewrite with text_rw in *. naive_solver congruence.
  - apply Forall_cons in Hb as [(a & r & -> & Ha)%comp_ok_head _]. simpl in *. autorewrite with text_rw in *. naive_solver congruence.
  - pose proof Hb as [(a & r & -> & Ha)%comp_ok_head _]%Forall_cons. pose proof Hc as [(a' & r' & -> & Ha')%comp_ok_head _]%Forall_cons.
    apply tail_str_inj; [done..|]. f_equal. simpl in *. autorewrite with text_rw in *. destruct Hbs as [->| ->], Hcs; congruence.
Qed.

(** C14. Whatever the user's value, absolute, with parent segments or through
    symbolic links, the path that [safe_path_join] returns has the components
    of the resolved base in front, and none of them is empty, [.] or [..]; and
    unless the resolution ran into a link that leads back to itself, no symbolic
    link is left on the way, so what is opened lies under the base. *)
Theorem safe_path_confined fs cwd base_dir relative_path p :
  physical fs cwd → safe_path_join fs cwd base_dir relative_path = Ok p →
  ∃ bs cs, canonical (realpath fs cwd base_dir) bs ∧ canonical p cs ∧ bs `prefix_of` cs ∧
    ((∃ raw seen, resolve fs cwd (join (realpath fs cwd base_dir) (lstrip_char "/" relative_path)) = Some (Looped raw, seen)) ∨
     p = path_str cs ∧ link_free fs cs).
Proof.
  intros Hcwd. unfold safe_path_join.
  destruct (realpath_canonical fs cwd base_dir Hcwd) as (bs & Hb & _).
  set (cand := join _ _). destruct (realpath_canonical fs cwd cand Hcwd) as (cs & Hc & Hl).
  case_match eqn:E; [|done]. intros [= <-]. exists bs, cs. split_and!; [done..| |done].
  apply orb_true_iff in E as [E|E]; [|by eapply starts_with_base].
  bool_hyps. rewrite E in Hc.
  by rewrite (canonical_inj _ bs cs Hb Hc).
Qed.

(** ** Plain paths *)
Lemma path_str_isabs cs : isabs (path_str cs) = true.
Proof. destruct cs as [|c cs]; [reflexivity|]. exact (starts_with_app "/" (c +:+ tail_str cs)). Qed.
Lemma split_on_last c : no_slash c = true → split_on "/" c = [c].
Proof. exact (split_on_none "/" c). Qed.
Lemma split_on_cons c s : no_slash c = true → split_on "/" (c +:+ String "/" s) = c :: split_on "/" s.
Proof. exact (split_on_app "/" c s). Qed.
Lemma split_tail_str c cs : Forall comp_ok (c :: cs) → split_on "/" (c +:+ tail_str cs) = c :: cs.
Proof.
  revert c. induction cs as [|d cs IH]; intros c [(_ & _ & _ & Hc) H]%Forall_cons; simpl.
  - rewrite sapp_nil_r. by apply split_on_last.
  - rewrite split_on_cons by done. by rewrite IH.
Qed.
Lemma split_path_str cs : Forall comp_ok cs → ∃ k, split_on "/" (path_str cs) = "" :: cs ++ k ∧ (k = [] ∨ k = [""]).
Proof.
  intros H. destruct cs as [|c cs]; [exists [""]; auto|]. exists []. simpl. rewrite split_tail_str by done.
  rewrite app_nil_r. auto.
Qed.

(** Components without links are appended as they are. *)
Lemma joinrealpath_plain fs fuel path rest seen k :
  Forall comp_ok rest → link_free fs (path ++ rest) → k = [] ∨ k = [""] →
  (List.length rest + List.length k < fuel)%nat →
  _joinrealpath fs fuel path (rest ++ k) seen = Some (Done (path ++ rest), seen).
Proof.
  intros Hok Hl Hk. revert path rest Hok Hl. induction fuel as [|n IH]; intros path rest Hok Hl Hf; [lia|].
  destruct rest as [|c rest]; simpl in *.
  - rewrite app_nil_r. destruct Hk as [->| ->]; simpl in *; [done|]. destruct n; [lia|done].
  - apply Forall_cons in Hok as [(H1 & H2 & H3 & _) Hok]. rewrite !decide_False by tauto.
    rewrite (Hl (path ++ [c])); [|apply prefix_app; by exists rest|by destruct path].
    replace (path ++ c :: rest) with ((path ++ [c]) ++ rest) in * by (by rewrite <- app_assoc).
    apply IH; [done|done|lia].
Qed.

Lemma realpath_plain fs cwd s cs k :
  isabs s = true → split_on "/" s = "" :: cs ++ k → physical fs cs → k = [] ∨ k = [""] →
  realpath fs cwd s = path_str cs.
Proof.
  intros Hp Hs [Hok Hl] Hk. unfold realpath, resolve, real_fuel. rewrite Hp, Hs. cbn [_joinrealpath].
  rewrite decide_True by auto. rewrite joinrealpath_plain; [done..|]. simpl. rewrite length_app. lia.
Qed.

(** Resolving a physical path changes nothing: [realpath] is idempotent. *)
Lemma realpath_physical fs cwd cs : physical fs cs → realpath fs cwd (path_str cs) = path_str cs.
Proof.
  intros [Hok Hl]. destruct (split_path_str cs Hok) as (k & Hk & Hk').
  apply (realpath_plain fs cwd _ cs k); [apply path_str_isabs|done..].
Qed.

Lemma path_str_app bs rs : bs ≠ [] → path_str (bs ++ rs) = path_str bs +:+ tail_str rs.
Proof.
  intros Hb. enough (tail_str (bs ++ rs) = tail_str bs +:+ tail_str rs) by (by destruct bs).
  clear Hb. induction bs as [|b bs IH]; simpl; [done|]. by rewrite IH, sapp_cons, sapp_assoc.
Qed.
Lemma sjoin_tail r rs : sjoin "/" (r :: rs) = r +:+ tail_str rs.
Proof.
  revert r. induction rs as [|r' rs IH]; intros r; [simpl; by rewrite sapp_nil_r|].
  transitivity (r +:+ "/" +:+ sjoin "/" (r' :: rs)); [done|]. by rewrite IH.
Qed.

Lemma starts_slash_false a s : a ≠ "/"%char → starts_with "/" (String a s) = false.
Proof. intros Ha. rewrite starts_with_char. by apply bool_decide_eq_false. Qed.
Lemma srev_app_app s t acc : srev_app (s +:+ t) acc = srev_app t (srev_app s acc).
Proof. revert acc. induction s as [|a s IH]; intros acc; simpl; [done|]. by rewrite <- IH. Qed.
Lemma no_slash_last c : c ≠ "" → no_slash c = true → ∃ s z, c = s +:+ String z "" ∧ z ≠ "/"%char.
Proof.
  unfold no_slash. induction c as [|a c IH]; [done|]. intros _ [Ha Hc]%andb_true_iff. destruct c as [|b c].
  - exists "", a. split; [done|]. by intros ->.
  - destruct (IH ltac:(done) Hc) as (s & z & -> & Hz). by exists (String a s), z.
Qed.
Lemma path_str_no_slash_end bs : bs ≠ [] → Forall comp_ok bs → ends_with "/" (path_str bs) = false.
Proof.
  intros Hne Hok. destruct bs as [|c bs _] using rev_ind; [done|]. apply Forall_app in Hok as [_ [(Hc & _ & _ & Hn) _]%Forall_cons].
  destruct (no_slash_last c Hc Hn) as (s & z & -> & Hz).
  assert (Hs : ∃ p, path_str (bs ++ [s +:+ String z ""]) = p +:+ String z "").
  { destruct bs as [|b bs]; [exists (String "/" s)|exists (path_str (b :: bs) +:+ String "/" s); rewrite path_str_app by done];
      simpl; rewrite ?sapp_nil_r, ?sapp_cons, ?sapp_assoc; done. }
  destruct Hs as [p ->]. unfold ends_with, srev. rewrite srev_app_app. by apply starts_slash_false.
Qed.
Lemma join_rel p q : p ≠ "" → ends_with "/" p = false → isabs q = false → join p q = p +:+ String "/" q.
Proof. intros Hp He Hq. unfold join. rewrite Hq, He. apply truthy_str_true in Hp. by rewrite Hp. Qed.

(** A value made of plain components, with no link on the way, is joined to the
    base as it is. *)
Lemma safe_path_join_plain fs cwd base_dir bs rs :
  realpath fs cwd base_dir = path_str bs → bs ≠ [] → rs ≠ [] → physical fs (bs ++ rs) →
  safe_path_join fs cwd base_dir (sjoin "/" rs) = Ok (path_str (bs ++ rs)).
Proof.
  intros Hb Hbs Hrs Hp. unfold safe_path_join. rewrite Hb. destruct rs as [|r rs]; [done|].
  destruct Hp as [Hok Hl]. pose proof Hok as [_ [(a & r' & -> & Ha)%comp_ok_head _]%Forall_cons]%Forall_app.
  assert (Hcand : join (path_str bs) (lstrip_char "/" (sjoin "/" (String a r' :: rs))) = path_str (bs ++ String a r' :: rs)).
  { rewrite sjoin_tail, path_str_app by done. unfold lstrip_char. rewrite sapp_cons, lstrip_by_head
      by (unfold is_char; by apply bool_decide_eq_false).
    rewrite join_rel; [done|by destruct bs| |].
    { apply path_str_no_slash_end; [done|]. by apply Forall_app in Hok as [? _]. }
    by apply starts_slash_false. }
  rewrite Hcand, realpath_physical by done. rewrite (path_str_app bs) by done.
  replace (starts_with _ _) with true; [by rewrite orb_true_r|]. symmetry. simpl.
  transitivity (starts_with (path_str bs +:+ "/") ((path_str bs +:+ "/") +:+ String a (r' +:+ tail_str rs))); [|apply starts_with_app].
  by rewrite sapp_assoc.
Qed.

(** ** Segments *)
Lemma safe_segment_ok value field v : safe_segment value field = Ok v → comp_ok v.
Proof.
  unfold safe_segment. case_match eqn:E; [|done]. intros [= <-]. destruct (basename value) as [|c r]; [done|].
  simpl in E. apply andb_true_iff in E as [Hc Hr].
  assert (Hd : c ≠ "."%char ∧ c ≠ "/"%char) by (split; intros ->; done).
  split_and!; [done|naive_solver|naive_solver|]. unfold no_slash. simpl.
  replace (negb (is_char "/" c)) with true by (unfold is_char; rewrite bool_decide_eq_false_2; naive_solver).
  eapply sforall_impl; [|exact Hr]. intros a Ha. destruct (is_char "/" a) eqn:E; [|done].
  unfold is_char in E. bool_hyps. by subst.
Qed.

(** Two validated segments, stored as [dir/version_file], stay two components. *)
Lemma comp_ok_app v w : comp_ok v → comp_ok w → comp_ok (v +:+ String "_" w).
Proof.
  intros (Hv & _ & _ & Nv) (_ & _ & _ & Nw). unfold comp_ok, no_slash in *. destruct v as [|a v]; [done|].
  rewrite sapp_cons. split_and!; [done|destruct v; done| |].
  - intros [= -> H]. destruct v as [|b v]; [done|]. rewrite sapp_cons in H. injection H as -> H. by destruct v.
  - change (String a (v +:+ String "_" w)) with (String a v +:+ String "_" w). rewrite sforall_app, Nv. simpl. exact Nw.
Qed.

(** ** A link that leads back to itself
    Once the resolution meets such a link it leaves the rest as it is: the path
    returned stays under the base as a text, and goes out through another link. *)
Definition loop_fs : gmap (list string) string := {[ ["b"; "loop"] := "loop"; ["b"; "out"] := "/etc" ]}.
Example loop_defeats_resolution :
  safe_path_join loop_fs [] "/b" "out/passwd" = Err (HttpError 400 "Invalid path") ∧
  safe_path_join loop_fs [] "/b" "loop/../out/passwd" = Ok "/b/out/passwd".
Proof. split; vm_compute; reflexivity. Qed.

Definition store_fs : gmap (list string) string := {[ ["data"; "current"] := "content/binaries"; ["tmp"] := "/data" ]}.
Lemma safe_path_confined_witness : ∃ bs cs,
  safe_path_join store_fs [] "/data/current" "//../binaries/xpi/./1.0_a.xpi" = Ok "/data/content/binaries/xpi/1.0_a.xpi" ∧
  canonical "/data/content/binaries/xpi/1.0_a.xpi" cs ∧ bs `prefix_of` cs.
Proof.
  assert (H : safe_path_join store_fs [] "/data/current" "//../binaries/xpi/./1.0_a.xpi" = Ok "/data/content/binaries/xpi/1.0_a.xpi")
    by (vm_compute; reflexivity).
  destruct (safe_path_confined _ _ _ _ _ (physical_nil _) H) as (bs & cs & _ & Hc & Hp & _). exists bs, cs. auto.
Defined.
