(* ===== verification/Json.v ===== *)
(** * JSON values
    The values that [json.loads] returns and [json.dumps] prints, Python's truth
    value and [str] of them, and the round trip of the two functions. JSON
    numbers with a fraction or an exponent (Python floats) are outside the
    modelled fragment. *)
From S2P Require Import Prelude Text.
From Stdlib Require Import Ascii String.
Open Scope Z_scope.

#[warnings="-register-all"]
Inductive json : Type :=
| JNull
| JBool (b : bool)
| JInt (z : Z)
| JStr (s : string)
| JArr (l : list json)
| JObj (d : list (string * json)).

(** [bool(v)] *)
Definition truthy (v : json) : bool :=
  match v with
  | JNull => false
  | JBool b => b
  | JInt z => negb (z =? 0)
  | JStr s => truthy_str s
  | JArr l => match l with [] => false | _ => true end
  | JObj d => match d with [] => false | _ => true end
  end.

(** [a or b] *)
Definition jor (a b : json) : json := if truthy a then a else b.
(** [d.get(k)] and [d.get(k, dflt)] *)
Definition jget (k : string) (d : list (string * json)) : json :=
  match dget k d with Some v => v | None => JNull end.
Definition jget_or (k : string) (d : list (string * json)) (dflt : json) : json :=
  match dget k d with Some v => v | None => dflt end.
(** [v if isinstance(v, dict) else None] *)
Definition as_dict (v : json) : option (list (string * json)) :=
  match v with JObj d => Some d | _ => None end.

(** ** [str(v)] *)
Definition squote : ascii := "'".
Definition dquote : ascii := "034".
Definition hex2 (n : Z) : string := String (hex_digit (n / 16)) (String (hex_digit (n mod 16)) "").
Definition has_char (c : ascii) (s : string) : bool := negb (sforall (λ a, negb (is_char c a)) s).
(** [JSONB] refuses the character NUL. *)
Fixpoint has_nul (v : json) : bool :=
  match v with
  | JStr s => has_char "000" s
  | JArr l => existsb has_nul l
  | JObj d => existsb (λ kv, has_char "000" kv.1 || has_nul kv.2) d
  | _ => false
  end.

Definition repr_char (q c : ascii) : string :=
  let n := code c in
  if is_char q c || is_char "\" c then String "\" (String c "")
  else if n =? 10 then "\n" else if n =? 13 then "\r" else if n =? 9 then "\t"
  else if (n <? 32) || ((127 <=? n) && (n <=? 160)) || (n =? 173) then "\x" +:+ hex2 n
  else String c "".
Fixpoint sflat (f : ascii → string) (s : string) : string :=
  match s with "" => "" | String c r => f c +:+ sflat f r end.
(** [repr(s)] of a string *)
Definition repr_str (s : string) : string :=
  let q := if has_char squote s && negb (has_char dquote s) then dquote else squote in
  String q (sflat (repr_char q) s +:+ String q "").

Fixpoint py_repr (v : json) : string :=
  match v with
  | JNull => "None"
  | JBool true => "True"
  | JBool false => "False"
  | JInt z => py_str_int z
  | JStr s => repr_str s
  | JArr l => "[" +:+ sjoin ", " (py_repr <$> l) +:+ "]"
  | JObj d => "{" +:+ sjoin ", " ((λ kv, repr_str kv.1 +:+ ": " +:+ py_repr kv.2) <$> d) +:+ "}"
  end.
Definition py_str (v : json) : string := match v with JStr s => s | _ => py_repr v end.
(** [str(v or "")] *)
Definition str_or_empty (v : json) : string := if truthy v then py_str v else "".

(** [int(v)] of a JSON value *)
Definition py_int_json (v : json) : result exn Z :=
  match v with
  | JInt z => Ok z
  | JBool b => Ok (if b then 1 else 0)
  | JStr s => match py_int s with Some z => Ok z | None => Err tt end
  | _ => Err tt
  end.

(** ** [json.dumps] with [ensure_ascii] (the default) *)
Definition esc_char (c : ascii) : string :=
  let n := code c in
  if n =? 34 then String "\" (String dquote "")
  else if n =? 92 then "\\"
  else if n =? 10 then "\n" else if n =? 13 then "\r" else if n =? 9 then "\t"
  else if n =? 8 then "\b" else if n =? 12 then "\f"
  else if (32 <=? n) && (n <=? 126) then String c ""
  else "\u00" +:+ hex2 n.
Definition dumps_str (s : string) : string := String dquote (sflat esc_char s +:+ String dquote "").

Section dumps.
Variables isep ksep : string.
Fixpoint dumps_with (v : json) : string :=
  match v with
  | JNull => "null"
  | JBool true => "true"
  | JBool false => "false"
  | JInt z => py_str_int z
  | JStr s => dumps_str s
  | JArr l => "[" +:+ sjoin isep (dumps_with <$> l) +:+ "]"
  | JObj d => "{" +:+ sjoin isep ((λ kv, dumps_str kv.1 +:+ ksep +:+ dumps_with kv.2) <$> d) +:+ "}"
  end.
End dumps.
(** [json.dumps(v)] and [json.dumps(v, separators=(",", ":"))] *)
Definition dumps : json → string := dumps_with ", " ": ".
Definition dumps_compact : json → string := dumps_with "," ":".

(** [sort_keys=True] *)
Fixpoint insert_key (kv : string * json) (d : list (string * json)) : list (string * json) :=
  match d with
  | [] => [kv]
  | x :: r => if String.leb kv.1 x.1 then kv :: d else x :: insert_key kv r
  end.
Definition sort_keys_dict (d : list (string * json)) : list (string * json) := foldr insert_key [] d.
Fixpoint sort_keys (v : json) : json :=
  match v with
  | JArr l => JArr (sort_keys <$> l)
  | JObj d => JObj (sort_keys_dict ((λ kv, (kv.1, sort_keys kv.2)) <$> d))
  | _ => v
  end.

(** ** [json.loads] *)
Definition is_ws (c : ascii) : bool :=
  let n := code c in (n =? 32) || (n =? 9) || (n =? 10) || (n =? 13).
Definition skip_ws (s : string) : string := lstrip_by is_ws s.

Fixpoint pstr (s : string) : option (string * string) :=
  match s with
  | "" => None
  | String c r =>
      if is_char dquote c then Some ("", r)
      else if is_char "\" c then
        match r with
        | String "u" (String a (String b (String x (String y r')))) =>
            match hex_val a, hex_val b, hex_val x, hex_val y with
            | Some va, Some vb, Some vx, Some vy =>
                let n := ((va * 16 + vb) * 16 + vx) * 16 + vy in
                if n <? 256 then
                  match pstr r' with Some (t, q) => Some (String (chr n) t, q) | None => None end
                else None
            | _, _, _, _ => None
            end
        | String e r' =>
            let n := code e in
            let put z := match pstr r' with Some (t, q) => Some (String (chr z) t, q) | None => None end in
            if (n =? 34) || (n =? 92) || (n =? 47) then put n
            else if n =? 98 then put 8 else if n =? 102 then put 12
            else if n =? 110 then put 10 else if n =? 114 then put 13
            else if n =? 116 then put 9 else None
        | "" => None
        end
      else if code c <? 32 then None
      else match pstr r with Some (t, q) => Some (String c t, q) | None => None end
  end.

Fixpoint span_digits (s : string) : string * string :=
  match s with
  | String c r => if is_digit c then let '(ds, q) := span_digits r in (String c ds, q) else ("", s)
  | "" => ("", "")
  end.
Definition float_follows (s : string) : bool :=
  match s with String c _ => is_char "." c || is_char "e" c || is_char "E" c | "" => false end.
Definition pnat (s : string) : option (Z * string) :=
  match s with
  | String "0" r => if float_follows r then None else Some (0, r)
  | _ => let '(ds, r) := span_digits s in
         if float_follows r then None
         else match digits_go 0 false ds with Some z => Some (z, r) | None => None end
  end.
Definition pnum (s : string) : option (json * string) :=
  match s with
  | String "-" r => match pnat r with Some (z, q) => Some (JInt (- z), q) | None => None end
  | _ => match pnat s with Some (z, q) => Some (JInt z, q) | None => None end
  end.

Fixpoint pval (n : nat) (s : string) : option (json * string) :=
  match n with
  | O => None
  | S m =>
      let s := skip_ws s in
      match s with
      | "" => None
      | String c r =>
          if is_char dquote c then match pstr r with Some (t, q) => Some (JStr t, q) | None => None end
          else if is_char "[" c then
            match skip_ws r with String "]" q => Some (JArr [], q) | _ => parr m r [] end
          else if is_char "{" c then
            match skip_ws r with String "}" q => Some (JObj [], q) | _ => pobj m r [] end
          else if starts_with "null" s then Some (JNull, sdrop 4 s)
          else if starts_with "true" s then Some (JBool true, sdrop 4 s)
          else if starts_with "false" s then Some (JBool false, sdrop 5 s)
          else pnum s
      end
  end
with parr (n : nat) (s : string) (acc : list json) : option (json * string) :=
  match n with
  | O => None
  | S m =>
      match pval m s with
      | None => None
      | Some (v, r) =>
          match skip_ws r with
          | String "," q => parr m q (v :: acc)
          | String "]" q => Some (JArr (rev (v :: acc)), q)
          | _ => None
          end
      end
  end
with pobj (n : nat) (s : string) (acc : list (string * json)) : option (json * string) :=
  match n with
  | O => None
  | S m =>
      match skip_ws s with
      | String c r =>
          if is_char dquote c then
            match pstr r with
            | None => None
            | Some (k, r1) =>
                match skip_ws r1 with
                | String ":" r2 =>
                    match pval m r2 with
                    | None => None
                    | Some (v, r3) =>
                        let acc' := dset k v acc in
                        match skip_ws r3 with
                        | String "," q => pobj m q acc'
                        | String "}" q => Some (JObj acc', q)
                        | _ => None
                        end
                    end
                | _ => None
                end
            end
          else None
      | "" => None
      end
  end.

(** [json.loads(s)]; [None] when it raises. The recursion of the parser descends
    at most twice per character, so twice the length is enough fuel. *)
Definition loads (s : string) : option json :=
  match pval (S (2 * String.length s)) s with
  | Some (v, r) => match skip_ws r with "" => Some v | _ => None end
  | None => None
  end.

(** ** Induction and size *)
Section json_induction.
Variable P : json → Prop.
Hypothesis Hnull : P JNull.
Hypothesis Hbool : ∀ b, P (JBool b).
Hypothesis Hint_ : ∀ z, P (JInt z).
Hypothesis Hstr : ∀ s, P (JStr s).
Hypothesis Harr : ∀ l, Forall P l → P (JArr l).
Hypothesis Hobj : ∀ d, Forall (λ kv, P kv.2) d → P (JObj d).
Fixpoint json_ind' (v : json) : P v :=
  match v with
  | JNull => Hnull
  | JBool b => Hbool b
  | JInt z => Hint_ z
  | JStr s => Hstr s
  | JArr l => Harr l ((fix go l : Forall P l :=
      match l with [] => Forall_nil_2 _ | x :: r => Forall_cons_2 _ _ _ (json_ind' x) (go r) end) l)
  | JObj d => Hobj d ((fix go d : Forall (λ kv, P kv.2) d :=
      match d with [] => Forall_nil_2 _ | x :: r => Forall_cons_2 _ _ _ (json_ind' x.2) (go r) end) d)
  end.
End json_induction.

(** Every dict of the value has each key once, as a Python value has. *)
Fixpoint json_wf (v : json) : Prop :=
  match v with
  | JArr l => foldr (λ x P, json_wf x ∧ P) True l
  | JObj d => dict_wf d ∧ foldr (λ kv P, json_wf kv.2 ∧ P) True d
  | _ => True
  end.

Fixpoint jsize (v : json) : nat :=
  match v with
  | JArr l => S (foldr (λ x n, S (jsize x + n)) O l)
  | JObj d => S (foldr (λ kv n, S (jsize kv.2 + n)) O d)
  | _ => 1%nat
  end.
Definition lsize (l : list json) : nat := foldr (λ x n, S (jsize x + n)) O l.
Definition dsize (d : list (string * json)) : nat := foldr (λ kv n, S (jsize kv.2 + n)) O d.

(** ** Strings *)
Lemma pstr_esc c s : pstr (esc_char c +:+ s) =
  match pstr s with Some (t, q) => Some (String c t, q) | None => None end.
Proof. destruct c as [[] [] [] [] [] [] [] []]; reflexivity. Qed.

Lemma pstr_dumps s rest :
  pstr (sflat esc_char s +:+ String dquote rest) = Some (s, rest).
Proof.
  induction s as [|c s IH]; [done|]. simpl. by rewrite sapp_assoc, pstr_esc, IH.
Qed.

(** ** Numbers *)
Definition num_stop (s : string) : bool :=
  match s with String c _ => negb (is_digit c) && negb (is_char "." c || is_char "e" c || is_char "E" c)
  | "" => true end.

Lemma num_stop_float s : num_stop s = true → float_follows s = false.
Proof. destruct s as [|c r]; simpl; [done|]. intros [_ H]%andb_true_iff. by apply negb_true_iff in H. Qed.

Lemma span_digits_app ds rest :
  sforall is_digit ds = true → num_stop rest = true → span_digits (ds +:+ rest) = (ds, rest).
Proof.
  intros Hd Hr. induction ds as [|c ds IH].
  - rewrite sapp_nil_l. destruct rest as [|c r]; [done|]. simpl in *. bool_hyps. by rewrite H.
  - simpl in Hd. bool_hyps. rewrite sapp_cons. simpl. by rewrite H, IH.
Qed.

Lemma dec_go_head fuel z :
  0 < z → (dec_fuel z ≤ fuel)%nat →
  ∃ d r, dec_go fuel z "" = String (digit_char d) r ∧ 0 < d < 10.
Proof.
  revert z. induction fuel as [|f IH]; intros z Hz Hf; [unfold dec_fuel in Hf; lia|].
  simpl. destruct (z <? 10) eqn:E; bool_hyps; [exists z, ""; auto with lia|].
  destruct (dec_fuel_step z ltac:(lia)) as (f' & Hf' & Hle).
  destruct (IH (z / 10)) as (d & r & Hgo & Hd); [apply Z.div_str_pos; lia|lia|].
  rewrite dec_go_acc, Hgo. exists d. eexists. by split.
Qed.

Lemma digit_char_not_zero d : 0 < d < 10 → digit_char d ≠ "0"%char.
Proof.
  intros Hd Heq. apply (f_equal code) in Heq. unfold digit_char in Heq.
  rewrite code_chr in Heq by lia. change (code "0") with 48 in Heq. lia.
Qed.

Lemma pnat_dec z rest :
  0 ≤ z → num_stop rest = true → pnat (dec_go (dec_fuel z) z "" +:+ rest) = Some (z, rest).
Proof.
  intros Hz Hr. pose proof (num_stop_float _ Hr) as Hf.
  destruct (decide (z = 0)) as [->|Hne].
  - change (dec_go (dec_fuel 0) 0 "" +:+ rest) with (String "0" rest). simpl. by rewrite Hf.
  - destruct (dec_go_spec (dec_fuel z) z Hz ltac:(lia)) as (Hd & _ & Hgo).
    destruct (dec_go_head (dec_fuel z) z ltac:(lia) ltac:(lia)) as (d & r & Heq & Hdr).
    pose proof (span_digits_app _ rest Hd Hr) as Hspan. rewrite Heq in *.
    pose proof (digit_char_not_zero d Hdr) as Hnz.
    rewrite sapp_cons in *. unfold pnat. rewrite Hspan, Hf, Hgo.
    destruct (digit_char d) as [[] [] [] [] [] [] [] []]; done.
Qed.

Lemma pnum_minus r : pnum (String "-" r) =
  match pnat r with Some (z, q) => Some (JInt (- z), q) | None => None end.
Proof. done. Qed.

Lemma pnum_str_int z rest :
  num_stop rest = true → pnum (py_str_int z +:+ rest) = Some (JInt z, rest).
Proof.
  intros Hr. unfold py_str_int. destruct (z <? 0) eqn:E; bool_hyps.
  - rewrite sapp_cons, pnum_minus, pnat_dec by (done || lia). by rewrite Z.opp_involutive.
  - pose proof (pnat_dec z rest ltac:(lia) Hr) as Hp.
    destruct (dec_go_spec (dec_fuel z) z ltac:(lia) ltac:(lia)) as (Hd & Hn & _).
    destruct (dec_go (dec_fuel z) z "") as [|c t]; [done|]. simpl in Hd. bool_hyps.
    rewrite sapp_cons in *. unfold pnum. rewrite Hp.
    destruct c as [[] [] [] [] [] [] [] []]; done.
Qed.

(** ** The round trip *)
Section roundtrip.
Variables w1 w2 : string.
Hypothesis Hw1 : sforall is_ws w1 = true.
Hypothesis Hw2 : sforall is_ws w2 = true.
Abbreviation isep := (String "," w1).
Abbreviation ksep := (String ":" w2).
Abbreviation dmp := (dumps_with isep ksep).

(** The first character of a printed value. *)
Definition val_head (s : string) : Prop :=
  ∃ c t, s = String c t ∧ is_ws c = false ∧ c ≠ "]"%char ∧ c ≠ "}"%char.

Lemma is_digit_head c : is_digit c = true → is_ws c = false ∧ c ≠ "]"%char ∧ c ≠ "}"%char.
Proof. destruct c as [[] [] [] [] [] [] [] []]; vm_compute; done. Qed.

Lemma dumps_head v : val_head (dmp v).
Proof.
  destruct v as [|[]|z|s|l|d]; try (eexists _, _; by repeat split).
  simpl. unfold py_str_int. destruct (z <? 0) eqn:E; bool_hyps; [by eexists _, _|].
  destruct (dec_go_spec (dec_fuel z) z ltac:(lia) ltac:(lia)) as (Hd & Hn & _).
  destruct (dec_go (dec_fuel z) z "") as [|c t]; [done|]. simpl in Hd. bool_hyps.
  exists c, t. split; [done|]. by apply is_digit_head.
Qed.

Lemma skip_ws_app w s : sforall is_ws w = true → skip_ws (w +:+ s) = skip_ws s.
Proof.
  unfold skip_ws. induction w as [|c w IH]; [done|]. rewrite sapp_cons. simpl. intros. bool_hyps.
  rewrite H. auto.
Qed.

Lemma skip_ws_head s : val_head s → skip_ws s = s.
Proof. intros (c & t & -> & Hc & _). unfold skip_ws. simpl. by rewrite Hc. Qed.

Lemma val_head_app s t : val_head s → val_head (s +:+ t).
Proof. intros (c & r & -> & H). exists c. eexists. rewrite sapp_cons. by split. Qed.

Lemma pval_ws n w s : sforall is_ws w = true → pval n (w +:+ s) = pval n s.
Proof. intros H. destruct n; [done|]. simpl. by rewrite skip_ws_app. Qed.

Lemma dset_fresh {A} k (v : A) d : k ∉ dkeys d → dset k v d = (d ++ [(k, v)])%list.
Proof.
  induction d as [|[k' v'] d IH]; simpl; [done|]. intros. rewrite decide_False by set_solver.
  rewrite IH; [done|set_solver].
Qed.

Lemma skip_ws_comma s : skip_ws (String "," s) = String "," s.
Proof. done. Qed.

Lemma parr_S n s acc : parr (S n) s acc =
  match pval n s with
  | None => None
  | Some (v, r) =>
      match skip_ws r with
      | String "," q => parr n q (v :: acc)
      | String "]" q => Some (JArr (rev (v :: acc)), q)
      | _ => None
      end
  end.
Proof. done. Qed.

Lemma pobj_S n w k s acc : sforall is_ws w = true →
  pobj (S n) (w +:+ dumps_str k +:+ ksep +:+ s) acc =
  match pval n s with
  | None => None
  | Some (v, r) =>
      match skip_ws r with
      | String "," q => pobj n q (dset k v acc)
      | String "}" q => Some (JObj (dset k v acc), q)
      | _ => None
      end
  end.
Proof.
  intros Hw. simpl pobj. rewrite skip_ws_app by done. unfold dumps_str.
  rewrite sapp_cons, sapp_assoc, sapp_cons.
  change (skip_ws (String dquote ?x)) with (String dquote x). simpl. rewrite pstr_dumps. simpl.
  by rewrite pval_ws.
Qed.

(** The parser returns the printed value and the rest of the input. *)
Definition parses (v : json) : Prop :=
  json_wf v → ∀ n rest, (jsize v ≤ n)%nat → num_stop rest = true →
  pval n (dmp v +:+ rest) = Some (v, rest).

Lemma parr_dumps l : Forall parses l → foldr (λ x P, json_wf x ∧ P) True l → l ≠ [] →
  ∀ n w acc rest, sforall is_ws w = true → (lsize l ≤ n)%nat →
  parr n (w +:+ sjoin isep (dmp <$> l) +:+ String "]" rest) acc = Some (JArr (rev acc ++ l), rest).
Proof.
  induction 1 as [|v l Hv Hl IH]; intros Hwf Hne n w acc rest Hw Hn; [done|].
  destruct Hwf as [Hwv Hwl]. destruct n as [|n]; [simpl in Hn; lia|]. simpl in Hn.
  rewrite parr_S, pval_ws by done. destruct l as [|v' l].
  - simpl. rewrite Hv by (done || lia). done.
  - change (sjoin isep (dmp <$> v :: v' :: l)) with (dmp v +:+ String "," (w1 +:+ sjoin isep (dmp <$> v' :: l))).
    rewrite sapp_assoc, sapp_cons, sapp_assoc, Hv by (done || lia).
    rewrite skip_ws_comma.
    rewrite IH by (done || (unfold lsize in *; simpl in *; lia)). simpl. by rewrite <- app_assoc.
Qed.

Lemma pobj_dumps d : Forall (λ kv, parses kv.2) d → foldr (λ kv P, json_wf kv.2 ∧ P) True d → d ≠ [] →
  ∀ n w acc rest, sforall is_ws w = true → dict_wf (acc ++ d) → (dsize d ≤ n)%nat →
  pobj n (w +:+ sjoin isep ((λ kv, dumps_str kv.1 +:+ ksep +:+ dmp kv.2) <$> d) +:+ String "}" rest) acc
  = Some (JObj (acc ++ d), rest).
Proof.
  induction 1 as [|[k v] d Hv Hd IH]; intros Hwf Hne n w acc rest Hw Hk Hn; [done|].
  destruct Hwf as [Hwv Hwl]. destruct n as [|n]; [simpl in Hn; lia|]. simpl in Hn, Hwv, Hv.
  assert (Hfresh : k ∉ dkeys acc).
  { unfold dict_wf, dkeys in Hk. rewrite fmap_app, NoDup_app in Hk. set_solver. }
  destruct d as [|[k' v'] d].
  - simpl sjoin. rewrite !sapp_assoc, pobj_S, Hv by (done || lia). simpl. by rewrite dset_fresh.
  - set (f := λ kv : string * json, _ +:+ _).
    change (sjoin isep (f <$> (k, v) :: (k', v') :: d)) with
      ((dumps_str k +:+ ksep +:+ dmp v) +:+ String "," (w1 +:+ sjoin isep (f <$> (k', v') :: d))).
    rewrite !sapp_assoc, pobj_S, sapp_cons, Hv, skip_ws_comma by (done || lia).
    rewrite dset_fresh, sapp_assoc, IH by
      (done || (unfold dsize in *; simpl in *; lia) || by rewrite <- (assoc (++))).
    by rewrite <- (assoc (++)).
Qed.

Lemma py_str_int_cons z rest : ∃ c t,
  py_str_int z +:+ rest = String c t ∧ (is_digit c || is_char "-" c = true).
Proof.
  unfold py_str_int. destruct (z <? 0) eqn:E; bool_hyps; [by eexists _, _|].
  destruct (dec_go_spec (dec_fuel z) z ltac:(lia) ltac:(lia)) as (Hd & Hn & _).
  destruct (dec_go (dec_fuel z) z "") as [|c t]; [done|]. simpl in Hd. bool_hyps.
  exists c. eexists. by rewrite sapp_cons, H.
Qed.

Lemma pval_num n c s : is_digit c || is_char "-" c = true →
  pval (S n) (String c s) = pnum (String c s).
Proof. destruct c as [[] [] [] [] [] [] [] []]; vm_compute is_char; done. Qed.

Lemma pval_open_arr n s : val_head s → pval (S n) (String "[" s) = parr n s [].
Proof.
  intros Hs. simpl. rewrite (skip_ws_head s Hs). destruct Hs as (c & t & -> & _ & Hc & _).
  destruct c as [[] [] [] [] [] [] [] []]; done.
Qed.

Lemma pval_open_obj n s : val_head s → pval (S n) (String "{" s) = pobj n s [].
Proof.
  intros Hs. simpl. rewrite (skip_ws_head s Hs). destruct Hs as (c & t & -> & _ & _ & Hc).
  destruct c as [[] [] [] [] [] [] [] []]; done.
Qed.

Lemma sjoin_head a l t : val_head a → val_head (sjoin isep (a :: l) +:+ t).
Proof. intros Ha. apply val_head_app. destruct l; simpl; auto using val_head_app. Qed.

Lemma pval_dumps v : parses v.
Proof.
  induction v as [|b|z|s|l IH|d IH] using json_ind'; intros Hwf n rest Hn Hr;
    destruct n as [|n]; try (simpl in Hn; lia).
  - by destruct rest.
  - by destruct b, rest.
  - change (dmp (JInt z)) with (py_str_int z). 
    destruct (py_str_int_cons z rest) as (c & t & Heq & Hc).
    rewrite <- (pnum_str_int z rest Hr), Heq. by apply pval_num.
  - simpl. rewrite sapp_assoc, sapp_cons, sapp_nil_l, pstr_dumps. done.
  - destruct l as [|v l]; [done|].
    change (dmp (JArr (v :: l))) with (String "[" (sjoin isep (dmp <$> v :: l) +:+ "]")).
    rewrite sapp_cons, sapp_assoc, pval_open_arr by apply sjoin_head, dumps_head.
    rewrite sapp_cons, sapp_nil_l. apply (parr_dumps (v :: l) IH Hwf ltac:(done) n "" []); [done|].
    simpl in Hn; unfold lsize; simpl; lia.
  - destruct d as [|[k v] d]; [done|]. destruct Hwf as [Hk Hwf].
    change (dmp (JObj ((k, v) :: d))) with (String "{" (sjoin isep ((λ kv, dumps_str kv.1 +:+ ksep +:+ dmp kv.2) <$> (k, v) :: d) +:+ "}")).
    rewrite sapp_cons, sapp_assoc, pval_open_obj by (apply sjoin_head; by eexists _, _).
    rewrite sapp_cons, sapp_nil_l. apply (pobj_dumps ((k, v) :: d) IH Hwf ltac:(done) n "" []); [done|done|].
    simpl in Hn; unfold dsize; simpl; lia.
Qed.

Lemma sjoin_size {A} (f : A → string) (g : A → nat) l :
  Forall (λ x, g x ≤ 2 * String.length (f x))%nat l →
  (foldr (λ x n, S (g x + n)) O l ≤ 2 * String.length (sjoin isep (f <$> l)) + 1)%nat.
Proof.
  induction 1 as [|x l Hx Hl IH]; [simpl; lia|]. destruct l as [|y l]; [simpl in *; lia|].
  change (sjoin isep (f <$> x :: y :: l)) with (f x +:+ isep +:+ sjoin isep (f <$> y :: l)).
  rewrite !slen_app. cbn [String.length].
  cbn [foldr] in *. lia.
Qed.

Lemma jsize_le v : (jsize v ≤ 2 * String.length (dmp v))%nat.
Proof.
  induction v as [|b|z|s|l IH|d IH] using json_ind'; try (simpl; lia).
  - destruct b; simpl; lia.
  - destruct (py_str_int_cons z "") as (c & t & Heq & _). rewrite sapp_nil_r in Heq.
    simpl. rewrite Heq. simpl. lia.
  - apply sjoin_size in IH.
    change (dmp (JArr l)) with (String "[" (sjoin isep (dmp <$> l) +:+ "]")).
    cbn [String.length jsize]. rewrite slen_app. cbn [String.length]. lia.
  - assert (Hd : Forall (λ kv, jsize kv.2 ≤ 2 * String.length (dumps_str kv.1 +:+ ksep +:+ dmp kv.2))%nat d).
    { eapply Forall_impl; [exact IH|]. intros [k v] H. cbn [snd] in *. rewrite !slen_app. lia. }
    apply (sjoin_size (λ kv, dumps_str kv.1 +:+ ksep +:+ dmp kv.2) (λ kv, jsize kv.2)) in Hd.
    change (dmp (JObj d)) with (String "{" (sjoin isep ((λ kv, dumps_str kv.1 +:+ ksep +:+ dmp kv.2) <$> d) +:+ "}")).
    cbn [String.length jsize]. rewrite slen_app. cbn [String.length]. lia.
Qed.

Lemma loads_dumps_with v : json_wf v → loads (dmp v) = Some v.
Proof.
  intros Hwf. unfold loads.
  assert (Hp := pval_dumps v Hwf (S (2 * String.length (dmp v))) ""
    ltac:(pose proof (jsize_le v); lia) eq_refl).
  by rewrite sapp_nil_r in Hp; rewrite Hp.
Qed.
End roundtrip.

Lemma loads_dumps v : json_wf v → loads (dumps v) = Some v.
Proof. by apply loads_dumps_with. Qed.
Lemma loads_dumps_compact v : json_wf v → loads (dumps_compact v) = Some v.
Proof. by apply loads_dumps_with. Qed.

(** ** [sort_keys] keeps every entry *)
Lemma insert_key_perm kv d : insert_key kv d ≡ₚ kv :: d.
Proof. induction d as [|x d IH]; simpl; [done|]. case_match; [done|]. rewrite IH. by constructor. Qed.
Lemma sort_keys_dict_perm d : sort_keys_dict d ≡ₚ d.
Proof. induction d as [|x d IH]; simpl; [done|]. by rewrite insert_key_perm, IH. Qed.

#[export] Instance dict_wf_proper {A} : Proper ((≡ₚ) ==> iff) (@dict_wf A).
Proof. intros d d' Hd. unfold dict_wf, dkeys. by rewrite Hd. Qed.

Lemma dget_perm {A} k (d d' : list (string * A)) : dict_wf d → d ≡ₚ d' → dget k d = dget k d'.
Proof.
  intros Hwf Hp. assert (Hwf' : dict_wf d') by by rewrite <- Hp.
  destruct (dget k d) as [v|] eqn:E.
  - symmetry. apply dget_elem_wf; [done|]. rewrite <- Hp. by apply dget_Some_elem.
  - symmetry. rewrite dget_None in *. unfold dkeys in *. by rewrite <- Hp.
Qed.

Lemma dget_sort_keys_dict k d : dict_wf d → dget k (sort_keys_dict d) = dget k d.
Proof. intros. symmetry. apply dget_perm; [done|]. by rewrite sort_keys_dict_perm. Qed.
