(* ===== verification/Effects.v ===== *)
(** * Effects
    The state and exception monad in which the handlers run: an exception keeps
    the state reached, as the statements of an autocommit connection and the files
    already written stay. [Keeps f m]: the computation [m] leaves [f] of the state
    as it was; the instances compute it from the structure of [m]. *)
From S2P Require Import Prelude Text Json.
From Stdlib Require Import Ascii String.
Open Scope Z_scope.

(** An exception: an [HTTPException], or another one with its text. *)
Inductive exc : Type := Http (e : http_error) | Exc (text : string).
(** [str(e)] *)
Definition exc_text (e : exc) : string :=
  match e with Http h => py_str_int (he_status h) +:+ ": " +:+ he_detail h | Exc t => t end.

Definition SM (S A : Type) : Type := S → result exc A * S.
#[export] Instance SM_ret {S} : MRet (SM S) := λ A a s, (Ok a, s).
#[export] Instance SM_bind {S} : MBind (SM S) := λ A B f m s,
  match m s with (Ok a, s') => f a s' | (Err e, s') => (Err e, s') end.

Section operations.
Context {S : Type}.
Definition raise {A} (e : exc) : SM S A := λ s, (Err e, s).
Definition modify (f : S → S) : SM S () := λ s, (Ok (), f s).
Definition gets {A} (f : S → A) : SM S A := λ s, (Ok (f s), s).
(** [try: m except Exception as x: h x] *)
Definition catch {A} (m : SM S A) (h : exc → SM S A) : SM S A :=
  λ s, match m s with (Ok a, s') => (Ok a, s') | (Err e, s') => h e s' end.
(** A pure part that may raise. *)
Definition lift {A} (r : result exc A) : SM S A := λ s, (r, s).
End operations.

Lemma bind_gets {S A B} (f : S → A) (k : A → SM S B) s : (gets f ≫= k) s = k (f s) s.
Proof. done. Qed.
Lemma bind_modify {S B} f (k : () → SM S B) s : (modify f ≫= k) s = k () (f s).
Proof. done. Qed.

Lemma bind_ok {S A B} (m : SM S A) (k : A → SM S B) s b s' :
  (m ≫= k) s = (Ok b, s') → ∃ a s1, m s = (Ok a, s1) ∧ k a s1 = (Ok b, s').
Proof. unfold mbind, SM_bind. destruct (m s) as [[a|x] s1]; [|done]. eauto. Qed.
Lemma bind_step {S A B} (m : SM S A) (k : A → SM S B) s a s1 : m s = (Ok a, s1) → (m ≫= k) s = k a s1.
Proof. unfold mbind, SM_bind. by intros ->. Qed.
Lemma lift_ok {S A} (r : result exc A) (s : S) a s' : lift r s = (Ok a, s') → r = Ok a ∧ s' = s.
Proof. unfold lift. naive_solver. Qed.

(** ** What a computation leaves alone *)
Class Keeps {S A B} (f : S → B) (m : SM S A) : Prop := keeps s : f (m s).2 = f s.

Section keeps.
Context {S A B C : Type}.
Implicit Types f : S → C.
#[export] Instance keeps_ret f (a : A) : Keeps f (mret a : SM S A).
Proof. done. Qed.
#[export] Instance keeps_raise f x : Keeps f (raise x : SM S A).
Proof. done. Qed.
#[export] Instance keeps_gets f (g : S → A) : Keeps f (gets g).
Proof. done. Qed.
#[export] Instance keeps_lift f (r : result exc A) : Keeps f (lift r).
Proof. done. Qed.
#[export] Instance keeps_bind f (m : SM S A) (k : A → SM S B) : Keeps f m → (∀ a, Keeps f (k a)) → Keeps f (mbind k m).
Proof.
  intros Hm Hk w. unfold mbind, SM_bind. specialize (Hm w). destruct (m w) as [[a|x] w']; simpl in *; [|done].
  by rewrite (Hk a w').
Qed.
#[export] Instance keeps_catch f (m : SM S A) h : Keeps f m → (∀ x, Keeps f (h x)) → Keeps f (catch m h).
Proof.
  intros Hm Hh w. unfold catch. specialize (Hm w). destruct (m w) as [[a|x] w']; simpl in *; [done|]. by rewrite (Hh x w').
Qed.
#[export] Instance keeps_if f (b : bool) (m n : SM S A) : Keeps f m → Keeps f n → Keeps f (if b then m else n).
Proof. by destruct b. Qed.
#[export] Instance keeps_decide f (P : Prop) `{!Decision P} (m n : SM S A) : Keeps f m → Keeps f n → Keeps f (if decide P then m else n).
Proof. by case_decide. Qed.
End keeps.
#[export] Hint Extern 1 (Keeps _ (modify _)) => intros ?; reflexivity : typeclass_instances.

(** ** What a computation maintains *)
Class Maintains {S A} (P : S → Prop) (m : SM S A) : Prop := maintains s : P s → P (m s).2.

Section maintains.
Context {S A B : Type} (P : S → Prop).
#[export] Instance maintains_ret (a : A) : Maintains P (mret a : SM S A).
Proof. by intros s. Qed.
#[export] Instance maintains_raise x : Maintains P (raise x : SM S A).
Proof. by intros s. Qed.
#[export] Instance maintains_gets (g : S → A) : Maintains P (gets g).
Proof. by intros s. Qed.
#[export] Instance maintains_lift (r : result exc A) : Maintains P (lift r).
Proof. by intros s. Qed.
#[export] Instance maintains_bind (m : SM S A) (k : A → SM S B) : Maintains P m → (∀ a, Maintains P (k a)) → Maintains P (mbind k m).
Proof.
  intros Hm Hk s Hs. unfold mbind, SM_bind. specialize (Hm s Hs). destruct (m s) as [[a|x] s']; simpl in *; [|done].
  by apply Hk.
Qed.
#[export] Instance maintains_catch (m : SM S A) h : Maintains P m → (∀ x, Maintains P (h x)) → Maintains P (catch m h).
Proof.
  intros Hm Hh s Hs. unfold catch. specialize (Hm s Hs). destruct (m s) as [[a|x] s']; simpl in *; [done|]. by apply Hh.
Qed.
#[export] Instance maintains_if (b : bool) (m n : SM S A) : Maintains P m → Maintains P n → Maintains P (if b then m else n).
Proof. by destruct b. Qed.
#[export] Instance maintains_decide (Q : Prop) `{!Decision Q} (m n : SM S A) : Maintains P m → Maintains P n → Maintains P (if decide Q then m else n).
Proof. by case_decide. Qed.
End maintains.

Lemma maintains_run {S A} (P : S → Prop) (m : SM S A) `{Hm : !Maintains P m} s r s' : m s = (r, s') → P s → P s'.
Proof. intros E Hs. specialize (Hm s Hs). by rewrite E in Hm. Qed.

(** ** A component of the state *)
(** A computation on a part of the state, run on the whole. *)
Definition zoom {S T A} (get : S → T) (put : T → S → S) (m : SM T A) : SM S A :=
  λ s, let '(r, t) := m (get s) in (r, put t s).

Lemma zoom_ok {S T A} (get : S → T) put (m : SM T A) s a s' :
  zoom get put m s = (Ok a, s') → ∃ t, m (get s) = (Ok a, t) ∧ s' = put t s.
Proof. unfold zoom. destruct (m (get s)) as [r t]. intros [= -> <-]. eauto. Qed.

(** A transaction: what was done is undone when it raises. *)
Definition atomic {S A} (m : SM S A) : SM S A :=
  λ s, match m s with (Ok a, s') => (Ok a, s') | (Err e, _) => (Err e, s) end.
