(* ===== verification/Hashing.v ===== *)
(** * Hashes
    The functions of [hashlib] and [hmac] that the program calls, on byte
    strings: SHA-256, MD5, their hexadecimal digests and HMAC-SHA-256. They are
    written out so that bucketing and token checks evaluate on concrete inputs;
    the [Example]s are the published test vectors. *)
From S2P Require Import Prelude Text.
From Stdlib Require Import Ascii String.
Open Scope Z_scope.

Definition w32 (z : Z) : Z := z mod 4294967296.
Definition not32 (z : Z) : Z := 4294967295 - z.
Definition rotr (n x : Z) : Z := Z.lor (Z.shiftr x n) (w32 (Z.shiftl x (32 - n))).
Definition rotl (n x : Z) : Z := Z.lor (w32 (Z.shiftl x n)) (Z.shiftr x (32 - n)).

(** ** Padding and words *)
Fixpoint zeros (n : nat) : list Z := match n with O => [] | S m => 0 :: zeros m end.
Definition bytes_of (s : string) : list Z := code <$> list_ascii_of_string s.
Definition string_of (l : list Z) : string := string_of_list_ascii (chr <$> l).
(** The eight bytes of a 64-bit number, most significant first. *)
Definition be64 (n : Z) : list Z := (λ k, Z.shiftr n k mod 256) <$> [56; 48; 40; 32; 24; 16; 8; 0].
Definition be32 (n : Z) : list Z := (λ k, Z.shiftr n k mod 256) <$> [24; 16; 8; 0].
Definition le32 (n : Z) : list Z := (λ k, Z.shiftr n k mod 256) <$> [0; 8; 16; 24].
Definition pad_block (len : list Z) (m : list Z) : list Z :=
  (m ++ 128 :: zeros (Z.to_nat ((55 - Z.of_nat (List.length m)) mod 64)) ++ len)%list.
Definition bit_length (m : list Z) : Z := (8 * Z.of_nat (List.length m)) mod 18446744073709551616.
Fixpoint words_be (l : list Z) : list Z :=
  match l with
  | a :: b :: c :: d :: r => ((a * 256 + b) * 256 + c) * 256 + d :: words_be r
  | _ => []
  end.
Fixpoint words_le (l : list Z) : list Z :=
  match l with
  | a :: b :: c :: d :: r => ((d * 256 + c) * 256 + b) * 256 + a :: words_le r
  | _ => []
  end.
Definition nth0 (l : list Z) (n : nat) : Z := nth n l 0.

(** ** SHA-256 *)
(** The constants are the first 32 bits of the fractional parts of the cube roots
    of the first 64 primes and of the square roots of the first 8. *)
Fixpoint cbrt_bits (n : Z) (bits : nat) (r : Z) : Z :=
  match bits with
  | O => r
  | S b => let c := r + 2 ^ Z.of_nat b in cbrt_bits n b (if c * c * c <=? n then c else r)
  end.
Definition is_prime (n : nat) : bool :=
  forallb (λ d, negb (Z.of_nat n mod Z.of_nat d =? 0)) (seq 2 (n - 2)).
Definition primes : list Z := Z.of_nat <$> List.filter is_prime (seq 2 310).
Definition sha_k : list Z := Eval vm_compute in (λ p, w32 (cbrt_bits (p * 2 ^ 96) 36 0)) <$> primes.
Definition sha_h0 : list Z := Eval vm_compute in (λ p, w32 (Z.sqrt (p * 2 ^ 64))) <$> take 8 primes.

Definition ssig0 x := Z.lxor (Z.lxor (rotr 7 x) (rotr 18 x)) (Z.shiftr x 3).
Definition ssig1 x := Z.lxor (Z.lxor (rotr 17 x) (rotr 19 x)) (Z.shiftr x 10).
Definition bsig0 x := Z.lxor (Z.lxor (rotr 2 x) (rotr 13 x)) (rotr 22 x).
Definition bsig1 x := Z.lxor (Z.lxor (rotr 6 x) (rotr 11 x)) (rotr 25 x).
Definition choose x y z := Z.lxor (Z.land x y) (Z.land (not32 x) z).
Definition majority x y z := Z.lxor (Z.lxor (Z.land x y) (Z.land x z)) (Z.land y z).

(** The rounds over the constants [ks]; [w] holds the next sixteen words of the
    message schedule. *)
Fixpoint sha_rounds (ks w st : list Z) : list Z :=
  match ks, w, st with
  | k :: ks', w0 :: wr, [a; b; c; d; e; f; g; h] =>
      let t1 := w32 (h + bsig1 e + choose e f g + k + w0) in
      let t2 := w32 (bsig0 a + majority a b c) in
      let wn := w32 (ssig1 (nth0 w 14) + nth0 w 9 + ssig0 (nth0 w 1) + w0) in
      sha_rounds ks' (wr ++ [wn])%list [w32 (t1 + t2); a; b; c; w32 (d + t1); e; f; g]
  | _, _, _ => st
  end.
Fixpoint sha_blocks (fuel : nat) (ws h : list Z) : list Z :=
  match fuel, ws with
  | S m, _ :: _ =>
      sha_blocks m (drop 16 ws) (zip_with (λ x y, w32 (x + y)) h (sha_rounds sha_k (take 16 ws) h))
  | _, _ => h
  end.
Definition sha256_bytes (m : list Z) : list Z :=
  let ws := words_be (pad_block (be64 (bit_length m)) m) in
  sha_blocks (List.length ws) ws sha_h0 ≫= be32.
(** [hashlib.sha256(b).digest()] *)
Definition sha256 (b : string) : string := string_of (sha256_bytes (bytes_of b)).

(** ** MD5 *)
Definition md5_k : list Z := [
   0xd76aa478; 0xe8c7b756; 0x242070db; 0xc1bdceee; 0xf57c0faf; 0x4787c62a; 0xa8304613; 0xfd469501;
   0x698098d8; 0x8b44f7af; 0xffff5bb1; 0x895cd7be; 0x6b901122; 0xfd987193; 0xa679438e; 0x49b40821;
   0xf61e2562; 0xc040b340; 0x265e5a51; 0xe9b6c7aa; 0xd62f105d; 0x02441453; 0xd8a1e681; 0xe7d3fbc8;
   0x21e1cde6; 0xc33707d6; 0xf4d50d87; 0x455a14ed; 0xa9e3e905; 0xfcefa3f8; 0x676f02d9; 0x8d2a4c8a;
   0xfffa3942; 0x8771f681; 0x6d9d6122; 0xfde5380c; 0xa4beea44; 0x4bdecfa9; 0xf6bb4b60; 0xbebfbc70;
   0x289b7ec6; 0xeaa127fa; 0xd4ef3085; 0x04881d05; 0xd9d4d039; 0xe6db99e5; 0x1fa27cf8; 0xc4ac5665;
   0xf4292244; 0x432aff97; 0xab9423a7; 0xfc93a039; 0x655b59c3; 0x8f0ccc92; 0xffeff47d; 0x85845dd1;
   0x6fa87e4f; 0xfe2ce6e0; 0xa3014314; 0x4e0811a1; 0xf7537e82; 0xbd3af235; 0x2ad7d2bb; 0xeb86d391].
Definition md5_s : list Z := [7; 12; 17; 22; 5; 9; 14; 20; 4; 11; 16; 23; 6; 10; 15; 21].
Definition md5_h0 : list Z := [0x67452301; 0xefcdab89; 0x98badcfe; 0x10325476].
Definition md5_step (w st : list Z) (i : Z) : list Z :=
  match st with
  | [a; b; c; d] =>
      let '(f, g) :=
        if i <? 16 then (Z.lor (Z.land b c) (Z.land (not32 b) d), i)
        else if i <? 32 then (Z.lor (Z.land d b) (Z.land (not32 d) c), (5 * i + 1) mod 16)
        else if i <? 48 then (Z.lxor (Z.lxor b c) d, (3 * i + 5) mod 16)
        else (Z.lxor c (Z.lor b (not32 d)), (7 * i) mod 16) in
      let f' := w32 (f + a + nth0 md5_k (Z.to_nat i) + nth0 w (Z.to_nat g)) in
      let s := nth0 md5_s (Z.to_nat (4 * (i / 16) + i mod 4)) in
      [d; w32 (b + rotl s f'); b; c]
  | _ => st
  end.
Definition md5_idx : list Z := Z.of_nat <$> seq 0 64.
Fixpoint md5_blocks (fuel : nat) (ws h : list Z) : list Z :=
  match fuel, ws with
  | S m, _ :: _ =>
      md5_blocks m (drop 16 ws)
        (zip_with (λ x y, w32 (x + y)) h (foldl (md5_step (take 16 ws)) h md5_idx))
  | _, _ => h
  end.
Definition md5_bytes (m : list Z) : list Z :=
  let ws := words_le (pad_block (rev (be64 (bit_length m))) m) in
  md5_blocks (List.length ws) ws md5_h0 ≫= le32.
Definition md5 (b : string) : string := string_of (md5_bytes (bytes_of b)).

(** ** Hexadecimal digests *)
Fixpoint hexlify (b : string) : string :=
  match b with
  | "" => ""
  | String c r => String (hex_digit (code c / 16)) (String (hex_digit (code c mod 16)) (hexlify r))
  end.
Definition sha256_hex (b : string) : string := hexlify (sha256 b).
Definition md5_hex (b : string) : string := hexlify (md5 b).
(** [int(s, 16)] of a hexadecimal digest *)
Fixpoint int16_go (acc : Z) (s : string) : Z :=
  match s with
  | "" => acc
  | String c r => int16_go (acc * 16 + match hex_val c with Some v => v | None => 0 end) r
  end.
Definition int16 (s : string) : Z := int16_go 0 s.

(** ** HMAC-SHA-256: [hmac.new(key, msg, hashlib.sha256).digest()] *)
Definition hmac_key (key : list Z) : list Z :=
  let k := if (64 <? List.length key)%nat then sha256_bytes key else key in
  (k ++ zeros (64 - List.length k))%list.
Definition hmac_sha256 (key msg : string) : string :=
  let k := hmac_key (bytes_of key) in
  let inner := sha256_bytes ((Z.lxor 54 <$> k) ++ bytes_of msg)%list in
  string_of (sha256_bytes ((Z.lxor 92 <$> k) ++ inner)%list).

(** ** Test vectors *)
Example sha256_abc :
  sha256_hex "abc" = "ba7816bf8f01cfea414140de5dae2223b00361a396177a9cb410ff61f20015ad".
Proof. vm_compute. reflexivity. Qed.
Example sha256_two_blocks :
  sha256_hex "abcdbcdecdefdefgefghfghighijhijkijkljklmklmnlmnomnopnopq"
  = "248d6a61d20638b8e5c026930c3e6039a33ce45964ff2167f6ecedd419db06c1".
Proof. vm_compute. reflexivity. Qed.
Example md5_message_digest : md5_hex "message digest" = "f96b697d7cb7938d525a2f31aaf161d0".
Proof. vm_compute. reflexivity. Qed.
Example hmac_sha256_rfc4231_2 :
  hexlify (hmac_sha256 "Jefe" "what do ya want for nothing?")
  = "5bdcc146bf60754e6a042426089575c75a003f089d2739839dec58b964ec3843".
Proof. vm_compute. reflexivity. Qed.

(** ** Shape of the digests *)
Lemma sha_rounds_len ks w st : List.length st = 8%nat → List.length (sha_rounds ks w st) = 8%nat.
Proof.
  revert w st. induction ks as [|k ks IH]; intros w st Hst; [done|].
  destruct w as [|w0 wr]; [done|].
  do 8 (destruct st as [|? st]; [done|]). destruct st; [|done]. by apply IH.
Qed.

Lemma sha_blocks_len n ws h : List.length h = 8%nat → List.length (sha_blocks n ws h) = 8%nat.
Proof.
  revert ws h. induction n as [|n IH]; intros ws h Hh; [done|].
  destruct ws as [|x ws]; [done|]. apply IH.
  by rewrite length_zip_with, sha_rounds_len, Hh.
Qed.

Lemma be32_concat_len l : List.length (l ≫= be32) = (4 * List.length l)%nat.
Proof. induction l as [|x l IH]; [done|]. rewrite bind_cons, length_app, IH. simpl. lia. Qed.

Lemma string_of_len l : String.length (string_of l) = List.length l.
Proof. induction l as [|x l IH]; [done|]. exact (f_equal S IH). Qed.

Lemma sha256_len b : String.length (sha256 b) = 32%nat.
Proof.
  unfold sha256. rewrite string_of_len. unfold sha256_bytes. cbv zeta.
  by rewrite be32_concat_len, sha_blocks_len.
Qed.

Lemma hmac_sha256_len k m : String.length (hmac_sha256 k m) = 32%nat.
Proof.
  unfold hmac_sha256. cbv zeta. rewrite string_of_len. unfold sha256_bytes. cbv zeta.
  by rewrite be32_concat_len, sha_blocks_len.
Qed.

Lemma hexlify_len b : String.length (hexlify b) = (2 * String.length b)%nat.
Proof. induction b as [|c b IH]; [done|]. simpl. rewrite IH. lia. Qed.
