(* ===== verification/Uuid.v ===== *)
(** * Client identifiers
    [_normalize_client_uuid] of [app/main.py] and what it uses of [uuid] and
    [hashlib]: the lenient reader [uuid.UUID], the printer, and version 5 names
    (SHA-1). A UUID is a number below 2^128; the random one is an argument. *)
From S2P Require Import Prelude Text Hashing.
From Stdlib Require Import Ascii String.
Open Scope Z_scope.

(** ** SHA-1 *)
Module Sha1.
Definition h0 : list Z := [0x67452301; 0xefcdab89; 0x98badcfe; 0x10325476; 0xc3d2e1f0].
(** The message schedule of a block, oldest word first. *)
Fixpoint rounds (n : nat) (i : Z) (w st : list Z) : list Z :=
  match n, w, st with
  | S m, w0 :: wr, [a; b; c; d; e] =>
      let '(f, k) :=
        if i <? 20 then (Z.lor (Z.land b c) (Z.land (not32 b) d), 0x5a827999)
        else if i <? 40 then (Z.lxor (Z.lxor b c) d, 0x6ed9eba1)
        else if i <? 60 then (Z.lor (Z.lor (Z.land b c) (Z.land b d)) (Z.land c d), 0x8f1bbcdc)
        else (Z.lxor (Z.lxor b c) d, 0xca62c1d6) in
      let t := w32 (rotl 5 a + f + e + k + w0) in
      let wn := rotl 1 (Z.lxor (Z.lxor (nth0 w 13) (nth0 w 8)) (Z.lxor (nth0 w 2) w0)) in
      rounds m (i + 1) (wr ++ [wn])%list [t; a; rotl 30 b; c; d]
  | _, _, _ => st
  end.
Fixpoint blocks (fuel : nat) (ws h : list Z) : list Z :=
  match fuel, ws with
  | S m, _ :: _ => blocks m (drop 16 ws) (zip_with (λ x y, w32 (x + y)) h (rounds 80 0 (take 16 ws) h))
  | _, _ => h
  end.
Definition sha1_bytes (m : list Z) : list Z :=
  let ws := words_be (pad_block (be64 (bit_length m)) m) in
  blocks (List.length ws) ws h0 ≫= be32.
End Sha1.

(** ** [uuid.UUID] *)
Module UUID.
(** [s.replace(p, "")] *)
Fixpoint remove_go (p : string) (skip : nat) (s : string) : string :=
  match s with
  | "" => ""
  | String c r =>
      match skip with
      | S k => remove_go p k r
      | O => if starts_with p s then remove_go p (String.length p - 1) r else String c (remove_go p 0 r)
      end
  end.
Definition remove_all (p s : string) : string := remove_go p 0 s.

Fixpoint digits16_go (acc : Z) (prev : bool) (s : string) : option Z :=
  match s with
  | "" => if prev then Some acc else None
  | String c r =>
      match hex_val c with
      | Some d => digits16_go (acc * 16 + d) true r
      | None => if is_char "_" c && prev then digits16_go acc false r else None
      end
  end.
(** [int(s, 16)]: spaces around, a sign, a prefix, single underscores. *)
Definition int_base16 (s : string) : option Z :=
  let unsigned t :=
    match t with
    | String "0" (String x r) =>
        if is_char "x" x || is_char "X" x
        then digits16_go 0 false (match r with String "_" r' => r' | _ => r end)
        else digits16_go 0 false t
    | _ => digits16_go 0 false t
    end in
  match strip s with
  | String "-" r => Z.opp <$> unsigned r
  | String "+" r => unsigned r
  | t => unsigned t
  end.

(** [None]: [ValueError] *)
Definition parse (s : string) : option Z :=
  let h := remove_all "uuid:" (remove_all "urn:" s) in
  let brace c := is_char "{" c || is_char "}" c in
  let h := remove_all "-" (rstrip_by brace (lstrip_by brace h)) in
  if Nat.eqb (String.length h) 32 then int_base16 h else None.

(** ['%032x' % n] and [str] *)
Fixpoint hex_width (k : nat) (n : Z) : string :=
  match k with O => "" | S m => hex_width m (n / 16) +:+ String (hex_digit (n mod 16)) "" end.
Definition hyphenate (h : string) : string :=
  stake 8 h +:+ "-" +:+ stake 4 (sdrop 8 h) +:+ "-" +:+ stake 4 (sdrop 12 h) +:+ "-" +:+
  stake 4 (sdrop 16 h) +:+ "-" +:+ sdrop 20 h.
Definition print (n : Z) : string := hyphenate (hex_width 32 n).

Definition of_bytes (l : list Z) : Z := foldl (λ acc b, acc * 256 + b) 0 l.
(** The version and variant bits. *)
Definition with_version (v n : Z) : Z :=
  let n := Z.lor (Z.land n (Z.lnot (Z.shiftl 0xc000 48))) (Z.shiftl 0x8000 48) in
  Z.lor (Z.land n (Z.lnot (Z.shiftl 0xf000 64))) (Z.shiftl v 76).
Definition NAMESPACE_URL : list Z := [0x6b; 0xa7; 0xb8; 0x11; 0x9d; 0xad; 0x11; 0xd1; 0x80; 0xb4; 0x00; 0xc0; 0x4f; 0xd4; 0x30; 0xc8].
Definition uuid5 (namespace : list Z) (name : string) : Z :=
  with_version 5 (of_bytes (take 16 (Sha1.sha1_bytes (namespace ++ bytes_of (utf8_encode name))))).
End UUID.

(** [fresh]: what [uuid.uuid4] draws *)
Definition _normalize_client_uuid (fresh : Z) (raw_value : string) : string :=
  let raw := strip raw_value in
  if negb (truthy_str raw) then UUID.print fresh
  else
    match UUID.parse raw with
    | Some n => UUID.print n
    | None => UUID.print (UUID.uuid5 UUID.NAMESPACE_URL raw)
    end.

Example uuid_known :
  _normalize_client_uuid 0 " {886313E1-3B8A-5372-9B90-0C9AEE199E5D} " = "886313e1-3b8a-5372-9b90-0c9aee199e5d" ∧
  _normalize_client_uuid 0 "poste-42" = "6c6145aa-9b93-5472-8691-8973c8f74041" ∧
  _normalize_client_uuid 0 "0x6313E1-3B8A-5372-9B90-0C9AEE199E5D" = "006313e1-3b8a-5372-9b90-0c9aee199e5d".
Proof. vm_compute. split_and!; reflexivity. Qed.

(** The text form of a [UUID] column: two digits at a time, an optional hyphen
    after every group of four, optional braces. *)
Definition pg_skip (m : nat) (r : string) : string :=
  match r with
  | String c r' => if is_char "-" c && Nat.even m && negb (Nat.eqb m 0) then r' else r
  | "" => r
  end.
Fixpoint pg_digits (n : nat) (s : string) : option string :=
  match n with
  | O => Some s
  | S m =>
      match s with
      | String a (String b r) =>
          match hex_val a, hex_val b with
          | Some _, Some _ => pg_digits m (pg_skip m r)
          | _, _ => None
          end
      | _ => None
      end
  end.
Definition pg_uuid (s : string) : bool :=
  match s with
  | String c r =>
      if is_char "{" c then match pg_digits 16 r with Some "}" => true | _ => false end
      else match pg_digits 16 s with Some "" => true | _ => false end
  | "" => false
  end.

(** ** Facts *)
Import UUID.
Definition is_hex (c : ascii) : bool := match hex_val c with Some _ => true | None => false end.

Lemma hex_val_digit d : 0 ≤ d < 16 → hex_val (hex_digit d) = Some d.
Proof.
  intros Hd. assert (d ∈ Z.of_nat <$> seq 0 16) as Hin.
  { apply list_elem_of_fmap. exists (Z.to_nat d). split; [lia|]. apply elem_of_seq. lia. }
  simpl in Hin. set_unfold in Hin. naive_solver.
Qed.
Lemma hex_width_len k n : String.length (hex_width k n) = k.
Proof. revert n. induction k as [|k IH]; intros n; simpl; [done|]. rewrite slen_app, IH. simpl. lia. Qed.
Lemma hex_width_hex k n : sforall is_hex (hex_width k n) = true.
Proof.
  revert n. induction k as [|k IH]; intros n; simpl; [done|]. rewrite sforall_app, IH. simpl.
  unfold is_hex. rewrite hex_val_digit; [done|]. apply Z.mod_pos_bound. lia.
Qed.

Lemma digits16_app s t acc b : sforall is_hex s = true → s ≠ "" →
  digits16_go acc b (s +:+ t) = match digits16_go acc b s with Some n => digits16_go n true t | None => None end.
Proof.
  revert acc b. induction s as [|c s IH]; intros acc b H Hne; [done|]. simpl in *.
  apply andb_true_iff in H as [Hc Hs]. unfold is_hex in Hc. destruct (hex_val c) as [d|]; [|done].
  destruct s as [|c' s]; [done|]. apply IH; done.
Qed.
Lemma digits16_width k n : k ≠ O → digits16_go 0 false (hex_width k n) = Some (n mod 16 ^ Z.of_nat k).
Proof.
  revert n. induction k as [|k IH]; intros n Hk; [done|]. simpl.
  destruct k as [|k].
  - simpl. rewrite hex_val_digit by (apply Z.mod_pos_bound; lia). done.
  - rewrite digits16_app, IH; [|done|apply hex_width_hex|]. 
    + simpl. rewrite hex_val_digit by (apply Z.mod_pos_bound; lia). f_equal.
      rewrite (Nat2Z.inj_succ (S k)), Z.pow_succ_r by lia. rewrite Z.rem_mul_r by lia. lia.
    + intros H. pose proof (hex_width_len (S k) (n / 16)) as Hl. by rewrite H in Hl.
Qed.

Lemma remove_none p s c r : p = String c r → sforall (λ a, negb (is_char c a)) s = true → remove_all p s = s.
Proof.
  intros ->. unfold remove_all. induction s as [|a s IH]; [done|]. intros [Ha Hs]%andb_true_iff.
  unfold remove_go; fold remove_go. destruct (starts_with _ _) eqn:E; [|by rewrite IH].
  apply starts_with_true in E as [t Ht]. rewrite sapp_cons in Ht. injection Ht as -> _.
  unfold is_char in Ha. by bool_hyps.
Qed.
Lemma remove_dash_app s t : remove_all "-" (s +:+ t) = remove_all "-" s +:+ remove_all "-" t.
Proof.
  unfold remove_all. induction s as [|a s IH]; [done|]. rewrite sapp_cons. unfold remove_go; fold remove_go.
  rewrite !starts_with_char. destruct (is_char _ _); [exact IH|]. by rewrite sapp_cons, IH.
Qed.
Lemma stake_sdrop n s : stake n s +:+ sdrop n s = s.
Proof. revert s. induction n as [|n IH]; intros [|c s]; simpl; [done..|]. by rewrite sapp_cons, IH. Qed.
Lemma sdrop_sdrop n m s : sdrop n (sdrop m s) = sdrop (m + n) s.
Proof. revert s. induction m as [|m IH]; intros [|c s]; simpl; [by destruct n|done|by destruct n|done]. Qed.

Lemma take_piece k n s : stake k (sdrop n s) +:+ sdrop (n + k) s = sdrop n s.
Proof. by rewrite <- sdrop_sdrop, stake_sdrop. Qed.

Definition hex_or_dash (c : ascii) : bool := is_hex c || is_char "-" c.
Lemma hex_impl (p : ascii → bool) s : (∀ c, is_hex c = true → p c = true) → sforall is_hex s = true → sforall p s = true.
Proof. apply sforall_impl. Qed.
Lemma sforall_stake p n s : sforall p s = true → sforall p (stake n s) = true ∧ sforall p (sdrop n s) = true.
Proof. intros H. rewrite <- (stake_sdrop n s), sforall_app in H. by apply andb_true_iff in H. Qed.

Lemma hyphenate_chars h : sforall is_hex h = true → sforall hex_or_dash (hyphenate h) = true.
Proof.
  intros H. assert (H' : sforall hex_or_dash h = true) by (eapply hex_impl; [|exact H]; unfold hex_or_dash; by intros c ->).
  pose proof (λ n, sforall_stake _ n _ H') as Hn. unfold hyphenate. rewrite !sforall_app.
  destruct (Hn 8%nat) as [-> H8], (Hn 12%nat) as [_ H12], (Hn 16%nat) as [_ H16], (Hn 20%nat) as [_ ->].
  destruct (sforall_stake _ 4 _ H8) as [-> _], (sforall_stake _ 4 _ H12) as [-> _], (sforall_stake _ 4 _ H16) as [-> _]. done.
Qed.
Lemma hex_no_dash s : sforall is_hex s = true → remove_all "-" s = s.
Proof. intros H. apply (remove_none "-" s "-" ""); [done|]. eapply hex_impl; [|exact H]. by intros [[] [] [] [] [] [] [] []]. Qed.
Lemma remove_hyphens h : sforall is_hex h = true → remove_all "-" (hyphenate h) = h.
Proof.
  intros H. pose proof (λ n, sforall_stake _ n _ H) as Hn. unfold hyphenate. rewrite !remove_dash_app.
  destruct (Hn 8%nat) as [H8 H8'], (Hn 12%nat) as [_ H12], (Hn 16%nat) as [_ H16], (Hn 20%nat) as [_ H20].
  destruct (sforall_stake _ 4 _ H8') as [H4 _], (sforall_stake _ 4 _ H12) as [H5 _], (sforall_stake _ 4 _ H16) as [H6 _].
  rewrite (hex_no_dash _ H8), (hex_no_dash _ H4), (hex_no_dash _ H5), (hex_no_dash _ H6), (hex_no_dash _ H20). change (remove_all "-" "-") with "". rewrite !sapp_nil_l.
  rewrite (take_piece 4 16 h : stake 4 (sdrop 16 h) +:+ sdrop 20 h = sdrop 16 h).
  rewrite (take_piece 4 12 h : stake 4 (sdrop 12 h) +:+ sdrop 16 h = sdrop 12 h).
  rewrite (take_piece 4 8 h : stake 4 (sdrop 8 h) +:+ sdrop 12 h = sdrop 8 h). apply stake_sdrop.
Qed.

(** A reading of digits, without sign, prefix nor underscore. *)
Lemma int_base16_hex h : sforall is_hex h = true → int_base16 h = digits16_go 0 false h.
Proof.
  intros H. unfold int_base16. rewrite strip_no_space.
  2: { eapply hex_impl; [|exact H]. by intros [[] [] [] [] [] [] [] []]. }
  destruct h as [|c r]; [done|]. apply andb_true_iff in H as [Hc Hr].
  assert (Hx : ∀ x r', r = String x r' → is_char "x" x || is_char "X" x = false).
  { intros x r' ->. apply andb_true_iff in Hr as [Hx _]. by destruct x as [[] [] [] [] [] [] [] []]. }
  destruct r as [|x r']; [by destruct c as [[] [] [] [] [] [] [] []]|]. specialize (Hx x r' eq_refl).
  destruct c as [[] [] [] [] [] [] [] []]; try done. by rewrite Hx.
Qed.

Lemma hyphenate_len h : String.length h = 32%nat → String.length (hyphenate h) = 36%nat.
Proof.
  intros H. do 32 (destruct h as [|? h]; [done|]). destruct h; [|done]. reflexivity.
Qed.
Lemma parse_print n : parse (print n) = Some (n mod 2 ^ 128).
Proof.
  unfold parse, print. set (h := hex_width 32 n). pose proof (hex_width_hex 32 n : sforall is_hex h = true) as Hh.
  pose proof (hyphenate_chars h Hh) as Hc.
  assert (Hno : ∀ p : ascii → bool, (∀ c, hex_or_dash c = true → p c = true) → sforall p (hyphenate h) = true)
    by (intros p Hp; eapply sforall_impl; [exact Hp|exact Hc]).
  rewrite (remove_none "urn:" _ "u" "rn:"), (remove_none "uuid:" _ "u" "uid:");
    [|done|apply Hno; by intros [[] [] [] [] [] [] [] []]|done|apply Hno; by intros [[] [] [] [] [] [] [] []]].
  rewrite lstrip_by_none, rstrip_by_none, remove_hyphens by (done || (apply Hno; by intros [[] [] [] [] [] [] [] []])).
  unfold h. rewrite hex_width_len. cbn [Nat.eqb]. rewrite int_base16_hex by done. by rewrite digits16_width.
Qed.
Lemma hex_width_mod k n : hex_width k (n mod 16 ^ Z.of_nat k) = hex_width k n.
Proof.
  revert n. induction k as [|k IH]; intros n; [done|]. cbn [hex_width].
  rewrite (Nat2Z.inj_succ k), Z.pow_succ_r by lia. rewrite Z.rem_mul_r by lia.
  rewrite (Z.add_comm (n mod 16)), Z.mul_comm, Z.div_add_l by lia. rewrite (Z.div_small (n mod 16)) by (apply Z.mod_pos_bound; lia).
  rewrite Z.add_0_r, IH. f_equal. f_equal. f_equal. rewrite Z.add_comm, Z_mod_plus_full. by rewrite Zmod_mod.
Qed.
Lemma print_mod n : print (n mod 2 ^ 128) = print n.
Proof. unfold print. f_equal. exact (hex_width_mod 32 n). Qed.

Lemma pg_digits_step m a b r :
  is_hex a = true → is_hex b = true → pg_digits (S m) (String a (String b r)) = pg_digits m (pg_skip m r).
Proof. unfold is_hex. simpl. by destruct (hex_val a), (hex_val b). Qed.
Lemma pg_skip_hex m a r : is_hex a = true → pg_skip m (String a r) = String a r.
Proof. intros H. unfold pg_skip. replace (is_char "-" a) with false; [done|]. by destruct a as [[] [] [] [] [] [] [] []]. Qed.
Lemma pg_skip_dash m r : Nat.even m && negb (Nat.eqb m 0) = true → pg_skip m (String "-" r) = r.
Proof. unfold pg_skip. simpl. by intros ->. Qed.

(** The printed form is accepted by a column of type [UUID]. *)
Lemma pg_uuid_print n : pg_uuid (print n) = true.
Proof.
  unfold print. pose proof (hex_width_len 32 n) as Hl. pose proof (hex_width_hex 32 n) as Hh.
  set (h := hex_width 32 n) in *. clearbody h.
  do 32 (destruct h as [|? h]; [done|]; cbn [sforall] in Hh; apply andb_true_iff in Hh as [? Hh]). destruct h; [|done].
  unfold pg_uuid, hyphenate. cbn [stake sdrop]. autorewrite with text_rw. cbv iota beta.
  match goal with |- context [is_char "{"%char ?c] => replace (is_char "{"%char c) with false
    by (clear -H; by destruct c as [[] [] [] [] [] [] [] []]) end.
  repeat (rewrite pg_digits_step by done; try first [rewrite pg_skip_hex by done|rewrite pg_skip_dash by done]).
  reflexivity.
Qed.

Lemma print_nonempty n : print n ≠ "".
Proof.
  intros H. pose proof (hyphenate_len _ (hex_width_len 32 n)) as Hl. unfold print in H. by rewrite H in Hl.
Qed.
Lemma strip_print n : strip (print n) = print n.
Proof.
  apply strip_no_space. eapply sforall_impl; [|apply hyphenate_chars, hex_width_hex]. by intros [[] [] [] [] [] [] [] []].
Qed.

(** C40. A client identifier is normalised once and for all: whatever the client
    sends, the result is the canonical text of one UUID, which the database
    accepts; normalising it again changes nothing; and unless the client sends
    nothing, the result does not depend on the random draw. *)
Theorem normalize_canonical fresh fresh' raw :
  let u := _normalize_client_uuid fresh raw in
  (∃ n, 0 ≤ n < 2 ^ 128 ∧ u = UUID.print n ∧ UUID.parse u = Some n) ∧ pg_uuid u = true ∧
  _normalize_client_uuid fresh' u = u ∧ (strip raw ≠ "" → _normalize_client_uuid fresh' raw = u).
Proof.
  assert (Hp : ∃ n, _normalize_client_uuid fresh raw = print n) by (unfold _normalize_client_uuid; repeat case_match; eauto).
  cbv zeta. destruct Hp as [n Hn]. split_and!.
  - exists (n mod 2 ^ 128). rewrite Hn, print_mod, parse_print. split; [apply Z.mod_pos_bound; lia|done].
  - rewrite Hn. apply pg_uuid_print.
  - rewrite Hn. unfold _normalize_client_uuid. rewrite strip_print, parse_print, print_mod.
    by rewrite (proj2 (truthy_str_true _) (print_nonempty n)).
  - intros Hr. apply truthy_str_true in Hr. unfold _normalize_client_uuid. by rewrite Hr.
Qed.
