(* ===== verification/Base64.v ===== *)
(** * Base64
    [base64.urlsafe_b64encode] and [urlsafe_b64decode] with the decoder's
    character loop (characters outside the alphabet are skipped, padding ends
    the input), and the unpadded pair [b64url_encode]/[b64url_decode] of
    [services/crypto.py], with their round trip. *)
From S2P Require Import Prelude Text.
From Stdlib Require Import Ascii String.
Open Scope Z_scope.

(** The URL-safe alphabet. *)
Definition b64_char (n : Z) : ascii :=
  if n <? 26 then chr (65 + n) else if n <? 52 then chr (71 + n)
  else if n <? 62 then chr (n - 4) else if n =? 62 then "-"%char else "_"%char.
(** The value of a character once "-" and "_" are translated to "+" and "/". *)
Definition b64_val (c : ascii) : option Z :=
  let n := code c in
  if (65 <=? n) && (n <=? 90) then Some (n - 65)
  else if (97 <=? n) && (n <=? 122) then Some (n - 71)
  else if (48 <=? n) && (n <=? 57) then Some (n + 4)
  else if (n =? 45) || (n =? 43) then Some 62
  else if (n =? 95) || (n =? 47) then Some 63
  else None.

Fixpoint urlsafe_b64encode (b : string) : string :=
  match b with
  | "" => ""
  | String x "" =>
      String (b64_char (code x / 4)) (String (b64_char (code x mod 4 * 16)) "==")
  | String x (String y "") =>
      String (b64_char (code x / 4)) (String (b64_char (code x mod 4 * 16 + code y / 16))
        (String (b64_char (code y mod 16 * 4)) "="))
  | String x (String y (String z r)) =>
      String (b64_char (code x / 4)) (String (b64_char (code x mod 4 * 16 + code y / 16))
        (String (b64_char (code y mod 16 * 4 + code z / 64))
          (String (b64_char (code z mod 64)) (urlsafe_b64encode r))))
  end.

(** [binascii.a2b_base64] in its lenient mode: [q] is the position in the
    quadruple, [left] the bits left over, [pads] the padding characters seen. *)
Fixpoint a2b_go (q left pads : Z) (s : string) : option string :=
  match s with
  | "" => if q =? 0 then Some "" else None
  | String c r =>
      if is_char "=" c then
        if 2 <=? q then if 4 <=? q + (pads + 1) then Some "" else a2b_go q left (pads + 1) r
        else a2b_go q left pads r
      else
        match b64_val c with
        | None => a2b_go q left pads r
        | Some v =>
            if q =? 0 then a2b_go 1 v 0 r
            else if q =? 1 then String (chr (left * 4 + v / 16)) <$> a2b_go 2 (v mod 16) 0 r
            else if q =? 2 then String (chr (left * 16 + v / 4)) <$> a2b_go 3 (v mod 4) 0 r
            else String (chr (left * 64 + v)) <$> a2b_go 0 0 0 r
        end
  end.
Definition urlsafe_b64decode (s : string) : option string := a2b_go 0 0 0 s.

(** ** [b64url_encode], [b64url_decode] *)
Definition b64url_encode (raw : string) : string := rstrip_char "=" (urlsafe_b64encode raw).

Fixpoint srepeat (c : ascii) (n : nat) : string :=
  match n with O => "" | S m => String c (srepeat c m) end.
(** [None]: a non-ASCII character or invalid base64 raises. *)
Definition b64url_decode (raw : string) : option string :=
  let pad := srepeat "=" ((4 - (String.length raw mod 4)) mod 4)%nat in
  if is_ascii raw then urlsafe_b64decode (raw +:+ pad) else None.

Example b64url_encode_ex : b64url_encode "any carnal pleas" = "YW55IGNhcm5hbCBwbGVhcw".
Proof. reflexivity. Qed.

(** ** Facts *)
Lemma b64_val_char n : 0 ≤ n < 64 → b64_val (b64_char n) = Some n ∧
  b64_char n ≠ "="%char ∧ (code (b64_char n) <? 128) = true ∧ b64_char n ≠ "."%char.
Proof.
  intros Hn. rewrite <- (Z2Nat.id n) by lia.
  assert (Z.to_nat n < 64)%nat as H by lia. revert H. generalize (Z.to_nat n) as m. clear.
  intros m H. do 64 (destruct m as [|m]; [vm_compute; by repeat split|]). lia.
Qed.

(** A character the encoder emits: in the alphabet, so never padding or a dot. *)
Definition b64_ok (c : ascii) : bool :=
  match b64_val c with Some _ => negb (is_char "=" c) && (code c <? 128) && negb (is_char "." c) | None => false end.

Lemma b64_ok_char n : 0 ≤ n < 64 → b64_ok (b64_char n) = true.
Proof.
  intros Hn. destruct (b64_val_char n Hn) as (Hv & He & Ha & Hd). unfold b64_ok, is_char.
  rewrite Hv, Ha, !bool_decide_eq_false_2; done.
Qed.

(** Unpadded encoding. *)
Fixpoint enc_np (b : string) : string :=
  match b with
  | "" => ""
  | String x "" => String (b64_char (code x / 4)) (String (b64_char (code x mod 4 * 16)) "")
  | String x (String y "") =>
      String (b64_char (code x / 4)) (String (b64_char (code x mod 4 * 16 + code y / 16))
        (String (b64_char (code y mod 16 * 4)) ""))
  | String x (String y (String z r)) =>
      String (b64_char (code x / 4)) (String (b64_char (code x mod 4 * 16 + code y / 16))
        (String (b64_char (code y mod 16 * 4 + code z / 64))
          (String (b64_char (code z mod 64)) (enc_np r))))
  end.

Section string_ind3.
Variable P : string → Prop.
Hypothesis H0 : P "".
Hypothesis H1 : ∀ x, P (String x "").
Hypothesis H2 : ∀ x y, P (String x (String y "")).
Hypothesis H3 : ∀ x y z r, P r → P (String x (String y (String z r))).
Fixpoint string_ind3 (s : string) : P s :=
  match s with
  | "" => H0
  | String x "" => H1 x
  | String x (String y "") => H2 x y
  | String x (String y (String z r)) => H3 x y z r (string_ind3 r)
  end.
End string_ind3.

Ltac code_bounds :=
  repeat match goal with
  | x : ascii |- _ => lazymatch goal with H : 0 ≤ code x < 256 |- _ => fail | _ => pose proof (code_range x) end
  end.
Ltac euclid := code_bounds; Z.to_euclidean_division_equations; lia.

Lemma enc_np_ok b : sforall b64_ok (enc_np b) = true.
Proof.
  induction b as [|x|x y|x y z r IH] using string_ind3; cbn [enc_np sforall]; rewrite ?IH, ?b64_ok_char by euclid; done.
Qed.

Lemma rstrip_char_cons c a s : a ≠ c → rstrip_char c (String a s) = String a (rstrip_char c s).
Proof.
  intros Hne. unfold rstrip_char. cbn [rstrip_by]. unfold is_char at 2.
  rewrite bool_decide_eq_false_2 by done. by destruct (rstrip_by _ s).
Qed.

Lemma b64url_encode_np b : b64url_encode b = enc_np b.
Proof.
  unfold b64url_encode.
  induction b as [|x|x y|x y z r IH] using string_ind3; cbn [urlsafe_b64encode enc_np]; [done|..];
    rewrite !rstrip_char_cons by (apply b64_val_char; euclid); rewrite ?IH; done.
Qed.

(** The decoder reads one encoded character. *)
Lemma a2b_go_char q left pads n s : 0 ≤ n < 64 →
  a2b_go q left pads (String (b64_char n) s) =
    if q =? 0 then a2b_go 1 n 0 s
    else if q =? 1 then String (chr (left * 4 + n / 16)) <$> a2b_go 2 (n mod 16) 0 s
    else if q =? 2 then String (chr (left * 16 + n / 4)) <$> a2b_go 3 (n mod 4) 0 s
    else String (chr (left * 64 + n)) <$> a2b_go 0 0 0 s.
Proof.
  intros Hn. destruct (b64_val_char n Hn) as (Hv & He & _). cbn [a2b_go]. unfold is_char.
  by rewrite Hv, bool_decide_eq_false_2.
Qed.

Definition pad_of (s : string) : string := srepeat "=" ((4 - (String.length s mod 4)) mod 4)%nat.

Lemma pad_of_quad a b c d s : pad_of (String a (String b (String c (String d s)))) = pad_of s.
Proof.
  unfold pad_of. cbn [String.length]. do 2 f_equal.
  replace (S (S (S (S (String.length s))))) with (String.length s + 1 * 4)%nat by lia.
  by rewrite Nat.Div0.mod_add.
Qed.

Lemma chr_eq z c : z = code c → chr z = c.
Proof. intros ->. apply chr_code. Qed.

Lemma a2b_enc_np b : a2b_go 0 0 0 (enc_np b +:+ pad_of (enc_np b)) = Some b.
Proof.
  induction b as [|x|x y|x y z r IH] using string_ind3; [done|..]; cbn [enc_np].
  - rewrite !sapp_cons, !a2b_go_char by euclid. cbn. rewrite (chr_eq _ x) by euclid. done.
  - rewrite !sapp_cons, !a2b_go_char by euclid. cbn.
    rewrite (chr_eq _ x), (chr_eq _ y) by euclid. done.
  - rewrite pad_of_quad, !sapp_cons, !a2b_go_char by euclid. cbn [Z.eqb Pos.eqb]. rewrite IH. cbn.
    rewrite (chr_eq _ x), (chr_eq _ y), (chr_eq _ z) by euclid. done.
Qed.

Lemma urlsafe_b64_roundtrip b : urlsafe_b64decode (urlsafe_b64encode b) = Some b.
Proof.
  unfold urlsafe_b64decode.
  induction b as [|x|x y|x y z r IH] using string_ind3; [done|..]; cbn [urlsafe_b64encode].
  - rewrite !a2b_go_char by euclid. cbn. rewrite (chr_eq _ x) by euclid. done.
  - rewrite !a2b_go_char by euclid. cbn. rewrite (chr_eq _ x), (chr_eq _ y) by euclid. done.
  - rewrite !a2b_go_char by euclid. cbn [Z.eqb Pos.eqb]. rewrite IH. cbn.
    rewrite (chr_eq _ x), (chr_eq _ y), (chr_eq _ z) by euclid. done.
Qed.

Lemma b64_char_ascii n : 0 ≤ n < 64 → (code (b64_char n) <? 128) = true.
Proof. intros Hn. apply (b64_val_char n Hn). Qed.

Lemma urlsafe_b64encode_ascii b : is_ascii (urlsafe_b64encode b) = true.
Proof.
  unfold is_ascii. induction b as [|x|x y|x y z r IH] using string_ind3; [done|..]; cbn [urlsafe_b64encode sforall];
    rewrite !b64_char_ascii by euclid; done.
Qed.

Lemma b64_ok_ascii s : sforall b64_ok s = true → is_ascii s = true.
Proof.
  apply sforall_impl. intros c. unfold b64_ok. case_match; [|done]. by intros [[_ ?]%andb_true_iff _]%andb_true_iff.
Qed.

Lemma b64url_decode_encode_np raw : b64url_decode (enc_np raw) = Some raw.
Proof.
  unfold b64url_decode. rewrite (b64_ok_ascii _ (enc_np_ok raw)). apply a2b_enc_np.
Qed.

Lemma b64url_roundtrip raw : b64url_decode (b64url_encode raw) = Some raw.
Proof. rewrite b64url_encode_np. apply b64url_decode_encode_np. Qed.

Lemma b64url_encode_ok raw : sforall b64_ok (b64url_encode raw) = true.
Proof. rewrite b64url_encode_np. apply enc_np_ok. Qed.

Lemma b64url_encode_no_dot raw : sforall (λ c, negb (is_char "." c)) (b64url_encode raw) = true.
Proof.
  eapply sforall_impl; [|apply b64url_encode_ok]. intros c. unfold b64_ok. case_match; [|done].
  by intros [_ ?]%andb_true_iff.
Qed.
#[export] Hint Rewrite b64url_roundtrip : text_rw.
