(* ===== verification/Versions.v ===== *)
(** * Versions
    [_parse_version_tuple] and [_infer_platform_variant] of [app/main.py], with
    Python's order on tuples of integers. *)
From S2P Require Import Prelude Text.
From Stdlib Require Import Ascii String.
Open Scope Z_scope.

(** [a < b] on tuples of ints *)
Fixpoint tuple_ltb (a b : list Z) : bool :=
  match a, b with
  | [], [] => false
  | [], _ :: _ => true
  | _ :: _, [] => false
  | x :: a', y :: b' => if x <? y then true else if y <? x then false else tuple_ltb a' b'
  end.

Definition _parse_version_tuple (v : string) : list Z :=
  match mapM py_int (split_on "." v) with
  | Some l => l
  | None => [0]
  end.

(** [manifest_version] is [int | None]. *)
Definition _infer_platform_variant (platform_type platform_version : string)
    (manifest_version : option Z) : option string :=
  if bool_decide (platform_type = "thunderbird") then
    let v := _parse_version_tuple platform_version in
    if tuple_ltb v [78; 0; 0] then Some "tb60"
    else if tuple_ltb v [128; 0; 0] then Some "tb78"
    else Some "tb128"
  else if bool_decide (platform_type = "chrome" ∨ platform_type = "edge") then
    match manifest_version with
    | Some m => if m =? 0 then Some "mv3" else Some ("mv" +:+ py_str_int m)
    | None => Some "mv3"
    end
  else None.

(** ** Specification of the order *)
(** [a] is smaller than [b]: at the first place they differ [a] is smaller, or
    [a] is a proper prefix of [b]. *)
Definition tuple_lt (a b : list Z) : Prop :=
  (∃ p x y ra rb, a = p ++ x :: ra ∧ b = p ++ y :: rb ∧ x < y) ∨ (∃ y rb, b = a ++ y :: rb).

(** The text of a version with the given segments. *)
Definition version_text (l : list Z) : string := sjoin "." (py_str_int <$> l).

(** ** Facts *)
Lemma tuple_ltb_cons x a y b :
  tuple_ltb (x :: a) (y :: b) = (x <? y) || ((x =? y) && tuple_ltb a b).
Proof.
  simpl. destruct (Z.ltb_spec x y), (Z.ltb_spec y x), (Z.eqb_spec x y); simpl; try done; lia.
Qed.

Lemma tuple_ltb_true a b : tuple_ltb a b = true ↔ tuple_lt a b.
Proof.
  revert b. induction a as [|x a IH]; intros [|y b].
  - split; [done|]. intros [(p & x & y & ra & rb & Ha & _)|(y & rb & Hb)]; [by destruct p|done].
  - split; [|done]. intros _. right. by exists y, b.
  - split; [done|]. intros [(p & x' & y & ra & rb & _ & Hb & _)|(y & rb & Hb)]; [by destruct p|done].
  - rewrite tuple_ltb_cons, orb_true_iff, andb_true_iff, Z.ltb_lt, Z.eqb_eq, IH. split.
    + intros [Hlt|[-> [(p & x' & z & ra & rb & -> & -> & Hlt)|(z & rb & ->)]]].
      * left. by exists [], x, y, a, b.
      * left. by exists (y :: p), x', z, ra, rb.
      * right. by exists z, rb.
    + intros [(p & x' & y' & ra & rb & Ha & Hb & Hlt)|(z & rb & Hb)].
      * destruct p as [|p0 p]; simplify_eq/=; [by left|].
        right. split; [done|]. left. by exists p, x', y', ra, rb.
      * simplify_eq/=. right. split; [done|]. right. by exists z, rb.
Qed.

#[export] Instance tuple_lt_dec : RelDecision tuple_lt.
Proof.
  intros a b. destruct (tuple_ltb a b) eqn:E.
  - left. by apply tuple_ltb_true.
  - right. intros H%tuple_ltb_true. congruence.
Defined.

Lemma tuple_ltb_irrefl a : tuple_ltb a a = false.
Proof. induction a as [|x a IH]; [done|]. by rewrite tuple_ltb_cons, Z.ltb_irrefl, IH, andb_false_r. Qed.

Lemma tuple_ltb_trans a b c : tuple_ltb a b = true → tuple_ltb b c = true → tuple_ltb a c = true.
Proof.
  revert b c. induction a as [|x a IH]; intros [|y b] [|z c]; try done.
  rewrite !tuple_ltb_cons, !orb_true_iff, !andb_true_iff, !Z.ltb_lt, !Z.eqb_eq.
  intros [?|[-> ?]] [?|[-> ?]]; [left; lia|left; lia|left; lia|right]. eauto.
Qed.

Lemma tuple_ltb_total a b : tuple_ltb a b = false → tuple_ltb b a = false → a = b.
Proof.
  revert b. induction a as [|x a IH]; intros [|y b]; try done.
  rewrite !tuple_ltb_cons, !orb_false_iff, !andb_false_iff, !Z.ltb_ge, !Z.eqb_neq.
  intros [? [?|?]] [? [?|?]]; try lia. f_equal; [lia|auto].
Qed.

Lemma tuple_ltb_asym a b : tuple_ltb a b = true → tuple_ltb b a = false.
Proof.
  intros H. destruct (tuple_ltb b a) eqn:E; [|done].
  pose proof (tuple_ltb_trans _ _ _ H E) as Haa. by rewrite tuple_ltb_irrefl in Haa.
Qed.

#[export] Instance tuple_lt_strict : StrictOrder tuple_lt.
Proof.
  split.
  - intros a H%tuple_ltb_true. by rewrite tuple_ltb_irrefl in H.
  - intros a b c Hab%tuple_ltb_true Hbc%tuple_ltb_true. apply tuple_ltb_true.
    by eapply tuple_ltb_trans.
Qed.

(** Parsing the printed segments gives them back. *)
Lemma split_on_sjoin l :
  l ≠ [] → Forall (λ w, sforall (λ c, negb (is_char "." c)) w = true) l →
  split_on "." (sjoin "." l) = l.
Proof.
  intros Hne Hl. induction Hl as [|w l Hw Hl IH]; [done|].
  assert (Happ : ∀ t, split_on "." (w +:+ t) = match split_on "." t with [] => [w] | x :: r => (w +:+ x) :: r end).
  { clear -Hw. intros t. induction w as [|c w IHw]; [rewrite sapp_nil_l; destruct t as [|c t]; simpl; repeat case_match; done|].
    simpl in Hw. unfold is_char in Hw. bool_hyps. rewrite sapp_cons. simpl. rewrite decide_False by done.
    rewrite IHw by done. destruct (split_on "." t); done. }
  destruct l as [|w' l].
  - simpl. rewrite <- (sapp_nil_r w) at 1. rewrite Happ. simpl. by rewrite sapp_nil_r.
  - change (sjoin "." (w :: w' :: l)) with (w +:+ String "." (sjoin "." (w' :: l))).
    rewrite Happ. cbn [split_on]. rewrite decide_True by done. by rewrite sapp_nil_r, IH.
Qed.

Lemma py_str_int_no_dot z : sforall (λ c, negb (is_char "." c)) (py_str_int z) = true.
Proof.
  assert (Hd : ∀ s, sforall is_digit s = true → sforall (λ c, negb (is_char "." c)) s = true).
  { intros s. apply sforall_impl. by intros [[] [] [] [] [] [] [] []]. }
  unfold py_str_int. destruct (z <? 0) eqn:E; bool_hyps.
  - change (sforall _ (String "-" ?s)) with (sforall (λ c, negb (is_char "." c)) s).
    apply Hd. eapply dec_go_spec; lia.
  - apply Hd. eapply dec_go_spec; lia.
Qed.

Lemma parse_version_text l : l ≠ [] → _parse_version_tuple (version_text l) = l.
Proof.
  intros Hne. unfold _parse_version_tuple, version_text. rewrite split_on_sjoin.
  - enough (mapM py_int (py_str_int <$> l) = Some l) as -> by done.
    clear. induction l as [|z l IH]; [done|]. rewrite fmap_cons. cbn [mapM]. by rewrite py_int_str_int, IH.
  - by destruct l.
  - apply Forall_fmap, Forall_true. intros z. apply py_str_int_no_dot.
Qed.

(** Comparing two dotted versions through [_parse_version_tuple] compares
    their segments numerically from the left, whatever the number of segments,
    and two versions that compare neither way have the same segments. *)
Theorem version_order a b :
  a ≠ [] → b ≠ [] →
  let ta := _parse_version_tuple (version_text a) in
  let tb := _parse_version_tuple (version_text b) in
  (tuple_ltb ta tb = true ↔ tuple_lt a b) ∧
  (tuple_ltb ta tb = false → tuple_ltb tb ta = false → a = b).
Proof.
  intros Ha Hb. cbv zeta. rewrite !parse_version_text by done.
  split; [apply tuple_ltb_true|apply tuple_ltb_total].
Qed.
Lemma version_order_witness :
  tuple_ltb (_parse_version_tuple "9.10") (_parse_version_tuple "10.2.1") = true.
Proof. destruct (version_order [9; 10] [10; 2; 1]) as [H _]; [done|done|]. apply H. left. by exists [], 9, 10, [10], [2; 1]. Defined.

(** The variant of a Thunderbird host depends on its major version alone,
    with the thresholds 78 and 128, when the version has three or more
    segments; a host that reports just [128.0] gets the variant of the
    previous generation, since the tuple of two segments is smaller. *)
Theorem platform_variant_thunderbird m n p r mv :
  0 ≤ n → 0 ≤ p →
  _infer_platform_variant "thunderbird" (version_text (m :: n :: p :: r)) mv
  = Some (if m <? 78 then "tb60" else if m <? 128 then "tb78" else "tb128") ∧
  _infer_platform_variant "thunderbird" "128.0" mv = Some "tb78".
Proof.
  intros Hn Hp. split; [|done]. unfold _infer_platform_variant.
  rewrite parse_version_text by done. cbv zeta.
  rewrite bool_decide_eq_true_2 by done. rewrite !tuple_ltb_cons.
  destruct (Z.ltb_spec m 78), (Z.ltb_spec m 128), (Z.eqb_spec m 78), (Z.eqb_spec m 128),
    (Z.ltb_spec n 0), (Z.ltb_spec p 0), r; simpl; rewrite ?andb_false_r; try done; lia.
Qed.
Lemma platform_variant_thunderbird_witness :
  _infer_platform_variant "thunderbird" "128.5.0" None = Some "tb128".
Proof. by destruct (platform_variant_thunderbird 128 5 0 [] None ltac:(lia) ltac:(lia)) as [H _]. Defined.
