(* ===== verification/Cohorts.v ===== *)
(** * Cohorts
    Which cohorts a device belongs to: [_resolve_device_cohorts] of
    [app/main.py], and the operations of [app/admin/services/cohorts.py] that
    write the two tables. [re.match] is an argument of the resolution: a
    pattern that does not compile gives [None]. The clock is read once per
    resolution. *)
From S2P Require Import Prelude Text Json Hashing.
From Stdlib Require Import Ascii String.
Open Scope Z_scope.

Record cohort_row : Type := CohortRow {
  co_id : Z; co_name : string; co_description : string; co_type : string; co_config : json }.
Record member_row : Type := MemberRow { cm_cohort : Z; cm_type : string; cm_value : string }.
#[export] Instance member_row_eq_dec : EqDecision member_row.
Proof. solve_decision. Defined.

(** [_KC_GROUP_CACHE]: group name to expiry and emails *)
Definition kc_cache : Type := list (string * (Z * list string)).
Definition _KC_GROUP_CACHE_TTL : Z := 300.

(** ** Resolution *)
Module Resolve.
Section resolve.
Variable re_match : string → string → option bool.
Variables (email client_uuid : string) (now : Z).

(** The [SELECT DISTINCT cohort_id] over the members. *)
Definition manual_query (manual_ids : list Z) (members : list member_row) : list Z :=
  cm_cohort <$> filter (λ m, cm_cohort m ∈ manual_ids ∧
    ((cm_type m = "email" ∧ cm_value m = email) ∨
     (cm_type m = "client_uuid" ∧ cm_value m = client_uuid))) members.

Definition manual_ids (cohorts : list cohort_row) : list Z :=
  co_id <$> filter (λ c, co_type c = "manual") cohorts.

Definition manual_matched (cohorts : list cohort_row) (members : table member_row) : list Z :=
  let ids := manual_ids cohorts in
  match ids with
  | [] => []
  | _ => match members with Some ms => manual_query ids ms | None => [] end
  end.

(** [cconfig] once defaulted and parsed *)
Definition cconfig (row : cohort_row) : json :=
  let c := jor (co_config row) (JObj []) in
  match c with
  | JStr s => match loads s with Some v => v | None => JObj [] end
  | _ => c
  end.
(** [cconfig.get(k, dflt)]; raises unless it is a dict *)
Definition cget (row : cohort_row) (k : string) (dflt : json) : result exn json :=
  match cconfig row with JObj d => Ok (jget_or k d dflt) | _ => Err tt end.

Definition bucket100 (uuid : string) : Z := int16 (sha256_hex (utf8_encode uuid)) mod 100.

Definition kc_lookup (cache : kc_cache) (group : string) : list string * kc_cache :=
  match dget group cache with
  | Some (expiry, emails) =>
      if now <? expiry then (emails, cache)
      else ([], dset group (now + _KC_GROUP_CACHE_TTL, []) cache)
  | None => ([], dset group (now + _KC_GROUP_CACHE_TTL, []) cache)
  end.

(** One row of the loop: does it match, and the cache after it. *)
Definition match_row (manual : list Z) (row : cohort_row) (cache : kc_cache) : result exn (bool * kc_cache) :=
  let ctype := co_type row in
  if bool_decide (ctype = "manual") then Ok (bool_decide (co_id row ∈ manual), cache)
  else if bool_decide (ctype = "percentage") then
    let* v := cget row "percentage" (JInt 0) in
    let* pct := py_int_json v in
    Ok ((0 <? pct) && truthy_str client_uuid && (bucket100 client_uuid <? pct), cache)
  else if bool_decide (ctype = "email_pattern") then
    let* v := cget row "pattern" (JStr "") in
    let pattern := py_str v in
    Ok (truthy_str pattern && default false (re_match pattern email), cache)
  else if bool_decide (ctype = "keycloak_group") then
    let* v := cget row "group_name" (JStr "") in
    let group_name := py_str v in
    if truthy_str group_name && truthy_str email then
      let '(emails, cache') := kc_lookup cache group_name in
      Ok (bool_decide (lower email ∈ lower <$> emails), cache')
    else Ok (false, cache)
  else Ok (false, cache).

Fixpoint match_rows (manual : list Z) (rows : list cohort_row) (cache : kc_cache)
    (matched : list Z) : result exn (list Z * kc_cache) :=
  match rows with
  | [] => Ok (matched, cache)
  | row :: rest =>
      let* r := match_row manual row cache in
      match_rows manual rest r.2 (if r.1 : bool then matched ++ [co_id row] else matched)
  end.

(** The cohort ids of the device and the group cache afterwards. *)
Definition _resolve_device_cohorts (cohorts : table cohort_row) (members : table member_row)
    (cache : kc_cache) : result exn (list Z * kc_cache) :=
  match cohorts with
  | None | Some [] => Ok ([], cache)
  | Some rows => match_rows (manual_matched rows members) rows cache []
  end.
End resolve.
End Resolve.

(** ** [app/admin/services/cohorts.py] *)
Module Service.
(** The two tables, and the next value of the [SERIAL] key. *)
Record state : Type := State { st_cohorts : list cohort_row; st_members : list member_row; st_next : Z }.

Definition cohort_types : list string := ["manual"; "percentage"; "email_pattern"; "keycloak_group"].

(** The insert fails on a taken name or a type outside the CHECK. *)
Definition create_cohort (st : state) (name description type : string) (config : json) : result exn (Z * state) :=
  if decide (type ∈ cohort_types) then
    if existsb (λ c, bool_decide (co_name c = name)) (st_cohorts st) then Err tt
    else
      let row := CohortRow (st_next st) name description type (jor config (JObj [])) in
      Ok (st_next st, State (st_cohorts st ++ [row]) (st_members st) (st_next st + 1))
  else Err tt.

Definition get_cohort (st : state) (cohort_id : Z) : option cohort_row :=
  find (λ c, bool_decide (co_id c = cohort_id)) (st_cohorts st).

(** One insert [ON CONFLICT DO NOTHING] and its [rowcount]; the foreign key and
    the CHECK on the identifier type raise. *)
Definition add_member (st : state) (cohort_id : Z) (id_type id_value : string) : result exn (Z * state) :=
  let m := MemberRow cohort_id id_type (strip id_value) in
  if decide (id_type ∈ ["email"; "client_uuid"]) then
    if decide (cohort_id ∈ co_id <$> st_cohorts st) then
      if decide (m ∈ st_members st) then Ok (0, st)
      else Ok (1, State (st_cohorts st) (st_members st ++ [m]) (st_next st))
    else Err tt
  else Err tt.

Fixpoint add_members_go (st : state) (cohort_id : Z) (members : list (string * string)) (count : Z) : result exn (Z * state) :=
  match members with
  | [] => Ok (count, st)
  | (t, v) :: rest =>
      let* r := add_member st cohort_id t v in
      add_members_go r.2 cohort_id rest (count + r.1)
  end.
Definition add_members (st : state) (cohort_id : Z) (members : list (string * string)) : result exn (Z * state) :=
  add_members_go st cohort_id members 0.

(** [referenced]: the cohort is the target of a campaign, a communication or
    another row that the delete does not cascade to. *)
Definition delete_cohort (referenced : Z → bool) (st : state) (cohort_id : Z) : result exn (bool * state) :=
  if decide (cohort_id ∈ co_id <$> st_cohorts st) then
    if referenced cohort_id then Err tt
    else Ok (true, State (filter (λ c, co_id c ≠ cohort_id) (st_cohorts st))
                     (filter (λ m, cm_cohort m ≠ cohort_id) (st_members st)) (st_next st))
  else Ok (false, st).

(** [round(total * pct / 100)]: to the nearest, halves to even *)
Definition round_div100 (n : Z) : Z :=
  let q := n / 100 in let r := n mod 100 in
  if r <? 50 then q else if 50 <? r then q + 1 else if Z.even q then q else q + 1.
(** [device_total] and [matching] are the counts of distinct devices that the
    two queries return. *)
Definition estimate_device_count (device_total : Z) (matching : string → Z) (cohort_type value : string) : Z :=
  if bool_decide (cohort_type = "percentage") then
    round_div100 (device_total * match py_int value with Some p => p | None => 0 end)
  else if bool_decide (cohort_type = "email_pattern") then matching value
  else 0.
End Service.

(** ** Specification *)
(** The caches the process can hold: empty at start, changed by lookups only. *)
Inductive kc_reachable : kc_cache → Prop :=
| kc_reach_init : kc_reachable []
| kc_reach_lookup now cache group :
    kc_reachable cache → kc_reachable (Resolve.kc_lookup now cache group).2.

Section spec.
Variable re_match : string → string → option bool.
Variables (email client_uuid : string).

(** The row can be evaluated: the resolution does not raise on it. *)
Definition row_ok (row : cohort_row) : bool :=
  if bool_decide (co_type row = "email_pattern" ∨ co_type row = "keycloak_group") then
    match Resolve.cconfig row with JObj _ => true | _ => false end
  else if bool_decide (co_type row = "percentage") then
    match Resolve.cget row "percentage" (JInt 0) with
    | Ok v => match py_int_json v with Ok _ => true | Err _ => false end
    | Err _ => false
    end
  else true.

(** The device belongs to the cohort of the row. *)
Definition belongs (ms : list member_row) (row : cohort_row) : bool :=
  if bool_decide (co_type row = "manual") then
    existsb (λ m, bool_decide (cm_cohort m = co_id row ∧
      ((cm_type m = "email" ∧ cm_value m = email) ∨
       (cm_type m = "client_uuid" ∧ cm_value m = client_uuid)))) ms
  else if bool_decide (co_type row = "percentage") then
    match Resolve.cget row "percentage" (JInt 0) with
    | Ok v => match py_int_json v with
              | Ok pct => truthy_str client_uuid && (Resolve.bucket100 client_uuid <? pct)
              | Err _ => false
              end
    | Err _ => false
    end
  else if bool_decide (co_type row = "email_pattern") then
    match Resolve.cget row "pattern" (JStr "") with
    | Ok v => truthy_str (py_str v) && bool_decide (re_match (py_str v) email = Some true)
    | Err _ => false
    end
  else false.

Definition cache_empty (cache : kc_cache) : Prop := Forall (λ kv, kv.2.2 = []) cache.

Lemma dset_Forall {A} (P : string * A → Prop) k v d : Forall P d → P (k, v) → Forall P (dset k v d).
Proof.
  induction 1 as [|[k1 v1] d Hx Hd IH]; simpl; intros Hv; [by repeat constructor|].
  case_decide; subst; constructor; auto.
Qed.

Lemma kc_lookup_empty now cache group :
  cache_empty cache →
  (Resolve.kc_lookup now cache group).1 = [] ∧ cache_empty (Resolve.kc_lookup now cache group).2.
Proof.
  intros Hc. unfold Resolve.kc_lookup.
  assert (Hset : cache_empty (dset group (now + _KC_GROUP_CACHE_TTL, []) cache)) by (apply dset_Forall; [exact Hc|reflexivity]).
  destruct (dget group cache) as [[expiry emails]|] eqn:E; [|done].
  case_match; [|done]. split; [|done].
  apply dget_Some_elem in E. unfold cache_empty in Hc. rewrite Forall_forall in Hc. exact (Hc _ E).
Qed.

Lemma kc_reachable_empty cache : kc_reachable cache → cache_empty cache.
Proof. induction 1; [constructor|]. by apply kc_lookup_empty. Qed.

Lemma bucket100_range u : 0 ≤ Resolve.bucket100 u < 100.
Proof. apply Z.mod_pos_bound. lia. Qed.

Lemma manual_matched_spec rows ms row :
  row ∈ rows → co_type row = "manual" →
  bool_decide (co_id row ∈ Resolve.manual_matched email client_uuid rows (Some ms)) = belongs ms row.
Proof.
  intros Hrow Hty. unfold belongs. rewrite (bool_decide_eq_true_2 (co_type row = "manual")) by done.
  assert (Hid : co_id row ∈ Resolve.manual_ids rows).
  { apply list_elem_of_fmap. exists row. split; [done|]. by apply list_elem_of_filter. }
  unfold Resolve.manual_matched. destruct (Resolve.manual_ids rows) as [|i ids] eqn:E; [set_solver|].
  rewrite <- E in *. apply eq_true_iff_eq. rewrite bool_decide_eq_true, existsb_exists.
  unfold Resolve.manual_query. rewrite list_elem_of_fmap. split.
  - intros (m & Hm & [Hin Hms]%list_elem_of_filter). exists m. split; [by apply list_elem_of_In|].
    apply bool_decide_eq_true. by split; [|apply Hin].
  - intros (m & Hms%list_elem_of_In & Hb%bool_decide_eq_true). destruct Hb as [Hc Hb].
    exists m. split; [done|]. apply list_elem_of_filter. rewrite Hc. by split_and!.
Qed.

Lemma match_row_spec now rows ms row cache :
  row ∈ rows → row_ok row = true → cache_empty cache →
  ∃ cache', Resolve.match_row re_match email client_uuid now
      (Resolve.manual_matched email client_uuid rows (Some ms)) row cache
    = Ok (belongs ms row, cache') ∧ cache_empty cache'.
Proof.
  intros Hrow Hok Hc. unfold Resolve.match_row.
  destruct (bool_decide (co_type row = "manual")) eqn:Em; bool_hyps.
  { exists cache. by rewrite manual_matched_spec. }
  unfold row_ok in Hok. unfold belongs. rewrite (bool_decide_eq_false_2 (_ = "manual")) by done.
  destruct (bool_decide (co_type row = "percentage")) eqn:Ep; bool_hyps.
  { rewrite bool_decide_eq_false_2 in Hok by (intros [?|?]; congruence).
    destruct (Resolve.cget row _ _) as [v|]; [|done]. simpl.
    destruct (py_int_json v) as [pct|]; [|done]. simpl. exists cache. split; [|done]. do 2 f_equal.
    pose proof (bucket100_range client_uuid).
    destruct (Z.ltb_spec 0 pct); [done|]. simpl. symmetry. apply andb_false_iff. right.
    apply Z.ltb_ge. lia. }
  destruct (bool_decide (co_type row = "email_pattern")) eqn:Ee; bool_hyps.
  { rewrite bool_decide_eq_true_2 in Hok by naive_solver. unfold Resolve.cget.
    destruct (Resolve.cconfig row); try done. simpl. exists cache. split; [|done]. do 3 f_equal.
    by destruct (re_match _ _) as [[]|]. }
  destruct (bool_decide (co_type row = "keycloak_group")) eqn:Ek; bool_hyps; [|by exists cache].
  rewrite bool_decide_eq_true_2 in Hok by naive_solver. unfold Resolve.cget.
  destruct (Resolve.cconfig row) as [| | | | |d]; try done. cbn -[Resolve.kc_lookup].
  set (g := py_str _). destruct (truthy_str g && truthy_str email); [|by exists cache].
  destruct (kc_lookup_empty now cache g Hc) as [He Hc'].
  destruct (Resolve.kc_lookup now cache g) as [emails cache']. simpl in *. subst emails.
  exists cache'. split; [|done]. by rewrite bool_decide_eq_false_2 by set_solver.
Qed.

Lemma match_rows_spec now rows0 ms rows cache acc :
  rows ⊆ rows0 → forallb row_ok rows = true → cache_empty cache →
  ∃ cache', Resolve.match_rows re_match email client_uuid now
      (Resolve.manual_matched email client_uuid rows0 (Some ms)) rows cache acc
    = Ok (acc ++ (co_id <$> filter (λ r, belongs ms r = true) rows), cache') ∧ cache_empty cache'.
Proof.
  revert cache acc. induction rows as [|row rows IH]; intros cache acc Hsub Hok Hc.
  { exists cache. by rewrite app_nil_r. }
  simpl in Hok. bool_hyps. cbn [Resolve.match_rows].
  destruct (match_row_spec now rows0 ms row cache) as (c1 & -> & Hc1); [set_solver|done|done|].
  cbn [rbind fst snd].
  destruct (IH c1 (if belongs ms row then acc ++ [co_id row] else acc)) as (c2 & -> & Hc2);
    [set_solver|done|done|].
  exists c2. split; [|done]. rewrite filter_cons. destruct (belongs ms row); simpl; [|done].
  by rewrite <- (assoc (++)).
Qed.
End spec.

(** For every group cache the process can hold, when every row can be
    evaluated, the resolution returns the ids of exactly the cohorts the device
    belongs to, in table order: the manual cohorts that list its email or its
    client id, the percentages above its hash bucket, the patterns that match
    its email; a [keycloak_group] cohort never matches. *)
Theorem device_cohorts_spec re_match email client_uuid now rows ms cache :
  kc_reachable cache → forallb row_ok rows = true →
  ∃ cache', Resolve._resolve_device_cohorts re_match email client_uuid now (Some rows) (Some ms) cache
    = Ok (co_id <$> filter (λ r, belongs re_match email client_uuid ms r = true) rows, cache').
Proof.
  intros Hc%kc_reachable_empty Hok. unfold Resolve._resolve_device_cohorts.
  destruct rows as [|row rows]; [by exists cache|].
  edestruct (match_rows_spec re_match email client_uuid now (row :: rows) ms (row :: rows) cache [])
    as (c & -> & _); [done..|]. by exists c.
Qed.
Definition cohort_rows_ex : list cohort_row :=
  [CohortRow 1 "pilot" "" "manual" JNull;
   CohortRow 2 "half" "" "percentage" (JObj [("percentage", JInt 50)]);
   CohortRow 3 "staff" "" "keycloak_group" (JObj [("group_name", JStr "staff")]);
   CohortRow 4 "all" "" "percentage" (JStr (String "{" (String "034" ("percentage" +:+ String "034" ":100}"))))].
Lemma device_cohorts_spec_witness :
  ∃ cache', Resolve._resolve_device_cohorts (λ _ _, None) "a@b.fr" "abc" 1000
    (Some cohort_rows_ex) (Some [MemberRow 1 "email" "a@b.fr"]) [] = Ok ([1; 4], cache').
Proof. exact (device_cohorts_spec (λ _ _, None) "a@b.fr" "abc" 1000 cohort_rows_ex [MemberRow 1 "email" "a@b.fr"] [] kc_reach_init eq_refl). Defined.

(** Percentage cohorts are nested and stable: a device in a cohort of [p]
    percent is in every cohort of [q >= p] percent, whatever the cohort, and
    every device that has a client id is in a cohort of 100 percent. *)
Theorem percentage_nested re_match email client_uuid ms id1 id2 n1 n2 d1 d2 p q :
  p ≤ q →
  let row id n d z := CohortRow id n d "percentage" (JObj [("percentage", JInt z)]) in
  (belongs re_match email client_uuid ms (row id1 n1 d1 p) = true →
   belongs re_match email client_uuid ms (row id2 n2 d2 q) = true) ∧
  (client_uuid ≠ "" → belongs re_match email client_uuid ms (row id2 n2 d2 100) = true).
Proof.
  intros Hpq. cbv zeta. unfold belongs. simpl. pose proof (bucket100_range client_uuid).
  split.
  - rewrite !andb_true_iff, !Z.ltb_lt. intros [??]. split; [done|lia].
  - intros Hu%truthy_str_true. rewrite Hu. simpl. apply Z.ltb_lt. lia.
Qed.
Lemma percentage_nested_witness :
  belongs (λ _ _, None) "" "u1" [] (CohortRow 1 "" "" "percentage" (JObj [("percentage", JInt 100)])) = true.
Proof. by apply (percentage_nested (λ _ _, None) "" "u1" [] 1 1 "" "" "" "" 5 100). Defined.
