(* ===== verification/Flags.v ===== *)
(** * Feature flags
    The catalogue of [app/admin/services/flags.py] (tables [feature_flags] and
    [feature_flag_overrides], their CRUD and the reconciliation with an imported
    template) and what [app/main.py] serves from it: [_resolve_feature_flags],
    [_resolve_forced_flags] and the merge into [features]. *)
From S2P Require Import Prelude Text Json Versions.
From Stdlib Require Import Ascii String.
Open Scope Z_scope.

(** [ff_default]: [None] transparent, [Some b] forced. *)
Record flag_row : Type := FlagRow {
  ff_id : Z; ff_name : string; ff_slug : string; ff_description : string;
  ff_default : option bool; ff_deprecated : bool; ff_min : option string }.
Record override_row : Type := OverrideRow {
  fo_feature : Z; fo_cohort : Z; fo_value : bool; fo_min : option string }.

(** The two tables, and the next value of the [SERIAL] key (an insert that ends
    in ON CONFLICT draws one too). *)
Record flag_state : Type := FlagState {
  fs_flags : list flag_row; fs_overrides : list override_row; fs_next : Z }.

(** ** Serving: [app/main.py] *)
Module Serve.
(** [_gated]: the gate blocks, because the version is unknown or too old. *)
Definition _gated (plugin_version : string) (min_pv : option string) : bool :=
  match min_pv with
  | None => false
  | Some m =>
      if negb (truthy_str m) then false
      else if negb (truthy_str plugin_version) then true
      else tuple_ltb (_parse_version_tuple plugin_version) (_parse_version_tuple m)
  end.

(** A row of the join: name, value, the gate of the override, that of the flag. *)
Record hit : Type := Hit { h_name : string; h_value : bool; h_min : option string; h_flag_min : option string }.

Definition overrides_query (flags : list flag_row) (overrides : list override_row)
    (cohorts : list Z) (slug : string) : list hit :=
  o ← overrides;
  f ← filter (λ f, ff_id f = fo_feature o ∧ fo_cohort o ∈ cohorts ∧ ff_deprecated f = false ∧
                   (ff_slug f = "" ∨ ff_slug f = slug)) flags;
  [Hit (ff_name f) (fo_value o) (fo_min o) (ff_min f)].

Definition apply_hit (plugin_version : string) (flags : list (string * bool)) (h : hit) : list (string * bool) :=
  if _gated plugin_version (h_flag_min h) || _gated plugin_version (h_min h) then flags
  else dset (h_name h) (default true (dget (h_name h) flags) && h_value h) flags.

Definition _resolve_feature_flags (flags : table flag_row) (overrides : table override_row)
    (device_cohort_ids : list Z) (plugin_version plugin_slug : string) : list (string * bool) :=
  match device_cohort_ids with
  | [] => []
  | _ =>
      match flags, overrides with
      | Some fs, Some os =>
          foldl (apply_hit plugin_version) [] (overrides_query fs os device_cohort_ids plugin_slug)
      | _, _ => []
      end
  end.

Definition forced_query (flags : list flag_row) (slug : string) : list flag_row :=
  filter (λ f, ff_default f ≠ None ∧ ff_deprecated f = false ∧ (ff_slug f = "" ∨ ff_slug f = slug)) flags.

Definition apply_forced (plugin_version : string) (out : list (string * bool)) (f : flag_row) : list (string * bool) :=
  let set := dset (ff_name f) (default false (ff_default f)) out in
  match ff_min f with
  | None => set
  | Some m =>
      if truthy_str m then
        if negb (truthy_str plugin_version) then out
        else if tuple_ltb (_parse_version_tuple plugin_version) (_parse_version_tuple m) then out
        else set
      else set
  end.

Definition _resolve_forced_flags (flags : table flag_row) (plugin_version plugin_slug : string) : list (string * bool) :=
  match flags with
  | Some fs => foldl (apply_forced plugin_version) [] (forced_query fs plugin_slug)
  | None => []
  end.

(** The [features] of the response: template, then forced, then cohorts. *)
Definition features_resolved (template_toggles : json) (forced flags : list (string * bool)) : list (string * json) :=
  let base := match template_toggles with JObj d => d | _ => [] end in
  let js d := (λ kb : string * bool, (kb.1, JBool kb.2)) <$> d in
  dupdate (dupdate base (js forced)) (js flags).
End Serve.

(** ** The catalogue: [app/admin/services/flags.py] *)
Module Catalogue.
(** [flag_state(default_value)] *)
Definition flag_state_label (v : option bool) : string :=
  match v with None => "transparent" | Some true => "forced_on" | Some false => "forced_off" end.

Definition key_eqb (slug name : string) (f : flag_row) : bool :=
  bool_decide (ff_slug f = slug ∧ ff_name f = name).
Definition flag_at (slug name : string) (rows : list flag_row) : option flag_row :=
  find (key_eqb slug name) rows.

Definition get_flag (st : flag_state) (flag_id : Z) : option flag_row :=
  find (λ f, bool_decide (ff_id f = flag_id)) (fs_flags st).

(** The unique index on (plugin_slug, name) makes the insert raise. *)
Definition create_flag (st : flag_state) (name description : string) (default_value : option bool)
    (plugin_slug : string) (min_plugin_version : option string) : result exn (Z * flag_state) :=
  match flag_at plugin_slug name (fs_flags st) with
  | Some _ => Err tt
  | None =>
      let min := match min_plugin_version with Some m => if truthy_str m then Some m else None | None => None end in
      let row := FlagRow (fs_next st) name plugin_slug description default_value false min in
      Ok (fs_next st, FlagState (fs_flags st ++ [row]) (fs_overrides st) (fs_next st + 1))
  end.

Definition update_flag_default (st : flag_state) (flag_id : Z) (value : option bool) : bool * flag_state :=
  (bool_decide (flag_id ∈ ff_id <$> fs_flags st),
   FlagState ((λ f, if decide (ff_id f = flag_id)
                    then FlagRow (ff_id f) (ff_name f) (ff_slug f) (ff_description f) value (ff_deprecated f) (ff_min f)
                    else f) <$> fs_flags st) (fs_overrides st) (fs_next st)).

Definition ov_eqb (feature_id cohort_id : Z) (o : override_row) : bool :=
  bool_decide (fo_feature o = feature_id ∧ fo_cohort o = cohort_id).
Fixpoint upsert_override (o : override_row) (os : list override_row) : list override_row :=
  match os with
  | [] => [o]
  | x :: r => if ov_eqb (fo_feature o) (fo_cohort o) x then o :: r else x :: upsert_override o r
  end.
(** The foreign keys: the flag exists, the cohort exists. *)
Definition create_override (cohort_exists : Z → bool) (st : flag_state) (feature_id cohort_id : Z)
    (value : bool) (min_plugin_version : option string) : result exn flag_state :=
  if bool_decide (feature_id ∈ ff_id <$> fs_flags st) && cohort_exists cohort_id then
    Ok (FlagState (fs_flags st)
          (upsert_override (OverrideRow feature_id cohort_id value min_plugin_version) (fs_overrides st)) (fs_next st))
  else Err tt.

Definition delete_override (st : flag_state) (feature_id cohort_id : Z) : bool * flag_state :=
  (existsb (ov_eqb feature_id cohort_id) (fs_overrides st),
   FlagState (fs_flags st) (filter (λ o, ov_eqb feature_id cohort_id o = false) (fs_overrides st)) (fs_next st)).

Definition delete_flag (st : flag_state) (flag_id : Z) : bool * flag_state :=
  (bool_decide (flag_id ∈ ff_id <$> fs_flags st),
   FlagState (filter (λ f, ff_id f ≠ flag_id) (fs_flags st))
     (filter (λ o, fo_feature o ≠ flag_id) (fs_overrides st)) (fs_next st)).

(** *** [reconcile_catalog_from_template] *)
Definition toggles_of (section : json) : option (list (string * json)) :=
  match section with JObj d => match jget "featureToggles" d with JObj t => Some t | _ => None end | _ => None end.
Definition setdefault (names : list (string * bool)) (kv : string * json) : list (string * bool) :=
  match dget kv.1 names with Some _ => names | None => dset kv.1 (truthy kv.2) names end.
Definition template_names (template : json) : list (string * bool) :=
  match template with
  | JObj d =>
      let names := foldl (λ names s, match toggles_of s.2 with Some t => foldl setdefault names t | None => names end) [] d in
      match toggles_of (jget "default" d) with
      | Some t => foldl (λ names kv, dset kv.1 (truthy kv.2) names) names t
      | None => names
      end
  | _ => []
  end.

Definition imported_description (slug : string) : string := "Import" +:+ String "233" (" du template " +:+ slug).
Fixpoint upsert_flag (next : Z) (slug name : string) (rows : list flag_row) : list flag_row :=
  match rows with
  | [] => [FlagRow next name slug (imported_description slug) None false None]
  | f :: r =>
      if key_eqb slug name f
      then FlagRow (ff_id f) (ff_name f) (ff_slug f) (ff_description f) (ff_default f) false (ff_min f) :: r
      else f :: upsert_flag next slug name r
  end.
Definition upsert_name (slug : string) (st : flag_state) (name : string) : flag_state :=
  FlagState (upsert_flag (fs_next st) slug name (fs_flags st)) (fs_overrides st) (fs_next st + 1).

Definition deprecate (slug : string) (orphaned : list string) (f : flag_row) : flag_row :=
  if decide (ff_slug f = slug ∧ ff_name f ∈ orphaned)
  then FlagRow (ff_id f) (ff_name f) (ff_slug f) (ff_description f) (ff_default f) true (ff_min f)
  else f.

Record diff : Type := Diff {
  added : list string; kept : list string; reactivated : list string;
  orphaned : list string; already_deprecated : list string }.

Definition existing_of (slug : string) (rows : list flag_row) : list (string * bool) :=
  foldl (λ d f, dset (ff_name f) (ff_deprecated f) d) [] (filter (λ f, ff_slug f = slug) rows).

Definition reconcile_catalog_from_template (st : flag_state) (plugin_slug : string) (template : json) : diff * flag_state :=
  let names := template_names template in
  let existing := existing_of plugin_slug (fs_flags st) in
  let ns := py_sorted (dkeys names) in
  let st1 := foldl (upsert_name plugin_slug) st ns in
  let gone b := py_sorted (fst <$> filter (λ nd : string * bool, (nd.1 ∉ dkeys names) ∧ nd.2 = b) existing) in
  let orph := gone false in
  (Diff (filter (λ n, dget n existing = None) ns) (filter (λ n, dget n existing = Some false) ns)
        (filter (λ n, dget n existing = Some true) ns) orph (gone true),
   FlagState (deprecate plugin_slug orph <$> fs_flags st1) (fs_overrides st1) (fs_next st1)).
End Catalogue.

(** ** Serving: facts *)
(** The three values of an optional boolean, each implied by its own condition. *)
Lemma tri_state (r : option bool) (P : bool → Prop) :
  (r = Some true → P true ∧ ¬ P false) → (r = Some false → P false) → (r = None → ∀ b, ¬ P b) →
  (r = Some false ↔ P false) ∧ (r = Some true ↔ P true ∧ ¬ P false) ∧ (r = None ↔ ¬ P true ∧ ¬ P false).
Proof.
  intros Ht Hf Hn. destruct r as [[]|].
  - destruct (Ht eq_refl). split_and!; split; try done; tauto.
  - specialize (Hf eq_refl). split_and!; split; try done; tauto.
  - pose proof (Hn eq_refl true). pose proof (Hn eq_refl false). split_and!; split; try done; tauto.
Qed.

Section serving.
Variables (fs : list flag_row) (os : list override_row) (ids : list Z) (v slug : string).

(** An override of flag [n] with value [b] that applies to the device: of one
    of its cohorts, on a live flag of the plugin or of the global scope, and
    with neither gate closed. *)
Definition applies (n : string) (b : bool) : Prop :=
  ∃ f o, f ∈ fs ∧ o ∈ os ∧ ff_id f = fo_feature o ∧ fo_cohort o ∈ ids ∧ ff_deprecated f = false ∧
    (ff_slug f = "" ∨ ff_slug f = slug) ∧
    Serve._gated v (ff_min f) = false ∧ Serve._gated v (fo_min o) = false ∧
    ff_name f = n ∧ fo_value o = b.

(** The join row is not gated and bears on [n]. *)
Definition hit_for (n : string) (h : Serve.hit) : bool :=
  negb (Serve._gated v (Serve.h_flag_min h) || Serve._gated v (Serve.h_min h)) && bool_decide (Serve.h_name h = n).

Lemma foldl_apply_hit n hits acc :
  dget n (foldl (Serve.apply_hit v) acc hits) =
  match filter (λ h, hit_for n h = true) hits with
  | [] => dget n acc
  | hs => Some (default true (dget n acc) && forallb Serve.h_value hs)
  end.
Proof.
  revert acc. induction hits as [|h hits IH]; intros acc; [done|]. cbn [foldl]. rewrite IH.
  rewrite filter_cons. unfold Serve.apply_hit, hit_for.
  destruct (Serve._gated v _ || Serve._gated v _); simpl; [done|].
  destruct (bool_decide (Serve.h_name h = n)) eqn:E; bool_hyps; simpl.
  - subst n. rewrite dget_dset_eq. simpl. destruct (filter _ hits); simpl; by rewrite ?andb_true_r, ?andb_assoc.
  - by rewrite dget_dset_ne by done.
Qed.

Lemma overrides_query_hit n b :
  (∃ h, h ∈ filter (λ h, hit_for n h = true) (Serve.overrides_query fs os ids slug) ∧ Serve.h_value h = b)
  ↔ applies n b.
Proof.
  unfold Serve.overrides_query, applies, hit_for. split.
  - intros (h & [Hh Hin]%list_elem_of_filter & Hb).
    apply list_elem_of_bind in Hin as (o & Hin & Ho).
    apply list_elem_of_bind in Hin as (f & Hin & Hf). apply list_elem_of_filter in Hf.
    apply list_elem_of_singleton in Hin. subst h. simpl in *. bool_hyps.
    exists f, o. destruct Hf as [(?&?&?&?) ?]. by split_and!.
  - intros (f & o & Hf & Ho & Hid & Hc & Hd & Hs & Hg & Hg' & Hn & Hv).
    exists (Serve.Hit (ff_name f) (fo_value o) (fo_min o) (ff_min f)). split; [|done].
    apply list_elem_of_filter. simpl. rewrite Hg, Hg', bool_decide_eq_true_2 by done. split; [done|].
    apply list_elem_of_bind. exists o. split; [|done]. apply list_elem_of_bind. exists f.
    split; [by apply list_elem_of_singleton|]. apply list_elem_of_filter. by split_and!.
Qed.

Lemma resolve_feature_flags_nonempty :
  Serve._resolve_feature_flags (Some fs) (Some os) ids v slug =
  foldl (Serve.apply_hit v) [] (Serve.overrides_query fs os ids slug).
Proof.
  destruct ids as [|i r] eqn:E; [|done]. simpl.
  enough (Serve.overrides_query fs os [] slug = []) as -> by done.
  unfold Serve.overrides_query. induction os as [|o os' IH]; [done|].
  cbn [mbind list_bind]. rewrite IH, app_nil_r.
  enough (filter (λ f, ff_id f = fo_feature o ∧ fo_cohort o ∈ [] ∧ ff_deprecated f = false ∧
     (ff_slug f = "" ∨ ff_slug f = slug)) fs = []) as -> by done.
  clear. induction fs as [|f fs' IH]; [done|]. rewrite filter_cons, decide_False; [done|set_solver].
Qed.
End serving.

(** For a device and a flag name, the cohort overrides served are: false
    when some override that applies says false, true when one applies and all
    that apply say true, absent when none applies. An override applies when it
    is of a cohort of the device, on a flag that is not deprecated and of the
    plugin or global, and the plugin version passes both minimum versions. *)
Theorem cohort_flags_false_wins fs os ids v slug n :
  let r := dget n (Serve._resolve_feature_flags (Some fs) (Some os) ids v slug) in
  (r = Some false ↔ applies fs os ids v slug n false) ∧
  (r = Some true ↔ applies fs os ids v slug n true ∧ ¬ applies fs os ids v slug n false) ∧
  (r = None ↔ ¬ applies fs os ids v slug n true ∧ ¬ applies fs os ids v slug n false).
Proof.
  cbv zeta. rewrite resolve_feature_flags_nonempty, foldl_apply_hit. simpl.
  rewrite <- !overrides_query_hit. generalize (filter (λ h, hit_for v n h = true) (Serve.overrides_query fs os ids slug)) as hs.
  intros hs. apply (tri_state _ (λ b, ∃ h, h ∈ hs ∧ Serve.h_value h = b)).
  - destruct hs as [|h hs]; [done|]. intros [= E]. pose proof (proj1 (forallb_true_elem Serve.h_value (h :: hs)) E) as Ht.
    split; [exists h; auto using list_elem_of_here|]. intros (x & Hx%Ht & ?). congruence.
  - destruct hs as [|h hs]; [done|]. intros [= E]. by apply (forallb_false_elem Serve.h_value (h :: hs)).
  - destruct hs as [|h hs]; [|done]. intros _ b (x & Hx%not_elem_of_nil & _). done.
Qed.

(** ** Forced flags and the merge: facts *)
Lemma apply_forced_alt v out f :
  Serve.apply_forced v out f =
  if Serve._gated v (ff_min f) then out else dset (ff_name f) (default false (ff_default f)) out.
Proof. unfold Serve.apply_forced, Serve._gated. repeat case_match; done. Qed.

Lemma foldl_dset_wf {A} (f : list (string * bool) → A → list (string * bool)) l acc :
  (∀ d a, dict_wf d → dict_wf (f d a)) → dict_wf acc → dict_wf (foldl f acc l).
Proof. intros Hf. revert acc. induction l; simpl; auto. Qed.

Lemma resolve_forced_wf flags v slug : dict_wf (Serve._resolve_forced_flags flags v slug).
Proof.
  destruct flags as [fs|]; [|apply NoDup_nil_2]. apply foldl_dset_wf; [|apply NoDup_nil_2].
  intros d f Hd. rewrite apply_forced_alt. case_match; auto with dm.
Qed.
Lemma resolve_feature_wf flags os ids v slug : dict_wf (Serve._resolve_feature_flags flags os ids v slug).
Proof.
  unfold Serve._resolve_feature_flags. repeat case_match; try apply NoDup_nil_2.
  apply foldl_dset_wf; [|apply NoDup_nil_2]. intros d h Hd. unfold Serve.apply_hit. case_match; auto with dm.
Qed.

Lemma js_wf (d : list (string * bool)) : dict_wf d → dict_wf ((λ kb : string * bool, (kb.1, JBool kb.2)) <$> d).
Proof. unfold dict_wf, dkeys. by rewrite <- list_fmap_compose. Qed.
Lemma js_dget n (d : list (string * bool)) :
  dget n ((λ kb : string * bool, (kb.1, JBool kb.2)) <$> d) = JBool <$> dget n d.
Proof. induction d as [|[k b] d IH]; simpl; [done|]. case_decide; done. Qed.

(** The flags of the scope of a plugin that bear the name. *)
Definition in_scope (slug : string) (f : flag_row) : Prop := ff_slug f = "" ∨ ff_slug f = slug.
(** What one flag forces at a plugin version. *)
Definition forces (v : string) (f : flag_row) : option bool :=
  if ff_deprecated f || Serve._gated v (ff_min f) then None else ff_default f.

Lemma foldl_forced_other v n fs acc :
  Forall (λ g, ff_name g ≠ n) fs → dget n (foldl (Serve.apply_forced v) acc fs) = dget n acc.
Proof.
  intros H. revert acc. induction H as [|g fs Hg Hfs IH]; intros acc; [done|]. cbn [foldl].
  rewrite IH, apply_forced_alt. case_match; [done|]. by rewrite dget_dset_ne.
Qed.

Lemma foldl_forced_app v acc l1 l2 :
  foldl (Serve.apply_forced v) acc (l1 ++ l2) = foldl (Serve.apply_forced v) (foldl (Serve.apply_forced v) acc l1) l2.
Proof. apply foldl_app. Qed.

Lemma forced_split fs1 f fs2 v slug :
  in_scope slug f → Forall (λ g, ff_name g = ff_name f → ¬ in_scope slug g) (fs1 ++ fs2) →
  dget (ff_name f) (Serve._resolve_forced_flags (Some (fs1 ++ f :: fs2)) v slug) = forces v f.
Proof.
  intros Hs Hu. simpl. unfold Serve.forced_query. rewrite filter_app, foldl_forced_app.
  assert (Ho : ∀ l, Forall (λ g, ff_name g = ff_name f → ¬ in_scope slug g) l →
    Forall (λ g, ff_name g ≠ ff_name f) (Serve.forced_query l slug)).
  { intros l Hl. apply Forall_forall. intros g [(_ & _ & Hg) Hin]%list_elem_of_filter Hn.
    rewrite Forall_forall in Hl. by apply (Hl g Hin Hn). }
  apply Forall_app in Hu as [Hu1 Hu2]. rewrite filter_cons. unfold forces.
  destruct (ff_deprecated f) eqn:Ed; simpl.
  - rewrite decide_False by (intros (_ & ? & _); congruence).
    rewrite !foldl_forced_other by (apply Ho; done). done.
  - destruct (ff_default f) as [b|] eqn:Eb.
    + rewrite decide_True by done. cbn [foldl]. rewrite foldl_forced_other by (apply Ho; done).
      rewrite apply_forced_alt, Eb. case_match; [|apply dget_dset_eq].
      rewrite foldl_forced_other by (apply Ho; done). done.
    + rewrite decide_False by (intros (? & _); congruence).
      rewrite !foldl_forced_other by (apply Ho; done). by case_match.
Qed.


(** ** Reconciliation: facts *)
Section reconcile.
Import Catalogue.

(** Each (plugin_slug, name) once, and the sequence is ahead of the ids. *)
Definition flags_wf (st : flag_state) : Prop :=
  NoDup ((λ f, (ff_slug f, ff_name f)) <$> fs_flags st) ∧
  NoDup (ff_id <$> fs_flags st) ∧ Forall (λ f, ff_id f < fs_next st) (fs_flags st).

Definition set_deprecated (b : bool) (f : flag_row) : flag_row :=
  FlagRow (ff_id f) (ff_name f) (ff_slug f) (ff_description f) (ff_default f) b (ff_min f).

Lemma key_eqb_true s n f : key_eqb s n f = true ↔ ff_slug f = s ∧ ff_name f = n.
Proof. apply bool_decide_eq_true. Qed.

Lemma flag_at_Some s n rows f : flag_at s n rows = Some f → f ∈ rows ∧ ff_slug f = s ∧ ff_name f = n.
Proof.
  intros H. apply find_some in H as [H1 H2]. split; [by apply list_elem_of_In|]. by apply key_eqb_true.
Qed.

Lemma flag_at_upsert s n next slug name rows :
  flag_at s n (upsert_flag next slug name rows) =
  if decide (s = slug ∧ n = name) then
    Some (match flag_at slug name rows with
          | Some f => set_deprecated false f
          | None => FlagRow next name slug (imported_description slug) None false None
          end)
  else flag_at s n rows.
Proof.
  unfold flag_at. induction rows as [|f rows IH]; simpl.
  - unfold key_eqb. simpl. case_decide; case_bool_decide; naive_solver.
  - destruct (key_eqb slug name f) eqn:E; simpl.
    + apply key_eqb_true in E as [<- <-]. unfold key_eqb. simpl.
      repeat (case_decide || case_bool_decide); naive_solver.
    + rewrite IH. destruct (key_eqb s n f) eqn:E'; [|done].
      case_decide as Hd; [|done]. destruct Hd as [-> ->]. congruence.
Qed.

Lemma upsert_keys next slug name rows :
  (λ f, (ff_slug f, ff_name f)) <$> upsert_flag next slug name rows =
  let ks := (λ f, (ff_slug f, ff_name f)) <$> rows in
  if decide ((slug, name) ∈ ks) then ks else ks ++ [(slug, name)].
Proof.
  cbv zeta. induction rows as [|f rows IH]; [done|]. cbn [upsert_flag].
  destruct (key_eqb slug name f) eqn:E.
  - apply key_eqb_true in E as [<- <-]. rewrite !fmap_cons. rewrite decide_True by set_solver. done.
  - assert ((slug, name) ≠ (ff_slug f, ff_name f)) by (intros [= -> ->]; unfold key_eqb in E; bool_hyps; tauto).
    rewrite !fmap_cons, IH. repeat case_decide; set_solver.
Qed.

Lemma upsert_ids next slug name rows :
  ff_id <$> upsert_flag next slug name rows = ff_id <$> rows ∨
  ff_id <$> upsert_flag next slug name rows = (ff_id <$> rows) ++ [next].
Proof.
  induction rows as [|f rows IH]; [by right|]. cbn [upsert_flag]. case_match; [by left|].
  rewrite !fmap_cons. destruct IH as [-> | ->]; auto.
Qed.

Lemma upsert_name_wf slug st name : flags_wf st → flags_wf (upsert_name slug st name).
Proof.
  intros (Hk & Hi & Hn). unfold flags_wf, upsert_name. simpl. rewrite upsert_keys. cbv zeta. split_and!.
  - case_decide; [done|]. apply NoDup_app. split_and!; [done|set_solver|apply NoDup_singleton].
  - destruct (upsert_ids (fs_next st) slug name (fs_flags st)) as [-> | ->]; [done|].
    apply NoDup_app. split_and!; [done| |apply NoDup_singleton].
    intros x (f & -> & Hf)%list_elem_of_fmap. rewrite Forall_forall in Hn. specialize (Hn f Hf).
    rewrite list_elem_of_singleton. lia.
  - assert (Forall (λ i, i < fs_next st + 1) (ff_id <$> upsert_flag (fs_next st) slug name (fs_flags st))) as H.
    { assert (Forall (λ i, i < fs_next st + 1) (ff_id <$> fs_flags st)).
      { apply Forall_fmap. eapply Forall_impl; [exact Hn|]. simpl. lia. }
      destruct (upsert_ids (fs_next st) slug name (fs_flags st)) as [-> | ->]; [done|].
      apply Forall_app. split; [done|]. repeat constructor. lia. }
    by apply Forall_fmap in H.
Qed.

Lemma set_deprecated_twice b f : set_deprecated b (set_deprecated b f) = set_deprecated b f.
Proof. done. Qed.
Lemma set_deprecated_same f : set_deprecated (ff_deprecated f) f = f.
Proof. by destruct f. Qed.

Lemma foldl_upsert_known slug s n ns st f :
  flag_at s n (fs_flags st) = Some f →
  flag_at s n (fs_flags (foldl (upsert_name slug) st ns)) =
  Some (if decide (s = slug ∧ n ∈ ns) then set_deprecated false f else f).
Proof.
  revert st f. induction ns as [|m ns IH]; intros st f Hf; cbn [foldl].
  { by rewrite decide_False by set_solver. }
  destruct (decide (s = slug ∧ n = m)) as [[-> ->]|Hne].
  - rewrite (IH _ (set_deprecated false f)).
    + rewrite (decide_True (P := _ ∧ m ∈ m :: ns)) by set_solver. by case_decide.
    + simpl. rewrite flag_at_upsert, Hf. by rewrite decide_True.
  - rewrite (IH _ f) by (simpl; by rewrite flag_at_upsert, decide_False). repeat case_decide; set_solver.
Qed.

Lemma foldl_upsert_fresh slug s n ns st :
  flag_at s n (fs_flags st) = None →
  if decide (s = slug ∧ n ∈ ns) then
    ∃ i, flag_at s n (fs_flags (foldl (upsert_name slug) st ns))
         = Some (FlagRow i n s (imported_description s) None false None)
  else flag_at s n (fs_flags (foldl (upsert_name slug) st ns)) = None.
Proof.
  revert st. induction ns as [|m ns IH]; intros st Hf; cbn [foldl].
  { by rewrite decide_False by set_solver. }
  destruct (decide (s = slug ∧ n = m)) as [[-> ->]|Hne].
  - rewrite decide_True by set_solver. exists (fs_next st).
    rewrite (foldl_upsert_known _ _ _ _ _ (FlagRow (fs_next st) m slug (imported_description slug) None false None)).
    + by case_decide.
    + simpl. rewrite flag_at_upsert, Hf. by rewrite decide_True.
  - specialize (IH (upsert_name slug st m)). simpl in IH. rewrite flag_at_upsert, decide_False in IH by done.
    specialize (IH Hf). repeat case_decide; try done; set_solver.
Qed.

Lemma foldl_upsert_inv slug ns st :
  flags_wf st → flags_wf (foldl (upsert_name slug) st ns) ∧
  fs_overrides (foldl (upsert_name slug) st ns) = fs_overrides st.
Proof.
  revert st. induction ns as [|m ns IH]; intros st Hw; [done|]. cbn [foldl].
  apply (IH (upsert_name slug st m)). by apply upsert_name_wf.
Qed.

Lemma flag_at_deprecate s n slug orph rows :
  flag_at s n (deprecate slug orph <$> rows) =
  (λ f, if decide (s = slug ∧ n ∈ orph) then set_deprecated true f else f) <$> flag_at s n rows.
Proof.
  unfold flag_at. induction rows as [|f rows IH]; [done|]. rewrite fmap_cons. cbn [find].
  assert (key_eqb s n (deprecate slug orph f) = key_eqb s n f) as ->.
  { unfold deprecate. repeat case_decide; done. }
  destruct (key_eqb s n f) eqn:E; [|apply IH]. apply key_eqb_true in E as [<- <-].
  unfold deprecate. simpl. by case_decide.
Qed.

Lemma deprecate_wf slug orph st :
  flags_wf st → flags_wf (FlagState (deprecate slug orph <$> fs_flags st) (fs_overrides st) (fs_next st)).
Proof.
  intros (Hk & Hi & Hn). unfold flags_wf. simpl.
  assert (Hkey : (λ f, (ff_slug f, ff_name f)) <$> (deprecate slug orph <$> fs_flags st) = (λ f, (ff_slug f, ff_name f)) <$> fs_flags st).
  { rewrite <- list_fmap_compose. apply list_fmap_ext. intros _ f _. simpl. unfold deprecate. by case_decide. }
  assert (Hid : ff_id <$> (deprecate slug orph <$> fs_flags st) = ff_id <$> fs_flags st).
  { rewrite <- list_fmap_compose. apply list_fmap_ext. intros _ f _. simpl. unfold deprecate. by case_decide. }
  rewrite Hkey, Hid. split_and!; [done..|]. apply Forall_fmap. eapply Forall_impl; [exact Hn|].
  intros f Hf. simpl. unfold deprecate. by case_decide.
Qed.

Lemma existing_of_go slug n rows acc :
  NoDup ((λ f, (ff_slug f, ff_name f)) <$> rows) →
  dget n (foldl (λ d f, dset (ff_name f) (ff_deprecated f) d) acc (filter (λ f, ff_slug f = slug) rows)) =
  match flag_at slug n rows with Some f => Some (ff_deprecated f) | None => dget n acc end.
Proof.
  revert acc. unfold flag_at. induction rows as [|f rows IH]; intros acc; [done|].
  rewrite fmap_cons, NoDup_cons. intros [Hf Hn]. rewrite filter_cons. cbn [find].
  destruct (key_eqb slug n f) eqn:E.
  - apply key_eqb_true in E as [<- <-]. rewrite decide_True by done. cbn [foldl].
    rewrite IH by done. destruct (find _ rows) as [g|] eqn:Eg; [|apply dget_dset_eq].
    apply flag_at_Some in Eg as (Hin & Hs & Hnm). exfalso. apply Hf. apply list_elem_of_fmap.
    exists g. by rewrite Hs, Hnm.
  - case_decide as Hs; [|by apply IH]. cbn [foldl]. rewrite IH by done.
    case_match; [done|]. apply dget_dset_ne. intros ->. unfold key_eqb in E. bool_hyps. tauto.
Qed.

Lemma existing_of_dget slug n st :
  flags_wf st → dget n (existing_of slug (fs_flags st)) = ff_deprecated <$> flag_at slug n (fs_flags st).
Proof. intros [Hk _]. unfold existing_of. rewrite existing_of_go by done. by destruct (flag_at _ _ _). Qed.

Lemma existing_of_wf slug rows : dict_wf (existing_of slug rows).
Proof. apply foldl_dset_wf; [auto with dm|apply NoDup_nil_2]. Qed.

(** The template names the flag in the toggles of some section. *)
Definition mentions (template : json) (n : string) : Prop :=
  ∃ d k s t, template = JObj d ∧ (k, s) ∈ d ∧ toggles_of s = Some t ∧ n ∈ dkeys t.

Lemma elem_dkeys_dset {A} n k (v : A) d : n ∈ dkeys (dset k v d) ↔ n = k ∨ n ∈ dkeys d.
Proof. rewrite dkeys_dset. case_decide; set_solver. Qed.

Lemma foldl_setdefault_keys n names t :
  n ∈ dkeys (foldl setdefault names t) ↔ n ∈ dkeys names ∨ n ∈ dkeys t.
Proof.
  revert names. induction t as [|[k v] t IH]; intros names; cbn [foldl]; [set_solver|]. rewrite IH.
  unfold setdefault. simpl. destruct (dget k names) as [b|] eqn:E.
  - apply dget_Some_elem in E. assert (k ∈ dkeys names) by (apply list_elem_of_fmap; by exists (k, b)). set_solver.
  - rewrite elem_dkeys_dset. set_solver.
Qed.

Lemma foldl_dset_keys n (names : list (string * bool)) (t : list (string * json)) :
  n ∈ dkeys (foldl (λ names kv, dset kv.1 (truthy kv.2) names) names t) ↔ n ∈ dkeys names ∨ n ∈ dkeys t.
Proof.
  revert names. induction t as [|[k v] t IH]; intros names; cbn [foldl]; [set_solver|].
  rewrite IH, elem_dkeys_dset. set_solver.
Qed.

Lemma foldl_sections_keys n (names : list (string * bool)) (d : list (string * json)) :
  n ∈ dkeys (foldl (λ names s, match toggles_of s.2 with Some t => foldl setdefault names t | None => names end) names d)
  ↔ n ∈ dkeys names ∨ ∃ k s t, (k, s) ∈ d ∧ toggles_of s = Some t ∧ n ∈ dkeys t.
Proof.
  revert names. induction d as [|[k s] d IH]; intros names; cbn [foldl]; [set_solver|]. rewrite IH. simpl.
  destruct (toggles_of s) as [t|] eqn:E; [rewrite foldl_setdefault_keys|]; split.
  - intros [[?|?]|(k' & s' & t' & ? & ? & ?)]; [by left|right; exists k, s, t; set_solver|].
    right. exists k', s', t'. set_solver.
  - intros [?|(k' & s' & t' & [?|?]%elem_of_cons & ? & ?)]; simplify_eq; [by do 2 left|by left; right|].
    right. by exists k', s', t'.
  - intros [?|(k' & s' & t' & ? & ? & ?)]; [by left|]. right. exists k', s', t'. set_solver.
  - intros [?|(k' & s' & t' & [?|?]%elem_of_cons & ? & ?)]; simplify_eq; [by left|]. right. by exists k', s', t'.
Qed.

Lemma template_names_spec template n : n ∈ dkeys (template_names template) ↔ mentions template n.
Proof.
  unfold mentions. destruct template as [| | | | |d]; try (split; [set_solver|intros (?&?&?&?&?&_); done]).
  unfold template_names. destruct (toggles_of (jget "default" d)) as [t|] eqn:E.
  - rewrite foldl_dset_keys, foldl_sections_keys. split; [|naive_solver].
    intros [[?|(k & s & t' & ?)]|Ht]; [set_solver|by exists d, k, s, t'|].
    unfold jget in E. destruct (dget "default" d) as [s|] eqn:Es; [|done].
    apply dget_Some_elem in Es. by exists d, "default", s, t.
  - rewrite foldl_sections_keys. split; [|naive_solver]. intros [?|(k & s & t' & ?)]; [set_solver|by exists d, k, s, t'].
Qed.
End reconcile.

Section reconcile_result.
Import Catalogue.
Variables (st : flag_state) (slug : string) (template : json).
Hypothesis Hwf : flags_wf st.
Abbreviation df := (reconcile_catalog_from_template st slug template).1.
Abbreviation st' := (reconcile_catalog_from_template st slug template).2.

Lemma reconcile_orphaned n :
  n ∈ orphaned df ↔ ¬ mentions template n ∧ ff_deprecated <$> flag_at slug n (fs_flags st) = Some false.
Proof.
  unfold reconcile_catalog_from_template. cbn [fst orphaned]. rewrite elem_of_py_sorted, list_elem_of_fmap.
  rewrite <- template_names_spec, <- existing_of_dget by done. split.
  - intros ([k b] & -> & [[? Hb] Hin]%list_elem_of_filter). simpl in *. subst b.
    split; [done|]. apply dget_elem_wf; [apply existing_of_wf|done].
  - intros [Hn He]. exists (n, false). split; [done|]. apply list_elem_of_filter. simpl.
    split; [done|]. by apply dget_Some_elem.
Qed.

Lemma reconcile_already n :
  n ∈ already_deprecated df ↔ ¬ mentions template n ∧ ff_deprecated <$> flag_at slug n (fs_flags st) = Some true.
Proof.
  unfold reconcile_catalog_from_template. cbn [fst already_deprecated]. rewrite elem_of_py_sorted, list_elem_of_fmap.
  rewrite <- template_names_spec, <- existing_of_dget by done. split.
  - intros ([k b] & -> & [[? Hb] Hin]%list_elem_of_filter). simpl in *. subst b.
    split; [done|]. apply dget_elem_wf; [apply existing_of_wf|done].
  - intros [Hn He]. exists (n, true). split; [done|]. apply list_elem_of_filter. simpl.
    split; [done|]. by apply dget_Some_elem.
Qed.

Lemma reconcile_at s n :
  flag_at s n (fs_flags st') =
  (λ f, if decide (s = slug ∧ n ∈ orphaned df) then set_deprecated true f else f) <$>
  flag_at s n (fs_flags (foldl (upsert_name slug) st (py_sorted (dkeys (template_names template))))).
Proof. apply flag_at_deprecate. Qed.

Lemma reconcile_wf : flags_wf st' ∧ fs_overrides st' = fs_overrides st.
Proof.
  destruct (foldl_upsert_inv slug (py_sorted (dkeys (template_names template))) st Hwf) as [Hw Ho].
  split; [|exact Ho]. by apply (deprecate_wf slug _ _ Hw).
Qed.

Lemma reconcile_known s n f :
  flag_at s n (fs_flags st) = Some f →
  flag_at s n (fs_flags st') =
    Some (if decide (s = slug) then set_deprecated (bool_decide (n ∉ dkeys (template_names template))) f else f).
Proof.
  intros Hf. rewrite reconcile_at, (foldl_upsert_known _ _ _ _ _ f Hf). simpl. f_equal.
  destruct (decide (s = slug)) as [->|Hs]; [|by rewrite !decide_False by tauto].
  destruct (decide (n ∈ dkeys (template_names template))) as [Hin|Hin].
  - rewrite (bool_decide_eq_false_2 (n ∉ _)) by tauto. rewrite decide_False, decide_True; [done| |].
    + split; [done|]. by apply elem_of_py_sorted.
    + intros [_ [Hm _]%reconcile_orphaned]. by apply Hm, template_names_spec.
  - rewrite (bool_decide_eq_true_2 (n ∉ _)) by done.
    rewrite (decide_False (P := slug = slug ∧ n ∈ py_sorted (dkeys (template_names template)))) by (rewrite elem_of_py_sorted; intros [_ ?]; done).
    case_decide as Ho; [done|]. destruct (ff_deprecated f) eqn:Ed; [by rewrite <- Ed, set_deprecated_same|].
    destruct Ho. split; [done|]. apply reconcile_orphaned. rewrite <- template_names_spec, Hf. by rewrite <- Ed.
Qed.

Lemma reconcile_unknown s n :
  flag_at s n (fs_flags st) = None →
  if decide (s = slug ∧ n ∈ dkeys (template_names template)) then
    ∃ i, flag_at s n (fs_flags st') = Some (FlagRow i n s (imported_description s) None false None)
  else flag_at s n (fs_flags st') = None.
Proof.
  intros Hf. pose proof (foldl_upsert_fresh slug s n (py_sorted (dkeys (template_names template))) st Hf) as H.
  rewrite reconcile_at. destruct (decide (s = slug ∧ n ∈ dkeys _)) as [[-> Hin]|Hn].
  - rewrite decide_True in H by (split; [done|by apply elem_of_py_sorted]). destruct H as [i ->]. exists i. simpl. rewrite decide_False; [done|].
    intros [_ [_ Ho]%reconcile_orphaned]. by rewrite Hf in Ho.
  - rewrite decide_False in H by (by rewrite elem_of_py_sorted). by rewrite H.
Qed.
End reconcile_result.

(** Reconciling the catalogue of a plugin with an imported template keeps
    the state an administrator gave: a known flag keeps its id, value, minimum
    version and description and is deprecated exactly when the template no
    longer names it; a name of the template that was unknown is registered
    transparent; no other flag appears, other plugins and all overrides are
    unchanged, and the unique keys still hold. *)
Theorem reconcile_preserves_admin_state st slug template :
  flags_wf st →
  let st' := (Catalogue.reconcile_catalog_from_template st slug template).2 in
  flags_wf st' ∧ fs_overrides st' = fs_overrides st ∧
  (∀ s n, s ≠ slug → Catalogue.flag_at s n (fs_flags st') = Catalogue.flag_at s n (fs_flags st)) ∧
  (∀ n f, Catalogue.flag_at slug n (fs_flags st) = Some f →
     ∃ b, Catalogue.flag_at slug n (fs_flags st') = Some (set_deprecated b f) ∧ (b = true ↔ ¬ mentions template n)) ∧
  (∀ n, Catalogue.flag_at slug n (fs_flags st) = None →
     (mentions template n → ∃ i, Catalogue.flag_at slug n (fs_flags st')
        = Some (FlagRow i n slug (Catalogue.imported_description slug) None false None)) ∧
     (¬ mentions template n → Catalogue.flag_at slug n (fs_flags st') = None)).
Proof.
  intros Hwf. cbv zeta. destruct (reconcile_wf st slug template Hwf) as [Hw Ho]. split_and!; [done|done|..].
  - intros s n Hs. destruct (Catalogue.flag_at s n (fs_flags st)) as [f|] eqn:E.
    + rewrite (reconcile_known st slug template Hwf _ _ _ E). by rewrite decide_False.
    + pose proof (reconcile_unknown st slug template Hwf _ _ E) as H. by rewrite decide_False in H by tauto.
  - intros n f Hf. rewrite (reconcile_known st slug template Hwf _ _ _ Hf), decide_True by done.
    eexists. split; [done|]. by rewrite bool_decide_eq_true, template_names_spec.
  - intros n Hn. pose proof (reconcile_unknown st slug template Hwf _ _ Hn) as H.
    rewrite <- template_names_spec. case_decide; naive_solver.
Qed.
Definition catalogue_ex : flag_state :=
  FlagState [FlagRow 1 "chat" "mirai" "" (Some false) false None; FlagRow 2 "old" "mirai" "" (Some true) false None] [] 3.
Lemma reconcile_preserves_admin_state_witness :
  flags_wf (Catalogue.reconcile_catalog_from_template catalogue_ex "mirai"
    (JObj [("default", JObj [("featureToggles", JObj [("chat", JBool true)])])])).2.
Proof.
  apply (reconcile_preserves_admin_state catalogue_ex "mirai"
    (JObj [("default", JObj [("featureToggles", JObj [("chat", JBool true)])])])).
  split_and!; [apply (bool_decide_unpack _); vm_compute; exact I..|]. repeat constructor.
Defined.

(** The report of a reconciliation classifies the names: added, kept or
    reactivated for those of the template that were unknown, live or
    deprecated; orphaned or already deprecated for the known names the template
    lacks. *)
Theorem reconcile_diff_spec st slug template n :
  flags_wf st →
  let df := (Catalogue.reconcile_catalog_from_template st slug template).1 in
  let was := ff_deprecated <$> Catalogue.flag_at slug n (fs_flags st) in
  (n ∈ Catalogue.added df ↔ mentions template n ∧ was = None) ∧
  (n ∈ Catalogue.kept df ↔ mentions template n ∧ was = Some false) ∧
  (n ∈ Catalogue.reactivated df ↔ mentions template n ∧ was = Some true) ∧
  (n ∈ Catalogue.orphaned df ↔ ¬ mentions template n ∧ was = Some false) ∧
  (n ∈ Catalogue.already_deprecated df ↔ ¬ mentions template n ∧ was = Some true).
Proof.
  intros Hwf. cbv zeta. split_and!; [| | |by apply reconcile_orphaned|by apply reconcile_already];
    unfold Catalogue.reconcile_catalog_from_template; cbn [fst Catalogue.added Catalogue.kept Catalogue.reactivated];
    rewrite list_elem_of_filter, elem_of_py_sorted, existing_of_dget, <- template_names_spec by done; tauto.
Qed.
Lemma reconcile_diff_spec_witness :
  "old" ∈ Catalogue.orphaned (Catalogue.reconcile_catalog_from_template catalogue_ex "mirai" (JObj [])).1.
Proof.
  destruct (reconcile_diff_spec catalogue_ex "mirai" (JObj []) "old") as (_ & _ & _ & H & _).
  - split_and!; [apply (bool_decide_unpack _); vm_compute; exact I..|]. repeat constructor.
  - apply H. split; [|done]. intros (d & k & s & t & [= <-] & Hin & _). by apply not_elem_of_nil in Hin.
Defined.
