(* ===== verification/Campaigns.v ===== *)
(** * Campaigns
    Which update a device is told to install: [_resolve_active_campaign],
    [_get_current_rollout_percent], [_build_update_directive] and the writes of
    [campaign_device_status] of [app/main.py], the report handler
    [/update/status], and the life of a campaign ([services/campaigns.py] and
    the [/api/campaigns] routes). Times are whole seconds and hours are compared
    exactly; stage durations and percentages are integers. *)
From S2P Require Import Prelude Text Json Hashing Versions.
From Stdlib Require Import Ascii String.
Open Scope Z_scope.

Record artifact : Type := Artifact {
  art_id : Z; art_device_type : string; art_version : option string; art_s3_path : option string;
  art_checksum : option string; art_changelog_url : option string;
  art_min_host_version : option string; art_max_host_version : option string }.

(** [cp_deadline]: the deadline in ISO format; [cp_created]: seconds; [cp_version]:
    the column [version_id], which only a deployment fills. *)
Record campaign_row : Type := CampaignRow {
  cp_id : Z; cp_name : string; cp_description : string; cp_type : string; cp_status : string;
  cp_plugin : option Z; cp_target_cohort : option Z; cp_artifact : option Z; cp_rollback : option Z;
  cp_rollout : json; cp_urgency : option string; cp_deadline : option string;
  cp_created_by : option string; cp_created : Z; cp_version : option Z }.

(** The dict that [_resolve_active_campaign] returns. *)
Record campaign : Type := Campaign {
  campaign_id : Z; urgency : string; deadline_iso : option string;
  artifact_version : string; artifact_s3_path : string; artifact_checksum : string;
  changelog_url : option string;
  rollback_s3_path : option string; rollback_version : string; rollback_checksum : string;
  rollout_config : option (list (string * json)); campaign_created_at : option Z }.

Inductive action : Type := Update | Rollback.
Record directive : Type := Directive {
  d_action : action; d_current_version : string; d_target_version : string; d_artifact_url : string;
  d_checksum : string; d_urgency : string; d_changelog_url : option string;
  d_deadline_at : option string; d_campaign_id : Z }.

(** [str(x or "")] of a nullable text column, [x or d] *)
Definition text_or_empty (x : option string) : string := default "" x.
Definition text_or (x : option string) (d : string) : string := str_or (default "" x) d.
(** [if x:] on a nullable text column *)
Definition truthy_opt (x : option string) : bool := match x with Some s => truthy_str s | None => false end.

(** ** Serving a campaign: [app/main.py] *)
Module Serve.
Definition targets (cohorts : list Z) (c : campaign_row) : bool :=
  match cp_target_cohort c with None => true | Some t => bool_decide (t ∈ cohorts) end.
Definition campaign_query (campaigns : list campaign_row) (cohorts : list Z) : option campaign_row :=
  first_max cp_created (filter (λ c, cp_status c = "active" ∧ cp_type c = "plugin_update" ∧
    targets cohorts c = true) campaigns).

(** [LEFT JOIN artifacts ON id] *)
Definition join_artifact (artifacts : list artifact) (i : option Z) : option artifact :=
  match i with
  | Some i => find (λ a, bool_decide (art_id a = i)) artifacts
  | None => None
  end.

Definition host_too_old (platform_version : string) (min : option string) : bool :=
  truthy_str platform_version && truthy_opt min &&
  tuple_ltb (_parse_version_tuple platform_version) (_parse_version_tuple (text_or_empty min)).
Definition host_too_new (platform_version : string) (max : option string) : bool :=
  truthy_str platform_version && truthy_opt max &&
  negb (tuple_ltb (_parse_version_tuple platform_version) (_parse_version_tuple (text_or_empty max))).

Definition _resolve_active_campaign (tables : option (list campaign_row * list artifact))
    (device_cohort_ids : list Z) (device_type platform_version : string) : option campaign :=
  match tables with
  | None => None
  | Some (campaigns, artifacts) =>
      match campaign_query campaigns device_cohort_ids with
      | None => None
      | Some c =>
          let a := join_artifact artifacts (cp_artifact c) in
          let ra := join_artifact artifacts (cp_rollback c) in
          if host_too_old platform_version (a ≫= art_min_host_version) then None
          else if host_too_new platform_version (a ≫= art_max_host_version) then None
          else Some (Campaign (cp_id c) (text_or (cp_urgency c) "normal") (cp_deadline c)
                 (text_or_empty (a ≫= art_version)) (text_or_empty (a ≫= art_s3_path))
                 (text_or_empty (a ≫= art_checksum)) (a ≫= art_changelog_url)
                 (ra ≫= art_s3_path) (text_or_empty (ra ≫= art_version)) (text_or_empty (ra ≫= art_checksum))
                 (as_dict (cp_rollout c)) (Some (cp_created c)))
      end
  end.

(** A number of a JSON value in arithmetic; anything else raises. *)
Definition num (v : json) : result exn Z :=
  match v with JInt z => Ok z | JBool b => Ok (if b then 1 else 0) | _ => Err tt end.
Definition is_100 (v : json) : bool := match num v with Ok z => z =? 100 | Err _ => false end.
(** [stage.get(k, dflt)]; raises unless the stage is a dict *)
Definition stage_get (stage : json) (k : string) (dflt : Z) : result exn json :=
  match stage with JObj d => Ok (jget_or k d (JInt dflt)) | _ => Err tt end.

Fixpoint stage_percent (elapsed : Z) (cumulative_hours : Z) (stages : list json) : result exn json :=
  match stages with
  | [] => Ok (JInt 100)
  | stage :: rest =>
      let* dv := stage_get stage "duration_hours" 0 in
      let* d := num dv in
      let* percent := stage_get stage "percent" 100 in
      let cum := cumulative_hours + d in
      if (elapsed <? 3600 * cum) || is_100 percent then Ok percent
      else stage_percent elapsed cum rest
  end.

(** [elapsed] is [now - start] in seconds; a start of [None] means 100. *)
Definition _get_current_rollout_percent (now : Z) (created_at : option Z) (stages : list json) : result exn json :=
  match created_at with
  | None => Ok (JInt 100)
  | Some start => stage_percent (now - start) 0 stages
  end.

Definition device_hash (client_uuid : string) : Z := int16 (stake 8 (md5_hex (utf8_encode client_uuid))) mod 100.

(** The rollout lets the device through. *)
Definition rollout_eligible (now : Z) (c : campaign) (client_uuid : string) : result exn bool :=
  match rollout_config c with
  | Some ((_ :: _) as cfg) =>
      if truthy_str client_uuid then
        let stages := jget_or "stages" cfg (JArr []) in
        if truthy stages then
          match campaign_created_at c, stages with
          | Some _, JArr l =>
              let* percent := _get_current_rollout_percent now (campaign_created_at c) l in
              let* p := num percent in
              Ok (if p <? 100 then device_hash client_uuid <? p else true)
          | None, _ => Ok true
          | Some _, _ => Err tt
          end
        else Ok true
      else Ok true
  | _ => Ok true
  end.

Definition _artifact_url (device_name : string) (s3_path : option string) : string :=
  if truthy_str device_name then "/catalog/" +:+ device_name +:+ "/download"
  else "/binaries/" +:+ lstrip_char "/" (text_or_empty s3_path).

Definition _build_update_directive (now : Z) (plugin_version : string) (campaign : option campaign)
    (client_uuid device_name : string) : result exn (option directive) :=
  match campaign with
  | None => Ok None
  | Some c =>
      if bool_decide (plugin_version = "" ∨ plugin_version = "unknown" ∨ plugin_version = "0") then Ok None
      else if negb (truthy_str (artifact_version c)) then Ok None
      else if bool_decide (plugin_version = artifact_version c) then Ok None
      else
        let* eligible := rollout_eligible now c client_uuid in
        if negb eligible then Ok None
        else if tuple_ltb (_parse_version_tuple plugin_version) (_parse_version_tuple (artifact_version c)) then
          Ok (Some (Directive Update plugin_version (artifact_version c)
            (_artifact_url device_name (Some (artifact_s3_path c))) (artifact_checksum c) (urgency c)
            (changelog_url c) (deadline_iso c) (campaign_id c)))
        else if truthy_opt (rollback_s3_path c) && truthy_str (rollback_version c) then
          Ok (Some (Directive Rollback plugin_version (rollback_version c)
            (_artifact_url device_name (rollback_s3_path c)) (rollback_checksum c) (urgency c)
            (changelog_url c) (deadline_iso c) (campaign_id c)))
        else Ok None
  end.
End Serve.

(** ** Device status rows *)
Module Status.
Record row : Type := Row {
  ds_campaign : Z; ds_client : string; ds_email : option string; ds_status : string;
  ds_version_before : option string; ds_version_after : option string;
  ds_error : option string; ds_last_contact : option Z; ds_updated : Z }.

Definition opt_text (s : string) : option string := if truthy_str s then Some s else None.

(** [INSERT ... ON CONFLICT (campaign_id, client_uuid) DO UPDATE]: [upd] is
    applied to the row in conflict. *)
Fixpoint upsert (new : row) (upd : row → row) (rows : list row) : list row :=
  match rows with
  | [] => [new]
  | r :: rest =>
      if decide (ds_campaign r = ds_campaign new ∧ ds_client r = ds_client new) then upd r :: rest
      else r :: upsert new upd rest
  end.
Definition status_of (campaign : Z) (client : string) (rows : list row) : option row :=
  find (λ r, bool_decide (ds_campaign r = campaign ∧ ds_client r = client)) rows.

Definition _upsert_campaign_device_status (now : Z) (rows : list row) (campaign_id : Z)
    (client_uuid email version_before : string) : list row :=
  upsert (Row campaign_id client_uuid (opt_text email) "notified" (opt_text version_before) None None (Some now) now)
    (λ r, Row (ds_campaign r) (ds_client r) (ds_email r) "notified" (opt_text version_before)
            (ds_version_after r) (ds_error r) (Some now) (ds_updated r)) rows.

Definition _update_campaign_device_status_sync (now : Z) (rows : list row) (campaign_id : Z)
    (client_uuid status version_before version_after error_detail : string) : list row :=
  let db_status := if bool_decide (status = "installed") then "updated" else "failed" in
  upsert (Row campaign_id client_uuid None db_status (Some version_before) (opt_text version_after)
            (opt_text error_detail) None now)
    (λ r, Row (ds_campaign r) (ds_client r) (ds_email r) db_status (ds_version_before r)
            (opt_text version_after) (opt_text error_detail) (ds_last_contact r) now) rows.

Definition allowed_statuses : list string := ["installed"; "failed"; "checksum_error"; "download_error"; "deferred"].

(** [report_update_status]: [relay] is the outcome of the relay check when the
    relay is enabled: [Some None] refused, [Some (Some u)] accepted for the
    client [u]. The body is a dict of strings and a campaign id. *)
Definition report_update_status (now : Z) (rows : list row) (relay : option (option string))
    (campaign_id : Z) (client_uuid status version_before version_after error_detail : string)
    : result http_error (list row) :=
  match relay with
  | Some None => Err (HttpError 401 "Unauthorized")
  | _ =>
      if decide (status ∈ allowed_statuses) then
        if negb (truthy_str client_uuid) then Err (HttpError 400 "client_uuid required")
        else
          let authed := match relay with Some (Some u) => u | _ => "" end in
          if truthy_str authed && negb (bool_decide (client_uuid = authed))
          then Err (HttpError 403 "client_uuid mismatch")
          else Ok (_update_campaign_device_status_sync now rows campaign_id client_uuid status
                     version_before version_after error_detail)
      else Err (HttpError 400 "status must be one of the allowed values")
  end.
End Status.

(** ** Life of a campaign *)
Module Life.
Record state : Type := State { st_rows : list campaign_row; st_next : Z }.
Definition with_status (s : string) (c : campaign_row) : campaign_row :=
  CampaignRow (cp_id c) (cp_name c) (cp_description c) (cp_type c) s (cp_plugin c) (cp_target_cohort c)
    (cp_artifact c) (cp_rollback c) (cp_rollout c) (cp_urgency c) (cp_deadline c) (cp_created_by c) (cp_created c) (cp_version c).

(** The UPDATE that completes the older active campaigns. *)
Definition superseded (type : string) (plugin_id : option Z) (c : campaign_row) : bool :=
  bool_decide (cp_status c = "active" ∧ cp_type c = type ∧
    (plugin_id = None ∨ cp_plugin c = plugin_id ∨ cp_plugin c = None)).
Definition complete_older (type : string) (plugin_id : option Z) (rows : list campaign_row) : list campaign_row :=
  (λ c, if superseded type plugin_id c then with_status "completed" c else c) <$> rows.

Definition create_campaign (now : Z) (st : state) (name description type : string)
    (artifact_id rollback_artifact_id target_cohort_id : option Z) (urgency : string)
    (deadline_at : option string) (status : string) (rollout_config : json)
    (created_by : option string) (plugin_id : option Z) : Z * state :=
  let rows := if bool_decide (status = "active") then complete_older type plugin_id (st_rows st) else st_rows st in
  let c := CampaignRow (st_next st) name description type status plugin_id target_cohort_id artifact_id
             rollback_artifact_id (if truthy rollout_config then rollout_config else JNull) (Some urgency)
             (if truthy_opt deadline_at then deadline_at else None) created_by now None in
  (st_next st, State (rows ++ [c]) (st_next st + 1)).

Definition update_campaign_status (st : state) (campaign_id : Z) (new_status : string) : bool * state :=
  (bool_decide (campaign_id ∈ cp_id <$> st_rows st),
   State ((λ c, if decide (cp_id c = campaign_id) then with_status new_status c else c) <$> st_rows st) (st_next st)).

(** [plugins] holds (id, device_type, status): the plugin of an artifact is the
    first active one of its device type. *)
Definition plugin_of_artifact (plugins : list (Z * string * string)) (artifacts : list artifact) (i : Z) : option Z :=
  match find (λ a, bool_decide (art_id a = i)) artifacts with
  | Some a =>
      match find (λ p : Z * string * string, bool_decide (p.1.2 = art_device_type a ∧ p.2 = "active")) plugins with
      | Some p => Some p.1.1
      | None => None
      end
  | None => None
  end.
(** [not x] of a nullable id *)
Definition falsy_id (i : option Z) : bool := match i with None => true | Some z => z =? 0 end.

Definition _create_campaign_db_work (now : Z) (plugins : list (Z * string * string)) (artifacts : list artifact)
    (st : state) (name description type : string) (artifact_id rollback_artifact_id target_cohort_id : option Z)
    (urgency status : string) (rollout_config : json) (plugin_id : option Z) : Z * state :=
  let plugin_id :=
    if falsy_id plugin_id && negb (falsy_id artifact_id) then
      match plugin_of_artifact plugins artifacts (default 0 artifact_id) with
      | Some p => Some p
      | None => plugin_id
      end
    else plugin_id in
  create_campaign now st name description type artifact_id rollback_artifact_id target_cohort_id urgency None
    status rollout_config (Some "api") plugin_id.

Definition _api_campaign_action (st : state) (campaign_id : Z) (new_status : string) : result http_error state :=
  let '(found, st') := update_campaign_status st campaign_id new_status in
  if found : bool then Ok st' else Err (HttpError 404 "Campaign not found").
End Life.

(** ** Rollout: facts *)
Section rollout.
Import Serve.

(** A rollout plan: duration in hours and percentage of each stage. *)
Definition stage_pair (stage : json) : option (Z * Z) :=
  match stage with
  | JObj d =>
      match num (jget_or "duration_hours" d (JInt 0)), num (jget_or "percent" d (JInt 100)) with
      | Ok h, Ok p => Some (h, p)
      | _, _ => None
      end
  | _ => None
  end.
Definition campaign_plan (c : campaign) : option (list (Z * Z)) :=
  match rollout_config c with
  | Some cfg => match jget_or "stages" cfg (JArr []) with JArr l => mapM stage_pair l | _ => None end
  | None => None
  end.

(** The percentage in force [elapsed] seconds after the start. *)
Fixpoint plan_percent (elapsed cum : Z) (plan : list (Z * Z)) : Z :=
  match plan with
  | [] => 100
  | (h, p) :: rest =>
      if (elapsed <? 3600 * (cum + h)) || (p =? 100) then p else plan_percent elapsed (cum + h) rest
  end.

(** Durations are not negative; percentages never decrease nor exceed 100. *)
Fixpoint plan_ok (low : Z) (plan : list (Z * Z)) : Prop :=
  match plan with
  | [] => True
  | (h, p) :: rest => 0 ≤ h ∧ low ≤ p ≤ 100 ∧ plan_ok p rest
  end.

Lemma stage_percent_plan elapsed cum stages plan :
  mapM stage_pair stages = Some plan →
  ∃ v, stage_percent elapsed cum stages = Ok v ∧ num v = Ok (plan_percent elapsed cum plan).
Proof.
  revert cum plan. induction stages as [|s stages IH]; intros cum plan Hm;
    [injection Hm as <-; by exists (JInt 100)|]. simpl in Hm.
  destruct (stage_pair s) as [[h p]|] eqn:E; [|done]. simpl in Hm.
  destruct (mapM stage_pair stages) as [plan'|] eqn:Ep; [|done]. injection Hm as <-.
  unfold stage_pair in E. destruct s as [| | | | |d]; try done. cbn [stage_percent stage_get rbind].
  destruct (num (jget_or "duration_hours" d _)) as [h'|]; [|done]. cbn [rbind].
  destruct (num (jget_or "percent" d _)) as [p'|] eqn:En; [|done]. injection E as -> ->. cbn [rbind plan_percent].
  unfold is_100. rewrite ?En.
  destruct ((elapsed <? _) || _); [eexists; split; [done|exact En]|]. by apply IH.
Qed.

Lemma plan_percent_low el cum low plan : low ≤ 100 → plan_ok low plan → low ≤ plan_percent el cum plan ≤ 100.
Proof.
  revert cum low. induction plan as [|[h p] plan IH]; intros cum low Hl Hok; simpl in *; [lia|].
  destruct Hok as (? & ? & Hok). case_match; [lia|]. specialize (IH (cum + h) p ltac:(lia) Hok). lia.
Qed.

Lemma plan_percent_mono el el' cum low plan :
  el ≤ el' → low ≤ 100 → plan_ok low plan → plan_percent el cum plan ≤ plan_percent el' cum plan.
Proof.
  intros Hel. revert cum low. induction plan as [|[h p] plan IH]; intros cum low Hl Hok; simpl in *; [lia|].
  destruct Hok as (? & ? & Hok).
  destruct (Z.ltb_spec el (3600 * (cum + h))), (Z.ltb_spec el' (3600 * (cum + h))), (Z.eqb_spec p 100);
    simpl; try lia.
  - pose proof (plan_percent_low el' (cum + h) p plan ltac:(lia) Hok). lia.
  - apply (IH _ p); [lia|done].
Qed.

Lemma rollout_eligible_plan now c u plan start :
  campaign_plan c = Some plan → campaign_created_at c = Some start → u ≠ "" →
  let p := plan_percent (now - start) 0 plan in
  rollout_eligible now c u = Ok ((100 <=? p) || (device_hash u <? p)).
Proof.
  intros Hp Hs Hu%truthy_str_true. cbv zeta. unfold rollout_eligible, campaign_plan in *.
  destruct (rollout_config c) as [[|kv cfg]|]; [injection Hp as <-; done| |done].
  rewrite Hu, Hs. destruct (jget_or "stages" (kv :: cfg) (JArr [])) as [| | | |l|]; try done.
  destruct l as [|s l]; [injection Hp as <-; done|]. cbn [truthy].
  destruct (stage_percent_plan (now - start) 0 (s :: l) plan Hp) as (v & Hv & Hn).
  unfold _get_current_rollout_percent. rewrite Hv. cbn [rbind]. rewrite Hn. cbn [rbind].
  destruct (Z.ltb_spec (plan_percent (now - start) 0 plan) 100), (Z.leb_spec 100 (plan_percent (now - start) 0 plan)); try lia; done.
Qed.

Lemma device_hash_range u : 0 ≤ device_hash u < 100.
Proof. apply Z.mod_pos_bound. lia. Qed.
End rollout.

(** A staged rollout only widens: with stages whose durations are not
    negative and whose percentages never decrease, a device that may update at
    some time may update at every later time, and once the last stage is over
    every device may. *)
Theorem rollout_monotone now now' c u plan start :
  campaign_plan c = Some plan → plan_ok 0 plan → campaign_created_at c = Some start → now ≤ now' →
  (Serve.rollout_eligible now c u = Ok true → Serve.rollout_eligible now' c u = Ok true) ∧
  (start + 3600 * foldr (λ hp s, hp.1 + s) 0 plan ≤ now → Serve.rollout_eligible now c u = Ok true).
Proof.
  intros Hp Hok Hs Hn. destruct (decide (u = "")) as [->|Hu].
  { assert (Ht : ∀ t, Serve.rollout_eligible t c "" = Ok true).
    { intros t. unfold Serve.rollout_eligible. by destruct (rollout_config c) as [[|? ?]|]. }
    by rewrite !Ht. }
  rewrite !(rollout_eligible_plan _ c u plan start) by done. split.
  - intros [= [H|H]%orb_true_iff]; f_equal; apply orb_true_iff.
    + left. apply Z.leb_le in H. apply Z.leb_le.
      pose proof (plan_percent_mono (now - start) (now' - start) 0 0 plan ltac:(lia) ltac:(lia) Hok). lia.
    + right. apply Z.ltb_lt in H. apply Z.ltb_lt.
      pose proof (plan_percent_mono (now - start) (now' - start) 0 0 plan ltac:(lia) ltac:(lia) Hok). lia.
  - intros Hend. f_equal. apply orb_true_iff. left. apply Z.leb_le.
    enough (∀ cum low, plan_ok low plan → 3600 * (cum + foldr (λ hp s, hp.1 + s) 0 plan) ≤ now - start →
      100 ≤ plan_percent (now - start) cum plan) as H by (apply (H 0 0); [done|lia]).
    clear. generalize (now - start) as el. intros el. induction plan as [|[h p] plan IH]; intros cum low; simpl; [lia|].
    intros (Hh & Hpr & Hok) Hle.
    assert (Hsum : 0 ≤ foldr (λ hp s, hp.1 + s) 0 plan).
    { clear -Hok. revert p Hok. induction plan as [|[h' p'] plan IH]; intros p; simpl; [lia|].
      intros (? & _ & Hok). specialize (IH _ Hok). lia. }
    destruct (Z.ltb_spec el (3600 * (cum + h))); [lia|]. simpl. case_match; bool_hyps; [lia|].
    apply (IH _ p); [done|lia].
Qed.
Definition campaign_ex : campaign :=
  Campaign 7 "normal" None "2.0.0" "p/2.xpi" "sha256:aa" None None "" ""
    (Some [("stages", JArr [JObj [("duration_hours", JInt 24); ("percent", JInt 10)];
                            JObj [("duration_hours", JInt 24); ("percent", JInt 50)]])]) (Some 1000).
Lemma rollout_monotone_witness :
  Serve.rollout_eligible 1000 campaign_ex "u1" = Ok true ∧ Serve.rollout_eligible 90000 campaign_ex "u1" = Ok true.
Proof.
  split; [vm_compute; reflexivity|].
  destruct (rollout_monotone 1000 90000 campaign_ex "u1" [(24, 10); (24, 50)] 1000 eq_refl
    ltac:(simpl; lia) eq_refl ltac:(lia)) as [H _]. apply H. vm_compute. reflexivity.
Defined.

(** ** The directive: facts *)
(** The version a device reports is usable. *)
Definition version_known (v : string) : Prop := v ≠ "" ∧ v ≠ "unknown" ∧ v ≠ "0".

(** With a rollout that lets the device through. *)
Lemma directive_complete now pv c u dn :
  version_known pv → artifact_version c ≠ "" → pv ≠ artifact_version c →
  Serve.rollout_eligible now c u = Ok true →
  Serve._build_update_directive now pv (Some c) u dn =
  Ok (if decide (tuple_lt (_parse_version_tuple pv) (_parse_version_tuple (artifact_version c))) then
        Some (Directive Update pv (artifact_version c) (Serve._artifact_url dn (Some (artifact_s3_path c)))
          (artifact_checksum c) (urgency c) (changelog_url c) (deadline_iso c) (campaign_id c))
      else if decide (truthy_opt (rollback_s3_path c) = true ∧ rollback_version c ≠ "") then
        Some (Directive Rollback pv (rollback_version c) (Serve._artifact_url dn (rollback_s3_path c))
          (rollback_checksum c) (urgency c) (changelog_url c) (deadline_iso c) (campaign_id c))
      else None).
Proof.
  intros (H1 & H2 & H3) Ha Hne He. unfold Serve._build_update_directive.
  rewrite bool_decide_eq_false_2 by tauto. apply truthy_str_true in Ha. rewrite Ha. cbn [negb].
  rewrite bool_decide_eq_false_2 by done. rewrite He. cbn [rbind negb].
  destruct (tuple_ltb _ _) eqn:E.
  - by rewrite decide_True by by apply tuple_ltb_true.
  - rewrite decide_False by (intros ?%tuple_ltb_true; congruence).
    destruct (truthy_opt (rollback_s3_path c)) eqn:Er, (truthy_str (rollback_version c)) eqn:Ev; cbn [andb];
      apply truthy_str_true in Ev || apply truthy_str_false in Ev.
    + by rewrite decide_True.
    + rewrite decide_False by tauto. done.
    + rewrite decide_False by naive_solver. done.
    + rewrite decide_False by naive_solver. done.
Qed.

(** No directive is sent otherwise: a directive implies a known version, a
    campaign with a version that differs from the device's, and a rollout that
    lets the device through; in particular a device that already runs the
    version of the campaign is left alone. *)
Lemma directive_requires now pv campaign u dn d :
  Serve._build_update_directive now pv campaign u dn = Ok (Some d) →
  ∃ c, campaign = Some c ∧ version_known pv ∧ artifact_version c ≠ "" ∧ pv ≠ artifact_version c ∧
    Serve.rollout_eligible now c u = Ok true ∧ d_campaign_id d = campaign_id c ∧ d_current_version d = pv.
Proof.
  unfold Serve._build_update_directive. destruct campaign as [c|]; [|done].
  case_bool_decide as Hk; [done|]. destruct (truthy_str (artifact_version c)) eqn:Ea; [|done]. cbn [negb].
  case_bool_decide as Hne; [done|]. destruct (Serve.rollout_eligible now c u) as [[]|] eqn:He; try done.
  cbn [rbind negb]. intros Hd. exists c. apply truthy_str_true in Ea.
  assert (version_known pv) by (unfold version_known; tauto).
  repeat case_match; simplify_eq; by split_and!.
Qed.


(** The campaign served to a device is an active update campaign without
    target cohort or targeting one of the device's cohorts, none such is more
    recent, and the host version lies in the artifact's range: not below its
    minimum, strictly below its maximum. *)
Theorem active_campaign_sound campaigns artifacts ids dt hv c :
  Serve._resolve_active_campaign (Some (campaigns, artifacts)) ids dt hv = Some c →
  ∃ r, r ∈ campaigns ∧ campaign_id c = cp_id r ∧ cp_status r = "active" ∧ cp_type r = "plugin_update" ∧
    Serve.targets ids r = true ∧
    (∀ r', r' ∈ campaigns → cp_status r' = "active" → cp_type r' = "plugin_update" →
       Serve.targets ids r' = true → cp_created r' ≤ cp_created r) ∧
    (∀ a m, Serve.join_artifact artifacts (cp_artifact r) = Some a → hv ≠ "" → m ≠ "" →
       (art_min_host_version a = Some m → ¬ tuple_lt (_parse_version_tuple hv) (_parse_version_tuple m)) ∧
       (art_max_host_version a = Some m → tuple_lt (_parse_version_tuple hv) (_parse_version_tuple m))).
Proof.
  unfold Serve._resolve_active_campaign.
  destruct (Serve.campaign_query campaigns ids) as [r|] eqn:E; [|done].
  apply first_max_Some in E as [[(Hs & Ht & Hg) Hin]%list_elem_of_filter Hmax].
  destruct (Serve.host_too_old _ _) eqn:Eo; [done|]. destruct (Serve.host_too_new _ _) eqn:En; [done|].
  intros [= <-]. exists r. split_and!; [done..| |].
  - intros r' Hr' ???. apply Hmax, list_elem_of_filter. by split_and!.
  - intros a m Ha Hhv%truthy_str_true Hm%truthy_str_true. rewrite Ha in *. split; intros Hv;
      [unfold Serve.host_too_old in Eo|unfold Serve.host_too_new in En]; cbn [mbind option_bind] in *;
      rewrite Hv, Hhv in *; cbn [truthy_opt text_or_empty default] in *; rewrite Hm in *; simpl in *.
    + intros ?%tuple_ltb_true. congruence.
    + apply tuple_ltb_true. by apply negb_false_iff in En.
Qed.
Definition campaign_row_ex : campaign_row :=
  CampaignRow 7 "c" "" "plugin_update" "active" None None (Some 1) None JNull None None None 50 None.
Definition artifact_ex : artifact :=
  Artifact 1 "thunderbird" (Some "2.0.0") (Some "p/2.xpi") (Some "sha256:aa") None (Some "115.0") None.
Lemma active_campaign_sound_witness : ∃ r, r ∈ [campaign_row_ex] ∧ 7 = cp_id r.
Proof.
  destruct (Serve._resolve_active_campaign (Some ([campaign_row_ex], [artifact_ex])) [] "thunderbird" "128.0") as [c|] eqn:E;
    [|vm_compute in E; discriminate].
  destruct (active_campaign_sound [campaign_row_ex] [artifact_ex] [] "thunderbird" "128.0" c E) as (r & H1 & H2 & _).
  exists r. split; [exact H1|]. rewrite <- H2. vm_compute in E. by injection E as <-.
Defined.

(** ** Life of a campaign: facts *)
Lemma with_status_id s c : cp_id (Life.with_status s c) = cp_id c ∧ cp_plugin (Life.with_status s c) = cp_plugin c
  ∧ cp_type (Life.with_status s c) = cp_type c.
Proof. done. Qed.

Lemma complete_older_active type plugin rows c :
  c ∈ Life.complete_older type plugin rows → cp_status c = "active" →
  c ∈ rows ∧ Life.superseded type plugin c = false.
Proof.
  unfold Life.complete_older. intros (r & -> & Hr)%list_elem_of_fmap. by destruct (Life.superseded type plugin r) eqn:E.
Qed.

(** Creating an active campaign completes the older ones it replaces: the
    only campaigns of its type still active afterwards are itself and those
    bound to another plugin. When it is an update campaign bound to no plugin,
    it is the one served to every device it targets. *)
Theorem create_campaign_supersedes now st name desc type art rb cohort urg dl rollout by_ plugin :
  let '(i, st') := Life.create_campaign now st name desc type art rb cohort urg dl "active" rollout by_ plugin in
  (∀ c, c ∈ Life.st_rows st' → cp_status c = "active" → cp_type c = type →
     cp_id c = i ∨ (∃ p q, plugin = Some p ∧ cp_plugin c = Some q ∧ p ≠ q)) ∧
  (plugin = None → type = "plugin_update" → ∀ ids,
     match cohort with None => True | Some t => t ∈ ids end →
     cp_id <$> Serve.campaign_query (Life.st_rows st') ids = Some i).
Proof.
  unfold Life.create_campaign. rewrite bool_decide_eq_true_2 by done. cbn [Life.st_rows].
  set (new := CampaignRow _ _ _ _ _ _ _ _ _ _ _ _ _ _ _). split.
  - intros c [Hc|Hc%list_elem_of_singleton]%elem_of_app Hact Hty; [|subst c; by left].
    apply complete_older_active in Hc as [_ Hs]; [|done]. unfold Life.superseded in Hs. bool_hyps.
    right. destruct plugin as [p|], (cp_plugin c) as [q|] eqn:Eq; try naive_solver.
  - intros -> -> ids Hids. unfold Serve.campaign_query. rewrite filter_app.
    enough (filter (λ c, cp_status c = "active" ∧ cp_type c = "plugin_update" ∧ Serve.targets ids c = true)
      (Life.complete_older "plugin_update" None (Life.st_rows st)) = []) as ->.
    { rewrite filter_cons, decide_True; [done|]. split_and!; [done..|]. unfold Serve.targets. simpl.
      destruct cohort; [by apply bool_decide_eq_true|done]. }
    apply filter_none. intros c Hc (Hact & Hty & _).
    apply complete_older_active in Hc as [_ Hs]; [|done]. unfold Life.superseded in Hs. bool_hyps. naive_solver.
Qed.

(** ** Device status: facts *)
Section status_facts.
Import Status.
Lemma status_of_upsert camp cl new upd rows :
  (∀ r, ds_campaign (upd r) = ds_campaign r ∧ ds_client (upd r) = ds_client r) →
  status_of camp cl (upsert new upd rows) =
  if decide (camp = ds_campaign new ∧ cl = ds_client new)
  then Some (match status_of camp cl rows with Some r => upd r | None => new end)
  else status_of camp cl rows.
Proof.
  intros Hupd. unfold status_of. induction rows as [|r rows IH]; simpl.
  { case_decide; case_bool_decide; naive_solver. }
  destruct (decide (ds_campaign r = ds_campaign new ∧ ds_client r = ds_client new)) as [[H1 H2]|Hn]; simpl.
  - destruct (Hupd r) as [-> ->]. repeat (case_decide || case_bool_decide); naive_solver.
  - rewrite IH. repeat (case_decide || case_bool_decide); naive_solver.
Qed.
End status_facts.

(** A status report is bound to the relay client that sends it: accepted,
    it names that client, leaves the rows of every other client and campaign
    as they were, and records the outcome: updated for an installed report and
    failed for every other accepted status, a deferred update included. *)
Theorem status_report_bound now rows authed camp client status vb va err rows' :
  authed ≠ "" →
  Status.report_update_status now rows (Some (Some authed)) camp client status vb va err = Ok rows' →
  client = authed ∧ status ∈ Status.allowed_statuses ∧
  (∀ camp' cl, (camp', cl) ≠ (camp, authed) → Status.status_of camp' cl rows' = Status.status_of camp' cl rows) ∧
  (∃ r, Status.status_of camp authed rows' = Some r ∧
     Status.ds_status r = (if decide (status = "installed") then "updated" else "failed") ∧
     Status.ds_version_after r = Status.opt_text va).
Proof.
  intros Ha%truthy_str_true. unfold Status.report_update_status.
  destruct (decide (status ∈ Status.allowed_statuses)); [|done]. destruct (truthy_str client) eqn:Ec; [|done].
  cbn [negb]. rewrite Ha. cbn [andb]. case_bool_decide as Heq; [|done]. subst client. cbn [negb].
  intros [= <-]. split_and!; [done|done|..].
  - intros camp' cl Hne. unfold Status._update_campaign_device_status_sync.
    rewrite status_of_upsert by done. simpl. rewrite decide_False by naive_solver. done.
  - unfold Status._update_campaign_device_status_sync. rewrite status_of_upsert by done. simpl.
    rewrite decide_True by done. eexists. split; [done|].
    destruct (Status.status_of camp authed rows); simpl; repeat (case_decide || case_bool_decide); done.
Qed.
Lemma status_report_bound_witness :
  ∃ rows', Status.report_update_status 9 [] (Some (Some "u1")) 7 "u1" "deferred" "1.0" "" "" = Ok rows' ∧
    "u1" = "u1" ∧ Status.ds_status <$> Status.status_of 7 "u1" rows' = Some "failed".
Proof.
  eexists. split; [reflexivity|].
  destruct (status_report_bound 9 [] "u1" 7 "u1" "deferred" "1.0" "" "" _ ltac:(done) eq_refl) as (H & _ & _ & r & Hr & Hs & _).
  split; [exact H|]. rewrite Hr. simpl. by rewrite Hs.
Defined.
