(* ===== verification/Queue.v ===== *)
(** * The job queue
    [app/postgres_queue.py] over its two tables, and the worker loop of
    [app/main.py] (claim a batch, process each job, acknowledge, retry or move
    to the dead letters) as a system of several workers that interleave. Each
    SQL statement is one atomic step; rows that a concurrent transaction holds
    locked are an argument of the claim. Job ids are numbers, times seconds,
    jitter milliseconds. *)
From S2P Require Import Prelude Text Json.
From Stdlib Require Import Ascii String Sorted.
Open Scope Z_scope.

Inductive job_status : Type := Pending | Processing | JobDone | Dead.
#[export] Instance job_status_eq_dec : EqDecision job_status.
Proof. solve_decision. Defined.

(** A row of [queue_jobs]. *)
Record job : Type := Job {
  j_id : Z; j_topic : string; j_payload : json; j_dedupe : option string;
  j_status : job_status; j_attempts : Z; j_max_attempts : Z; j_next_attempt : Z; j_created : Z;
  j_locked_at : option Z; j_lock_owner : option string; j_completed : option Z; j_last_error : option string }.

(** A row of [queue_job_dead_letters]. *)
Record dead_letter : Type := DeadLetter {
  dl_job : Z; dl_topic : string; dl_payload : json; dl_dedupe : option string;
  dl_attempts : Z; dl_max_attempts : Z; dl_last_error : string }.

(** What a worker holds of a claimed job: [QueueJob]. *)
Record QueueJob : Type := MkQueueJob {
  qj_id : Z; qj_topic : string; qj_payload : list (string * json); qj_attempts : Z; qj_max_attempts : Z;
  qj_dedupe : option string; qj_created : Z; qj_next_attempt : Z }.

Record queue : Type := Queue { q_jobs : list job; q_dead : list dead_letter; q_next : Z }.

(** The fields of [PostgresQueue], and whether the dead letter table has the
    unique index on [job_id] that the upsert names. *)
Record config : Type := Config {
  lock_ttl_seconds : Z; default_max_attempts : Z; retry_base_seconds : Z; retry_max_seconds : Z;
  retry_jitter_ms : Z; dead_letter_unique : bool }.

(** [PostgresQueue.__init__] *)
Definition PostgresQueue (lock_ttl default_max base max_ jitter_ms : Z) (unique : bool) : config :=
  let b := Z.max 1 base in
  Config (Z.max 1 lock_ttl) (Z.max 1 default_max) b (Z.max b max_) (Z.max 0 jitter_ms) unique.

Module Ops.
Definition _payload_to_dict (raw : json) : list (string * json) :=
  match raw with
  | JObj d => d
  | JStr s => match loads s with Some (JObj d) => d | _ => [("raw", JStr s)] end
  | v => [("raw", JStr (py_str v))]
  end.

Definition with_lock (j : job) (s : job_status) (attempts next : Z) (locked : option Z) (owner : option string)
    (completed : option Z) (err : option string) : job :=
  Job (j_id j) (j_topic j) (j_payload j) (j_dedupe j) s attempts (j_max_attempts j) next (j_created j)
    locked owner completed err.

Definition status_name (s : job_status) : string :=
  match s with Pending => "pending" | Processing => "processing" | JobDone => "done" | Dead => "dead" end.

(** The unique index on (topic, dedupe_key): a NULL key conflicts with nothing. *)
Definition same_dedupe (topic : string) (dedupe : option string) (j : job) : bool :=
  match dedupe with
  | None => false
  | Some k => bool_decide (j_topic j = topic ∧ j_dedupe j = Some k)
  end.

Definition enqueue (cf : config) (now : Z) (q : queue) (topic : string) (payload : json) (dedupe_key : option string)
    (run_after_seconds : Z) (max_attempts : option Z) : result exn (Z * string * queue) :=
  match payload with
  | JObj _ =>
      if negb (truthy_str topic) then Err tt
      else
        let limit := Z.max 1 (match max_attempts with Some m => if m =? 0 then default_max_attempts cf else m
                                                 | None => default_max_attempts cf end) in
        let delay := Z.max 0 run_after_seconds in
        match find (same_dedupe topic dedupe_key) (q_jobs q) with
        | Some j => Ok (j_id j, status_name (j_status j), q)
        | None =>
            let j := Job (q_next q) topic payload dedupe_key Pending 0 limit (now + delay) now None None None None in
            Ok (q_next q, "pending", Queue (q_jobs q ++ [j]) (q_dead q) (q_next q + 1))
        end
  | _ => Err tt
  end.

(** ORDER BY next_attempt_at, created_at *)
Definition job_before (a b : job) : bool :=
  (j_next_attempt a <? j_next_attempt b) ||
  ((j_next_attempt a =? j_next_attempt b) && (j_created a <=? j_created b)).
Fixpoint insert_job (j : job) (l : list job) : list job :=
  match l with
  | [] => [j]
  | x :: r => if job_before j x then j :: l else x :: insert_job j r
  end.
Definition sort_jobs (l : list job) : list job := foldr insert_job [] l.

Definition claimable (cf : config) (now : Z) (skip : Z → bool) (j : job) : bool :=
  bool_decide (j_status j = Pending) && (j_next_attempt j <=? now) &&
  (match j_locked_at j with None => true | Some t => t <? now - lock_ttl_seconds cf end) && negb (skip (j_id j)).

Definition claim_row (worker_id : string) (now : Z) (j : job) : job :=
  with_lock j Processing (j_attempts j + 1) (j_next_attempt j) (Some now) (Some worker_id) (j_completed j) (j_last_error j).

Definition to_queue_job (cf : config) (j : job) : QueueJob :=
  MkQueueJob (j_id j) (j_topic j) (_payload_to_dict (j_payload j)) (j_attempts j)
    (if j_max_attempts j =? 0 then default_max_attempts cf else j_max_attempts j)
    (match j_dedupe j with Some k => if truthy_str k then Some k else None | None => None end)
    (j_created j) (j_next_attempt j).

(** [skip]: the rows another transaction has locked (FOR UPDATE SKIP LOCKED). *)
Definition claim_ids (cf : config) (now : Z) (skip : Z → bool) (limit : Z) (q : queue) : list Z :=
  j_id <$> take (Z.to_nat (Z.max 1 limit)) (sort_jobs (filter (λ j, claimable cf now skip j = true) (q_jobs q))).

Definition claim_jobs (cf : config) (now : Z) (skip : Z → bool) (worker_id : string) (limit : Z) (q : queue)
    : list QueueJob * queue :=
  let ids := claim_ids cf now skip limit q in
  let claim j := if decide (j_id j ∈ ids) then claim_row worker_id now j else j in
  (to_queue_job cf ∘ claim_row worker_id now <$> filter (λ j, j_id j ∈ ids) (q_jobs q),
   Queue (claim <$> q_jobs q) (q_dead q) (q_next q)).

(** The WHERE clause of the three updates by the owner. *)
Definition owned (job_id : Z) (worker_id : string) (j : job) : bool :=
  bool_decide (j_id j = job_id ∧ j_status j = Processing ∧ j_lock_owner j = Some worker_id).
Definition update_owned (job_id : Z) (worker_id : string) (f : job → job) (q : queue) : bool * queue :=
  (existsb (owned job_id worker_id) (q_jobs q),
   Queue ((λ j, if owned job_id worker_id j then f j else j) <$> q_jobs q) (q_dead q) (q_next q)).

Definition ack (now : Z) (job_id : Z) (worker_id : string) (q : queue) : bool * queue :=
  update_owned job_id worker_id
    (λ j, with_lock j JobDone (j_attempts j) (j_next_attempt j) None None (Some now) (j_last_error j)) q.

(** [jit]: the jitter drawn, in milliseconds. *)
Definition _retry_delay_seconds (cf : config) (attempts jit : Z) : Z :=
  let exponent := Z.max 0 (attempts - 1) in
  let delay := Z.min (retry_max_seconds cf) (retry_base_seconds cf * 2 ^ exponent) in
  let delay_ms := if 0 <? retry_jitter_ms cf then 1000 * delay + jit else 1000 * delay in
  Z.max 1 (delay_ms / 1000).

Definition retry (cf : config) (now : Z) (job_id : Z) (worker_id : string) (attempts : Z) (error_text : string)
    (jit : Z) (q : queue) : bool * queue :=
  let delay := _retry_delay_seconds cf attempts jit in
  update_owned job_id worker_id
    (λ j, with_lock j Pending (j_attempts j) (now + delay) None None (j_completed j) (Some (stake 2000 error_text))) q.

(** The upsert of the dead letter. *)
Fixpoint upsert_dead (d : dead_letter) (l : list dead_letter) : list dead_letter :=
  match l with
  | [] => [d]
  | x :: r =>
      if decide (dl_job x = dl_job d)
      then DeadLetter (dl_job x) (dl_topic x) (dl_payload x) (dl_dedupe x) (dl_attempts d) (dl_max_attempts d) (dl_last_error d) :: r
      else x :: upsert_dead d r
  end.

(** Without the unique index that ON CONFLICT (job_id) needs, the statement
    raises and the transaction is rolled back. *)
Definition move_to_dead_letter (cf : config) (now : Z) (j : QueueJob) (worker_id error_text : string) (q : queue)
    : result exn (bool * queue) :=
  if dead_letter_unique cf then
    let err := stake 2000 error_text in
    let d := DeadLetter (qj_id j) (qj_topic j) (JObj (qj_payload j)) (qj_dedupe j) (qj_attempts j) (qj_max_attempts j) err in
    let q1 := Queue (q_jobs q) (upsert_dead d (q_dead q)) (q_next q) in
    Ok (update_owned (qj_id j) worker_id
          (λ r, with_lock r Dead (j_attempts r) (j_next_attempt r) None None (Some now) (Some err)) q1)
  else Err tt.

(** [stats]: counts by status, total, age of the oldest pending job, stale locks *)
Definition count (p : job → bool) (q : queue) : Z := Z.of_nat (List.length (filter (λ j, p j = true) (q_jobs q))).
Definition has_status (s : job_status) (j : job) : bool := bool_decide (j_status j = s).
Definition stats (cf : config) (now : Z) (q : queue) : list (string * Z) :=
  [("pending", count (has_status Pending) q); ("processing", count (has_status Processing) q);
   ("done", count (has_status JobDone) q); ("dead", count (has_status Dead) q);
   ("total", count (λ _, true) q);
   ("oldest_pending_age_seconds",
      foldr Z.max 0 ((λ j, now - j_created j) <$> filter (λ j, has_status Pending j = true) (q_jobs q)));
   ("stale_processing", count (λ j, has_status Processing j &&
      match j_locked_at j with Some t => t <? now - lock_ttl_seconds cf | None => false end) q);
   ("timestamp", now)].
End Ops.

(** ** The workers *)
Module Workers.
Import Ops.

(** The queue and, for each worker id, the rest of its batch; the clock. *)
Record sys : Type := Sys { s_queue : queue; s_batch : gmap string (list QueueJob); s_now : Z }.
Definition batch (s : sys) (w : string) : list QueueJob := default [] (s_batch s !! w).

(** The [except] branch of the loop: dead letter on the last attempt, else
    retry; [Err]: the exception leaves the loop. *)
Definition handle_failure (cf : config) (now : Z) (w : string) (j : QueueJob) (error_text : string) (jit : Z) (q : queue)
    : result exn (bool * queue) :=
  if qj_max_attempts j <=? qj_attempts j then move_to_dead_letter cf now j w error_text q
  else Ok (retry cf now (qj_id j) w (qj_attempts j) error_text jit q).

(** The steps of the system. A worker claims when its batch is exhausted; each
    job of the batch succeeds or fails; a worker that is stopped, crashes or
    leaves the loop on an exception drops its batch. *)
Inductive step (cf : config) : sys → sys → Prop :=
| step_tick q b now now' : now ≤ now' → step cf (Sys q b now) (Sys q b now')
| step_enqueue q b now topic payload dedupe after max_ r :
    enqueue cf now q topic payload dedupe after max_ = Ok r → step cf (Sys q b now) (Sys r.2 b now)
| step_claim q b now w limit skip :
    default [] (b !! w) = [] →
    step cf (Sys q b now)
      (Sys (claim_jobs cf now skip w limit q).2 (<[w := (claim_jobs cf now skip w limit q).1]> b) now)
| step_success q b now w j rest :
    b !! w = Some (j :: rest) →
    step cf (Sys q b now) (Sys (ack now (qj_id j) w q).2 (<[w := rest]> b) now)
| step_failure q b now w j rest err jit r :
    b !! w = Some (j :: rest) → handle_failure cf now w j err jit q = Ok r →
    step cf (Sys q b now) (Sys r.2 (<[w := rest]> b) now)
| step_failure_raises q b now w j rest err jit :
    b !! w = Some (j :: rest) → handle_failure cf now w j err jit q = Err tt →
    step cf (Sys q b now) (Sys q (delete w b) now)
| step_stop q b now w : step cf (Sys q b now) (Sys q (delete w b) now).

Definition init (now : Z) : sys := Sys (Queue [] [] 1) ∅ now.
Definition reachable (cf : config) (s : sys) : Prop := ∃ now, rtc (step cf) (init now) s.
End Workers.

(** ** Invariant *)
Section invariant.
Import Ops Workers.

(** A row is locked exactly while it is processed; attempts stay within the
    limit, and a pending job has attempts left. *)
Definition row_ok (j : job) : Prop :=
  (j_status j = Processing → ∃ t w, j_locked_at j = Some t ∧ j_lock_owner j = Some w) ∧
  (j_status j ≠ Processing → j_locked_at j = None ∧ j_lock_owner j = None) ∧
  0 ≤ j_attempts j ≤ j_max_attempts j ∧ 1 ≤ j_max_attempts j ∧
  (j_status j = Pending → j_attempts j < j_max_attempts j).

Definition same_key (a b : job) : Prop := j_topic a = j_topic b ∧ j_dedupe a = j_dedupe b ∧ j_dedupe a ≠ None.
Definition queue_ok (q : queue) : Prop :=
  NoDup (j_id <$> q_jobs q) ∧
  (∀ j, j ∈ q_jobs q → row_ok j ∧ j_id j < q_next q) ∧
  (∀ a b, a ∈ q_jobs q → b ∈ q_jobs q → same_key a b → j_id a = j_id b).

(** The row that a held job stands for. *)
Definition holds (q : queue) (w : string) (j : QueueJob) (r : job) : Prop :=
  r ∈ q_jobs q ∧ j_id r = qj_id j ∧ j_status r = Processing ∧ j_lock_owner r = Some w ∧
  j_attempts r = qj_attempts j ∧ j_max_attempts r = qj_max_attempts j.
Definition batches_ok (q : queue) (b : gmap string (list QueueJob)) : Prop :=
  ∀ w l, b !! w = Some l → NoDup (qj_id <$> l) ∧ ∀ j, j ∈ l → ∃ r, holds q w j r.
Definition sys_ok (s : sys) : Prop := queue_ok (s_queue s) ∧ batches_ok (s_queue s) (s_batch s).

Lemma same_id q a b : queue_ok q → a ∈ q_jobs q → b ∈ q_jobs q → j_id a = j_id b → a = b.
Proof.
  intros (Hn & _ & _). by apply NoDup_key.
Qed.

(** Rewriting rows in place. *)
Definition keeps_key (f : job → job) : Prop :=
  ∀ j, j_id (f j) = j_id j ∧ j_topic (f j) = j_topic j ∧ j_dedupe (f j) = j_dedupe j.
Lemma queue_ok_map f q dead :
  keeps_key f → queue_ok q → (∀ j, j ∈ q_jobs q → row_ok j → row_ok (f j)) →
  queue_ok (Queue (f <$> q_jobs q) dead (q_next q)).
Proof.
  intros Hf (Hn & Hr & Hd) Hok. unfold queue_ok. simpl. split_and!.
  - rewrite <- list_fmap_compose. erewrite list_fmap_ext; [exact Hn|]. intros i j _. apply Hf.
  - intros j (i & -> & Hi)%list_elem_of_fmap. destruct (Hr i Hi) as [Hrow Hlt]. split; [by apply Hok|].
    destruct (Hf i) as (-> & _). done.
  - intros a b (a' & -> & Ha)%list_elem_of_fmap (b' & -> & Hb)%list_elem_of_fmap.
    destruct (Hf a') as (-> & Hta & Hda), (Hf b') as (-> & Htb & Hdb). unfold same_key.
    rewrite Hta, Hda, Htb, Hdb. by apply Hd.
Qed.

Lemma update_owned_map id w f : keeps_key f →
  keeps_key (λ j, if owned id w j then f j else j).
Proof. intros Hf j. destruct (owned id w j); [apply Hf|done]. Qed.

Lemma owned_true id w j : owned id w j = true ↔ j_id j = id ∧ j_status j = Processing ∧ j_lock_owner j = Some w.
Proof. apply bool_decide_eq_true. Qed.

(** Jobs that other rows hold are untouched by an update of the owned row. *)
Lemma holds_update id w f q dead w' j r :
  holds q w' j r → (w' ≠ w ∨ qj_id j ≠ id) →
  holds (Queue ((λ x, if owned id w x then f x else x) <$> q_jobs q) dead (q_next q)) w' j r.
Proof.
  intros (Hin & Hid & Hs & Ho & Ha & Hm) Hne. split_and!; try done. simpl. apply list_elem_of_fmap. exists r.
  split; [|done]. destruct (owned id w r) eqn:E; [|done]. apply owned_true in E as (E1 & _ & E3).
  rewrite Ho in E3. injection E3 as ->. destruct Hne; congruence.
Qed.

Lemma batches_update id w f q dead b j rest :
  batches_ok q b → b !! w = Some (j :: rest) → id = qj_id j →
  batches_ok (Queue ((λ x, if owned id w x then f x else x) <$> q_jobs q) dead (q_next q)) (<[w := rest]> b).
Proof.
  intros Hb Hw -> w' l Hl. destruct (Hb w (j :: rest) Hw) as [Hnd Hh]. rewrite fmap_cons, NoDup_cons in Hnd.
  destruct Hnd as [Hj Hnd]. destruct (decide (w' = w)) as [->|Hne].
  - rewrite lookup_insert_eq in Hl. injection Hl as <-. split; [done|]. intros j' Hj'.
    destruct (Hh j' ltac:(set_solver)) as [r Hr]. exists r. apply holds_update; [done|]. right. intros Heq.
    apply Hj. rewrite <- Heq. apply list_elem_of_fmap. by exists j'.
  - rewrite lookup_insert_ne in Hl by done. destruct (Hb w' l Hl) as [Hnd' Hh']. split; [done|].
    intros j' Hj'. destruct (Hh' j' Hj') as [r Hr]. exists r. apply holds_update; [done|]. by left.
Qed.

Lemma batches_delete q b w : batches_ok q b → batches_ok q (delete w b).
Proof. intros Hb w' l Hl. apply Hb. apply lookup_delete_Some in Hl. tauto. Qed.

Lemma insert_job_perm j l : insert_job j l ≡ₚ j :: l.
Proof. induction l as [|x l IH]; simpl; [done|]. case_match; [done|]. rewrite IH. by constructor. Qed.
Lemma sort_jobs_perm l : sort_jobs l ≡ₚ l.
Proof. induction l as [|x l IH]; simpl; [done|]. by rewrite insert_job_perm, IH. Qed.

Lemma claim_ids_claimable cf now skip limit q j :
  queue_ok q → j ∈ q_jobs q → j_id j ∈ claim_ids cf now skip limit q → claimable cf now skip j = true.
Proof.
  intros Hq Hj (x & Hid & Hx)%list_elem_of_fmap.
  apply elem_of_take in Hx as (i & Hx & _). apply list_elem_of_lookup_2 in Hx.
  rewrite sort_jobs_perm in Hx. apply list_elem_of_filter in Hx as [Hc Hx].
  by rewrite (same_id q j x).
Qed.

Lemma claimable_true cf now skip j : claimable cf now skip j = true →
  j_status j = Pending ∧ j_next_attempt j ≤ now ∧ skip (j_id j) = false.
Proof. unfold claimable. intros H. bool_hyps. done. Qed.

Lemma claim_ok cf now skip w limit q b :
  queue_ok q → batches_ok q b → default [] (b !! w) = [] →
  let r := claim_jobs cf now skip w limit q in
  queue_ok r.2 ∧ batches_ok r.2 (<[w := r.1]> b).
Proof.
  intros Hq Hb Hempty. cbv zeta. unfold claim_jobs. cbn [fst snd].
  set (ids := claim_ids cf now skip limit q).
  assert (Hrow : ∀ j, j ∈ q_jobs q → j_id j ∈ ids → j_status j = Pending).
  { intros j Hj Hid. by eapply claimable_true, claim_ids_claimable. }
  split.
  - apply (queue_ok_map (λ j, if decide (j_id j ∈ ids) then claim_row w now j else j)); [|done|].
    + intros j. by case_decide.
    + intros j Hj Hok. case_decide as Hid; [|done]. specialize (Hrow j Hj Hid).
      destruct Hok as (_ & _ & Ha & Hm & Hp). specialize (Hp Hrow).
      unfold row_ok, claim_row. simpl. split_and!; [by eauto|done|lia..|done].
  - intros w' l Hl. destruct (decide (w' = w)) as [->|Hne].
    + rewrite lookup_insert_eq in Hl. injection Hl as <-. split.
      * rewrite <- list_fmap_compose. apply (sublist_NoDup _ (j_id <$> q_jobs q)); [apply Hq|].
        rewrite (list_fmap_ext _ j_id); [|done]. apply fmap_sublist, sublist_filter.
      * intros j (r & -> & [Hid Hr]%list_elem_of_filter)%list_elem_of_fmap.
        exists (claim_row w now r). destruct Hq as (_ & Hq & _). destruct (Hq r Hr) as [(_ & _ & _ & Hm & _) _].
        unfold holds. simpl. split_and!; try done.
        -- apply list_elem_of_fmap. exists r. by rewrite decide_True.
        -- destruct (Z.eqb_spec (j_max_attempts r) 0); [lia|done].
    + rewrite lookup_insert_ne in Hl by done. destruct (Hb w' l Hl) as [Hnd Hh]. split; [done|].
      intros j Hj. destruct (Hh j Hj) as (r & Hin & Hid & Hs & Hrest). exists r. unfold holds. simpl.
      split_and!; try tauto. apply list_elem_of_fmap. exists r. split; [|done].
      rewrite decide_False; [done|]. intros Hi. rewrite (Hrow r Hin Hi) in Hs. done.
Qed.

Lemma enqueue_ok cf now q b topic payload dedupe after max_ r :
  1 ≤ default_max_attempts cf → queue_ok q → batches_ok q b →
  enqueue cf now q topic payload dedupe after max_ = Ok r → queue_ok r.2 ∧ batches_ok r.2 b.
Proof.
  intros Hcf (Hn & Hr & Hd) Hb. unfold enqueue. destruct payload; try done. case_match; [done|].
  destruct (find _ _) as [j|] eqn:Ef; intros [= <-]; cbn [snd]; [by split|].
  assert (Hids : ∀ j, j ∈ q_jobs q → j_id j ≠ q_next q) by (intros j Hj; destruct (Hr j Hj); lia).
  split.
  - unfold queue_ok. cbn [q_jobs q_next]. split_and!.
    + rewrite fmap_app. apply NoDup_app. split_and!; [done| |apply NoDup_singleton].
      intros x (j & -> & Hj)%list_elem_of_fmap Hx. simpl in Hx. apply list_elem_of_singleton in Hx. by apply (Hids j).
    + intros j [Hj|Hj%list_elem_of_singleton]%elem_of_app.
      * destruct (Hr j Hj). split; [done|lia].
      * subst j. unfold row_ok. simpl. split; [|lia]. split_and!; try done; try lia.
    + intros a c [Ha|Ha%list_elem_of_singleton]%elem_of_app [Hc|Hc%list_elem_of_singleton]%elem_of_app Hk;
        [by apply Hd| | |by subst].
      * subst c. exfalso. destruct Hk as (Ht & Hk & Hne). simpl in *. destruct dedupe as [k|]; [|congruence].
        apply list_elem_of_In in Ha. apply (find_none _ _ Ef) in Ha. unfold same_dedupe in Ha. bool_hyps. tauto.
      * subst a. exfalso. destruct Hk as (Ht & Hk & Hne). simpl in *. destruct dedupe as [k|]; [|congruence].
        apply list_elem_of_In in Hc. apply (find_none _ _ Ef) in Hc. unfold same_dedupe in Hc. bool_hyps.
        destruct Hc. split; congruence.
  - intros w l Hl. destruct (Hb w l Hl) as [Hnd Hh]. split; [done|]. intros j Hj.
    destruct (Hh j Hj) as (r & Hin & Hrest). exists r. split; [|done]. simpl. apply elem_of_app. by left.
Qed.

Lemma release_row_ok j s next completed err :
  row_ok j → s ≠ Processing → (s = Pending → j_attempts j < j_max_attempts j) →
  row_ok (with_lock j s (j_attempts j) next None None completed err).
Proof. intros (_ & _ & Ha & Hm & _) Hs Hp. unfold row_ok. simpl. split_and!; done || lia. Qed.

Lemma held_row q b w j rest r :
  queue_ok q → batches_ok q b → b !! w = Some (j :: rest) → r ∈ q_jobs q → j_id r = qj_id j →
  holds q w j r.
Proof.
  intros Hq Hb Hw Hr Hid. destruct (Hb w _ Hw) as [_ Hh]. destruct (Hh j ltac:(set_solver)) as [r' Hr'].
  assert (r = r') as ->; [|done]. destruct Hr' as (Hin & Hid' & _). apply (same_id q); [done..|congruence].
Qed.

Lemma handle_failure_ok cf now w j rest err jit q b r :
  queue_ok q → batches_ok q b → b !! w = Some (j :: rest) →
  handle_failure cf now w j err jit q = Ok r → queue_ok r.2 ∧ batches_ok r.2 (<[w := rest]> b).
Proof.
  intros Hq Hb Hw. unfold handle_failure, move_to_dead_letter. destruct (Z.leb_spec (qj_max_attempts j) (qj_attempts j)).
  - destruct (dead_letter_unique cf); [|done]. intros [= <-]. unfold update_owned. cbn [snd q_jobs q_dead q_next].
    split; [|by eapply batches_update].
    eapply queue_ok_map; [by apply update_owned_map|done|].
    intros x Hx Hok. destruct (owned _ _ _); [|done]. by apply release_row_ok.
  - intros [= <-]. unfold retry, update_owned. cbn [snd]. split; [|by eapply batches_update].
    eapply queue_ok_map; [by apply update_owned_map|done|].
    intros x Hx Hok. destruct (owned _ _ _) eqn:Eo; [|done]. apply release_row_ok; [done|done|]. intros _.
    apply owned_true in Eo as (Hid & _). destruct (held_row q b w j rest x Hq Hb Hw Hx Hid) as (_&_&_&_&Ha&Hm). lia.
Qed.

Lemma step_ok cf s s' : 1 ≤ default_max_attempts cf → step cf s s' → sys_ok s → sys_ok s'.
Proof.
  intros Hcf Hst [Hq Hb]. destruct Hst; unfold sys_ok in *; cbn [s_queue s_batch] in *.
  - done.
  - by eapply enqueue_ok.
  - by apply claim_ok.
  - split; [|by eapply batches_update].
    eapply queue_ok_map; [by apply update_owned_map|done|].
    intros x Hx Hok. destruct (owned _ _ _); [|done]. by apply release_row_ok.
  - by eapply handle_failure_ok.
  - split; [done|by apply batches_delete].
  - split; [done|by apply batches_delete].
Qed.

Lemma reachable_ok cf s : 1 ≤ default_max_attempts cf → reachable cf s → sys_ok s.
Proof.
  intros Hcf [now Hs]. apply (rtc_ind_r (λ s, sys_ok s) (init now)) in Hs; [done| |].
  - split; [|intros w l Hl; cbn in Hl; by rewrite lookup_empty in Hl].
    split_and!; [apply NoDup_nil_2|by intros j Hj%not_elem_of_nil|by intros a b Ha%not_elem_of_nil].
  - intros y z _ Hyz Hy. by eapply step_ok.
Qed.
End invariant.

(** ** Properties *)
(** C19. In every state that any interleaving of producers and workers reaches,
    a job is locked exactly while it is being processed, has been claimed at
    most [max_attempts] times, and has attempts left while it is pending. *)
Theorem queue_invariant cf s j :
  1 ≤ default_max_attempts cf → Workers.reachable cf s → j ∈ q_jobs (Workers.s_queue s) → row_ok j.
Proof. intros Hcf Hs Hj. destruct (reachable_ok cf s Hcf Hs) as [(_ & Hr & _) _]. by apply Hr. Qed.

(** C7. Two workers never hold the same job, a worker never holds a job twice,
    and the row of a job that a worker holds is locked by that worker: the
    acknowledgement of its current job succeeds, and so does the retry. *)
Theorem no_double_processing cf s w w' j j' rest :
  1 ≤ default_max_attempts cf → Workers.reachable cf s →
  Workers.s_batch s !! w = Some (j :: rest) → j' ∈ Workers.batch s w' →
  (w ≠ w' → qj_id j ≠ qj_id j') ∧ (qj_id j ∉ qj_id <$> rest) ∧
  ∀ now err jit, (Ops.ack now (qj_id j) w (Workers.s_queue s)).1 = true ∧
    (Ops.retry cf now (qj_id j) w (qj_attempts j) err jit (Workers.s_queue s)).1 = true.
Proof.
  intros Hcf Hs Hw Hw'. destruct (reachable_ok cf s Hcf Hs) as [Hq Hb].
  destruct (Hb w _ Hw) as [Hnd Hh]. destruct (Hh j ltac:(set_solver)) as [r Hr].
  rewrite fmap_cons, NoDup_cons in Hnd. destruct Hnd as [Hj _]. split_and!; [|done|].
  - intros Hne Heq. unfold Workers.batch in Hw'.
    destruct (Workers.s_batch s !! w') as [l|] eqn:El; [|by apply not_elem_of_nil in Hw'].
    destruct (Hb w' l El) as [_ Hh']. destruct (Hh' j' Hw') as [r' Hr'].
    destruct Hr as (Hin & Hid & _ & Ho & _), Hr' as (Hin' & Hid' & _ & Ho' & _).
    assert (r = r') as -> by (apply (same_id (Workers.s_queue s)); [done..|congruence]). congruence.
  - intros now err jit. destruct Hr as (Hin & Hid & Hst & Ho & _).
    assert (existsb (Ops.owned (qj_id j) w) (q_jobs (Workers.s_queue s)) = true); [|done].
    apply existsb_exists. exists r. split; [by apply list_elem_of_In|]. by apply owned_true.
Qed.

(** An execution with two jobs and two workers. *)
Definition queue_cf_ex : config := PostgresQueue 60 8 2 300 1000 true.
Definition queue_run_ex : Workers.sys :=
  let q0 := Queue [] [] 1 in
  let enq q k := match Ops.enqueue queue_cf_ex 10 q "enroll.process" (JObj []) (Some k) 0 (Some 1) with Ok r => r.2 | Err _ => q end in
  let q2 := enq (enq q0 "a") "b" in
  let ra := Ops.claim_jobs queue_cf_ex 10 (λ _, false) "w1" 1 q2 in
  let rb := Ops.claim_jobs queue_cf_ex 10 (λ _, false) "w2" 1 ra.2 in
  Workers.Sys rb.2 (<["w2" := rb.1]> (<["w1" := ra.1]> ∅)) 10.
Lemma queue_run_ex_reachable : Workers.reachable queue_cf_ex queue_run_ex.
Proof.
  exists 10. unfold Workers.init.
  eapply rtc_l; [apply (Workers.step_enqueue _ _ _ _ "enroll.process" (JObj []) (Some "a") 0 (Some 1)); reflexivity|].
  eapply rtc_l; [apply (Workers.step_enqueue _ _ _ _ "enroll.process" (JObj []) (Some "b") 0 (Some 1)); reflexivity|].
  eapply rtc_l; [apply (Workers.step_claim _ _ _ _ "w1" 1 (λ _, false)); reflexivity|].
  eapply rtc_l; [apply (Workers.step_claim _ _ _ _ "w2" 1 (λ _, false)); reflexivity|]. apply rtc_refl.
Defined.
Lemma queue_invariant_witness : Forall row_ok (q_jobs (Workers.s_queue queue_run_ex)).
Proof.
  apply Forall_forall. intros j Hj.
  exact (queue_invariant queue_cf_ex queue_run_ex j ltac:(vm_compute; congruence) queue_run_ex_reachable Hj).
Defined.
Lemma no_double_processing_witness :
  ∃ j j', Workers.batch queue_run_ex "w1" = [j] ∧ Workers.batch queue_run_ex "w2" = [j'] ∧ qj_id j ≠ qj_id j'.
Proof.
  eexists _, _. split; [vm_compute; reflexivity|]. split; [vm_compute; reflexivity|].
  eapply (no_double_processing queue_cf_ex queue_run_ex "w1" "w2" _ _ []);
    [vm_compute; congruence|apply queue_run_ex_reachable|vm_compute; reflexivity|vm_compute; left|congruence].
Defined.

(** The retry delay doubles with each attempt from the base up to the
    maximum, plus at most the jitter: it is at least one second, at most the
    maximum plus the jitter, and does not decrease with the attempts. *)
Theorem retry_delay_bounds ttl dm base max_ jitter u attempts jit :
  let cf := PostgresQueue ttl dm base max_ jitter u in
  0 ≤ jit ≤ retry_jitter_ms cf →
  let d a := Z.min (retry_max_seconds cf) (retry_base_seconds cf * 2 ^ Z.max 0 (a - 1)) in
  d attempts ≤ Ops._retry_delay_seconds cf attempts jit ≤ d attempts + retry_jitter_ms cf / 1000 ∧
  1 ≤ Ops._retry_delay_seconds cf attempts jit ≤ retry_max_seconds cf + retry_jitter_ms cf / 1000 ∧
  Ops._retry_delay_seconds cf attempts jit ≤ Ops._retry_delay_seconds cf (attempts + 1) jit.
Proof.
  cbv zeta. intros Hj. unfold Ops._retry_delay_seconds.
  set (cf := PostgresQueue ttl dm base max_ jitter u) in *.
  assert (Hb : 1 ≤ retry_base_seconds cf) by (simpl; lia).
  assert (Hm : retry_base_seconds cf ≤ retry_max_seconds cf) by (simpl; lia).
  assert (Hp : ∀ a, 1 ≤ 2 ^ Z.max 0 (a - 1)) by (intros a; pose proof (Z.pow_pos_nonneg 2 (Z.max 0 (a - 1)) ltac:(lia) ltac:(lia)); lia).
  assert (Hmono : 2 ^ Z.max 0 (attempts - 1) ≤ 2 ^ Z.max 0 (attempts + 1 - 1)) by (apply Z.pow_le_mono_r; lia).
  pose proof (Hp attempts). pose proof (Hp (attempts + 1)).
  set (p := 2 ^ Z.max 0 (attempts - 1)) in *. set (p' := 2 ^ Z.max 0 (attempts + 1 - 1)) in *.
  assert (retry_base_seconds cf * p ≤ retry_base_seconds cf * p') by nia.
  assert (1 ≤ retry_base_seconds cf * p) by nia.
  assert (Hdiv : ∀ x, (1000 * x + jit) / 1000 = x + jit / 1000) by (intros; Z.to_euclidean_division_equations; lia).
  assert (Hdiv0 : ∀ x, 1000 * x / 1000 = x) by (intros; Z.to_euclidean_division_equations; lia).
  assert (0 ≤ jit / 1000 ≤ retry_jitter_ms cf / 1000) by (Z.to_euclidean_division_equations; lia).
  generalize dependent (retry_base_seconds cf * p). generalize dependent (retry_base_seconds cf * p').
  intros. destruct (0 <? retry_jitter_ms cf); rewrite ?Hdiv, ?Hdiv0; lia.
Qed.
Lemma retry_delay_bounds_witness : Ops._retry_delay_seconds queue_cf_ex 3 500 ≤ 301.
Proof.
  destruct (retry_delay_bounds 60 8 2 300 1000 true 3 500 ltac:(simpl; lia)) as (_ & [_ H] & _).
  vm_compute in H |- *. exact H.
Defined.

(** ** Outcomes, lost jobs, claims: facts *)
Section outcomes.
Import Ops Workers.

Lemma elem_update q id w f r :
  r ∈ q_jobs q → owned id w r = true →
  f r ∈ q_jobs (update_owned id w f q).2 ∧ (update_owned id w f q).1 = true.
Proof.
  intros Hr Ho. simpl. split; [apply list_elem_of_fmap; exists r; by rewrite Ho|].
  apply existsb_exists. exists r. split; [by apply list_elem_of_In|done].
Qed.

Lemma upsert_dead_elem d l : ∃ d', d' ∈ upsert_dead d l ∧ dl_job d' = dl_job d ∧ dl_attempts d' = dl_attempts d.
Proof.
  induction l as [|x l IH]; simpl; [exists d; set_solver|]. case_decide as Heq.
  - eexists. split; [apply list_elem_of_here|]. by simpl.
  - destruct IH as (d' & Hd' & H). exists d'. set_solver.
Qed.

(** A row under processing that its owner no longer holds. *)
Definition stranded (s : sys) (w : string) (r : job) : Prop :=
  r ∈ q_jobs (s_queue s) ∧ j_status r = Processing ∧ j_lock_owner r = Some w ∧
  ∀ j, j ∈ batch s w → qj_id j ≠ j_id r.

Lemma stranded_update s w r b' now' w0 j rest f dead :
  stranded s w r → s_batch s !! w0 = Some (j :: rest) → b' = <[w0 := rest]> (s_batch s) →
  stranded (Sys (Queue ((λ x, if owned (qj_id j) w0 x then f x else x) <$> q_jobs (s_queue s)) dead (q_next (s_queue s))) b' now') w r.
Proof.
  intros (Hr & Hs & Ho & Hb) Hw -> . unfold stranded, batch in *. cbn [s_queue s_batch q_jobs].
  assert (Hno : owned (qj_id j) w0 r = false).
  { destruct (owned (qj_id j) w0 r) eqn:E; [|done]. apply owned_true in E as (Hid & _ & Ho').
    rewrite Ho in Ho'. injection Ho' as ->. exfalso. apply (Hb j); [|done]. rewrite Hw. apply list_elem_of_here. }
  split_and!; [apply list_elem_of_fmap; exists r; by rewrite Hno|done|done|].
  intros j' Hj'. destruct (decide (w = w0)) as [->|Hne].
  - rewrite lookup_insert_eq in Hj'. apply Hb. rewrite Hw. by apply list_elem_of_further.
  - rewrite lookup_insert_ne in Hj' by done. by apply Hb.
Qed.

Lemma stranded_delete q b now w w0 r : stranded (Sys q b now) w r → stranded (Sys q (delete w0 b) now) w r.
Proof.
  intros (Hr & Hs & Ho & Hb). unfold stranded, batch in *. cbn [s_queue s_batch] in *. split_and!; [done..|].
  intros j Hj. apply Hb. destruct (decide (w = w0)) as [->|Hne].
  - rewrite lookup_delete_eq in Hj. by apply not_elem_of_nil in Hj.
  - by rewrite lookup_delete_ne in Hj by done.
Qed.

Lemma stranded_claim cf now skip limit w0 q b w r :
  queue_ok q → stranded (Sys q b now) w r →
  stranded (Sys (claim_jobs cf now skip w0 limit q).2 (<[w0 := (claim_jobs cf now skip w0 limit q).1]> b) now) w r.
Proof.
  intros Hq (Hr & Hs & Ho & Hb). unfold stranded, batch in *. cbn [s_queue s_batch] in *.
  assert (Hno : j_id r ∉ claim_ids cf now skip limit q).
  { intros Hi. eapply claim_ids_claimable, claimable_true in Hi as (Hp & _); [congruence|done|done]. }
  unfold claim_jobs. cbn [fst snd q_jobs]. split_and!; [|done|done|].
  - apply list_elem_of_fmap. exists r. by rewrite decide_False.
  - intros j Hj. destruct (decide (w = w0)) as [->|Hne].
    + rewrite lookup_insert_eq in Hj. cbn [default] in Hj.
      apply list_elem_of_fmap in Hj as (x & -> & [Hx _]%list_elem_of_filter). simpl. congruence.
    + rewrite lookup_insert_ne in Hj by done. by apply Hb.
Qed.

Lemma stranded_step cf s s' w r : sys_ok s → step cf s s' → stranded s w r → stranded s' w r.
Proof.
  intros [Hq _] Hst Hr. destruct Hst as [q b now now' _|q b now topic payload dedupe after max_ res He| | | | |]; cbn [s_queue] in *.
  - exact Hr.
  - destruct Hr as (Hr & Hs & Ho & Hb). split_and!; [|done..]. cbn [s_queue] in *. unfold enqueue in He.
    destruct payload; try done. case_match; [done|]. destruct (find _ _); injection He as <-; [done|].
    simpl. apply elem_of_app. by left.
  - by apply stranded_claim.
  - by apply (stranded_update (Sys q b now) w r _ _ w0 j rest).
  - unfold handle_failure, move_to_dead_letter in *. case_match; [case_match; [|done]|]; simplify_eq;
      by eapply (stranded_update (Sys q b now) w _ _ _ w0 j rest).
  - by apply stranded_delete.
  - by apply stranded_delete.
Qed.
End outcomes.

(** When the current job of a worker fails and the failure is recorded, the
    job goes back to the pending state, unlocked and due strictly later, while
    attempts remain; at the last attempt it becomes dead and a dead letter of
    it, with its number of attempts, exists. *)
Theorem failure_outcome cf s w j rest err jit ok q' :
  1 ≤ default_max_attempts cf → 0 ≤ jit → Workers.reachable cf s →
  Workers.s_batch s !! w = Some (j :: rest) →
  Workers.handle_failure cf (Workers.s_now s) w j err jit (Workers.s_queue s) = Ok (ok, q') →
  ok = true ∧ ∃ r, r ∈ q_jobs q' ∧ j_id r = qj_id j ∧ j_lock_owner r = None ∧ j_attempts r = qj_attempts j ∧
    if decide (qj_attempts j < qj_max_attempts j)
    then j_status r = Pending ∧ Workers.s_now s < j_next_attempt r
    else j_status r = Dead ∧ ∃ d, d ∈ q_dead q' ∧ dl_job d = qj_id j ∧ dl_attempts d = qj_attempts j.
Proof.
  intros Hcf Hjit Hs Hw. destruct (reachable_ok cf s Hcf Hs) as [Hq Hb].
  destruct (Hb w _ Hw) as [_ Hh]. destruct (Hh j ltac:(set_solver)) as (r & Hin & Hid & Hst & Ho & Ha & Hm).
  assert (Hown : Ops.owned (qj_id j) w r = true) by by apply owned_true.
  unfold Workers.handle_failure, Ops.move_to_dead_letter. destruct (Z.leb_spec (qj_max_attempts j) (qj_attempts j)).
  - destruct (dead_letter_unique cf); [|done]. intros [= <- <-].
    match goal with |- context [Ops.upsert_dead ?d ?l] => destruct (upsert_dead_elem d l) as (d' & Hd' & Hdj & Hda) end.
    split; [apply existsb_exists; exists r; split; [by apply list_elem_of_In|done]|].
    eexists. split; [apply list_elem_of_fmap; exists r; rewrite Hown; by split|]. simpl. split_and!; [done..|].
    rewrite decide_False by lia. split; [done|]. by exists d'.
  - intros [= <- <-].
    split; [apply existsb_exists; exists r; split; [by apply list_elem_of_In|done]|].
    eexists. split; [apply list_elem_of_fmap; exists r; rewrite Hown; by split|]. simpl. split_and!; [done..|].
    rewrite decide_True by lia. split; [done|]. unfold Ops._retry_delay_seconds. lia.
Qed.
Lemma failure_outcome_witness :
  ∃ j q', Workers.batch queue_run_ex "w1" = [j] ∧
    Workers.handle_failure queue_cf_ex 10 "w1" j "boom" 0 (Workers.s_queue queue_run_ex) = Ok (true, q').
Proof.
  destruct (Workers.s_batch queue_run_ex !! "w1") as [l|] eqn:El; [|vm_compute in El; discriminate].
  destruct l as [|j rest]; [vm_compute in El; discriminate|].
  destruct (Workers.handle_failure queue_cf_ex (Workers.s_now queue_run_ex) "w1" j "boom" 0 (Workers.s_queue queue_run_ex)) as [[ok q']|] eqn:Eh;
    [|vm_compute in El; injection El as <- <-; vm_compute in Eh; discriminate].
  destruct (failure_outcome queue_cf_ex queue_run_ex "w1" j rest "boom" 0 ok q' ltac:(vm_compute; congruence) ltac:(lia)
    queue_run_ex_reachable El Eh) as [-> _].
  exists j, q'. split; [|exact Eh]. unfold Workers.batch. rewrite El. vm_compute in El. by injection El as <- <-.
Defined.

(** A job whose worker stops or crashes while it holds it is lost: whatever
    happens afterwards, whatever time passes, its row stays locked by that
    worker and is never claimed again; and where the dead letter table has no
    unique index on the job, the failure of a last attempt is such a crash. *)
Theorem stopped_worker_loses_jobs cf s s' w j rest :
  1 ≤ default_max_attempts cf → Workers.reachable cf s →
  Workers.s_batch s !! w = Some (j :: rest) →
  let dropped := Workers.Sys (Workers.s_queue s) (delete w (Workers.s_batch s)) (Workers.s_now s) in
  rtc (Workers.step cf) dropped s' →
  (∃ r, r ∈ q_jobs (Workers.s_queue s') ∧ j_id r = qj_id j ∧ j_status r = Processing ∧ j_lock_owner r = Some w) ∧
  (dead_letter_unique cf = false → qj_max_attempts j ≤ qj_attempts j → ∀ err jit,
     Workers.handle_failure cf (Workers.s_now s) w j err jit (Workers.s_queue s) = Err tt).
Proof.
  intros Hcf Hs Hw dropped Hrun. destruct (reachable_ok cf s Hcf Hs) as [Hq Hb]. split.
  - destruct (Hb w _ Hw) as [_ Hh]. destruct (Hh j ltac:(set_solver)) as (r & Hin & Hid & Hst & Ho & _).
    exists r. assert (Hok : Workers.reachable cf dropped).
    { destruct Hs as [t Ht]. exists t. eapply rtc_r; [exact Ht|]. destruct s. apply Workers.step_stop. }
    enough (stranded s' w r) as (? & ? & ? & _) by by split_and!.
    assert (Hstr : stranded dropped w r).
    { split_and!; [done..|]. unfold Workers.batch. simpl. rewrite lookup_delete_eq. by intros j' Hj'%not_elem_of_nil. }
    clear -Hcf Hok Hstr Hrun. induction Hrun as [x|x y z Hxy Hyz IH]; [done|]. apply IH.
    + destruct Hok as [t Ht]. exists t. by eapply rtc_r.
    + eapply stranded_step; [|done..]. by eapply reachable_ok.
  - intros Hu Hmax err jit. unfold Workers.handle_failure, Ops.move_to_dead_letter. rewrite Hu.
    by rewrite (proj2 (Z.leb_le _ _) Hmax).
Qed.
Lemma stopped_worker_loses_jobs_witness :
  ∃ r, r ∈ q_jobs (Workers.s_queue queue_run_ex) ∧ j_status r = Processing ∧ j_lock_owner r = Some "w1".
Proof.
  destruct (Workers.s_batch queue_run_ex !! "w1") as [l|] eqn:El; [|vm_compute in El; discriminate].
  destruct l as [|j rest]; [vm_compute in El; discriminate|].
  destruct (stopped_worker_loses_jobs queue_cf_ex queue_run_ex
    (Workers.Sys (Workers.s_queue queue_run_ex) (delete "w1" (Workers.s_batch queue_run_ex)) (Workers.s_now queue_run_ex))
    "w1" j rest ltac:(vm_compute; congruence) queue_run_ex_reachable El (rtc_refl _ _)) as [(r & H1 & _ & H2 & H3) _].
  exists r. exact (conj H1 (conj H2 H3)).
Defined.

(** ** Order of the claims *)
Section claims.
Import Ops.
Lemma job_before_total a b : job_before a b = false → job_before b a = true.
Proof.
  unfold job_before. intros H. apply orb_false_iff in H as [H1 H2]. apply Z.ltb_ge in H1.
  apply orb_true_iff. destruct (Z.ltb_spec (j_next_attempt b) (j_next_attempt a)); [by left|]. right.
  assert (j_next_attempt a = j_next_attempt b) as E by lia. rewrite E, Z.eqb_refl in *. simpl in *.
  apply Z.leb_gt in H2. apply Z.leb_le. lia.
Qed.
Lemma job_before_trans a b c : job_before a b = true → job_before b c = true → job_before a c = true.
Proof.
  unfold job_before. rewrite !orb_true_iff, !andb_true_iff, !Z.ltb_lt, !Z.eqb_eq, !Z.leb_le. lia.
Qed.

Definition sorted_jobs (l : list job) : Prop := StronglySorted (λ a b, job_before a b = true) l.
Lemma insert_job_sorted j l : sorted_jobs l → sorted_jobs (insert_job j l).
Proof.
  induction 1 as [|x l Hs IH Hx]; simpl; [repeat constructor|]. destruct (job_before j x) eqn:E.
  - constructor; [by constructor|]. constructor; [done|]. eapply Forall_impl; [exact Hx|].
    intros y Hy. by eapply job_before_trans.
  - constructor; [done|]. rewrite insert_job_perm. constructor; [by apply job_before_total|done].
Qed.
Lemma sort_jobs_sorted l : sorted_jobs (sort_jobs l).
Proof. induction l; simpl; [constructor|by apply insert_job_sorted]. Qed.

Lemma sorted_take_drop n l a b : sorted_jobs l → a ∈ take n l → b ∈ drop n l → job_before a b = true.
Proof.
  intros Hs. revert n. induction Hs as [|x l Hs IH Hx]; intros [|n]; simpl; try set_solver.
  intros [->|Ha]%elem_of_cons Hb; [|by eapply IH]. rewrite Forall_forall in Hx. apply Hx.
  rewrite <- (take_drop n l). apply elem_of_app. by right.
Qed.
End claims.

(** A claim takes only jobs that are pending, due and not held by another
    transaction, at most as many as asked for, each exactly once; a job that
    could have been claimed is left only when the batch is full of jobs that
    come before it in the order of due time, then creation. *)
Theorem claim_order cf now skip w limit q :
  queue_ok q → 1 ≤ limit →
  let claimed := (Ops.claim_jobs cf now skip w limit q).1 in
  let ids := Ops.claim_ids cf now skip limit q in
  (∀ i, i ∈ qj_id <$> claimed ↔ i ∈ ids) ∧ NoDup (qj_id <$> claimed) ∧
  Z.of_nat (List.length ids) ≤ limit ∧
  (∀ c, c ∈ q_jobs q → j_id c ∈ ids → j_status c = Pending ∧ j_next_attempt c ≤ now ∧ skip (j_id c) = false) ∧
  (∀ c, c ∈ q_jobs q → Ops.claimable cf now skip c = true → j_id c ∉ ids →
     Z.of_nat (List.length ids) = limit ∧
     ∀ d, d ∈ q_jobs q → j_id d ∈ ids → Ops.job_before d c = true).
Proof.
  intros Hq Hl. cbv zeta.
  assert (Hsub : ∀ i, i ∈ Ops.claim_ids cf now skip limit q → ∃ r, r ∈ q_jobs q ∧ j_id r = i).
  { intros i (r & -> & Hr)%list_elem_of_fmap. exists r. split; [|done].
    apply elem_of_take in Hr as (n & Hr & _). apply list_elem_of_lookup_2 in Hr. rewrite sort_jobs_perm in Hr.
    by apply list_elem_of_filter in Hr as [_ ?]. }
  assert (Hids : qj_id <$> (Ops.claim_jobs cf now skip w limit q).1
                 = j_id <$> filter (λ j, j_id j ∈ Ops.claim_ids cf now skip limit q) (q_jobs q)).
  { unfold Ops.claim_jobs. cbn [fst]. rewrite <- list_fmap_compose. by apply list_fmap_ext. }
  rewrite Hids. split_and!.
  - intros i. rewrite list_elem_of_fmap. split.
    + by intros (r & -> & [? _]%list_elem_of_filter).
    + intros Hi. destruct (Hsub i Hi) as (r & Hr & <-). exists r. split; [done|]. by apply list_elem_of_filter.
  - apply (sublist_NoDup _ (j_id <$> q_jobs q)); [apply Hq|]. apply fmap_sublist, sublist_filter.
  - unfold Ops.claim_ids. rewrite length_fmap, length_take. lia.
  - intros c Hc Hi. by eapply claimable_true, claim_ids_claimable.
  - intros c Hc Hcl Hn. set (l := Ops.sort_jobs (filter (λ j, Ops.claimable cf now skip j = true) (q_jobs q))).
    assert (Hcin : c ∈ l) by (unfold l; rewrite sort_jobs_perm; by apply list_elem_of_filter).
    unfold Ops.claim_ids in Hn |- *. fold l in Hn |- *. set (n := Z.to_nat (Z.max 1 limit)) in *.
    assert (Hcd : c ∈ drop n l).
    { rewrite <- (take_drop n l) in Hcin. apply elem_of_app in Hcin as [Hct|]; [|done]. destruct Hn.
      apply list_elem_of_fmap. by exists c. }
    split.
    + rewrite length_fmap, length_take. destruct (decide (n ≤ List.length l)%nat); [unfold n in *; lia|].
      rewrite drop_ge in Hcd by lia. by apply not_elem_of_nil in Hcd.
    + intros d Hd (d' & Hid & Hd')%list_elem_of_fmap. apply (sorted_take_drop n l); [apply sort_jobs_sorted| |done].
      enough (d = d') as -> by done. apply (same_id q); [done|done| |done].
      apply elem_of_take in Hd' as (i & Hd' & _). apply list_elem_of_lookup_2 in Hd'. unfold l in Hd'.
      rewrite sort_jobs_perm in Hd'. by apply list_elem_of_filter in Hd' as [_ ?].
Qed.
Lemma claim_order_witness :
  Z.of_nat (List.length (Ops.claim_ids queue_cf_ex 99 (λ _, false) 5 (Queue [] [] 1))) ≤ 5.
Proof.
  destruct (claim_order queue_cf_ex 99 (λ _, false) "w" 5 (Queue [] [] 1)) as (_ & _ & H & _); [|lia|exact H].
  split_and!; [apply NoDup_nil_2|by intros j Hj%not_elem_of_nil|by intros a b Ha%not_elem_of_nil].
Defined.

(** Enqueuing is idempotent per dedupe key: a second enqueue with the same
    topic and key returns the id of the first job with the state it is in and
    leaves the queue as it was, even when that job is done. *)
Theorem enqueue_dedupe cf now now' q topic payload payload' key after after' max_ max_' i st q1 :
  Ops.enqueue cf now q topic (JObj payload) (Some key) after max_ = Ok (i, st, q1) →
  Ops.enqueue cf now' q1 topic (JObj payload') (Some key) after' max_' = Ok (i, st, q1).
Proof.
  unfold Ops.enqueue. destruct (truthy_str topic); [|done]. cbn [negb].
  destruct (find (Ops.same_dedupe topic (Some key)) (q_jobs q)) as [j|] eqn:E; intros [= <- <- <-].
  - by rewrite E.
  - cbn [q_jobs]. rewrite find_app, E. simpl. by rewrite bool_decide_eq_true_2.
Qed.
Lemma enqueue_dedupe_witness :
  ∃ q1, Ops.enqueue queue_cf_ex 9 (Queue [] [] 1) "t" (JObj []) (Some "k") 0 None = Ok (1, "pending", q1) ∧
    Ops.enqueue queue_cf_ex 99 q1 "t" (JObj []) (Some "k") 5 None = Ok (1, "pending", q1).
Proof. eexists. split; [reflexivity|]. by eapply (enqueue_dedupe queue_cf_ex 9 99 (Queue [] [] 1) "t" [] [] "k" 0 5 None None). Defined.
