(* ===== verification/Tokens.v ===== *)
(** * Secrets and signed tokens
    [app/services/crypto.py] (relay hash, telemetry tokens, masking, encrypted
    overrides), the telemetry token pair of [app/main.py] and the LLM token pair
    of [app/llm/tokens.py]. SHA-256 and HMAC are those of [Hashing]; Fernet is an
    argument. The clock and the random [jti] are arguments. *)
From S2P Require Import Prelude Text Json Hashing Base64 Cohorts.
From Stdlib Require Import Ascii String.
Open Scope Z_scope.

(** ** [app/services/crypto.py] *)
Module Crypto.
Definition hash_relay_secret (relay_client_id relay_key pepper : string) : string :=
  sha256_hex (utf8_encode (relay_client_id +:+ ":" +:+ relay_key +:+ ":" +:+ pepper)).

Definition mint_telemetry_token (now : Z) (client_uuid device_name profile signing_key : string)
    (ttl_seconds : Z) : string :=
  let payload := JObj [("client_uuid", JStr client_uuid); ("device_name", JStr device_name);
    ("profile", JStr profile); ("iat", JInt now); ("exp", JInt (now + ttl_seconds))] in
  let payload_raw := utf8_encode (dumps_compact payload) in
  let sig := hmac_sha256 (utf8_encode signing_key) payload_raw in
  b64url_encode payload_raw +:+ String "." (b64url_encode sig).

(** [json.loads] of bytes *)
Definition loads_bytes (b : string) : option json := utf8_decode b ≫= loads.

(** A number compared with an int; [None] raises. *)
Definition json_num (v : json) : option Z :=
  match v with JInt z => Some z | JBool b => Some (if b then 1 else 0) | _ => None end.

(** Every exception gives [None]. *)
Definition verify_telemetry_token (now : Z) (token signing_key : string) : option (list (string * json)) :=
  match split_on "." token with
  | [payload_b64; sig_b64] =>
      match b64url_decode payload_b64, b64url_decode sig_b64 with
      | Some payload_raw, Some sig =>
          if bool_decide (sig = hmac_sha256 (utf8_encode signing_key) payload_raw) then
            match loads_bytes payload_raw with
            | Some (JObj claims) =>
                match json_num (jget_or "exp" claims (JInt 0)) with
                | Some exp => if exp <? now then None else Some claims
                | None => None
                end
            | _ => None
            end
          else None
      | _, _ => None
      end
  | _ => None
  end.

Definition SECRET_CONFIG_KEYS : list string :=
  ["llm_api_tokens"; "llmToken"; "tokenOWUI"; "telemetryKey"; "keycloak_client_secret"; "keycloakClientSecret"].

Definition SENSITIVE_ENV_VARS : list string :=
  ["ADMIN_SESSION_SECRET"; "ADMIN_OIDC_CLIENT_SECRET"; "DM_RELAY_SECRET_PEPPER"; "DM_CONFIG_SECRET_KEY";
   "DM_RELAY_PROXY_SHARED_TOKEN"; "DM_TELEMETRY_TOKEN_SIGNING_KEY"; "DM_TELEMETRY_UPSTREAM_KEY";
   "DM_QUEUE_ADMIN_TOKEN"; "LLM_API_TOKEN"; "AWS_SECRET_ACCESS_KEY"; "DATABASE_URL"; "DATABASE_ADMIN_URL";
   "POSTGRES_PASSWORD"; "DB_ADMIN_PASSWORD"; "TELEMETRY_KEY"; "TELEMETRY_SALT"].
Definition _SENSITIVE_CONFIG_KEYS : list string := (lower <$> SECRET_CONFIG_KEYS) ++ ["telemetry_salt"].
Definition _SENSITIVE_SUBSTRINGS : list string :=
  ["secret"; "token"; "password"; "passwd"; "pepper"; "credential"; "private_key"; "signing_key"; "api_key"; "apikey"].

Definition is_sensitive_key (key : string) : bool :=
  if negb (truthy_str key) then false
  else
    let k := strip key in
    if decide (k ∈ SENSITIVE_ENV_VARS) then true
    else
      let kl := lower k in
      if decide (kl ∈ _SENSITIVE_CONFIG_KEYS) then true
      else existsb (λ s, contains s kl) _SENSITIVE_SUBSTRINGS.

Definition mask_secret (val : string) : string :=
  if negb (truthy_str val) then val
  else "*** (" +:+ py_str_int (Z.of_nat (String.length val)) +:+ " chars, sha256:"
       +:+ stake 8 (sha256_hex (utf8_encode val)) +:+ ")".

(** *** Encrypted overrides *)
Section fernet.
(** [Fernet(key).encrypt] and [.decrypt] ([None]: [InvalidToken]), on bytes. *)
Variable encrypt : string → string → string.
Variable decrypt : string → string → option string.

Definition _ENC_PREFIX : string := "enc:v1:".
(** The Fernet key of the environment value, [None] when it is not set. *)
Definition _config_fernet (raw : string) : option string :=
  if truthy_str raw then Some (urlsafe_b64encode (sha256 (utf8_encode raw))) else None.
Definition secrets_encryption_available (raw : string) : bool :=
  match _config_fernet raw with Some _ => true | None => false end.
Definition encrypt_secret (raw plaintext : string) : result exn string :=
  match _config_fernet raw with
  | None => Err tt
  | Some k => Ok (_ENC_PREFIX +:+ encrypt k (utf8_encode plaintext))
  end.
Definition decrypt_secret (raw stored : string) : result exn string :=
  if negb (truthy_str stored) || negb (starts_with _ENC_PREFIX stored) then Ok stored
  else
    match _config_fernet raw with
    | None => Err tt
    | Some k =>
        match decrypt k (sdrop (String.length _ENC_PREFIX) stored) with
        | Some p => match utf8_decode p with Some t => Ok t | None => Err tt end
        | None => Err tt
        end
    end.
Definition is_encrypted_secret (stored : string) : bool := truthy_str stored && starts_with _ENC_PREFIX stored.
End fernet.
End Crypto.

(** ** Signed tokens of [app/main.py] and [app/llm/tokens.py] *)
Module Signed.
(** The dict signed, printed with sorted keys. *)
Definition sign (secret : string) (payload : list (string * json)) : string :=
  let payload_b64 := b64url_encode (utf8_encode (dumps_compact (sort_keys (JObj payload)))) in
  payload_b64 +:+ String "." (b64url_encode (hmac_sha256 (utf8_encode secret) (utf8_encode payload_b64))).

(** Signature and payload, before the checks on the claims. *)
Inductive opened : Type :=
| Malformed | BadSignatureEncoding | BadSignature | BadPayload | Opened (v : json).
Definition open (secret token : string) : opened :=
  match split_once "." token with
  | None => Malformed
  | Some (payload_b64, sig_b64) =>
      match b64url_decode sig_b64 with
      | None => BadSignatureEncoding
      | Some provided_sig =>
          if bool_decide (hmac_sha256 (utf8_encode secret) (utf8_encode payload_b64) = provided_sig) then
            match b64url_decode payload_b64 ≫= Crypto.loads_bytes with
            | Some v => Opened v
            | None => BadPayload
            end
          else BadSignature
      end
  end.

(** [int(payload.get("exp") or 0)] *)
Definition exp_of (payload : list (string * json)) : result exn Z :=
  py_int_json (jor (jget "exp" payload) (JInt 0)).
End Signed.

Module Telemetry.
Definition _mint_telemetry_token (now : Z) (jti signing_key : string) (ttl_seconds : Z)
    (device : option string) (profile client_uuid : string) : string * option Z :=
  let secret := strip signing_key in
  if negb (truthy_str secret) then ("", None)
  else
    let ttl := Z.max 30 ttl_seconds in
    let payload := [("jti", JStr jti); ("iat", JInt now); ("exp", JInt (now + ttl)); ("profile", JStr profile);
                    ("device", JStr (str_or (default "" device) "unknown"))] in
    let payload := if truthy_str client_uuid then dset "cuid" (JStr client_uuid) payload else payload in
    (Signed.sign secret payload, Some (now + ttl)).

(** A status of 500 stands for an exception the function does not handle. *)
Definition _verify_telemetry_token (now : Z) (signing_key token : string) : result http_error (list (string * json)) :=
  let secret := strip signing_key in
  if negb (truthy_str secret) then Err (HttpError 503 "Telemetry token verification key is not configured.")
  else
    match Signed.open secret token with
    | Signed.Malformed => Err (HttpError 401 "Malformed telemetry token.")
    | Signed.BadSignatureEncoding => Err (HttpError 401 "Malformed telemetry token signature.")
    | Signed.BadSignature => Err (HttpError 401 "Invalid telemetry token signature.")
    | Signed.BadPayload => Err (HttpError 401 "Malformed telemetry token payload.")
    | Signed.Opened (JObj payload) =>
        match Signed.exp_of payload with
        | Err _ => Err (HttpError 500 "")
        | Ok exp => if exp <=? now then Err (HttpError 401 "Telemetry token expired.") else Ok payload
        end
    | Signed.Opened _ => Err (HttpError 401 "Malformed telemetry token payload.")
    end.
End Telemetry.

(** [LlmProxyError] of [app/llm/errors.py] *)
Record LlmProxyError : Type := MkLlmProxyError {
  le_status : Z; le_message : string; le_type : string; le_code : option string; le_retry_after : option Z }.
Definition llm_401 (msg : string) : LlmProxyError := MkLlmProxyError 401 msg "invalid_request_error" (Some "invalid_api_key") None.

(** [openai_error]: the body of the response *)
Definition openai_error (e : LlmProxyError) : list (string * json) :=
  let err := JObj [("message", JStr (le_message e)); ("type", JStr (le_type e));
                   ("code", match le_code e with Some c => JStr c | None => JNull end)] in
  match le_retry_after e with
  | Some r => [("error", err); ("retry_after", JInt r)]
  | None => [("error", err)]
  end.

Module Llm.
Definition DEFAULT_TTL_SECONDS : Z := 3600.
(** [cfg_ttl]: the setting, [None] when it is not an integer. *)
Definition _ttl_seconds (cfg_ttl : option Z) : Z := Z.max 60 (default DEFAULT_TTL_SECONDS cfg_ttl).

Definition mint_llm_token (now : Z) (jti signing_key : string) (cfg_ttl : option Z) (client_uuid email : string)
    : string * option Z :=
  let secret := strip signing_key in
  if negb (truthy_str secret) then ("", None)
  else
    let exp := now + _ttl_seconds cfg_ttl in
    (Signed.sign secret [("jti", JStr jti); ("iat", JInt now); ("exp", JInt exp); ("client_uuid", JStr client_uuid);
                         ("email", JStr email); ("scope", JStr "llm")], Some exp).

Definition verify_llm_token (now : Z) (signing_key token : string) : result LlmProxyError (list (string * json)) :=
  let secret := strip signing_key in
  if negb (truthy_str secret) then
    Err (MkLlmProxyError 503 "LLM token verification key is not configured." "api_error" None None)
  else
    match Signed.open secret token with
    | Signed.Malformed => Err (llm_401 "Malformed llm token.")
    | Signed.BadSignatureEncoding => Err (llm_401 "Malformed llm token signature.")
    | Signed.BadSignature => Err (llm_401 "Invalid llm token signature.")
    | Signed.BadPayload => Err (llm_401 "Malformed llm token payload.")
    | Signed.Opened v =>
        match v with
        | JObj payload =>
            match jget "scope" payload with
            | JStr "llm" =>
                match Signed.exp_of payload with
                | Err _ => Err (MkLlmProxyError 500 "" "" None None)
                | Ok exp => if exp <=? now then Err (llm_401 "Llm token expired.") else Ok payload
                end
            | _ => Err (llm_401 "Invalid llm token payload.")
            end
        | _ => Err (llm_401 "Invalid llm token payload.")
        end
    end.
End Llm.

(** ** Facts *)
Definition is_scalar (v : json) : bool := match v with JArr _ | JObj _ => false | _ => true end.

Lemma json_wf_sort payload :
  dict_wf payload → Forall (λ kv, is_scalar kv.2 = true) payload →
  sort_keys (JObj payload) = JObj (sort_keys_dict payload) ∧ json_wf (JObj (sort_keys_dict payload)).
Proof.
  intros Hwf Hflat.
  assert (Hmap : (λ kv : string * json, (kv.1, sort_keys kv.2)) <$> payload = payload).
  { clear Hwf. induction Hflat as [|[k v] d Hv Hd IH]; [done|]. rewrite fmap_cons, IH.
    by destruct v. }
  split; [simpl; by rewrite Hmap|]. split; [by rewrite sort_keys_dict_perm|].
  assert (Hl : Forall (λ kv, json_wf kv.2) (sort_keys_dict payload)).
  { rewrite sort_keys_dict_perm. eapply Forall_impl; [exact Hflat|]. intros [k v] Hv.
    by destruct v. }
  induction Hl; simpl; auto.
Qed.

Lemma loads_bytes_dumps v : json_wf v → Crypto.loads_bytes (utf8_encode (dumps_compact v)) = Some v.
Proof. intros Hv. unfold Crypto.loads_bytes. rewrite utf8_decode_encode. by apply loads_dumps_compact. Qed.

Lemma open_sign secret payload :
  dict_wf payload → Forall (λ kv, is_scalar kv.2 = true) payload →
  Signed.open secret (Signed.sign secret payload) = Signed.Opened (JObj (sort_keys_dict payload)).
Proof.
  intros Hwf Hflat. destruct (json_wf_sort payload Hwf Hflat) as [Heq Hjs].
  unfold Signed.open, Signed.sign. rewrite Heq, split_once_app by apply b64url_encode_no_dot.
  rewrite !b64url_roundtrip, bool_decide_eq_true_2 by done. cbn [mbind option_bind].
  by rewrite loads_bytes_dumps.
Qed.

(** What an accepted token proves of its two parts. *)
Lemma open_inv secret token v :
  Signed.open secret token = Signed.Opened v →
  ∃ p s raw, token = p +:+ String "." s ∧
    b64url_decode s = Some (hmac_sha256 (utf8_encode secret) (utf8_encode p)) ∧
    b64url_decode p = Some raw ∧ Crypto.loads_bytes raw = Some v.
Proof.
  unfold Signed.open. destruct (split_once "." token) as [[p s]|] eqn:E; [|done].
  destruct (b64url_decode s) as [sig|] eqn:Es; [|done]. case_bool_decide as Hsig; [|done].
  destruct (b64url_decode p) as [raw|] eqn:Ep; [|done]. cbn [mbind option_bind].
  destruct (Crypto.loads_bytes raw) as [v'|] eqn:El; [|done]. intros [= <-].
  apply split_once_Some in E. exists p, s, raw. by rewrite Es, Hsig.
Qed.

Lemma exp_of_int payload e : dget "exp" payload = Some (JInt e) → Signed.exp_of payload = Ok e.
Proof.
  intros H. unfold Signed.exp_of, jget. rewrite H. unfold jor. simpl.
  destruct (Z.eqb_spec e 0); simpl; [by subst|done].
Qed.

Definition telemetry_payload (now : Z) (jti : string) (ttl : Z) (device : option string) (profile cuid : string) : list (string * json) :=
  let payload := [("jti", JStr jti); ("iat", JInt now); ("exp", JInt (now + Z.max 30 ttl)); ("profile", JStr profile);
                  ("device", JStr (str_or (default "" device) "unknown"))] in
  if truthy_str cuid then dset "cuid" (JStr cuid) payload else payload.

Lemma telemetry_payload_ok now jti ttl device profile cuid :
  let p := telemetry_payload now jti ttl device profile cuid in
  dict_wf p ∧ Forall (λ kv, is_scalar kv.2 = true) p.
Proof.
  cbv zeta. unfold telemetry_payload. destruct (truthy_str cuid); (split; [|by repeat constructor]);
    apply (bool_decide_unpack _); reflexivity.
Qed.

Lemma mint_telemetry_eq now jti key ttl device profile cuid :
  strip key ≠ "" →
  (Telemetry._mint_telemetry_token now jti key ttl device profile cuid).1
  = Signed.sign (strip key) (telemetry_payload now jti ttl device profile cuid).
Proof. intros Hk%truthy_str_true. unfold Telemetry._mint_telemetry_token. by rewrite Hk. Qed.

(** A telemetry token that the server mints is accepted until it expires,
    for at least thirty seconds, and gives back the profile, the device and the
    client id it was minted for; from its expiry on it is refused as expired. *)
Theorem telemetry_token_roundtrip now now' jti key ttl device profile cuid :
  strip key ≠ "" →
  let tok := (Telemetry._mint_telemetry_token now jti key ttl device profile cuid).1 in
  let exp := now + Z.max 30 ttl in
  match Telemetry._verify_telemetry_token now' key tok with
  | Ok p => now' < exp ∧ dget "profile" p = Some (JStr profile) ∧
      dget "device" p = Some (JStr (str_or (default "" device) "unknown")) ∧
      dget "cuid" p = (if truthy_str cuid then Some (JStr cuid) else None)
  | Err e => exp ≤ now' ∧ e = HttpError 401 "Telemetry token expired."
  end.
Proof.
  intros Hk. cbv zeta. rewrite mint_telemetry_eq by done. apply truthy_str_true in Hk.
  unfold Telemetry._verify_telemetry_token. rewrite Hk. cbn [negb].
  destruct (telemetry_payload_ok now jti ttl device profile cuid) as [Hwf Hs].
  rewrite open_sign by done. erewrite exp_of_int; last first.
  { rewrite dget_sort_keys_dict by done. unfold telemetry_payload. by destruct (truthy_str cuid). }
  destruct (Z.leb_spec (now + Z.max 30 ttl) now'); [done|].
  rewrite !dget_sort_keys_dict by done. unfold telemetry_payload. by destruct (truthy_str cuid).
Qed.
Lemma telemetry_token_roundtrip_witness :
  match Telemetry._verify_telemetry_token 1020 "k" (Telemetry._mint_telemetry_token 1000 "j" "k" 5 None "prod" "u1").1 with
  | Ok p => dget "cuid" p = Some (JStr "u1") | Err _ => 1030 ≤ 1020 end.
Proof.
  pose proof (telemetry_token_roundtrip 1000 1020 "j" "k" 5 None "prod" "u1" ltac:(done)) as H. cbv zeta in H.
  destruct (Telemetry._verify_telemetry_token _ _ _); [apply H|exact (proj1 H)].
Defined.

(** A telemetry token is accepted only when its second part decodes to the
    HMAC-SHA256 of its first part under the configured key, its first part
    decodes to the dict returned, and the expiry of that dict lies in the
    future; without a key every token is refused with status 503. *)
Theorem telemetry_verify_sound now key token p :
  Telemetry._verify_telemetry_token now key token = Ok p →
  strip key ≠ "" ∧ (∃ e, Signed.exp_of p = Ok e ∧ now < e) ∧
  ∃ p64 s64 raw, token = p64 +:+ String "." s64 ∧
    b64url_decode s64 = Some (hmac_sha256 (utf8_encode (strip key)) (utf8_encode p64)) ∧
    b64url_decode p64 = Some raw ∧ Crypto.loads_bytes raw = Some (JObj p).
Proof.
  unfold Telemetry._verify_telemetry_token. destruct (truthy_str (strip key)) eqn:Ek; [|done]. cbn [negb].
  destruct (Signed.open (strip key) token) as [| | | |v] eqn:Eo; try done. destruct v as [| | | | |d]; try done.
  destruct (Signed.exp_of d) as [e|] eqn:Ee; [|done]. destruct (Z.leb_spec e now); [done|]. intros [= <-].
  split_and!; [by apply truthy_str_true|by exists e|by apply open_inv].
Qed.
Lemma telemetry_verify_sound_witness : strip "k" ≠ "".
Proof.
  destruct (Telemetry._verify_telemetry_token 1020 "k" (Telemetry._mint_telemetry_token 1000 "j" "k" 300 None "prod" "u1").1) as [p|e] eqn:E;
    [|vm_compute in E; discriminate].
  exact (proj1 (telemetry_verify_sound _ _ _ _ E)).
Defined.

(** An LLM token that the server mints is accepted until it expires and
    carries the client id and email it was minted for; a telemetry token is
    refused as an LLM token at every time, even when both signing keys are the
    same. *)
Theorem llm_token_scope now now' jti key ttl client email tnow tjti tttl device profile cuid :
  strip key ≠ "" →
  match Llm.verify_llm_token now' key (Llm.mint_llm_token now jti key ttl client email).1 with
  | Ok p => now' < now + Llm._ttl_seconds ttl ∧ dget "client_uuid" p = Some (JStr client) ∧ dget "email" p = Some (JStr email)
  | Err e => now + Llm._ttl_seconds ttl ≤ now' ∧ e = llm_401 "Llm token expired."
  end ∧
  Llm.verify_llm_token now' key (Telemetry._mint_telemetry_token tnow tjti key tttl device profile cuid).1
    = Err (llm_401 "Invalid llm token payload.").
Proof.
  intros Hk. rewrite mint_telemetry_eq by done. apply truthy_str_true in Hk.
  unfold Llm.mint_llm_token, Llm.verify_llm_token. rewrite Hk. cbn [negb fst]. split.
  - set (p := [("jti", JStr jti); _; _; _; _; _]).
    assert (Hwf : dict_wf p) by (apply (bool_decide_unpack _); reflexivity).
    rewrite open_sign by (done || by repeat constructor).
    assert (Hsc : jget "scope" (sort_keys_dict p) = JStr "llm") by (unfold jget; by rewrite dget_sort_keys_dict).
    rewrite Hsc. cbv iota. rewrite (exp_of_int _ (now + Llm._ttl_seconds ttl)) by (by rewrite dget_sort_keys_dict).
    destruct (Z.leb_spec (now + Llm._ttl_seconds ttl) now'); [done|]. by rewrite !dget_sort_keys_dict by done.
  - destruct (telemetry_payload_ok tnow tjti tttl device profile cuid) as [Hwf Hs]. rewrite open_sign by done.
    assert (Hsc : jget "scope" (sort_keys_dict (telemetry_payload tnow tjti tttl device profile cuid)) = JNull).
    { unfold jget. rewrite dget_sort_keys_dict by done. unfold telemetry_payload. by destruct (truthy_str cuid). }
    by rewrite Hsc.
Qed.
Lemma llm_token_scope_witness :
  Llm.verify_llm_token 1001 "k" (Telemetry._mint_telemetry_token 1000 "j" "k" 300 None "prod" "u1").1
    = Err (llm_401 "Invalid llm token payload.").
Proof.
  assert (Hk : strip "k" ≠ "") by done.
  pose proof (llm_token_scope 0 1001 "" "k" None "" "" 1000 "j" 300 None "prod" "u1" Hk) as H.
  destruct H as [_ H]. exact H.
Defined.

Lemma encrypt_decrypt encrypt decrypt raw plaintext :
  (∀ k m, decrypt k (encrypt k m) = Some m) →
  match Crypto.encrypt_secret encrypt raw plaintext with
  | Ok stored => raw ≠ "" ∧ Crypto.is_encrypted_secret stored = true ∧ Crypto.decrypt_secret decrypt raw stored = Ok plaintext
  | Err _ => raw = ""
  end.
Proof.
  intros Hf. unfold Crypto.encrypt_secret, Crypto._config_fernet.
  destruct (truthy_str raw) eqn:Er; [|by apply truthy_str_false].
  assert (Hp : starts_with Crypto._ENC_PREFIX (Crypto._ENC_PREFIX +:+ encrypt (urlsafe_b64encode (sha256 (utf8_encode raw))) (utf8_encode plaintext)) = true)
    by apply starts_with_app.
  split_and!; [by apply truthy_str_true|exact Hp|]. unfold Crypto.decrypt_secret, Crypto._config_fernet.
  rewrite Hp, Er. change (truthy_str (Crypto._ENC_PREFIX +:+ _)) with true. cbn [negb orb].
  change (sdrop (String.length Crypto._ENC_PREFIX) (Crypto._ENC_PREFIX +:+ ?s)) with s. by rewrite Hf, utf8_decode_encode.
Qed.

(** With an encryption key set, encrypting a secret override and decrypting
    it gives the secret back, and the stored form is recognised as encrypted;
    without a key encryption raises rather than storing the secret in clear. *)
Theorem secret_roundtrip encrypt decrypt raw plaintext :
  (∀ k m, decrypt k (encrypt k m) = Some m) →
  match Crypto.encrypt_secret encrypt raw plaintext with
  | Ok stored => raw ≠ "" ∧ Crypto.is_encrypted_secret stored = true ∧ Crypto.decrypt_secret decrypt raw stored = Ok plaintext
  | Err _ => raw = ""
  end.
Proof. exact (encrypt_decrypt encrypt decrypt raw plaintext). Qed.
Lemma secret_roundtrip_witness :
  Crypto.encrypt_secret (λ _ m, b64url_encode m) "key" "s3cret" = Ok "enc:v1:czNjcmV0" ∧
  Crypto.decrypt_secret (λ _ m, b64url_decode m) "key" "enc:v1:czNjcmV0" = Ok "s3cret".
Proof.
  pose proof (secret_roundtrip (λ _ m, b64url_encode m) (λ _ m, b64url_decode m) "key" "s3cret" (λ _, b64url_roundtrip)) as H.
  split; [vm_compute; reflexivity|]. exact (proj2 (proj2 H)).
Defined.
