(* ===== verification/AdminAuth.v ===== *)
(** * Admin sessions
    [app/admin/auth.py]: the signed session cookie, the group check, CSRF and
    the two guards [require_admin] and [require_admin_or_service_token]. The
    OIDC discovery and the redirect's parameters are outside the model: the
    guard's answer says whether the handler runs, and for whom. *)
From S2P Require Import Prelude Text Json Hashing Base64 Tokens.
From Stdlib Require Import Ascii String.
Open Scope Z_scope.

Definition SESSION_TTL : Z := 3600.

(** [hmac.compare_digest] on [str]: raises unless both are ASCII *)
Definition compare_digest_str (a b : string) : result exn bool :=
  if is_ascii a && is_ascii b then Ok (bool_decide (a = b)) else Err tt.

Definition session_sig (secret payload : string) : string :=
  hexlify (hmac_sha256 (utf8_encode secret) (utf8_encode payload)).

Definition _sign_session (secret : string) (data : json) : string :=
  let payload := dumps_compact data in
  urlsafe_b64encode (utf8_encode (session_sig secret payload +:+ String "." payload)).

(** Every exception gives [None]. *)
Definition _verify_session (secret : string) (now : Z) (cookie : string) : option (list (string * json)) :=
  match urlsafe_b64decode (utf8_encode cookie) ≫= utf8_decode with
  | None => None
  | Some raw =>
      match split_once "." raw with
      | None => None
      | Some (sig, payload) =>
          match compare_digest_str sig (session_sig secret payload) with
          | Ok true =>
              match loads payload with
              | Some (JObj data) =>
                  match Crypto.json_num (jget_or "exp" data (JInt 0)) with
                  | Some exp => if exp <? now then None else Some data
                  | None => None
                  end
              | _ => None
              end
          | _ => None
          end
      end
  end.

(** [x in v] for a claim [v]: a list, a string, or the keys of a dict *)
Definition member (x : string) (v : json) : result exn bool :=
  match v with
  | JArr l => Ok (existsb (λ w, match w with JStr s => bool_decide (s = x) | _ => false end) l)
  | JStr s => Ok (contains x s)
  | JObj d => Ok (bool_decide (x ∈ dkeys d))
  | _ => Err tt
  end.
Definition dict_get (v : json) (k : string) (dflt : json) : result exn json :=
  match v with JObj d => Ok (jget_or k d dflt) | _ => Err tt end.
Definition _has_admin_group (required client_id : string) (token_claims : list (string * json)) : result exn bool :=
  let* in_groups := member required (jget_or "groups" token_claims (JArr [])) in
  if in_groups : bool then Ok true
  else
    let* r := dict_get (jget_or "resource_access" token_claims (JObj [])) client_id (JObj []) in
    let* roles := dict_get r "roles" (JArr []) in
    member required roles.

(** [cookie], [header]: [None] when absent *)
Definition _verify_csrf (cookie_token header_token : option string) : result exn bool :=
  match cookie_token with
  | None | Some "" => Ok false
  | Some c =>
      match header_token with
      | None | Some "" => Ok true
      | Some h => compare_digest_str c h
      end
  end.

(** What the guard does with a request. *)
Inductive admission : Type :=
| Admit (session : list (string * json))
| RedirectToLogin
| Unavailable.

Definition dev_session (now : Z) : list (string * json) :=
  [("sub", JStr "dev-user"); ("email", JStr "admin@dev.local"); ("name", JStr "Dev Admin"); ("exp", JInt (now + SESSION_TTL))].

(** [oidc_config]: the discovery answered. *)
Definition require_admin (secret oidc_issuer : string) (dev_autologin oidc_config : bool) (now : Z)
    (cookie : option string) : admission :=
  let session := match cookie with
                 | Some c => if truthy_str c then _verify_session secret now c else None
                 | None => None
                 end in
  match session with
  | Some (kv :: d) => Admit (kv :: d)
  | _ =>
      if dev_autologin && negb (truthy_str oidc_issuer) then Admit (dev_session now)
      else if oidc_config then RedirectToLogin else Unavailable
  end.

Definition service_session : list (string * json) :=
  [("sub", JStr "service"); ("email", JStr "ci@service.local"); ("name", JStr "CI service token")].

Definition require_admin_or_service_token (secret oidc_issuer queue_admin_token : string)
    (dev_autologin oidc_config : bool) (now : Z) (admin_token : option string) (cookie : option string)
    : result exn admission :=
  let tok := strip (default "" admin_token) in
  let expected := strip queue_admin_token in
  let fallback := require_admin secret oidc_issuer dev_autologin oidc_config now cookie in
  if truthy_str expected && truthy_str tok then
    let* eq := compare_digest_str tok expected in
    Ok (if eq : bool then Admit service_session else fallback)
  else Ok fallback.

(** ** Facts *)
Lemma hex_digit_ok d : 0 ≤ d < 16 → (code (hex_digit d) <? 128) = true ∧ hex_digit d ≠ "."%char.
Proof.
  intros Hd. rewrite <- (Z2Nat.id d) by lia. assert (Z.to_nat d < 16)%nat as H by lia.
  revert H. generalize (Z.to_nat d) as m. clear. intros m H.
  do 16 (destruct m as [|m]; [vm_compute; by split|]). lia.
Qed.

Lemma hexlify_ok b : is_ascii (hexlify b) = true ∧ sforall (λ c, negb (is_char "." c)) (hexlify b) = true.
Proof.
  induction b as [|c b [IH1 IH2]]; [done|]. unfold is_ascii, is_char in *. cbn [hexlify sforall].
  pose proof (code_range c).
  destruct (hex_digit_ok (code c / 16)) as [-> ?]; [Z.to_euclidean_division_equations; lia|].
  destruct (hex_digit_ok (code c mod 16)) as [-> ?]; [Z.to_euclidean_division_equations; lia|].
  rewrite !bool_decide_eq_false_2 by done. by split.
Qed.

Lemma compare_digest_same s : is_ascii s = true → compare_digest_str s s = Ok true.
Proof. intros H. unfold compare_digest_str. by rewrite H, bool_decide_eq_true_2. Qed.

(** A session that the server signs is read back until it expires, its
    expiry second included, and refused afterwards. *)
Theorem session_roundtrip secret now data exp :
  json_wf (JObj data) → dget "exp" data = Some (JInt exp) →
  _verify_session secret now (_sign_session secret (JObj data)) = if exp <? now then None else Some data.
Proof.
  intros Hwf He. unfold _verify_session, _sign_session.
  rewrite (utf8_encode_ascii (urlsafe_b64encode _)) by apply urlsafe_b64encode_ascii.
  rewrite urlsafe_b64_roundtrip. cbn [mbind option_bind]. rewrite utf8_decode_encode.
  destruct (hexlify_ok (hmac_sha256 (utf8_encode secret) (utf8_encode (dumps_compact (JObj data))))) as [Ha Hd].
  rewrite split_once_app by exact Hd. rewrite compare_digest_same by exact Ha.
  rewrite loads_dumps_compact by done. unfold jget_or. by rewrite He.
Qed.
Lemma session_roundtrip_witness :
  _verify_session "s" 100 (_sign_session "s" (JObj [("sub", JStr "u"); ("exp", JInt 100)]))
  = Some [("sub", JStr "u"); ("exp", JInt 100)].
Proof.
  rewrite (session_roundtrip "s" 100 [("sub", JStr "u"); ("exp", JInt 100)] 100); [reflexivity| |reflexivity].
  split; [apply (bool_decide_unpack _); reflexivity|by repeat split].
Defined.

Lemma verify_session_inv secret now c s :
  _verify_session secret now c = Some s →
  ∃ raw payload exp, urlsafe_b64decode (utf8_encode c) ≫= utf8_decode = Some raw ∧
    raw = session_sig secret payload +:+ String "." payload ∧ loads payload = Some (JObj s) ∧
    Crypto.json_num (jget_or "exp" s (JInt 0)) = Some exp ∧ now ≤ exp.
Proof.
  unfold _verify_session. destruct (urlsafe_b64decode (utf8_encode c) ≫= utf8_decode) as [raw|]; [|done].
  destruct (split_once "." raw) as [[sig payload]|] eqn:Es; [|done].
  unfold compare_digest_str. destruct (is_ascii sig && _); [|done]. case_bool_decide as Hsig; [|done].
  destruct (loads payload) as [v|] eqn:El; [|done]. destruct v as [| | | | |d]; try done.
  destruct (Crypto.json_num _) as [exp|] eqn:Ee; [|done]. destruct (Z.ltb_spec exp now); [done|].
  intros [= <-]. apply split_once_Some in Es. exists raw, payload, exp. subst sig. by split_and!.
Qed.

Lemma require_admin_inv secret issuer dev cfg now cookie s :
  require_admin secret issuer dev cfg now cookie = Admit s →
  (dev = true ∧ issuer = "" ∧ s = dev_session now) ∨ (∃ c, cookie = Some c ∧ _verify_session secret now c = Some s).
Proof.
  unfold require_admin.
  destruct (match cookie with Some c => if truthy_str c then _verify_session secret now c else None | None => None end)
    as [[|kv d]|] eqn:Es.
  2: { intros [= <-]. right. destruct cookie as [c|]; [|done]. exists c. by destruct (truthy_str c). }
  all: destruct dev, (truthy_str issuer) eqn:Ei, cfg; try done; intros [= <-]; left; by apply truthy_str_false in Ei.
Qed.

(** An admin handler runs only for a request whose cookie decodes to a
    payload signed with the session secret and not expired, or, when no OIDC
    issuer is configured, under the development opt-in; the variant for
    automation also admits the exact service token, when one is configured. *)
Theorem admin_admission_sound secret issuer token dev cfg now atok cookie s :
  require_admin_or_service_token secret issuer token dev cfg now atok cookie = Ok (Admit s) →
  (strip token ≠ "" ∧ strip (default "" atok) = strip token ∧ s = service_session) ∨
  (dev = true ∧ issuer = "" ∧ s = dev_session now) ∨
  (∃ c raw payload exp, cookie = Some c ∧ urlsafe_b64decode (utf8_encode c) ≫= utf8_decode = Some raw ∧
     raw = session_sig secret payload +:+ String "." payload ∧ loads payload = Some (JObj s) ∧
     Crypto.json_num (jget_or "exp" s (JInt 0)) = Some exp ∧ now ≤ exp).
Proof.
  intros H. enough ((strip token ≠ "" ∧ strip (default "" atok) = strip token ∧ s = service_session) ∨
    require_admin secret issuer dev cfg now cookie = Admit s) as [?|[?|(c & -> & Hc)]%require_admin_inv]; [by left|by right; left| |].
  - right. right. apply verify_session_inv in Hc as (raw & payload & exp & Hc). by exists c, raw, payload, exp.
  - unfold require_admin_or_service_token in H. destruct (truthy_str (strip token)) eqn:Et; [|right; by injection H].
    destruct (truthy_str (strip (default "" atok))); [|right; by injection H]. cbn [andb] in H.
    unfold compare_digest_str in H. destruct (is_ascii _ && _); [|done]. cbn [rbind] in H.
    case_bool_decide as Heq; [|right; by injection H]. left. injection H as <-. by apply truthy_str_true in Et.
Qed.
Lemma admin_admission_sound_witness :
  require_admin_or_service_token "s" "https://kc" "tok" false true 5 (Some " tok ") None = Ok (Admit service_session) ∧
  (strip "tok" ≠ "" ∧ strip " tok " = strip "tok" ∧ service_session = service_session ∨
   (false = true ∧ "https://kc" = "" ∧ service_session = dev_session 5) ∨
   (∃ c raw payload exp, None = Some c ∧ urlsafe_b64decode (utf8_encode c) ≫= utf8_decode = Some raw ∧
     raw = session_sig "s" payload +:+ String "." payload ∧ loads payload = Some (JObj service_session) ∧
     Crypto.json_num (jget_or "exp" service_session (JInt 0)) = Some exp ∧ 5 ≤ exp)).
Proof.
  split; [reflexivity|].
  exact (admin_admission_sound "s" "https://kc" "tok" false true 5 (Some " tok ") None service_session eq_refl).
Defined.
