(* ===== verification/Relay.v ===== *)
(** * Relay credentials
    The per-client credentials of [app/main.py]: minting with rotation,
    verification and the request guards, over the table [relay_clients] or the
    in-process store used without a database; and the identity of an LLM request
    ([app/llm/auth.py]), which rests on them. Random bytes and the clock are
    arguments. *)
From S2P Require Import Prelude Text Json Hashing Base64 Tokens AdminAuth.
From Stdlib Require Import Ascii String.
Open Scope Z_scope.

(** A row of [relay_clients]; [rl_expires] is 0 when there is none. *)
Record relay_row : Type := RelayRow {
  rl_id : string; rl_client_uuid : string; rl_email : string; rl_hash : string;
  rl_targets : list string; rl_expires : Z; rl_revoked : bool; rl_created : Z }.

(** With a database, the rows; without, [_RELAY_MEMORY_STORE]. *)
Inductive store : Type := Db (rows : list relay_row) | Memory (d : list (string * relay_row)).

Record relay_info : Type := RelayInfo {
  ri_client_uuid : string; ri_email : string; ri_targets : list string; ri_expires : Z }.
Record credentials : Type := Credentials {
  cr_client_id : string; cr_client_key : string; cr_targets : list string; cr_expires : Z; cr_ttl : Z }.

(** [sorted(set(l))] *)
Definition sorted_set (l : list string) : list string := py_sorted (remove_dups l).
(** [l.append(x)] when [x not in l] *)
Definition add_missing (x : string) (l : list string) : list string := if decide (x ∈ l) then l else l ++ [x].

Definition _relay_allowed_targets (csv : string) : list string :=
  let targets := (λ t, lower (strip t)) <$> filter (λ t, truthy_str (strip t) = true) (split_on "," (strip csv)) in
  let targets := match targets with [] => ["keycloak"; "config"; "telemetry"] | _ => targets end in
  sorted_set (add_missing "llm" (add_missing "telemetry" (add_missing "config" targets))).

(** [UPDATE ... SET revoked_at WHERE client_uuid = ... AND revoked_at IS NULL] *)
Definition revoke_client (client_uuid : string) (r : relay_row) : relay_row :=
  if decide (rl_client_uuid r = client_uuid ∧ rl_revoked r = false)
  then RelayRow (rl_id r) (rl_client_uuid r) (rl_email r) (rl_hash r) (rl_targets r) (rl_expires r) true (rl_created r)
  else r.

(** [uuid_hex]: the 24 hexadecimal digits drawn; [rnd]: the 32 bytes drawn. The
    insert raises when an active row has the id already. *)
Definition _mint_or_rotate_relay_credentials (now : Z) (pepper csv : string) (ttl_setting : Z)
    (uuid_hex rnd client_uuid email : string) (s : store) : result exn (credentials * store) :=
  let id := "rc_" +:+ uuid_hex in
  let key := b64url_encode rnd in
  let hash := Crypto.hash_relay_secret id key pepper in
  let targets := _relay_allowed_targets csv in
  let ttl := Z.max 60 ttl_setting in
  let row := RelayRow id client_uuid email hash targets (now + ttl) false now in
  let cred := Credentials id key targets (now + ttl) ttl in
  match s with
  | Db rows =>
      let rows' := revoke_client client_uuid <$> rows in
      if existsb (λ r, bool_decide (rl_id r = id ∧ rl_revoked r = false)) rows' then Err tt
      else Ok (cred, Db (rows' ++ [row]))
  | Memory d => Ok (cred, Memory (dset id row d))
  end.

Definition lookup_row (s : store) (id : string) : option relay_row :=
  match s with
  | Db rows => first_max rl_created (filter (λ r, rl_id r = id) rows)
  | Memory d => dget id d
  end.

Definition effective_targets (l : list string) : list string :=
  let e := sorted_set ((λ t, lower (strip t)) <$> filter (λ t, truthy_str (strip t) = true) l) in
  let e := if decide ("config" ∈ e ∧ "telemetry" ∉ e) then py_sorted (e ++ ["telemetry"]) else e in
  if decide ("config" ∈ e ∧ "llm" ∉ e) then py_sorted (e ++ ["llm"]) else e.

Definition _verify_relay_credentials (now : Z) (pepper : string) (s : store)
    (relay_client_id relay_key target : string) : result string relay_info :=
  let id := strip relay_client_id in
  let key := strip relay_key in
  let target_norm := lower (strip target) in
  if negb (truthy_str id) || negb (truthy_str key) then Err "missing relay headers"
  else
    match lookup_row s id with
    | None => Err "unknown relay client"
    | Some row =>
        if rl_revoked row then Err "relay key revoked"
        else if negb (truthy_str (rl_hash row)) || negb (bool_decide (rl_hash row = Crypto.hash_relay_secret id key pepper))
        then Err "invalid relay key"
        else if negb (rl_expires row =? 0) && (rl_expires row <=? now) then Err "relay key expired"
        else
          let e := effective_targets (rl_targets row) in
          if truthy_str target_norm && negb (bool_decide (e = [])) && negb (bool_decide (target_norm ∈ e))
          then Err ("target '" +:+ target_norm +:+ "' not allowed")
          else Ok (RelayInfo (rl_client_uuid row) (rl_email row) e (rl_expires row))
    end.

(** The headers of a request, by lower-case name; a missing one reads "". *)
Definition headers : Type := list (string * string).
Definition hget (k : string) (h : headers) : string := default "" (dget k h).

Definition _relay_auth_from_request (now : Z) (pepper shared_token : string) (relay_enabled : bool) (s : store)
    (h : headers) (target : string) (require_proxy_token : bool) : result exn (result string relay_info) :=
  if negb relay_enabled then Ok (Err "relay auth disabled")
  else
    let expected := strip shared_token in
    let* proxy_ok := if require_proxy_token && truthy_str expected
                     then compare_digest_str expected (strip (hget "x-relay-proxy-token" h)) else Ok true in
    if negb proxy_ok then Ok (Err "invalid relay proxy token")
    else Ok (_verify_relay_credentials now pepper s (str_or (hget "x-relay-client" h) (hget "x-client-id" h))
               (str_or (hget "x-relay-key" h) (hget "x-client-key" h)) target).

(** ** Routes *)
Definition target_name (target : option string) (h : headers) : string :=
  lower (strip (str_or (default "" target) (hget "x-relay-target" h))).
Definition relay_authorize (now : Z) (pepper shared_token : string) (relay_enabled : bool) (s : store)
    (h : headers) (target : option string) : result exn (result http_error (string * relay_info)) :=
  let t := target_name target h in
  let* r := _relay_auth_from_request now pepper shared_token relay_enabled s h t true in
  Ok match r with Err e => Err (HttpError 403 e) | Ok info => Ok (t, info) end.
Definition relay_introspect (now : Z) (pepper shared_token : string) (relay_enabled : bool) (s : store)
    (h : headers) (target : option string) : result exn (result http_error relay_info) :=
  let* r := _relay_auth_from_request now pepper shared_token relay_enabled s h (target_name target h) false in
  Ok match r with Err e => Err (HttpError 401 e) | Ok info => Ok info end.

(** ** The identity of an LLM request: [app/llm/auth.py] *)
Module LlmAuth.
Inductive auth_method : Type := relay_headers | llm_token.
Record LlmIdentity : Type := MkLlmIdentity {
  id_client_uuid : string; id_email : string; id_method : auth_method; id_expires : option Z }.

Definition _client_uuid_is_active (now : Z) (s : store) (client_uuid : string) : bool :=
  if negb (truthy_str client_uuid) then false
  else
    match s with
    | Db rows => existsb (λ r, bool_decide (rl_client_uuid r = client_uuid ∧ rl_revoked r = false ∧
                                 (rl_expires r = 0 ∨ now < rl_expires r))) rows
    | Memory [] => true
    | Memory d => existsb (λ kr : string * relay_row, bool_decide (rl_client_uuid kr.2 = client_uuid ∧ rl_revoked kr.2 = false)) d
    end.

Definition opt_expiry (z : Z) : option Z := if z =? 0 then None else Some z.

(** An exception that is not an [LlmProxyError] gives status 500. *)
Definition resolve (now : Z) (pepper shared_token llm_key : string) (relay_enabled : bool) (s : store) (h : headers)
    : result LlmProxyError LlmIdentity :=
  let relay_client := strip (str_or (hget "x-relay-client" h) (hget "x-client-id" h)) in
  if truthy_str relay_client then
    match _relay_auth_from_request now pepper shared_token relay_enabled s h "llm" false with
    | Ok (Ok info) => Ok (MkLlmIdentity (ri_client_uuid info) (ri_email info) relay_headers (opt_expiry (ri_expires info)))
    | Ok (Err e) => Err (llm_401 ("Relay authentication failed: " +:+ e +:+ "."))
    | Err _ => Err (MkLlmProxyError 500 "" "" None None)
    end
  else
    let auth := strip (hget "authorization" h) in
    let token := strip (sdrop 7 auth) in
    if starts_with "bearer " (lower auth) && truthy_str token then
      let* payload := Llm.verify_llm_token now llm_key token in
      let client_uuid := str_or_empty (jget "client_uuid" payload) in
      if _client_uuid_is_active now s client_uuid then
        match Signed.exp_of payload with
        | Ok e => Ok (MkLlmIdentity client_uuid (str_or_empty (jget "email" payload)) llm_token (opt_expiry e))
        | Err _ => Err (MkLlmProxyError 500 "" "" None None)
        end
      else Err (llm_401 "Relay client revoked or expired.")
    else Err (llm_401 "Missing credentials: provide X-Relay-Client/X-Relay-Key headers or Authorization: Bearer <llmToken> (obtained from /config after enrollment).").
End LlmAuth.

(** ** Facts *)
Lemma elem_sorted_set x l : x ∈ sorted_set l ↔ x ∈ l.
Proof. unfold sorted_set. by rewrite elem_of_py_sorted, elem_of_remove_dups. Qed.
Lemma elem_add_missing x y l : x ∈ add_missing y l ↔ x = y ∨ x ∈ l.
Proof. unfold add_missing. case_decide; set_solver. Qed.

Lemma allowed_targets_core csv t : t ∈ ["config"; "telemetry"; "llm"] → t ∈ _relay_allowed_targets csv.
Proof. intros Ht. unfold _relay_allowed_targets. rewrite elem_sorted_set, !elem_add_missing. set_solver. Qed.

Lemma effective_targets_base t l : t ∈ l → strip t ≠ "" → lower (strip t) ∈ effective_targets l.
Proof.
  intros Hl Hs%truthy_str_true. unfold effective_targets.
  set (e := sorted_set _). assert (lower (strip t) ∈ e) as He.
  { unfold e. rewrite elem_sorted_set. apply list_elem_of_fmap. exists t. split; [done|]. by apply list_elem_of_filter. }
  clearbody e. repeat case_decide; repeat (rewrite elem_of_py_sorted || rewrite elem_of_app); auto.
Qed.

Lemma hash_nonempty id key pepper : truthy_str (Crypto.hash_relay_secret id key pepper) = true.
Proof.
  unfold Crypto.hash_relay_secret, sha256_hex. set (b := sha256 _).
  assert (H : String.length (hexlify b) = 64%nat) by (rewrite hexlify_len; unfold b; by rewrite sha256_len).
  by destruct (hexlify b).
Qed.

Lemma b64_ok_no_space s : sforall b64_ok s = true → strip s = s.
Proof.
  intros H. apply strip_no_space. eapply sforall_impl; [|exact H]. by intros [[] [] [] [] [] [] [] []].
Qed.

Lemma enc_np_nonempty b : b ≠ "" → b64url_encode b ≠ "".
Proof. intros Hb. rewrite b64url_encode_np. by destruct b as [|x [|y [|z b]]]. Qed.

Lemma verify_ok_inv now pepper s id key target info :
  _verify_relay_credentials now pepper s id key target = Ok info →
  ∃ row, lookup_row s (strip id) = Some row ∧ rl_revoked row = false ∧
    rl_hash row = Crypto.hash_relay_secret (strip id) (strip key) pepper ∧
    (rl_expires row = 0 ∨ now < rl_expires row) ∧
    (lower (strip target) = "" ∨ ri_targets info = [] ∨ lower (strip target) ∈ ri_targets info) ∧
    info = RelayInfo (rl_client_uuid row) (rl_email row) (effective_targets (rl_targets row)) (rl_expires row).
Proof.
  unfold _verify_relay_credentials. case_match; [done|].
  destruct (lookup_row s (strip id)) as [row|]; [|done]. destruct (rl_revoked row) eqn:Er; [done|].
  destruct (truthy_str (rl_hash row)); [|done]. cbn [negb orb]. case_bool_decide as Hh; [|done]. cbn [negb].
  destruct (negb (rl_expires row =? 0) && (rl_expires row <=? now)) eqn:Ee; [done|].
  destruct (truthy_str (lower (strip target)) && _ && _) eqn:Et; [done|]. intros [= <-].
  exists row. split_and!; try done.
  - apply andb_false_iff in Ee as [Ee|Ee]; bool_hyps; [by left|by right].
  - apply andb_false_iff in Et as [[Et|Et]%andb_false_iff|Et]; bool_hyps; simpl;
      [left; by apply truthy_str_false|by right; left|by right; right].
Qed.

(** Credentials are accepted only for the newest row of their id, when it is
    not revoked, stores the salted SHA-256 of exactly that id and key, has not
    expired, and allows the target asked for (a credential with no target list
    allows every target); the answer carries the identity of that row. *)
Theorem relay_verify_sound now pepper rows id key target info :
  _verify_relay_credentials now pepper (Db rows) id key target = Ok info →
  ∃ row, row ∈ rows ∧ rl_id row = strip id ∧ (∀ r, r ∈ rows → rl_id r = strip id → rl_created r ≤ rl_created row) ∧
    rl_revoked row = false ∧ rl_hash row = sha256_hex (utf8_encode (strip id +:+ ":" +:+ strip key +:+ ":" +:+ pepper)) ∧
    (rl_expires row = 0 ∨ now < rl_expires row) ∧
    (lower (strip target) = "" ∨ ri_targets info = [] ∨ lower (strip target) ∈ ri_targets info) ∧
    ri_client_uuid info = rl_client_uuid row ∧ ri_email info = rl_email row.
Proof.
  intros H. apply verify_ok_inv in H as (row & Hl & Hr & Hh & He & Ht & Hi).
  apply first_max_Some in Hl as [[Hid Hin]%list_elem_of_filter Hmax].
  exists row. split_and!; try done; try (by subst info).
  intros r Hr' Hid'. apply Hmax. by apply list_elem_of_filter.
Qed.
Definition relay_row_ex : relay_row :=
  RelayRow "rc_a" "u1" "a@b.fr" (Crypto.hash_relay_secret "rc_a" "k" "pep") ["config"] 500 false 1.
Lemma relay_verify_sound_witness : ∃ row, row ∈ [relay_row_ex] ∧ rl_id row = "rc_a".
Proof.
  destruct (_verify_relay_credentials 100 "pep" (Db [relay_row_ex]) "rc_a" " k " "LLM") as [i|] eqn:E; [|vm_compute in E; discriminate].
  destruct (relay_verify_sound 100 "pep" [relay_row_ex] "rc_a" " k " "LLM" i E) as (row & H1 & H2 & _).
  exists row. exact (conj H1 H2).
Defined.

Lemma revoke_client_id client r : rl_id (revoke_client client r) = rl_id r.
Proof. unfold revoke_client. by case_decide. Qed.
(** The row just minted is the one found under its id. *)
Lemma minted_lookup now pepper csv ttl uuid_hex rnd client email s cred s' :
  lookup_row s ("rc_" +:+ uuid_hex) = None →
  _mint_or_rotate_relay_credentials now pepper csv ttl uuid_hex rnd client email s = Ok (cred, s') →
  let id := "rc_" +:+ uuid_hex in
  let key := b64url_encode rnd in
  cred = Credentials id key (_relay_allowed_targets csv) (now + Z.max 60 ttl) (Z.max 60 ttl) ∧
  lookup_row s' id = Some (RelayRow id client email (Crypto.hash_relay_secret id key pepper) (_relay_allowed_targets csv)
                             (now + Z.max 60 ttl) false now).
Proof.
  unfold _mint_or_rotate_relay_credentials. intros Hnew. destruct s as [rows|d].
  - case_match; [done|]. intros [= <- <-]. cbv zeta. split; [done|]. cbn [lookup_row] in *.
    rewrite filter_app. rewrite (filter_none _ (revoke_client client <$> rows)).
    + by rewrite filter_cons, decide_True.
    + intros x (r & -> & Hr)%list_elem_of_fmap. rewrite revoke_client_id. intros Hid.
      apply first_max_None in Hnew. assert (r ∈ filter (λ r, rl_id r = "rc_" +:+ uuid_hex) rows) as Hin
        by (by apply list_elem_of_filter). rewrite Hnew in Hin. by apply not_elem_of_nil in Hin.
  - intros [= <- <-]. cbv zeta. split; [done|]. simpl. apply dget_dset_eq.
Qed.

(** Credentials just minted are accepted until they expire. *)
Lemma minted_verifies now now' pepper csv ttl uuid_hex rnd client email s cred s' t :
  sforall (λ c, negb (py_isspace c)) uuid_hex = true → rnd ≠ "" → lookup_row s ("rc_" +:+ uuid_hex) = None →
  _mint_or_rotate_relay_credentials now pepper csv ttl uuid_hex rnd client email s = Ok (cred, s') →
  now' < cr_expires cred → t ∈ ["config"; "telemetry"; "llm"] →
  ∃ targets, _verify_relay_credentials now' pepper s' (cr_client_id cred) (cr_client_key cred) t
    = Ok (RelayInfo client email targets (cr_expires cred)).
Proof.
  intros Hhex Hrnd Hnew Hm Hexp Ht. destruct (minted_lookup _ _ _ _ _ _ _ _ _ _ _ Hnew Hm) as [-> Hl].
  cbn [cr_expires cr_client_id cr_client_key] in *. exists (effective_targets (_relay_allowed_targets csv)).
  set (id := "rc_" +:+ uuid_hex) in *. set (key := b64url_encode rnd) in *.
  assert (Hid : strip id = id) by (apply strip_no_space; simpl; exact Hhex).
  assert (Hkey : strip key = key) by apply b64_ok_no_space, b64url_encode_ok.
  unfold _verify_relay_credentials. rewrite Hid, Hkey. change (truthy_str id) with true.
  rewrite (proj2 (truthy_str_true key)) by (by apply enc_np_nonempty). cbn [negb orb]. rewrite Hl.
  cbn [rl_revoked rl_hash rl_expires rl_targets rl_client_uuid rl_email].
  rewrite hash_nonempty, bool_decide_eq_true_2 by done. cbn [negb orb].
  destruct (Z.leb_spec (now + Z.max 60 ttl) now'); [lia|]. rewrite andb_false_r.
  assert (Hlow : lower (strip t) = t ∧ strip t ≠ "") by (repeat (apply elem_of_cons in Ht as [->|Ht]); [done..|by apply not_elem_of_nil in Ht]).
  destruct Hlow as [Hlow Hst]. rewrite Hlow.
  assert (Hin : t ∈ effective_targets (_relay_allowed_targets csv)).
  { rewrite <- Hlow. apply effective_targets_base; [by apply allowed_targets_core|done]. }
  by rewrite (bool_decide_eq_true_2 (t ∈ _)), andb_false_r by done.
Qed.


(** Without a database a rotation revokes nothing: the earlier credentials of
    the client go on being accepted until they expire. *)
Theorem memory_rotation_keeps_old now now' pepper csv ttl uuid_hex rnd client email d cred s' id key t info :
  strip id ≠ "rc_" +:+ uuid_hex →
  _mint_or_rotate_relay_credentials now pepper csv ttl uuid_hex rnd client email (Memory d) = Ok (cred, s') →
  _verify_relay_credentials now' pepper (Memory d) id key t = Ok info →
  _verify_relay_credentials now' pepper s' id key t = Ok info.
Proof.
  intros Hne [= <- <-]. unfold _verify_relay_credentials, lookup_row. by rewrite dget_dset_ne.
Qed.
Lemma memory_rotation_keeps_old_witness :
  ∃ cred s' info, _mint_or_rotate_relay_credentials 100 "pep" "" 60 "b" "xyz" "u1" "a@b.fr" (Memory [("rc_a", relay_row_ex)]) = Ok (cred, s') ∧
    _verify_relay_credentials 200 "pep" s' "rc_a" "k" "llm" = Ok info.
Proof.
  destruct (_mint_or_rotate_relay_credentials 100 "pep" "" 60 "b" "xyz" "u1" "a@b.fr" (Memory [("rc_a", relay_row_ex)])) as [[cred s']|] eqn:E;
    [|vm_compute in E; discriminate].
  destruct (_verify_relay_credentials 200 "pep" (Memory [("rc_a", relay_row_ex)]) "rc_a" "k" "llm") as [info|] eqn:Ev;
    [|vm_compute in Ev; discriminate].
  exists cred, s', info. split; [reflexivity|].
  exact (memory_rotation_keeps_old 100 200 "pep" "" 60 "b" "xyz" "u1" "a@b.fr" _ cred s' "rc_a" "k" "llm" info ltac:(done) E Ev).
Defined.

(** A request is identified for the LLM proxy only by credentials that the
    relay accepts for the LLM target, or by a signed token that is valid and
    whose client still has an active credential: with a database, a client all
    of whose credentials are revoked is refused even with an unexpired token. *)
Theorem llm_identity_sound now pepper st key en s h i :
  LlmAuth.resolve now pepper st key en s h = Ok i →
  match LlmAuth.id_method i with
  | LlmAuth.relay_headers => ∃ info id k, _verify_relay_credentials now pepper s id k "llm" = Ok info ∧
      LlmAuth.id_client_uuid i = ri_client_uuid info ∧ LlmAuth.id_email i = ri_email info
  | LlmAuth.llm_token => ∃ payload token, Llm.verify_llm_token now key token = Ok payload ∧
      LlmAuth.id_client_uuid i = str_or_empty (jget "client_uuid" payload) ∧
      (∀ rows, s = Db rows → ∃ r, r ∈ rows ∧ rl_client_uuid r = LlmAuth.id_client_uuid i ∧ rl_revoked r = false)
  end.
Proof.
  unfold LlmAuth.resolve. case_match.
  - unfold _relay_auth_from_request. destruct en; [|done]. cbn [negb andb rbind].
    destruct (_verify_relay_credentials _ _ _ _ _ _) as [info|] eqn:E; [|done]. intros [= <-]. exists info. eexists _, _. split_and!; [exact E|done|done].
  - case_match; [|done]. destruct (Llm.verify_llm_token _ _ _) as [payload|] eqn:E; [|done]. cbn [rbind].
    destruct (LlmAuth._client_uuid_is_active _ _ _) eqn:Ea; [|done].
    destruct (Signed.exp_of payload); [|done]. intros [= <-]. simpl. eexists _, _. split_and!; [exact E|done|].
    intros rows ->. unfold LlmAuth._client_uuid_is_active in Ea. case_match; [done|].
    apply existsb_exists in Ea as (r & Hr%list_elem_of_In & Hb%bool_decide_eq_true). exists r. tauto.
Qed.
Lemma llm_identity_sound_witness :
  ∃ i, LlmAuth.resolve 100 "pep" "" "" true (Db [relay_row_ex]) [("x-relay-client", "rc_a"); ("x-relay-key", "k")] = Ok i ∧
    ∃ info, LlmAuth.id_client_uuid i = ri_client_uuid info.
Proof.
  destruct (LlmAuth.resolve 100 "pep" "" "" true (Db [relay_row_ex]) [("x-relay-client", "rc_a"); ("x-relay-key", "k")]) as [i|] eqn:E;
    [|vm_compute in E; discriminate].
  exists i. split; [reflexivity|]. pose proof (llm_identity_sound 100 "pep" "" "" true _ _ i E) as H.
  destruct (LlmAuth.id_method i) eqn:Em; [|vm_compute in E; injection E as <-; discriminate].
  destruct H as (info & _ & _ & _ & H & _). exists info. exact H.
Defined.
