(* ===== verification/Ingest.v ===== *)
(** * Enrolment and telemetry
    Of [app/main.py]: the verification of the access token with its caches, the
    enrolment handler and what it stores, the telemetry relay, and the handling
    of the queue jobs that both leave behind. Handlers run in a state and
    exception monad over [world], the tables and files they write. The clock,
    the random draws and the answers of the identity provider and of the
    telemetry collector are arguments; a fingerprint that is not a string is
    taken as its text. *)
From S2P Require Import Prelude Text Json Effects Hashing Base64 Paths Uuid Queue Tokens AdminAuth Relay.
From Stdlib Require Import Ascii String.
Open Scope Z_scope.

(** ** State *)
Record prov_row : Type := ProvRow {
  pv_email : string; pv_device_name : string; pv_client_uuid : string; pv_status : string;
  pv_encryption_key : string; pv_comments : string; pv_updated : Z }.
Record conn_row : Type := ConnRow {
  dc_email : string; dc_client_uuid : string; dc_action : string; dc_fingerprint : string;
  dc_at : Z; dc_source_ip : option string; dc_user_agent : option string }.
(** A row of [device_telemetry_events]; the time of the span in nanoseconds. *)
Record event_row : Type := EventRow {
  te_client_uuid : string; te_email : string; te_span_name : string; te_span_ns : option Z;
  te_attributes : list (string * json); te_plugin_version : string }.
(** A request to the collector. *)
Record upstream_request : Type := UpstreamRequest { ur_url : string; ur_headers : headers; ur_body : string }.

Record world : Type := World {
  w_prov : list prov_row; w_conn : list conn_row; w_events : list event_row; w_relay : store; w_queue : queue;
  w_files : list (string * string); w_s3 : list (string * string); w_sent : list upstream_request;
  w_jwks_uri : list (string * (Z * string)); w_jwks_client : list (string * (Z * string)) }.

Definition set_prov x w := World x (w_conn w) (w_events w) (w_relay w) (w_queue w) (w_files w) (w_s3 w) (w_sent w) (w_jwks_uri w) (w_jwks_client w).
Definition set_conn x w := World (w_prov w) x (w_events w) (w_relay w) (w_queue w) (w_files w) (w_s3 w) (w_sent w) (w_jwks_uri w) (w_jwks_client w).
Definition set_events x w := World (w_prov w) (w_conn w) x (w_relay w) (w_queue w) (w_files w) (w_s3 w) (w_sent w) (w_jwks_uri w) (w_jwks_client w).
Definition set_relay x w := World (w_prov w) (w_conn w) (w_events w) x (w_queue w) (w_files w) (w_s3 w) (w_sent w) (w_jwks_uri w) (w_jwks_client w).
Definition set_queue x w := World (w_prov w) (w_conn w) (w_events w) (w_relay w) x (w_files w) (w_s3 w) (w_sent w) (w_jwks_uri w) (w_jwks_client w).
Definition set_files x w := World (w_prov w) (w_conn w) (w_events w) (w_relay w) (w_queue w) x (w_s3 w) (w_sent w) (w_jwks_uri w) (w_jwks_client w).
Definition set_s3 x w := World (w_prov w) (w_conn w) (w_events w) (w_relay w) (w_queue w) (w_files w) x (w_sent w) (w_jwks_uri w) (w_jwks_client w).
Definition set_sent x w := World (w_prov w) (w_conn w) (w_events w) (w_relay w) (w_queue w) (w_files w) (w_s3 w) x (w_jwks_uri w) (w_jwks_client w).
Definition set_caches u c w := World (w_prov w) (w_conn w) (w_events w) (w_relay w) (w_queue w) (w_files w) (w_s3 w) (w_sent w) u c.

(** The monad of [Effects] over this state. *)
Notation M := (SM world).

(** The database: not configured, refusing connections, or up. *)
Inductive db_state : Type := NoDb | DbDown | DbUp.

(** ** Settings and environment *)
Record env : Type := Env {
  e_db : db_state; e_now : Z;
  (** random draws: the file name, the new client id, the relay client and key *)
  e_epoch_ms : Z; e_rid : string; e_uuid4 : Z; e_relay_hex : string; e_relay_rnd : string;
  (** storage *)
  e_store_locally : bool; e_enroll_dir : string; e_disk_ok : bool;
  e_store_s3 : bool; e_s3_bucket : string; e_s3_prefix : string; e_s3_ok : bool;
  (** relay, queue *)
  e_pepper : string; e_targets_csv : string; e_relay_ttl : Z; e_queue : option config;
  (** access tokens *)
  e_verify_token : bool; e_jwt_available : bool; e_issuer : string; e_jwks_url : string; e_jwks_ttl : Z;
  e_audience : string; e_algorithms_csv : string; e_leeway : Z;
  (** telemetry *)
  e_telemetry_enabled : bool; e_require_token : bool; e_signing_key : string;
  e_upstream : string; e_upstream_auth_type : string; e_upstream_key : string;
  e_max_body : Z; e_telemetry_max_body : Z }.

(** What the program does not contain: the verification of a token with the keys
    published at an address, the documents of the identity provider, the answer
    of the collector, and which texts an [INET] column takes. *)
Inductive jwt_answer : Type := JwtPayload (v : json) | JwtInvalid | JwtBackend.
Inductive upstream_answer : Type := Answer (status : Z) (body content_type : string) | Unreachable.
Record outside : Type := Outside {
  o_jwt : string → string → list string → option string → Z → jwt_answer;
  o_fetch : string → option string;
  o_upstream : upstream_request → upstream_answer;
  o_inet : string → bool }.

Definition non_empty (s : string) : option string := if truthy_str s then Some s else None.

(** ** Access tokens *)
Module Auth.
Definition _extract_bearer_token (h : headers) : string :=
  let auth := strip (hget "authorization" h) in
  if starts_with "bearer " (lower auth) then strip (sdrop 7 auth) else "".

(** Every exception gives the empty dict. *)
Definition _parse_unverified_jwt_payload (token : string) : list (string * json) :=
  match split_on "." token with
  | _ :: p :: _ => match b64url_decode p ≫= Crypto.loads_bytes with Some (JObj d) => d | _ => [] end
  | _ => []
  end.

Definition _normalized_url (url : string) : string := rstrip_char "/" (strip url).
Definition _resolve_auth_issuer_url (e : env) : string := _normalized_url (e_issuer e).
Definition _resolve_auth_audience (e : env) : string := strip (e_audience e).
Definition _resolve_allowed_auth_algorithms (e : env) : list string :=
  match filter (λ a, truthy_str a = true) (strip <$> split_on "," (strip (e_algorithms_csv e))) with
  | [] => ["RS256"]
  | values => values
  end.

Section token.
Variables (o : outside) (e : env).

Definition cached (now : Z) (issuer : string) (cache : list (string * (Z * string))) : option string :=
  match dget issuer cache with Some (exp, v) => if now <? exp then Some v else None | None => None end.
Definition cache_ttl : Z := Z.max 60 (e_jwks_ttl e).

(** [jwks_uri] of the discovery document, empty on any failure *)
Definition discovered_jwks (issuer : string) : string :=
  match o_fetch o (issuer +:+ "/.well-known/openid-configuration") ≫= Crypto.loads_bytes with
  | Some (JObj d) => strip (str_or_empty (jget "jwks_uri" d))
  | _ => ""
  end.
Definition _resolve_jwks_uri (issuer : string) : M string :=
  let explicit_jwks_url := strip (e_jwks_url e) in
  if truthy_str explicit_jwks_url then mret explicit_jwks_url
  else
    cache ← gets w_jwks_uri;
    match cached (e_now e) issuer cache with
    | Some u => mret u
    | None =>
        let jwks_uri := str_or (discovered_jwks issuer) (issuer +:+ "/protocol/openid-connect/certs") in
        modify (λ w, set_caches (dset issuer (e_now e + cache_ttl, jwks_uri) (w_jwks_uri w)) (w_jwks_client w) w);;
        mret jwks_uri
    end.

(** A client is the address of its keys. *)
Definition _get_jwks_client (issuer : string) : M string :=
  if negb (e_jwt_available e) then raise (Http (HttpError 503 "JWT verification backend is unavailable."))
  else
    cache ← gets w_jwks_client;
    match cached (e_now e) issuer cache with
    | Some c => mret c
    | None =>
        jwks_uri ← _resolve_jwks_uri issuer;
        modify (λ w, set_caches (w_jwks_uri w) (dset issuer (e_now e + cache_ttl, jwks_uri) (w_jwks_client w)) w);;
        mret jwks_uri
    end.

Definition _verify_access_token (token : string) : M (list (string * json)) :=
  if negb (truthy_str token) then mret []
  else if negb (e_verify_token e) then mret (_parse_unverified_jwt_payload token)
  else if negb (e_jwt_available e) then raise (Http (HttpError 503 "JWT verification backend is unavailable."))
  else
    let issuer := _resolve_auth_issuer_url e in
    if negb (truthy_str issuer) then raise (Http (HttpError 503 "Auth issuer URL is not configured."))
    else
      client ← catch (_get_jwks_client issuer)
        (λ _, raise (Http (HttpError 503 "Access token verification service unavailable.")));
      match o_jwt o client token (_resolve_allowed_auth_algorithms e) (non_empty (_resolve_auth_audience e)) (Z.max 0 (e_leeway e)) with
      | JwtInvalid => raise (Http (HttpError 401 "Invalid PKCE access token."))
      | JwtBackend => raise (Http (HttpError 503 "Access token verification service unavailable."))
      | JwtPayload (JObj payload) =>
          let token_issuer := _normalized_url (str_or_empty (jget "iss" payload)) in
          if negb (truthy_str token_issuer) || negb (bool_decide (token_issuer = issuer))
          then raise (Http (HttpError 401 "Invalid PKCE access token issuer."))
          else mret payload
      | JwtPayload _ => raise (Http (HttpError 401 "Invalid PKCE access token."))
      end.

Definition claim_email (payload : list (string * json)) : string :=
  match jor (jget "email" payload) (jor (jget "preferred_username" payload) (jget "sub" payload)) with
  | JStr s => strip s
  | _ => ""
  end.
Definition _email_from_access_token (token : string) : M string :=
  payload ← _verify_access_token token; mret (claim_email payload).
End token.
End Auth.

(** ** Tables *)
Module Store.
Section tables.
Variables (o : outside) (e : env).

(** A text for a [UUID] column; the value is kept in its printed form. *)
Definition uuid_column (s : string) : option string := if pg_uuid s then UUID.print <$> UUID.parse s else None.
Definition active_prov (u : string) (r : prov_row) : bool :=
  bool_decide (pv_client_uuid r = u ∧ pv_status r ∈ ["PENDING"; "ENROLLED"]).
(** [ON CONFLICT (client_uuid) WHERE status IN (...) DO UPDATE] *)
Fixpoint upsert_prov (u email device_name key : string) (now : Z) (l : list prov_row) : list prov_row :=
  match l with
  | [] => [ProvRow email device_name u "ENROLLED" key "enroll" now]
  | r :: rest =>
      if active_prov u r then ProvRow email device_name u "ENROLLED" key (pv_comments r) now :: rest
      else r :: upsert_prov u email device_name key now rest
  end.

Definition _upsert_provisioning (email client_uuid device_name encryption_key : string) : M () :=
  match e_db e with
  | NoDb => mret ()
  | DbDown => raise (Exc "connection refused")
  | DbUp =>
      match uuid_column client_uuid with
      | None => raise (Exc "invalid input syntax for type uuid")
      | Some u => modify (λ w, set_prov (upsert_prov u email device_name encryption_key (e_now e) (w_prov w)) w)
      end
  end.

Definition inet_column (s : option string) : bool := match s with Some a => o_inet o a | None => true end.
Definition _log_device_connection (action email client_uuid fingerprint : string) (source_ip user_agent : option string) : M () :=
  if decide (action = "HEALTHZ") then mret ()
  else
    match e_db e with
    | NoDb => mret ()
    | DbDown => raise (Exc "connection refused")
    | DbUp =>
        match uuid_column client_uuid with
        | None => raise (Exc "invalid input syntax for type uuid")
        | Some u =>
            if inet_column source_ip
            then modify (λ w, set_conn (w_conn w ++ [ConnRow email u action fingerprint (e_now e) source_ip user_agent]) w)
            else raise (Exc "invalid input syntax for type inet")
        end
    end.

(** [queue.enqueue]: the id as text *)
Definition queue_put (cf : config) (topic : string) (payload : list (string * json)) (dedupe_key : option string) : M string :=
  match e_db e with
  | DbUp =>
      q ← gets w_queue;
      match Ops.enqueue cf (e_now e) q topic (JObj payload) dedupe_key 0 None with
      | Ok (id, _, q') => modify (set_queue q');; mret (py_str_int id)
      | Err _ => raise (Exc "queue enqueue requires topic and object payload")
      end
  | _ => raise (Exc "connection refused")
  end.

(** [_get_queue_manager]: none without a database *)
Definition _get_queue_manager : option config := match e_db e with NoDb => None | _ => e_queue e end.

Definition mint_relay (client_uuid email : string) : M credentials :=
  match e_db e with
  | DbDown => raise (Exc "connection refused")
  | _ =>
      s ← gets w_relay;
      match _mint_or_rotate_relay_credentials (e_now e) (e_pepper e) (e_targets_csv e) (e_relay_ttl e) (e_relay_hex e)
              (e_relay_rnd e) client_uuid email s with
      | Ok (c, s') => modify (set_relay s');; mret c
      | Err _ => raise (Exc "duplicate key value violates unique constraint")
      end
  end.
End tables.
End Store.

(** A response: status and JSON body; the relayed response of the collector. *)
Inductive response : Type :=
| JsonResponse (status : Z) (content : list (string * json))
| Raw (status : Z) (body content_type : string)
| NoContent.
Definition fail_json (status : Z) (msg : string) : response := JsonResponse status [("ok", JBool false); ("error", JStr msg)].
Record request : Type := Request { rq_method : string; rq_headers : headers; rq_body : string; rq_client_host : option string }.

(** ** Telemetry relay *)
Module Traces.
Section telemetry.
Variables (o : outside) (e : env).

Definition upstream_headers (content_type : string) (user_agent : option string) : headers :=
  let h := [("Content-Type", str_or content_type "application/json")] in
  let h := match user_agent with Some u => if truthy_str u then dset "User-Agent" u h else h | None => h end in
  let auth_type := strip (e_upstream_auth_type e) in
  let key := strip (e_upstream_key e) in
  if truthy_str auth_type && truthy_str key then dset "Authorization" (strip (auth_type +:+ " " +:+ key)) h else h.

Definition _forward_telemetry_to_upstream (body content_type : string) (user_agent : option string) : M response :=
  let endpoint := strip (e_upstream e) in
  if negb (truthy_str endpoint) then raise (Http (HttpError 503 "Telemetry upstream endpoint is not configured."))
  else
    let req := UpstreamRequest endpoint (upstream_headers content_type user_agent) body in
    modify (λ w, set_sent (w_sent w ++ [req]) w);;
    match o_upstream o req with
    | Answer status payload ct => mret (Raw status payload ct)
    | Unreachable => raise (Http (HttpError 502 "Telemetry upstream unreachable"))
    end.

Definition _enqueue_telemetry_payload (body content_type : string) (user_agent : option string) (client_uuid : string)
    (dedupe_key : option string) : M (bool * option string) :=
  match Store._get_queue_manager e with
  | None => mret (false, None)
  | Some cf =>
      job_id ← Store.queue_put e cf "telemetry.forward"
        [("body_b64", JStr (b64url_encode body)); ("content_type", JStr (str_or content_type "application/json"));
         ("user_agent", JStr (default "" user_agent)); ("client_uuid", JStr client_uuid); ("received_at", JInt (e_now e))]
        dedupe_key;
      mret (true, Some job_id)
  end.

(** *** Spans *)
(** [for x in v] *)
Definition py_iter (v : json) : result exn (list json) :=
  match v with
  | JArr l => Ok l
  | JObj d => Ok (JStr <$> dkeys d)
  | JStr s => Ok ((λ c, JStr (String c "")) <$> list_ascii_of_string s)
  | _ => Err tt
  end.
(** A key of a Python dict as [json.dumps] writes it. *)
Definition attr_key (v : json) : result exn string :=
  match v with
  | JStr s => Ok s
  | JInt z => Ok (py_str_int z)
  | JBool b => Ok (if b then "true" else "false")
  | JNull => Ok "null"
  | _ => Err tt
  end.
Fixpoint attrs_go (l : list json) (acc : list (string * json)) : result exn (list (string * json)) :=
  match l with
  | [] => Ok acc
  | JObj a :: r =>
      let* kv := match dget "key" a with Some k => attr_key k | None => Err tt end in
      let* v := dict_get (jget_or "value" a (JObj [])) "stringValue" (JStr "") in
      attrs_go r (dset kv v acc)
  | _ => Err tt
  end.
(** [{a["key"]: a.get("value", {}).get("stringValue", "") for a in v}] *)
Definition attributes (v : json) : result exn (list (string * json)) :=
  let* l := py_iter v in attrs_go l [].

(** A row before the database converts it. *)
Record span_row : Type := SpanRow {
  sr_email : json; sr_name : json; sr_ns : option Z; sr_attrs : list (string * json); sr_version : json }.
(** [datetime.fromtimestamp] takes the years 1 to 9999. *)
Definition timestamp_ok (ns : Z) : bool := (-62135596800 * 1000000000 <=? ns) && (ns <? 253402300800 * 1000000000).

Definition span_row_of (res_attrs : list (string * json)) (span : json) : result exn (option span_row) :=
  let* name := dict_get span "name" (JStr "") in
  if negb (truthy name) then Ok None
  else
    let* attrs_v := dict_get span "attributes" (JArr []) in
    let* span_attrs := attributes attrs_v in
    let email := jor (jget "user.email" span_attrs) (jor (jget "user.email" res_attrs) (JStr "")) in
    let version := jor (jget "extension.version" span_attrs) (jor (jget "service.version" res_attrs) (JStr "")) in
    let* start_v := dict_get span "startTimeUnixNano" (JInt 0) in
    let* start_ns := py_int_json start_v in
    if start_ns =? 0 then Ok (Some (SpanRow email name None span_attrs version))
    else if timestamp_ok start_ns then Ok (Some (SpanRow email name (Some start_ns) span_attrs version))
    else Err tt.

(** [flat_map] that stops at the first exception *)
Fixpoint concat_map {A B} (f : A → result exn (list B)) (l : list A) : result exn (list B) :=
  match l with
  | [] => Ok []
  | x :: r => let* a := f x in let* b := concat_map f r in Ok (a ++ b)
  end.
Definition scope_rows (res_attrs : list (string * json)) (ss : json) : result exn (list span_row) :=
  let* spans_v := dict_get ss "spans" (JArr []) in
  let* spans := py_iter spans_v in
  concat_map (λ span, let* r := span_row_of res_attrs span in Ok (match r with Some x => [x] | None => [] end)) spans.
Definition resource_rows (rs : json) : result exn (list span_row) :=
  let* resource := dict_get rs "resource" (JObj []) in
  let* attrs_v := dict_get resource "attributes" (JArr []) in
  let* res_attrs := attributes attrs_v in
  let* scopes_v := dict_get rs "scopeSpans" (JArr []) in
  let* scopes := py_iter scopes_v in
  concat_map (scope_rows res_attrs) scopes.
Definition span_rows (otlp : json) : result exn (list span_row) :=
  let* spans_v := dict_get otlp "resourceSpans" (JArr []) in
  let* spans := py_iter spans_v in
  concat_map resource_rows spans.

(** A value for a [VARCHAR(n)] column; an array or an object is refused. *)
Definition text_column (n : nat) (v : json) : option string :=
  match v with
  | JStr s => if Nat.leb (String.length s) n then Some s else None
  | JInt z => if Nat.leb (String.length (py_str_int z)) n then Some (py_str_int z) else None
  | JBool b => Some (if b then "true" else "false")
  | _ => None
  end.
Definition event_of (client_uuid : string) (r : span_row) : option event_row :=
  match text_column 255 (JStr client_uuid), text_column 255 (sr_email r), text_column 100 (sr_name r), text_column 50 (sr_version r) with
  | Some u, Some email, Some name, Some version => Some (EventRow u email name (sr_ns r) (sr_attrs r) version)
  | _, _, _, _ => None
  end.

(** The rows are inserted in one transaction; its failures are logged. *)
Definition _persist_telemetry_spans (body client_uuid : string) : M () :=
  match e_db e with
  | NoDb => mret ()
  | db =>
      match Crypto.loads_bytes body with
      | None => mret ()
      | Some otlp =>
          match span_rows otlp with
          | Err _ => raise (Exc "malformed telemetry payload")
          | Ok rows =>
              match db, mapM (event_of client_uuid) rows with
              | DbUp, Some events => modify (λ w, set_events (w_events w ++ events) w)
              | _, _ => mret ()
              end
          end
      end
  end.

(** *** The route *)
Definition header_or (a b : string) (h : headers) : string := strip (str_or (hget a h) (hget b h)).
Definition ZERO_UUID : string := "00000000-0000-0000-0000-000000000000".
(** The identity of the sender. *)
Definition telemetry_client (h : headers) : M string :=
  if negb (e_require_token e) then mret "telemetry-open"
  else
    let token := Auth._extract_bearer_token h in
    let verified := if truthy_str token then Some (Telemetry._verify_telemetry_token (e_now e) (e_signing_key e) token) else None in
    match verified with
    | Some (Err (HttpError 500 t)) => raise (Exc t)
    | _ =>
        let token_valid := match verified with Some (Ok _) => true | _ => false end in
        let cuid := match verified with Some (Ok payload) => strip (str_or_empty (jget "cuid" payload)) | _ => "" end in
        let header_uuid := header_or "x-client-uuid" "x-plugin-uuid" h in
        if truthy_str cuid then mret (_normalize_client_uuid (e_uuid4 e) cuid)
        else if truthy_str header_uuid then mret (_normalize_client_uuid (e_uuid4 e) header_uuid)
        else if token_valid then mret ZERO_UUID
        else raise (Http (HttpError 401 "Missing telemetry Bearer token or X-Client-UUID header."))
    end.

Definition idempotency_key (h : headers) : string := header_or "x-idempotency-key" "x-request-id" h.
Definition dedupe_of (kind client_uuid key : string) : option string :=
  if truthy_str key then Some (kind +:+ ":" +:+ client_uuid +:+ ":" +:+ key) else None.
Definition default_header (k d : string) (h : headers) : string := match dget k h with Some v => v | None => d end.

Definition telemetry_traces (rq : request) : M response :=
  let h := rq_headers rq in
  let body := rq_body rq in
  if decide (rq_method rq = "OPTIONS") then mret NoContent
  else if negb (e_telemetry_enabled e) then raise (Http (HttpError 503 "Telemetry relay is disabled."))
  else if negb (truthy_str body) then mret (fail_json 400 "Empty telemetry payload")
  else if e_telemetry_max_body e <? Z.of_nat (String.length body) then mret (fail_json 413 "Telemetry payload too large")
  else
    client_uuid ← telemetry_client h;
    catch (Store._log_device_connection o e "TELEMETRY_RELAY" "telemetry@local" client_uuid "none" (rq_client_host rq) (dget "user-agent" h))
      (λ _, mret ());;
    let content_type := default_header "content-type" "application/json" h in
    let user_agent := dget "user-agent" h in
    q ← _enqueue_telemetry_payload body content_type user_agent client_uuid (dedupe_of "telemetry" client_uuid (idempotency_key h));
    match q with
    | (true, job_id) =>
        mret (JsonResponse 202 [("ok", JBool true); ("queued", JBool true); ("jobId", match job_id with Some j => JStr j | None => JNull end)])
    | (false, _) =>
        r ← _forward_telemetry_to_upstream body content_type user_agent;
        catch (_persist_telemetry_spans body client_uuid) (λ _, mret ());;
        mret r
    end.
End telemetry.
End Traces.

(** ** Enrolment *)
Module Enroll.
Section enroll.
Variables (o : outside) (e : env).

(** [h or body.get(k) or ...] on JSON values *)
Definition _extract_identity (h : headers) (body_obj : list (string * json)) : json * json * json :=
  let hv k := JStr (hget k h) in
  (jor (hv "x-user-email") (jor (jget "email" body_obj) (JStr "unknown@local")),
   jor (hv "x-client-uuid") (jor (jget "client_uuid" body_obj) (jor (jget "plugin_uuid" body_obj) (JStr Traces.ZERO_UUID))),
   jor (hv "x-encryption-key-fingerprint") (jor (jget "encryption_key_fingerprint" body_obj) (JStr "unknown"))).

Definition _validate_enroll_payload (body_obj : list (string * json)) : list string :=
  filter (λ field, match jget field body_obj with JStr v => truthy_str (strip v) | _ => false end = false) ["device_name"; "plugin_uuid"].

Definition stored : Type := list (string * json).
Definition file_name : string := py_str_int (e_epoch_ms e) +:+ "-" +:+ e_rid e +:+ ".json".

Definition store_local (body : string) (s : stored) : M stored :=
  if negb (e_store_locally e) then mret s
  else if negb (e_disk_ok e) then raise (Exc "I/O error")
  else
    let path := OsPath.join (e_enroll_dir e) file_name in
    modify (λ w, set_files (dset path body (w_files w)) w);; mret (dset "local" (JStr path) s).
Definition store_s3 (body : string) (s : stored) : M stored :=
  if negb (e_store_s3 e) then mret s
  else if negb (truthy_str (e_s3_bucket e)) then raise (Exc "S3 bucket not configured (DM_S3_BUCKET).")
  else if negb (e_s3_ok e) then raise (Exc "S3 error")
  else
    let key := rstrip_char "/" (e_s3_prefix e) +:+ "/" +:+ file_name in
    modify (λ w, set_s3 (dset key body (w_s3 w)) w);; mret (dset "s3" (JStr ("s3://" +:+ e_s3_bucket e +:+ "/" +:+ key)) s).

Definition _persist_enroll_side_effects (body email client_uuid fingerprint device_name : string)
    (source_ip user_agent : option string) : M stored :=
  s ← store_local body [];
  s ← store_s3 body s;
  let encryption_key := if truthy_str fingerprint && negb (bool_decide (fingerprint = "unknown")) then fingerprint else "unknown" in
  catch (Store._upsert_provisioning e email client_uuid device_name encryption_key) (λ _, mret ());;
  catch (Store._log_device_connection o e "ENROLL" email client_uuid fingerprint source_ip user_agent) (λ _, mret ());;
  mret s.

(** The payload of an [enroll.process] job. *)
Definition enroll_payload (body email client_uuid fingerprint device_name : string) (source_ip user_agent : option string)
    : list (string * json) :=
  [("body_b64", JStr (b64url_encode body)); ("email", JStr email); ("client_uuid", JStr client_uuid);
   ("fingerprint", JStr fingerprint); ("device_name", JStr device_name); ("source_ip", JStr (default "" source_ip));
   ("user_agent", JStr (default "" user_agent)); ("received_at", JInt (e_now e))].
Definition _enqueue_enroll_payload (body email client_uuid fingerprint device_name : string)
    (source_ip user_agent dedupe_key : option string) : M (bool * option string) :=
  match Store._get_queue_manager e with
  | None => mret (false, None)
  | Some cf =>
      catch (job_id ← Store.queue_put e cf "enroll.process"
               (enroll_payload body email client_uuid fingerprint device_name source_ip user_agent) dedupe_key;
             mret (true, Some job_id))
        (λ _, mret (false, None))
  end.

Definition _enroll_persist_sync (body email client_uuid fingerprint device_name : string)
    (source_ip user_agent dedupe_key : option string) : M (credentials * stored * bool * option string) :=
  relay_data ← Store.mint_relay e client_uuid email;
  q ← _enqueue_enroll_payload body email client_uuid fingerprint device_name source_ip user_agent dedupe_key;
  match q with
  | (true, job_id) => mret (relay_data, [("queued", JBool true); ("jobId", JStr (default "" job_id))], true, job_id)
  | (false, job_id) =>
      s ← catch (_persist_enroll_side_effects body email client_uuid fingerprint device_name source_ip user_agent)
            (λ _, raise (Http (HttpError 500 "Cannot persist enroll payload")));
      mret (relay_data, s, false, job_id)
  end.

Definition credentials_json (c : credentials) : list (string * json) :=
  [("client_id", JStr (cr_client_id c)); ("client_key", JStr (cr_client_key c));
   ("allowed_targets", JArr (JStr <$> cr_targets c)); ("expires_at", JInt (cr_expires c)); ("ttl_seconds", JInt (cr_ttl c))].
Definition enrolled (c : credentials) (s : stored) (queued : bool) (job_id : option string) : response :=
  JsonResponse 201 [("ok", JBool true); ("stored", JObj s); ("queued", JBool queued);
    ("jobId", match job_id with Some j => JStr j | None => JNull end); ("relay", JObj (credentials_json c));
    ("relayClientId", JStr (cr_client_id c)); ("relayClientKey", JStr (cr_client_key c)); ("relayKeyExpiresAt", JInt (cr_expires c))].

(** The identity that the access token proves; a refusal gives none, a failure
    of the verification is raised. *)
Definition auth_email (h : headers) : M string :=
  catch (Auth._email_from_access_token o e (Auth._extract_bearer_token h))
    (λ x, match x with
          | Http err => if 500 <=? he_status err then raise x else mret ""
          | Exc _ => raise x
          end).

(** The handler once the identity is known. *)
Definition enroll_identified (rq : request) (body_obj : list (string * json)) (email : string) : M response :=
  let h := rq_headers rq in
  let device_name := strip (py_str (jget_or "device_name" body_obj (JStr ""))) in
  let plugin_uuid := strip (py_str (jget_or "plugin_uuid" body_obj (JStr ""))) in
  let '(_, client, fingerprint) := _extract_identity h body_obj in
  let client := if truthy_str plugin_uuid then plugin_uuid else str_or_empty client in
  let client_uuid := _normalize_client_uuid (e_uuid4 e) client in
  r ← _enroll_persist_sync (rq_body rq) email client_uuid (py_str fingerprint) device_name
        (rq_client_host rq) (dget "user-agent" h) (Traces.dedupe_of "enroll" client_uuid (Traces.idempotency_key h));
  let '(c, s, queued, job_id) := r in
  mret (enrolled c s queued job_id).

Definition enroll (rq : request) : M response :=
  let h := rq_headers rq in
  let body := rq_body rq in
  if decide (rq_method rq = "OPTIONS") then mret NoContent
  else if negb (truthy_str body) then mret (fail_json 400 "Empty body")
  else if e_max_body e <? Z.of_nat (String.length body) then mret (fail_json 413 "Body too large")
  else
    match Crypto.loads_bytes body with
    | None => mret (fail_json 400 "Body is not valid JSON")
    | Some (JObj body_obj) =>
        match _validate_enroll_payload body_obj with
        | _ :: _ as missing => mret (fail_json 400 ("Missing required fields: " +:+ sjoin ", " missing))
        | [] =>
            email ← auth_email h;
            if negb (truthy_str email) then mret (fail_json 401 "Missing or invalid PKCE access token.")
            else enroll_identified rq body_obj email
        end
    | Some _ => mret (fail_json 400 "Body must be a JSON object")
    end.
End enroll.
End Enroll.

(** ** Jobs *)
Module Jobs.
Section jobs.
Variables (o : outside) (e : env).

Definition _decode_job_body (encoded : string) : M string :=
  let value := strip encoded in
  if negb (truthy_str value) then mret ""
  else match b64url_decode value with Some b => mret b | None => raise (Exc "Incorrect padding") end.

(** [str(payload.get(k) or dflt)] *)
Definition payload_text (k dflt : string) (payload : list (string * json)) : string := py_str (jor (jget k payload) (JStr dflt)).
Definition stripped (k : string) (payload : list (string * json)) : option string := non_empty (strip (payload_text k "" payload)).

Definition _process_queue_job (job : QueueJob) : M () :=
  let payload := qj_payload job in
  if decide (qj_topic job = "telemetry.forward") then
    body ← _decode_job_body (payload_text "body_b64" "" payload);
    let content_type := payload_text "content_type" "application/json" payload in
    let client_uuid := strip (payload_text "client_uuid" "" payload) in
    response ← Traces._forward_telemetry_to_upstream o e body content_type (stripped "user_agent" payload);
    let status := match response with Raw s _ _ => if s =? 0 then 500 else s | _ => 500 end in
    if (status <? 200) || (300 <=? status) then raise (Exc ("telemetry upstream returned status=" +:+ py_str_int status))
    else Traces._persist_telemetry_spans e body client_uuid
  else if decide (qj_topic job = "enroll.process") then
    body ← _decode_job_body (payload_text "body_b64" "" payload);
    let email := strip (payload_text "email" "" payload) in
    let client_uuid := strip (payload_text "client_uuid" "" payload) in
    let fingerprint := str_or (strip (payload_text "fingerprint" "unknown" payload)) "unknown" in
    let device_name := strip (payload_text "device_name" "" payload) in
    if negb (truthy_str email) || negb (truthy_str client_uuid) || negb (truthy_str device_name)
    then raise (Exc "invalid enroll.process payload")
    else
      Enroll._persist_enroll_side_effects o e body email client_uuid fingerprint device_name
        (stripped "source_ip" payload) (stripped "user_agent" payload);;
      mret ()
  else raise (Exc ("unknown queue topic '" +:+ qj_topic job +:+ "'")).
End jobs.
End Jobs.

(** ** Facts *)
(** *** Computations that leave the queue alone *)
Class Framed {A} (m : M A) : Prop :=
  framed q w : m (set_queue q w) = ((m w).1, set_queue q (m w).2).
Definition keeps_queue (f : world → world) : Prop := ∀ q w, f (set_queue q w) = set_queue q (f w).

#[export] Instance framed_ret {A} (a : A) : Framed (mret a : M A).
Proof. done. Qed.
#[export] Instance framed_raise {A} x : Framed (raise x : M A).
Proof. done. Qed.
#[export] Instance framed_bind {A B} (m : M A) (f : A → M B) : Framed m → (∀ a, Framed (f a)) → Framed (mbind f m).
Proof.
  intros Hm Hf q w. unfold mbind, SM_bind. rewrite Hm. destruct (m w) as [[a|x] w']; [|done]. simpl. by rewrite (Hf a q w').
Qed.
#[export] Instance framed_catch {A} (m : M A) h : Framed m → (∀ x, Framed (h x)) → Framed (catch m h).
Proof.
  intros Hm Hh q w. unfold catch. rewrite Hm. destruct (m w) as [[a|x] w']; [done|]. simpl. by rewrite (Hh x q w').
Qed.
Lemma framed_modify f : keeps_queue f → Framed (modify f).
Proof. intros Hf q w. unfold modify. by rewrite Hf. Qed.
#[export] Hint Extern 1 (Framed (modify _)) => apply framed_modify; intros ??; reflexivity : typeclass_instances.
#[export] Instance framed_if {A} (b : bool) (m n : M A) : Framed m → Framed n → Framed (if b then m else n).
Proof. by destruct b. Qed.
#[export] Instance framed_decide {A} (P : Prop) `{!Decision P} (m n : M A) : Framed m → Framed n → Framed (if decide P then m else n).
Proof. by case_decide. Qed.

#[export] Instance framed_upsert e email u d k : Framed (Store._upsert_provisioning e email u d k).
Proof. unfold Store._upsert_provisioning. repeat case_match; apply _. Qed.
#[export] Instance framed_log o e a em u f ip ua : Framed (Store._log_device_connection o e a em u f ip ua).
Proof. unfold Store._log_device_connection. repeat case_match; apply _. Qed.
#[export] Instance framed_persist o e b em u f d ip ua : Framed (Enroll._persist_enroll_side_effects o e b em u f d ip ua).
Proof. unfold Enroll._persist_enroll_side_effects, Enroll.store_local, Enroll.store_s3. apply _. Qed.
#[export] Instance framed_forward o e b c u : Framed (Traces._forward_telemetry_to_upstream o e b c u).
Proof.
  unfold Traces._forward_telemetry_to_upstream. apply framed_if; [apply _|].
  apply framed_bind; [apply _|]. intros _. case_match; apply _.
Qed.
#[export] Instance framed_spans e b u : Framed (Traces._persist_telemetry_spans e b u).
Proof. unfold Traces._persist_telemetry_spans. repeat case_match; apply _. Qed.
#[export] Instance framed_decode s : Framed (Jobs._decode_job_body s).
Proof. unfold Jobs._decode_job_body. repeat case_match; apply _. Qed.
#[export] Instance framed_job o e j : Framed (Jobs._process_queue_job o e j).
Proof. unfold Jobs._process_queue_job. cbv zeta. repeat case_decide; apply _. Qed.

Lemma framed_gets {A} (f : world → A) : (∀ q w, f (set_queue q w) = f w) → Framed (gets f).
Proof. intros Hf q w. unfold gets. by rewrite Hf. Qed.
#[export] Hint Extern 1 (Framed (gets _)) => apply framed_gets; intros ??; reflexivity : typeclass_instances.
#[export] Instance framed_jwks_uri o e i : Framed (Auth._resolve_jwks_uri o e i).
Proof. unfold Auth._resolve_jwks_uri. cbv zeta. apply framed_if; [apply _|]. apply framed_bind; [apply _|]. intros c. case_match; apply _. Qed.
#[export] Instance framed_jwks_client o e i : Framed (Auth._get_jwks_client o e i).
Proof. unfold Auth._get_jwks_client. apply framed_if; [apply _|]. apply framed_bind; [apply _|]. intros c. case_match; apply _. Qed.
#[export] Instance framed_verify o e t : Framed (Auth._verify_access_token o e t).
Proof.
  unfold Auth._verify_access_token. cbv zeta. repeat (apply framed_if; [apply _|]). apply framed_bind; [apply _|]. intros c.
  case_match; [case_match; apply _|apply _|apply _].
Qed.
#[export] Instance framed_auth_email o e h : Framed (Enroll.auth_email o e h).
Proof.
  unfold Enroll.auth_email, Auth._email_from_access_token. apply framed_catch; [apply _|]. intros x. case_match; apply _.
Qed.
#[export] Instance framed_mint e u m : Framed (Store.mint_relay e u m).
Proof.
  unfold Store.mint_relay. case_match; try apply _; (apply framed_bind; [apply _|]; intros s; repeat case_match; apply _).
Qed.

(** A framed computation keeps the queue. *)
Lemma framed_queue {A} (m : M A) `{!Framed m} w : w_queue (m w).2 = w_queue w.
Proof.
  pose proof (framed (m := m) (w_queue w) w) as H. replace (set_queue (w_queue w) w) with w in H by (by destruct w).
  destruct (m w) as [r w']. injection H as H. by rewrite H.
Qed.

(** *** The deferred job does what the direct path does *)
(** A text that the job's stripping leaves as it is. *)
Definition clean (s : string) : Prop := strip s = s ∧ s ≠ "".
Definition clean_opt (x : option string) : Prop := match x with Some s => clean s | None => True end.

Lemma text_of_str (s d : string) : py_str (jor (JStr s) (JStr d)) = str_or s d.
Proof. unfold jor, str_or. simpl. by destruct (truthy_str s). Qed.
Lemma str_or_empty_r s : str_or s "" = s.
Proof. by destruct s. Qed.
Lemma non_empty_clean x : clean_opt x → non_empty (strip (default "" x)) = x.
Proof. destruct x as [s|]; [|done]. intros [Hs Hn]. simpl. rewrite Hs. unfold non_empty. by rewrite (proj2 (truthy_str_true s) Hn). Qed.
Lemma decode_encoded b w : Jobs._decode_job_body (b64url_encode b) w = (Ok b, w).
Proof.
  unfold Jobs._decode_job_body. rewrite b64_ok_no_space by apply b64url_encode_ok.
  destruct (truthy_str (b64url_encode b)) eqn:E; simpl.
  - by rewrite b64url_roundtrip.
  - destruct b as [|c b]; [done|]. apply truthy_str_false in E. by destruct (enc_np_nonempty (String c b)).
Qed.

Lemma process_enroll o e e' id att mx dk cr na body email u fp dn ip ua w :
  clean email → clean u → clean fp → clean dn → clean_opt ip → clean_opt ua →
  Jobs._process_queue_job o e
    (MkQueueJob id "enroll.process" (Enroll.enroll_payload e' body email u fp dn ip ua) att mx dk cr na) w =
  (Enroll._persist_enroll_side_effects o e body email u fp dn ip ua;; mret ()) w.
Proof.
  intros [He He'] [Hu Hu'] [Hf Hf'] [Hd Hd'] Hip Hua. unfold Jobs._process_queue_job. cbn [qj_topic qj_payload].
  rewrite decide_False, decide_True by done.
  unfold Jobs.stripped, Jobs.payload_text. set (p := Enroll.enroll_payload _ _ _ _ _ _ _ _).
  change (jget "body_b64" p) with (JStr (b64url_encode body)). change (jget "email" p) with (JStr email).
  change (jget "client_uuid" p) with (JStr u). change (jget "fingerprint" p) with (JStr fp).
  change (jget "device_name" p) with (JStr dn). change (jget "source_ip" p) with (JStr (default "" ip)).
  change (jget "user_agent" p) with (JStr (default "" ua)). clear p.
  rewrite !text_of_str, !str_or_empty_r. rewrite (non_empty_clean ip Hip), (non_empty_clean ua Hua).
  unfold str_or. rewrite (proj2 (truthy_str_true fp) Hf'), Hf, (proj2 (truthy_str_true fp) Hf'), He, Hu, Hd.
  rewrite (proj2 (truthy_str_true email) He'), (proj2 (truthy_str_true u) Hu'), (proj2 (truthy_str_true dn) Hd').
  unfold mbind at 1, SM_bind at 1. by rewrite decode_encoded.
Qed.

(** The same settings, with another queue or none. *)
Definition with_queue (q : option config) (e : env) : env :=
  Env (e_db e) (e_now e) (e_epoch_ms e) (e_rid e) (e_uuid4 e) (e_relay_hex e) (e_relay_rnd e) (e_store_locally e)
    (e_enroll_dir e) (e_disk_ok e) (e_store_s3 e) (e_s3_bucket e) (e_s3_prefix e) (e_s3_ok e) (e_pepper e) (e_targets_csv e)
    (e_relay_ttl e) q (e_verify_token e) (e_jwt_available e) (e_issuer e) (e_jwks_url e) (e_jwks_ttl e) (e_audience e)
    (e_algorithms_csv e) (e_leeway e) (e_telemetry_enabled e) (e_require_token e) (e_signing_key e) (e_upstream e)
    (e_upstream_auth_type e) (e_upstream_key e) (e_max_body e) (e_telemetry_max_body e).

(** The fingerprint of a request, and a key no job of the queue carries. *)
Definition request_fingerprint (rq : request) : string :=
  match Crypto.loads_bytes (rq_body rq) with
  | Some (JObj d) => py_str (Enroll._extract_identity (rq_headers rq) d).2
  | _ => ""
  end.
Definition new_key (kind : string) (rq : request) (q : queue) : Prop :=
  ∀ j u k, j ∈ q_jobs q → Traces.dedupe_of kind u (Traces.idempotency_key (rq_headers rq)) = Some k → j_dedupe j ≠ Some k.

Lemma find_same_dedupe topic dk jobs :
  (∀ j k, j ∈ jobs → dk = Some k → j_dedupe j ≠ Some k) → find (Ops.same_dedupe topic dk) jobs = None.
Proof.
  intros H. induction jobs as [|j jobs IH]; [done|]. simpl.
  replace (Ops.same_dedupe topic dk j) with false; [apply IH; intros; apply H; [by right|done]|].
  unfold Ops.same_dedupe. destruct dk as [k|]; [|done]. symmetry. apply bool_decide_eq_false. intros [_ Hk].
  by apply (H j k); [left|..].
Qed.

(** What putting a job with a new key leaves. *)
Lemma queue_put_new e cf topic payload dk w :
  e_db e = DbUp → topic ≠ "" → find (Ops.same_dedupe topic dk) (q_jobs (w_queue w)) = None →
  let r := Job (q_next (w_queue w)) topic (JObj payload) dk Pending 0 (Z.max 1 (default_max_attempts cf)) (e_now e + 0) (e_now e)
             None None None None in
  Store.queue_put e cf topic payload dk w =
  (Ok (py_str_int (j_id r)), set_queue (Queue (q_jobs (w_queue w) ++ [r]) (q_dead (w_queue w)) (q_next (w_queue w) + 1)) w).
Proof.
  intros Hdb Ht Hf. cbv zeta. unfold Store.queue_put. rewrite Hdb. unfold mbind, SM_bind, gets, Ops.enqueue.
  rewrite (proj2 (truthy_str_true topic) Ht), Hf. done.
Qed.

Lemma to_queue_job_claimed cf worker t id topic payload dk max_ na now :
  1 ≤ max_ → ∃ dk', Ops.to_queue_job cf (Ops.claim_row worker t (Job id topic (JObj payload) dk Pending 0 max_ na now None None None None))
    = MkQueueJob id topic payload 1 max_ dk' now na.
Proof.
  intros Hm. unfold Ops.to_queue_job, Ops.claim_row. simpl. destruct (Z.eqb_spec max_ 0); [lia|]. by eexists.
Qed.

(** The arguments that the handler computes are clean. *)
Lemma clean_strip s : strip s ≠ "" → clean (strip s).
Proof. intros H. split; [apply strip_idem|done]. Qed.
Lemma clean_uuid fresh raw : clean (_normalize_client_uuid fresh raw).
Proof.
  unfold _normalize_client_uuid. repeat case_match; split; apply strip_print || apply print_nonempty.
Qed.

(** What a successful enrolment has checked, and what it then does. *)
Lemma enroll_success o e rq w c w1 :
  Enroll.enroll o e rq w = (Ok (JsonResponse 201 c), w1) →
  rq_method rq ≠ "OPTIONS" ∧ rq_body rq ≠ "" ∧ Z.of_nat (String.length (rq_body rq)) ≤ e_max_body e ∧
  ∃ d email wa, Crypto.loads_bytes (rq_body rq) = Some (JObj d) ∧ Enroll._validate_enroll_payload d = [] ∧
    Enroll.auth_email o e (rq_headers rq) w = (Ok email, wa) ∧ email ≠ "" ∧
    Enroll.enroll_identified o e rq d email wa = (Ok (JsonResponse 201 c), w1).
Proof.
  unfold Enroll.enroll. case_decide as Hm; [done|]. destruct (truthy_str (rq_body rq)) eqn:Hb; [|done]. cbn [negb].
  destruct (Z.ltb_spec (e_max_body e) (Z.of_nat (String.length (rq_body rq)))) as [Hl|Hl]; [done|].
  destruct (Crypto.loads_bytes (rq_body rq)) as [[]|]; try done. destruct (Enroll._validate_enroll_payload d) eqn:Hv; [|done].
  unfold mbind, SM_bind. destruct (Enroll.auth_email o e (rq_headers rq) w) as [[email|x] wa] eqn:Ea; [|done].
  destruct (truthy_str email) eqn:Et; [|done]. intros H'. apply truthy_str_true in Et, Hb. split_and!; try done.
  by exists d, email, wa.
Qed.
Lemma enroll_run o e rq w d email wa r :
  rq_method rq ≠ "OPTIONS" → rq_body rq ≠ "" → Z.of_nat (String.length (rq_body rq)) ≤ e_max_body e →
  Crypto.loads_bytes (rq_body rq) = Some (JObj d) → Enroll._validate_enroll_payload d = [] →
  Enroll.auth_email o e (rq_headers rq) w = (Ok email, wa) → email ≠ "" →
  Enroll.enroll_identified o e rq d email wa = r → Enroll.enroll o e rq w = r.
Proof.
  intros Hm Hb Hl Hj Hv Ha He <-. unfold Enroll.enroll. rewrite decide_False by done.
  apply truthy_str_true in Hb, He. rewrite Hb. simpl. destruct (Z.ltb_spec (e_max_body e) (Z.of_nat (String.length (rq_body rq)))); [lia|].
  rewrite Hj, Hv. unfold mbind, SM_bind. by rewrite Ha, He.
Qed.

Lemma validate_device_name d : Enroll._validate_enroll_payload d = [] →
  strip (py_str (jget_or "device_name" d (JStr ""))) ≠ "" ∧ strip (py_str (jget_or "plugin_uuid" d (JStr ""))) ≠ "".
Proof.
  unfold Enroll._validate_enroll_payload, jget, jget_or. rewrite !filter_cons. intros H.
  repeat case_decide; try done. split; repeat case_match; try done;
    subst; apply truthy_str_true; by apply not_false_iff_true.
Qed.

Lemma auth_email_inv o e h w email wa :
  Enroll.auth_email o e h w = (Ok email, wa) → email ≠ "" →
  clean email ∧ ∃ payload, Auth._verify_access_token o e (Auth._extract_bearer_token h) w = (Ok payload, wa) ∧
    email = Auth.claim_email payload.
Proof.
  unfold Enroll.auth_email, catch, Auth._email_from_access_token, mbind, SM_bind.
  destruct (Auth._verify_access_token _ _ _ w) as [[payload|x] w'].
  - intros [= <- <-] He. split; [|by exists payload]. unfold Auth.claim_email in *. case_match; try done. by apply clean_strip.
  - destruct x; [|done]. case_match; [done|]. by intros [= <- <-].
Qed.


(** *** Refusals *)
(** Everything but the caches of the keys. *)
Definition but_caches (w : world) : world := set_caches [] [] w.
#[export] Instance auth_email_keeps o e h : Keeps but_caches (Enroll.auth_email o e h).
Proof.
  assert (Hu : ∀ i, Keeps but_caches (Auth._resolve_jwks_uri o e i)).
  { intros i. unfold Auth._resolve_jwks_uri. cbv zeta. apply keeps_if; [apply _|]. apply keeps_bind; [apply _|]. intros c. case_match; apply _. }
  assert (Hc : ∀ i, Keeps but_caches (Auth._get_jwks_client o e i)).
  { intros i. unfold Auth._get_jwks_client. apply keeps_if; [apply _|]. apply keeps_bind; [apply _|]. intros c. case_match; apply _. }
  assert (Hv : ∀ t, Keeps but_caches (Auth._verify_access_token o e t)).
  { intros t. unfold Auth._verify_access_token. cbv zeta. repeat (apply keeps_if; [apply _|]). apply keeps_bind; [apply _|]. intros c.
    case_match; [case_match; apply _|apply _|apply _]. }
  unfold Enroll.auth_email, Auth._email_from_access_token. apply keeps_catch; [apply _|]. intros x. case_match; apply _.
Qed.

#[export] Instance queue_put_keeps e cf t p dk : Keeps w_relay (Store.queue_put e cf t p dk).
Proof. unfold Store.queue_put. case_match; try apply _. apply keeps_bind; [apply _|]. intros q. repeat case_match; apply _. Qed.
#[export] Instance persist_keeps o e b em u f d ip ua : Keeps w_relay (Enroll._persist_enroll_side_effects o e b em u f d ip ua).
Proof.
  assert (∀ a em u f ip ua, Keeps w_relay (Store._log_device_connection o e a em u f ip ua))
    by (intros; unfold Store._log_device_connection; repeat case_match; apply _).
  assert (∀ em u d k, Keeps w_relay (Store._upsert_provisioning e em u d k))
    by (intros; unfold Store._upsert_provisioning; repeat case_match; apply _).
  unfold Enroll._persist_enroll_side_effects, Enroll.store_local, Enroll.store_s3. apply _.
Qed.


(** *** What a successful enrolment proves *)
Lemma verify_token_inv o e token w payload wa :
  e_verify_token e = true → token ≠ "" → Auth._verify_access_token o e token w = (Ok payload, wa) →
  ∃ uri, o_jwt o uri token (Auth._resolve_allowed_auth_algorithms e) (non_empty (Auth._resolve_auth_audience e)) (Z.max 0 (e_leeway e))
      = JwtPayload (JObj payload) ∧
    Auth._normalized_url (str_or_empty (jget "iss" payload)) = Auth._resolve_auth_issuer_url e ∧ Auth._resolve_auth_issuer_url e ≠ "".
Proof.
  intros Hv Ht%truthy_str_true. unfold Auth._verify_access_token. rewrite Hv, Ht. cbn [negb].
  destruct (e_jwt_available e); [|done]. cbn [negb]. destruct (truthy_str (Auth._resolve_auth_issuer_url e)) eqn:Ei; [|done]. cbn [negb].
  unfold mbind, SM_bind. destruct (catch _ _ w) as [[uri|x] w']; [|done].
  destruct (o_jwt o uri token _ _ _) as [v| |] eqn:Ej; try done. destruct v as [| | | | |p]; try done.
  case_match eqn:Eq; [done|]. intros [= <- <-]. exists uri. apply orb_false_iff in Eq as [_ Eq]. bool_hyps.
  apply truthy_str_true in Ei. done.
Qed.
Lemma empty_token_no_identity o e w payload wa :
  Auth._verify_access_token o e "" w = (Ok payload, wa) → Auth.claim_email payload = "".
Proof. by intros [= <- <-]. Qed.

(** The credentials that a response carries. *)
Definition response_credentials (c : list (string * json)) (cr : credentials) : Prop :=
  jget "relayClientId" c = JStr (cr_client_id cr) ∧ jget "relayClientKey" c = JStr (cr_client_key cr) ∧
  jget "relayKeyExpiresAt" c = JInt (cr_expires cr).

Lemma sync_relay o e b em u f d ip ua dk w cr s q jid w1 :
  Enroll._enroll_persist_sync o e b em u f d ip ua dk w = (Ok (cr, s, q, jid), w1) →
  ∃ wb, Store.mint_relay e u em w = (Ok cr, wb) ∧ w_relay w1 = w_relay wb.
Proof.
  unfold Enroll._enroll_persist_sync. unfold mbind at 1, SM_bind at 1.
  destruct (Store.mint_relay e u em w) as [[cr'|x] wb]; [|done]. intros H. exists wb.
  match type of H with (?m wb) = _ => assert (Hk : Keeps w_relay m) end.
  { apply keeps_bind; [unfold Enroll._enqueue_enroll_payload; case_match; apply _|].
    intros [[] ?]; apply _. }
  pose proof (Hk wb) as Hw. rewrite H in Hw. split; [|done]. f_equal. f_equal.
  revert H. unfold mbind, SM_bind. destruct (Enroll._enqueue_enroll_payload _ _ _ _ _ _ _ _ _ wb) as [[[[] j']|x] wc]; try done.
  - by intros [= <- _ _ _ _].
  - destruct (catch _ _ wc) as [[st|y] wd]; [|done]. by intros [= <- _ _ _ _].
Qed.

(** An enrolment succeeds only for a bearer token that verifies, for the
    configured audience and algorithms, and whose issuer is the configured one;
    the credentials returned are accepted from then on until they expire, and
    identify the client by the normal form of the identifier it sent and by the
    e-mail of the token, never by what the request claims. *)
Theorem enroll_sound o e rq w c w1 d :
  e_verify_token e = true → e_relay_rnd e ≠ "" → sforall (λ x, negb (py_isspace x)) (e_relay_hex e) = true →
  lookup_row (w_relay w) ("rc_" +:+ e_relay_hex e) = None →
  Crypto.loads_bytes (rq_body rq) = Some (JObj d) →
  Enroll.enroll o e rq w = (Ok (JsonResponse 201 c), w1) →
  ∃ uri payload cr,
    o_jwt o uri (Auth._extract_bearer_token (rq_headers rq)) (Auth._resolve_allowed_auth_algorithms e)
      (non_empty (Auth._resolve_auth_audience e)) (Z.max 0 (e_leeway e)) = JwtPayload (JObj payload) ∧
    Auth._normalized_url (str_or_empty (jget "iss" payload)) = Auth._resolve_auth_issuer_url e ∧
    Auth._resolve_auth_issuer_url e ≠ "" ∧ Auth.claim_email payload ≠ "" ∧ response_credentials c cr ∧
    ∀ now' t, now' < cr_expires cr → t ∈ ["config"; "telemetry"; "llm"] → ∃ targets,
      _verify_relay_credentials now' (e_pepper e) (w_relay w1) (cr_client_id cr) (cr_client_key cr) t =
      Ok (RelayInfo (_normalize_client_uuid (e_uuid4 e) (strip (py_str (jget_or "plugin_uuid" d (JStr "")))))
            (Auth.claim_email payload) targets (cr_expires cr)).
Proof.
  intros Hv Hrnd Hhex Hnew Hd (_ & _ & _ & d' & email & wa & Hj & Hval & Ha & He & Hi)%enroll_success.
  rewrite Hd in Hj. injection Hj as <-. destruct (validate_device_name d Hval) as [_ Hpu].
  assert (Hrel : w_relay wa = w_relay w).
  { pose proof (keeps (f := but_caches) (m := Enroll.auth_email o e (rq_headers rq)) w) as H. rewrite Ha in H.
    exact (f_equal w_relay H). }
  destruct (auth_email_inv _ _ _ _ _ _ Ha He) as [_ (payload & Hp & ->)].
  assert (Ht : Auth._extract_bearer_token (rq_headers rq) ≠ "").
  { intros Ht. rewrite Ht in Hp. by apply empty_token_no_identity in Hp. }
  destruct (verify_token_inv _ _ _ _ _ _ Hv Ht Hp) as (uri & Hjwt & Hiss & Hiss').
  unfold Enroll.enroll_identified in Hi. cbv zeta in Hi. destruct (Enroll._extract_identity _ _) as [[em client] fp].
  rewrite (proj2 (truthy_str_true _) Hpu) in Hi. unfold mbind, SM_bind in Hi.
  destruct (Enroll._enroll_persist_sync _ _ _ _ _ _ _ _ _ _ _) as [[[[[cr s] q] jid]|] w2] eqn:Hs; [|done].
  injection Hi as <- <-. apply sync_relay in Hs as (wb & Hm & Hw). exists uri, payload, cr.
  do 4 (split; [done|]). split; [done|]. intros now' t Hn Htt.
  unfold Store.mint_relay, mbind, SM_bind, gets in Hm. 
  destruct (e_db e); [|done|]; (destruct (_mint_or_rotate_relay_credentials _ _ _ _ _ _ _ _ _) as [[cr' s']|] eqn:E; [|done]);
    injection Hm as -> <-; rewrite Hw; (eapply minted_verifies; [exact Hhex|exact Hrnd| |exact E|done|done]); by rewrite Hrel.
Qed.

(** *** Telemetry *)
Definition sent_request (e : env) (rq : request) : upstream_request :=
  UpstreamRequest (strip (e_upstream e))
    (Traces.upstream_headers e (Traces.default_header "content-type" "application/json" (rq_headers rq)) (dget "user-agent" (rq_headers rq)))
    (rq_body rq).
Definition ok_status (s : Z) : bool := (200 <=? s) && (s <? 300).

Lemma upstream_headers_str_or e ct ua : Traces.upstream_headers e (str_or ct "application/json") ua = Traces.upstream_headers e ct ua.
Proof. by destruct ct. Qed.

Lemma process_telemetry o e id att mx dk cr na body ct ua u t w :
  clean u → clean_opt ua → strip (e_upstream e) ≠ "" →
  let job := MkQueueJob id "telemetry.forward"
    [("body_b64", JStr (b64url_encode body)); ("content_type", JStr (str_or ct "application/json"));
     ("user_agent", JStr (default "" ua)); ("client_uuid", JStr u); ("received_at", JInt t)] att mx dk cr na in
  let req := UpstreamRequest (strip (e_upstream e)) (Traces.upstream_headers e ct ua) body in
  let w' := set_sent (w_sent w ++ [req]) w in
  match o_upstream o req with
  | Answer s _ _ =>
      if ok_status s then Jobs._process_queue_job o e job w = Traces._persist_telemetry_spans e body u w'
      else ∃ x, Jobs._process_queue_job o e job w = (Err x, w')
  | Unreachable => ∃ x, Jobs._process_queue_job o e job w = (Err x, w')
  end.
Proof.
  intros [Hu Hu'] Hua Hup. cbv zeta. set (req := UpstreamRequest _ _ _). set (job := MkQueueJob _ _ _ _ _ _ _ _).
  assert (Hj : Jobs._process_queue_job o e job w =
    (response ← Traces._forward_telemetry_to_upstream o e body ct ua;
     let status := match response with Raw s _ _ => if s =? 0 then 500 else s | _ => 500 end in
     if (status <? 200) || (300 <=? status) then raise (Exc ("telemetry upstream returned status=" +:+ py_str_int status))
     else Traces._persist_telemetry_spans e body u) w).
  { unfold Jobs._process_queue_job. rewrite decide_True by done. unfold Jobs.stripped, Jobs.payload_text. subst job. cbn [qj_payload]. set (p := _ :: _).
    change (jget "body_b64" p) with (JStr (b64url_encode body)). change (jget "content_type" p) with (JStr (str_or ct "application/json")).
    change (jget "client_uuid" p) with (JStr u). change (jget "user_agent" p) with (JStr (default "" ua)). clear p.
    rewrite !text_of_str, !str_or_empty_r, (non_empty_clean ua Hua), Hu. unfold mbind at 1, SM_bind at 1. rewrite decode_encoded.
    unfold Traces._forward_telemetry_to_upstream. by rewrite !upstream_headers_str_or. }
  rewrite Hj. unfold Traces._forward_telemetry_to_upstream. rewrite (proj2 (truthy_str_true _) Hup). fold req.
  unfold mbind, SM_bind, modify. destruct (o_upstream o req) as [s b c|]; simpl; [|by eexists].
  unfold ok_status. destruct (Z.eqb_spec s 0) as [->|Hs]; [by eexists|].
  destruct (Z.ltb_spec s 200), (Z.leb_spec 200 s), (Z.ltb_spec s 300), (Z.leb_spec 300 s); try lia; simpl; try done; by eexists.
Qed.

Lemma telemetry_client_clean e h w u w' : Traces.telemetry_client e h w = (Ok u, w') → clean u ∧ w' = w.
Proof.
  unfold Traces.telemetry_client. repeat case_match; try done; intros [= <- <-]; split; try done; apply clean_uuid.
Qed.

#[export] Instance spans_keep_sent e b u : Keeps w_sent (Traces._persist_telemetry_spans e b u).
Proof. unfold Traces._persist_telemetry_spans. repeat case_match; apply _. Qed.


(** *** A concrete run *)
Definition cf_ex : config := PostgresQueue 60 8 2 300 1000 true.
Definition env_ex : env :=
  Env DbUp 1000 1000000 "f00d" 0 "ab12" "xyz" true "/data/enroll" true false "" "enroll/" true "pepper" "" 3600 (Some cf_ex)
    true true "https://kc/realm/" "" 600 "dm" "RS256" 30 true true "" "http://otel/v1/traces" "Bearer" "up-key" 1048576 2097152.
Definition outside_ex : outside :=
  Outside (λ uri token _ _ _,
             if bool_decide (uri = "https://kc/realm/protocol/openid-connect/certs" ∧ token = "good")
             then JwtPayload (JObj [("iss", JStr "https://kc/realm"); ("email", JStr "a@b.fr")]) else JwtInvalid)
    (λ _, None) (λ _, Answer 200 "" "application/json") (λ _, true).
Definition world_ex : world := World [] [] [] (Db []) (Queue [] [] 1) [] [] [] [] [].
Definition enroll_body_ex : string :=
  dumps (JObj [("device_name", JStr " pc1 "); ("plugin_uuid", JStr "poste-42"); ("email", JStr "boss@b.fr"); ("encryption_key_fingerprint", JStr "aa:bb")]).
Definition enroll_rq_ex : request :=
  Request "POST" [("authorization", "Bearer good"); ("user-agent", "plugin/1")] enroll_body_ex (Some "10.0.0.1").

Definition response_of (x : result exc response * world) : list (string * json) := match x.1 with Ok (JsonResponse _ c) => c | _ => [] end.
Lemma enroll_ex_runs q : q = Some cf_ex ∨ q = None → let x := Enroll.enroll outside_ex (with_queue q env_ex) enroll_rq_ex world_ex in
  x = (Ok (JsonResponse 201 (response_of x)), x.2).
Proof. intros [->| ->]; vm_compute; reflexivity. Qed.


Lemma enroll_sound_witness : ∃ cr,
  response_credentials (response_of (Enroll.enroll outside_ex env_ex enroll_rq_ex world_ex)) cr ∧
  ∃ targets, _verify_relay_credentials 2000 "pepper" (w_relay (Enroll.enroll outside_ex env_ex enroll_rq_ex world_ex).2)
    (cr_client_id cr) (cr_client_key cr) "llm"
  = Ok (RelayInfo (_normalize_client_uuid 0 "poste-42") "a@b.fr" targets (cr_expires cr)).
Proof.
  destruct (enroll_sound outside_ex env_ex enroll_rq_ex world_ex
    (response_of (Enroll.enroll outside_ex env_ex enroll_rq_ex world_ex)) (Enroll.enroll outside_ex env_ex enroll_rq_ex world_ex).2
    [("device_name", JStr " pc1 "); ("plugin_uuid", JStr "poste-42"); ("email", JStr "boss@b.fr"); ("encryption_key_fingerprint", JStr "aa:bb")])
    as (uri & payload & cr & Hj & _ & _ & _ & Hc & Hok).
  - reflexivity.
  - discriminate.
  - reflexivity.
  - reflexivity.
  - vm_compute. reflexivity.
  - exact (enroll_ex_runs (Some cf_ex) (or_introl eq_refl)).
  - exists cr. split; [exact Hc|]. destruct Hc as (_ & _ & Hx).
    assert (Hex : JInt 4600 = JInt (cr_expires cr)) by (rewrite <- Hx; vm_compute; reflexivity). injection Hex as Hex.
    destruct (Hok 2000 "llm") as [targets Ht]; [rewrite <- Hex; lia|by apply list_elem_of_further, list_elem_of_further, list_elem_of_here|].
    exists targets. unfold o_jwt, outside_ex in Hj. case_bool_decide; [|discriminate]. injection Hj as <-. exact Ht.
Defined.


(** An OTLP payload with one span. *)
Definition spans_ex : string :=
  dumps (JObj [("resourceSpans", JArr [JObj [("scopeSpans", JArr [JObj [("spans", JArr [JObj
    [("name", JStr "open"); ("startTimeUnixNano", JStr "1700000000000000000");
     ("attributes", JArr [JObj [("key", JStr "extension.version"); ("value", JObj [("stringValue", JStr "1.2")])]])]])]])]])]).
Definition telemetry_rq_ex : request :=
  Request "POST" [("x-client-uuid", "poste-42"); ("user-agent", "plugin/1"); ("authorization", "Bearer stale")] spans_ex None.

(** With open telemetry the identity is not a UUID: the connection is never logged. *)
Example open_telemetry_not_logged o e email fp ip ua w : e_db e = DbUp →
  (Store._log_device_connection o e "TELEMETRY_RELAY" email "telemetry-open" fp ip ua w) = (Err (Exc "invalid input syntax for type uuid"), w).
Proof. intros Hdb. unfold Store._log_device_connection. rewrite decide_False by done. by rewrite Hdb. Qed.

(** A payload that parses but is not an OTLP object is sent and then fails, so
    that every attempt sends it again. *)
Lemma malformed_sent_and_failed o e id att mx dk cr na body ct ua u t w s b c :
  e_db e ≠ NoDb → clean u → clean_opt ua → strip (e_upstream e) ≠ "" →
  (∃ v, Crypto.loads_bytes body = Some v ∧ Traces.span_rows v = Err tt) →
  let req := UpstreamRequest (strip (e_upstream e)) (Traces.upstream_headers e ct ua) body in
  o_upstream o req = Answer s b c → ok_status s = true →
  Jobs._process_queue_job o e (MkQueueJob id "telemetry.forward"
    [("body_b64", JStr (b64url_encode body)); ("content_type", JStr (str_or ct "application/json"));
     ("user_agent", JStr (default "" ua)); ("client_uuid", JStr u); ("received_at", JInt t)] att mx dk cr na) w =
  (Err (Exc "malformed telemetry payload"), set_sent (w_sent w ++ [req]) w).
Proof.
  intros Hdb Hu Hua Hup (v & Hv & Hr) req Ha Hs.
  pose proof (process_telemetry o e id att mx dk cr na body ct ua u t w Hu Hua Hup) as H. cbv zeta in H. fold req in H.
  rewrite Ha, Hs in H. rewrite H. unfold Traces._persist_telemetry_spans. rewrite Hv, Hr. by destruct (e_db e).
Qed.
