(* ===== verification/Worker.v ===== *)
(** * The queue worker
    [_run_queue_worker_loop] of [app/main.py] with the job handler of [Ingest], as
    an executable loop, and its relation to the interleaving system of [Queue]:
    the loop refines it, and the work that the queue holds is bounded, so that the
    loop ends when it is asked to run once. What a worker meets (clock, draws,
    answers, failures, stop requests) is a function of the number of checks of the
    stop event made so far. *)
From S2P Require Import Prelude Text Json Effects Uuid Queue Ingest.
From Stdlib Require Import Ascii String.
Open Scope Z_scope.
Import Ops Workers.

(** ** The work left *)
(** Two units per attempt a job has left, and one while it is being processed. *)
Definition job_work (j : job) : nat :=
  match j_status j with
  | Pending => 2 * Z.to_nat (j_max_attempts j - j_attempts j)
  | Processing => S (2 * Z.to_nat (j_max_attempts j - j_attempts j))
  | _ => 0
  end%nat.
Definition work_left (q : queue) : nat := sum_list_with job_work (q_jobs q).

Section work.
Lemma sum_with_le {A} (f g : A → nat) (h : A → A) l :
  (∀ x, x ∈ l → (g (h x) ≤ f x)%nat) → (sum_list_with g (h <$> l) ≤ sum_list_with f l)%nat.
Proof.
  induction l as [|x l IH]; [done|]. intros H. pose proof (H x ltac:(set_solver)).
  assert (sum_list_with g (h <$> l) ≤ sum_list_with f l)%nat by (apply IH; set_solver).
  rewrite fmap_cons. cbn [sum_list_with]. lia.
Qed.
Lemma sum_with_lt {A} (f g : A → nat) (h : A → A) l y :
  y ∈ l → (g (h y) < f y)%nat → (∀ x, x ∈ l → (g (h x) ≤ f x)%nat) → (sum_list_with g (h <$> l) < sum_list_with f l)%nat.
Proof.
  intros (l1 & l2 & ->)%list_elem_of_split Hy H. rewrite fmap_app, fmap_cons, !sum_list_with_app. cbn [sum_list_with].
  assert (sum_list_with g (h <$> l1) ≤ sum_list_with f l1)%nat by (apply sum_with_le; set_solver).
  assert (sum_list_with g (h <$> l2) ≤ sum_list_with f l2)%nat by (apply sum_with_le; set_solver). lia.
Qed.

(** Claiming uses an attempt. *)
Lemma claim_job_work w t j : row_ok j → j_status j = Pending → (job_work (claim_row w t j) < job_work j)%nat.
Proof. intros (_ & _ & Ha & _ & Hp) Hs. specialize (Hp Hs). unfold job_work, claim_row. simpl. rewrite Hs. lia. Qed.

Lemma claim_work cf now skip w limit q : queue_ok q →
  let r := claim_jobs cf now skip w limit q in
  (work_left r.2 ≤ work_left q)%nat ∧ (r.1 ≠ [] → (work_left r.2 < work_left q)%nat) ∧ (r.1 = [] → r.2 = q).
Proof.
  intros Hq. cbv zeta. unfold claim_jobs, work_left. cbn [fst snd q_jobs]. set (ids := claim_ids _ _ _ _ _).
  assert (Hle : ∀ j, j ∈ q_jobs q → (job_work (if decide (j_id j ∈ ids) then claim_row w now j else j) ≤ job_work j)%nat).
  { intros j Hj. case_decide as Hid; [|done]. pose proof (claim_ids_claimable _ _ _ _ _ _ Hq Hj Hid) as (Hp & _)%claimable_true.
    apply Nat.lt_le_incl, claim_job_work; [|done]. by apply Hq. }
  split_and!; [by apply sum_with_le| |].
  - intros Hne. destruct (filter (λ j, j_id j ∈ ids) (q_jobs q)) as [|y l] eqn:Ef; [done|].
    assert (Hy : y ∈ filter (λ j, j_id j ∈ ids) (q_jobs q)) by (rewrite Ef; left).
    apply list_elem_of_filter in Hy as [Hid Hy]. apply (sum_with_lt _ _ _ _ y); [done| |done].
    rewrite decide_True by done. pose proof (claim_ids_claimable _ _ _ _ _ _ Hq Hy Hid) as (Hp & _)%claimable_true.
    apply claim_job_work; [|done]. by apply Hq.
  - intros He%fmap_nil_inv. destruct q as [jobs dead next]. simpl in *. f_equal.
    rewrite <- (list_fmap_id jobs) at 2. apply list_fmap_ext. intros i j Hj%list_elem_of_lookup_2. rewrite decide_False; [done|].
    intros Hid. assert (Hin : j ∈ filter (λ j, j_id j ∈ ids) jobs) by (by apply list_elem_of_filter). rewrite He in Hin.
    by apply not_elem_of_nil in Hin.
Qed.

(** Releasing a row uses the unit of its processing. *)
Lemma update_owned_work id w f q :
  (∀ j, j_status j = Processing → (job_work (f j) < job_work j)%nat) →
  let r := update_owned id w f q in (work_left r.2 ≤ work_left q)%nat ∧ (r.1 = true → (work_left r.2 < work_left q)%nat).
Proof.
  intros Hf. unfold update_owned, work_left. cbn [fst snd q_jobs].
  assert (Hle : ∀ j, j ∈ q_jobs q → (job_work (if owned id w j then f j else j) ≤ job_work j)%nat).
  { intros j _. destruct (owned id w j) eqn:E; [|done]. apply owned_true in E as (_ & Hs & _). by apply Nat.lt_le_incl, Hf. }
  split; [by apply sum_with_le|]. intros (y & Hy%list_elem_of_In & Ho)%existsb_exists.
  apply (sum_with_lt _ _ _ _ y); [done| |done]. rewrite Ho. apply owned_true in Ho as (_ & Hs & _). by apply Hf.
Qed.
Lemma release_work j s next completed err : j_status j = Processing → s ≠ Processing →
  (job_work (with_lock j s (j_attempts j) next None None completed err) < job_work j)%nat.
Proof. intros Hs Hn. unfold job_work, with_lock. simpl. rewrite Hs. destruct s; done || lia. Qed.

Lemma ack_work now id w q : let r := ack now id w q in
  (work_left r.2 ≤ work_left q)%nat ∧ (r.1 = true → (work_left r.2 < work_left q)%nat).
Proof. apply update_owned_work. intros j Hj. by apply release_work. Qed.
Lemma failure_work cf now w j err jit q r : handle_failure cf now w j err jit q = Ok r →
  (work_left r.2 ≤ work_left q)%nat ∧ (r.1 = true → (work_left r.2 < work_left q)%nat).
Proof.
  unfold handle_failure, move_to_dead_letter, retry. repeat case_match; try done; intros [= <-].
  - apply (update_owned_work _ _ _ (Queue (q_jobs q) _ (q_next q))). intros x Hx. by apply release_work.
  - apply update_owned_work. intros x Hx. by apply release_work.
Qed.
End work.

(** ** Any number of workers *)
(** A run in which no job is added, with the number of its steps that change
    the queue. *)
Inductive run (cf : config) : nat → sys → sys → Prop :=
| run_refl s : run cf 0 s s
| run_quiet n s s1 s2 : step cf s s1 → s_queue s1 = s_queue s → run cf n s1 s2 → run cf n s s2
| run_work n s s1 s2 : step cf s s1 → s_queue s1 ≠ s_queue s →
    List.length (q_jobs (s_queue s1)) = List.length (q_jobs (s_queue s)) → run cf n s1 s2 → run cf (S n) s s2.

Lemma held_owned q b w j rest :
  batches_ok q b → b !! w = Some (j :: rest) → existsb (owned (qj_id j) w) (q_jobs q) = true.
Proof.
  intros Hb Hw. destruct (Hb w _ Hw) as [_ Hh]. destruct (Hh j ltac:(set_solver)) as (r & Hin & Hid & Hs & Ho & _).
  apply existsb_exists. exists r. split; [by apply list_elem_of_In|]. by apply owned_true.
Qed.

Lemma step_work cf s s1 :
  sys_ok s → step cf s s1 → s_queue s1 ≠ s_queue s →
  List.length (q_jobs (s_queue s1)) = List.length (q_jobs (s_queue s)) → (work_left (s_queue s1) < work_left (s_queue s))%nat.
Proof.
  intros [Hq Hb] Hst Hne Hlen. destruct Hst; cbn [s_queue s_batch] in *; try done.
  - exfalso. unfold enqueue in H. destruct payload; try done. case_match; [done|]. destruct (find _ _); injection H as <-; [done|].
    simpl in Hlen. rewrite length_app in Hlen. simpl in Hlen. lia.
  - destruct (claim_work cf now skip w limit q Hq) as (_ & Hlt & He). apply Hlt. intros Hn. by rewrite He in Hne.
  - apply ack_work. simpl. by eapply held_owned.
  - eapply failure_work; [done|]. unfold handle_failure, move_to_dead_letter, retry in *.
    repeat case_match; try done; simplify_eq; simpl; by eapply held_owned.
Qed.

(** The queue never works forever: whatever workers do and however they
    interleave, stop or crash, a run that adds no job changes the queue at most
    as many times as the attempts its jobs have left allow, two per attempt and
    one for each job being processed. *)
Theorem queue_work_bounded cf s n s' :
  1 ≤ default_max_attempts cf → reachable cf s → run cf n s s' → (n ≤ work_left (s_queue s))%nat.
Proof.
  intros Hcf Hr Hrun. apply reachable_ok in Hr; [|done].
  induction Hrun as [s|n s s1 s2 Hst Heq _ IH|n s s1 s2 Hst Hne Hl _ IH]; [lia|..].
  - rewrite <- Heq. apply IH. by eapply step_ok.
  - specialize (IH (step_ok _ _ _ Hcf Hst Hr)). pose proof (step_work cf s s1 Hr Hst Hne Hl). lia.
Qed.
Lemma queue_work_bounded_witness : ∃ s', run queue_cf_ex 1 queue_run_ex s' ∧ (1 ≤ work_left (s_queue queue_run_ex))%nat.
Proof.
  destruct (s_batch queue_run_ex !! "w1") as [[|j rest]|] eqn:El; try (vm_compute in El; discriminate).
  assert (Hrun : run queue_cf_ex 1 queue_run_ex
    (Sys (ack 10 (qj_id j) "w1" (s_queue queue_run_ex)).2 (<["w1" := rest]> (s_batch queue_run_ex)) 10)).
  { eapply run_work; [| | |apply run_refl].
    - exact (step_success _ _ _ 10 _ _ _ El).
    - vm_compute in El. injection El as <- <-. vm_compute. discriminate.
    - vm_compute in El. injection El as <- <-. reflexivity. }
  eexists. split; [exact Hrun|].
  exact (queue_work_bounded queue_cf_ex queue_run_ex 1 _ ltac:(vm_compute; congruence) queue_run_ex_reachable Hrun).
Defined.

(** ** One worker *)
(** How the loop ends: nothing to do in [once] mode, stopped, or an exception. *)
Inductive outcome : Type := Idle (w : world) | Stopped (w : world) | Crashed (w : world).
Definition world_of (x : outcome) : world := match x with Idle w | Stopped w | Crashed w => w end.

Section loop.
Variables (o : nat → outside) (env_at : nat → env) (cf : config) (wid : string) (batch_size : Z).
Variables (jitter : nat → Z) (stop : nat → bool) (locked : nat → Z → bool).
Definition clock (k : nat) : Z := e_now (env_at k).

(** One job of the batch: [Err] when recording the failure raises. *)
Definition handle_job (k : nat) (j : QueueJob) (w : world) : result world world :=
  match Jobs._process_queue_job (o k) (env_at k) j w with
  | (Ok _, w') => Ok (set_queue (ack (clock k) (qj_id j) wid (w_queue w')).2 w')
  | (Err x, w') =>
      match handle_failure cf (clock k) wid j (exc_text x) (jitter k) (w_queue w') with
      | Ok (_, q) => Ok (set_queue q w')
      | Err _ => Err w'
      end
  end.

(** The [for] loop over the batch; [inl]: all handled, with the number of checks. *)
Fixpoint run_batch (k : nat) (jobs : list QueueJob) (w : world) : (nat * world) + outcome :=
  match jobs with
  | [] => inl (k, w)
  | j :: rest =>
      if stop k then inl (S k, w)
      else match handle_job k j w with
           | Ok w' => run_batch (S k) rest w'
           | Err w' => inr (Crashed w')
           end
  end.

(** [None]: out of fuel *)
Fixpoint _run_queue_worker_loop (fuel : nat) (once : bool) (k : nat) (w : world) : option outcome :=
  match fuel with
  | O => None
  | S n =>
      if stop k then Some (Stopped w)
      else
        let r := claim_jobs cf (clock k) (locked k) wid (Z.max 1 batch_size) (w_queue w) in
        let w1 := set_queue r.2 w in
        match r.1 with
        | [] => if once then Some (Idle w1) else _run_queue_worker_loop n once (S k) w1
        | _ =>
            match run_batch (S k) r.1 w1 with
            | inl (k', w2) => _run_queue_worker_loop n once k' w2
            | inr x => Some x
            end
        end
  end.

Hypothesis clock_mono : ∀ k, clock k ≤ clock (S k).

Lemma handle_step k j rest w b :
  b !! wid = Some (j :: rest) →
  match handle_job k j w with
  | Ok w' => step cf (Sys (w_queue w) b (clock k)) (Sys (w_queue w') (<[wid := rest]> b) (clock k))
  | Err w' => step cf (Sys (w_queue w) b (clock k)) (Sys (w_queue w') (delete wid b) (clock k))
  end.
Proof.
  intros Hb. unfold handle_job.
  pose proof (framed_queue (Jobs._process_queue_job (o k) (env_at k) j) w) as Hq.
  destruct (Jobs._process_queue_job (o k) (env_at k) j w) as [[[]|x] w']; cbn [snd] in Hq; rewrite Hq.
  - by apply step_success.
  - destruct (handle_failure _ _ _ _ _ _ _) as [[ok q]|] eqn:Ef.
    + exact (step_failure cf (w_queue w) b _ wid j rest _ _ _ Hb Ef).
    + destruct e. rewrite Hq. by eapply step_failure_raises.
Qed.

(** The clock moves between two checks. *)
Lemma tick q b k : rtc (step cf) (Sys q b (clock k)) (Sys q b (clock (S k))).
Proof. apply rtc_once. by apply step_tick. Qed.

Lemma run_batch_steps k jobs w b : b !! wid = Some jobs →
  match run_batch k jobs w with
  | inl (k', w') => ∃ rest, rtc (step cf) (Sys (w_queue w) b (clock k)) (Sys (w_queue w') (<[wid := rest]> b) (clock k'))
  | inr x => ∃ k', rtc (step cf) (Sys (w_queue w) b (clock k)) (Sys (w_queue (world_of x)) (delete wid b) (clock k'))
  end.
Proof.
  revert k w b. induction jobs as [|j jobs IH]; intros k w b Hb; simpl.
  - exists []. by rewrite insert_id.
  - destruct (stop k).
    + exists (j :: jobs). rewrite insert_id by done. apply tick.
    + pose proof (handle_step k j jobs w b Hb) as Hst. destruct (handle_job k j w) as [w'|w'].
      * specialize (IH (S k) w' (<[wid := jobs]> b) (lookup_insert_eq _ _ _)).
        assert (Hhead : rtc (step cf) (Sys (w_queue w) b (clock k)) (Sys (w_queue w') (<[wid := jobs]> b) (clock (S k))))
          by (etrans; [by apply rtc_once|apply tick]).
        destruct (run_batch (S k) jobs w') as [[k' w2]|x].
        -- destruct IH as [rest IH]. exists rest. rewrite insert_insert_eq in IH. by etrans.
        -- destruct IH as [k' IH]. exists k'. rewrite delete_insert_eq in IH. by etrans.
      * exists k. by apply rtc_once.
Qed.


(** The work left shrinks with each round, so the loop that runs once ends. *)
Lemma sys_ok_rtc s s' : 1 ≤ default_max_attempts cf → sys_ok s → rtc (step cf) s s' → sys_ok s'.
Proof. intros Hcf Hs Hr. induction Hr; [done|]. eauto using step_ok. Qed.

Lemma run_batch_work k jobs w :
  match run_batch k jobs w with
  | inl (_, w') => (work_left (w_queue w') ≤ work_left (w_queue w))%nat
  | inr _ => True
  end.
Proof.
  revert k w. induction jobs as [|j jobs IH]; intros k w; simpl; [done|]. destruct (stop k); [done|].
  assert (Hj : match handle_job k j w with Ok w' => (work_left (w_queue w') ≤ work_left (w_queue w))%nat | Err _ => True end).
  { unfold handle_job. pose proof (framed_queue (Jobs._process_queue_job (o k) (env_at k) j) w) as Hq.
    destruct (Jobs._process_queue_job (o k) (env_at k) j w) as [[[]|x] w']; cbn [snd] in Hq; rewrite Hq.
    - apply ack_work.
    - destruct (handle_failure _ _ _ _ _ _ _) as [[ok q]|] eqn:Ef; [|done]. by apply failure_work in Ef as [? _]. }
  destruct (handle_job k j w) as [w'|]; [|done]. specialize (IH (S k) w').
  destruct (run_batch (S k) jobs w') as [[k' w2]|]; [lia|done].
Qed.

(** C33. The loop that is asked to run once ends: from every state that the
    system reaches, with a worker that holds nothing, it returns after at most
    one round per unit of work left in the queue. *)
Theorem worker_once_terminates k w b :
  1 ≤ default_max_attempts cf → sys_ok (Sys (w_queue w) b (clock k)) → default [] (b !! wid) = [] →
  is_Some (_run_queue_worker_loop (S (work_left (w_queue w))) true k w).
Proof.
  intros Hcf. remember (S (work_left (w_queue w))) as fuel eqn:Ef. assert (work_left (w_queue w) < fuel)%nat as Hf by lia.
  clear Ef. revert k w b Hf. induction fuel as [|n IH]; intros k w b Hf Hok Hb; [lia|]. cbn [_run_queue_worker_loop].
  destruct (stop k); [by eexists|]. set (r := claim_jobs _ _ _ _ _ _).
  assert (Hc : rtc (step cf) (Sys (w_queue w) b (clock k)) (Sys r.2 (<[wid := r.1]> b) (clock (S k)))).
  { etrans; [apply rtc_once; by apply step_claim|apply tick]. }
  destruct (claim_work cf (clock k) (locked k) wid (Z.max 1 batch_size) (w_queue w) (proj1 Hok)) as (_ & Hlt & _). fold r in Hlt.
  destruct r.1 as [|j jobs] eqn:Ej; [by eexists|]. specialize (Hlt ltac:(done)).
  pose proof (run_batch_steps (S k) (j :: jobs) (set_queue r.2 w) (<[wid := j :: jobs]> b) (lookup_insert_eq _ _ _)) as Hb'.
  pose proof (run_batch_work (S k) (j :: jobs) (set_queue r.2 w)) as Hw.
  destruct (run_batch _ _ _) as [[k1 w2]|y]; [|by eexists]. destruct Hb' as [rest Hb']. cbn [w_queue set_queue] in Hw.
  apply (IH k1 w2 (delete wid b)); [lia| |by rewrite lookup_delete_eq].
  assert (Hs2 : sys_ok (Sys (w_queue w2) (<[wid := rest]> (<[wid := j :: jobs]> b)) (clock k1))).
  { eapply sys_ok_rtc; [done| |exact Hb']. eapply sys_ok_rtc; [done|exact Hok|exact Hc]. }
  rewrite insert_insert_eq in Hs2. destruct Hs2 as [Hq2 Hb2]. split; [done|]. cbn [s_queue s_batch] in *.
  apply (batches_delete _ _ wid) in Hb2. by rewrite delete_insert_eq in Hb2.
Qed.
End loop.

(** ** Concrete runs *)
Definition with_now (t : Z) (e : env) : env :=
  Env (e_db e) t (e_epoch_ms e) (e_rid e) (e_uuid4 e) (e_relay_hex e) (e_relay_rnd e) (e_store_locally e)
    (e_enroll_dir e) (e_disk_ok e) (e_store_s3 e) (e_s3_bucket e) (e_s3_prefix e) (e_s3_ok e) (e_pepper e) (e_targets_csv e)
    (e_relay_ttl e) (e_queue e) (e_verify_token e) (e_jwt_available e) (e_issuer e) (e_jwks_url e) (e_jwks_ttl e) (e_audience e)
    (e_algorithms_csv e) (e_leeway e) (e_telemetry_enabled e) (e_require_token e) (e_signing_key e) (e_upstream e)
    (e_upstream_auth_type e) (e_upstream_key e) (e_max_body e) (e_telemetry_max_body e).
Definition days (k : nat) : env := with_now (1000 + 1000 * Z.of_nat k) env_ex.
Definition worker_ex (fuel : nat) (w : world) : option outcome :=
  _run_queue_worker_loop (λ _, outside_ex) days cf_ex "w1" 10 (λ _, 0) (λ _, false) (λ _ _, false) fuel true 0 w.
Definition enrolled_ex : world := (Enroll.enroll outside_ex env_ex enroll_rq_ex world_ex).2.

Lemma days_mono k : clock days k ≤ clock days (S k).
Proof. unfold clock, days, with_now. simpl. lia. Qed.
Lemma enrolled_ex_ok : sys_ok (Sys (w_queue enrolled_ex) ∅ 1000).
Proof.
  eapply (sys_ok_rtc cf_ex (Sys (Queue [] [] 1) ∅ 1000)); [vm_compute; congruence| |].
  - split; [|intros w l Hl; cbn in Hl; by rewrite lookup_empty in Hl].
    split_and!; [apply NoDup_nil_2|by intros j Hj%not_elem_of_nil|by intros a b Ha%not_elem_of_nil].
  - destruct (q_jobs (w_queue enrolled_ex)) as [|r []] eqn:Er; try (vm_compute in Er; discriminate).
    apply rtc_once. 
    refine (step_enqueue cf_ex (Queue [] [] 1) ∅ 1000 "enroll.process" (j_payload r) None 0 None (1, "pending", w_queue enrolled_ex) _).
    vm_compute in Er. injection Er as <-. vm_compute. reflexivity.
Qed.
Lemma worker_once_terminates_witness : is_Some (worker_ex (S (work_left (w_queue enrolled_ex))) enrolled_ex).
Proof.
  exact (worker_once_terminates (λ _, outside_ex) days cf_ex "w1" 10 (λ _, 0) (λ _, false) (λ _ _, false) days_mono 0 enrolled_ex ∅
    ltac:(vm_compute; congruence) enrolled_ex_ok eq_refl).
Defined.
(** The device enrolled through the queue is provisioned. *)
Example deferred_device_is_provisioned :
  (λ x, (pv_client_uuid <$> w_prov (world_of x), j_status <$> q_jobs (w_queue (world_of x)))) <$> worker_ex 2 enrolled_ex
  = Some ([_normalize_client_uuid 0 "poste-42"], [JobDone]).
Proof. vm_compute. reflexivity. Qed.

(** A telemetry payload that is JSON but no OTLP object is sent to the
    collector on each of its eight attempts, although the collector accepts it
    each time, and ends among the dead letters. *)
Theorem malformed_telemetry_is_resent :
  let rq := Request "POST" [("x-client-uuid", "poste-42")] "[]" None in
  let w := (Traces.telemetry_traces outside_ex env_ex rq world_ex).2 in
  ∃ x, worker_ex 10 w = Some x ∧ w_sent (world_of x) = replicate 8 (sent_request env_ex rq) ∧
    w_events (world_of x) = [] ∧ j_status <$> q_jobs (w_queue (world_of x)) = [Dead] ∧ List.length (q_dead (w_queue (world_of x))) = 1%nat.
Proof. cbv zeta. eexists. split; [vm_compute; reflexivity|]. vm_compute. split_and!; reflexivity. Qed.
