(* ===== verification/RuntimeConfig.v ===== *)
(** * Runtime configuration
    [app/runtime_config.py], its store [app/admin/services/runtime_config.py] and
    the two routes of [app/admin/router.py] that change it: the registry of the
    editable keys, type coercion, the baseline taken at startup, the state that a
    process applies from the overrides of the database, the edition of an
    override in one transaction with the generation counter, and the reload of a
    pod, which reads the generation and then the overrides while other writers
    and other threads of the pod run. The labels of the keys are not kept; no
    editable key has the type [float]. *)
From S2P Require Import Prelude Text Json Hashing Base64 Tokens.
From Stdlib Require Import Ascii String.
Open Scope Z_scope.

(** [os.environ] *)
Definition environ : Type := list (string * string).
Definition getenv (k dflt : string) (env : environ) : string := default dflt (dget k env).

(** ** Registry *)
Inductive vtype : Type := TBool | TInt | TStr | TList.
Record ConfigKeySpec : Type := Spec {
  env_name : string; type : vtype; hot_reloadable : bool; sensitive : bool;
  settings_field : option string; sp_min : option Z; sp_max : option Z }.

Definition EDITABLE_KEYS : list ConfigKeySpec :=
  [ Spec "API_BASE" TStr true false None None None;
    Spec "RELAY_ASSISTANT_BASE_URL" TStr false false None None None;
    Spec "COMPTE_RENDU_URL" TStr true false None None None;
    Spec "COMU_URL" TStr true false None None None;
    Spec "PUBLIC_BASE_URL" TStr true false None None None;
    Spec "DM_BOOTSTRAP_URLS" TList true false None None None;
    Spec "KEYCLOAK_ISSUER_URL" TStr false false None None None;
    Spec "KEYCLOAK_REALM" TStr false false None None None;
    Spec "KEYCLOAK_CLIENT_ID" TStr false false None None None;
    Spec "KEYCLOAK_REDIRECT_URI" TStr false false None None None;
    Spec "KEYCLOAK_ALLOWED_REDIRECT_URI" TStr true false None None None;
    Spec "ADMIN_OIDC_CLIENT_SECRET" TStr false true None None None;
    Spec "LLM_BASE_URL" TStr true false None None None;
    Spec "LLM_API_TOKEN" TStr true true None None None;
    Spec "DEFAULT_MODEL_NAME" TStr true false None None None;
    Spec "EMBD_MODEL_NAME" TStr true false None None None;
    Spec "FORCE_LLM_ENDPOINT_OVERRIDE" TBool true false None None None;
    Spec "PUBLIC_LLM_PROXY_URL" TStr true false None None None;
    Spec "DM_LLM_TOKEN_SIGNING_KEY" TStr true true None None None;
    Spec "DM_LLM_TOKEN_TTL_SECONDS" TInt true false None (Some 60) (Some 86400);
    Spec "LLM_QUOTA_REQUESTS_PER_MINUTE" TInt true false None (Some 0) None;
    Spec "LLM_QUOTA_WINDOW_SECONDS" TInt true false None (Some 10) (Some 3600);
    Spec "LLM_BACKENDS" TStr true false None None None;
    Spec "LLM_GUARDRAILS" TStr true false None None None;
    Spec "DM_LLM_READ_TIMEOUT_SECONDS" TInt true false None (Some 10) (Some 600);
    Spec "DM_TELEMETRY_ENABLED" TBool true false (Some "telemetry_enabled") None None;
    Spec "DM_TELEMETRY_PUBLIC_ENDPOINT" TStr true false (Some "telemetry_public_endpoint") None None;
    Spec "DM_TELEMETRY_UPSTREAM_ENDPOINT" TStr true false (Some "telemetry_upstream_endpoint") None None;
    Spec "DM_TELEMETRY_UPSTREAM_KEY" TStr true true (Some "telemetry_upstream_key") None None;
    Spec "DM_TELEMETRY_TOKEN_SIGNING_KEY" TStr true true (Some "telemetry_token_signing_key") None None;
    Spec "DM_TELEMETRY_REQUIRE_TOKEN" TBool true false (Some "telemetry_require_token") None None;
    Spec "DM_RELAY_PROXY_SHARED_TOKEN" TStr true true (Some "relay_proxy_shared_token") None None;
    Spec "DM_RELAY_SECRET_PEPPER" TStr true true (Some "relay_secret_pepper") None None ].
Definition spec_of (key : string) : option ConfigKeySpec := find (λ s, bool_decide (env_name s = key)) EDITABLE_KEYS.

(** ** Coercion
    A value is a JSON value: [None] is [JNull], a list holds strings. *)
Definition csv_items (s : string) : list string :=
  strip <$> filter (λ i, truthy_str (strip i) = true) (split_on "," s).
Definition _parse_list (raw : json) : list string :=
  match raw with
  | JArr l => py_str <$> l
  | _ =>
      let s := strip (str_or_empty raw) in
      if negb (truthy_str s) then []
      else if starts_with "[" s then
        match loads s with Some (JArr l) => py_str <$> l | _ => csv_items s end
      else csv_items s
  end.

Definition truthy_words : list string := ["1"; "true"; "yes"; "on"].
Definition coerce_bool (value : json) : bool :=
  match value with JBool b => b | _ => bool_decide (lower (strip (py_str value)) ∈ truthy_words) end.
Definition str_list (l : list string) : json := JArr (JStr <$> l).
Definition _coerce (value : json) (t : vtype) : result exn json :=
  match value, t with
  | JNull, _ => Ok JNull
  | _, TBool => Ok (JBool (coerce_bool value))
  | _, TInt => let* z := py_int_json value in Ok (JInt z)
  | _, TList => Ok (str_list (_parse_list value))
  | _, TStr => Ok (JStr (py_str value))
  end.
Definition _to_env_str (value : json) (t : vtype) : string :=
  match value, t with
  | JNull, _ => ""
  | _, TBool => if coerce_bool value then "true" else "false"
  | _, TList => dumps (str_list (_parse_list value))
  | _, _ => py_str value
  end.

(** [cleaned]: stripped, not empty, each once *)
Fixpoint clean_items (seen items : list string) : list string :=
  match items with
  | [] => []
  | i :: r =>
      let i := strip i in
      if truthy_str i && negb (bool_decide (i ∈ seen)) then i :: clean_items (i :: seen) r else clean_items seen r
  end.
(** [None] for a [ValueError] or a [TypeError] *)
Definition coerce_input (spec : ConfigKeySpec) (value : json) : option json :=
  match _coerce value (type spec) with
  | Err _ => None
  | Ok py =>
      match type spec, py with
      | TInt, JInt z =>
          if match sp_min spec with Some m => z <? m | None => false end then None
          else if match sp_max spec with Some m => m <? z | None => false end then None
          else Some py
      | TList, JNull => None
      | TList, _ => Some (str_list (clean_items [] (_parse_list py)))
      | _, _ => Some py
      end
  end.
Definition to_stored_value (spec : ConfigKeySpec) (py : json) : string :=
  match type spec with
  | TList => dumps (str_list (_parse_list py))
  | t => _to_env_str py t
  end.

(** ** The process *)
Record override_meta : Type := Meta { me_value : json; me_secret : bool; me_by : option string; me_at : Z }.
(** [p_cache] is the response cache, which the registered reload hook flushes. *)
Record process : Type := Process {
  p_env : environ; p_settings : list (string * json); p_baseline : list (string * json); p_baseline_ready : bool;
  p_meta : list (string * override_meta); p_applied : Z; p_ready : bool; p_gate : bool;
  p_cache : list (string * (Z * json)) }.

Definition set_baseline (b : list (string * json)) (ready : bool) (st : process) : process :=
  Process (p_env st) (p_settings st) b ready (p_meta st) (p_applied st) (p_ready st) (p_gate st) (p_cache st).
Definition baseline_of (spec : ConfigKeySpec) (st : process) : result exn json :=
  match settings_field spec with
  | Some f => Ok (jget f (p_settings st))
  | None =>
      let raw := getenv (env_name spec) "" (p_env st) in
      if truthy_str raw then _coerce (JStr raw) (type spec)
      else Ok match type spec with TList => JArr [] | TStr => JStr "" | _ => JNull end
  end.
(** The baseline so far, and whether an environment value was refused. *)
Fixpoint snapshot_go (keys : list ConfigKeySpec) (st : process) : process * bool :=
  match keys with
  | [] => (set_baseline (p_baseline st) true st, true)
  | spec :: r =>
      match baseline_of spec st with
      | Ok v => snapshot_go r (set_baseline (dset (env_name spec) v (p_baseline st)) (p_baseline_ready st) st)
      | Err _ => (st, false)
      end
  end.
Definition snapshot_baseline (force : bool) (st : process) : process * bool :=
  if p_baseline_ready st && negb force then (st, true) else snapshot_go EDITABLE_KEYS st.

Definition _apply_one (spec : ConfigKeySpec) (py : json) (st : process) : process :=
  Process (dset (env_name spec) (_to_env_str py (type spec)) (p_env st))
    (match settings_field spec with Some f => dset f py (p_settings st) | None => p_settings st end)
    (p_baseline st) (p_baseline_ready st) (p_meta st) (p_applied st) (p_ready st) (p_gate st) (p_cache st).
Definition run_hooks (st : process) : process :=
  Process (p_env st) (p_settings st) (p_baseline st) (p_baseline_ready st) (p_meta st) (p_applied st) (p_ready st) (p_gate st) [].
Definition effective (overrides_py : list (string * json)) (st : process) (spec : ConfigKeySpec) : json :=
  match dget (env_name spec) overrides_py with Some py => py | None => jget (env_name spec) (p_baseline st) end.
Definition apply_keys (keys : list ConfigKeySpec) (overrides_py : list (string * json)) (st : process) : process :=
  foldl (λ st spec, _apply_one spec (effective overrides_py st spec) st) st keys.
Definition apply_state (overrides_py : list (string * json)) (st : process) : process :=
  run_hooks (apply_keys EDITABLE_KEYS overrides_py st).

(** [cfg(env_name, default)] and [cfg(env_name, as_list=True)] *)
Definition cfg (k dflt : string) (env : environ) : string := getenv k dflt env.
Definition cfg_list (k : string) (env : environ) : list string := _parse_list (JStr (cfg k "" env)).

Definition should_gate_requests (st : process) : bool := p_gate st && negb (p_ready st).
Definition editing_enabled (env : environ) : bool :=
  negb (bool_decide (lower (strip (getenv "DM_RUNTIME_CONFIG_EDITABLE" "true" env)) ∈ ["0"; "false"; "no"; "off"])).

(** ** The store *)
Record override : Type := Override {
  ov_key : string; ov_value : string; ov_type : vtype; ov_secret : bool; ov_by : option string; ov_at : Z }.
Record audit_entry : Type := Audit { au_actor : option string; au_action : string; au_key : string; au_payload : list (string * json) }.
(** [db_gen] is [None] when [config_state] has no row. *)
Record config_db : Type := ConfigDb { db_gen : option Z; db_rows : list override; db_audit : list audit_entry }.

Definition get_override (key : string) (db : config_db) : option override :=
  find (λ o, bool_decide (ov_key o = key)) (db_rows db).
Fixpoint upsert_override (o : override) (l : list override) : list override :=
  match l with
  | [] => [o]
  | x :: r => if decide (ov_key x = ov_key o) then o :: r else x :: upsert_override o r
  end.
Definition set_override (now : Z) (key value : string) (t : vtype) (is_secret : bool) (actor : option string)
    (db : config_db) : config_db :=
  ConfigDb (db_gen db) (upsert_override (Override key value t is_secret actor now) (db_rows db)) (db_audit db).
Definition delete_override (key : string) (db : config_db) : bool * config_db :=
  (existsb (λ o, bool_decide (ov_key o = key)) (db_rows db),
   ConfigDb (db_gen db) (filter (λ o, ov_key o ≠ key) (db_rows db)) (db_audit db)).
Definition bump_generation (db : config_db) : result exn (Z * config_db) :=
  match db_gen db with
  | Some g => Ok (g + 1, ConfigDb (Some (g + 1)) (db_rows db) (db_audit db))
  | None => Err tt
  end.
Definition audit_log (actor : option string) (action key : string) (payload : list (string * json)) (db : config_db) : config_db :=
  ConfigDb (db_gen db) (db_rows db) (db_audit db ++ [Audit actor action key payload]).

Section crypto.
(** The Fernet cipher *)
Variable encrypt : string → string → string.
Variable decrypt : string → string → option string.

Definition secret_key (env : environ) : string := getenv "DM_CONFIG_SECRET_KEY" "" env.

(** ** Reload *)
(** A row of [config_overrides]: [None] when it is skipped. *)
Definition decode_row (env : environ) (o : override) : option json :=
  match spec_of (ov_key o) with
  | None => None
  | Some _ =>
      match rbind (if ov_secret o then Crypto.decrypt_secret decrypt (secret_key env) (ov_value o) else Ok (ov_value o))
                  (λ raw, _coerce (JStr raw) (ov_type o)) with
      | Ok py => Some py
      | Err _ => None
      end
  end.
Definition decode_step (env : environ) (acc : list (string * json) * list (string * override_meta)) (o : override)
    : list (string * json) * list (string * override_meta) :=
  match decode_row env o with
  | Some py => (dset (ov_key o) py acc.1, dset (ov_key o) (Meta py (ov_secret o) (ov_by o) (ov_at o)) acc.2)
  | None => acc
  end.
Definition decode_rows (env : environ) (rows : list override) : list (string * json) * list (string * override_meta) :=
  foldl (decode_step env) ([], []) rows.

(** The rows are applied, then the generation that was read first is recorded. *)
Definition apply_rows (rows : list override) (st : process) : process :=
  let '(overrides_py, meta) := decode_rows (p_env st) rows in
  apply_state overrides_py
    (Process (p_env st) (p_settings st) (p_baseline st) (p_baseline_ready st) meta (p_applied st) (p_ready st) (p_gate st) (p_cache st)).
Definition mark_applied (gen : option Z) (st : process) : process :=
  Process (p_env st) (p_settings st) (p_baseline st) (p_baseline_ready st) (p_meta st) (default (p_applied st) gen)
    true (p_gate st) (p_cache st).
Definition reload_overrides (db : config_db) (st : process) : option Z * process :=
  (db_gen db, mark_applied (db_gen db) (apply_rows (db_rows db) st)).
(** [None] without a database *)
Definition force_local_reload (db : option config_db) (st : process) : process :=
  match db with Some d => (reload_overrides d st).2 | None => st end.

(** ** Edition *)
(** [body] is [None] when the request has no valid JSON. *)
Definition config_set (now : Z) (actor : option string) (csrf_ok : bool) (key : string) (body : option json)
    (db : config_db) (st : process) : result http_error (bool * Z) * config_db * process :=
  let fail status detail := (Err (HttpError status detail), db, st) in
  if negb (editing_enabled (p_env st)) then
    (Err (HttpError 403 "runtime config editing is disabled"),
     audit_log actor "config.override.denied" key [("reason", JStr "editing disabled")] db, st)
  else if negb csrf_ok then fail 403 "CSRF token invalid"
  else
    match spec_of key, body with
    | None, _ =>
        (Err (HttpError 404 "unknown or non-editable key"),
         audit_log actor "config.override.denied" key [("reason", JStr "unknown key")] db, st)
    | _, None => fail 400 "invalid JSON body"
    | Some spec, Some (JObj b) =>
        match coerce_input spec (jget "value" b) with
        | None => fail 400 "invalid value"
        | Some py =>
            if sensitive spec && negb (Crypto.secrets_encryption_available (secret_key (p_env st)))
            then fail 503 "secret editing unavailable: DM_CONFIG_SECRET_KEY missing"
            else
              match (if sensitive spec then Crypto.encrypt_secret encrypt (secret_key (p_env st)) (py_str py)
                     else Ok (to_stored_value spec py)) with
              | Err _ => fail 500 ""
              | Ok stored =>
                  match bump_generation (set_override now key stored (type spec) (sensitive spec) actor db) with
                  | Err _ => fail 400 "config_state"
                  | Ok (gen, db1) =>
                      let payload := ([("hot_reloadable", JBool (hot_reloadable spec)); ("generation", JInt gen)] ++
                        (if sensitive spec then [("secret", JBool true)]
                         else ("after", py) :: match get_override key db with Some o => [("before", JStr (ov_value o))] | None => [] end))%list in
                      let db2 := audit_log actor "config.override.set" key payload db1 in
                      (Ok (negb (hot_reloadable spec), gen), db2, force_local_reload (Some db2) st)
                  end
              end
        end
    | _, Some _ => fail 500 ""
    end.

Definition config_reset (actor : option string) (csrf_ok : bool) (key : string) (db : config_db) (st : process)
    : result http_error (bool * Z) * config_db * process :=
  let fail status detail := (Err (HttpError status detail), db, st) in
  if negb (editing_enabled (p_env st)) then fail 403 "runtime config editing is disabled"
  else if negb csrf_ok then fail 403 "CSRF token invalid"
  else
    match spec_of key with
    | None => fail 404 "unknown or non-editable key"
    | Some _ =>
        let '(existed, db1) := delete_override key db in
        match bump_generation db1 with
        | Err _ => fail 400 "config_state"
        | Ok (gen, db2) =>
            let db3 := audit_log actor "config.override.reset" key [("existed", JBool existed); ("generation", JInt gen)] db2 in
            (Ok (existed, gen), db3, force_local_reload (Some db3) st)
        end
    end.

(** ** A pod and the writers
    The threads of a pod that reload: the sync loop, and the requests of the
    administrators. Each reads the generation, then the rows, applies them, and
    records the generation; the writers commit between any two of these. *)
Inductive thread : Type := GotGen (g : option Z) | GotRows (g : option Z) (rows : list override) | Applied (g : option Z).
Record pod : Type := Pod { pd_db : config_db; pd_proc : process; pd_threads : list thread }.

(** What a transaction may leave: the overrides change with the generation. *)
Definition committed (db db' : config_db) : Prop :=
  ∃ gen, db_gen db = Some gen ∧
    (db_gen db' = Some (gen + 1) ∨ db_gen db' = Some gen ∧ db_rows db' = db_rows db).
(** [serial]: a thread starts only when no other one is reloading. *)
Inductive pod_step (serial : bool) : pod → pod → Prop :=
| ps_write db db' st ts : committed db db' → pod_step serial (Pod db st ts) (Pod db' st ts)
| ps_start db st ts : (serial = true → ts = []) → pod_step serial (Pod db st ts) (Pod db st (ts ++ [GotGen (db_gen db)]))
| ps_read db st ts1 ts2 g :
    pod_step serial (Pod db st (ts1 ++ GotGen g :: ts2)) (Pod db st (ts1 ++ GotRows g (db_rows db) :: ts2))
| ps_apply db st ts1 ts2 g rows :
    pod_step serial (Pod db st (ts1 ++ GotRows g rows :: ts2)) (Pod db (apply_rows rows st) (ts1 ++ Applied g :: ts2))
| ps_mark db st ts1 ts2 g :
    pod_step serial (Pod db st (ts1 ++ Applied g :: ts2)) (Pod db (mark_applied g st) (ts1 ++ ts2)).
End crypto.

(** ** Facts: the applied state *)
(** The keys of the registry, and the settings they drive, are distinct. *)
Lemma editable_names : NoDup (env_name <$> EDITABLE_KEYS).
Proof. apply (bool_decide_unpack _). vm_compute. reflexivity. Qed.
Lemma editable_fields : NoDup (omap settings_field EDITABLE_KEYS).
Proof. apply (bool_decide_unpack _). vm_compute. reflexivity. Qed.
Lemma secret_key_not_editable : "DM_CONFIG_SECRET_KEY" ∉ env_name <$> EDITABLE_KEYS.
Proof. apply (bool_decide_unpack _). vm_compute. reflexivity. Qed.

#[local] Opaque EDITABLE_KEYS.

Section apply.
Implicit Types (ov : list (string * json)) (st : process).

(** [st] shows the effective values of the keys [ks]. *)
Definition shows (ks : list ConfigKeySpec) (val : ConfigKeySpec → json) st : Prop :=
  ∀ spec, spec ∈ ks →
    dget (env_name spec) (p_env st) = Some (_to_env_str (val spec) (type spec)) ∧
    ∀ f, settings_field spec = Some f → dget f (p_settings st) = Some (val spec).

Lemma apply_keys_other ks ov st :
  (∀ k, k ∉ env_name <$> ks → dget k (p_env (apply_keys ks ov st)) = dget k (p_env st)) ∧
  (∀ f, f ∉ omap settings_field ks → dget f (p_settings (apply_keys ks ov st)) = dget f (p_settings st)) ∧
  p_baseline (apply_keys ks ov st) = p_baseline st ∧ p_applied (apply_keys ks ov st) = p_applied st.
Proof.
  revert st. induction ks as [|spec ks IH]; intros st; [done|]. unfold apply_keys. cbn [foldl].
  fold (apply_keys ks ov (_apply_one spec (effective ov st spec) st)).
  destruct (IH (_apply_one spec (effective ov st spec) st)) as (He & Hs & Hb & Ha). split_and!; [| |exact Hb|exact Ha].
  - intros k Hk. rewrite fmap_cons in Hk. apply not_elem_of_cons in Hk as [Hne Hk]. rewrite He by done.
    cbn [_apply_one p_env]. by apply dget_dset_ne.
  - intros f Hf. rewrite Hs; [|intros Hin; apply Hf; cbn; destruct (settings_field spec); [by right|done]].
    cbn [_apply_one p_settings]. cbn in Hf. destruct (settings_field spec) as [f'|]; [|done].
    apply dget_dset_ne. intros ->. apply Hf. by left.
Qed.

Lemma apply_keys_shows ks ov st :
  NoDup (env_name <$> ks) → NoDup (omap settings_field ks) → shows ks (effective ov st) (apply_keys ks ov st).
Proof.
  revert st. induction ks as [|spec ks IH]; intros st Hn Hf sp Hsp; [by apply elem_of_nil in Hsp|].
  rewrite fmap_cons in Hn. apply NoDup_cons in Hn as [Hn1 Hn2].
  assert (Hf2 : NoDup (omap settings_field ks)) by (cbn in Hf; destruct (settings_field spec); [by apply NoDup_cons in Hf as [_ ?]|done]).
  unfold apply_keys. cbn [foldl]. set (st1 := _apply_one spec (effective ov st spec) st). fold (apply_keys ks ov st1).
  apply elem_of_cons in Hsp as [->|Hsp]; [|apply (IH st1 Hn2 Hf2 sp Hsp)].
  destruct (apply_keys_other ks ov st1) as (He & Hs & _). split.
  - rewrite He by done. apply dget_dset_eq.
  - intros f Hsf. rewrite Hs.
    + cbn [st1 _apply_one p_settings]. rewrite Hsf. apply dget_dset_eq.
    + cbn in Hf. rewrite Hsf in Hf. by apply NoDup_cons in Hf as [? _].
Qed.

Lemma run_hooks_env st : p_env (run_hooks st) = p_env st.
Proof. reflexivity. Qed.
Lemma run_hooks_settings st : p_settings (run_hooks st) = p_settings st.
Proof. reflexivity. Qed.
Lemma run_hooks_rest st : p_baseline (run_hooks st) = p_baseline st ∧ p_applied (run_hooks st) = p_applied st ∧ p_cache (run_hooks st) = [].
Proof. done. Qed.

Lemma apply_state_shows ov st : shows EDITABLE_KEYS (effective ov st) (apply_state ov st).
Proof.
  intros spec Hs. unfold apply_state. rewrite run_hooks_env, run_hooks_settings.
  exact (apply_keys_shows EDITABLE_KEYS ov st editable_names editable_fields spec Hs).
Qed.

Lemma apply_state_rest ov st :
  p_baseline (apply_state ov st) = p_baseline st ∧ p_applied (apply_state ov st) = p_applied st ∧ p_cache (apply_state ov st) = [].
Proof.
  unfold apply_state. destruct (run_hooks_rest (apply_keys EDITABLE_KEYS ov st)) as (-> & -> & ->).
  destruct (apply_keys_other EDITABLE_KEYS ov st) as (_ & _ & -> & ->). done.
Qed.

Lemma apply_state_env ov st k :
  dget k (p_env (apply_state ov st)) =
  match find (λ s, bool_decide (env_name s = k)) EDITABLE_KEYS with
  | Some spec => Some (_to_env_str (effective ov st spec) (type spec))
  | None => dget k (p_env st)
  end.
Proof.
  destruct (find _ _) as [spec|] eqn:E.
  - apply find_some in E as [Hin Hk]. apply bool_decide_eq_true in Hk as <-.
    apply list_elem_of_In in Hin. exact (proj1 (apply_state_shows ov st spec Hin)).
  - unfold apply_state. rewrite run_hooks_env. refine (proj1 (apply_keys_other EDITABLE_KEYS ov st) k _). intros Hin. apply list_elem_of_fmap in Hin as (s & -> & Hs).
    apply list_elem_of_In in Hs. apply (find_none _ _ E) in Hs. by apply bool_decide_eq_false in Hs.
Qed.
End apply.

(** Applying a set of overrides: every editable key gets, in the environment
    and in the settings, its override when it has one and its baseline otherwise,
    whatever was applied before; every other variable keeps its value, the
    baseline is not touched and the cached responses are flushed. *)
Theorem apply_state_effective ov ov' st :
  shows EDITABLE_KEYS (effective ov st) (apply_state ov (apply_state ov' st)) ∧
  (∀ k, dget k (p_env (apply_state ov (apply_state ov' st))) = dget k (p_env (apply_state ov st))) ∧
  (∀ k, spec_of k = None → dget k (p_env (apply_state ov st)) = dget k (p_env st)) ∧
  p_baseline (apply_state ov st) = p_baseline st ∧ p_cache (apply_state ov st) = [].
Proof.
  assert (Hb := λ o s, proj1 (apply_state_rest o s)).
  assert (He : ∀ spec, effective ov (apply_state ov' st) spec = effective ov st spec) by (intros spec; unfold effective; by rewrite Hb).
  split_and!; [| | |apply Hb|apply apply_state_rest].
  - intros spec Hs. rewrite <- He. by apply apply_state_shows.
  - intros k. rewrite !apply_state_env. destruct (find _ _); [by rewrite He|done].
  - intros k Hk. rewrite apply_state_env. unfold spec_of in Hk. by rewrite Hk.
Qed.

(** ** Facts: reload *)
Section pods.
Variable decrypt : string → string → option string.

(** The process shows the overrides [rows] over its baseline. *)
Definition showing (rows : list override) (st : process) : Prop :=
  shows EDITABLE_KEYS (effective (decode_rows decrypt (p_env st) rows).1 st) st.

Lemma decode_rows_env e e' rows : secret_key e = secret_key e' → decode_rows decrypt e rows = decode_rows decrypt e' rows.
Proof.
  intros Hk. unfold decode_rows. generalize (@nil (string * json), @nil (string * override_meta)).
  induction rows as [|o rows IH]; intros acc; [done|]. cbn [foldl]. unfold decode_step at 2 4, decode_row. rewrite Hk. apply IH.
Qed.

Lemma secret_key_apply ov st : secret_key (p_env (apply_state ov st)) = secret_key (p_env st).
Proof.
  unfold secret_key, getenv. rewrite apply_state_env. destruct (find _ _) as [spec|] eqn:E; [|done].
  apply find_some in E as [Hin Hk]. apply bool_decide_eq_true in Hk. exfalso. apply secret_key_not_editable.
  rewrite <- Hk. apply list_elem_of_fmap_2. by apply list_elem_of_In.
Qed.

Lemma apply_rows_showing rows st : showing rows (apply_rows decrypt rows st).
Proof.
  unfold showing, apply_rows. destruct (decode_rows decrypt (p_env st) rows) as [ov meta] eqn:E.
  set (st1 := Process _ _ _ _ _ _ _ _ _). rewrite (decode_rows_env _ (p_env st)) by (rewrite secret_key_apply; reflexivity).
  rewrite E. cbn [fst]. intros spec Hs. destruct (apply_state_rest ov st1) as (Hb & _).
  assert (effective ov (apply_state ov st1) spec = effective ov st1 spec) as -> by (unfold effective; by rewrite Hb).
  exact (apply_state_shows ov st1 spec Hs).
Qed.

Lemma apply_rows_applied rows st : p_applied (apply_rows decrypt rows st) = p_applied st.
Proof.
  unfold apply_rows. destruct (decode_rows decrypt (p_env st) rows) as [ov meta].
  exact (proj1 (proj2 (apply_state_rest ov _))).
Qed.

Lemma mark_applied_showing rows g st : showing rows st → showing rows (mark_applied g st).
Proof. done. Qed.

Lemma reload_showing db st g :
  db_gen db = Some g → let st' := (reload_overrides decrypt db st).2 in
  p_applied st' = g ∧ p_ready st' = true ∧ showing (db_rows db) st'.
Proof.
  intros Hg. cbv zeta. unfold reload_overrides. cbn [snd]. rewrite Hg. split_and!; [done|done|].
  apply mark_applied_showing, apply_rows_showing.
Qed.

(** The generation a thread holds is not newer than the database, and the rows it
    read are those of that generation or of a later one. *)
Definition thread_ok (db : config_db) (st : process) (gen : Z) (t : thread) : Prop :=
  match t with
  | GotGen g => ∃ z, g = Some z ∧ p_applied st ≤ z ≤ gen
  | GotRows g rows => ∃ z, g = Some z ∧ p_applied st ≤ z ≤ gen ∧ (z = gen → rows = db_rows db)
  | Applied g => ∃ z, g = Some z ∧ p_applied st ≤ z ≤ gen ∧ (z = gen → showing (db_rows db) st)
  end.
Definition pod_ok (s : pod) : Prop :=
  ∃ gen, db_gen (pd_db s) = Some gen ∧ p_applied (pd_proc s) ≤ gen ∧
    (p_applied (pd_proc s) = gen → showing (db_rows (pd_db s)) (pd_proc s)) ∧
    match pd_threads s with [] => True | [t] => thread_ok (pd_db s) (pd_proc s) gen t | _ => False end.

Lemma singleton_threads (ts1 ts2 : list thread) t (P : thread → Prop) :
  match ts1 ++ t :: ts2 with [] => True | [t'] => P t' | _ => False end → ts1 = [] ∧ ts2 = [] ∧ P t.
Proof. destruct ts1 as [|t1 [|t2 ts1]]; [destruct ts2|..]; cbn; intros H; by try done. Qed.

Lemma pod_ok_step s s' : pod_step decrypt true s s' → pod_ok s → pod_ok s'.
Proof.
  intros Hstep (gen & Hg & Ha & Hsh & Ht). destruct Hstep as [db db' st ts Hc|db st ts Hs|db st ts1 ts2 g|db st ts1 ts2 g rows|db st ts1 ts2 g];
    cbn [pd_db pd_proc pd_threads] in *.
  - destruct Hc as (gen' & Hg' & Hc). rewrite Hg in Hg'. injection Hg' as <-.
    destruct Hc as [Hc|[Hc Hr]].
    + exists (gen + 1). cbn [pd_db pd_proc pd_threads]. split_and!; [done|lia|lia|].
      destruct ts as [|t [|? ?]]; [done| |done].
      destruct t; cbn in Ht |- *; destruct Ht as (z & -> & Ht); exists z; (split; [done|]); [lia|split; [lia|]; lia..].
    + exists gen. cbn [pd_db pd_proc pd_threads]. rewrite Hr. split_and!; [done..|].
      destruct ts as [|t [|? ?]]; [done| |done]. destruct t; cbn in *; rewrite ?Hr; exact Ht.
  - exists gen. split_and!; [done..|]. rewrite (Hs eq_refl). cbn. exists gen. rewrite Hg. split; [done|lia].
  - apply singleton_threads in Ht as (-> & -> & z & -> & Hz). exists gen. split_and!; [done..|].
    cbn. exists z. split; [done|]. split; [lia|done].
  - apply singleton_threads in Ht as (-> & -> & z & -> & Hz & Hr). exists gen. cbn [pd_db pd_proc pd_threads app].
    rewrite !apply_rows_applied. split_and!; [done|done| |].
    + intros Heq. assert (rows = db_rows db) as -> by (apply Hr; lia). apply apply_rows_showing.
    + exists z. rewrite apply_rows_applied. split; [done|]. split; [lia|]. intros Heq. rewrite <- (Hr Heq). apply apply_rows_showing.
  - apply singleton_threads in Ht as (-> & -> & z & -> & Hz & Hr). exists gen. cbn [pd_db pd_proc pd_threads app].
    change (p_applied (mark_applied (Some z) st)) with z. split_and!; [done|lia| |done]. intros Heq. apply mark_applied_showing, Hr. exact Heq.
Qed.
End pods.

(** ** Example values *)
Module RtDemo.
Definition proc : process := Process [("DM_CONFIG_SECRET_KEY", "k")] [] [] true [] (-1) false true [].
Definition row (v : string) : override := Override "API_BASE" v TStr false None 0.
Definition db (g : Z) (v : string) : config_db := ConfigDb (Some g) [row v] [].
End RtDemo.

(** C22. A pod that reloads one thread at a time and whose recorded generation is
    the generation of the database shows exactly the overrides of the database,
    over its baseline, however the reloads and the commits of the administrators
    interleave; and one reload without interference reaches that state from any
    other. *)
Theorem up_to_date_pod decrypt s0 s g0 :
  pd_threads s0 = [] → db_gen (pd_db s0) = Some g0 → p_applied (pd_proc s0) < g0 → rtc (pod_step decrypt true) s0 s →
  (Some (p_applied (pd_proc s)) = db_gen (pd_db s) → showing decrypt (db_rows (pd_db s)) (pd_proc s)) ∧
  let st' := (reload_overrides decrypt (pd_db s) (pd_proc s)).2 in
  Some (p_applied st') = db_gen (pd_db s) ∧ p_ready st' = true ∧ showing decrypt (db_rows (pd_db s)) st'.
Proof.
  intros Ht Hg Ha Hstep. assert (Hok : pod_ok decrypt s).
  { assert (H0 : pod_ok decrypt s0) by (exists g0; rewrite Ht; split_and!; [done|lia|lia|done]).
    clear Ht Hg Ha. induction Hstep as [|s1 s2 s3 H1 _ IH]; [done|]. apply IH. by eapply pod_ok_step. }
  destruct Hok as (gen & Hgen & _ & Hsh & _). rewrite Hgen. split.
  - intros [= Heq]. by apply Hsh.
  - cbv zeta. destruct (reload_showing decrypt (pd_db s) (pd_proc s) gen Hgen) as (H1 & H2 & H3). rewrite H1. done.
Qed.
Lemma up_to_date_pod_witness :
  let st' := (reload_overrides (λ _ _, None) (RtDemo.db 2 "b") RtDemo.proc).2 in
  Some (p_applied st') = Some 2 ∧ p_ready st' = true ∧ showing (λ _ _, None) [RtDemo.row "b"] st'.
Proof.
  refine (proj2 (up_to_date_pod (λ _ _, None) (Pod (RtDemo.db 1 "a") RtDemo.proc []) (Pod (RtDemo.db 2 "b") RtDemo.proc []) 1
    eq_refl eq_refl _ _)); [cbn; lia|]. apply rtc_once. apply ps_write. exists 1. split; [reflexivity|left; reflexivity].
Defined.

(** Two reloads of the same pod can race: the sync loop and the handler of an
    administrator record the generation outside the lock under which they apply
    the values, so a pod can end up recording the current generation, which stops
    its sync loop, while it shows the values of the previous one. *)
Theorem concurrent_reload_race decrypt :
  ∃ s, rtc (pod_step decrypt false) (Pod (RtDemo.db 1 "a") RtDemo.proc []) s ∧ pd_threads s = [] ∧
    Some (p_applied (pd_proc s)) = db_gen (pd_db s) ∧
    db_rows (pd_db s) = [RtDemo.row "b"] ∧ dget "API_BASE" (p_env (pd_proc s)) = Some "a".
Proof.
  set (pa := apply_rows decrypt [RtDemo.row "a"]). set (pb := apply_rows decrypt [RtDemo.row "b"]).
  exists (Pod (RtDemo.db 2 "b") (mark_applied (Some 2) (mark_applied (Some 1) (pa (pb RtDemo.proc)))) []).
  split; [|repeat split; vm_compute; reflexivity].
  eapply rtc_l; [apply ps_start; done|]. eapply rtc_l; [apply (ps_read _ _ _ _ [] [])|].
  eapply rtc_l; [apply (ps_write _ _ _ (RtDemo.db 2 "b")); exists 1; split; [reflexivity|left; reflexivity]|].
  eapply rtc_l; [apply ps_start; done|]. cbn [app].
  eapply rtc_l; [apply (ps_read _ _ _ _ [GotRows (Some 1) [RtDemo.row "a"]] [])|].
  eapply rtc_l; [apply (ps_apply _ _ _ _ [GotRows (Some 1) [RtDemo.row "a"]] [])|]. cbn [app].
  eapply rtc_l; [apply (ps_apply _ _ _ _ [] [Applied (Some 2)])|]. cbn [app].
  eapply rtc_l; [apply (ps_mark _ _ _ _ [] [Applied (Some 2)])|]. cbn [app].
  eapply rtc_l; [apply (ps_mark _ _ _ _ [] [])|]. cbn [app]. apply rtc_refl.
Qed.

(** ** Facts: edition *)
Section edition.
Variable encrypt : string → string → string.
Variable decrypt : string → string → option string.
Hypothesis decrypt_encrypt : ∀ k m, decrypt k (encrypt k m) = Some m.

Lemma spec_of_Some key spec : spec_of key = Some spec → spec ∈ EDITABLE_KEYS ∧ env_name spec = key.
Proof.
  unfold spec_of. intros H. apply find_some in H as [Hin Hk]. apply bool_decide_eq_true in Hk.
  split; [by apply list_elem_of_In|done].
Qed.

Lemma sensitive_str spec : spec ∈ EDITABLE_KEYS → sensitive spec = true → type spec = TStr.
Proof.
  intros Hin Hs. assert (H : forallb (λ s, negb (sensitive s) || match type s with TStr => true | _ => false end) EDITABLE_KEYS = true)
    by (vm_compute; reflexivity).
  rewrite forallb_true_elem in H. specialize (H spec Hin). rewrite Hs in H. by destruct (type spec).
Qed.

Lemma rstrip_by_last p s c : p c = false → rstrip_by p (s +:+ String c "") = s +:+ String c "".
Proof.
  intros Hp. induction s as [|a s IH]; [simpl; by rewrite Hp|]. rewrite sapp_cons. cbn [rstrip_by]. rewrite IH.
  destruct s; reflexivity.
Qed.

Lemma parse_list_str l : _parse_list (str_list l) = l.
Proof. unfold str_list. cbn [_parse_list]. induction l as [|x l IH]; [done|]. rewrite !fmap_cons. by f_equal. Qed.

Lemma parse_list_dumps l : _parse_list (JStr (dumps (str_list l))) = l.
Proof.
  assert (Hd : ∃ x, dumps (str_list l) = "[" +:+ x +:+ "]") by (by eexists). destruct Hd as [x Hx].
  assert (Hl : loads (dumps (str_list l)) = Some (str_list l)).
  { apply loads_dumps. clear Hx. cbn. induction l as [|y l IH]; [done|]. by split. }
  unfold _parse_list, str_or_empty. cbn [truthy py_str].
  assert (Hs : strip (dumps (str_list l)) = dumps (str_list l)).
  { rewrite Hx. unfold strip. change ("[" +:+ x +:+ "]") with (String "[" (x +:+ "]")). rewrite lstrip_by_head by done.
    exact (rstrip_by_last py_isspace (String "[" x) "]" eq_refl). }
  assert (Ht : truthy_str (dumps (str_list l)) = true) by (by rewrite Hx).
  rewrite Ht, Hs, Ht. cbn [negb]. assert (Hb : starts_with "[" (dumps (str_list l)) = true) by (rewrite Hx; apply starts_with_app).
  rewrite Hb, Hl. unfold str_list. apply parse_list_str.
Qed.

(** The stored form of an accepted value decodes to the value. *)
Lemma stored_roundtrip env spec value py stored now actor :
  spec ∈ EDITABLE_KEYS → spec_of (env_name spec) = Some spec → coerce_input spec value = Some py → py ≠ JNull →
  (if sensitive spec then Crypto.encrypt_secret encrypt (secret_key env) (py_str py) else Ok (to_stored_value spec py)) = Ok stored →
  decode_row decrypt env (Override (env_name spec) stored (type spec) (sensitive spec) actor now) = Some py.
Proof.
  intros Hin Hspec Hc Hne Hst. unfold decode_row. cbn [ov_key ov_secret ov_value ov_type]. rewrite Hspec.
  unfold coerce_input in Hc. destruct (_coerce value (type spec)) as [v|] eqn:Ev; [|done].
  destruct (sensitive spec) eqn:Es.
  - rewrite (sensitive_str spec Hin Es) in *. injection Hc as <-.
    pose proof (encrypt_decrypt encrypt decrypt (secret_key env) (py_str v) decrypt_encrypt) as Hr. rewrite Hst in Hr.
    destruct Hr as (_ & _ & ->). cbn [rbind _coerce py_str]. destruct value; cbn in Ev; simplify_eq; done.
  - injection Hst as <-. cbn [rbind]. unfold to_stored_value. destruct (type spec) eqn:Et; cbn [_coerce] in *.
    + injection Hc as <-. destruct value; cbn in Ev; simplify_eq; cbn [_to_env_str coerce_bool]; by case_match.
    + assert (∃ z, v = JInt z) as [z ->].
      { destruct value; cbn [_coerce] in Ev; try (destruct (py_int_json _); cbn in Ev; simplify_eq; by eexists).
        injection Ev as <-. by injection Hc as <-. }
      assert (py = JInt z) as -> by (repeat case_match; simplify_eq; done).
      cbn [_to_env_str py_str py_repr py_int_json]. by rewrite py_int_str_int.
    + injection Hc as <-. destruct value; cbn in Ev; by simplify_eq.
    + destruct v; try done; injection Hc as <-; by rewrite parse_list_str, parse_list_dumps.
Qed.

Lemma decode_fold_lookup env rows acc k :
  NoDup (ov_key <$> rows) →
  dget k (foldl (decode_step decrypt env) acc rows).1 =
  match find (λ o, bool_decide (ov_key o = k)) rows ≫= decode_row decrypt env with
  | Some py => Some py
  | None => dget k acc.1
  end.
Proof.
  revert acc. induction rows as [|o rows IH]; intros acc Hn; [done|]. rewrite fmap_cons in Hn. apply NoDup_cons in Hn as [Ho Hn].
  cbn [foldl find]. rewrite IH by done. unfold decode_step. case_bool_decide as Hk.
  - assert (find (λ o, bool_decide (ov_key o = k)) rows = None) as ->.
    { destruct (find _ rows) as [o'|] eqn:E; [|done]. apply find_some in E as [Hin Hk']. apply bool_decide_eq_true in Hk'.
      destruct Ho. rewrite Hk, <- Hk'. apply list_elem_of_fmap_2. by apply list_elem_of_In. }
    cbn [mbind option_bind]. destruct (decode_row decrypt env o); [|done]. cbn [fst]. rewrite Hk. apply dget_dset_eq.
  - destruct (decode_row decrypt env o); [|done]. cbn [fst]. by rewrite dget_dset_ne by congruence.
Qed.

Lemma decode_rows_lookup env rows k :
  NoDup (ov_key <$> rows) →
  dget k (decode_rows decrypt env rows).1 = find (λ o, bool_decide (ov_key o = k)) rows ≫= decode_row decrypt env.
Proof. intros Hn. unfold decode_rows. rewrite decode_fold_lookup by done. by destruct (_ ≫= _). Qed.

Lemma upsert_override_keys o rows :
  ov_key <$> upsert_override o rows = if decide (ov_key o ∈ ov_key <$> rows) then ov_key <$> rows else (ov_key <$> rows) ++ [ov_key o].
Proof.
  induction rows as [|x rows IH]; [done|]. cbn [upsert_override]. rewrite fmap_cons.
  destruct (decide (ov_key x = ov_key o)) as [He|Hne].
  - rewrite decide_True by (rewrite He; left). by rewrite fmap_cons, He.
  - rewrite fmap_cons, IH. destruct (decide (ov_key o ∈ ov_key <$> rows)) as [Hin|Hn].
    + by rewrite decide_True by (by right).
    + rewrite decide_False; [done|]. intros [?|?]%elem_of_cons; congruence.
Qed.
Lemma upsert_override_nodup o rows : NoDup (ov_key <$> rows) → NoDup (ov_key <$> upsert_override o rows).
Proof.
  intros Hn. rewrite upsert_override_keys. case_decide; [done|]. apply NoDup_app. split; [done|]. split; [|apply NoDup_singleton].
  intros x Hx Hx'. apply list_elem_of_singleton in Hx'. congruence.
Qed.
Lemma upsert_override_find o rows : find (λ x, bool_decide (ov_key x = ov_key o)) (upsert_override o rows) = Some o.
Proof.
  induction rows as [|x rows IH]; cbn [upsert_override find]; [by rewrite bool_decide_true|].
  destruct (decide (ov_key x = ov_key o)); cbn [find]; [by rewrite bool_decide_true|by rewrite bool_decide_false].
Qed.
Lemma find_deleted key rows : find (λ x, bool_decide (ov_key x = key)) (filter (λ o, ov_key o ≠ key) rows) = None.
Proof.
  destruct (find _ _) as [o|] eqn:E; [|done]. apply find_some in E as [Hin Hk]. apply bool_decide_eq_true in Hk.
  apply list_elem_of_In, list_elem_of_filter in Hin as [? _]. done.
Qed.

(** The process after the reload that follows a commit. *)
Lemma reload_key db st g key spec :
  db_gen db = Some g → spec_of key = Some spec → NoDup (ov_key <$> db_rows db) →
  let st' := force_local_reload decrypt (Some db) st in
  let v := default (jget key (p_baseline st))
             (find (λ o, bool_decide (ov_key o = key)) (db_rows db) ≫= decode_row decrypt (p_env st)) in
  p_applied st' = g ∧ dget key (p_env st') = Some (_to_env_str v (type spec)) ∧
  (∀ f, settings_field spec = Some f → dget f (p_settings st') = Some v) ∧ showing decrypt (db_rows db) st'.
Proof.
  intros Hg Hspec Hn. cbv zeta. cbn [force_local_reload]. destruct (reload_showing decrypt db st g Hg) as (H1 & _ & H3).
  apply spec_of_Some in Hspec as [Hin <-]. destruct (H3 spec Hin) as [He Hs]. unfold effective in He, Hs.
  set (st' := (reload_overrides decrypt db st).2) in *.
  assert (Hb : p_baseline st' = p_baseline st ∧ secret_key (p_env st') = secret_key (p_env st)).
  { unfold st', reload_overrides, apply_rows. cbn [snd mark_applied p_baseline p_env].
    destruct (decode_rows decrypt (p_env st) (db_rows db)) as [ov meta]. rewrite secret_key_apply. split; [|done].
    exact (proj1 (apply_state_rest ov _)). }
  destruct Hb as [Hb Hk]. rewrite (decode_rows_env decrypt _ (p_env st)) in He, Hs by done.
  rewrite decode_rows_lookup in He, Hs by done. rewrite Hb in He, Hs. split_and!; [done| | |done].
  - rewrite He. by destruct (_ ≫= _).
  - intros f Hf. rewrite (Hs f Hf). by destruct (_ ≫= _).
Qed.
End edition.

