(* ===== verification/Quota.v ===== *)
(** * LLM quota
    [app/llm/throttle.py]: the fixed-window counters per user. The store is an
    interface with its law, a class, and has the two implementations of the
    source: the table [llm_quota_counters], shared by the replicas, and the
    in-process dictionary. Times are in microseconds, windows in seconds. *)
From S2P Require Import Prelude Text Json Tokens RuntimeConfig.
From Stdlib Require Import Ascii String Sorted.
Open Scope Z_scope.

Definition MICRO : Z := 1000000.
(** The index of the window that holds [now]. *)
Definition window_index (now window_seconds : Z) : Z := now / (window_seconds * MICRO).
(** Seconds to the end of the window, rounded up. *)
Definition seconds_left (now window_seconds : Z) : Z :=
  - ((now - (window_index now window_seconds + 1) * (window_seconds * MICRO)) / MICRO).

(** ** The interface *)
(** [incr now subject limit window_seconds]: whether the request is allowed, the
    count of the window, the delay before a retry; [used window st subject i] is
    the count of window [i]. *)
Class QuotaStore (S : Type) : Type := {
  empty_store : S;
  incr : Z → string → Z → Z → S → (bool * Z * Z) * S;
  used : Z → S → string → Z → Z;
  used_empty : ∀ w s i, used w empty_store s i = 0;
  incr_law : ∀ now subject limit w st, 0 < w ≤ 3600 →
    let i := window_index now w in
    let '((allowed, count, retry_after), st') := incr now subject limit w st in
    count = used w st subject i + 1 ∧ allowed = (count <=? limit) ∧
    retry_after = Z.max 1 (seconds_left now w) ∧
    ∀ s j, i ≤ j → used w st' s j = used w st s j + (if decide (s = subject ∧ j = i) then 1 else 0) }.

(** ** [PostgresQuotaStore] *)
Module Postgres.
(** The counters by subject and start of the window, and the time of the last
    purge of this process. *)
Record store : Type := Store { pg_rows : gmap (string * Z) Z; pg_last_purge : Z }.
Definition _PURGE_INTERVAL : Z := 60 * MICRO.
Definition window_start (now window_seconds : Z) : Z := window_index now window_seconds * (window_seconds * MICRO).
(** [_PURGE_RETENTION_SQL]: one hour *)
Definition _maybe_purge (now : Z) (st : store) : store :=
  if now - pg_last_purge st <? _PURGE_INTERVAL then st
  else Store (filter (λ kv : (string * Z) * Z, ¬ (kv.1.2 < now - 3600 * MICRO)) (pg_rows st)) now.
Definition incr (now : Z) (subject : string) (limit window_seconds : Z) (st : store) : (bool * Z * Z) * store :=
  let key := (subject, window_start now window_seconds) in
  let count := match pg_rows st !! key with Some n => n + 1 | None => 1 end in
  let st := Store (<[key := count]> (pg_rows st)) (pg_last_purge st) in
  ((count <=? limit, count, Z.max 1 (seconds_left now window_seconds)), _maybe_purge now st).
Definition used (w : Z) (st : store) (subject : string) (i : Z) : Z := default 0 (pg_rows st !! (subject, i * (w * MICRO))).
End Postgres.

(** ** [MemoryQuotaStore] *)
Module InMemory.
Definition store : Type := gmap (string * Z) Z.
Definition incr (now : Z) (subject : string) (limit window_seconds : Z) (st : store) : (bool * Z * Z) * store :=
  let i := window_index now window_seconds in
  let count := default 0 (st !! (subject, i)) + 1 in
  let st := <[(subject, i) := count]> st in
  let st := filter (λ kv : (string * Z) * Z, ¬ (kv.1.1 = subject ∧ kv.1.2 < i)) st in
  ((count <=? limit, count, Z.max 1 (seconds_left now window_seconds)), st).
Definition used (w : Z) (st : store) (subject : string) (i : Z) : Z := default 0 (st !! (subject, i)).
End InMemory.

Lemma window_start_range now w : 0 < w → window_index now w * (w * MICRO) ≤ now < (window_index now w + 1) * (w * MICRO).
Proof. intros Hw. unfold window_index, MICRO. pose proof (Z.div_mod now (w * 1000000)). pose proof (Z.mod_pos_bound now (w * 1000000)). lia. Qed.

#[export] Program Instance postgres_quota : QuotaStore Postgres.store := {|
  empty_store := Postgres.Store ∅ 0; incr := Postgres.incr; used := Postgres.used |}.
Next Obligation. done. Qed.
Next Obligation.
  intros now subject limit w st Hw. cbv zeta. unfold Postgres.incr, Postgres.window_start. set (i := window_index now w).
  split_and!; [|done|done|].
  - unfold Postgres.used. by destruct (_ !! _).
  - intros s j Hj. pose proof (window_start_range now w ltac:(lia)) as Hr. fold i in Hr.
    assert (Hp : ∀ st0, Postgres.used w (Postgres._maybe_purge now st0) s j = Postgres.used w st0 s j).
    { intros st0. unfold Postgres._maybe_purge. case_match; [done|]. unfold Postgres.used. cbn [Postgres.pg_rows].
      destruct (Postgres.pg_rows st0 !! (s, j * (w * MICRO))) as [n|] eqn:E.
      - rewrite map_lookup_filter_Some_2 with (x := n); [done|done|]. cbn. unfold MICRO in *. nia.
      - by rewrite map_lookup_filter_None_2 by (by left). }
    rewrite Hp. unfold Postgres.used. cbn [Postgres.pg_rows]. case_decide as Hd.
    + destruct Hd as [-> ->]. rewrite lookup_insert_eq. by destruct (_ !! _).
    + rewrite lookup_insert_ne; [lia|]. intros [= -> Heq]. apply Hd. split; [done|]. unfold MICRO in Heq. nia.
Qed.

#[export] Program Instance memory_quota : QuotaStore InMemory.store := {|
  empty_store := ∅; incr := InMemory.incr; used := InMemory.used |}.
Next Obligation. done. Qed.
Next Obligation.
  intros now subject limit w st Hw. cbv zeta. unfold InMemory.incr. set (i := window_index now w).
  split_and!; [done|done|done|]. intros s j Hj. unfold InMemory.used, InMemory.store in *.
  assert (Hf : ∀ st0 : gmap (string * Z) Z, filter (λ kv : (string * Z) * Z, ¬ (kv.1.1 = subject ∧ kv.1.2 < i)) st0 !! (s, j) = st0 !! (s, j)).
  { intros st0. destruct (st0 !! (s, j)) as [n|] eqn:E.
    - rewrite map_lookup_filter_Some_2 with (x := n); [done|done|]. cbn. lia.
    - by rewrite map_lookup_filter_None_2 by (by left). }
  rewrite Hf. case_decide as Hd.
  - destruct Hd as [-> ->]. rewrite lookup_insert_eq. done.
  - rewrite lookup_insert_ne; [lia|]. intros [= -> ->]. by apply Hd.
Qed.

(** ** [ThrottleInterceptor] *)
(** [int(cfg(k, d) or d)], [d] on a value that is not an integer *)
Definition cfg_int (k : string) (d : Z) (env : environ) : Z :=
  match dget k env with
  | Some s => if truthy_str s then default d (py_int s) else d
  | None => d
  end.
Definition _quota_limit (env : environ) : Z := cfg_int "LLM_QUOTA_REQUESTS_PER_MINUTE" 0 env.
Definition _quota_window_seconds (env : environ) : Z := Z.max 10 (cfg_int "LLM_QUOTA_WINDOW_SECONDS" 60 env).

Record quota_meta : Type := QuotaMeta { qm_count : Z; qm_limit : Z; qm_window : Z }.

Definition rate_limited (limit window retry_after : Z) : LlmProxyError :=
  MkLlmProxyError 429 ("Rate limit exceeded: " +:+ py_str_int limit +:+ " requests per " +:+ py_str_int window +:+
    "s window. Retry after " +:+ py_str_int retry_after +:+ "s.") "rate_limit_exceeded" (Some "rate_limit_exceeded") (Some retry_after).

(** The refusal, what is noted of the quota, the store; [store_up]: the store
    answers, otherwise the request goes through. *)
Definition throttle_before {S} `{QuotaStore S} (env : environ) (now : Z) (store_up : bool) (client_uuid email : string) (st : S)
    : option LlmProxyError * option quota_meta * S :=
  let limit := _quota_limit env in
  if limit <=? 0 then (None, None, st)
  else
    let window := _quota_window_seconds env in
    let subject := str_or client_uuid email in
    if negb (truthy_str subject) || negb store_up then (None, None, st)
    else
      let '((allowed, count, retry_after), st') := incr now subject limit window st in
      ((if allowed : bool then None else Some (rate_limited limit window retry_after)),
       Some (QuotaMeta count limit window), st').

(** ** Facts *)
Section quota.
Context {S : Type} `{QuotaStore S}.
Variables limit w : Z.
Hypothesis Hw : 0 < w ≤ 3600.

(** A sequence of requests, each a time and a subject, and what becomes of them. *)
Fixpoint serve_all (reqs : list (Z * string)) (st : S) : list (Z * string * bool) :=
  match reqs with
  | [] => []
  | (now, subject) :: r =>
      let '((allowed, _, _), st') := incr now subject limit w st in
      (now, subject, allowed) :: serve_all r st'
  end.

Definition asked (s : string) (i : Z) (reqs : list (Z * string)) : Z :=
  Z.of_nat (List.length (filter (λ r : Z * string, r.2 = s ∧ window_index r.1 w = i) reqs)).
Definition granted (s : string) (i : Z) (out : list (Z * string * bool)) : Z :=
  Z.of_nat (List.length (filter (λ r : Z * string * bool, r.1.2 = s ∧ window_index r.1.1 w = i ∧ r.2 = true) out)).

Lemma window_index_mono t t' : t ≤ t' → window_index t w ≤ window_index t' w.
Proof. intros Ht. unfold window_index. apply Z.div_le_mono; unfold MICRO; lia. Qed.

(** Once a window is over, nothing is asked or granted in it. *)
Lemma window_over s i reqs st :
  (∀ r, r ∈ reqs → i < window_index r.1 w) → asked s i reqs = 0 ∧ granted s i (serve_all reqs st) = 0.
Proof.
  unfold asked, granted. revert st. induction reqs as [|[t s0] reqs IH]; intros st Hr; [done|]. cbn [serve_all].
  pose proof (Hr (t, s0) ltac:(left)) as Ht. cbn [fst] in Ht.
  destruct (incr t s0 limit w st) as [[[ok c] ra] st']. rewrite !filter_cons_False by (cbn; lia).
  apply IH. intros r Hin. apply Hr. by right.
Qed.

Lemma granted_spec s i reqs st :
  StronglySorted (λ a b : Z * string, a.1 ≤ b.1) reqs → 0 ≤ used w st s i →
  granted s i (serve_all reqs st) =
  Z.min (Z.max 0 limit) (used w st s i + asked s i reqs) - Z.min (Z.max 0 limit) (used w st s i).
Proof.
  revert st. induction reqs as [|[t s0] reqs IH]; intros st Hs Hn; [unfold asked, granted; cbn; lia|].
  apply StronglySorted_inv in Hs as [Hs Hall]. rewrite List.Forall_forall in Hall.
  destruct (decide (window_index t w ≤ i)) as [Hle|Hgt].
  - cbn [serve_all]. pose proof (incr_law t s0 limit w st Hw) as Hlaw. cbv zeta in Hlaw.
    destruct (incr t s0 limit w st) as [[[ok c] ra] st']. destruct Hlaw as (Hc & Hok & _ & Hu).
    specialize (Hu s i Hle). specialize (IH st' Hs). unfold asked, granted in *. rewrite !filter_cons. cbn [fst snd].
    destruct (decide (s0 = s ∧ window_index t w = i)) as [[-> Hi]|Hno].
    + rewrite (decide_True _ _ (conj eq_refl (eq_sym Hi))) in Hu. rewrite Hi in Hc. rewrite Hu in IH.
      cbn [List.length]. rewrite Nat2Z.inj_succ. destruct ok.
      * rewrite decide_True by done. cbn [List.length]. rewrite Nat2Z.inj_succ, IH by lia. symmetry in Hok. apply Z.leb_le in Hok. lia.
      * rewrite decide_False by naive_solver. rewrite IH by lia. symmetry in Hok. apply Z.leb_gt in Hok. lia.
    + rewrite decide_False in Hu by (intros [-> ->]; by apply Hno). rewrite (decide_False _ _) by (intros (? & ? & ?); by apply Hno).
      rewrite Z.add_0_r in Hu. rewrite Hu in IH. apply IH. lia.
  - destruct (window_over s i ((t, s0) :: reqs) st) as [-> ->]; [|lia].
    intros r [->|Hr]%elem_of_cons; [cbn; lia|]. apply list_elem_of_In in Hr. specialize (Hall r Hr). cbn in Hall.
    pose proof (window_index_mono t r.1 Hall). lia.
Qed.
End quota.


(** A window longer than the retention of an hour, which the environment may set,
    is purged while it is current, and its count starts again. *)
Example long_window_is_purged :
  (serve_all (S := Postgres.store) 1 7200 [(100 * MICRO, "u"); (4000 * MICRO, "u"); (4001 * MICRO, "u")] empty_store).*2 =
  [true; false; true].
Proof. vm_compute. reflexivity. Qed.
