(* ===== verification/Config.v ===== *)
(** * Building the configuration
    The helpers of [app/main.py] that build the configuration of a device:
    resolution of the device in the catalogue, template lookup and merge,
    placeholder substitution, environment and catalogue overrides, access
    control, scrubbing of the secrets and the LLM endpoint override. The file
    system is a function from paths to contents. *)
From S2P Require Import Prelude Text Json Hashing Base64 Tokens RuntimeConfig AdminAuth Relay.
From Stdlib Require Import Ascii String.
Open Scope Z_scope.

(** A row of [plugins]; [pl_template] is null when there is none. *)
Record plugin_row : Type := PluginRow {
  pl_id : Z; pl_slug : string; pl_device_type : string; pl_status : string; pl_template : json;
  pl_access_mode : option string; pl_required_group : option string }.

(** The settings that the configuration depends on. *)
Record settings : Type := Settings {
  telemetry_enabled : bool; telemetry_public_endpoint : string; telemetry_authorization_type : string;
  telemetry_token_signing_key : string; telemetry_token_ttl_seconds : Z;
  relay_enabled : bool; relay_force_keycloak_endpoints : bool; relay_require_key_for_secrets : bool;
  relay_secret_pepper : string; relay_proxy_shared_token : string; config_enabled : bool; config_dir : string }.

(** ** Device resolution *)
Inductive resolved_via : Type := via_slug | via_alias | via_fallback | via_unknown.
Record resolved : Type := Resolved {
  rd_name : option string; rd_type : option string; rd_plugin : option Z; rd_via : resolved_via }.

Definition _DEVICE_TYPE_FALLBACK : list string := ["matisse"; "libreoffice"; "mirai-libreoffice"].

Definition by_slug (plugins : list plugin_row) (device : string) : option plugin_row :=
  find (λ p, bool_decide (pl_slug p = device ∧ pl_status p = "active")) plugins.
(** The join of [plugin_aliases] with the active plugins. *)
Definition by_alias (plugins : list plugin_row) (aliases : list (string * Z)) (device : string) : option plugin_row :=
  head (a ← filter (λ a : string * Z, a.1 = device) aliases;
        filter (λ p, pl_id p = a.2 ∧ pl_status p = "active") plugins).

Definition _resolve_device (plugins : table plugin_row) (aliases : table (string * Z)) (device : string) : resolved :=
  match plugins ≫= λ ps, by_slug ps device with
  | Some p => Resolved (Some (pl_slug p)) (Some (pl_device_type p)) (Some (pl_id p)) via_slug
  | None =>
      match (ps ← plugins; als ← aliases; by_alias ps als device) with
      | Some p => Resolved (Some (pl_slug p)) (Some (pl_device_type p)) (Some (pl_id p)) via_alias
      | None =>
          if decide (device ∈ _DEVICE_TYPE_FALLBACK) then Resolved (Some device) (Some device) None via_fallback
          else Resolved None None None via_unknown
      end
  end.

(** ** Catalogue overrides *)
Record env_override : Type := EnvOverride { eo_plugin : Z; eo_environment : string; eo_key : string; eo_value : string }.
(** A row of [plugin_keycloak_clients] joined with its client. *)
Record kc_link : Type := KcLink { kl_plugin : Z; kl_environment : string; kl_client_id : string; kl_realm : string }.

(** [cfg["config"]] when it is a dict *)
Definition config_of (cfg : list (string * json)) : option (list (string * json)) := as_dict (jget "config" cfg).
(** Writes through the shared [config_obj] land in [cfg]. *)
Definition set_config (cfg config : list (string * json)) : list (string * json) := dset "config" (JObj config) cfg.

Definition _apply_catalog_overrides (overrides : table env_override) (links : table kc_link)
    (plugin_id : Z) (profile : string) (cfg : list (string * json)) : list (string * json) :=
  match config_of cfg with
  | None => cfg
  | Some c0 =>
      let c1 := match overrides with
        | Some os => foldl (λ c o, dset (eo_key o) (JStr (eo_value o)) c) c0
                       (filter (λ o, eo_plugin o = plugin_id ∧ eo_environment o = profile) os)
        | None => c0
        end in
      let c2 := match links with
        | Some ls =>
            match find (λ l, bool_decide (kl_plugin l = plugin_id ∧ kl_environment l = profile)) ls with
            | Some l => dset "keycloakRealm" (JStr (kl_realm l)) (dset "keycloakClientId" (JStr (kl_client_id l)) c1)
            | None => c1
            end
        | None => c1
        end in
      set_config cfg c2
  end.

(** ** Access control *)
Record waitlist_row : Type := WaitlistRow { wl_plugin : Z; wl_email : string; wl_status : string }.

(** [claims.get("groups", [])] of the payload of a bearer token, not verified *)
Definition bearer_groups (auth : string) : result exn json :=
  match split_on "." (sdrop 7 auth) with
  | _ :: p :: _ =>
      if is_ascii (p +:+ "==") then
        match urlsafe_b64decode (p +:+ "==") ≫= Crypto.loads_bytes with
        | Some (JObj claims) => Ok (jget_or "groups" claims (JArr []))
        | _ => Err tt
        end
      else Err tt
  | _ => Err tt
  end.

Definition _check_plugin_access (plugin : option plugin_row) (h : headers) (waitlist : table waitlist_row) : bool :=
  match plugin with
  | None => true
  | Some p =>
      let mode := default "" (pl_access_mode p) in
      if bool_decide (mode = "open") then true
      else if bool_decide (mode = "keycloak_group") then
        let required := default "" (pl_required_group p) in
        if negb (truthy_str required) then true
        else
          let auth := hget "authorization" h in
          if starts_with "bearer " (lower auth) then
            match rbind (bearer_groups auth) (member required) with Ok b => b | Err _ => false end
          else false
      else if bool_decide (mode = "waitlist") then
        let email := strip (hget "x-user-email" h) in
        if truthy_str email then
          match waitlist with
          | Some ws => existsb (λ w, bool_decide (wl_plugin w = pl_id p ∧ wl_email w = email ∧ wl_status w = "approved")) ws
          | None => false
          end
        else false
      else true
  end.

(** ** Templates *)
Definition _build_config_from_template (template : json) (profile : string) : result exn (list (string * json)) :=
  match template with
  | JObj t =>
      let* dflt := match jget_or "default" t (JObj []) with
                   | JObj d => Ok d | JArr [] => Ok [] | JStr "" => Ok [] | _ => Err tt end in
      let merged := match jget_or profile t (JObj []) with
        | JObj e =>
            let m := dupdate dflt e in
            match jget "featureToggles" dflt, jget "featureToggles" e with
            | JObj dt, JObj et => dset "featureToggles" (JObj (dupdate dt et)) m
            | _, _ => m
            end
        | _ => dflt
        end in
      Ok [("configVersion", jget_or "configVersion" t (JInt 1)); ("config", JObj (dpop "_description" merged))]
  | _ => Err tt
  end.

(** [os.path.join(a, b)] *)
Definition path_join (a b : string) : string :=
  if starts_with "/" b then b
  else if negb (truthy_str a) || ends_with "/" a then a +:+ b else a +:+ "/" +:+ b.

(** [config_template IS NOT NULL AND NOT IN ('null', '{}')] *)
Definition has_template (p : plugin_row) : bool := match pl_template p with JNull | JObj [] => false | _ => true end.
(** The row whose template the query returns: the exact slug first, else the
    highest id. *)
Definition template_row (plugins : list plugin_row) (slug device : string) : option plugin_row :=
  let rows := filter (λ p, (pl_slug p = slug ∨ pl_device_type p = device) ∧ pl_status p ≠ "removed" ∧
                has_template p = true) plugins in
  match first_max pl_id (filter (λ p, pl_slug p = slug) rows) with
  | Some p => Some p
  | None => first_max pl_id rows
  end.

Definition candidates (base profile : string) (device device_name : option string) : list string :=
  let pair d := [path_join (path_join base d) ("config." +:+ profile +:+ ".json"); path_join (path_join base d) "config.json"] in
  (match device_name with
   | Some n => if truthy_str n && negb (bool_decide (device = Some n)) then pair n else []
   | None => []
   end ++
   match device with Some d => if truthy_str d then pair d else [] | None => [] end ++
   [path_join base ("config." +:+ profile +:+ ".json"); path_join base "config.json"])%list.

(** [files p] is [None] when there is no such file. The first candidate that
    exists is read; its JSON must be valid. *)
Fixpoint first_file (files : string → option string) (paths : list string) : result exn (option json) :=
  match paths with
  | [] => Ok None
  | p :: r =>
      match files p with
      | Some text => match utf8_decode text ≫= loads with Some v => Ok (Some v) | None => Err tt end
      | None => first_file files r
      end
  end.

(** The part of the lookup that reads the database; every error falls through. *)
Definition db_template (plugins : table plugin_row) (profile : string) (device device_name : option string)
    : option (list (string * json)) :=
  let slug := str_or (default "" device_name) (default "" device) in
  if truthy_str slug then
    match plugins ≫= λ ps, template_row ps slug (str_or (default "" device) slug) with
    | Some p =>
        match pl_template p with
        | JObj t => match _build_config_from_template (JObj t) profile with Ok c => Some c | Err _ => None end
        | JStr s =>
            match loads s with
            | Some t => match _build_config_from_template t profile with Ok c => Some c | Err _ => None end
            | None => None
            end
        | _ => None
        end
    | None => None
    end
  else None.

(** [cur]: [None] without a cursor. *)
Definition _load_config_template (files : string → option string) (config_dir repo_root : string)
    (cur : option (table plugin_row)) (profile : string) (device device_name : option string) : result exn json :=
  match cur ≫= λ ps, db_template ps profile device device_name with
  | Some c => Ok (JObj c)
  | None =>
      let bases := ((if truthy_str config_dir then [config_dir] else []) ++ [path_join repo_root "config"])%list in
      let* found := first_file files (b ← bases; candidates b profile device device_name) in
      Ok match found with
         | Some v => v
         | None => JObj [("configVersion", JInt 1); ("config", JObj [])]
         end
  end.

(** ** Placeholder substitution *)
Definition is_var_char (c : ascii) : bool :=
  let n := code c in ((65 <=? n) && (n <=? 90)) || ((48 <=? n) && (n <=? 57)) || (n =? 95).
Fixpoint span_var (s : string) : string * string :=
  match s with
  | String c r => if is_var_char c then let '(v, q) := span_var r in (String c v, q) else ("", s)
  | "" => ("", "")
  end.
(** A match of the pattern at the start of [s]: the variable and the rest. *)
Definition match_var (s : string) : option (string * string) :=
  if starts_with "${{" s then
    let '(v, r) := span_var (sdrop 3 s) in
    if truthy_str v && starts_with "}}" r then Some (v, sdrop 2 r) else None
  else if starts_with "${" s then
    let '(v, r) := span_var (sdrop 2 s) in
    if truthy_str v && starts_with "}" r then Some (v, sdrop 1 r) else None
  else None.
(** Each step consumes a character, so the length is enough fuel. *)
Fixpoint substitute_go (fuel : nat) (env : environ) (s : string) : string :=
  match fuel with
  | O => s
  | S f =>
      match match_var s with
      | Some (v, r) => getenv v "" env +:+ substitute_go f env r
      | None => match s with "" => "" | String c r => String c (substitute_go f env r) end
      end
  end.
Definition _substitute_env_in_str (env : environ) (value : string) : string :=
  substitute_go (S (String.length value)) env value.
Fixpoint _substitute_env (env : environ) (obj : json) : json :=
  match obj with
  | JObj d => JObj ((λ kv, (kv.1, _substitute_env env kv.2)) <$> d)
  | JArr l => JArr (_substitute_env env <$> l)
  | JStr s => JStr (_substitute_env_in_str env s)
  | v => v
  end.

(** ** Environment overrides *)
(** Scheme and network location of a URL, as [urllib.parse.urlparse] splits it
    (bracketed hosts are not validated). *)
Definition is_alpha (c : ascii) : bool :=
  let n := code c in ((65 <=? n) && (n <=? 90)) || ((97 <=? n) && (n <=? 122)).
Definition is_scheme_char (c : ascii) : bool :=
  is_alpha c || is_digit c || is_char "+" c || is_char "-" c || is_char "." c.
Fixpoint until (p : ascii → bool) (s : string) : string :=
  match s with "" => "" | String c r => if p c then "" else String c (until p r) end.
Definition url_origin (url : string) : option (string * string) :=
  match split_once ":" url with
  | Some (scheme, rest) =>
      match scheme with
      | String c _ =>
          if is_alpha c && sforall is_scheme_char scheme && starts_with "//" rest then
            let netloc := until (λ a, is_char "/" a || is_char "?" a || is_char "#" a) (sdrop 2 rest) in
            if truthy_str netloc then Some (lower scheme, netloc) else None
          else None
      | "" => None
      end
  | None => None
  end.

Definition public_base (env : environ) : string := rstrip_char "/" (strip (getenv "PUBLIC_BASE_URL" "" env)).

Definition _resolve_public_telemetry_endpoint (st : settings) (env : environ) : string :=
  let endpoint := str_or (strip (telemetry_public_endpoint st)) "/telemetry/v1/traces" in
  if starts_with "http://" endpoint || starts_with "https://" endpoint then endpoint
  else
    let endpoint := if starts_with "/" endpoint then endpoint else "/" +:+ endpoint in
    match url_origin (public_base env) with
    | Some (scheme, netloc) => scheme +:+ "://" +:+ netloc +:+ endpoint
    | None => endpoint
    end.

(** [jti] is the random identifier of the telemetry token. *)
Definition _apply_overrides (st : settings) (env : environ) (now : Z) (jti profile : string) (device : option string)
    (client_uuid : string) (cfg : list (string * json)) : list (string * json) :=
  match config_of cfg with
  | None => cfg
  | Some c =>
      let c := dset "telemetryEnabled" (JBool (telemetry_enabled st)) c in
      let c := dset "telemetryEndpoint" (JStr (_resolve_public_telemetry_endpoint st env)) c in
      let c := dset "telemetryAuthorizationType" (JStr (telemetry_authorization_type st)) c in
      let c := match cfg_list "DM_BOOTSTRAP_URLS" env with
               | [] => c | urls => dset "bootstrapUrls" (str_list urls) c end in
      let base := public_base env in
      let c := if truthy_str base then
          let c := dset "relayAssistantBaseUrl" (JStr (base +:+ "/relay-assistant")) c in
          if relay_force_keycloak_endpoints st then
            dset "keycloakUserinfoEndpoint" (JStr (base +:+ "/relay-assistant/keycloak/protocol/openid-connect/userinfo"))
              (dset "keycloakTokenEndpoint" (JStr (base +:+ "/auth/token")) c)
          else c
        else c in
      let '(token, expires_at) :=
        if telemetry_enabled st && bool_decide (lower (telemetry_authorization_type st) = "bearer")
        then Telemetry._mint_telemetry_token now jti (telemetry_token_signing_key st) (telemetry_token_ttl_seconds st)
               device profile client_uuid
        else ("", None) in
      let c := dset "telemetryKey" (JStr token) c in
      let c := match expires_at with
        | Some e => dset "telemetryKeyTtlSeconds" (JInt (telemetry_token_ttl_seconds st)) (dset "telemetryKeyExpiresAt" (JInt e) c)
        | None => c
        end in
      set_config cfg c
  end.

(** ** Secrets *)
Definition _AUTH_REQUIRED_MSG : string :=
  "Authentification requise. Effectuez un enrollment (POST /enroll) pour obtenir vos credentials relay.".

Definition scrub_key (acc : bool * list (string * json)) (k : string) : bool * list (string * json) :=
  match dget k acc.2 with
  | Some v => if truthy v then (true, dset k (JStr "") acc.2) else acc
  | None => acc
  end.
Definition _scrub_secret_values (cfg : list (string * json)) : list (string * json) :=
  match config_of cfg with
  | None => cfg
  | Some c =>
      let '(has_secrets, c) := foldl scrub_key (false, c) Crypto.SECRET_CONFIG_KEYS in
      let c := match dget "authHeaderKey" c with Some _ => dset "authHeaderKey" (JStr "") c | None => c end in
      let c := if has_secrets : bool then dset "_auth_notice" (JStr _AUTH_REQUIRED_MSG) c else c in
      set_config cfg c
  end.

(** ** LLM endpoint *)
(** [str(runtime_config.cfg(k, "") or "")] *)
Definition cfg_str (k : string) (env : environ) : string := RuntimeConfig.cfg k "" env.
Definition _force_llm_endpoint_override (env : environ) : bool :=
  let raw := lower (strip (cfg_str "FORCE_LLM_ENDPOINT_OVERRIDE" env)) in
  if negb (truthy_str raw) then true else bool_decide (raw ∈ truthy_words).

Definition public_llm_proxy_url (env : environ) : string :=
  let url := rstrip_char "/" (strip (cfg_str "PUBLIC_LLM_PROXY_URL" env)) in
  if truthy_str url then url
  else
    let base := public_base env in
    if truthy_str base then base +:+ "/llm/v1" else "".

Definition _apply_llm_proxy_overrides (env : environ) (now : Z) (jti : string) (relay : option relay_info)
    (cfg : list (string * json)) : list (string * json) :=
  match config_of cfg with
  | None => cfg
  | Some c =>
      let proxy_url := if _force_llm_endpoint_override env then public_llm_proxy_url env else "" in
      let c := if truthy_str proxy_url then
          let c := dset "llmToken" (JStr "") (dset "llm_api_tokens" (JStr "")
                     (dset "relayAssistantBaseUrl" (JStr proxy_url)
                       (dset "llm_base_urls" (JStr proxy_url) (dset "llmEndpoint" (JStr proxy_url) c)))) in
          match relay with
          | Some info =>
              let '(token, exp) := Llm.mint_llm_token now jti (cfg_str "DM_LLM_TOKEN_SIGNING_KEY" env)
                (py_int (getenv "DM_LLM_TOKEN_TTL_SECONDS" "3600" env)) (ri_client_uuid info) (ri_email info) in
              if truthy_str token then
                let c := dset "llm_api_tokens" (JStr token) (dset "llmToken" (JStr token) c) in
                match exp with Some e => dset "llmTokenExpiresAt" (JInt e) c | None => c end
              else c
          | None => c
          end
        else
          dset "llmEndpoint" (JStr (str_or (strip (cfg_str "LLM_BASE_URL" env)) (str_or_empty (jget "llm_base_urls" c)))) c in
      let c := dset "embdModel" (JStr (cfg_str "EMBD_MODEL_NAME" env)) c in
      let c := dset "embdUrl" (JStr (str_or_empty (jget "llmEndpoint" c))) c in
      let c := dset "embdToken" (JStr (str_or_empty (jget "llmToken" c))) c in
      set_config cfg c
  end.

(** ** Facts: merge and substitution *)
Lemma config_of_set cfg c : config_of (set_config cfg c) = Some c.
Proof. unfold config_of, set_config, jget. by rewrite dget_dset_eq. Qed.

(** Merging a template for a profile: for every key but the documentation
    field, the value of the profile's section when it has the key, else the
    default's; the feature toggles are merged flag by flag when both sections
    have them, so a profile that sets one flag keeps the others; the
    documentation field is never served. *)
Theorem template_merge t dflt env profile :
  dget "default" t = Some (JObj dflt) → dget profile t = Some (JObj env) → dict_wf dflt → dict_wf env →
  ∃ cfg c, _build_config_from_template (JObj t) profile = Ok cfg ∧ config_of cfg = Some c ∧
    dget "_description" c = None ∧
    (∀ k, k ≠ "_description" → k ≠ "featureToggles" →
       dget k c = match dget k env with Some v => Some v | None => dget k dflt end) ∧
    (∀ dt et n, dget "featureToggles" dflt = Some (JObj dt) → dget "featureToggles" env = Some (JObj et) → dict_wf et →
       ∃ toggles, dget "featureToggles" c = Some (JObj toggles) ∧
         dget n toggles = match dget n et with Some v => Some v | None => dget n dt end).
Proof.
  intros Hd He Hwd Hwe. unfold _build_config_from_template, jget_or. rewrite Hd, He. cbn [rbind].
  eexists _, _. split; [reflexivity|]. split; [reflexivity|]. split; [apply dget_dpop_eq|]. split.
  - intros k Hk Hf. rewrite dget_dpop_ne by done. unfold jget.
    destruct (dget "featureToggles" dflt) as [[]|], (dget "featureToggles" env) as [[]|];
      rewrite ?dget_dset_ne by done; by apply dupdate_dget.
  - intros dt et n Hdt Het Hwet. rewrite dget_dpop_ne by done. unfold jget. rewrite Hdt, Het, dget_dset_eq.
    eexists. split; [done|]. by apply dupdate_dget.
Qed.
Lemma template_merge_witness :
  ∃ cfg c, _build_config_from_template (JObj [("default", JObj [("featureToggles", JObj [("a", JBool true); ("b", JBool true)])]);
      ("prod", JObj [("featureToggles", JObj [("b", JBool false)])])]) "prod" = Ok cfg ∧ config_of cfg = Some c ∧ dget "_description" c = None.
Proof.
  destruct (template_merge [("default", JObj [("featureToggles", JObj [("a", JBool true); ("b", JBool true)])]);
      ("prod", JObj [("featureToggles", JObj [("b", JBool false)])])]
      [("featureToggles", JObj [("a", JBool true); ("b", JBool true)])] [("featureToggles", JObj [("b", JBool false)])] "prod") as (cfg & c & H1 & H2 & H3 & _);
    [reflexivity|reflexivity|apply (bool_decide_unpack _); reflexivity|apply (bool_decide_unpack _); reflexivity|].
  exists cfg, c. exact (conj H1 (conj H2 H3)).
Defined.

Lemma span_var_app v r :
  sforall is_var_char v = true → (match r with String c _ => is_var_char c = false | "" => True end) → span_var (v +:+ r) = (v, r).
Proof.
  intros Hv Hr. induction v as [|c v IH].
  - rewrite sapp_nil_l. destruct r as [|c r]; [done|]. simpl. by rewrite Hr.
  - simpl in Hv. apply andb_true_iff in Hv as [Hc Hv]. rewrite sapp_cons. simpl. by rewrite Hc, IH.
Qed.

Lemma span_var_eq s v r : span_var s = (v, r) → s = v +:+ r.
Proof.
  revert v r. induction s as [|c s IH]; intros v r; simpl; [intros [= <- <-]; done|].
  destruct (is_var_char c); [|intros [= <- <-]; done]. destruct (span_var s) as [v' r'].
  intros [= <- <-]. rewrite sapp_cons. by rewrite <- (IH v' r' eq_refl).
Qed.

Lemma sdrop_len n s : (String.length (sdrop n s) ≤ String.length s)%nat.
Proof. revert s. induction n as [|n IH]; intros [|c s]; simpl; try lia. specialize (IH s). lia. Qed.

Lemma sapp_length s t : String.length (s +:+ t) = (String.length s + String.length t)%nat.
Proof. induction s as [|c s IH]; [done|]. rewrite sapp_cons. simpl. by rewrite IH. Qed.

Lemma match_var_shrinks s v r : match_var s = Some (v, r) → (String.length r < String.length s)%nat.
Proof.
  unfold match_var. intros H.
  assert (Hgo : ∀ k n v r, (0 < n)%nat →
    (let '(v', r') := span_var (sdrop k s) in if truthy_str v' && starts_with (srepeat "}" n) r' then Some (v', sdrop n r') else None) = Some (v, r) →
    (String.length r < String.length s)%nat).
  { clear. intros k n v r Hn. destruct (span_var (sdrop k s)) as [v' r'] eqn:E. destruct (truthy_str v') eqn:Ev; [|done].
    cbn [andb]. destruct (starts_with _ r'); [|done]. intros [= <- <-]. apply span_var_eq in E.
    pose proof (sdrop_len k s) as Hk. rewrite E, sapp_length in Hk. pose proof (sdrop_len n r').
    destruct v'; [done|]. simpl in Hk. lia. }
  destruct (starts_with "${{" s); [apply (Hgo 3%nat 2%nat v r); [lia|exact H]|].
  destruct (starts_with "${" s); [apply (Hgo 2%nat 1%nat v r); [lia|exact H]|done].
Qed.

(** Fuel beyond the length changes nothing. *)
Lemma substitute_go_fuel f1 f2 env s :
  (String.length s < f1)%nat → (String.length s < f2)%nat → substitute_go f1 env s = substitute_go f2 env s.
Proof.
  revert f2 s. induction f1 as [|f1 IH]; intros [|f2] s H1 H2; try lia. simpl.
  destruct (match_var s) as [[v r]|] eqn:E.
  - apply match_var_shrinks in E. f_equal. apply IH; lia.
  - destruct s as [|c s]; [done|]. simpl in *. f_equal. apply IH; lia.
Qed.

Lemma substitute_go_match n env s v r :
  match_var s = Some (v, r) → substitute_go (S n) env s = getenv v "" env +:+ substitute_go n env r.
Proof. intros H. cbn [substitute_go]. by rewrite H. Qed.

Lemma match_var_no_dollar c s : is_char "$" c = false → match_var (String c s) = None.
Proof.
  intros H. destruct c as [[] [] [] [] [] [] [] []]; (discriminate H || reflexivity).
Qed.

Lemma substitute_prefix env a b :
  sforall (λ c, negb (is_char "$" c)) a = true →
  _substitute_env_in_str env (a +:+ b) = a +:+ _substitute_env_in_str env b.
Proof.
  unfold _substitute_env_in_str. induction a as [|c a IH]; intros Ha; [done|]. simpl in Ha.
  apply andb_true_iff in Ha as [Hc Ha]. apply negb_true_iff in Hc. rewrite sapp_cons. cbn [String.length].
  change (substitute_go (S ?n) env ?s) with (match match_var s with
    | Some (v, r) => getenv v "" env +:+ substitute_go n env r
    | None => match s with "" => "" | String c r => String c (substitute_go n env r) end end) at 1.
  rewrite match_var_no_dollar by done. rewrite sapp_cons. f_equal. by apply IH.
Qed.

(** Placeholders: a text without a dollar sign is kept as it is, and the
    first placeholder of a text, in either syntax, is replaced by the value of
    its variable, empty when it is not set, and the rest is treated the same. *)
Theorem placeholder_substitution env a v b :
  sforall (λ c, negb (is_char "$" c)) a = true → sforall is_var_char v = true → v ≠ "" →
  _substitute_env_in_str env a = a ∧
  _substitute_env_in_str env (a +:+ "${{" +:+ v +:+ "}}" +:+ b) = a +:+ getenv v "" env +:+ _substitute_env_in_str env b ∧
  _substitute_env_in_str env (a +:+ "${" +:+ v +:+ "}" +:+ b) = a +:+ getenv v "" env +:+ _substitute_env_in_str env b.
Proof.
  intros Ha Hv Hne. split_and!.
  - rewrite <- (sapp_nil_r a) at 1. rewrite substitute_prefix by done. change (_substitute_env_in_str env "") with "". by rewrite sapp_nil_r.
  - rewrite substitute_prefix by done. f_equal. unfold _substitute_env_in_str. set (s := "${{" +:+ _).
    assert (Hm : match_var s = Some (v, b)).
    { unfold match_var, s. rewrite starts_with_app. change (sdrop 3 ("${{" +:+ ?x)) with x.
      rewrite span_var_app by done. apply truthy_str_true in Hne. by rewrite Hne, starts_with_app. }
    pose proof (match_var_shrinks _ _ _ Hm). rewrite (substitute_go_match _ _ _ _ _ Hm). f_equal. apply substitute_go_fuel; lia.
  - rewrite substitute_prefix by done. f_equal. unfold _substitute_env_in_str. set (s := "${" +:+ _).
    assert (Hm : match_var s = Some (v, b)).
    { unfold match_var, s. assert (Hs : starts_with "${{" ("${" +:+ v +:+ "}" +:+ b) = false).
      { destruct v as [|c v]; [done|]. cbn [sforall] in Hv. apply andb_true_iff in Hv as [Hc _]. clear -Hc.
        destruct c as [[] [] [] [] [] [] [] []]; (discriminate Hc || reflexivity). }
      rewrite Hs, starts_with_app. change (sdrop 2 ("${" +:+ ?x)) with x.
      rewrite span_var_app by done. apply truthy_str_true in Hne. by rewrite Hne, starts_with_app. }
    pose proof (match_var_shrinks _ _ _ Hm). rewrite (substitute_go_match _ _ _ _ _ Hm). f_equal. apply substitute_go_fuel; lia.
Qed.
Lemma placeholder_substitution_witness :
  _substitute_env_in_str [("HOST", "dm.fr")] "https://${{HOST}}/x" = "https://dm.fr/x".
Proof. exact (proj1 (proj2 (placeholder_substitution [("HOST", "dm.fr")] "https://" "HOST" "/x" eq_refl eq_refl ltac:(done)))). Defined.

(** ** Facts: secrets *)
(** No secret key of the configuration has a value. *)
Definition no_secrets (c : list (string * json)) : Prop :=
  ∀ k v, k ∈ Crypto.SECRET_CONFIG_KEYS → dget k c = Some v → truthy v = false.

Lemma scrub_fold_other ks acc k : k ∉ ks → dget k (foldl scrub_key acc ks).2 = dget k acc.2.
Proof.
  revert acc. induction ks as [|k' ks IH]; intros acc Hk; [done|]. simpl. rewrite IH by set_solver.
  unfold scrub_key. repeat case_match; [|done..]. apply dget_dset_ne. set_solver.
Qed.

Lemma scrub_key_falsy acc k k' v :
  (dget k acc.2 = Some v → truthy v = false) → dget k (scrub_key acc k').2 = Some v → truthy v = false.
Proof.
  intros Hf. unfold scrub_key. destruct (dget k' acc.2) as [u|] eqn:E; [|exact Hf].
  destruct (truthy u); [|exact Hf]. cbn [snd]. rewrite dget_dset. case_decide; [|exact Hf]. by intros [= <-].
Qed.

Lemma scrub_fold_falsy ks acc k v :
  (k ∈ ks ∨ ∀ u, dget k acc.2 = Some u → truthy u = false) →
  dget k (foldl scrub_key acc ks).2 = Some v → truthy v = false.
Proof.
  revert acc. induction ks as [|k' ks IH]; intros acc H; cbn [foldl].
  - destruct H as [H|H]; [set_solver|]. apply H.
  - apply IH. destruct H as [H|H]; [|right; intros u; apply scrub_key_falsy, H].
    apply elem_of_cons in H as [->|H]; [right|by left]. intros u. unfold scrub_key.
    destruct (dget k' acc.2) as [w|] eqn:E; [|congruence].
    destruct (truthy w) eqn:Ew; [|congruence]. cbn [snd]. rewrite dget_dset_eq. by intros [= <-].
Qed.

Lemma no_secrets_dset c k v :
  no_secrets c → (k ∈ Crypto.SECRET_CONFIG_KEYS → truthy v = false) → no_secrets (dset k v c).
Proof.
  intros Hc Hv k' v' Hk'. rewrite dget_dset. case_decide; [|by apply Hc]. intros [= <-]. subst. auto.
Qed.

(** An assignment of an empty value, or to a key that is not a secret. *)
Ltac no_secrets_step :=
  first [ apply no_secrets_dset; [|intros _; reflexivity]
        | apply no_secrets_dset;
          [|let Hin := fresh in intros Hin; exfalso; revert Hin; apply (bool_decide_unpack _); reflexivity] ].

Lemma scrub_spec cfg c :
  config_of cfg = Some c →
  ∃ c', config_of (_scrub_secret_values cfg) = Some c' ∧ no_secrets c' ∧
    (∀ v, dget "authHeaderKey" c' = Some v → v = JStr "") ∧
    (∀ k, k ∉ Crypto.SECRET_CONFIG_KEYS → k ≠ "authHeaderKey" → k ≠ "_auth_notice" → dget k c' = dget k c).
Proof.
  intros Hc. unfold _scrub_secret_values. rewrite Hc.
  destruct (foldl scrub_key (false, c) Crypto.SECRET_CONFIG_KEYS) as [has c1] eqn:E.
  assert (H1 : no_secrets c1).
  { intros k v Hk. pose proof (scrub_fold_falsy Crypto.SECRET_CONFIG_KEYS (false, c) k v (or_introl Hk)) as H. by rewrite E in H. }
  assert (H2 : ∀ k, k ∉ Crypto.SECRET_CONFIG_KEYS → dget k c1 = dget k c).
  { intros k Hk. pose proof (scrub_fold_other _ (false, c) k Hk) as H. by rewrite E in H. }
  set (c2 := match dget "authHeaderKey" c1 with Some _ => _ | None => _ end).
  assert (Hc2 : no_secrets c2 ∧ (∀ v, dget "authHeaderKey" c2 = Some v → v = JStr "") ∧
                ∀ k, k ≠ "authHeaderKey" → dget k c2 = dget k c1).
  { unfold c2. destruct (dget "authHeaderKey" c1) eqn:Ea; split_and!; try done.
    - by apply no_secrets_dset.
    - rewrite dget_dset_eq. by intros ? [= <-].
    - intros k Hk. by apply dget_dset_ne.
    - congruence. }
  clearbody c2. destruct Hc2 as (Ha & Hb & Hd). exists (if has then dset "_auth_notice" (JStr _AUTH_REQUIRED_MSG) c2 else c2).
  split; [apply config_of_set|]. destruct has; split_and!; try done.
  - apply no_secrets_dset; [done|]. intros Hin. exfalso. revert Hin. by apply (bool_decide_unpack _).
  - intros v. rewrite dget_dset_ne by done. apply Hb.
  - intros k Hk Hk1 Hk2. rewrite dget_dset_ne, Hd, H2; done.
  - intros k Hk Hk1 Hk2. rewrite Hd, H2; done.
Qed.

(** Without relay authentication no secret is served: after the scrubbing
    every secret key is empty or absent and the legacy key is blanked, while
    every other key keeps its value. *)
Theorem secrets_scrubbed cfg c :
  config_of cfg = Some c →
  ∃ c', config_of (_scrub_secret_values cfg) = Some c' ∧ no_secrets c' ∧
    (∀ v, dget "authHeaderKey" c' = Some v → v = JStr "") ∧
    (∀ k, k ∉ Crypto.SECRET_CONFIG_KEYS → k ≠ "authHeaderKey" → k ≠ "_auth_notice" → dget k c' = dget k c).
Proof. exact (scrub_spec cfg c). Qed.
Lemma secrets_scrubbed_witness :
  ∃ c', config_of (_scrub_secret_values [("config", JObj [("llmToken", JStr "tok"); ("title", JStr "t")])]) = Some c' ∧
    no_secrets c' ∧ dget "title" c' = Some (JStr "t").
Proof.
  destruct (secrets_scrubbed [("config", JObj [("llmToken", JStr "tok"); ("title", JStr "t")])] _ eq_refl) as (c' & H1 & H2 & _ & H3).
  exists c'. split; [exact H1|]. split; [exact H2|]. rewrite H3; [reflexivity|apply (bool_decide_unpack _); reflexivity|done|done].
Defined.
