(* ===== verification/LlmProxy.v ===== *)
(** * The LLM proxy
    [app/llm/guardrails.py], [pipeline.py], [backends.py], [proxy.py] and
    [router.py]: the interceptors and their pipeline, the registry of the
    backends, and the three routes as functions from the request, the
    environment and the backend's answer to the response and the state they leave
    (context, quota store, requests sent to the backend, records of the end of
    the request). The HTTP call to the backend is an argument. *)
From S2P Require Import Prelude Text Json Tokens RuntimeConfig AdminAuth Relay Quota Config.
From Stdlib Require Import Ascii String.
Open Scope Z_scope.

(** ** Context *)
Record LlmRequestContext : Type := Ctx {
  cx_identity : option LlmAuth.LlmIdentity; cx_trace_id : string; cx_route : string; cx_model : string; cx_stream : bool;
  cx_payload : json; cx_backend : string; cx_verdicts : list string; cx_quota : option quota_meta; cx_usage : option json }.

Definition set_identity (i : LlmAuth.LlmIdentity) (c : LlmRequestContext) : LlmRequestContext :=
  Ctx (Some i) (cx_trace_id c) (cx_route c) (cx_model c) (cx_stream c) (cx_payload c) (cx_backend c) (cx_verdicts c) (cx_quota c) (cx_usage c).
Definition set_request (model : string) (stream : bool) (payload : json) (c : LlmRequestContext) : LlmRequestContext :=
  Ctx (cx_identity c) (cx_trace_id c) (cx_route c) model stream payload (cx_backend c) (cx_verdicts c) (cx_quota c) (cx_usage c).
Definition set_payload (p : json) (c : LlmRequestContext) : LlmRequestContext := set_request (cx_model c) (cx_stream c) p c.
Definition set_backend (name : string) (c : LlmRequestContext) : LlmRequestContext :=
  Ctx (cx_identity c) (cx_trace_id c) (cx_route c) (cx_model c) (cx_stream c) (cx_payload c) name (cx_verdicts c) (cx_quota c) (cx_usage c).
Definition add_verdict (v : string) (c : LlmRequestContext) : LlmRequestContext :=
  Ctx (cx_identity c) (cx_trace_id c) (cx_route c) (cx_model c) (cx_stream c) (cx_payload c) (cx_backend c) (cx_verdicts c ++ [v]) (cx_quota c) (cx_usage c).
Definition set_quota (q : option quota_meta) (c : LlmRequestContext) : LlmRequestContext :=
  Ctx (cx_identity c) (cx_trace_id c) (cx_route c) (cx_model c) (cx_stream c) (cx_payload c) (cx_backend c) (cx_verdicts c)
    (match q with Some _ => q | None => cx_quota c end) (cx_usage c).
Definition set_usage (body : json) (c : LlmRequestContext) : LlmRequestContext :=
  Ctx (cx_identity c) (cx_trace_id c) (cx_route c) (cx_model c) (cx_stream c) (cx_payload c) (cx_backend c) (cx_verdicts c) (cx_quota c)
    (match body with JObj d => match dget "usage" d with Some (JObj u) => Some (JObj u) | _ => cx_usage c end | _ => cx_usage c end).

(** ** Guardrails *)
Inductive Direction : Type := REQUEST | RESPONSE.
Inductive verdict : Type := Allow | Deny (reason : string) | Transform (payload : option json).
Record Guardrail : Type := MkGuardrail { gd_name : string; gd_check : json → Direction → LlmRequestContext → verdict }.
Definition NoopGuardrail : Guardrail := MkGuardrail "noop" (λ _ _ _, Allow).
Definition DenyAllGuardrail : Guardrail := MkGuardrail "deny_all" (λ _ _ _, Deny "blocked by policy (deny_all)").
Definition GUARDRAIL_REGISTRY : list (string * Guardrail) :=
  [(gd_name NoopGuardrail, NoopGuardrail); (gd_name DenyAllGuardrail, DenyAllGuardrail)].

Definition stripped (l : list string) : list string := strip <$> filter (λ i, truthy_str (strip i) = true) l.
Definition _configured_names (env : environ) : list string :=
  let raw := strip (RuntimeConfig.cfg "LLM_GUARDRAILS" "" env) in
  if negb (truthy_str raw) then [gd_name NoopGuardrail]
  else if starts_with "[" raw then
    match loads raw with Some (JArr l) => stripped (py_str <$> l) | _ => [gd_name NoopGuardrail] end
  else stripped (split_on "," raw).
Definition build_guardrails (env : environ) : list Guardrail :=
  omap (λ n, dget n GUARDRAIL_REGISTRY) (_configured_names env).

Definition policy_error (reason dflt : string) : LlmProxyError :=
  MkLlmProxyError 403 (str_or reason dflt) "invalid_request_error" (Some "content_policy_violation") None.
Fixpoint guardrails_before (gs : list Guardrail) (payload : json) (c : LlmRequestContext)
    : option LlmProxyError * LlmRequestContext :=
  match gs with
  | [] => (None, set_payload payload c)
  | g :: r =>
      match gd_check g payload REQUEST c with
      | Deny reason => (Some (policy_error reason "Request blocked by guardrail."), add_verdict ("guardrail:" +:+ gd_name g +:+ ":deny") c)
      | Transform (Some p) => guardrails_before r p (add_verdict ("guardrail:" +:+ gd_name g +:+ ":transform") c)
      | _ => guardrails_before r payload c
      end
  end.
Fixpoint guardrails_after (gs : list Guardrail) (body : json) (c : LlmRequestContext)
    : result LlmProxyError json * LlmRequestContext :=
  match gs with
  | [] => (Ok body, c)
  | g :: r =>
      match gd_check g body RESPONSE c with
      | Deny reason => (Err (policy_error reason "Response blocked by guardrail."), add_verdict ("guardrail:" +:+ gd_name g +:+ ":deny_response") c)
      | Transform (Some p) => guardrails_after r p (add_verdict ("guardrail:" +:+ gd_name g +:+ ":transform_response") c)
      | _ => guardrails_after r body c
      end
  end.

(** ** Pipeline *)
Section proxy.
Context {S : Type} `{QuotaStore S}.

Record Interceptor : Type := MkInterceptor {
  it_name : string;
  it_before : LlmRequestContext → S → option LlmProxyError * LlmRequestContext * S;
  it_after : LlmRequestContext → json → result LlmProxyError json * LlmRequestContext;
  it_on_chunk : LlmRequestContext → string → string }.

Definition ThrottleInterceptor (env : environ) (now : Z) (store_up : bool) : Interceptor :=
  MkInterceptor "throttle"
    (λ c st,
      let '(uuid, email) := match cx_identity c with
        | Some i => (LlmAuth.id_client_uuid i, LlmAuth.id_email i) | None => ("", "") end in
      let '(denied, meta, st') := throttle_before env now store_up uuid email st in
      let c := set_quota meta c in
      (denied, (match denied with Some _ => add_verdict "throttle:deny" c | None => c end), st'))
    (λ c body, (Ok body, c)) (λ _ chunk, chunk).
Definition GuardrailInterceptor (gs : list Guardrail) : Interceptor :=
  MkInterceptor "guardrail"
    (λ c st, let '(denied, c') := guardrails_before gs (cx_payload c) c in (denied, c', st))
    (λ c body, guardrails_after gs body c) (λ _ chunk, chunk).

Fixpoint run_before (l : list Interceptor) (c : LlmRequestContext) (st : S) : option LlmProxyError * LlmRequestContext * S :=
  match l with
  | [] => (None, c, st)
  | i :: r =>
      let '(denied, c', st') := it_before i c st in
      match denied with
      | Some e => (Some e, add_verdict (it_name i +:+ ":deny") c', st')
      | None => run_before r c' st'
      end
  end.
Fixpoint run_after (l : list Interceptor) (c : LlmRequestContext) (body : json) : result LlmProxyError json * LlmRequestContext :=
  match l with
  | [] => (Ok body, c)
  | i :: r => match it_after i c body with (Ok b, c') => run_after r c' b | (Err e, c') => (Err e, c') end
  end.
Definition wrap_stream (l : list Interceptor) (c : LlmRequestContext) (chunks : list string) : list string :=
  (λ ch, foldl (λ ch i, it_on_chunk i c ch) ch l) <$> chunks.
Definition _build_pipeline (env : environ) (now : Z) (store_up : bool) : list Interceptor :=
  [ThrottleInterceptor env now store_up; GuardrailInterceptor (build_guardrails env)].
End proxy.
Arguments Interceptor S : clear implicits.

(** ** [fnmatch.fnmatch] *)
Module Glob.
Inductive item : Type := Single (c : ascii) | Range (a b : ascii).
Inductive token : Type := Star | AnyChar | Lit (c : ascii) | Class_ (negated : bool) (items : list item).

(** The items of a bracket expression *)
Fixpoint items_of (fuel : nat) (s : string) : list item :=
  match fuel, s with
  | O, _ | _, "" => []
  | S f, String a (String "-" (String b r)) => Range a b :: items_of f r
  | S f, String a r => Single a :: items_of f r
  end.
(** The text up to the closing bracket, the first character never closing. *)
Definition bracket (s : string) : option (bool * string * string) :=
  let '(neg, s) := match s with String "!" r => (true, r) | _ => (false, s) end in
  match s with
  | String "]" r =>
      match split_once "]" r with Some (body, rest) => Some (neg, String "]" body, rest) | None => None end
  | _ => match split_once "]" s with Some (body, rest) => Some (neg, body, rest) | None => None end
  end.
Fixpoint compile (fuel : nat) (s : string) : list token :=
  match fuel, s with
  | O, _ | _, "" => []
  | S f, String "*" r => Star :: compile f r
  | S f, String "?" r => AnyChar :: compile f r
  | S f, String "[" r =>
      match bracket r with
      | Some (neg, body, rest) => Class_ neg (items_of (String.length body) body) :: compile f rest
      | None => Lit "[" :: compile f r
      end
  | S f, String c r => Lit c :: compile f r
  end.

Definition item_matches (c : ascii) (i : item) : bool :=
  match i with Single a => bool_decide (c = a) | Range a b => (code a <=? code c) && (code c <=? code b) end.
Definition token_matches (c : ascii) (t : token) : bool :=
  match t with
  | Star => false
  | AnyChar => true
  | Lit a => bool_decide (c = a)
  | Class_ neg items => xorb neg (existsb (item_matches c) items)
  end.
Fixpoint matches (ts : list token) (s : string) : bool :=
  match ts with
  | [] => negb (truthy_str s)
  | Star :: r => (fix star s := matches r s || match s with "" => false | String _ q => star q end) s
  | t :: r => match s with "" => false | String c q => token_matches c t && matches r q end
  end.
Definition fnmatch (name pat : string) : bool := matches (compile (String.length pat) pat) name.
End Glob.

(** ** Backends *)
Definition DEFAULT_BACKEND_NAME : string := "default".
Record Backend : Type := MkBackend { be_name : string; be_base_url : string; be_api_token : string }.
Record BackendRegistry : Type := MkRegistry { br_backends : list (string * Backend); br_model_map : list (string * string) }.

(** [cfg(a, "") or cfg(b, "")] *)
Definition cfg_or (a b : string) (env : environ) : string := str_or (RuntimeConfig.cfg a "" env) (RuntimeConfig.cfg b "" env).

(** [(v or {}).items()] *)
Definition items (v : json) : result exn (list (string * json)) :=
  match jor v (JObj []) with JObj d => Ok d | _ => Err tt end.
Definition backend_entry (env : environ) (name : string) (entry : json) : result exn (option Backend) :=
  match entry with
  | JObj e =>
      let url := rstrip_char "/" (strip (str_or_empty (jget "base_url" e))) in
      if negb (truthy_str url) then Ok None
      else
        let token_env := strip (str_or_empty (jget "token_env" e)) in
        Ok (Some (MkBackend name url (if truthy_str token_env then getenv token_env "" env else "")))
  | _ => Err tt
  end.
(** The backends added before an error are kept. *)
Fixpoint add_backends (env : environ) (l : list (string * json)) (bs : list (string * Backend)) : list (string * Backend) * bool :=
  match l with
  | [] => (bs, true)
  | (name, entry) :: r =>
      match backend_entry env name entry with
      | Ok (Some b) => add_backends env r (dset name b bs)
      | Ok None => add_backends env r bs
      | Err _ => (bs, false)
      end
  end.
Definition from_env (env : environ) : BackendRegistry :=
  let base_url := rstrip_char "/" (strip (cfg_or "LLM_BASE_URL" "LLM_BACKEND_URL" env)) in
  let api_token := strip (cfg_or "LLM_API_TOKEN" "LLM_BACKEND_API_KEY" env) in
  let bs := if truthy_str base_url then [(DEFAULT_BACKEND_NAME, MkBackend DEFAULT_BACKEND_NAME base_url api_token)] else [] in
  let raw := strip (RuntimeConfig.cfg "LLM_BACKENDS" "" env) in
  if negb (truthy_str raw) then MkRegistry bs []
  else
    match loads raw with
    | Some (JObj spec) =>
        match items (jget "backends" spec) with
        | Err _ => MkRegistry bs []
        | Ok l =>
            let '(bs', ok) := add_backends env l bs in
            match (if ok then items (jget "model_map" spec) else Err tt) with
            | Ok m => MkRegistry bs' (dupdate [] ((λ kv : string * json, (kv.1, py_str kv.2)) <$> m))
            | Err _ => MkRegistry bs' []
            end
        end
    | _ => MkRegistry bs []
    end.
Fixpoint resolve_map (bs : list (string * Backend)) (model : string) (m : list (string * string)) : option Backend :=
  match m with
  | [] => dget DEFAULT_BACKEND_NAME bs
  | (pattern, name) :: r =>
      if Glob.fnmatch model pattern then match dget name bs with Some b => Some b | None => resolve_map bs model r end
      else resolve_map bs model r
  end.
Definition resolve_model (reg : BackendRegistry) (model : string) : option Backend :=
  resolve_map (br_backends reg) (strip model) (br_model_map reg).

(** ** Forwarding *)
Definition _STRIP_INBOUND_HEADERS : list string :=
  ["authorization"; "cookie"; "x-relay-client"; "x-relay-key"; "x-client-id"; "x-client-key"; "x-relay-proxy-token";
   "accept-encoding"; "content-length"; "content-type"; "x-request-id"].
(** [_RELAY_HOP_HEADERS] of [app/main.py] *)
Definition _RELAY_HOP_HEADERS : list string :=
  ["host"; "transfer-encoding"; "connection"; "keep-alive"; "proxy-authenticate"; "proxy-authorization"; "te"; "trailers"; "upgrade"].
(** The names of the inbound headers are in lower case. *)
Definition build_outbound_headers (h : headers) (trace_id : string) (b : Backend) : headers :=
  let hs := filter (λ kv : string * string, (lower kv.1 ∉ _STRIP_INBOUND_HEADERS) ∧ (lower kv.1 ∉ _RELAY_HOP_HEADERS)) h in
  let hs := if truthy_str (be_api_token b) then dset "Authorization" ("Bearer " +:+ be_api_token b) hs else hs in
  dset "X-Request-Id" trace_id (dset "Accept-Encoding" "identity" hs).

(** What the backend answers: the body comes in chunks and may break off. *)
Inductive upstream : Type :=
| TimedOut
| Unreachable
| Answer (status : Z) (content_type : option string) (chunks : list string) (broken : bool).
(** A request to the backend *)
Record outbound : Type := Outbound { ob_url : string; ob_payload : option json; ob_headers : headers; ob_stream : bool }.

Inductive llm_response : Type :=
| Failed (e : LlmProxyError)
| Passthrough (status : Z) (content_type content : string)
| JsonAnswer (status : Z) (body : json)
| StreamAnswer (status : Z) (content_type : string) (chunks : list string).

Definition _map_transport_error (timeout : bool) : LlmProxyError :=
  if timeout then MkLlmProxyError 504 "LLM backend timed out." "api_error" (Some "backend_timeout") None
  else MkLlmProxyError 502 "LLM backend unreachable." "api_error" (Some "backend_unreachable") None.

(** [client.get] and [client.post]: the whole answer or a transport error *)
Definition whole (u : upstream) : result LlmProxyError (Z * option string * string) :=
  match u with
  | TimedOut => Err (_map_transport_error true)
  | Unreachable | Answer _ _ _ true => Err (_map_transport_error false)
  | Answer status ct chunks false => Ok (status, ct, sjoin "" chunks)
  end.

(** The state of a request: the context, the quota store, what was sent, and the
    calls of [finalize] that had an effect. *)
Section routes.
Context {S : Type} `{QuotaStore S}.

Record run : Type := Run { rn_ctx : LlmRequestContext; rn_store : S; rn_sent : list outbound; rn_final : list (Z * option string) }.
Definition finalize (status : Z) (kind : option string) (r : run) : run :=
  match rn_final r with
  | [] => Run (rn_ctx r) (rn_store r) (rn_sent r) [(status, kind)]
  | _ => r
  end.
Definition with_ctx (c : LlmRequestContext) (r : run) : run := Run c (rn_store r) (rn_sent r) (rn_final r).
Definition sent (o : outbound) (r : run) : run := Run (rn_ctx r) (rn_store r) (rn_sent r ++ [o]) (rn_final r).
Definition fail (e : LlmProxyError) (kind : option string) (r : run) : llm_response * run :=
  (Failed e, finalize (le_status e) kind r).
Definition passthrough (status : Z) (content_type : option string) (content : string) (kind : option string) (r : run)
    : llm_response * run :=
  (Passthrough status (default "application/json" content_type) content, finalize status kind r).
Definition internal_error (r : run) : llm_response * run :=
  fail (MkLlmProxyError 500 "Internal proxy error." "api_error" (Some "internal_error") None) (Some "internal_error") r.

(** The backend, the settings and the credentials *)
Record site : Type := Site {
  si_env : environ; si_pepper : string; si_shared_token : string; si_relay_enabled : bool; si_relay : Relay.store;
  si_max_body_mb : Z; si_store_up : bool; si_send : outbound → upstream }.
(** A request: its headers, its body, the time in microseconds and the trace
    identifier. *)
Record llm_request : Type := LlmRequest { lq_headers : headers; lq_body : string; lq_now : Z; lq_trace_id : string }.

Definition start (route : string) (rq : llm_request) (st : S) : run :=
  Run (Ctx None (lq_trace_id rq) route "" false JNull "" [] None None) st [] [].
Definition authenticate (w : site) (rq : llm_request) : result LlmProxyError LlmAuth.LlmIdentity :=
  LlmAuth.resolve (lq_now rq / MICRO) (si_pepper w) (si_shared_token w) (cfg_str "DM_LLM_TOKEN_SIGNING_KEY" (si_env w))
    (si_relay_enabled w) (si_relay w) (lq_headers rq).
Definition auth_failed (e : LlmProxyError) (r : run) : llm_response * run :=
  if le_status e =? 500 then internal_error r else fail e (Some "auth_failed") r.

Definition _is_self_proxy (env : environ) (base_url : string) : bool :=
  let public := public_llm_proxy_url env in
  truthy_str public && starts_with (rstrip_char "/" public) (rstrip_char "/" base_url).
Definition _resolve_backend (w : site) (r : run) : result LlmProxyError Backend :=
  match resolve_model (from_env (si_env w)) (cx_model (rn_ctx r)) with
  | None =>
      if truthy_str (cx_model (rn_ctx r)) then
        Err (MkLlmProxyError 404 ("Model '" +:+ cx_model (rn_ctx r) +:+ "' has no configured backend.") "invalid_request_error" (Some "model_not_found") None)
      else Err (MkLlmProxyError 503 "No LLM backend configured." "api_error" (Some "no_backend") None)
  | Some b =>
      if _is_self_proxy (si_env w) (be_base_url b) then
        Err (MkLlmProxyError 508 "LLM backend points back to this proxy." "api_error" (Some "backend_loop") None)
      else Ok b
  end.

Definition forward_models (w : site) (rq : llm_request) (b : Backend) (r : run) : llm_response * run :=
  let o := Outbound (be_base_url b +:+ "/models") None (build_outbound_headers (lq_headers rq) (cx_trace_id (rn_ctx r)) b) false in
  let r := sent o r in
  match whole (si_send w o) with
  | Err e => fail e (le_code e) r
  | Ok (status, ct, content) => passthrough status ct content (if status <? 400 then None else Some "backend_error") r
  end.

Definition forward_embeddings (w : site) (rq : llm_request) (b : Backend) (r : run) : llm_response * run :=
  let o := Outbound (be_base_url b +:+ "/embeddings") (Some (cx_payload (rn_ctx r)))
             (build_outbound_headers (lq_headers rq) (cx_trace_id (rn_ctx r)) b) false in
  let r := sent o r in
  match whole (si_send w o) with
  | Err e => fail e (le_code e) r
  | Ok (status, ct, content) =>
      if 400 <=? status then passthrough status ct content (Some "backend_error") r
      else
        let r := match utf8_decode content ≫= loads with Some body => with_ctx (set_usage body (rn_ctx r)) r | None => r end in
        passthrough status ct content None r
  end.

Definition forward_chat_completions (w : site) (rq : llm_request) (pipeline : list (Interceptor S)) (b : Backend) (r : run)
    : llm_response * run :=
  let o := Outbound (be_base_url b +:+ "/chat/completions") (Some (cx_payload (rn_ctx r)))
             (build_outbound_headers (lq_headers rq) (cx_trace_id (rn_ctx r)) b) (cx_stream (rn_ctx r)) in
  let r := sent o r in
  if negb (cx_stream (rn_ctx r)) then
    match whole (si_send w o) with
    | Err e => fail e (le_code e) r
    | Ok (status, ct, content) =>
        if 400 <=? status then passthrough status ct content (Some "backend_error") r
        else if negb (contains "application/json" (default "" ct)) then passthrough status ct content None r
        else
          match utf8_decode content ≫= loads with
          | None => fail (MkLlmProxyError 502 "LLM backend returned invalid JSON." "api_error" (Some "backend_invalid_json") None)
                      (Some "backend_invalid_json") r
          | Some body =>
              match run_after pipeline (rn_ctx r) body with
              | (Err e, c) => fail e (le_code e) (with_ctx c r)
              | (Ok body, c) => (JsonAnswer status body, finalize status None (with_ctx (set_usage body c) r))
              end
          end
    end
  else
    match si_send w o with
    | TimedOut => fail (_map_transport_error true) (Some "backend_timeout") r
    | Unreachable => fail (_map_transport_error false) (Some "backend_unreachable") r
    | Answer status ct chunks broken =>
        if 400 <=? status then
          if broken then internal_error r else passthrough status ct (sjoin "" chunks) (Some "backend_error") r
        else
          (StreamAnswer status (default "text/event-stream" ct) (wrap_stream pipeline (rn_ctx r) chunks),
           finalize status (if broken then Some "backend_stream_interrupted" else None) r)
    end.

(** ** Routes *)
Definition llm_models (w : site) (rq : llm_request) (st : S) : llm_response * run :=
  let r := start "models" rq st in
  match authenticate w rq with
  | Err e => auth_failed e r
  | Ok i =>
      let r := with_ctx (set_identity i (rn_ctx r)) r in
      match _resolve_backend w r with
      | Err e => fail e (le_code e) r
      | Ok b => forward_models w rq b (with_ctx (set_backend (be_name b) (rn_ctx r)) r)
      end
  end.

(** The steps that [/chat/completions] and [/embeddings] share: authentication,
    body, default model, interceptors, backend; [forward] is the last one. *)
Definition guarded_route (route default_model : string) (streams : bool)
    (forward : site → llm_request → list (Interceptor S) → Backend → run → llm_response * run)
    (w : site) (rq : llm_request) (st : S) : llm_response * run :=
  let r := start route rq st in
  match authenticate w rq with
  | Err e => auth_failed e r
  | Ok i =>
      let r := with_ctx (set_identity i (rn_ctx r)) r in
      if si_max_body_mb w * 1024 * 1024 <? Z.of_nat (String.length (lq_body rq)) then
        fail (MkLlmProxyError 413 "Request body too large." "invalid_request_error" (Some "body_too_large") None) (Some "body_too_large") r
      else
        match utf8_decode (str_or (lq_body rq) "{}") ≫= loads with
        | Some (JObj payload) =>
            let model := str_or (str_or_empty (jget "model" payload)) (getenv default_model "" (si_env w)) in
            let payload := if truthy_str model && negb (truthy (jget "model" payload)) then dset "model" (JStr model) payload else payload in
            let r := with_ctx (set_request model (streams && truthy (jget "stream" payload)) (JObj payload) (rn_ctx r)) r in
            let pipeline := _build_pipeline (si_env w) (lq_now rq) (si_store_up w) in
            let '(denied, c, st') := run_before pipeline (rn_ctx r) (rn_store r) in
            let r := Run c st' (rn_sent r) (rn_final r) in
            match denied with
            | Some e => fail e (Some "denied") r
            | None =>
                match _resolve_backend w r with
                | Err e => fail e (le_code e) r
                | Ok b => forward w rq pipeline b (with_ctx (set_backend (be_name b) (rn_ctx r)) r)
                end
            end
        | _ => fail (MkLlmProxyError 400 "Request body must be a JSON object." "invalid_request_error" (Some "invalid_json") None) (Some "invalid_json") r
        end
  end.
Definition llm_chat_completions : site → llm_request → S → llm_response * run :=
  guarded_route "chat/completions" "DEFAULT_MODEL_NAME" true forward_chat_completions.
Definition llm_embeddings : site → llm_request → S → llm_response * run :=
  guarded_route "embeddings" "EMBD_MODEL_NAME" false (λ w rq _ b r, forward_embeddings w rq b r).
End routes.
Arguments run S : clear implicits.

(** ** Facts *)
Section facts.
Context {S : Type} `{QuotaStore S}.
Implicit Types (r : run S).

Definition ended_once (p : llm_response * run S) : Prop := List.length (rn_final p.2) = 1%nat.

Lemma fail_ended e kind r : rn_final r = [] → ended_once (fail e kind r).
Proof. unfold ended_once, fail, finalize. cbn [snd]. by intros ->. Qed.
Lemma passthrough_ended status ct content kind r : rn_final r = [] → ended_once (passthrough status ct content kind r).
Proof. unfold ended_once, passthrough, finalize. cbn [snd]. by intros ->. Qed.
Lemma answer_ended resp status kind r : rn_final r = [] → ended_once (resp, finalize status kind r).
Proof. unfold ended_once, finalize. cbn [snd]. by intros ->. Qed.
#[local] Hint Resolve fail_ended passthrough_ended answer_ended : core.

Lemma forward_models_ended w rq b r : rn_final r = [] → ended_once (forward_models w rq b r).
Proof. intros Hr. unfold forward_models. cbv zeta. destruct (whole _) as [[[? ?] ?]|]; auto. Qed.
Lemma forward_embeddings_ended w rq b r : rn_final r = [] → ended_once (forward_embeddings w rq b r).
Proof.
  intros Hr. unfold forward_embeddings. cbv zeta. destruct (whole _) as [[[? ?] ?]|]; auto. case_match; auto.
  destruct (_ ≫= _); auto.
Qed.
Lemma forward_chat_ended w rq pipeline b r : rn_final r = [] → ended_once (forward_chat_completions w rq pipeline b r).
Proof.
  intros Hr. unfold forward_chat_completions, internal_error. cbv zeta. destruct (negb (cx_stream _)).
  - destruct (whole _) as [[[status ct] content]|]; auto. repeat case_match; auto.
  - repeat case_match; auto.
Qed.

Lemma guarded_ended route dm streams forward w rq st :
  (∀ w rq p b r, rn_final r = [] → ended_once (forward w rq p b r)) → ended_once (guarded_route route dm streams forward w rq st).
Proof.
  intros Hf. unfold guarded_route, auth_failed, internal_error. cbv zeta.
  destruct (authenticate w rq); [|case_match; auto]. case_match; [auto|].
  destruct (_ ≫= _) as [[]|]; auto. destruct (run_before _ _ _) as [[[e|] c] st']; [auto|].
  destruct (_resolve_backend _ _); auto.
Qed.

(** A request sent to the backend [b] on behalf of a client: the credentials of
    the client are not forwarded. *)
Definition sent_to (rq : llm_request) (b : Backend) (o : outbound) : Prop :=
  starts_with (be_base_url b) (ob_url o) = true ∧
  ∀ k v, (k, v) ∈ ob_headers o →
    (k = "Authorization" ∧ v = "Bearer " +:+ be_api_token b ∧ be_api_token b ≠ "") ∨
    (k = "Accept-Encoding" ∧ v = "identity") ∨ (k = "X-Request-Id" ∧ v = lq_trace_id rq) ∨
    ((k, v) ∈ lq_headers rq ∧ lower k ∉ _STRIP_INBOUND_HEADERS).

Lemma outbound_headers_ok rq b k v :
  (k, v) ∈ build_outbound_headers (lq_headers rq) (lq_trace_id rq) b →
  (k = "Authorization" ∧ v = "Bearer " +:+ be_api_token b ∧ be_api_token b ≠ "") ∨
  (k = "Accept-Encoding" ∧ v = "identity") ∨ (k = "X-Request-Id" ∧ v = lq_trace_id rq) ∨
  ((k, v) ∈ lq_headers rq ∧ lower k ∉ _STRIP_INBOUND_HEADERS).
Proof.
  unfold build_outbound_headers. set (hs := filter _ _).
  assert (Hhs : (k, v) ∈ hs → (k, v) ∈ lq_headers rq ∧ lower k ∉ _STRIP_INBOUND_HEADERS).
  { intros Hin. apply list_elem_of_filter in Hin as [[? _] ?]. done. }
  clearbody hs. intros Hin. apply elem_of_dset in Hin as [?|Hin]; [tauto|]. apply elem_of_dset in Hin as [?|Hin]; [tauto|].
  destruct (truthy_str (be_api_token b)) eqn:Et; [|tauto]. apply truthy_str_true in Et.
  apply elem_of_dset in Hin as [[? ?]|Hin]; tauto.
Qed.

Lemma guardrails_before_trace gs payload c d c' :
  guardrails_before gs payload c = (d, c') → cx_trace_id c' = cx_trace_id c.
Proof.
  revert payload c. induction gs as [|g gs IH]; intros payload c; cbn [guardrails_before]; [by intros [= _ <-]|].
  destruct (gd_check g payload REQUEST c) as [|reason|[p|]]; [apply IH|by intros [= _ <-]| |apply IH].
  intros Heq. apply IH in Heq. exact Heq.
Qed.

Lemma deny_all_denies gs payload c :
  DenyAllGuardrail ∈ gs → (∀ g, g ∈ gs → g = NoopGuardrail ∨ g = DenyAllGuardrail) →
  ∃ e c', guardrails_before gs payload c = (Some e, c').
Proof.
  intros Hin Hall. induction gs as [|g gs IH]; [by apply elem_of_nil in Hin|]. cbn [guardrails_before].
  destruct (Hall g ltac:(left)) as [-> | ->]; cbn [NoopGuardrail DenyAllGuardrail gd_check]; [|by eexists _, _].
  apply IH; [|intros g Hg; apply Hall; by right]. apply elem_of_cons in Hin as [Heq|]; [|done].
  apply (f_equal gd_name) in Heq. done.
Qed.

Lemma registry_lookup n g : dget n GUARDRAIL_REGISTRY = Some g → g = NoopGuardrail ∨ g = DenyAllGuardrail.
Proof. cbn. repeat case_decide; intros [= <-]; tauto. Qed.

Lemma pipeline_before env now up c (st : S) d c' st' :
  run_before (_build_pipeline env now up) c st = (d, c', st') →
  cx_trace_id c' = cx_trace_id c ∧ (d = None → "deny_all" ∉ _configured_names env).
Proof.
  cbn [_build_pipeline run_before ThrottleInterceptor GuardrailInterceptor it_before it_name].
  destruct (match cx_identity c with Some i => _ | None => _ end) as [uuid email].
  destruct (throttle_before env now up uuid email st) as [[[e|] meta] st1]; [by intros [= <- <- <-]|].
  destruct (guardrails_before (build_guardrails env) (cx_payload (set_quota meta c)) (set_quota meta c)) as [d1 c1] eqn:E.
  pose proof (guardrails_before_trace _ _ _ _ _ E) as Ht.
  assert (Hd : d1 = None → "deny_all" ∉ _configured_names env).
  { intros -> Hin. destruct (deny_all_denies (build_guardrails env) (cx_payload (set_quota meta c)) (set_quota meta c)) as (e & c2 & H2).
    - apply list_elem_of_omap. by exists "deny_all".
    - intros g (n & _ & Hg)%list_elem_of_omap. by eapply registry_lookup.
    - rewrite E in H2. done. }
  destruct d1 as [e|]; intros [= <- <- <-]; (split; [exact Ht|]); [done|exact Hd].
Qed.

Lemma sent_to_intro rq b url payload stream :
  sent_to rq b (Outbound (be_base_url b +:+ url) payload (build_outbound_headers (lq_headers rq) (lq_trace_id rq) b) stream).
Proof. split; [apply starts_with_app|]. cbn [ob_headers]. intros k v. apply outbound_headers_ok. Qed.

(** What a route may send: to a configured backend that is not the proxy, for an
    authenticated caller, at most one request. *)
Definition guarded (w : site) (rq : llm_request) (os : list outbound) : Prop :=
  os = [] ∨ ∃ o i b model, os = [o] ∧ authenticate w rq = Ok i ∧ resolve_model (from_env (si_env w)) model = Some b ∧
    _is_self_proxy (si_env w) (be_base_url b) = false ∧ sent_to rq b o.

Lemma resolve_backend_ok w r b :
  _resolve_backend w r = Ok b →
  resolve_model (from_env (si_env w)) (cx_model (rn_ctx r)) = Some b ∧ _is_self_proxy (si_env w) (be_base_url b) = false.
Proof. unfold _resolve_backend. repeat case_match; try done. by intros [= <-]. Qed.

Lemma finalize_sent status kind r : rn_sent (finalize status kind r) = rn_sent r.
Proof. unfold finalize. by destruct (rn_final r). Qed.

Lemma guarded_route_guarded route dm streams forward w rq (st : S) :
  (∀ p b r, cx_trace_id (rn_ctx r) = lq_trace_id rq → rn_sent r = [] →
     ∃ o, rn_sent (forward w rq p b r).2 = [o] ∧ sent_to rq b o) →
  let os := rn_sent (guarded_route route dm streams forward w rq st).2 in
  guarded w rq os ∧ ("deny_all" ∈ _configured_names (si_env w) → os = []).
Proof.
  intros Hf. cbv zeta. unfold guarded_route, auth_failed, internal_error, fail. cbv zeta.
  destruct (authenticate w rq) as [i|e] eqn:Ea; [|case_match; cbn [snd]; rewrite finalize_sent; split; [by left|done|by left|done]].
  case_match; [cbn [snd]; rewrite finalize_sent; split; [by left|done]|].
  destruct (_ ≫= _) as [[]|]; try (cbn [snd]; rewrite finalize_sent; split; [by left|done]).
  destruct (run_before _ _ _) as [[dn c] st'] eqn:Eb. apply pipeline_before in Eb as [Ht Hd].
  destruct dn as [e|]; [cbn [snd]; rewrite finalize_sent; split; [by left|done]|].
  destruct (_resolve_backend _ _) as [b|e] eqn:Er; [|cbn [snd]; rewrite finalize_sent; split; [by left|done]].
  apply resolve_backend_ok in Er as [Hm Hself].
  edestruct Hf as (o & Ho & Hs); [| |rewrite Ho; split].
  - exact Ht.
  - reflexivity.
  - right. by eexists o, i, b, _.
  - intros Hin. by destruct (Hd eq_refl).
Qed.

Lemma forward_embeddings_sent w rq b r :
  cx_trace_id (rn_ctx r) = lq_trace_id rq → rn_sent r = [] →
  ∃ o, rn_sent (forward_embeddings w rq b r).2 = [o] ∧ sent_to rq b o.
Proof.
  intros Ht Hs. unfold forward_embeddings, fail, passthrough. cbv zeta. rewrite Ht.
  eexists. split; [|apply (sent_to_intro rq b "/embeddings" (Some (cx_payload (rn_ctx r))) false)].
  destruct (whole _) as [[[status ct] content]|e]; [case_match; [|destruct (_ ≫= _)]|];
    cbn [snd]; rewrite finalize_sent; cbn [with_ctx sent rn_sent]; by rewrite Hs.
Qed.
Lemma forward_models_sent w rq b r :
  cx_trace_id (rn_ctx r) = lq_trace_id rq → rn_sent r = [] →
  ∃ o, rn_sent (forward_models w rq b r).2 = [o] ∧ sent_to rq b o.
Proof.
  intros Ht Hs. unfold forward_models, fail, passthrough. cbv zeta. rewrite Ht.
  eexists. split; [|apply (sent_to_intro rq b "/models" None false)].
  destruct (whole _) as [[[status ct] content]|e]; cbn [snd]; rewrite finalize_sent; cbn [sent rn_sent]; by rewrite Hs.
Qed.
Lemma forward_chat_sent w rq p b r :
  cx_trace_id (rn_ctx r) = lq_trace_id rq → rn_sent r = [] →
  ∃ o, rn_sent (forward_chat_completions w rq p b r).2 = [o] ∧ sent_to rq b o.
Proof.
  intros Ht Hs. unfold forward_chat_completions, internal_error, fail, passthrough. cbv zeta. rewrite Ht.
  eexists. split; [|apply (sent_to_intro rq b "/chat/completions" (Some (cx_payload (rn_ctx r))) (cx_stream (rn_ctx r)))].
  destruct (negb _); [destruct (whole _) as [[[status ct] content]|e]|]; repeat case_match;
    cbn [snd]; rewrite finalize_sent; cbn [with_ctx sent rn_sent]; by rewrite Hs.
Qed.
End facts.


(** Every request of the proxy ends exactly once in the metrics and the audit,
    whatever happens: refused, without backend, backend unreachable, answered,
    streamed to the end or broken off. *)
Theorem llm_request_ends_once {S} (Q : QuotaStore S) w rq (st : S) :
  ended_once (llm_chat_completions w rq st) ∧ ended_once (llm_embeddings w rq st) ∧ ended_once (llm_models w rq st).
Proof.
  split_and!.
  - apply guarded_ended. intros w' rq' p b r. apply forward_chat_ended.
  - apply guarded_ended. intros w' rq' p b r. apply forward_embeddings_ended.
  - unfold llm_models, auth_failed, internal_error. cbv zeta. destruct (authenticate w rq); [|case_match; by apply fail_ended].
    destruct (_resolve_backend _ _); [by apply forward_models_ended|by apply fail_ended].
Qed.

(** ** Example
    A relay client gets a completion; with the kill switch set nothing is sent. *)
Module LlmDemo.
Definition backend (o : outbound) : upstream :=
  Answer 200 (Some "application/json") [dumps (JObj [("usage", JObj [("total_tokens", JInt 3)])])] false.
Definition at_site (guardrails : string) : site :=
  Site [("LLM_BASE_URL", "https://llm/v1"); ("LLM_API_TOKEN", "sk"); ("LLM_GUARDRAILS", guardrails)] "pep" "" true
    (Db [relay_row_ex]) 1 true backend.
Definition ask : llm_request :=
  LlmRequest [("x-relay-client", "rc_a"); ("x-relay-key", "k"); ("accept", "*/*")] (dumps (JObj [("model", JStr "m")])) (100 * MICRO) "t".
End LlmDemo.
Example llm_demo_sends :
  let p := llm_chat_completions (S := InMemory.store) (LlmDemo.at_site "") LlmDemo.ask empty_store in
  rn_sent p.2 = [Outbound "https://llm/v1/chat/completions" (Some (JObj [("model", JStr "m")]))
                   [("accept", "*/*"); ("Authorization", "Bearer sk"); ("Accept-Encoding", "identity"); ("X-Request-Id", "t")] false] ∧
  rn_final p.2 = [(200, None)].
Proof. vm_compute. done. Qed.
Example llm_demo_denied :
  let p := llm_chat_completions (S := InMemory.store) (LlmDemo.at_site "noop, deny_all") LlmDemo.ask empty_store in
  rn_sent p.2 = [] ∧ rn_final p.2 = [(403, Some "denied")].
Proof. vm_compute. done. Qed.
