(* ===== verification/Gate.v ===== *)
(** * Guards in front of the handlers
    Of [app/main.py]: the boot gate that refuses insecure settings
    ([validate_security_config]), the middlewares (the runtime mode [llm], the
    readiness gate and the flush of the configuration cache after a mutation), and
    the REST routes of the campaigns behind the service token. *)
From S2P Require Import Prelude Text Json AdminAuth Relay RuntimeConfig Campaigns GetConfig.
From Stdlib Require Import Ascii String.
Open Scope Z_scope.

(** ** Boot *)
Module Boot.
Definition _DEFAULT_ADMIN_SESSION_SECRET : string := "changeme-dev-only".
Definition _DEFAULT_RELAY_SECRET_PEPPER : string := "change-me-relay-pepper".
Definition _PROD_LIKE_ENVS : list string := ["prod"; "production"; "staging"].
Definition _dev_autologin_enabled (env : environ) : bool :=
  bool_decide (lower (strip (getenv "DM_DEV_AUTOLOGIN" "" env)) ∈ truthy_words).
(** The problems found, whatever the environment; the wording of one message is
    adapted. *)
Definition problems (env : environ) (relay_secret_pepper allow_origins : string) : list string :=
  let origins_raw := strip allow_origins in
  ((if bool_decide (getenv "ADMIN_SESSION_SECRET" _DEFAULT_ADMIN_SESSION_SECRET env = _DEFAULT_ADMIN_SESSION_SECRET)
    then ["ADMIN_SESSION_SECRET is the insecure default 'changeme-dev-only'"] else []) ++
   (if bool_decide (relay_secret_pepper = _DEFAULT_RELAY_SECRET_PEPPER)
    then ["DM_RELAY_SECRET_PEPPER is the insecure default 'change-me-relay-pepper'"] else []) ++
   (if bool_decide (origins_raw = "*") || negb (truthy_str origins_raw)
    then ["CORS allow_origins is '*': set DM_ALLOW_ORIGINS to an explicit allowlist"] else []) ++
   (if _dev_autologin_enabled env then ["DM_DEV_AUTOLOGIN is enabled outside development"] else []))%list.
Definition validate_security_config (app_env : string) (env : environ) (relay_secret_pepper allow_origins : string) : list string :=
  if decide (lower (strip app_env) ∈ _PROD_LIKE_ENVS) then problems env relay_secret_pepper allow_origins else [].
End Boot.

(** ** Middlewares *)
Module Middleware.
Definition _LLM_MODE_ALLOWED_PREFIXES : list string := ["/llm/"; "/livez"; "/readyz"; "/healthz"; "/metrics"; "/internal"].
Definition _CACHE_INVALIDATION_PATH_PREFIXES : list string :=
  ["/admin/catalog"; "/admin/campaigns"; "/admin/deploy"; "/api/catalog"; "/api/campaigns"; "/api/artifacts"; "/api/keycloak";
   "/admin/api/config"].
Definition _CONFIG_GATE_EXEMPT_PREFIXES : list string := ["/healthz"; "/livez"; "/readyz"; "/internal"; "/admin/static"; "/metrics"].
Definition starts_with_any (path : string) (l : list string) : bool := existsb (λ p, starts_with p path) l.

Definition _llm_mode_allowlist {A} (path : string) (not_found : A) (next : A) : A :=
  if starts_with_any path _LLM_MODE_ALLOWED_PREFIXES then next else not_found.

(** The handler behind the gate gives a status and a new state. *)
Definition security_headers (p : process) (method path : string) (call_next : state → Z * state) (st : state) : Z * state :=
  if should_gate_requests p && negb (starts_with_any path _CONFIG_GATE_EXEMPT_PREFIXES) then (503, st)
  else
    let '(status, st') := call_next st in
    if bool_decide (method ∈ ["POST"; "PUT"; "PATCH"; "DELETE"]) && (status <? 400) &&
       starts_with_any path _CACHE_INVALIDATION_PATH_PREFIXES
    then (status, clear_config_cache st') else (status, st').
End Middleware.

(** ** Campaign routes *)
Module CampaignApi.
(** Comparing text that is not ASCII raises. *)
Definition _verify_admin_token (env : environ) (h : headers) : result exn bool :=
  let expected := getenv "DM_QUEUE_ADMIN_TOKEN" "" env in
  if negb (truthy_str expected) then Ok false else compare_digest_str (hget "x-admin-token" h) expected.
Definition guard {A} (env : environ) (h : headers) (m : result http_error A) : result http_error A :=
  match _verify_admin_token env h with
  | Ok true => m
  | Ok false => Err (HttpError 401 "Unauthorized")
  | Err _ => Err (HttpError 500 "")
  end.
Definition api_start_campaign env h st i := guard env h (Life._api_campaign_action st i "active").
Definition api_pause_campaign env h st i := guard env h (Life._api_campaign_action st i "paused").
Definition api_resume_campaign env h st i := guard env h (Life._api_campaign_action st i "active").
Definition api_abort_campaign env h st i := guard env h (Life._api_campaign_action st i "rolled_back").
End CampaignApi.

(** ** Facts *)
(** A production service only starts with its own session secret and pepper, an
    explicit list of origins and without automatic login. *)
Lemma boot_gate_sound app_env env pepper origins :
  lower (strip app_env) ∈ Boot._PROD_LIKE_ENVS → Boot.validate_security_config app_env env pepper origins = [] →
  getenv "ADMIN_SESSION_SECRET" Boot._DEFAULT_ADMIN_SESSION_SECRET env ≠ Boot._DEFAULT_ADMIN_SESSION_SECRET ∧
  pepper ≠ Boot._DEFAULT_RELAY_SECRET_PEPPER ∧ strip origins ≠ "*" ∧ strip origins ≠ "" ∧ Boot._dev_autologin_enabled env = false.
Proof.
  intros He. unfold Boot.validate_security_config. rewrite decide_True by done. unfold Boot.problems. intros H.
  apply app_eq_nil in H as [H1 H]. apply app_eq_nil in H as [H2 H]. apply app_eq_nil in H as [H3 H4].
  repeat case_bool_decide; try done. cbn [orb] in H3. destruct (truthy_str (strip origins)) eqn:Eo; [|done].
  apply truthy_str_true in Eo. split_and!; try done. by destruct (Boot._dev_autologin_enabled env).
Qed.

(** The gate only knows the default: an empty secret starts. *)
Example boot_gate_empty_secret :
  Boot.validate_security_config "prod" [("ADMIN_SESSION_SECRET", "")] "" "https://dm.fr" = [].
Proof. reflexivity. Qed.

(** After a successful mutation of what the configuration is built from, no
    cached response is left. *)
Lemma mutation_flushes_cache p method path next st status st' :
  method ∈ ["POST"; "PUT"; "PATCH"; "DELETE"] → Middleware.starts_with_any path Middleware._CACHE_INVALIDATION_PATH_PREFIXES = true →
  Middleware.security_headers p method path next st = (status, st') → status < 400 → s_cache st' = [].
Proof.
  intros Hm Hp. unfold Middleware.security_headers. case_match; [intros [= <- <-]; lia|]. destruct (next st) as [s st1].
  rewrite Hp, bool_decide_true by done. cbn [andb]. destruct (s <? 400) eqn:E; cbn [andb]; intros [= <- <-]; [done|]. bool_hyps. lia.
Qed.
