(* ===== verification/Catalog.v ===== *)
(** * Catalogue of releases
    The tables [plugins], [artifacts], [plugin_versions] and
    [plugin_version_artifacts] with the services that write them
    ([services/catalog.py], [services/artifacts.py]) and the queries of
    [app/main.py] that choose what a device downloads. The services run in the
    state and exception monad over the tables; a statement that violates a
    constraint of the schema raises and changes nothing (the gap it may leave in a
    sequence is not modelled). The lengths of [VARCHAR] columns are those of
    [db/schema.sql]. *)
From S2P Require Import Prelude Text Json Effects Campaigns Config.
From Stdlib Require Import Ascii String.
Open Scope Z_scope.

(** ** Tables *)
(** The columns of the catalogue page. *)
Record plugin_info : Type := PluginInfo {
  pi_description : string; pi_intent : string; pi_features : json; pi_category : string; pi_homepage : string;
  pi_support : string; pi_doc : string; pi_license : string; pi_publisher : string; pi_visibility : string;
  pi_icon_path : option string; pi_source : option string; pi_maturity : string }.
Record plugin : Type := Plugin {
  pg_row : plugin_row; pg_name : string; pg_changelog : json;
  pg_extension_id : option string; pg_gecko_id : option string; pg_icon_url : option string; pg_info : plugin_info }.
(** The defaults of the schema. *)
Definition default_info : plugin_info :=
  PluginInfo "" "" (JArr []) "productivity" "" "" "" "" "DNUM" "public" None None "release".
Record art_row : Type := ArtRow { ar_art : artifact; ar_variant : option string; ar_active : bool; ar_released : Z }.
Record version_row : Type := VersionRow {
  vr_id : Z; vr_plugin : Z; vr_version : string; vr_artifact : option Z; vr_notes : option string;
  vr_url : option string; vr_min_host : option string; vr_max_host : option string;
  vr_status : string; vr_mode : string; vr_published : option Z }.
Record variant_row : Type := VariantRow { va_id : Z; va_version : Z; va_artifact : Z; va_variant : string }.
Record catalog : Type := Catalog {
  ct_plugins : list plugin; ct_aliases : list (string * Z); ct_artifacts : list art_row;
  ct_versions : list version_row; ct_variants : list variant_row;
  ct_next_art : Z; ct_next_ver : Z; ct_next_var : Z }.

Definition set_artifacts x n c := Catalog (ct_plugins c) (ct_aliases c) x (ct_versions c) (ct_variants c) n (ct_next_ver c) (ct_next_var c).
Definition set_versions x n c := Catalog (ct_plugins c) (ct_aliases c) (ct_artifacts c) x (ct_variants c) (ct_next_art c) n (ct_next_var c).
Definition set_variants x n c := Catalog (ct_plugins c) (ct_aliases c) (ct_artifacts c) (ct_versions c) x (ct_next_art c) (ct_next_ver c) n.
Definition set_plugins x c := Catalog x (ct_aliases c) (ct_artifacts c) (ct_versions c) (ct_variants c) (ct_next_art c) (ct_next_ver c) (ct_next_var c).

Definition a_id (a : art_row) : Z := art_id (ar_art a).
Definition p_id (p : plugin) : Z := pl_id (pg_row p).

(** ** Statements *)
(** [INSERT ... ON CONFLICT (key) DO UPDATE]: the first row with the key is
    updated, or the new one is added. *)
Section upsert.
Context {A : Type} (same : A → bool) (upd : A → A) (new : A).
Fixpoint upsert (l : list A) : list A :=
  match l with [] => [new] | x :: r => if same x then upd x :: r else x :: upsert r end.
(** The row that [RETURNING] reads. *)
Definition upserted (l : list A) : A := match find same l with Some x => upd x | None => new end.
End upsert.

(** A text fits [VARCHAR(n)]. *)
Definition fits (n : Z) (s : string) : bool := Z.of_nat (String.length s) <=? n.
Definition fits_opt (n : Z) (s : option string) : bool := match s with Some t => fits n t | None => true end.
Definition too_long {A} : SM catalog A := raise (Exc "value too long for type character varying").
Definition no_key {A} : SM catalog A := raise (Exc "insert or update violates foreign key constraint").
Definition bad_check {A} : SM catalog A := raise (Exc "new row violates check constraint").
(** [x or None] *)
Definition or_none (s : string) : option string := if truthy_str s then Some s else None.
Definition coalesce {A} (x y : option A) : option A := match x with Some _ => x | None => y end.

Definition version_statuses : list string := ["draft"; "published"; "deprecated"; "yanked"].
Definition distribution_modes : list string := ["managed"; "download_link"; "store"; "manual"].

(** *** Artifacts *)
Definition same_artifact (device_type platform_variant version : string) (a : art_row) : bool :=
  bool_decide (art_device_type (ar_art a) = device_type ∧ ar_variant a = Some platform_variant ∧
    art_version (ar_art a) = Some version).
Definition replace_binary (s3_path checksum : string) (changelog_url : option string) (now : Z) (a : art_row) : art_row :=
  let r := ar_art a in
  ArtRow (Artifact (art_id r) (art_device_type r) (art_version r) (Some s3_path) (Some checksum)
            (coalesce changelog_url (art_changelog_url r)) (art_min_host_version r) (art_max_host_version r))
         (ar_variant a) (ar_active a) now.
Definition new_artifact (id : Z) (device_type : string) (variant : option string) (version s3_path checksum : string)
    (changelog_url : option string) (now : Z) : art_row :=
  ArtRow (Artifact id device_type (Some version) (Some s3_path) (Some checksum) changelog_url None None) variant true now.

Definition upsert_artifact (now : Z) (device_type platform_variant version s3_path checksum : string)
    (changelog_url : option string) : SM catalog Z :=
  if fits 50 device_type && fits 50 platform_variant && fits 50 version && fits 128 checksum then
    c ← gets id;
    let same := same_artifact device_type platform_variant version in
    let upd := replace_binary s3_path checksum changelog_url now in
    let new := new_artifact (ct_next_art c) device_type (Some platform_variant) version s3_path checksum changelog_url now in
    modify (set_artifacts (upsert same upd new (ct_artifacts c)) (ct_next_art c + 1));;
    mret (a_id (upserted same upd new (ct_artifacts c)))
  else too_long.
(** [services/artifacts.py create_artifact] *)
Definition create_artifact (now : Z) (device_type platform_variant version s3_path checksum changelog_url : string) : SM catalog Z :=
  upsert_artifact now device_type platform_variant version s3_path checksum (or_none changelog_url).
(** The [INSERT] of [POST /api/artifacts], whose variant is null. *)
Definition insert_artifact (now : Z) (device_type version s3_path checksum changelog_url : string) : SM catalog Z :=
  if fits 50 device_type && fits 50 version && fits 128 checksum then
    c ← gets id;
    modify (set_artifacts (ct_artifacts c ++
      [new_artifact (ct_next_art c) device_type None version s3_path checksum (Some changelog_url) now]) (ct_next_art c + 1));;
    mret (ct_next_art c)
  else too_long.
Definition toggle_artifact (artifact_id : Z) (is_active : bool) : SM catalog bool :=
  c ← gets id;
  modify (set_artifacts ((λ a, if decide (a_id a = artifact_id) then ArtRow (ar_art a) (ar_variant a) is_active (ar_released a) else a)
    <$> ct_artifacts c) (ct_next_art c));;
  mret (bool_decide (artifact_id ∈ a_id <$> ct_artifacts c)).

(** *** Versions *)
Definition same_version (plugin_id : Z) (version : string) (v : version_row) : bool :=
  bool_decide (vr_plugin v = plugin_id ∧ vr_version v = version).
Definition with_vstatus (s : string) (published : option Z) (v : version_row) : version_row :=
  VersionRow (vr_id v) (vr_plugin v) (vr_version v) (vr_artifact v) (vr_notes v) (vr_url v) (vr_min_host v) (vr_max_host v)
    s (vr_mode v) published.
(** [UPDATE plugin_versions SET status = 'deprecated'] of the other published ones *)
Definition deprecate_row (plugin_id : Z) (version : string) (v : version_row) : version_row :=
  if decide (vr_plugin v = plugin_id ∧ vr_status v = "published" ∧ vr_version v ≠ version)
  then with_vstatus "deprecated" (vr_published v) v else v.
Definition deprecate_others (plugin_id : Z) (version : string) : SM catalog () :=
  modify (λ c, set_versions (deprecate_row plugin_id version <$> ct_versions c) (ct_next_ver c) c).

(** [CASE WHEN EXCLUDED.release_notes <> '' THEN ... ELSE the old ones] *)
Definition merge_notes (release_notes : string) (v : version_row) : option string :=
  if truthy_str release_notes then Some release_notes else vr_notes v.
(** A version refers to a plugin and an artifact that exist. *)
Definition refers (plugin_id : Z) (artifact_id : option Z) (c : catalog) : bool :=
  bool_decide (plugin_id ∈ p_id <$> ct_plugins c) &&
  match artifact_id with Some i => bool_decide (i ∈ a_id <$> ct_artifacts c) | None => true end.

Definition put_version (upd : version_row → version_row) (new : Z → version_row) : SM catalog Z :=
  c ← gets id;
  let n := new (ct_next_ver c) in
  let same := same_version (vr_plugin n) (vr_version n) in
  if refers (vr_plugin n) (vr_artifact n) c then
    modify (set_versions (upsert same upd n (ct_versions c)) (ct_next_ver c + 1));;
    mret (vr_id (upserted same upd n (ct_versions c)))
  else no_key.

(** [services/catalog.py create_version] *)
Definition create_version (now : Z) (plugin_id : Z) (version : string) (artifact_id : option Z)
    (release_notes download_url min_host_version max_host_version distribution_mode status : string) : SM catalog Z :=
  (if decide (status = "published") then deprecate_others plugin_id version else mret ());;
  if negb (fits 50 version && fits 50 min_host_version && fits 50 max_host_version && fits 20 status && fits 20 distribution_mode)
  then too_long
  else if negb (bool_decide (status ∈ version_statuses ∧ distribution_mode ∈ distribution_modes)) then bad_check
  else
    let published := if decide (status = "published") then Some now else None in
    let artifact_id := match artifact_id with Some i => if i =? 0 then None else Some i | None => None end in
    put_version
      (λ v, VersionRow (vr_id v) (vr_plugin v) (vr_version v) (coalesce artifact_id (vr_artifact v)) (merge_notes release_notes v)
         (coalesce (or_none download_url) (vr_url v)) (coalesce (or_none min_host_version) (vr_min_host v))
         (coalesce (or_none max_host_version) (vr_max_host v)) status distribution_mode
         (if decide (status = "published") then coalesce (vr_published v) (Some now) else vr_published v))
      (λ i, VersionRow i plugin_id version artifact_id (Some release_notes) (or_none download_url) (or_none min_host_version)
         (or_none max_host_version) status distribution_mode published).
(** The statement of the deployment: published, managed, the mode of an existing
    version kept. *)
Definition publish_version (now : Z) (plugin_id : Z) (version : string) (artifact_id : Z) (release_notes : string) : SM catalog Z :=
  if negb (fits 50 version) then too_long
  else
    put_version
      (λ v, VersionRow (vr_id v) (vr_plugin v) (vr_version v) (Some artifact_id) (merge_notes release_notes v) (vr_url v)
         (vr_min_host v) (vr_max_host v) "published" (vr_mode v) (coalesce (vr_published v) (Some now)))
      (λ i, VersionRow i plugin_id version (Some artifact_id) (Some release_notes) None None None "published" "managed" (Some now)).

Definition update_version_status (now : Z) (version_id : Z) (new_status : string) : SM catalog bool :=
  c ← gets id;
  let found := bool_decide (version_id ∈ vr_id <$> ct_versions c) in
  if found && negb (fits 20 new_status && bool_decide (new_status ∈ version_statuses)) then bad_check
  else
    modify (set_versions ((λ v, if decide (vr_id v = version_id)
        then with_vstatus new_status (if decide (new_status = "published") then Some now else vr_published v) v else v)
      <$> ct_versions c) (ct_next_ver c));;
    mret found.

(** *** Variants *)
Definition same_variant (version_id : Z) (platform_variant : string) (v : variant_row) : bool :=
  bool_decide (va_version v = version_id ∧ va_variant v = platform_variant).
Definition link_version_artifact (plugin_version_id artifact_id : Z) (platform_variant : string) : SM catalog Z :=
  c ← gets id;
  if negb (fits 50 platform_variant) then too_long
  else if bool_decide (plugin_version_id ∈ vr_id <$> ct_versions c ∧ artifact_id ∈ a_id <$> ct_artifacts c) then
    let same := same_variant plugin_version_id platform_variant in
    let upd v := VariantRow (va_id v) (va_version v) artifact_id (va_variant v) in
    let new := VariantRow (ct_next_var c) plugin_version_id artifact_id platform_variant in
    modify (set_variants (upsert same upd new (ct_variants c)) (ct_next_var c + 1));;
    mret (va_id (upserted same upd new (ct_variants c)))
  else no_key.

(** ** Queries of the public pages *)
(** [SELECT id, device_type FROM plugins WHERE slug = %s AND status = 'active'] *)
Definition active_plugin (c : catalog) (slug : string) : option plugin :=
  find (λ p, bool_decide (pl_slug (pg_row p) = slug ∧ pl_status (pg_row p) = "active")) (ct_plugins c).
Definition published_of (plugin_id : Z) (v : version_row) : bool :=
  bool_decide (vr_plugin v = plugin_id ∧ vr_status v = "published").
(** [ORDER BY published_at DESC NULLS LAST LIMIT 1] *)
Definition newest (vs : list version_row) : option version_row :=
  match first_max (λ v, default 0 (vr_published v)) (filter (λ v, is_Some (vr_published v)) vs) with
  | Some v => Some v
  | None => head vs
  end.
Definition latest_published (c : catalog) (plugin_id : Z) : option version_row :=
  newest (filter (λ v, published_of plugin_id v = true) (ct_versions c)).
Definition published_version (c : catalog) (plugin_id : Z) (version : string) : option version_row :=
  find (λ v, published_of plugin_id v && bool_decide (vr_version v = version)) (ct_versions c).
Definition artifact_at (c : catalog) (i : Z) : option art_row := find (λ a, bool_decide (a_id a = i)) (ct_artifacts c).
Definition s3_path_at (c : catalog) (i : Z) : option string := artifact_at c i ≫= λ a, art_s3_path (ar_art a).

(** ** Upserts: facts *)
Section upsert_facts.
Context {A : Type} (same : A → bool) (upd : A → A) (new : A).
Implicit Types l : list A.
Notation ups := (upsert same upd new).

Lemma upsert_cases l :
  (∃ l1 x l2, l = l1 ++ x :: l2 ∧ same x = true ∧ ups l = l1 ++ upd x :: l2 ∧ upserted same upd new l = upd x) ∨
  ((∀ x, x ∈ l → same x = false) ∧ ups l = l ++ [new] ∧ upserted same upd new l = new).
Proof.
  unfold upserted. induction l as [|x l IH]; simpl; [right; set_solver|]. destruct (same x) eqn:E.
  { left. by exists [], x, l. }
  destruct IH as [(l1 & y & l2 & -> & Hy & H1 & H2)|(Hn & H1 & H2)].
  - left. exists (x :: l1), y, l2. by rewrite H1.
  - right. rewrite H1. split_and!; [set_solver|done..].
Qed.
Lemma upsert_fmap {B} (f : A → B) l : (∀ x, f (upd x) = f x) →
  f <$> ups l = f <$> l ∨ (∀ x, x ∈ l → same x = false) ∧ f <$> ups l = (f <$> l) ++ [f new].
Proof.
  intros Hf. destruct (upsert_cases l) as [(l1 & x & l2 & -> & _ & -> & _)|(Hn & -> & _)].
  - left. by rewrite !fmap_app, !fmap_cons, Hf.
  - right. by rewrite fmap_app.
Qed.
Lemma elem_of_upsert y l : y ∈ ups l → y ∈ l ∨ y = upserted same upd new l.
Proof. destruct (upsert_cases l) as [(l1 & x & l2 & -> & _ & -> & ->)|(_ & -> & ->)]; set_solver. Qed.
Lemma upserted_elem l : upserted same upd new l ∈ ups l.
Proof. destruct (upsert_cases l) as [(l1 & x & l2 & -> & _ & -> & ->)|(_ & -> & ->)]; set_solver. Qed.
Lemma upsert_other y l : y ∈ l → same y = false → y ∈ ups l.
Proof.
  intros Hy Hs. destruct (upsert_cases l) as [(l1 & x & l2 & -> & Hx & -> & _)|(_ & -> & _)]; [|set_solver].
  apply elem_of_app in Hy as [?|[->|?]%elem_of_cons]; [set_solver|congruence|set_solver].
Qed.
(** A key that the update keeps stays unique, when the new row has a free one. *)
Lemma upsert_NoDup {B} (f : A → B) l : (∀ x, f (upd x) = f x) →
  ((∀ x, x ∈ l → same x = false) → f new ∉ f <$> l) → NoDup (f <$> l) → NoDup (f <$> ups l).
Proof.
  intros Hf Hnew Hn. destruct (upsert_fmap f l Hf) as [->|[Hs ->]]; [done|].
  apply NoDup_app. split_and!; [done|set_solver|apply NoDup_singleton].
Qed.
Lemma upsert_mem {B} (f : A → B) l k : (∀ x, f (upd x) = f x) → k ∈ f <$> l → k ∈ f <$> ups l.
Proof. intros Hf Hk. destruct (upsert_fmap f l Hf) as [->|[_ ->]]; set_solver. Qed.
End upsert_facts.

(** ** Invariant *)
Definition art_key (a : art_row) : string * option string * option string :=
  (art_device_type (ar_art a), ar_variant a, art_version (ar_art a)).
Definition ver_key (v : version_row) : Z * string := (vr_plugin v, vr_version v).
Definition var_key (v : variant_row) : Z * string := (va_version v, va_variant v).
(** Identifiers come from the sequences, the unique keys of the schema hold and
    references lead somewhere. *)
Record catalog_ok (c : catalog) : Prop := {
  ok_art_ids : NoDup (a_id <$> ct_artifacts c);
  ok_art_next : ∀ a, a ∈ ct_artifacts c → 0 < a_id a < ct_next_art c;
  ok_art_key : NoDup (art_key <$> filter (λ a, is_Some (ar_variant a)) (ct_artifacts c));
  ok_ver_ids : NoDup (vr_id <$> ct_versions c);
  ok_ver_next : ∀ v, v ∈ ct_versions c → 0 < vr_id v < ct_next_ver c;
  ok_ver_key : NoDup (ver_key <$> ct_versions c);
  ok_ver_refs : ∀ v, v ∈ ct_versions c → refers (vr_plugin v) (vr_artifact v) c = true;
  ok_var_key : NoDup (var_key <$> ct_variants c);
  ok_var_refs : ∀ v, v ∈ ct_variants c → va_version v ∈ vr_id <$> ct_versions c ∧ va_artifact v ∈ a_id <$> ct_artifacts c;
  ok_next : 0 < ct_next_art c ∧ 0 < ct_next_ver c }.
Notation keeps_ok m := (Maintains catalog_ok m).

Lemma fresh_id {A} (f : A → Z) (l : list A) n : (∀ x, x ∈ l → 0 < f x < n) → n ∉ f <$> l.
Proof. intros H (x & -> & Hx)%list_elem_of_fmap. specialize (H x Hx). lia. Qed.
(** A reference keeps leading somewhere when artifacts are only added. *)
Lemma refers_mono p i c c' : p_id <$> ct_plugins c' = p_id <$> ct_plugins c →
  (∀ k, k ∈ a_id <$> ct_artifacts c → k ∈ a_id <$> ct_artifacts c') → refers p i c = true → refers p i c' = true.
Proof.
  intros Hp Ha. unfold refers. rewrite Hp. destruct i as [i|]; [|done]. rewrite !andb_true_iff, !bool_decide_eq_true. naive_solver.
Qed.

(** Rewriting the artifacts in place or adding some. *)
Lemma ok_set_artifacts c arts n : catalog_ok c →
  NoDup (a_id <$> arts) → (∀ a, a ∈ arts → 0 < a_id a < n) → NoDup (art_key <$> filter (λ a, is_Some (ar_variant a)) arts) →
  (∀ k, k ∈ a_id <$> ct_artifacts c → k ∈ a_id <$> arts) → 0 < n → catalog_ok (set_artifacts arts n c).
Proof.
  intros [] H1 H2 H3 H4 H5. constructor; simpl; try done; try tauto.
  - intros v Hv. eapply (refers_mono _ _ c); [done|exact H4|]. by apply ok_ver_refs0.
  - intros v Hv. destruct (ok_var_refs0 v Hv). auto.
Qed.
Lemma ok_set_versions c vs n : catalog_ok c →
  NoDup (vr_id <$> vs) → (∀ v, v ∈ vs → 0 < vr_id v < n) → NoDup (ver_key <$> vs) →
  (∀ v, v ∈ vs → refers (vr_plugin v) (vr_artifact v) c = true) →
  (∀ k, k ∈ vr_id <$> ct_versions c → k ∈ vr_id <$> vs) → 0 < n → catalog_ok (set_versions vs n c).
Proof.
  intros [] H1 H2 H3 H4 H5 H6. constructor; simpl; try done; try tauto.
  intros v Hv. destruct (ok_var_refs0 v Hv). auto.
Qed.

Section invariant.
Variable now : Z.

Lemma art_key_filter l a b : a ∈ l → b ∈ l → is_Some (ar_variant a) →
  NoDup (art_key <$> filter (λ a, is_Some (ar_variant a)) l) → art_key a = art_key b → a = b.
Proof.
  intros Ha Hb Hs Hn Hk. eapply NoDup_key; [exact Hn| | |exact Hk]; apply list_elem_of_filter; split; try done.
  injection Hk as _ Hv _. by rewrite <- Hv.
Qed.
Lemma upsert_filter {A} (same : A → bool) upd new (P : A → Prop) `{!∀ x, Decision (P x)} l :
  (∀ x, P (upd x) ↔ P x) → (∀ x, same x = true → P x) → P new →
  filter P (upsert same upd new l) = upsert same upd new (filter P l).
Proof.
  intros Hu Hs Hn. induction l as [|x l IH]; simpl.
  { rewrite filter_cons, decide_True by done. done. }
  destruct (same x) eqn:E.
  - rewrite !filter_cons, !decide_True by naive_solver. simpl. by rewrite E.
  - rewrite !filter_cons. case_decide; [|done]. simpl. by rewrite E, IH.
Qed.

#[export] Instance upsert_artifact_ok dt pv v path sum cl : keeps_ok (upsert_artifact now dt pv v path sum cl).
Proof.
  intros c Hok. unfold upsert_artifact. case_match; [|done]. simpl.
  set (upd := replace_binary _ _ _ _). set (new := new_artifact _ _ _ _ _ _ _ _).
  assert (Hid : ∀ x, a_id (upd x) = a_id x) by done. assert (Hkey : ∀ x, art_key (upd x) = art_key x) by done.
  pose proof (ok_art_next c Hok) as Hnx. destruct (ok_next c Hok).
  apply ok_set_artifacts; [done|..|lia].
  - apply upsert_NoDup; [done| |by apply ok_art_ids]. intros _. by apply fresh_id.
  - intros a [Ha| ->]%elem_of_upsert; [specialize (Hnx a Ha); lia|]. unfold upserted.
    case_match eqn:E; [rewrite Hid|unfold new, new_artifact, a_id; simpl; lia]. apply List.find_some in E as [E%list_elem_of_In _]. specialize (Hnx _ E). simpl. lia.
  - rewrite upsert_filter; [|done| |done].
    + apply upsert_NoDup; [done| |by apply ok_art_key]. intros Hs (x & Hk & Hx)%list_elem_of_fmap.
      specialize (Hs x Hx). unfold same_artifact in Hs. bool_hyps. apply Hs. by injection Hk as <- <- <-.
    + intros x Hx. unfold same_artifact in Hx. bool_hyps. destruct Hx as (_ & -> & _). done.
  - intros k Hk. by apply upsert_mem.
Qed.
#[export] Instance create_artifact_ok dt pv v path sum cl : keeps_ok (create_artifact now dt pv v path sum cl).
Proof. unfold create_artifact. apply _. Qed.
#[export] Instance insert_artifact_ok dt v path sum cl : keeps_ok (insert_artifact now dt v path sum cl).
Proof.
  intros c Hok. unfold insert_artifact. case_match; [|done]. simpl. pose proof (ok_art_next c Hok) as Hnx. destruct (ok_next c Hok).
  apply ok_set_artifacts; [done|..|lia].
  - rewrite fmap_app. apply NoDup_app. split_and!; [by apply ok_art_ids| |apply NoDup_singleton].
    intros i Hi ->%list_elem_of_singleton. by apply (fresh_id a_id (ct_artifacts c) (ct_next_art c)).
  - intros a [Ha| ->%list_elem_of_singleton]%elem_of_app; [specialize (Hnx a Ha); lia|unfold a_id; simpl; lia].
  - rewrite filter_app. rewrite (filter_none _ [_]), app_nil_r; [by apply ok_art_key|].
    intros x ->%list_elem_of_singleton [? [=]].
  - set_solver.
Qed.
#[export] Instance toggle_artifact_ok i b : keeps_ok (toggle_artifact i b).
Proof.
  intros c Hok. simpl. set (f := λ a : art_row, _).
  assert (Hf : ∀ B (g : art_row → B), (∀ a, g (ArtRow (ar_art a) (ar_variant a) b (ar_released a)) = g a) → g <$> (f <$> ct_artifacts c) = g <$> ct_artifacts c).
  { intros B g Hg. rewrite <- list_fmap_compose. apply list_fmap_ext. intros k a _. unfold f. simpl. by case_decide. }
  apply ok_set_artifacts; [done|..|by apply ok_next].
  - rewrite Hf by done. by apply ok_art_ids.
  - intros a (x & -> & Hx)%list_elem_of_fmap. replace (a_id (f x)) with (a_id x) by (unfold f; by case_decide).
    by apply (ok_art_next c Hok).
  - assert (Hfl : filter (λ a, is_Some (ar_variant a)) (f <$> ct_artifacts c) = f <$> filter (λ a, is_Some (ar_variant a)) (ct_artifacts c)).
    { clear. induction (ct_artifacts c) as [|a l IH]; [done|]. rewrite fmap_cons, !filter_cons, IH.
      assert (ar_variant (f a) = ar_variant a) as Hv by (unfold f; by case_decide).
      rewrite (decide_ext (is_Some (ar_variant (f a))) (is_Some (ar_variant a)) _ _) by (by rewrite Hv). by case_decide. }
    rewrite Hfl, <- list_fmap_compose. erewrite list_fmap_ext; [by apply ok_art_key|]. intros k a _. unfold f. simpl. by case_decide.
  - intros k Hk. by rewrite Hf.
Qed.

(** A rewriting of the versions that keeps identity and references. *)
Lemma ok_map_versions c (f : version_row → version_row) : (∀ v, vr_id (f v) = vr_id v) → (∀ v, ver_key (f v) = ver_key v) →
  (∀ v, vr_artifact (f v) = vr_artifact v) → catalog_ok c → catalog_ok (set_versions (f <$> ct_versions c) (ct_next_ver c) c).
Proof.
  intros Hi Hk Ha Hok.
  assert (Hf : ∀ B (g : version_row → B), (∀ v, g (f v) = g v) → g <$> (f <$> ct_versions c) = g <$> ct_versions c).
  { intros B g Hg. rewrite <- list_fmap_compose. apply list_fmap_ext. intros k a _. apply Hg. }
  apply ok_set_versions; rewrite ?Hf by done; try done; try (by apply Hok).
  - intros v (x & -> & Hx)%list_elem_of_fmap. rewrite Hi. by apply (ok_ver_next c Hok).
  - intros v (x & -> & Hx)%list_elem_of_fmap. rewrite Ha. specialize (Hk x). injection Hk as -> _. by apply (ok_ver_refs c Hok).
Qed.
#[export] Instance deprecate_others_ok p v : keeps_ok (deprecate_others p v).
Proof. intros c Hok. apply ok_map_versions; try done; intros x; unfold deprecate_row; by case_decide. Qed.
#[export] Instance update_version_status_ok i s : keeps_ok (update_version_status now i s).
Proof.
  intros c Hok. unfold update_version_status. rewrite bind_gets. simpl. destruct (_ && _); [done|]. rewrite bind_modify. simpl.
  apply ok_map_versions; try done; intros x; by case_decide.
Qed.

Lemma put_version_ok upd new : (∀ v, vr_id (upd v) = vr_id v) → (∀ v, ver_key (upd v) = ver_key v) →
  (∀ v, vr_artifact (upd v) = vr_artifact v ∨ ∀ i, vr_artifact (upd v) = vr_artifact (new i)) → (∀ i j, ver_key (new i) = ver_key (new j)) →
  (∀ i, vr_id (new i) = i) → (∀ i j, vr_artifact (new i) = vr_artifact (new j)) → keeps_ok (put_version upd new).
Proof.
  intros Hi Hk Ha Hnk Hni Hna c Hok. unfold put_version. rewrite bind_gets. simpl. set (n := new (ct_next_ver c)) in *.
  destruct (refers _ _ _) eqn:Er; [|done]. simpl. pose proof (ok_ver_next c Hok) as Hnx. destruct (ok_next c Hok).
  assert (Hup : ∀ x, upserted (same_version (vr_plugin n) (vr_version n)) upd n (ct_versions c) = x → x = n ∨ ∃ y, y ∈ ct_versions c ∧ x = upd y ∧ same_version (vr_plugin n) (vr_version n) y = true).
  { intros x <-. unfold upserted. case_match eqn:E; [|by left]. apply List.find_some in E as [E%list_elem_of_In ?]. eauto. }
  apply ok_set_versions; [done|..|lia].
  - apply upsert_NoDup; [done| |by apply Hok]. intros _. unfold n. rewrite (Hni _). by apply fresh_id.
  - intros v [Hv|Hv]%elem_of_upsert; [specialize (Hnx v Hv); lia|]. symmetry in Hv. apply Hup in Hv as [->|(y & Hy & -> & _)].
    + unfold n. rewrite Hni. lia.
    + rewrite Hi. specialize (Hnx y Hy). lia.
  - apply upsert_NoDup; [done| |by apply Hok]. intros Hs (x & Hx & Hxl)%list_elem_of_fmap. specialize (Hs x Hxl).
    unfold same_version in Hs. bool_hyps. apply Hs. by injection Hx as -> ->.
  - intros v [Hv|Hv]%elem_of_upsert; [by apply (ok_ver_refs c Hok)|]. symmetry in Hv. apply Hup in Hv as [->|(y & Hy & -> & Hs)]; [done|].
    pose proof (Hk y) as Hky. injection Hky as Hp _. rewrite Hp. destruct (Ha y) as [->|Ha']; [by apply (ok_ver_refs c Hok)|].
    rewrite (Ha' (ct_next_ver c)). unfold same_version in Hs. bool_hyps. destruct Hs as [-> _]. done.
  - intros k Hk'. by apply upsert_mem.
Qed.
#[export] Instance create_version_ok p v a notes url mi ma mode st : keeps_ok (create_version now p v a notes url mi ma mode st).
Proof.
  unfold create_version. apply maintains_bind; [|intros _].
  { apply maintains_decide; apply _. }
  apply maintains_if; [apply _|]. apply maintains_if; [apply _|]. apply put_version_ok; try done.
  intros v'. simpl. unfold coalesce. case_match; simpl; auto.
Qed.
#[export] Instance publish_version_ok p v a notes : keeps_ok (publish_version now p v a notes).
Proof. unfold publish_version. apply maintains_if; [apply _|]. apply put_version_ok; try done. by right. Qed.
#[export] Instance link_version_artifact_ok v a pv : keeps_ok (link_version_artifact v a pv).
Proof.
  intros c Hok. unfold link_version_artifact. rewrite bind_gets. simpl. case_match; [done|]. case_bool_decide as Hr; [|done]. simpl.
  set (upd := λ v0 : variant_row, _). set (new := VariantRow _ _ _ _). destruct Hok. constructor; simpl; try done.
  - apply upsert_NoDup; [done| |done]. intros Hs (x & Hx & Hxl)%list_elem_of_fmap. specialize (Hs x Hxl).
    unfold same_variant in Hs. bool_hyps. apply Hs. by injection Hx as -> ->.
  - intros w [Hw| ->]%elem_of_upsert; [by apply ok_var_refs0|]. unfold upserted. case_match eqn:E; [|done].
    apply List.find_some in E as [E%list_elem_of_In _]. destruct (ok_var_refs0 _ E). by split; [|apply Hr].
Qed.
End invariant.

(** ** What the statements do *)
Section statements.
Variable now : Z.

Lemma upsert_filter_out {A} (same : A → bool) upd new (P : A → Prop) `{!∀ x, Decision (P x)} l :
  (∀ x, P (upd x) ↔ P x) → (∀ x, same x = true → ¬ P x) → ¬ P new → filter P (upsert same upd new l) = filter P l.
Proof.
  intros Hu Hs Hn. induction l as [|x l IH]; simpl.
  { by rewrite filter_cons, decide_False. }
  destruct (same x) eqn:E.
  - rewrite !filter_cons, !decide_False by naive_solver. done.
  - rewrite !filter_cons. case_decide; by rewrite IH.
Qed.
Lemma upserted_props {A} (same : A → bool) upd new (P : A → Prop) l :
  (∀ x, x ∈ l → same x = true → P (upd x)) → P new → P (upserted same upd new l).
Proof.
  intros Hu Hn. unfold upserted. destruct (find same l) as [y|] eqn:E; [|done].
  apply List.find_some in E as [E%list_elem_of_In ?]. auto.
Qed.

(** The artifact of a device type, variant and version now has this binary; the
    artifacts of other keys are as they were. *)
Lemma upsert_artifact_spec dt pv v path sum cl c i c' : catalog_ok c → upsert_artifact now dt pv v path sum cl c = (Ok i, c') →
  ∃ a arts, c' = set_artifacts arts (ct_next_art c + 1) c ∧ a ∈ arts ∧ a_id a = i ∧ art_key a = (dt, Some pv, Some v) ∧
    art_s3_path (ar_art a) = Some path ∧ art_checksum (ar_art a) = Some sum ∧
    filter (λ b, art_key b ≠ (dt, Some pv, Some v)) arts = filter (λ b, art_key b ≠ (dt, Some pv, Some v)) (ct_artifacts c) ∧
    (∀ b, b ∈ ct_artifacts c → art_key b = (dt, Some pv, Some v) → a_id b = i).
Proof.
  intros Hok. unfold upsert_artifact. case_match; [|done]. rewrite bind_gets, bind_modify. intros [= <- <-].
  eexists _, _. split; [done|]. split; [apply upserted_elem|]. split; [done|]. split_and!.
  - apply upserted_props; [|done]. intros a _ Ha. unfold same_artifact in Ha. bool_hyps. destruct Ha as (? & ? & ?).
    unfold art_key. simpl. congruence.
  - by apply upserted_props.
  - by apply upserted_props.
  - apply upsert_filter_out; [done| |].
    + intros a Ha Hn. unfold same_artifact in Ha. bool_hyps. destruct Ha as (? & ? & ?). apply Hn. unfold art_key. congruence.
    + intros Hn. by apply Hn.
  - intros b Hb Hk. assert (Hs : same_artifact dt pv v b = true).
    { unfold same_artifact. apply bool_decide_eq_true. unfold art_key in Hk. naive_solver. }
    unfold upserted. destruct (find _ _) as [y|] eqn:E.
    + apply List.find_some in E as [E%list_elem_of_In Hy]. unfold same_artifact in Hy. bool_hyps. destruct Hy as (Hy1 & Hy2 & Hy3).
      change (a_id (replace_binary path sum cl now y)) with (a_id y).
      assert (y = b) as ->; [|done]. eapply art_key_filter; [exact E|exact Hb|by rewrite Hy2|by apply ok_art_key|].
      rewrite Hk. unfold art_key. congruence.
    + exfalso. apply list_elem_of_In in Hb. apply (List.find_none _ _ E) in Hb. congruence.
Qed.

Lemma deprecate_filter p v (l : list version_row) :
  filter (λ r, vr_plugin r ≠ p) (deprecate_row p v <$> l) = filter (λ r, vr_plugin r ≠ p) l.
Proof.
  induction l as [|w l IH]; [done|]. rewrite fmap_cons, !filter_cons, IH.
  assert (deprecate_row p v w = w ∨ vr_plugin w = p ∧ vr_plugin (deprecate_row p v w) = p) as [->|[H1 H2]]; [|done|].
  { unfold deprecate_row. case_decide; [right|by left]. naive_solver. }
  by rewrite !decide_False by (rewrite ?H1, ?H2; naive_solver).
Qed.

(** A version that is inserted or updated as published, once the others have been
    deprecated, is the only published one of its plugin; the versions of the other
    plugins are as they were. *)
Lemma put_published_spec p v upd new c i c' : catalog_ok c → keeps_ok (put_version upd new) →
  (∀ w, vr_plugin (upd w) = vr_plugin w ∧ vr_version (upd w) = vr_version w) →
  (∀ k, vr_plugin (new k) = p ∧ vr_version (new k) = v) →
  put_version upd new (deprecate_others p v c).2 = (Ok i, c') →
  ∃ r vs, c' = set_versions vs (ct_next_ver c + 1) c ∧ r ∈ vs ∧ vr_id r = i ∧ vr_plugin r = p ∧ vr_version r = v ∧
    (∀ P : version_row → Prop, (∀ w, w ∈ ct_versions c → ver_key w = (p, v) → P (upd (deprecate_row p v w))) →
       P (new (ct_next_ver c)) → P r) ∧
    (∀ r', r' ∈ vs → published_of p r' = true → r' = r) ∧
    filter (λ r', vr_plugin r' ≠ p) vs = filter (λ r', vr_plugin r' ≠ p) (ct_versions c).
Proof.
  intros Hok Hkeep Hupd Hnew Hrun. pose proof (maintains_run catalog_ok _ _ _ _ Hrun (deprecate_others_ok p v c Hok)) as Hok'.
  unfold put_version in Hrun. rewrite bind_gets in Hrun. simpl in Hrun. set (n := new (ct_next_ver c)) in *.
  destruct (Hnew (ct_next_ver c)) as [Hnp Hnv]. fold n in Hnp, Hnv. rewrite Hnp, Hnv in Hrun.
  destruct (refers _ _ _); [|done]. rewrite bind_modify in Hrun. injection Hrun as Hi Hc. simpl in Hc.
  set (l := deprecate_row p v <$> ct_versions c) in *. set (same := same_version p v) in *. set (r := upserted same upd n l) in *.
  assert (Hsame : ∀ w, same w = true → vr_plugin w = p ∧ vr_version w = v).
  { intros w Hw. unfold same, same_version in Hw. by bool_hyps. }
  assert (Hdep : ∀ w, vr_plugin (deprecate_row p v w) = vr_plugin w ∧ vr_version (deprecate_row p v w) = vr_version w)
    by (intros w; unfold deprecate_row; by case_decide).
  assert (HP : ∀ P : version_row → Prop, (∀ w, w ∈ ct_versions c → ver_key w = (p, v) → P (upd (deprecate_row p v w))) → P n → P r).
  { intros P Hu Hn. apply upserted_props; [|done]. intros w (w0 & -> & Hw0)%list_elem_of_fmap [H1 H2]%Hsame.
    destruct (Hdep w0) as [E1 E2]. apply Hu; [done|]. unfold ver_key. congruence. }
  assert (Hr : vr_plugin r = p ∧ vr_version r = v).
  { apply HP; [|done]. intros w _ [= H1 H2]. destruct (Hdep w), (Hupd (deprecate_row p v w)). split; congruence. }
  destruct Hr as [Hrp Hrv]. exists r, (upsert same upd n l). subst c'. split_and!; try done.
  - apply upserted_elem.
  - intros r' Hr' Hpr. unfold published_of in Hpr. bool_hyps. destruct Hpr as [Hpr Hst].
    assert (Hver : vr_version r' = v).
    { apply elem_of_upsert in Hr' as [(w & -> & Hw)%list_elem_of_fmap| ->]; [|done]. unfold deprecate_row in Hpr, Hst |- *.
      case_decide as Hd; [done|]. destruct (decide (vr_version w = v)); [done|]. exfalso. by apply Hd. }
    eapply (NoDup_key ver_key); [apply (ok_ver_key _ Hok')|exact Hr'|apply upserted_elem|]. unfold ver_key. fold r. congruence.
  - rewrite upsert_filter_out; [|intros w; by destruct (Hupd w) as [-> _]| |by intros Hn; apply Hn].
    + apply deprecate_filter.
    + intros w Hw Hn. destruct (Hsame w Hw). done.
Qed.
Lemma deprecate_mode p v w : vr_mode (deprecate_row p v w) = vr_mode w.
Proof. unfold deprecate_row. by case_decide. Qed.
Lemma publish_spec p v aid notes c i c' : catalog_ok c →
  publish_version now p v aid notes (deprecate_others p v c).2 = (Ok i, c') →
  ∃ r vs, c' = set_versions vs (ct_next_ver c + 1) c ∧ r ∈ vs ∧ vr_id r = i ∧ vr_plugin r = p ∧ vr_version r = v ∧
    vr_artifact r = Some aid ∧ vr_status r = "published" ∧ is_Some (vr_published r) ∧
    ((∀ r0, r0 ∈ ct_versions c → ver_key r0 = (p, v) → vr_mode r0 = "managed") → vr_mode r = "managed") ∧
    (∀ r', r' ∈ vs → published_of p r' = true → r' = r) ∧
    filter (λ r', vr_plugin r' ≠ p) vs = filter (λ r', vr_plugin r' ≠ p) (ct_versions c).
Proof.
  intros Hok Hrun. unfold publish_version in Hrun. destruct (negb _); [done|].
  apply put_published_spec in Hrun as (r & vs & -> & Hin & Hi & Hp & Hv & HP & Hone & Hothers);
    [|done|by apply put_version_ok; try done; right|done|done].
  exists r, vs. split_and!; try done; try (by apply HP; [|done]).
  - apply HP; [|done]. intros w _ _. simpl. unfold coalesce. by destruct (vr_published _).
  - intros Hman. apply HP; [|done]. intros w Hw Hk. simpl. rewrite deprecate_mode. by apply Hman.
Qed.
(** The service that creates a version, when it publishes it. *)
Lemma create_version_spec p v aid notes url mi ma mode c i c' : catalog_ok c → 0 < aid →
  create_version now p v (Some aid) notes url mi ma mode "published" c = (Ok i, c') →
  ∃ r vs, c' = set_versions vs (ct_next_ver c + 1) c ∧ r ∈ vs ∧ vr_id r = i ∧ vr_plugin r = p ∧ vr_version r = v ∧
    vr_artifact r = Some aid ∧ vr_status r = "published" ∧ (∀ r', r' ∈ vs → published_of p r' = true → r' = r) ∧
    filter (λ r', vr_plugin r' ≠ p) vs = filter (λ r', vr_plugin r' ≠ p) (ct_versions c).
Proof.
  intros Hok Haid Hrun. unfold create_version in Hrun. rewrite decide_True in Hrun by done.
  rewrite (bind_step _ _ _ () (deprecate_others p v c).2) in Hrun by done. destruct (negb _); [done|]. destruct (negb _); [done|].
  replace (aid =? 0) with false in Hrun by lia.
  apply put_published_spec in Hrun as (r & vs & -> & Hin & Hi & Hp & Hv & HP & Hone & Hothers);
    [|done|by apply put_version_ok; try done; right|done|done].
  exists r, vs. split_and!; try done; by apply HP; [|done].
Qed.
Lemma artifact_at_ok c a : catalog_ok c → a ∈ ct_artifacts c → artifact_at c (a_id a) = Some a.
Proof.
  intros Hok Ha. unfold artifact_at. destruct (find _ _) as [b|] eqn:E.
  - apply List.find_some in E as [E%list_elem_of_In Hb]. bool_hyps. f_equal. eapply (NoDup_key a_id); [apply Hok|done..].
  - exfalso. apply list_elem_of_In in Ha. apply (List.find_none _ _ E) in Ha. bool_hyps. done.
Qed.
End statements.

(** ** Histories *)
(** What the services and the statements of the routes can be asked to do. *)
Inductive service : Type :=
| CreateArtifact (device_type platform_variant version s3_path checksum changelog_url : string)
| InsertArtifact (device_type version s3_path checksum changelog_url : string)
| ToggleArtifact (artifact_id : Z) (is_active : bool)
| CreateVersion (plugin_id : Z) (version : string) (artifact_id : option Z)
    (release_notes download_url min_host_version max_host_version distribution_mode status : string)
| PublishVersion (plugin_id : Z) (version : string) (artifact_id : Z) (release_notes : string)
| UpdateVersionStatus (version_id : Z) (new_status : string)
| LinkVersionArtifact (plugin_version_id artifact_id : Z) (platform_variant : string).
Definition perform (now : Z) (a : service) : SM catalog () :=
  match a with
  | CreateArtifact dt pv v path sum url => create_artifact now dt pv v path sum url;; mret ()
  | InsertArtifact dt v path sum url => insert_artifact now dt v path sum url;; mret ()
  | ToggleArtifact i b => toggle_artifact i b;; mret ()
  | CreateVersion p v a notes url mi ma mode st => create_version now p v a notes url mi ma mode st;; mret ()
  | PublishVersion p v a notes => deprecate_others p v;; publish_version now p v a notes;; mret ()
  | UpdateVersionStatus i st => update_version_status now i st;; mret ()
  | LinkVersionArtifact v a pv => link_version_artifact v a pv;; mret ()
  end.
(** Requests one after the other; the flag tells whether the request is a
    transaction, undone when it fails, or runs in autocommit mode. *)
Definition serve_request (c : catalog) (r : Z * bool * service) : catalog :=
  let m := perform r.1.1 r.2 in ((if r.1.2 then atomic m else m) c).2.
#[export] Instance atomic_ok {A} (m : SM catalog A) : Maintains catalog_ok m → Maintains catalog_ok (atomic m).
Proof. intros Hm c Hc. specialize (Hm c Hc). unfold atomic. by destruct (m c) as [[a|err] c']. Qed.
#[export] Instance perform_ok now a : Maintains catalog_ok (perform now a).
Proof. destruct a; apply _. Qed.

Definition requests_ex : list (Z * bool * service) :=
  [(10, true, CreateArtifact "libreoffice" "" "1.0" "p" "sha256:00" ""); (11, true, CreateVersion 1 "1.0" (Some 1) "" "" "" "" "managed" "published");
   (12, true, CreateVersion 1 "1.1" (Some 9) "" "" "" "" "managed" "published"); (13, false, PublishVersion 1 "2.0" 1 "");
   (14, true, LinkVersionArtifact 1 1 "gecko-dgx"); (15, true, UpdateVersionStatus 1 "withdrawn")].
Definition catalog_start_ex : catalog :=
  Catalog [Plugin (PluginRow 1 "mirai" "libreoffice" "active" JNull (Some "open") None) "mirai" JNull None None None default_info] [] [] [] [] 1 1 1.
