(* ===== verification/AuditLog.v ===== *)
(** * Audit log
    [app/admin/helpers.py]: the entry that an administration action leaves in
    [admin_audit_log], with the plugin it concerns derived when it is written. *)
From S2P Require Import Prelude Text Json Effects Flags Config Catalog.
From Stdlib Require Import Ascii String.
Open Scope Z_scope.

Record audit_row : Type := AuditRow {
  au_at : Z; au_email : string; au_sub : string; au_action : string; au_type : string; au_id : option string;
  au_payload : json; au_ip : option string; au_agent : option string; au_plugin : option string }.

Section audit.
Variables (plugins : list plugin) (flags : list flag_row).

(** The slug of a plugin of any status, when it is not empty. *)
Definition slug_of_id (i : Z) : option string :=
  find (λ p, bool_decide (p_id p = i)) plugins ≫= λ p, or_none (pl_slug (pg_row p)).
(** [int(x)] of a text of digits: a superscript raises. *)
Definition int_of (s : string) : result exn Z := match py_int s with Some z => Ok z | None => Err tt end.
(** [SELECT slug FROM plugins WHERE id = int(x)] when [str(x).isdigit()] *)
Definition by_number (s : string) : result exn (option string) :=
  if py_isdigit s then let* i := int_of s in Ok (slug_of_id i) else Ok None.
Definition from_resource (resource_type rid : string) : result exn (option string) :=
  if bool_decide (resource_type = "plugin") && truthy_str rid then
    if py_isdigit rid then by_number rid else Ok (if decide (rid = "*") then None else Some rid)
  else Ok None.
Definition from_payload (payload : json) : result exn (option string) :=
  match payload with
  | JObj d =>
      let slug := strip (str_or_empty (jget "plugin_slug" d)) in
      if truthy_str slug then Ok (Some slug)
      else match jget "plugin_id" d with JNull => Ok None | v => by_number (py_str v) end
  | _ => Ok None
  end.
Definition from_flag (resource_type rid : string) : result exn (option string) :=
  if bool_decide (resource_type = "flag") && py_isdigit rid then
    let* i := int_of rid in
    Ok (find (λ f, bool_decide (ff_id f = i)) flags ≫= λ f, or_none (ff_slug f))
  else Ok None.
(** The first source that gives a plugin. *)
Definition _derive_audit_plugin (resource_type rid : string) (payload : json) : result exn (option string) :=
  let* a := from_resource resource_type rid in
  match a with
  | Some _ => Ok a
  | None =>
      let* b := from_payload payload in
      match b with Some _ => Ok b | None => from_flag resource_type rid end
  end.

(** [actor]: its address and subject; a derivation that raises gives no plugin. *)
Definition audit_log (inet : string → bool) (now : Z) (actor : string * string) (action resource_type : string) (resource_id : option string)
    (payload : json) (ip ua plugin : option string) : SM (list audit_row) () :=
  let plugin := match plugin with
                | Some _ => plugin
                | None => try_or (_derive_audit_plugin resource_type (default "" resource_id) payload) None
                end in
  if negb (fits_opt 100 plugin) then raise (Exc "value too long for type character varying")
  else if negb (match ip with Some a => inet a | None => true end) then raise (Exc "invalid input syntax for type inet")
  else modify (λ l, l ++ [AuditRow now actor.1 actor.2 action resource_type resource_id
                            (if truthy payload then payload else JNull) ip ua plugin]).
End audit.

(** An entry about a plugin named by its slug is filed under that plugin, whatever
    the payload says. *)
Lemma derive_named_plugin plugins flags slug payload :
  py_isdigit slug = false → slug ≠ "" → slug ≠ "*" → _derive_audit_plugin plugins flags "plugin" slug payload = Ok (Some slug).
Proof.
  intros Hd Hn Hs. unfold _derive_audit_plugin, from_resource. apply truthy_str_true in Hn. rewrite Hn, Hd. simpl.
  by rewrite decide_False.
Qed.
