(* ===== verification/Binaries.v ===== *)
(** * Binaries
    Where the plugin packages are kept and how they are served: of [app/main.py]
    [_persist_plugin_binary], [_pull_binary_from_admin], [_serve_binary_path],
    [get_binary], [_files_admin_guard], and the state [site] that the deployment
    and the download routes work on. The disk maps a resolved path to the content
    of the file there; symbolic links are those of [Paths]. The bucket, the files
    API of the admin pod and the failures of the disk are arguments. *)
From S2P Require Import Prelude Text Json Effects Paths Flags AdminAuth Relay Campaigns RuntimeConfig Ingest Catalog AuditLog.
From Stdlib Require Import Ascii String.
Open Scope Z_scope.

(** ** State *)
Record site : Type := Site {
  s_world : Ingest.world; s_cat : catalog; s_camp : Life.state; s_flags : flag_state; s_audit : list audit_row;
  s_disk : gmap string string; s_objects : gmap string string; s_forwarded : list (string * string) }.
Definition set_world x s := Site x (s_cat s) (s_camp s) (s_flags s) (s_audit s) (s_disk s) (s_objects s) (s_forwarded s).
Definition set_cat x s := Site (s_world s) x (s_camp s) (s_flags s) (s_audit s) (s_disk s) (s_objects s) (s_forwarded s).
Definition set_camp x s := Site (s_world s) (s_cat s) x (s_flags s) (s_audit s) (s_disk s) (s_objects s) (s_forwarded s).
Definition set_flags x s := Site (s_world s) (s_cat s) (s_camp s) x (s_audit s) (s_disk s) (s_objects s) (s_forwarded s).
Definition set_audit x s := Site (s_world s) (s_cat s) (s_camp s) (s_flags s) x (s_disk s) (s_objects s) (s_forwarded s).
Definition set_disk x s := Site (s_world s) (s_cat s) (s_camp s) (s_flags s) (s_audit s) x (s_objects s) (s_forwarded s).
Definition set_objects x s := Site (s_world s) (s_cat s) (s_camp s) (s_flags s) (s_audit s) (s_disk s) x (s_forwarded s).
Definition set_forwarded x s := Site (s_world s) (s_cat s) (s_camp s) (s_flags s) (s_audit s) (s_disk s) (s_objects s) x.
Definition on_catalog {A} (m : SM catalog A) : SM site A := zoom s_cat set_cat m.
Definition on_world {A} (m : SM Ingest.world A) : SM site A := zoom s_world set_world m.

(** ** Settings *)
Record host : Type := Host {
  h_env : environ; h_mode : string; h_prefix : string; h_local_dir : string; h_token : string;
  h_links : gmap (list string) string; h_cwd : list string }.
(** What the program does not contain: the presigned address of an object, the
    answer of the files API, the paths the disk takes, the archives. *)
Record zip_entry : Type := ZipEntry { ze_name : string; ze_meta : string; ze_data : option string }.
Record outer : Type := Outer {
  x_presign : string → string → option string;
  x_fetch : string → option (Z * string);
  x_writable : string → bool;
  x_cohort : Z → bool;
  (** [zipfile]: the entries of an archive, an archive of entries, the bytes as text *)
  x_unzip : string → option (list zip_entry);
  x_zip : list (zip_entry * string) → option string;
  x_decode : string → string }.

Inductive reply : Type :=
| Json (status : Z) (body : list (string * json))
| Binary (content filename : string) (* the suggested name, if any *)
| Moved (status : Z) (url : string)
| Xml (text : string).
Definition failed (status : Z) (msg : string) : reply := Json status [("ok", JBool false); ("error", JStr msg)].
Definition http {S A} (status : Z) (detail : string) : SM S A := raise (Http (HttpError status detail)).
Definition of_http {A} (r : result http_error A) : result exc A := match r with Ok a => Ok a | Err e => Err (Http e) end.

Section binaries.
Variables (o : outside) (x : outer) (e : env) (h : host).

Definition real (p : string) : string := OsPath.realpath (h_links h) (h_cwd h) p.
Definition isfile (p : string) (s : site) : option string := s_disk s !! real p.
Definition safe_join (base rel : string) : SM site string := lift (of_http (safe_path_join (h_links h) (h_cwd h) base rel)).
Definition makedirs (p : string) : SM site () := if x_writable x p then mret () else raise (Exc "OSError").
Definition write_file (p data : string) : SM site () :=
  if x_writable x p then modify (λ s, set_disk (<[real p := data]> (s_disk s)) s) else raise (Exc "OSError").

(** ** The files API of the admin pod *)
Definition admin_url : string := rstrip_char "/" (getenv "DM_ADMIN_INTERNAL_URL" "http://device-management-admin" (h_env h)).
Definition admin_token : string := strip (h_token h).
Definition ADMIN_BASE : string := "/data/content/binaries".
(** [os.path.dirname] *)
Definition dirname (p : string) : string :=
  let hd := stake (String.length p - String.length (basename p)) p in
  if sforall (is_char "/") hd then hd else rstrip_char "/" hd.
(** The path below the directory of the binaries. *)
Definition relative_of (s3_path : string) : string :=
  if starts_with (ADMIN_BASE +:+ "/") s3_path then sdrop (String.length (ADMIN_BASE +:+ "/")) s3_path
  else if starts_with "/data/binaries/" s3_path then sdrop (String.length "/data/binaries/") s3_path
  else lstrip_char "/" s3_path.
Definition pull_url (s3_path : string) : string := admin_url +:+ "/admin/api/files/" +:+ relative_of s3_path.

Definition _pull_binary_from_admin (s3_path : string) : SM site bool :=
  if negb (bool_decide (h_mode h = "local")) then mret false
  else if negb (truthy_str admin_token) then mret false
  else
    match x_fetch x (pull_url s3_path) with
    | Some (status, content) =>
        if (status =? 200) && truthy_str content
        then catch (makedirs (dirname s3_path);; write_file s3_path content;; mret true) (λ _, mret false)
        else mret false
    | None => mret false
    end.

(** ** Storing *)
Definition object_key (path : string) : string := rstrip_char "/" (h_prefix h) +:+ "/" +:+ path.
Definition put_object (key data : string) : SM site () :=
  if e_s3_ok e then modify (λ s, set_objects (<[key := data]> (s_objects s)) s) else raise (Exc "S3 upload failed").

Definition _persist_plugin_binary (data rel_path filename device_type : string) : SM site string :=
  if negb (bool_decide (h_mode h = "local")) then
    if negb (truthy_str (e_s3_bucket e))
    then raise (Exc ("S3 bucket not configured (DM_S3_BUCKET) for DM_BINARIES_MODE=" +:+ h_mode h))
    else put_object (object_key rel_path) data;; mret (object_key rel_path)
  else
    d ← safe_join (h_local_dir h) device_type;
    makedirs d;;
    full_path ← safe_join (h_local_dir h) rel_path;
    write_file full_path data;;
    (if truthy_str admin_token
     then modify (λ s, set_forwarded (s_forwarded s ++ [(admin_url +:+ "/admin/api/files/upload/" +:+ rel_path, data)]) s)
     else mret ());;
    mret (ADMIN_BASE +:+ "/" +:+ rel_path).

(** ** Serving *)
Definition read_object (key : string) (s : site) : option string := if e_s3_ok e then s_objects s !! key else None.

Definition _serve_binary_path (s3_path filename : string) : SM site (option reply) :=
  if negb (truthy_str s3_path) then mret None
  else if bool_decide (h_mode h = "local") then
    found ← gets (isfile s3_path);
    (match found with Some _ => mret () | None => _pull_binary_from_admin s3_path;; mret () end);;
    found ← gets (isfile s3_path);
    mret ((λ content, Binary content filename) <$> found)
  else if negb (truthy_str (e_s3_bucket e)) then mret None
  else if bool_decide (h_mode h = "presign") then mret (Moved 302 <$> x_presign x (e_s3_bucket e) s3_path)
  else if bool_decide (h_mode h = "proxy") then
    found ← gets (read_object s3_path);
    mret ((λ content, Binary content filename) <$> found)
  else mret None.

(** [GET /binaries/{path}]: the call is logged, and logging never fails it. *)
Definition get_binary (path : string) : SM site reply :=
  on_world (catch (Store._log_device_connection o e "BINARY_GET" "system@local" Traces.ZERO_UUID "none" None None) (λ _, mret ()));;
  if bool_decide (h_mode h = "local") then
    local_path ← safe_join (h_local_dir h) path;
    found ← gets (isfile local_path);
    match found with Some content => mret (Binary content "") | None => http 404 "Local binary not found." end
  else if negb (truthy_str (e_s3_bucket e)) then http 500 "S3 bucket not configured (DM_S3_BUCKET)."
  else
    let key := object_key (lstrip_char "/" path) in
    if bool_decide (h_mode h = "presign") then
      match x_presign x (e_s3_bucket e) key with
      | Some url => mret (Moved 302 url)
      | None => http 404 "Binary not found or cannot presign"
      end
    else if bool_decide (h_mode h = "proxy") then
      found ← gets (read_object key);
      match found with Some content => mret (Binary content "") | None => http 404 "Binary not found" end
    else http 500 "Invalid DM_BINARIES_MODE (must be presign or proxy or local).".

(** The token of the files API; comparing text that is not ASCII raises. *)
Definition _files_admin_guard (hs : headers) : SM site () :=
  let expected := strip (h_token h) in
  if negb (truthy_str expected) then http 403 "Files API token not configured"
  else match compare_digest_str (strip (hget "x-admin-token" hs)) expected with
       | Ok true => mret ()
       | Ok false => http 403 "Invalid token"
       | Err _ => raise (Exc "comparing strings with non-ASCII characters is not supported")
       end.
End binaries.

(** ** Facts *)
Section facts.
Variables (x : outer) (e : env) (h : host).

(** Nothing but the binaries changes. *)
Definition but_binaries (s : site) : Ingest.world * catalog * Life.state * flag_state * list audit_row :=
  (s_world s, s_cat s, s_camp s, s_flags s, s_audit s).
(** Where the binary of a release is kept, and the reference to it. *)
Definition stored_ref (rel_path : string) : string :=
  if bool_decide (h_mode h = "local") then ADMIN_BASE +:+ "/" +:+ rel_path else object_key h rel_path.
Definition stored (rel_path data : string) (s s' : site) : Prop :=
  if bool_decide (h_mode h = "local")
  then ∃ p, safe_path_join (h_links h) (h_cwd h) (h_local_dir h) rel_path = Ok p ∧ s_disk s' = <[real h p := data]> (s_disk s) ∧ s_objects s' = s_objects s
  else s_disk s' = s_disk s ∧ s_objects s' = <[object_key h rel_path := data]> (s_objects s).

Lemma of_http_ok {A} (r : result http_error A) a : of_http r = Ok a → r = Ok a.
Proof. destruct r; naive_solver. Qed.
Lemma write_file_ok p data s s' : write_file x h p data s = (Ok (), s') → s' = set_disk (<[real h p := data]> (s_disk s)) s.
Proof. unfold write_file. case_match; [|done]. by intros [= <-]. Qed.

Lemma persist_ok data rel fn dt s ref s' : _persist_plugin_binary x e h data rel fn dt s = (Ok ref, s') →
  ref = stored_ref rel ∧ stored rel data s s' ∧ (h_mode h ≠ "local" → truthy_str (e_s3_bucket e) = true ∧ e_s3_ok e = true) ∧
  but_binaries s' = but_binaries s.
Proof.
  unfold _persist_plugin_binary, stored_ref, stored. case_bool_decide; simpl.
  - intros (d & s1 & [_ ->]%lift_ok & H1)%bind_ok. apply bind_ok in H1 as ([] & s1 & Hm & H1).
    unfold makedirs in Hm. destruct (x_writable x d); [|done]. injection Hm as <-.
    apply bind_ok in H1 as (p & s1 & [Hp%of_http_ok ->]%lift_ok & H1). apply bind_ok in H1 as ([] & s1 & ->%write_file_ok & H1).
    destruct (truthy_str _); simpl in H1; injection H1 as <- <-; simpl; naive_solver.
  - destruct (truthy_str (e_s3_bucket e)) eqn:Eb; simpl; [|done]. intros ([] & s1 & H1 & [= <- <-])%bind_ok.
    unfold put_object in H1. destruct (e_s3_ok e) eqn:Es; [|done]. by injection H1 as <-.
Qed.

(** Reading does not change what is stored, except for the copy that a pull leaves
    on the disk. *)
#[export] Instance pull_keeps p : Keeps but_binaries (_pull_binary_from_admin x h p).
Proof.
  unfold _pull_binary_from_admin, makedirs, write_file. repeat (apply keeps_if; [apply _|]).
  destruct (x_fetch x _) as [[st c]|]; apply _.
Qed.
#[export] Instance serve_path_keeps p fn : Keeps but_binaries (_serve_binary_path x e h p fn).
Proof.
  unfold _serve_binary_path. repeat (apply keeps_if; [try apply _|]); try apply _.
  apply keeps_bind; [apply _|intros [c|]]; apply keeps_bind; try apply _; intros; try apply _.
Qed.
End facts.
