(* ===== verification/Deploy.v ===== *)
(** * Deployment
    [POST /api/plugins/{slug}/deploy] and [POST /api/artifacts] of [app/main.py]:
    what a package says about itself, the binary that is stored, the artifact, the
    version and the campaign that are published. The connection is in autocommit
    mode, so what is done before an error stays. A text field sent as a file part,
    and a key order that [JSONB] does not keep, are left out. *)
From S2P Require Import Prelude Text Json Effects Hashing Paths Flags AdminAuth Relay Campaigns RuntimeConfig Ingest Config Gate Catalog AuditLog Binaries.
From Stdlib Require Import Ascii String.
Open Scope Z_scope.

(** ** The package *)
Module Package.
Section package.
Variable x : outer.

(** [zf.read(name)]: the last entry of that name *)
Definition zread (es : list zip_entry) (name : string) : option string :=
  find (λ z, bool_decide (ze_name z = name)) (rev es) ≫= ze_data.
Definition config_names : list string := ["dm-config.json"; "dm_config.json"].
Definition manifest_names : list string := ["dm-manifest.json"; "dm_manifest.json"].
Definition base_of (name : string) : string := lower (basename name).
(** [json.loads(zf.read(name).decode("utf-8", errors="replace"))] *)
Definition read_json (es : list zip_entry) (name : string) : option json := raw ← zread es name; loads (x_decode x raw).

(** *** The attribute [value] whose text is a dotted number, which the code searches
    for with a regular expression *)
Fixpoint more_numbers (fuel : nat) (s : string) : string * string :=
  match fuel, s with
  | S n, String c r =>
      if is_char "." c then
        match span_digits r with
        | ("", _) => ("", s)
        | (d, r') => let '(m, t) := more_numbers n r' in (String c d +:+ m, t)
        end
      else ("", s)
  | _, _ => ("", s)
  end.
Definition dotted (s : string) : option string :=
  match span_digits s with
  | ("", _) => None
  | (d, r) =>
      match more_numbers (S (String.length r)) r with
      | ("", _) => None
      | (m, String c _) => if is_char dquote c then Some (d +:+ m) else None
      | (_, "") => None
      end
  end.
Definition value_attr : string := "value=" +:+ String dquote "".
Fixpoint search_value (s : string) : option string :=
  match (if starts_with value_attr s then dotted (sdrop (String.length value_attr) s) else None), s with
  | Some v, _ => Some v
  | None, String _ r => search_value r
  | None, "" => None
  end.

(** *** The version of the package *)
(** The versions found so far, and whether an exception ended the search. *)
Definition from_manifest (es : list zip_entry) : json + json :=
  if decide ("manifest.json" ∈ ze_name <$> es) then
    match zread es "manifest.json" ≫= λ raw, utf8_decode raw ≫= loads with
    | Some (JObj mf) => inl (jget_or "version" mf (JStr ""))
    | _ => inr (JStr "")
    end
  else inl (JStr "").
Definition from_description (es : list zip_entry) (version : json) : json + json :=
  if negb (truthy version) && bool_decide ("description.xml" ∈ ze_name <$> es) then
    match zread es "description.xml" with
    | Some raw => inl (match search_value (x_decode x raw) with Some v => JStr v | None => version end)
    | None => inr version
    end
  else inl version.
Definition from_dm_manifest (es : list zip_entry) (version : json) : json :=
  if truthy version then version
  else
    match find (λ n, bool_decide (base_of n ∈ manifest_names)) (ze_name <$> es) with
    | Some n =>
        match read_json es n with
        | Some (JObj dm) =>
            match jget_or "changelog" dm (JArr []) with
            | JArr (JObj entry :: _) => jget_or "version" entry (JStr "")
            | _ => version
            end
        | _ => version
        end
    | None => version
    end.
Definition detect_version (data : string) : json :=
  match x_unzip x data with
  | None => JStr ""
  | Some es =>
      match from_manifest es with
      | inr v => v
      | inl v => match from_description es v with inr v => v | inl v => from_dm_manifest es v end
      end
  end.

(** *** The configuration template and the manifest *)
Fixpoint scan_meta (es : list zip_entry) (names : list string) (tpl man : json) : json * json :=
  match names with
  | [] => (tpl, man)
  | n :: r =>
      if bool_decide (base_of n ∈ config_names) && negb (truthy tpl) then
        match read_json es n with Some v => scan_meta es r v man | None => (tpl, man) end
      else if bool_decide (base_of n ∈ manifest_names) && negb (truthy man) then
        match read_json es n with Some v => scan_meta es r tpl v | None => (tpl, man) end
      else scan_meta es r tpl man
  end.
Definition metadata (data : string) : json * json :=
  match x_unzip x data with Some es => scan_meta es (ze_name <$> es) JNull JNull | None => (JNull, JNull) end.

(** The package without the metadata at its root; the original when it cannot be
    rewritten. *)
Definition strip_metadata (data : string) : string :=
  default data (
    es ← x_unzip x data;
    l ← mapM (λ z, c ← zread es (ze_name z); Some (z, c)) (filter (λ z, lower (ze_name z) ∉ config_names ++ manifest_names) es);
    x_zip x l).
End package.
End Package.
Import Package Catalogue.

(** ** The deployment *)
Section deploy.
Variables (o : outside) (x : outer) (e : env) (h : host).

(** *** Release notes *)
(** [v == s] for a text [s] *)
Definition is_text (s : string) (v : json) : bool := match v with JStr t => bool_decide (t = s) | _ => false end.
Fixpoint entry_notes (version : string) (l : list json) : result exc string :=
  match l with
  | [] => Ok ""
  | JObj d :: r =>
      if is_text version (jget "version" d) then
        match Traces.py_iter (jget_or "changes" d (JArr [])) with
        | Ok cs => Ok (sjoin (String "010" "") ((λ c, "- " +:+ py_str c) <$> cs))
        | Err _ => Err (Exc "object is not iterable")
        end
      else entry_notes version r
  | _ :: _ => Err (Exc "object has no attribute 'get'")
  end.
Definition release_notes (version : string) (man : json) : result exc string :=
  if negb (truthy man) then Ok ""
  else match man with
       | JObj d =>
           match Traces.py_iter (jget_or "changelog" d (JArr [])) with
           | Ok l => entry_notes version l
           | Err _ => Err (Exc "object is not iterable")
           end
       | _ => Err (Exc "object has no attribute 'get'")
       end.

(** *** Statements *)
Definition update_plugin_row (plugin_id : Z) (f : plugin → plugin) : SM site () :=
  on_catalog (modify (λ c, set_plugins ((λ p, if decide (p_id p = plugin_id) then f p else p) <$> ct_plugins c) c)).
Definition with_template (t : json) (p : plugin) : plugin :=
  let r := pg_row p in
  Plugin (PluginRow (pl_id r) (pl_slug r) (pl_device_type r) (pl_status r) t (pl_access_mode r) (pl_required_group r))
    (pg_name p) (pg_changelog p) (pg_extension_id p) (pg_gecko_id p) (pg_icon_url p) (pg_info p).
Definition with_changelog (cl : json) (p : plugin) : plugin :=
  Plugin (pg_row p) (pg_name p) cl (pg_extension_id p) (pg_gecko_id p) (pg_icon_url p) (pg_info p).
(** The columns are written in a [try] that passes over an error. *)
Definition store_json (plugin_id : Z) (f : json → plugin → plugin) (v : json) : SM site () :=
  if has_nul v then mret () else update_plugin_row plugin_id (f v).

(** [services/flags.py safe_reconcile_catalog], with the entry it audits *)
Definition diff_json (d : diff) : json :=
  JObj [("added", JArr (JStr <$> added d)); ("kept", JArr (JStr <$> kept d)); ("reactivated", JArr (JStr <$> reactivated d));
        ("orphaned", JArr (JStr <$> orphaned d)); ("already_deprecated", JArr (JStr <$> already_deprecated d))].
Definition safe_reconcile_catalog (plugin_slug : string) (template : json) (actor : string * string) : SM site json :=
  st ← gets s_flags;
  let '(d, st') := reconcile_catalog_from_template st plugin_slug template in
  modify (set_flags st');;
  s ← gets id;
  catch (zoom s_audit set_audit (audit_log (ct_plugins (s_cat s)) (fs_flags (s_flags s)) (o_inet o) (e_now e) actor "flag.reconcile" "plugin"
    (Some plugin_slug) (diff_json d) None None None)) (λ _, mret ());;
  mret (diff_json d).

(** The campaigns that a deployment ends. *)
Definition ended (plugin_id : Z) (c : campaign_row) : bool :=
  bool_decide ((cp_status c = "active" ∨ cp_status c = "paused") ∧ cp_type c = "plugin_update" ∧
    (cp_plugin c = Some plugin_id ∨ cp_plugin c = None)).
Definition end_campaigns (plugin_id : Z) : SM site () :=
  modify (λ s, set_camp (Life.State ((λ c, if ended plugin_id c then Life.with_status "completed" c else c)
    <$> Life.st_rows (s_camp s)) (Life.st_next (s_camp s))) s).
Definition stage (percent hours : Z) (label : string) : json :=
  JObj [("percent", JInt percent); ("duration_hours", JInt hours); ("label", JStr label)].
Definition canary_rollout : json :=
  JObj [("stages", JArr [stage 5 24 "Canary (5%)"; stage 25 48 "Early adopters (25%)"; stage 100 0 "General availability"])].
Definition urgencies : list string := ["low"; "normal"; "critical"].
(** [int(cohort_id) if cohort_id else None] *)
Definition cohort_of (cohort_id : option string) : result exc (option Z) :=
  match cohort_id with
  | Some s => if truthy_str s then match py_int s with Some z => Ok (Some z) | None => Err (Exc "invalid literal for int() with base 10") end
              else Ok None
  | None => Ok None
  end.
Definition insert_campaign (name : string) (artifact_id plugin_id version_id : Z) (cohort : option Z) (urgency : string) (rollout : json) : SM site Z :=
  if negb (fits 200 name && fits 10 urgency) then raise (Exc "value too long for type character varying")
  else if negb (bool_decide (urgency ∈ urgencies)) then raise (Exc "new row violates check constraint")
  else if negb (match cohort with Some t => x_cohort x t | None => true end) then raise (Exc "insert or update violates foreign key constraint")
  else
    st ← gets s_camp;
    modify (set_camp (Life.State (Life.st_rows st ++
      [CampaignRow (Life.st_next st) name "" "plugin_update" "active" (Some plugin_id) cohort (Some artifact_id) None rollout
         (Some urgency) None (Some "api") (e_now e) (Some version_id)]) (Life.st_next st + 1)));;
    mret (Life.st_next st).

(** *** The steps *)
(** [os.path.basename] of a value that is not text raises. *)
Definition segment (v : json) (field : string) : result exc string :=
  match v with JStr s => of_http (safe_segment s field) | _ => Err (Exc "expected str, bytes or os.PathLike object") end.
Definition checksum_of (data : string) : string := "sha256:" +:+ sha256_hex data.

(** Steps 4 and 5: the binary and its artifact. *)
Definition store_release (slug data orig_filename device_type : string) (version : json) : SM site (string * string * Z) :=
  device_type ← lift (of_http (safe_segment device_type "device_type"));
  version ← lift (segment version "version");
  filename ← lift (of_http (safe_segment (str_or orig_filename (slug +:+ "-" +:+ version +:+ ".oxt")) "filename"));
  binary_ref ← _persist_plugin_binary x e h data (device_type +:+ "/" +:+ version +:+ "_" +:+ filename) filename device_type;
  artifact_id ← on_catalog (upsert_artifact (e_now e) device_type "" version binary_ref (checksum_of data) None);
  mret (version, binary_ref, artifact_id).
(** Step 6: the older versions are deprecated, the new one is published. *)
Definition publish (plugin_id artifact_id : Z) (version : string) (man : json) : SM site Z :=
  on_catalog (deprecate_others plugin_id version);;
  notes ← lift (release_notes version man);
  if has_char "000" notes then raise (Exc "A string literal cannot contain NUL (0x00) characters.")
  else on_catalog (publish_version (e_now e) plugin_id version artifact_id notes).
(** Step 7: the template with its flags, and the changelog. *)
Definition store_metadata (slug : string) (plugin_id : Z) (tpl man : json) : SM site json :=
  d ← (if truthy tpl then store_json plugin_id with_template tpl;; safe_reconcile_catalog slug tpl ("api", "plugin-deploy") else mret JNull);
  (match man with
   | JObj m => if truthy (jget "changelog" m) then store_json plugin_id with_changelog (jget "changelog" m) else mret ()
   | _ => mret ()
   end);;
  mret d.

(** [_deploy_plugin_db_work] *)
Definition deploy_steps (slug data orig_filename version strategy urgency : string) (cohort_id : option string) : SM site reply :=
  c ← gets s_cat;
  match active_plugin c slug with
  | None => mret (failed 404 ("Plugin '" +:+ slug +:+ "' not found"))
  | Some p =>
      let ver := if truthy_str version then JStr version else detect_version x data in
      if negb (truthy ver) then mret (failed 400 "version required (not detected in package)")
      else
        let '(tpl, man) := metadata x data in
        let data := strip_metadata x data in
        r ← store_release slug data orig_filename (pl_device_type (pg_row p)) ver;
        let '(version, _, artifact_id) := (r : string * string * Z) in
        version_id ← publish (p_id p) artifact_id version man;
        flags_diff ← store_metadata slug (p_id p) tpl man;
        end_campaigns (p_id p);;
        cohort ← lift (cohort_of cohort_id);
        campaign_id ← insert_campaign ("Release " +:+ pg_name p +:+ " v" +:+ version) artifact_id (p_id p) version_id cohort urgency
          (if decide (strategy = "canary") then canary_rollout else JNull);
        mret (Json 201 [("ok", JBool true); ("plugin_id", JInt (p_id p)); ("version", JStr version); ("version_id", JInt version_id);
          ("artifact_id", JInt artifact_id); ("campaign_id", JInt campaign_id); ("checksum", JStr (checksum_of data));
          ("strategy", JStr strategy); ("feature_flags", flags_diff)])
  end.
Definition _deploy_plugin_db_work (slug data orig_filename version strategy urgency : string) (cohort_id : option string) : SM site reply :=
  match e_db e with
  | DbUp => catch (deploy_steps slug data orig_filename version strategy urgency cohort_id) (λ err, mret (failed 500 (exc_text err)))
  | _ => raise (Exc "connection refused")
  end.

(** A field of the form: text, or a file with its name. *)
Inductive field : Type := Text (s : string) | File (filename data : string).
Record deploy_form : Type := DeployForm {
  f_binary : option field; f_version : option string; f_strategy : option string; f_urgency : option string; f_cohort : option string }.

Definition authorized (hs : headers) : SM site bool :=
  match CampaignApi._verify_admin_token (h_env h) hs with
  | Ok b => mret b
  | Err _ => raise (Exc "comparing strings with non-ASCII characters is not supported")
  end.
Definition api_plugin_deploy (hs : headers) (slug : string) (form : deploy_form) : SM site reply :=
  ok ← authorized hs;
  if negb ok then mret (failed 401 "Unauthorized")
  else
    match f_binary form with
    | Some (File filename data) =>
        if negb (truthy_str data) then mret (failed 400 "empty file")
        else
          match e_db e with
          | NoDb => mret (failed 500 "Database not configured")
          | _ => _deploy_plugin_db_work slug data filename (strip (default "" (f_version form)))
                   (strip (default "canary" (f_strategy form))) (strip (default "normal" (f_urgency form))) (f_cohort form)
          end
    | _ => mret (failed 400 "binary file required")
    end.

(** ** Upload of an artifact *)
Record artifact_form : Type := ArtifactForm {
  u_device_type : option string; u_version : option string; u_changelog : option string; u_binary : option field }.
(** letters, digits, [_] and [-], at least one *)
Definition device_type_ok (s : string) : bool := truthy_str s && sforall (λ c, is_alnum c || is_char "_" c || is_char "-" c) s.
Definition api_upload_artifact (hs : headers) (form : artifact_form) : SM site reply :=
  ok ← authorized hs;
  if negb ok then mret (failed 401 "Unauthorized")
  else
    let device_type := default "libreoffice" (u_device_type form) in
    let version := default "" (u_version form) in
    match truthy_str version, u_binary form with
    | true, Some (File upload_name data) =>
        if negb (device_type_ok device_type) then mret (failed 400 "invalid device_type")
        else if negb (_SAFE_SEGMENT version) then mret (failed 400 "invalid version")
        else
          let filename := basename (str_or upload_name ("mirai-" +:+ version +:+ ".oxt")) in
          if negb (_SAFE_SEGMENT filename) then mret (failed 400 "invalid filename")
          else
            let base := getenv "DM_LOCAL_BINARIES_DIR" "/data/content/binaries" (h_env h) in
            let local_path := OsPath.join device_type (version +:+ "_" +:+ filename) in
            d ← safe_join h base device_type;
            makedirs x d;;
            full_path ← safe_join h base local_path;
            write_file x h full_path data;;
            match e_db e with
            | NoDb => mret (failed 500 "Database not configured")
            | DbDown => mret (failed 500 "connection refused")
            | DbUp =>
                catch
                  (artifact_id ← on_catalog (insert_artifact (e_now e) device_type version local_path (checksum_of data) (default "" (u_changelog form)));
                   mret (Json 201 [("ok", JBool true); ("artifact_id", JInt artifact_id); ("checksum", JStr (checksum_of data))]))
                  (λ err, mret (failed 500 (exc_text err)))
            end
    | true, Some (Text s) =>
        if truthy_str s then
          if negb (device_type_ok device_type) then mret (failed 400 "invalid device_type")
          else if negb (_SAFE_SEGMENT version) then mret (failed 400 "invalid version")
          else raise (Exc "'str' object has no attribute 'read'")
        else mret (failed 400 "version and binary required")
    | _, _ => mret (failed 400 "version and binary required")
    end.
End deploy.

(** ** Facts *)
Section deploy_facts.
Variables (o : outside) (x : outer) (e : env) (h : host).

(** What the storing of the metadata leaves alone: all but the template and the
    changelog of the plugin, the flags and the audit log. *)
Definition plugin_face (p : plugin) : Z * string * string * string := (p_id p, pl_slug (pg_row p), pl_status (pg_row p), pl_device_type (pg_row p)).
Definition releases (s : site) :=
  (s_camp s, s_disk s, s_objects s, plugin_face <$> ct_plugins (s_cat s), ct_aliases (s_cat s),
   (ct_artifacts (s_cat s), ct_versions (s_cat s), ct_variants (s_cat s)), (ct_next_art (s_cat s), ct_next_ver (s_cat s), ct_next_var (s_cat s))).

Lemma update_plugin_keeps i f : (∀ p, plugin_face (f p) = plugin_face p) → Keeps releases (update_plugin_row i f).
Proof.
  intros Hf s. unfold releases. simpl. do 4 f_equal. rewrite <- list_fmap_compose. apply list_fmap_ext. intros k p _. simpl.
  case_decide; [apply Hf|done].
Qed.
#[export] Instance store_json_keeps i f v : (∀ t p, plugin_face (f t p) = plugin_face p) → Keeps releases (store_json i f v).
Proof. intros Hf. unfold store_json. apply keeps_if; [apply _|]. by apply update_plugin_keeps. Qed.
#[export] Instance reconcile_keeps slug t actor : Keeps releases (safe_reconcile_catalog o e slug t actor).
Proof.
  unfold safe_reconcile_catalog. apply keeps_bind; [apply _|intros st]. destruct (reconcile_catalog_from_template _ _ _) as [d st'].
  apply keeps_bind; [apply _|intros _]. apply keeps_bind; [apply _|intros s]. apply keeps_bind; [|intros; apply _].
  apply keeps_catch; [|intros; apply _]. intros s1. unfold zoom. by destruct (audit_log _ _ _ _ _ _ _ _ _ _ _ _ _).
Qed.
#[export] Instance store_metadata_keeps slug i tpl man : Keeps releases (store_metadata o e slug i tpl man).
Proof.
  unfold store_metadata. apply keeps_bind.
  - apply keeps_if; [|apply _]. apply keeps_bind; [by apply store_json_keeps|intros _; apply _].
  - intros d. apply keeps_bind; [|intros; apply _]. destruct man; try apply _. apply keeps_if; [by apply store_json_keeps|apply _].
Qed.

Lemma face_ids (l l' : list plugin) : plugin_face <$> l = plugin_face <$> l' → p_id <$> l = p_id <$> l'.
Proof. intros H. apply (f_equal (fmap (λ q : Z * string * string * string, q.1.1.1))) in H. by rewrite <- !list_fmap_compose in H. Qed.
(** The invariant of the catalogue looks only at these columns. *)
Lemma releases_ok s s' : releases s' = releases s → catalog_ok (s_cat s) → catalog_ok (s_cat s').
Proof.
  unfold releases. intros [= _ _ _ Hp%face_ids _ Ha Hv Hw Hna Hnv _] [].
  constructor; rewrite ?Ha, ?Hv, ?Hw, ?Hna, ?Hnv; try done.
  intros v Hv'. eapply (refers_mono _ _ (s_cat s)); [done|by rewrite Ha|auto].
Qed.

(** The plugin the release belongs to is found again. *)
Lemma find_face slug (l l' : list plugin) p : plugin_face <$> l = plugin_face <$> l' →
  find (λ p, bool_decide (pl_slug (pg_row p) = slug ∧ pl_status (pg_row p) = "active")) l = Some p →
  ∃ p', find (λ p, bool_decide (pl_slug (pg_row p) = slug ∧ pl_status (pg_row p) = "active")) l' = Some p' ∧ plugin_face p' = plugin_face p.
Proof.
  revert l'. induction l as [|q l IH]; intros [|q' l']; simpl; try done. intros [= Hid Hs Hst Hd Hl] Hf.
  rewrite <- Hs, <- Hst. case_bool_decide; [|by apply IH]. injection Hf as ->. exists q'. split; [done|]. unfold plugin_face. congruence.
Qed.

Lemma segment_ok v field w : segment v field = Ok w → comp_ok w.
Proof. destruct v; try done. intros H%of_http_ok. by eapply safe_segment_ok. Qed.
Lemma store_release_spec slug data fn dt ver s v ref aid s1 :
  store_release x e h slug data fn dt ver s = (Ok (v, ref, aid), s1) →
  ∃ dt' fn' c1, safe_segment dt "device_type" = Ok dt' ∧ segment ver "version" = Ok v ∧
    safe_segment (str_or fn (slug +:+ "-" +:+ v +:+ ".oxt")) "filename" = Ok fn' ∧
    let rel := dt' +:+ "/" +:+ v +:+ "_" +:+ fn' in
    ref = stored_ref h rel ∧ stored h rel data s s1 ∧ (h_mode h ≠ "local" → truthy_str (e_s3_bucket e) = true ∧ e_s3_ok e = true) ∧ s_camp s1 = s_camp s ∧ s_cat s1 = c1 ∧
    upsert_artifact (e_now e) dt' "" v (stored_ref h rel) (checksum_of data) None (s_cat s) = (Ok aid, c1).
Proof.
  unfold store_release. intros (dt' & s2 & [Hdt%of_http_ok ->]%lift_ok & H1)%bind_ok.
  apply bind_ok in H1 as (v' & s2 & [Hv ->]%lift_ok & H1). apply bind_ok in H1 as (fn' & s2 & [Hfn%of_http_ok ->]%lift_ok & H1).
  apply bind_ok in H1 as (ref' & s2 & (-> & Hst & Hs3 & Hb)%persist_ok & H1). apply bind_ok in H1 as (aid' & s3 & (c1 & Hup & ->)%zoom_ok & H1).
  injection H1 as <- <- <- <-. unfold but_binaries in Hb. injection Hb as Hw Hc Hca Hf Ha.
  exists dt', fn', c1. rewrite Hc in Hup. split_and!; try done.
Qed.

(** Step 6 on the site. *)
Lemma publish_site p aid v man s vid s1 : publish e p aid v man s = (Ok vid, s1) →
  ∃ notes c1, publish_version (e_now e) p v aid notes (deprecate_others p v (s_cat s)).2 = (Ok vid, c1) ∧ s1 = set_cat c1 s.
Proof.
  unfold publish. intros ([] & s2 & (c0 & Hd & ->)%zoom_ok & H1)%bind_ok. apply bind_ok in H1 as (notes & s2 & [_ ->]%lift_ok & H1).
  destruct (has_char _ _); [done|]. apply zoom_ok in H1 as (c1 & Hp & ->). injection Hd as <-. by exists notes, c1.
Qed.

(** The campaigns after step 8. *)
Lemma campaign_site name aid p vid cohort urgency rollout s k s1 :
  insert_campaign x e name aid p vid cohort urgency rollout (end_campaigns p s).2 = (Ok k, s1) →
  ∃ r, s1 = set_camp (s_camp s1) s ∧ cp_id r = k ∧ cp_status r = "active" ∧ cp_type r = "plugin_update" ∧ cp_plugin r = Some p ∧
    cp_artifact r = Some aid ∧ cp_version r = Some vid ∧ cp_target_cohort r = cohort ∧ cp_rollout r = rollout ∧ cp_created r = e_now e ∧
    Life.st_rows (s_camp s1) = ((λ c, if ended p c then Life.with_status "completed" c else c) <$> Life.st_rows (s_camp s)) ++ [r].
Proof.
  unfold insert_campaign. repeat (destruct (negb _); [done|]). rewrite bind_gets, bind_modify. intros [= <- <-]. eexists (CampaignRow _ _ _ _ _ _ _ _ _ _ _ _ _ _ _). by split_and!.
Qed.
Lemma ended_new p r : cp_status r = "active" → cp_type r = "plugin_update" → cp_plugin r = Some p → ended p r = true.
Proof. intros. unfold ended. apply bool_decide_eq_true. tauto. Qed.
Lemma ended_row p c : ended p (if ended p c then Life.with_status "completed" c else c) = false.
Proof. destruct (ended p c) eqn:E; [|done]. unfold ended. apply bool_decide_eq_false. simpl. naive_solver. Qed.

Lemma deploy_inv slug data fn version strategy urgency cohort_id s body s' :
  _deploy_plugin_db_work o x e h slug data fn version strategy urgency cohort_id s = (Ok (Json 201 body), s') →
  let ver := if truthy_str version then JStr version else detect_version x data in
  ∃ p v ref aid vid flags cohort k s1 s2 s3,
    active_plugin (s_cat s) slug = Some p ∧ e_db e = DbUp ∧
    store_release x e h slug (strip_metadata x data) fn (pl_device_type (pg_row p)) ver s = (Ok (v, ref, aid), s1) ∧
    publish e (p_id p) aid v (metadata x data).2 s1 = (Ok vid, s2) ∧
    store_metadata o e slug (p_id p) (metadata x data).1 (metadata x data).2 s2 = (Ok flags, s3) ∧
    cohort_of cohort_id = Ok cohort ∧
    insert_campaign x e ("Release " +:+ pg_name p +:+ " v" +:+ v) aid (p_id p) vid cohort urgency
      (if decide (strategy = "canary") then canary_rollout else JNull) (end_campaigns (p_id p) s3).2 = (Ok k, s') ∧
    jget "version" body = JStr v ∧ jget "checksum" body = JStr (checksum_of (strip_metadata x data)) ∧ jget "artifact_id" body = JInt aid.
Proof.
  unfold _deploy_plugin_db_work. destruct (e_db e) eqn:Hdb; try done. unfold catch.
  destruct (deploy_steps _ _ _ _ _ _ _ _ _ _ _ s) as [[r|err] s0] eqn:E; [|done]. intros [= -> ->].
  unfold deploy_steps in E. rewrite bind_gets in E. destruct (active_plugin _ slug) as [p|]; [|done].
  set (ver := if truthy_str version then _ else _) in *. destruct (negb _); [done|]. destruct (metadata x data) as [tpl man]. simpl.
  apply bind_ok in E as ([[v ref] aid] & s1 & Hst & E). apply bind_ok in E as (vid & s2 & Hpub & E).
  apply bind_ok in E as (fl & s3 & Hm & E). apply bind_ok in E as ([] & s3' & He & E). unfold end_campaigns, modify in He. injection He as <-. apply bind_ok in E as (ch & s4 & [Hc ->]%lift_ok & E).
  apply bind_ok in E as (k & s5 & Hk & E). injection E as <- <-.
  exists p, v, ref, aid, vid, fl, ch, k, s1, s2, s3. split_and!; done.
Qed.

(** A deployment that answers 201, all in one. *)
Lemma deploy_effect slug data fn version strategy urgency cohort_id s body s' : catalog_ok (s_cat s) →
  _deploy_plugin_db_work o x e h slug data fn version strategy urgency cohort_id s = (Ok (Json 201 body), s') →
  ∃ p r a k dt v f,
    let rel := dt +:+ "/" +:+ v +:+ "_" +:+ f in
    (active_plugin (s_cat s) slug = Some p ∧ e_db e = DbUp ∧ catalog_ok (s_cat s') ∧
     plugin_face <$> ct_plugins (s_cat s') = plugin_face <$> ct_plugins (s_cat s) ∧ comp_ok dt ∧ comp_ok v ∧ comp_ok f) ∧
    ((∀ r', r' ∈ ct_versions (s_cat s') ∧ published_of (p_id p) r' = true ↔ r' = r) ∧ vr_version r = v ∧ vr_artifact r = Some (a_id a) ∧
     ((∀ r0, r0 ∈ ct_versions (s_cat s) → ver_key r0 = (p_id p, v) → vr_mode r0 = "managed") → vr_mode r = "managed") ∧
     filter (λ r', vr_plugin r' ≠ p_id p) (ct_versions (s_cat s')) = filter (λ r', vr_plugin r' ≠ p_id p) (ct_versions (s_cat s))) ∧
    (a ∈ ct_artifacts (s_cat s') ∧ art_s3_path (ar_art a) = Some (stored_ref h rel) ∧
     art_checksum (ar_art a) = Some (checksum_of (strip_metadata x data)) ∧ stored h rel (strip_metadata x data) s s' ∧
     safe_segment (pl_device_type (pg_row p)) "device_type" = Ok dt ∧ art_key a = (dt, Some "", Some v) ∧
     (∀ b, b ∈ ct_artifacts (s_cat s) → art_key b = art_key a → a_id b = a_id a) ∧
     (h_mode h ≠ "local" → truthy_str (e_s3_bucket e) = true ∧ e_s3_ok e = true)) ∧
    ((∀ k', k' ∈ Life.st_rows (s_camp s') ∧ ended (p_id p) k' = true ↔ k' = k) ∧ cp_status k = "active" ∧
     cp_artifact k = Some (a_id a) ∧ cp_version k = Some (vr_id r) ∧
     (∀ k', k' ∈ Life.st_rows (s_camp s) → ended (p_id p) k' = false → k' ∈ Life.st_rows (s_camp s'))) ∧
    jget "version" body = JStr v ∧ jget "checksum" body = JStr (checksum_of (strip_metadata x data)).
Proof.
  intros Hok (p & v & ref & aid & vid & fl & ch & k & s1 & s2 & s3 & Hp & Hdb & Hst & Hpub & Hm & _ & Hk & Hbv & Hbc & _)%deploy_inv.
  apply store_release_spec in Hst as (dt' & fn' & c1 & Hdt & Hv & Hfn & _ & Hstored & Hs3 & Hcamp1 & Hc1 & Hup).
  pose proof (maintains_run catalog_ok _ _ _ _ Hup Hok) as Hok1.
  apply upsert_artifact_spec in Hup as (a & arts & Hc1' & Ha & Haid & Hkey & Hpath & Hsum & _ & Hsame); [|done].
  apply publish_site in Hpub as (notes & c2 & Hpub & ->). rewrite Hc1 in Hpub.
  pose proof (maintains_run catalog_ok _ _ _ _ Hpub (deprecate_others_ok (p_id p) v c1 Hok1)) as Hok2.
  apply publish_spec in Hpub as (r & vs & Hc2 & Hr & Hvid & Hrp & Hrv & Hra & Hrs & _ & Hmode & Huniq & Hoth); [|done].
  pose proof (store_metadata_keeps slug (p_id p) (metadata x data).1 (metadata x data).2 (set_cat c2 s1)) as Hkeep. rewrite Hm in Hkeep. simpl in Hkeep.
  pose proof (releases_ok _ _ Hkeep Hok2) as Hok3.
  apply campaign_site in Hk as (kr & Hs' & _ & Hkst & Hkty & Hkp & Hka & Hkv & _ & _ & _ & Hrows).
  unfold releases in Hkeep. injection Hkeep as Hcamp Hdisk Hobj Hface _ Harts Hvers _ _ _ _.
  assert (s_cat s' = s_cat s3 ∧ s_disk s' = s_disk s3 ∧ s_objects s' = s_objects s3) as (Hcat & Hd' & Ho') by (by rewrite Hs'). simpl in Hcamp, Hdisk, Hobj, Harts, Hvers.
  exists p, r, a, kr, dt', v, fn'. rewrite Hcat, Hvers, Harts. subst c1 c2. simpl.
  split_and!; try done.
  - simpl in Hface. by rewrite Hface, Hc1'.
  - by eapply safe_segment_ok.
  - by eapply segment_ok.
  - by eapply safe_segment_ok.
  - intros r'. split; [intros []; by apply Huniq|]. intros ->. split; [done|]. unfold published_of. by apply bool_decide_eq_true.
  - by rewrite Hra, Haid.
  - intros Hman. apply Hmode. by rewrite Hc1'.
  - by rewrite Hoth, Hc1'.
  - by rewrite Hc1'.
  - unfold stored in *. by rewrite Hd', Ho', Hdisk, Hobj.
  - intros b Hb Hbk. rewrite Haid. apply Hsame; [done|by rewrite Hbk].
  - intros k'. rewrite Hrows. split.
    + intros [[(c & -> & _)%list_elem_of_fmap| ->%list_elem_of_singleton]%elem_of_app He]; [|done]. by rewrite ended_row in He.
    + intros ->. split; [set_solver|]. by apply ended_new.
  - by rewrite Hka, Haid.
  - by rewrite Hkv, Hvid.
  - intros k' Hk' He. rewrite Hrows, Hcamp, Hcamp1. apply elem_of_app. left. apply list_elem_of_fmap. exists k'. by rewrite He.
Qed.
End deploy_facts.

(** C2. After a deployment that answers 201, the plugin has exactly one published
    version, the one deployed; its artifact refers to where the package was stored
    and carries the SHA-256 of the very bytes stored; exactly one update campaign
    of the plugin is open, the new one, for that artifact and version; the
    catalogue keeps its invariant; and the versions of the other plugins and the
    campaigns that name another plugin are as they were. *)
Theorem deploy_releases o x e h slug data fn version strategy urgency cohort_id s body s' :
  catalog_ok (s_cat s) →
  _deploy_plugin_db_work o x e h slug data fn version strategy urgency cohort_id s = (Ok (Json 201 body), s') →
  ∃ p r a k rel,
    active_plugin (s_cat s) slug = Some p ∧ catalog_ok (s_cat s') ∧
    (∀ r', r' ∈ ct_versions (s_cat s') ∧ published_of (p_id p) r' = true ↔ r' = r) ∧
    vr_artifact r = Some (a_id a) ∧ a ∈ ct_artifacts (s_cat s') ∧ art_s3_path (ar_art a) = Some (stored_ref h rel) ∧
    art_checksum (ar_art a) = Some (checksum_of (strip_metadata x data)) ∧ stored h rel (strip_metadata x data) s s' ∧
    (∀ k', k' ∈ Life.st_rows (s_camp s') ∧ ended (p_id p) k' = true ↔ k' = k) ∧
    cp_status k = "active" ∧ cp_artifact k = Some (a_id a) ∧ cp_version k = Some (vr_id r) ∧
    filter (λ r', vr_plugin r' ≠ p_id p) (ct_versions (s_cat s')) = filter (λ r', vr_plugin r' ≠ p_id p) (ct_versions (s_cat s)) ∧
    (∀ k', k' ∈ Life.st_rows (s_camp s) → ended (p_id p) k' = false → k' ∈ Life.st_rows (s_camp s')) ∧
    jget "version" body = JStr (vr_version r) ∧ jget "checksum" body = JStr (checksum_of (strip_metadata x data)).
Proof.
  intros Hok Hrun. destruct (deploy_effect _ _ _ _ _ _ _ _ _ _ _ _ _ _ Hok Hrun)
    as (p & r & a & k & dt & v & f & (?&?&?&?&?&?&?) & (?&Hv&?&?&?) & (?&?&?&?&_) & (?&?&?&?&?) & Hbv & ?).
  exists p, r, a, k, (dt +:+ "/" +:+ v +:+ "_" +:+ f). split_and!; try done. by rewrite Hv.
Qed.

(** Artifacts are shared by the plugins of a device type: when a deployment
    answers 201, every artifact of the plugin's device type with the empty variant
    and the version deployed, whichever plugin it belongs to, now holds the package
    deployed, so the version of another plugin that refers to it hands out this
    plugin's package. *)
Theorem deploy_replaces_shared_artifact o x e h slug data fn version strategy urgency cohort_id s body s' p v r b :
  catalog_ok (s_cat s) → active_plugin (s_cat s) slug = Some p →
  _deploy_plugin_db_work o x e h slug data fn version strategy urgency cohort_id s = (Ok (Json 201 body), s') →
  jget "version" body = JStr v →
  r ∈ ct_versions (s_cat s) → vr_plugin r ≠ p_id p → vr_artifact r = Some (a_id b) → b ∈ ct_artifacts (s_cat s) →
  safe_segment (pl_device_type (pg_row p)) "device_type" = Ok (art_device_type (ar_art b)) → ar_variant b = Some "" →
  art_version (ar_art b) = Some v →
  r ∈ ct_versions (s_cat s') ∧
  artifact_at (s_cat s') (a_id b) ≫= (λ a, art_checksum (ar_art a)) = Some (checksum_of (strip_metadata x data)).
Proof.
  intros Hok Hact Hrun Hbody Hr Hrp Hra Hb Hseg Hbv Hbver. destruct (deploy_effect _ _ _ _ _ _ _ _ _ _ _ _ _ _ Hok Hrun)
    as (p' & r' & a & k & dt & v' & f & (Hp' & _ & Hok' & _) & (_ & _ & _ & _ & Hoth) & (Ha & _ & Hsum & _ & Hdt & Hkey & Hsame & _) & _ & Hv & _).
  rewrite Hact in Hp'. injection Hp' as <-. assert (v' = v) as -> by congruence.
  assert (dt = art_device_type (ar_art b)) as -> by congruence. split.
  - apply (list_elem_of_filter (λ r', vr_plugin r' ≠ p_id p)). rewrite Hoth. by apply list_elem_of_filter.
  - rewrite (Hsame b Hb); [by rewrite artifact_at_ok|]. rewrite Hkey. unfold art_key. congruence.
Qed.

(** What an upload that answers 201 did. *)
Lemma upload_effect x e h hs form s body s' : api_upload_artifact x e h hs form s = (Ok (Json 201 body), s') →
  let device_type := default "libreoffice" (u_device_type form) in
  ∃ upload_name data version filename p a,
    u_binary form = Some (File upload_name data) ∧ u_version form = Some version ∧
    device_type_ok device_type = true ∧ _SAFE_SEGMENT version = true ∧ _SAFE_SEGMENT filename = true ∧ authorized h hs s = (Ok true, s) ∧
    let local_path := OsPath.join device_type (version +:+ "_" +:+ filename) in
    safe_path_join (h_links h) (h_cwd h) (getenv "DM_LOCAL_BINARIES_DIR" "/data/content/binaries" (h_env h)) local_path = Ok p ∧
    s_disk s' = <[real h p := data]> (s_disk s) ∧ ct_artifacts (s_cat s') = ct_artifacts (s_cat s) ++ [a] ∧
    art_s3_path (ar_art a) = Some local_path ∧ art_checksum (ar_art a) = Some (checksum_of data) ∧ jget "artifact_id" body = JInt (a_id a).
Proof.
  unfold api_upload_artifact. intros ([] & s1 & Hau & H)%bind_ok; [|done].
  assert (s1 = s) as -> by (unfold authorized in Hau; destruct (CampaignApi._verify_admin_token _ _); [injection Hau; done|done]).
  set (dt := default "libreoffice" (u_device_type form)) in *. simpl in H.
  destruct (u_version form) as [version|] eqn:Ev; [simpl in H|done]. destruct (truthy_str version); [|done].
  destruct (u_binary form) as [[t|fn data]|] eqn:Eb; [destruct (truthy_str t); [|done]| |done];
    (destruct (device_type_ok dt) eqn:Hd; simpl in H; [|done]); (destruct (_SAFE_SEGMENT version) eqn:Hvs; simpl in H; [|done]); [done|].
  set (filename := basename _) in *. destruct (_SAFE_SEGMENT filename) eqn:Hf; simpl in H; [|done].
  apply bind_ok in H as (d & s1 & [_ ->]%lift_ok & H). apply bind_ok in H as ([] & s1 & Hm & H). unfold makedirs in Hm.
  destruct (x_writable x d); [injection Hm as <-|done]. apply bind_ok in H as (p & s1 & [Hp%of_http_ok ->]%lift_ok & H).
  apply bind_ok in H as ([] & s1 & ->%write_file_ok & H). destruct (e_db e); [done|done|].
  unfold insert_artifact in H. destruct (fits 50 dt && _ && _); [|done]. injection H as <- <-.
  by exists fn, data, version, filename, p, (new_artifact (ct_next_art (s_cat s)) dt None version
    (OsPath.join dt (version +:+ "_" +:+ filename)) (checksum_of data) (Some (default "" (u_changelog form))) (e_now e)).
Qed.

(** Logging never fails and touches nothing but its own tables. *)
Lemma log_quietly (m : SM Ingest.world ()) s : ∃ w, on_world (catch m (λ _, mret ())) s = (Ok (), set_world w s).
Proof. unfold on_world, zoom, catch. destruct (m (s_world s)) as [[[]|err] w]; by exists w. Qed.

(** An artifact uploaded with [POST /api/artifacts] is served by
    [GET /binaries/{path}] under the path recorded for it: the answer is exactly the
    bytes uploaded, whose checksum is recorded, when binaries are served from the
    local directory that the upload writes to. *)
Theorem uploaded_artifact_is_served o x e h hs form s body s' :
  h_mode h = "local" → getenv "DM_LOCAL_BINARIES_DIR" "/data/content/binaries" (h_env h) = h_local_dir h →
  api_upload_artifact x e h hs form s = (Ok (Json 201 body), s') →
  ∃ upload_name data path a,
    u_binary form = Some (File upload_name data) ∧ a ∈ ct_artifacts (s_cat s') ∧ jget "artifact_id" body = JInt (a_id a) ∧
    art_s3_path (ar_art a) = Some path ∧ art_checksum (ar_art a) = Some (checksum_of data) ∧
    (get_binary o x e h path s').1 = Ok (Binary data "").
Proof.
  intros Hm Hdir (fn & data & version & filename & p & a & Hb & _ & _ & _ & _ & _ & Hp & Hdisk & Harts & Hpath & Hsum & Hid)%upload_effect.
  rewrite Hdir in Hp. eexists fn, data, _, a. rewrite Harts. split_and!; [done|set_solver|done|exact Hpath|done|].
  unfold get_binary. destruct (log_quietly (Store._log_device_connection o e "BINARY_GET" "system@local" Traces.ZERO_UUID "none" None None) s') as [w Hw].
  rewrite (bind_step _ _ _ _ _ Hw), Hm. rewrite bool_decide_eq_true_2 by done. unfold safe_join. rewrite Hp.
  rewrite (bind_step _ _ _ p (set_world w s')) by done. rewrite bind_gets. unfold isfile. simpl. rewrite Hdisk, lookup_insert_eq. done.
Qed.

(** ** What is written, and by whom *)
Section confined.
Variables (o : outside) (x : outer) (e : env) (h : host) (base : string) (s0 : site).
(** The disk differs from the first state only at paths joined safely to the base. *)
Definition confined (s : site) : Prop :=
  ∀ k, s_disk s !! k ≠ s_disk s0 !! k → ∃ rel p, safe_path_join (h_links h) (h_cwd h) base rel = Ok p ∧ k = real h p.
Notation stays m := (Maintains confined m).

#[export] Instance stays_keeps {A} (m : SM site A) : Keeps s_disk m → stays m.
Proof. intros Hk s Hs k. rewrite (Hk s). apply Hs. Qed.
#[export] Instance on_catalog_disk {A} (m : SM catalog A) : Keeps s_disk (on_catalog m).
Proof. intros s. unfold on_catalog, zoom. by destruct (m (s_cat s)). Qed.
#[export] Instance metadata_disk slug i tpl man : Keeps s_disk (store_metadata o e slug i tpl man).
Proof. intros s. pose proof (store_metadata_keeps o e slug i tpl man s) as H. unfold releases in H. by injection H. Qed.
#[export] Instance end_campaigns_disk i : Keeps s_disk (end_campaigns i).
Proof. by intros s. Qed.
#[export] Instance insert_campaign_disk n a p v c u r : Keeps s_disk (insert_campaign x e n a p v c u r).
Proof. unfold insert_campaign. apply _. Qed.
#[export] Instance publish_disk p a v man : Keeps s_disk (publish e p a v man).
Proof. unfold publish. apply _. Qed.
#[export] Instance makedirs_disk d : Keeps s_disk (makedirs x d).
Proof. unfold makedirs. apply _. Qed.

Lemma join_write_stays rel data : stays (p ← safe_join h base rel; write_file x h p data).
Proof.
  intros s Hs. unfold safe_join. destruct (safe_path_join _ _ _ _) as [p|] eqn:E; [|exact Hs].
  rewrite (bind_step _ _ _ p s) by done. unfold write_file. destruct (x_writable x p); [|exact Hs]. intros k. simpl. destruct (decide (real h p = k)) as [<-|Hne]; [eauto|].
  rewrite lookup_insert_ne by done. apply Hs.
Qed.
Lemma stays_assoc {A B C} (m : SM site A) (f : A → SM site B) (k : B → SM site C) :
  stays ((m ≫= f) ≫= k) → stays (m ≫= (λ a, f a ≫= k)).
Proof. intros Hm s Hs. specialize (Hm s Hs). unfold mbind, SM_bind in *. by destruct (m s) as [[a|err] s1]. Qed.
Lemma join_write_then rel data {A} (k : SM site A) : stays k → stays (p ← safe_join h base rel; write_file x h p data;; k).
Proof. intros Hk. apply stays_assoc. apply maintains_bind; [apply join_write_stays|done]. Qed.

Lemma persist_stays data rel fn dt : base = h_local_dir h → stays (_persist_plugin_binary x e h data rel fn dt).
Proof.
  intros Hb. unfold _persist_plugin_binary. apply maintains_if.
  - unfold put_object. apply _.
  - rewrite <- Hb. apply maintains_bind; [apply _|intros d]. apply maintains_bind; [apply _|intros _].
    apply join_write_then. apply maintains_bind; [|intros _; apply _]. apply maintains_if; apply _.
Qed.
Lemma deploy_steps_stays slug data fn v st u c : base = h_local_dir h → stays (deploy_steps o x e h slug data fn v st u c).
Proof.
  intros Hb. unfold deploy_steps. apply maintains_bind; [apply _|intros cat]. destruct (active_plugin cat slug) as [p|]; [|apply _].
  apply maintains_if; [apply _|]. destruct (metadata x data) as [tpl man]. apply maintains_bind.
  - unfold store_release. apply maintains_bind; [apply _|intros d]. apply maintains_bind; [apply _|intros w].
    apply maintains_bind; [apply _|intros f]. apply maintains_bind; [by apply persist_stays|intros ref; apply _].
  - intros [[w ref] aid]. apply _.
Qed.
End confined.

(** Deploying and uploading are confined: without the service token neither
    route changes anything; with it, whatever the answer, the disk changes only at
    paths that [safe_path_join] gives for the directory of the binaries. *)
Theorem deploy_confined o x e h hs slug form uform s :
  (CampaignApi._verify_admin_token (h_env h) hs ≠ Ok true →
   (api_plugin_deploy o x e h hs slug form s).2 = s ∧ (api_upload_artifact x e h hs uform s).2 = s) ∧
  confined h (h_local_dir h) s (api_plugin_deploy o x e h hs slug form s).2 ∧
  confined h (getenv "DM_LOCAL_BINARIES_DIR" "/data/content/binaries" (h_env h)) s (api_upload_artifact x e h hs uform s).2.
Proof.
  assert (Hs : ∀ base, confined h base s s) by (by intros base k).
  assert (Hau : ∀ base, Maintains (confined h base s) (authorized h hs)).
  { intros base. unfold authorized. destruct (CampaignApi._verify_admin_token _ _); apply _. }
  split_and!.
  - intros Hno. unfold api_plugin_deploy, api_upload_artifact, authorized. by destruct (CampaignApi._verify_admin_token _ _) as [[]|].
  - refine (maintains (Maintains := _) s (Hs _)). unfold api_plugin_deploy. apply maintains_bind; [apply Hau|intros ok]. apply maintains_if; [apply _|].
    destruct (f_binary form) as [[t|fn data]|]; try apply _. apply maintains_if; [apply _|].
    assert (Hdep : ∀ v st u c, Maintains (confined h (h_local_dir h) s) (_deploy_plugin_db_work o x e h slug data fn v st u c)).
    { intros v st u c. unfold _deploy_plugin_db_work. destruct (e_db e); try apply _. apply maintains_catch; [|intros; apply _].
      by apply deploy_steps_stays. }
    destruct (e_db e); [apply _|apply Hdep..].
  - refine (maintains (Maintains := _) s (Hs _)). unfold api_upload_artifact. apply maintains_bind; [apply Hau|intros ok]. apply maintains_if; [apply _|].
    destruct (truthy_str _); [|apply _]. destruct (u_binary uform) as [[t|fn data]|]; [repeat (apply maintains_if; try apply _)| |apply _].
    repeat (apply maintains_if; [apply _|]). apply maintains_bind; [apply _|intros d]. apply maintains_bind; [apply _|intros _].
    apply join_write_then. destruct (e_db e); apply _.
Qed.

(** ** Examples *)
Definition plugin_ex (i : Z) (slug : string) : plugin :=
  Plugin (PluginRow i slug "libreoffice" "active" JNull (Some "open") None) slug JNull None None None default_info.
Definition host_ex (mode : string) : host := Host [("DM_QUEUE_ADMIN_TOKEN", "tok")] mode "binaries/" "/data/content/binaries" "" ∅ ["srv"].
(** Packages that are not archives, except [nested] with its metadata in a folder. *)
Definition nested : string := "nested".
Definition nested_entries : list zip_entry :=
  [ZipEntry "description.xml" "" (Some ("<version value=" +:+ String dquote ("2.10.3" +:+ String dquote "/>")));
   ZipEntry "meta/dm-config.json" "" (Some (dumps (JObj [("default", JObj [("secret", JStr "s")])])))].
Definition outer_ex : outer :=
  Outer (λ _ key, Some ("https://s3/" +:+ key)) (λ _, None) (λ _, true) (λ c, c =? 3)
    (λ d, if decide (d = nested) then Some nested_entries else None)
    (λ l, Some (sjoin "," ((λ zc : zip_entry * string, ze_name zc.1) <$> l))) id.
Definition catalog_ex : catalog := Catalog [plugin_ex 1 "mirai"; plugin_ex 2 "other"] [] [] [] [] 1 1 1.
Definition site_ex : site := Site world_ex catalog_ex (Life.State [] 1) (FlagState [] [] 1) [] ∅ ∅ [].
Definition env_at_ex (now : Z) : env :=
  Env DbUp now 1000000 "f00d" 0 "ab12" "xyz" true "/data/enroll" true false "bucket" "enroll/" true "pepper" "" 3600 None
    true true "https://kc/realm/" "" 600 "dm" "RS256" 30 true true "" "http://otel/v1/traces" "Bearer" "up-key" 1048576 2097152.
Definition deploy_ex (mode : string) (now : Z) (slug data filename version : string) (cohort : option string) (s : site) : result exc reply * site :=
  _deploy_plugin_db_work outside_ex outer_ex (env_at_ex now) (host_ex mode) slug data filename version "immediate" "normal" cohort s.
Definition deployed_ex (mode : string) : site := (deploy_ex mode 1000 "mirai" "AAA" "mirai.oxt" "1.0" None site_ex).2.

Lemma catalog_ex_ok : catalog_ok catalog_ex.
Proof. constructor; simpl; try constructor; set_solver by lia. Qed.
Definition json_body (r : result exc reply) : list (string * json) := match r with Ok (Json _ b) => b | _ => [] end.
Lemma deploy_releases_witness : ∃ p r a,
  active_plugin catalog_ex "mirai" = Some p ∧ latest_published (s_cat (deployed_ex "local")) 1 = Some r ∧
  vr_artifact r = Some (a_id a) ∧ art_checksum (ar_art a) = Some (checksum_of "AAA").
Proof.
  destruct (deploy_releases outside_ex outer_ex (env_at_ex 1000) (host_ex "local") "mirai" "AAA" "mirai.oxt" "1.0" "immediate" "normal" None site_ex
    (json_body (deploy_ex "local" 1000 "mirai" "AAA" "mirai.oxt" "1.0" None site_ex).1) (deployed_ex "local"))
    as (p & r & a & k & rel & Hp & _ & Hu & Hr & _ & _ & Hsum & _).
  - exact catalog_ex_ok.
  - vm_compute. reflexivity.
  - assert (p = plugin_ex 1 "mirai") as -> by (change (Some (plugin_ex 1 "mirai") = Some p) in Hp; congruence).
    destruct (latest_published (s_cat (deployed_ex "local")) 1) as [r0|] eqn:E; [|by vm_compute in E].
    assert (r0 = r) as ->.
    { apply Hu. vm_compute in E. injection E as <-. split; [|by vm_compute]. vm_compute. constructor. }
    exists (plugin_ex 1 "mirai"), r, a. split_and!; done.
Defined.

(** A second plugin of the same device type, deployed with the same version. *)
Definition clashed_ex : site := (deploy_ex "local" 2000 "other" "BBB" "other.oxt" "1.0" None (deployed_ex "local")).2.
Lemma deployed_ex_ok : catalog_ok (s_cat (deployed_ex "local")).
Proof.
  destruct (deploy_effect outside_ex outer_ex (env_at_ex 1000) (host_ex "local") "mirai" "AAA" "mirai.oxt" "1.0" "immediate" "normal" None site_ex
    (json_body (deploy_ex "local" 1000 "mirai" "AAA" "mirai.oxt" "1.0" None site_ex).1) (deployed_ex "local"))
    as (? & ? & ? & ? & ? & ? & ? & (_ & _ & Hok & _) & _); [exact catalog_ex_ok|by vm_compute|done].
Qed.
Definition mirai_version_ex : version_row :=
  VersionRow 1 1 "1.0" (Some 1) (Some "") None None None "published" "managed" (Some 1000).
Definition mirai_artifact_ex : art_row :=
  new_artifact 1 "libreoffice" (Some "") "1.0" "/data/content/binaries/libreoffice/1.0_mirai.oxt" (checksum_of "AAA") None 1000.
Lemma deployed_ex_rows : ct_versions (s_cat (deployed_ex "local")) = [mirai_version_ex] ∧ ct_artifacts (s_cat (deployed_ex "local")) = [mirai_artifact_ex].
Proof. by vm_compute. Qed.
Lemma deploy_replaces_shared_artifact_witness :
  mirai_version_ex ∈ ct_versions (s_cat clashed_ex) ∧
  artifact_at (s_cat clashed_ex) 1 ≫= (λ a, art_checksum (ar_art a)) = Some (checksum_of "BBB").
Proof.
  destruct deployed_ex_rows as [Hv Ha].
  apply (deploy_replaces_shared_artifact outside_ex outer_ex (env_at_ex 2000) (host_ex "local") "other" "BBB" "other.oxt" "1.0" "immediate" "normal" None
    (deployed_ex "local") (json_body (deploy_ex "local" 2000 "other" "BBB" "other.oxt" "1.0" None (deployed_ex "local")).1) clashed_ex
    (plugin_ex 2 "other") "1.0" mirai_version_ex mirai_artifact_ex).
  - exact deployed_ex_ok.
  - by vm_compute.
  - by vm_compute.
  - by vm_compute.
  - rewrite Hv. constructor.
  - done.
  - done.
  - rewrite Ha. constructor.
  - by vm_compute.
  - done.
  - done.
Defined.

(** An error after the older versions and campaigns are closed leaves them closed:
    the cohort is read last. *)
Definition broken_ex : result exc reply * site := deploy_ex "local" 2000 "mirai" "BBB" "mirai.oxt" "2.0" (Some "all") (deployed_ex "local").
Example failed_deployment_ends_campaigns :
  broken_ex.1 = Ok (failed 500 "invalid literal for int() with base 10") ∧
  (vr_version <$> filter (λ r, vr_status r = "published") (ct_versions (s_cat broken_ex.2))) = ["2.0"] ∧
  (cp_status <$> Life.st_rows (s_camp broken_ex.2)) = ["completed"].
Proof. by vm_compute. Qed.
(** A file name that is refused is answered 500, not 400. *)
Example refused_name_is_500 :
  (deploy_ex "local" 1000 "mirai" "AAA" "mi rai.oxt" "1.0" None site_ex).1 = Ok (failed 500 "400: invalid filename").
Proof. by vm_compute. Qed.
(** The configuration in a folder of the package is read, and stays in the package. *)
Example nested_config_is_shipped :
  (metadata outer_ex nested).1 = JObj [("default", JObj [("secret", JStr "s")])] ∧
  strip_metadata outer_ex nested = "description.xml,meta/dm-config.json".
Proof. by vm_compute. Qed.

Definition upload_form_ex : artifact_form := ArtifactForm None (Some "1.0") None (Some (File "mirai.oxt" "AAA")).
Definition upload_ex : result exc reply * site :=
  api_upload_artifact outer_ex (env_at_ex 1000) (host_ex "local") [("x-admin-token", "tok")] upload_form_ex site_ex.
Lemma uploaded_artifact_is_served_witness : ∃ path,
  path = "libreoffice/1.0_mirai.oxt" ∧ (get_binary outside_ex outer_ex (env_at_ex 1000) (host_ex "local") path upload_ex.2).1 = Ok (Binary "AAA" "").
Proof.
  destruct (uploaded_artifact_is_served outside_ex outer_ex (env_at_ex 1000) (host_ex "local") [("x-admin-token", "tok")] upload_form_ex site_ex
    (json_body upload_ex.1) upload_ex.2) as (fn & data & path & a & Hb & Ha & _ & Hp & _ & Hg); [done|done|by vm_compute|].
  exists path. injection Hb as <- <-. split; [|exact Hg]. vm_compute in Ha. apply list_elem_of_singleton in Ha. subst a. simpl in Hp. congruence.
Defined.
