(* ===== verification/Download.v ===== *)
(** * Downloads and update manifests
    The public routes of [app/main.py] that hand out a release: the redirect to the
    latest version, the download by file name, the update manifests of the
    browsers ([updates.xml], [/updates/{slug}/{target}]). *)
From S2P Require Import Prelude Text Json Effects Hashing Base64 Paths Flags AdminAuth Relay Campaigns RuntimeConfig Ingest Config Gate Catalog AuditLog Binaries Deploy.
From Stdlib Require Import Ascii String.
Open Scope Z_scope.

Import Package.

Definition _DEVICE_TYPE_EXT : list (string * string) :=
  [("libreoffice", "oxt"); ("firefox", "xpi"); ("chrome", "zip"); ("edge", "zip"); ("matisse", "xpi")].
Definition ext_of (device_type : string) : string := default "bin" (dget device_type _DEVICE_TYPE_EXT).
Definition release_name (slug version ext : string) : string := slug +:+ "-" +:+ version +:+ "." +:+ ext.
Definition _known_ext : list string := [".oxt"; ".xpi"; ".crx"; ".zip"; ".bin"].
Definition _UPDATE_ENGINE_BY_EXT : list (string * string) := [("xml", "chromium"); ("json", "gecko")].

Section download.
Variables (x : outer) (e : env) (h : host).

(** A connection to the database, or the refusal given when there is none. *)
Definition connected {A} (detail : string) (m : SM site A) : SM site A :=
  match e_db e with
  | NoDb => http 404 detail
  | DbDown => raise (Exc "connection refused")
  | DbUp => m
  end.

(** ** Download *)
(** A version that is not a managed binary: the link it gives. *)
Definition linked (v : version_row) : SM site reply :=
  match vr_url v with
  | Some url =>
      if bool_decide (vr_mode v = "download_link" ∨ vr_mode v = "store") && truthy_str url then mret (Moved 302 url)
      else http 404 "Aucune version disponible"
  | None => http 404 "Aucune version disponible"
  end.
Definition serve_version (slug device_type : string) (v : version_row) : SM site reply :=
  match vr_artifact v with
  | Some i =>
      if bool_decide (vr_mode v = "managed") && negb (i =? 0) then
        c ← gets s_cat;
        served ← (match s3_path_at c i with
                  | Some p => _serve_binary_path x e h p (release_name slug (vr_version v) (ext_of device_type))
                  | None => mret None
                  end);
        match served with Some r => mret r | None => http 404 "Fichier binaire introuvable" end
      else linked v
  | None => linked v
  end.
Definition _serve_plugin_download (slug : string) (version_filter : option string) : SM site reply :=
  connected "Aucune version disponible" (
    c ← gets s_cat;
    match active_plugin c slug with
    | None => http 404 "Plugin introuvable"
    | Some p =>
        match (if truthy_opt version_filter then published_version c (p_id p) (default "" version_filter)
               else latest_published c (p_id p)) with
        | None => http 404 "Aucune version disponible"
        | Some v => serve_version slug (pl_device_type (pg_row p)) v
        end
    end).

(** The plugin of a slug or an alias. *)
Definition resolved_plugin (c : catalog) (slug : string) : option (string * Z) :=
  let r := _resolve_device (Some (pg_row <$> ct_plugins c)) (Some (ct_aliases c)) slug in
  match rd_plugin r, rd_name r with Some i, Some s => if i =? 0 then None else Some (s, i) | _, _ => None end.
(** The paths of the variants of a plugin, whatever the status of the version. *)
Definition variant_paths (c : catalog) (plugin_id : Z) : list (option string) :=
  w ← ct_variants c;
  v ← filter (λ v, vr_id v = va_version w ∧ vr_plugin v = plugin_id) (ct_versions c);
  a ← filter (λ a, a_id a = va_artifact w) (ct_artifacts c);
  [art_s3_path (ar_art a)].
Definition is_named (filename : string) (p : option string) : bool :=
  match p with Some q => truthy_str q && bool_decide (basename q = filename) | None => false end.
Definition _serve_variant_by_filename (slug filename : string) : SM site (option reply) :=
  match e_db e with
  | NoDb => mret None
  | DbDown => raise (Exc "connection refused")
  | DbUp =>
      c ← gets s_cat;
      match resolved_plugin c slug with
      | None => mret None
      | Some (_, pid) =>
          match find (is_named filename) (variant_paths c pid) with
          | Some (Some p) => _serve_binary_path x e h p filename
          | _ => mret None
          end
      end
  end.

(** The file name without the first known extension that it ends with. *)
Fixpoint strip_ext (exts : list string) (s : string) : string :=
  match exts with
  | [] => s
  | ext :: r => if ends_with ext s then stake (String.length s - String.length ext) s else strip_ext r s
  end.
Definition version_of_filename (slug filename : string) : string :=
  let base := strip_ext _known_ext filename in
  if starts_with (slug +:+ "-") base then sdrop (String.length (slug +:+ "-")) base else base.
Definition catalog_download_file (slug filename : string) : SM site reply :=
  served ← _serve_variant_by_filename slug filename;
  match served with
  | Some r => mret r
  | None =>
      let version := version_of_filename slug filename in
      _serve_plugin_download slug (if decide (version = filename) then None else Some version)
  end.

Definition catalog_download (slug : string) : SM site reply :=
  connected "Aucune version disponible" (
    c ← gets s_cat;
    match active_plugin c slug with
    | None => http 404 "Plugin introuvable"
    | Some p =>
        match latest_published c (p_id p) with
        | None => http 404 "Aucune version disponible"
        | Some v => mret (Moved 302 ("/catalog/" +:+ slug +:+ "/download/" +:+
                      release_name slug (vr_version v) (ext_of (pl_device_type (pg_row p)))))
        end
    end).

(** ** Update manifests *)
Definition nl : string := String "010" "".
(** The document of both routes. *)
Definition gupdate (appid codebase version : string) : string :=
  "<?xml version='1.0' encoding='UTF-8'?>" +:+ nl +:+
  "<gupdate xmlns='http://www.google.com/update2/response' protocol='2.0'>" +:+ nl +:+
  "  <app appid='" +:+ appid +:+ "'>" +:+ nl +:+
  "    <updatecheck codebase='" +:+ codebase +:+ "' version='" +:+ version +:+ "' />" +:+ nl +:+
  "  </app>" +:+ nl +:+ "</gupdate>".
Definition https_base (base_url : string) : string :=
  let base := rstrip_char "/" base_url in
  if starts_with "http://" base && negb (contains "localhost" base) then "https://" +:+ sdrop (String.length "http://") base else base.
Definition catalog_updates_xml (base_url slug : string) : SM site reply :=
  connected "Plugin not found" (
    c ← gets s_cat;
    match active_plugin c slug with
    | None => http 404 "Plugin introuvable"
    | Some p =>
        match latest_published c (p_id p) with
        | None => http 404 "Aucune version publiee"
        | Some v => mret (Xml (gupdate slug (https_base base_url +:+ "/catalog/" +:+ slug +:+ "/download/" +:+
                            release_name slug (vr_version v) "crx") (vr_version v)))
        end
    end).

Record release : Type := Release { re_version : string; re_filename : string; re_extension_id : option string; re_gecko_id : option string }.
(** The published versions of the plugin that have the variant, with its path. *)
Definition variant_rows (c : catalog) (plugin_id : Z) (variant : string) : list (version_row * option string) :=
  v ← filter (λ v, published_of plugin_id v = true) (ct_versions c);
  w ← filter (λ w, va_version w = vr_id v ∧ va_variant w = variant) (ct_variants c);
  a ← filter (λ a, a_id a = va_artifact w) (ct_artifacts c);
  [(v, art_s3_path (ar_art a))].
Definition newest_row (l : list (version_row * option string)) : option (version_row * option string) :=
  match first_max (λ r, default 0 (vr_published r.1)) (filter (λ r, is_Some (vr_published r.1)) l) with
  | Some r => Some r
  | None => head l
  end.
Definition _latest_variant_release (c : catalog) (plugin_id : Z) (variant : string) : option release :=
  let meta := find (λ p, bool_decide (p_id p = plugin_id)) (ct_plugins c) in
  (λ r, Release (vr_version r.1) (match r.2 with Some p => basename p | None => "" end) (meta ≫= pg_extension_id) (meta ≫= pg_gecko_id))
    <$> newest_row (variant_rows c plugin_id variant).
Definition _resolve_update_context (slug target ext : string) : SM site (string * release) :=
  match dget ext _UPDATE_ENGINE_BY_EXT with
  | None => http 404 "Format inconnu"
  | Some engine =>
      connected "Indisponible" (
        c ← gets s_cat;
        match resolved_plugin c slug with
        | None => http 404 "Plugin introuvable"
        | Some (canonical, pid) =>
            match _latest_variant_release c pid (engine +:+ "-" +:+ target) with
            | None => http 404 "Aucune release pour cette variante/cible"
            | Some rel => mret (canonical, rel)
            end
        end)
  end.
Definition public_base : string := rstrip_char "/" (getenv "PUBLIC_BASE_URL" "" (h_env h)).
Definition update_url (canonical filename : string) : string := public_base +:+ "/catalog/" +:+ canonical +:+ "/download/" +:+ filename.
(** [x or y] of a nullable column *)
Definition id_or (v : option string) (d : string) : string := str_or (default "" v) d.
Definition updates_manifest_xml (slug target : string) : SM site reply :=
  r ← _resolve_update_context slug target "xml";
  let '(canonical, rel) := (r : string * release) in
  mret (Xml (gupdate (id_or (re_extension_id rel) canonical) (update_url canonical (re_filename rel)) (re_version rel))).
Definition updates_manifest_json (slug target : string) : SM site reply :=
  r ← _resolve_update_context slug target "json";
  let '(canonical, rel) := (r : string * release) in
  mret (Json 200 [("addons", JObj [(id_or (re_gecko_id rel) canonical,
    JObj [("updates", JArr [JObj [("version", JStr (re_version rel)); ("update_link", JStr (update_url canonical (re_filename rel)))]])])])]).
End download.

(** ** Facts *)
Section download_facts.
Variables (x : outer) (e : env) (h : host).

Lemma newest_elem vs v : newest vs = Some v → v ∈ vs.
Proof.
  unfold newest. destruct (first_max _ _) as [w|] eqn:E.
  - intros [= <-]. apply first_max_Some in E as [[_ ?]%list_elem_of_filter _]. done.
  - destruct vs; [done|]. intros [= ->]. set_solver.
Qed.
Lemma newest_some vs v : v ∈ vs → is_Some (newest vs).
Proof. intros Hv. unfold newest. destruct (first_max _ _); [done|]. destruct vs; [set_solver|done]. Qed.
(** When a plugin has one published version, every query finds it. *)
Lemma only_published c p r : (∀ r', r' ∈ ct_versions c ∧ published_of p r' = true ↔ r' = r) →
  latest_published c p = Some r ∧ published_version c p (vr_version r) = Some r.
Proof.
  intros Hu. assert (Hr : r ∈ ct_versions c ∧ published_of p r = true) by (by apply Hu). split.
  - unfold latest_published. set (l := filter _ _). destruct (newest_some l r) as [w Hw].
    { unfold l. apply list_elem_of_filter. tauto. }
    rewrite Hw. f_equal. apply newest_elem in Hw. unfold l in Hw. apply list_elem_of_filter in Hw. apply Hu. tauto.
  - unfold published_version. destruct (find _ _) as [w|] eqn:E.
    + apply List.find_some in E as [E%list_elem_of_In Hw]. apply andb_true_iff in Hw as [Hw _]. f_equal. by apply Hu.
    + destruct Hr as [Hr Hp]. exfalso. apply list_elem_of_In in Hr. apply (List.find_none _ _ E) in Hr.
      by rewrite Hp, bool_decide_eq_true_2 in Hr.
Qed.
(** *** File names *)
Lemma srev_app_acc s acc : srev_app s acc = srev s +:+ acc.
Proof.
  unfold srev. revert acc. induction s as [|c s IH]; intros acc; [done|]. simpl.
  rewrite (IH (String c acc)), (IH (String c "")), sapp_assoc. done.
Qed.
Lemma srev_sapp s t : srev (s +:+ t) = srev t +:+ srev s.
Proof. unfold srev at 1. by rewrite srev_app_app, srev_app_acc. Qed.
Lemma strip_known s ext : ext ∈ _known_ext → strip_ext _known_ext (s +:+ ext) = s.
Proof.
  intros Hx. assert (Hl : String.length ext = 4%nat) by (unfold _known_ext in Hx; set_unfold; naive_solver).
  assert (Hs : stake (String.length (s +:+ ext) - 4) (s +:+ ext) = s).
  { rewrite slen_app, Hl, Nat.add_sub. apply stake_app. }
  unfold _known_ext in *. unfold strip_ext, ends_with. rewrite srev_sapp.
  generalize (srev s). intros r. set_unfold.
  destruct Hx as [->|[->|[->|[->|[->|[]]]]]]; unfold srev, srev_app; rewrite !sapp_cons, !sapp_nil_l; by destruct r.
Qed.
Lemma ext_known dt : "." +:+ ext_of dt ∈ _known_ext.
Proof.
  unfold ext_of. destruct (dget dt _DEVICE_TYPE_EXT) as [y|] eqn:E; [|by vm_compute; repeat constructor].
  apply dget_Some_elem in E. unfold _DEVICE_TYPE_EXT in E. simpl.
  repeat (apply elem_of_cons in E as [[= -> ->]|E]); try (by apply (bool_decide_unpack _); vm_compute). by apply elem_of_nil in E.
Qed.
(** The version is read back from the name of a release. *)
Lemma version_of_release slug v dt :
  version_of_filename slug (release_name slug v (ext_of dt)) = v ∧ release_name slug v (ext_of dt) ≠ v.
Proof.
  unfold version_of_filename, release_name. split.
  - replace (slug +:+ "-" +:+ v +:+ "." +:+ ext_of dt) with (((slug +:+ "-") +:+ v) +:+ ("." +:+ ext_of dt)) by (by rewrite !sapp_assoc).
    rewrite strip_known by apply ext_known. by rewrite starts_with_app, sdrop_app.
  - intros H. apply (f_equal String.length) in H. rewrite !slen_app in H. simpl in H. lia.
Qed.

(** *** The binary is where its reference points *)
(** No symbolic link on the way to the directory or below it. *)
Definition plain_dir (links : gmap (list string) string) (bs : list string) : Prop :=
  ∀ cs, cs `prefix_of` bs ∨ bs `prefix_of` cs → links !! cs = None.
Definition admin_dir : list string := ["data"; "content"; "binaries"].
Lemma admin_dir_ok : Forall comp_ok admin_dir.
Proof. unfold admin_dir. repeat (apply Forall_cons; split; [by split_and!|]). by constructor. Qed.
Lemma local_ref dt v f p : plain_dir (h_links h) admin_dir → h_local_dir h = ADMIN_BASE → comp_ok dt → comp_ok v → comp_ok f →
  let rel := dt +:+ "/" +:+ v +:+ "_" +:+ f in
  safe_path_join (h_links h) (h_cwd h) (h_local_dir h) rel = Ok p → real h (ADMIN_BASE +:+ "/" +:+ rel) = real h p.
Proof.
  intros Hl Hd Hdt Hv Hf rel.
  assert (Hcs : physical (h_links h) (admin_dir ++ [dt; v +:+ String "_" f])).
  { split; [apply Forall_app; split; [apply admin_dir_ok|apply Forall_cons; split; [done|]; apply Forall_singleton; by apply comp_ok_app]|].
    intros cs Hcs Hne. apply Hl.
    eapply prefix_weak_total; [exact Hcs|by apply prefix_app_r]. }
  assert (Hrel : rel = sjoin "/" [dt; v +:+ String "_" f]).
  { unfold rel. rewrite sjoin_tail. simpl. by rewrite sapp_nil_r. }
  assert (Hbase : real h ADMIN_BASE = OsPath.path_str admin_dir).
  { apply (realpath_physical _ _ admin_dir). split; [apply admin_dir_ok|]. intros cs Hpre _. apply Hl. by left. }
  rewrite Hd, Hrel. intros Hp. rewrite (safe_path_join_plain _ _ _ admin_dir) in Hp; [|done..]. 
  assert (p = OsPath.path_str (admin_dir ++ [dt; v +:+ String "_" f])) as -> by congruence. clear Hp.
  assert (OsPath.path_str (admin_dir ++ [dt; v +:+ String "_" f]) = ADMIN_BASE +:+ "/" +:+ sjoin "/" [dt; v +:+ String "_" f]) as ->; [|done].
  rewrite path_str_app, sjoin_tail by done. done.
Qed.

(** What was stored is served. *)
Lemma stored_is_served dt v f' f data s s' :
  comp_ok dt → comp_ok v → comp_ok f' →
  h_mode h = "proxy" ∨ h_mode h = "local" ∧ h_local_dir h = ADMIN_BASE ∧ plain_dir (h_links h) admin_dir →
  (h_mode h ≠ "local" → truthy_str (e_s3_bucket e) = true ∧ e_s3_ok e = true) →
  let rel := dt +:+ "/" +:+ v +:+ "_" +:+ f' in
  stored h rel data s s' → _serve_binary_path x e h (stored_ref h rel) f s' = (Ok (Some (Binary data f)), s').
Proof.
  intros Hdt Hv Hf Hmode Hs3 rel. unfold stored, stored_ref, _serve_binary_path. destruct Hmode as [Hm|(Hm & Hd & Hl)]; rewrite Hm.
  - rewrite !bool_decide_eq_false_2 by done. intros [_ Ho]. destruct Hs3 as [Hb Hs]; [by rewrite Hm|]. rewrite Hb.
    replace (truthy_str (object_key h rel)) with true. 2:{ symmetry. apply truthy_str_true. unfold object_key. by destruct (rstrip_char _ _). }
    simpl. rewrite bind_gets. unfold read_object. rewrite Hs, Ho, lookup_insert_eq. done.
  - rewrite !bool_decide_eq_true_2 by done. intros (q & Hq & Hdisk & _).
    assert (Hfound : isfile h (ADMIN_BASE +:+ "/" +:+ rel) s' = Some data).
    { unfold isfile, rel. rewrite (local_ref dt v f' q) by done. by rewrite Hdisk, lookup_insert_eq. }
    replace (truthy_str _) with true by done. cbn [negb]. rewrite bind_gets, Hfound.
    rewrite (bind_step _ _ _ () s') by done. by rewrite bind_gets, Hfound.
Qed.
End download_facts.

(** C18. A deployed package can be downloaded: after a deployment that answers 201,
    [GET /catalog/{slug}/download] redirects to the file name of the version
    deployed, and a request for that file name is answered with exactly the bytes
    that were stored, whose checksum the deployment returned. This holds when
    binaries are served through the bucket, or from the default local directory
    with no symbolic link in it, for a version that is new or distributed as a
    managed binary, and when no variant of the plugin bears the same file name. *)
Theorem deployed_is_served o x e h slug data fn version strategy urgency cohort_id s body s' p v :
  catalog_ok (s_cat s) → active_plugin (s_cat s) slug = Some p →
  _deploy_plugin_db_work o x e h slug data fn version strategy urgency cohort_id s = (Ok (Json 201 body), s') →
  jget "version" body = JStr v →
  h_mode h = "proxy" ∨ h_mode h = "local" ∧ h_local_dir h = ADMIN_BASE ∧ plain_dir (h_links h) admin_dir →
  (∀ r, r ∈ ct_versions (s_cat s) → ver_key r = (p_id p, v) → vr_mode r = "managed") →
  let f := release_name slug v (ext_of (pl_device_type (pg_row p))) in
  (∀ i, find (is_named f) (variant_paths (s_cat s') i) = None) →
  catalog_download e slug s' = (Ok (Moved 302 ("/catalog/" +:+ slug +:+ "/download/" +:+ f)), s') ∧
  catalog_download_file x e h slug f s' = (Ok (Binary (strip_metadata x data) f), s') ∧
  jget "checksum" body = JStr (checksum_of (strip_metadata x data)).
Proof.
  intros Hok Hact Hrun Hbody Hmode Hman f Hvar. destruct (deploy_effect _ _ _ _ _ _ _ _ _ _ _ _ _ _ Hok Hrun)
    as (p' & r & a & k & dt & v' & f' & (Hp' & Hdb & Hok' & Hface & Hdt & Hv' & Hf') & (Huniq & Hrv & Hra & Hrm & _) & (Ha & Hpath & _ & Hst & _ & _ & _ & Hs3) & _ & Hbv & Hbc).
  rewrite Hact in Hp'. injection Hp' as <-. assert (v' = v) as -> by congruence. specialize (Hrm Hman).
  destruct (find_face slug _ _ p (eq_sym Hface) Hact) as (p' & Hact' & [= Hpid Hslug _ Hdt']).
  destruct (only_published _ _ _ Huniq) as [Hlat Hpv]. rewrite Hrv in Hpv.
  assert (Hserve : _serve_binary_path x e h (stored_ref h (dt +:+ "/" +:+ v +:+ "_" +:+ f')) f s' = (Ok (Some (Binary (strip_metadata x data) f)), s')).
  { by apply (stored_is_served x e h dt v f' f _ s s'). }
  split_and!; [| |done].
  - unfold catalog_download, connected. rewrite Hdb, bind_gets. unfold active_plugin. rewrite Hact'. rewrite Hpid, Hlat, Hdt', Hrv. done.
  - unfold catalog_download_file, _serve_variant_by_filename. rewrite Hdb.
    assert (Hnone : (c ← gets s_cat; match resolved_plugin c slug with None => mret None | Some (_, pid) =>
        match find (is_named f) (variant_paths c pid) with Some (Some q) => _serve_binary_path x e h q f | _ => mret None end end) s' = (Ok None, s')).
    { rewrite bind_gets. destruct (resolved_plugin _ _) as [[? i]|]; [|done]. by rewrite Hvar. }
    rewrite (bind_step _ _ _ _ _ Hnone). destruct (version_of_release slug v (pl_device_type (pg_row p))) as [Hve Hne]. fold f in Hve, Hne.
    rewrite Hve, decide_False by done. unfold _serve_plugin_download, connected. rewrite Hdb, bind_gets. unfold active_plugin. rewrite Hact'.
    assert (Ht : truthy_opt (Some v) = true) by (apply truthy_str_true; apply Hv'). rewrite Ht. change (default "" (Some v)) with v. rewrite Hpid, Hpv.
    unfold serve_version. rewrite Hra, Hrm. assert (0 < a_id a) by (by apply (ok_art_next _ Hok')).
    replace (a_id a =? 0) with false by lia. simpl. rewrite bind_gets. unfold s3_path_at. rewrite artifact_at_ok by done. simpl.
    rewrite Hpath, Hdt', Hrv. by rewrite (bind_step _ _ _ _ _ Hserve).
Qed.

(** ** Examples *)
Lemma deployed_is_served_witness :
  catalog_download (env_at_ex 1000) "mirai" (deployed_ex "local") = (Ok (Moved 302 "/catalog/mirai/download/mirai-1.0.oxt"), deployed_ex "local") ∧
  catalog_download_file outer_ex (env_at_ex 1000) (host_ex "local") "mirai" "mirai-1.0.oxt" (deployed_ex "local") =
    (Ok (Binary "AAA" "mirai-1.0.oxt"), deployed_ex "local").
Proof.
  destruct (deployed_is_served outside_ex outer_ex (env_at_ex 1000) (host_ex "local") "mirai" "AAA" "mirai.oxt" "1.0" "immediate" "normal" None site_ex
    (json_body (deploy_ex "local" 1000 "mirai" "AAA" "mirai.oxt" "1.0" None site_ex).1) (deployed_ex "local") (plugin_ex 1 "mirai") "1.0")
    as (H1 & H2 & _).
  - exact catalog_ex_ok.
  - by vm_compute.
  - by vm_compute.
  - by vm_compute.
  - right. split_and!; [done|done|]. intros cs _. apply lookup_empty.
  - intros r Hr. by apply elem_of_nil in Hr.
  - intros i. assert (ct_variants (s_cat (deployed_ex "local")) = []) as Hn by (by vm_compute).
    unfold variant_paths. rewrite Hn. done.
  - split; [exact H1|exact H2].
Defined.
(** With a second plugin of the same type on the same version, the first one's
    download gives the second one's package. *)
Example other_package_is_served :
  (catalog_download_file outer_ex (env_at_ex 2000) (host_ex "local") "mirai" "mirai-1.0.oxt" clashed_ex).1 = Ok (Binary "BBB" "mirai-1.0.oxt").
Proof. by vm_compute. Qed.

(** The query of the active campaign does not look at the plugin: *)
Definition crossed_ex : site := (deploy_ex "local" 2000 "other" "CCC" "other.oxt" "9.0" None (deployed_ex "local")).2.
Definition directive_ex (device version : string) (s : site) : result exn (option directive) :=
  Serve._build_update_directive 3000 version
    (Serve._resolve_active_campaign (Some (Life.st_rows (s_camp s), ar_art <$> ct_artifacts (s_cat s))) [] "libreoffice" "") "client" device.
Definition served_ex (filename : string) (s : site) : option string :=
  match (catalog_download_file outer_ex (env_at_ex 3000) (host_ex "local") "mirai" filename s).1 with Ok (Binary data _) => Some data | _ => None end.

(** The campaign that a deployment opens reaches the devices of every plugin:
    once the plugin [other] is deployed in version 9.0, a device of the plugin
    [mirai], up to date with its own latest version 1.0, is told to update to 9.0
    with the checksum of the other package, at the download address of [mirai],
    which still serves version 1.0 and so fails the checksum. *)
Theorem update_of_another_plugin :
  directive_ex "mirai" "1.0" (deployed_ex "local") = Ok None ∧
  (∃ d, directive_ex "mirai" "1.0" crossed_ex = Ok (Some d) ∧ d_target_version d = "9.0" ∧ d_checksum d = checksum_of "CCC" ∧
     d_artifact_url d = "/catalog/mirai/download") ∧
  catalog_download (env_at_ex 3000) "mirai" crossed_ex = (Ok (Moved 302 "/catalog/mirai/download/mirai-1.0.oxt"), crossed_ex) ∧
  served_ex "mirai-1.0.oxt" crossed_ex = Some "AAA" ∧ checksum_of "AAA" ≠ checksum_of "CCC".
Proof.
  split_and!; [by vm_compute| |by vm_compute..].
  destruct (directive_ex "mirai" "1.0" crossed_ex) as [[d|]|] eqn:E; [|by vm_compute in E..].
  exists d. vm_compute in E. injection E as <-. split_and!; by vm_compute.
Qed.

(** A variant of a version that was withdrawn, and an artifact that was
    deactivated, are still served. *)
Definition variant_site_ex : site :=
  let s := deployed_ex "local" in
  let c := (create_artifact 1100 "libreoffice" "gecko-dgx" "1.0" "/data/content/binaries/libreoffice/mirai-1.0-gecko-dgx.xpi" "sha256:00" "" (s_cat s)).2 in
  let c := (link_version_artifact 1 2 "gecko-dgx" c).2 in
  set_disk (<["/data/content/binaries/libreoffice/mirai-1.0-gecko-dgx.xpi" := "VVV"]> (s_disk s)) (set_cat c s).
Definition withdrawn_ex : site :=
  let c := (update_version_status 1200 1 "yanked" (s_cat variant_site_ex)).2 in
  set_cat (toggle_artifact 2 false c).2 variant_site_ex.
Example withdrawn_variant_is_served :
  served_ex "mirai-1.0.oxt" withdrawn_ex = None ∧ served_ex "mirai-1.0-gecko-dgx.xpi" withdrawn_ex = Some "VVV".
Proof. by vm_compute. Qed.
(** The manifest of a variant leads to its binary. *)
Example manifest_leads_to_variant :
  (updates_manifest_json (env_at_ex 3000) (Host [("PUBLIC_BASE_URL", "https://dm/")] "local" "" ADMIN_BASE "" ∅ []) "mirai" "dgx" variant_site_ex).1 =
    Ok (Json 200 [("addons", JObj [("mirai", JObj [("updates", JArr [JObj [("version", JStr "1.0");
      ("update_link", JStr "https://dm/catalog/mirai/download/mirai-1.0-gecko-dgx.xpi")]])])])]) ∧
  served_ex "mirai-1.0-gecko-dgx.xpi" variant_site_ex = Some "VVV".
Proof. by vm_compute. Qed.
