(* ===== verification/Fleet.v ===== *)
(** * Fleet
    The pods of [app/runtime_config.py]: their rows in [config_pod_state]
    ([enroll], [heartbeat], [reap_stale_pods]), the loop that keeps a pod on the
    current generation ([run_config_sync_loop], [bootstrap_env_overrides]), the
    view of the administration page ([effective_view], [list_pods]) and the probes
    of [app/main.py] that read this state ([readyz], [internal_config_state]).
    The connection is in autocommit mode; which statement fails, the clock and the
    health of the process are arguments of each turn of the loop. *)
From S2P Require Import Prelude Text Json Effects AdminAuth Relay RuntimeConfig Ingest Tokens.
From Stdlib Require Import Ascii String.
Open Scope Z_scope.

(** ** State *)
Record health : Type := Health {
  hl_rss : option Z; hl_mem_limit : option Z; hl_load1 : option string; hl_cpus : option Z; hl_requests : Z }.
Record pod_row : Type := PodRow {
  pr_name : string; pr_node : option string; pr_mode : string; pr_pid : Z; pr_ip : option string; pr_port : Z;
  pr_applied : Z; pr_version : string; pr_restarts : Z; pr_health : health; pr_started : Z; pr_heartbeat : Z }.
(** The database, the fleet table and the process of one pod. *)
Record node : Type := Node { n_db : config_db; n_fleet : list pod_row; n_proc : process }.
Definition set_fleet x n := Node (n_db n) x (n_proc n).
Definition set_proc x n := Node (n_db n) (n_fleet n) x.

Section pod.
Variable decrypt : string → string → option string.

(** The statements of a turn, and what the turn observes. *)
Inductive statement : Type := ReadGeneration | ReadOverrides | WritePod | ReapPods.
Record turn : Type := Turn {
  tu_now : Z; tu_monotonic : Z; tu_conn : db_state; tu_fails : statement → bool; tu_health : health }.
Definition query (t : turn) (st : statement) : SM node () :=
  if tu_fails t st then raise (Exc "server closed the connection unexpectedly") else mret ().

(** ** Identity *)
Record pod_id : Type := PodId { hostname : string; pid : Z }.
Record identity : Type := Identity {
  id_pod_name : string; id_node_name : option string; id_mode : string; id_pid : Z; id_ip : option string; id_port : Z; id_version : string }.
(** [or] on a variable that may be missing *)
Definition env_or (k dflt : string) (env : environ) : string := str_or (getenv k "" env) dflt.
Definition _pod_identity (me : pod_id) (role : option string) (env : environ) : result exc identity :=
  match py_int (str_or (getenv "DM_PORT" "3001" env) "3001") with
  | None => Err (Exc "invalid literal for int() with base 10")
  | Some port =>
      Ok (Identity (hostname me) (dget "NODE_NAME" env)
            (str_or (default "" role) (getenv "DM_RUNTIME_MODE" "api" env))
            (pid me) (dget "POD_IP" env) port (str_or (env_or "DM_APP_VERSION" (getenv "APP_VERSION" "" env) env) "dev"))
  end.

(** ** The fleet table *)
Definition new_row (t : turn) (i : identity) (applied : Z) : pod_row :=
  PodRow (id_pod_name i) (id_node_name i) (id_mode i) (id_pid i) (id_ip i) (id_port i) applied (id_version i) 0 (tu_health t) (tu_now t) (tu_now t).
Definition restarted (t : turn) (i : identity) (applied : Z) (r : pod_row) : pod_row :=
  PodRow (pr_name r) (id_node_name i) (id_mode i) (id_pid i) (id_ip i) (id_port i) applied (id_version i) (pr_restarts r + 1) (tu_health t) (tu_now t) (tu_now t).
Definition beaten (t : turn) (i : identity) (applied : Z) (r : pod_row) : pod_row :=
  PodRow (pr_name r) (pr_node r) (id_mode i) (pr_pid r) (id_ip i) (pr_port r) applied (pr_version r) (pr_restarts r) (tu_health t) (pr_started r) (tu_now t).
Definition is_pod (name : string) (r : pod_row) : bool := bool_decide (pr_name r = name).
Fixpoint upsert_pod (name : string) (upd : pod_row → pod_row) (new : pod_row) (l : list pod_row) : list pod_row :=
  match l with [] => [new] | r :: l' => if is_pod name r then upd r :: l' else r :: upsert_pod name upd new l' end.

Definition enroll (me : pod_id) (role : option string) (t : turn) : SM node () :=
  n ← gets id;
  i ← lift (_pod_identity me role (p_env (n_proc n)));
  query t WritePod;;
  modify (set_fleet (upsert_pod (id_pod_name i) (restarted t i (p_applied (n_proc n))) (new_row t i (p_applied (n_proc n))) (n_fleet n))).

Definition heartbeat (me : pod_id) (role : option string) (t : turn) : SM node () :=
  n ← gets id;
  i ← lift (_pod_identity me role (p_env (n_proc n)));
  query t WritePod;;
  if existsb (is_pod (id_pod_name i)) (n_fleet n)
  then modify (set_fleet ((λ r, if is_pod (id_pod_name i) r then beaten t i (p_applied (n_proc n)) r else r) <$> n_fleet n))
  else enroll me role t.

Definition _pod_ttl_seconds (env : environ) : Z :=
  match py_int (getenv "DM_CONFIG_POD_TTL_SECONDS" "600" env) with Some z => Z.max 60 z | None => 600 end.
Definition fresh_pod (now ttl : Z) (r : pod_row) : bool := now - ttl <=? pr_heartbeat r.
Definition reap_stale_pods (t : turn) : SM node Z :=
  n ← gets id;
  query t ReapPods;;
  let kept := filter (λ r, fresh_pod (tu_now t) (_pod_ttl_seconds (p_env (n_proc n))) r = true) (n_fleet n) in
  modify (set_fleet kept);;
  mret (Z.of_nat (List.length (n_fleet n)) - Z.of_nat (List.length kept)).

(** ** The loop *)
(** [reload_overrides]: two queries, then the state is applied. *)
Definition reload (t : turn) : SM node () :=
  query t ReadGeneration;;
  query t ReadOverrides;;
  modify (λ n, set_proc (reload_overrides decrypt (n_db n) (n_proc n)).2 n).

Record loop : Type := Loop { lp_enrolled : bool; lp_last_reap : Z }.
Definition reaper_role (role : option string) : bool := bool_decide (lower (strip (default "" role)) ∈ ["admin"; "all"]).

(** The body of the [try]: what it leaves in the variables of the loop. *)
Definition turn_body (me : pod_id) (role : option string) (t : turn) (lp : loop) : SM node loop :=
  match tu_conn t with
  | DbDown => raise (Exc "connection refused")
  | NoDb => mret lp
  | DbUp =>
      query t ReadGeneration;;
      n ← gets id;
      (match db_gen (n_db n) with
       | Some gen => if gen =? p_applied (n_proc n) then mret () else reload t
       | None => mret ()
       end);;
      (if lp_enrolled lp then heartbeat me role t else enroll me role t);;
      (if reaper_role role && (60 <? tu_monotonic t - lp_last_reap lp)
       then reap_stale_pods t;; mret (Loop true (tu_monotonic t))
       else mret (Loop true (lp_last_reap lp)))
  end.
(** One turn: an exception closes the connection and forgets the enrolment. *)
Definition sync_turn (me : pod_id) (role : option string) (t : turn) (lp : loop) : SM node loop :=
  catch (turn_body me role t lp) (λ _, mret (Loop false (lp_last_reap lp))).
(** The turns until the stop event; between them other pods and administrators
    change the database, which the function [world] of each turn stands for. *)
Fixpoint sync_turns (me : pod_id) (role : option string) (ts : list (turn * (node → node))) (lp : loop) : SM node loop :=
  match ts with
  | [] => mret lp
  | (t, world) :: r => modify world;; lp' ← sync_turn me role t lp; sync_turns me role r lp'
  end.
Definition run_config_sync_loop (me : pod_id) (role : option string) (ts : list (turn * (node → node))) : SM node loop :=
  n ← gets id;
  let '(st, ok) := snapshot_baseline false (n_proc n) in
  modify (set_proc st);;
  if ok : bool then sync_turns me role ts (Loop false 0) else raise (Exc "invalid value in the environment").

(** [bootstrap_env_overrides] at import, with its one-shot guard; nothing it meets
    stops the import. *)
Definition bootstrap_env_overrides (t : turn) (bootstrapped : bool) : SM node () :=
  if bootstrapped then mret ()
  else
    n ← gets id;
    let '(st, ok) := snapshot_baseline false (n_proc n) in
    modify (set_proc st);;
    if ok : bool then match tu_conn t with DbUp => catch (reload t) (λ _, mret ()) | _ => mret () end else mret ().

(** ** Views *)
Definition as_int (v : json) : option Z := match v with JBool b => Some (Z.b2z b) | JInt z => Some z | _ => None end.
Definition _display (py : json) (spec : ConfigKeySpec) : json :=
  match py with
  | JNull => match type spec with TList => JArr [] | _ => JStr "" end
  | _ =>
      if sensitive spec then JStr (Crypto.mask_secret (py_str py))
      else match type spec with TList => str_list (_parse_list py) | _ => py end
  end.
(** [==] on the values of the keys, which hold no object: a bool is an int. *)
Fixpoint py_eqb (a b : json) : bool :=
  match a, b with
  | JNull, JNull => true
  | JStr s, JStr s' => bool_decide (s = s')
  | JBool _, (JBool _ | JInt _) | JInt _, (JBool _ | JInt _) => bool_decide (as_int a = as_int b)
  | JArr l, JArr l' =>
      (fix go (l l' : list json) : bool :=
         match l, l' with [], [] => true | x :: r, x' :: r' => py_eqb x x' && go r r' | _, _ => false end) l l'
  | _, _ => false
  end.
Record view_row : Type := ViewRow {
  vw_key : string; vw_type : vtype; vw_hot : bool; vw_sensitive : bool; vw_baseline : json; vw_effective : json;
  vw_present : bool; vw_modified : bool; vw_by : option string; vw_at : option Z }.
Definition view_of (st : process) (spec : ConfigKeySpec) : view_row :=
  let baseline := jget (env_name spec) (p_baseline st) in
  let meta := dget (env_name spec) (p_meta st) in
  let effective_py := match meta with Some m => me_value m | None => baseline end in
  let present := match meta with Some _ => true | None => false end in
  ViewRow (env_name spec) (type spec) (hot_reloadable spec) (sensitive spec) (_display baseline spec)
    (_display effective_py spec) present (present && negb (py_eqb effective_py baseline)) (meta ≫= me_by) (me_at <$> meta).
Definition effective_view (st : process) : list view_row := view_of st <$> EDITABLE_KEYS.

Definition enable_request_gate (st : process) : process :=
  Process (p_env st) (p_settings st) (p_baseline st) (p_baseline_ready st) (p_meta st) (p_applied st) (p_ready st) true (p_cache st).
(** Status, and the generation when ready. *)
Definition readyz (st : process) : Z * option Z :=
  if should_gate_requests st then (503, None) else (200, Some (p_applied st)).
(** The pod's own report, for the service token. *)
Definition internal_config_state (me : pod_id) (role : string) (token : string) (hs : headers) (hl : health) (st : process)
    : result exc (identity * Z * bool * health) :=
  match (if truthy_str token then compare_digest_str (hget "x-internal-token" hs) token else Ok false) with
  | Ok true => match _pod_identity me (Some (str_or role "api")) (p_env st) with Ok i => Ok (i, p_applied st, p_ready st, hl) | Err x => Err x end
  | Ok false => Err (Http (HttpError 401 "unauthorized"))
  | Err _ => Err (Exc "comparing strings with non-ASCII characters is not supported")
  end.
End pod.

(** [list_pods] of [services/runtime_config.py]: age and uptime, by mode and name *)
Definition pod_before (a b : pod_row) : bool :=
  str_ltb (pr_mode a) (pr_mode b) || bool_decide (pr_mode a = pr_mode b) && negb (str_ltb (pr_name b) (pr_name a)).
Fixpoint insert_pod (r : pod_row) (l : list pod_row) : list pod_row :=
  match l with [] => [r] | q :: l' => if pod_before r q then r :: l else q :: insert_pod r l' end.
Definition list_pods (now : Z) (fleet : list pod_row) : list (pod_row * Z * Z) :=
  (λ r, (r, now - pr_heartbeat r, now - pr_started r)) <$> foldr insert_pod [] fleet.

(** ** Facts: the fleet table *)
Definition fleet_ok (l : list pod_row) : Prop := NoDup (pr_name <$> l) ∧ ∀ r, r ∈ l → 0 <= pr_restarts r.

Lemma is_pod_true name r : is_pod name r = true ↔ pr_name r = name.
Proof. apply bool_decide_eq_true. Qed.

Section rows.
Variables (name : string) (upd : pod_row → pod_row) (new : pod_row).
Hypothesis upd_name : ∀ r, pr_name (upd r) = pr_name r.
Hypothesis new_name : pr_name new = name.

Lemma upsert_pod_names l :
  pr_name <$> upsert_pod name upd new l = (pr_name <$> l) ++ (if existsb (is_pod name) l then [] else [name]).
Proof.
  induction l as [|r l IH]; [by rewrite <- new_name|]. cbn [upsert_pod existsb]. destruct (is_pod name r); cbn [orb].
  - rewrite !fmap_cons, upd_name. by rewrite app_nil_r.
  - rewrite !fmap_cons, IH. done.
Qed.
Lemma upsert_pod_elem l r : r ∈ upsert_pod name upd new l → r ∈ l ∨ r = new ∨ ∃ q, q ∈ l ∧ pr_name q = name ∧ r = upd q.
Proof.
  induction l as [|q l IH]; cbn [upsert_pod]; [set_solver|].
  destruct (is_pod name q) eqn:E; [apply is_pod_true in E|]; set_solver.
Qed.
Lemma upsert_pod_ok l : 0 <= pr_restarts new → (∀ r, 0 <= pr_restarts r → 0 <= pr_restarts (upd r)) →
  fleet_ok l → fleet_ok (upsert_pod name upd new l).
Proof.
  intros Hnew Hupd [Hn Hr]. split.
  - rewrite upsert_pod_names. destruct (existsb (is_pod name) l) eqn:E; [by rewrite app_nil_r|].
    apply NoDup_app. split_and!; [done| |apply NoDup_singleton]. intros x (r & -> & Hin)%list_elem_of_fmap Hx%list_elem_of_singleton.
    apply not_true_iff_false in E. apply E, List.existsb_exists. exists r. split; [by apply list_elem_of_In|by apply is_pod_true].
  - intros r [?|[->|(q & Hq & _ & ->)]]%upsert_pod_elem; auto.
Qed.
(** The row of the pod afterwards: the new one, or its own updated. *)
Lemma upsert_pod_row l :
  ∃ r, r ∈ upsert_pod name upd new l ∧ (r = new ∨ ∃ q, q ∈ l ∧ pr_name q = name ∧ r = upd q).
Proof.
  clear upd_name new_name. induction l as [|q l IH]; cbn [upsert_pod]; [exists new; set_solver|].
  destruct (is_pod name q) eqn:E; [apply is_pod_true in E; exists (upd q); set_solver|].
  destruct IH as (r & Hr & H). exists r. set_solver.
Qed.
End rows.

Lemma beaten_fmap_ok t i g l :
  fleet_ok l → fleet_ok ((λ r, if is_pod (id_pod_name i) r then beaten t i g r else r) <$> l).
Proof.
  intros [Hn Hr]. split.
  - rewrite <- list_fmap_compose. erewrite list_fmap_ext; [exact Hn|]. intros j r _. cbn. by destruct (is_pod _ r).
  - intros r (q & -> & Hq)%list_elem_of_fmap. destruct (is_pod _ q); cbn; auto.
Qed.
Lemma filter_fleet_ok (P : pod_row → Prop) `{∀ r, Decision (P r)} l : fleet_ok l → fleet_ok (filter P l).
Proof.
  intros [Hn Hr]. split; [|intros r [_ Hin]%list_elem_of_filter; auto].
  apply (sublist_NoDup _ _ Hn), fmap_sublist, sublist_filter.
Qed.

(** ** Facts: the loop *)
Section loop.
Variable decrypt : string → string → option string.
Variables (me : pod_id) (role : option string).

(** The port the pod reports can be read from its environment. *)
Definition port_ok (st : process) : Prop := is_Some (py_int (str_or (getenv "DM_PORT" "3001" (p_env st)) "3001")).
(** What the loop maintains: the pod is never ahead of the database, and when it
    has the generation of the database it shows its rows. *)
Definition in_sync (n : node) : Prop :=
  fleet_ok (n_fleet n) ∧ port_ok (n_proc n) ∧
  ∃ g, db_gen (n_db n) = Some g ∧ p_applied (n_proc n) ≤ g ∧
    (p_applied (n_proc n) = g → p_ready (n_proc n) = true ∧ showing decrypt (db_rows (n_db n)) (n_proc n)).
(** What the others do between two turns: an administrator that changes the
    overrides takes a new generation; the other pods keep the table well formed. *)
Definition others (w : node → node) : Prop :=
  ∀ n g, db_gen (n_db n) = Some g →
    n_proc (w n) = n_proc n ∧ (fleet_ok (n_fleet n) → fleet_ok (n_fleet (w n))) ∧
    ((db_gen (n_db (w n)) = Some g ∧ db_rows (n_db (w n)) = db_rows (n_db n)) ∨
     ∃ g', db_gen (n_db (w n)) = Some g' ∧ g < g').

Lemma others_in_sync w n : others w → in_sync n → in_sync (w n).
Proof.
  intros Hw (Hf & Hp & g & Hg & Hle & Hs). destruct (Hw n g Hg) as (Hproc & Hfl & [[Hg' Hr]|(g' & Hg' & Hlt)]).
  - split_and!; [auto|by rewrite Hproc|exists g; rewrite Hproc, Hg', Hr; done].
  - split_and!; [auto|by rewrite Hproc|exists g'; rewrite Hproc, Hg'; split_and!; [done|lia|lia]].
Qed.

Lemma port_not_editable : spec_of "DM_PORT" = None.
Proof. vm_compute. reflexivity. Qed.
#[local] Opaque EDITABLE_KEYS.
Lemma port_apply ov st : getenv "DM_PORT" "3001" (p_env (apply_state ov st)) = getenv "DM_PORT" "3001" (p_env st).
Proof. unfold getenv. rewrite apply_state_env. pose proof port_not_editable as H. unfold spec_of in H. by rewrite H. Qed.
Lemma port_reload db st : getenv "DM_PORT" "3001" (p_env (reload_overrides decrypt db st).2) = getenv "DM_PORT" "3001" (p_env st).
Proof.
  unfold reload_overrides, apply_rows. cbn [snd mark_applied p_env]. destruct (decode_rows _ _ _) as [ov meta].
  rewrite port_apply. cbn [p_env]. reflexivity.
Qed.
Lemma port_ok_same st st' : getenv "DM_PORT" "3001" (p_env st') = getenv "DM_PORT" "3001" (p_env st) → port_ok st → port_ok st'.
Proof. unfold port_ok. by intros ->. Qed.
Lemma identity_ok st : port_ok st → ∃ i, _pod_identity me role (p_env st) = Ok i ∧ id_pod_name i = hostname me ∧ id_pid i = pid me.
Proof. intros [z Hz]. unfold _pod_identity. rewrite Hz. eauto. Qed.

#[local] Instance query_maintains t st : Maintains in_sync (query t st).
Proof. unfold query. apply _. Qed.
Lemma set_fleet_in_sync n l : fleet_ok l → in_sync n → in_sync (set_fleet l n).
Proof. intros Hl (_ & H). by split. Qed.
Lemma reloaded_in_sync n : in_sync n → in_sync (set_proc (reload_overrides decrypt (n_db n) (n_proc n)).2 n).
Proof.
  intros (Hf & Hp & g & Hg & _). destruct (reload_showing decrypt (n_db n) (n_proc n) g Hg) as (H1 & H2 & H3).
  split_and!; [done|eapply port_ok_same; [apply port_reload|done]|]. exists g. split_and!; [done|cbn [set_proc n_proc]; by rewrite H1|done].
Qed.
#[local] Instance reload_maintains t : Maintains in_sync (reload decrypt t).
Proof. unfold reload. repeat apply maintains_bind; [apply _|intros ?; apply maintains_bind; [apply _|]]. intros _ n. apply reloaded_in_sync. Qed.

(** The state read at the start of a function is the one it runs in. *)
Lemma maintains_here {A} (k : node → SM node A) : (∀ n, in_sync n → in_sync (k n n).2) → Maintains in_sync (n ← gets id; k n).
Proof. intros H n Hn. rewrite bind_gets. by apply H. Qed.

Lemma upsert_in_sync t i g n :
  in_sync n → in_sync (set_fleet (upsert_pod (id_pod_name i) (restarted t i g) (new_row t i g) (n_fleet n)) n).
Proof.
  intros Hn. apply set_fleet_in_sync; [|done]. apply upsert_pod_ok; [done..|intros r Hr; cbn; lia|apply Hn].
Qed.
(** The two writes of a pod: they fail with the statement, or leave its row. *)
Section write.
Variables (t : turn) (n : node) (i : identity).
Hypothesis Hi : _pod_identity me role (p_env (n_proc n)) = Ok i.
Definition enrolled_fleet : list pod_row :=
  upsert_pod (id_pod_name i) (restarted t i (p_applied (n_proc n))) (new_row t i (p_applied (n_proc n))) (n_fleet n).
Definition heartbeat_fleet : list pod_row :=
  if existsb (is_pod (id_pod_name i)) (n_fleet n)
  then (λ r, if is_pod (id_pod_name i) r then beaten t i (p_applied (n_proc n)) r else r) <$> n_fleet n
  else enrolled_fleet.
Lemma pod_enroll_run :
  enroll me role t n = if tu_fails t WritePod then (Err (Exc "server closed the connection unexpectedly"), n) else (Ok (), set_fleet enrolled_fleet n).
Proof. unfold enroll. rewrite bind_gets. unfold id. rewrite Hi. unfold query. by destruct (tu_fails t WritePod). Qed.
Lemma pod_heartbeat_run :
  heartbeat me role t n = if tu_fails t WritePod then (Err (Exc "server closed the connection unexpectedly"), n) else (Ok (), set_fleet heartbeat_fleet n).
Proof.
  unfold heartbeat, heartbeat_fleet. rewrite bind_gets. unfold id. rewrite Hi. unfold query at 1.
  destruct (tu_fails t WritePod) eqn:Ht; [done|]. unfold mbind at 1 2, SM_bind at 1 2, lift, mret, SM_ret.
  destruct (existsb _ (n_fleet n)); [done|]. by rewrite pod_enroll_run, Ht.
Qed.
End write.

#[local] Instance enroll_maintains t : Maintains in_sync (enroll me role t).
Proof.
  intros n Hn. destruct (identity_ok (n_proc n)) as (i & Hi & _); [apply Hn|]. rewrite (pod_enroll_run _ _ _ Hi).
  destruct (tu_fails t WritePod); [done|]. by apply upsert_in_sync.
Qed.
#[local] Instance heartbeat_maintains t : Maintains in_sync (heartbeat me role t).
Proof.
  intros n Hn. destruct (identity_ok (n_proc n)) as (i & Hi & _); [apply Hn|]. rewrite (pod_heartbeat_run _ _ _ Hi).
  destruct (tu_fails t WritePod); [done|]. unfold heartbeat_fleet. destruct (existsb _ _); [|by apply upsert_in_sync].
  apply set_fleet_in_sync; [apply beaten_fmap_ok, Hn|done].
Qed.
#[local] Instance reap_maintains t : Maintains in_sync (reap_stale_pods t).
Proof.
  apply maintains_here. intros n Hn. unfold query. destruct (tu_fails t ReapPods); [done|]. cbn.
  apply set_fleet_in_sync; [apply filter_fleet_ok, Hn|done].
Qed.
#[local] Instance turn_maintains t lp : Maintains in_sync (turn_body decrypt me role t lp).
Proof.
  unfold turn_body. destruct (tu_conn t); [apply _..|].
  apply maintains_bind; [apply _|]. intros _ n Hn. rewrite bind_gets. unfold id.
  revert n Hn. cut (∀ n0, Maintains in_sync ((match db_gen (n_db n0) with
       | Some gen => if gen =? p_applied (n_proc n0) then mret () else reload decrypt t
       | None => mret () end);; (if lp_enrolled lp then heartbeat me role t else enroll me role t);;
      (if reaper_role role && (60 <? tu_monotonic t - lp_last_reap lp)
       then reap_stale_pods t;; mret (Loop true (tu_monotonic t)) else mret (Loop true (lp_last_reap lp))))).
  { intros H n Hn. by apply H. }
  intros n0. destruct (db_gen (n_db n0)); apply _.
Qed.
#[local] Instance sync_turn_maintains t lp : Maintains in_sync (sync_turn decrypt me role t lp).
Proof. unfold sync_turn. apply _. Qed.

Lemma sync_turn_total t lp n : ∃ lp' n', sync_turn decrypt me role t lp n = (Ok lp', n').
Proof. unfold sync_turn, catch. destruct (turn_body _ _ _ _ _ n) as [[lp'|x] n']; unfold mret, SM_ret; eauto. Qed.

(** The loop survives every failure, and keeps the pod in sync. *)
Lemma sync_turns_total ts lp n : Forall (λ tw, others tw.2) ts → in_sync n →
  ∃ lp' n', sync_turns decrypt me role ts lp n = (Ok lp', n') ∧ in_sync n'.
Proof.
  revert lp n. induction ts as [|[t w] ts IH]; intros lp n Hw Hn; [unfold sync_turns, mret, SM_ret; eauto|].
  apply Forall_cons in Hw as [Hw Hws]. cbn [sync_turns]. rewrite bind_modify.
  destruct (sync_turn_total t lp (w n)) as (lp' & n' & E). rewrite (bind_step _ _ _ _ _ E). apply IH; [done|].
  eapply maintains_run; [apply sync_turn_maintains|exact E|by apply others_in_sync].
Qed.
Lemma sync_turns_app ts1 ts2 lp n :
  sync_turns decrypt me role (ts1 ++ ts2) lp n = (lp' ← sync_turns decrypt me role ts1 lp; sync_turns decrypt me role ts2 lp') n.
Proof.
  revert lp n. induction ts1 as [|[t w] ts1 IH]; intros lp n; [done|]. cbn [app sync_turns]. rewrite bind_modify.
  unfold mbind, SM_bind, modify. destruct (sync_turn decrypt me role t lp (w n)) as [[lp'|x] n']; [|done].
  rewrite IH. done.
Qed.

(** *** A turn that meets no failure *)
Section quiet.
Variable t : turn.
Hypothesis Hup : tu_conn t = DbUp.
Hypothesis Hquiet : ∀ st, tu_fails t st = false.
Definition refreshed (n : node) : node :=
  if bool_decide (db_gen (n_db n) = Some (p_applied (n_proc n))) then n
  else set_proc (reload_overrides decrypt (n_db n) (n_proc n)).2 n.

Lemma refreshed_in_sync n : in_sync n → let n' := refreshed n in
  in_sync n' ∧ n_db n' = n_db n ∧ db_gen (n_db n) = Some (p_applied (n_proc n')).
Proof.
  intros Hn. cbv zeta. unfold refreshed. case_bool_decide as Hg; [done|]. split; [by apply reloaded_in_sync|].
  destruct Hn as (_ & _ & g & Hg' & _). split; [done|]. rewrite Hg'. f_equal. symmetry.
  exact (proj1 (reload_showing decrypt (n_db n) (n_proc n) g Hg')).
Qed.
Lemma query_quiet st : query t st = mret ().
Proof. unfold query. by rewrite Hquiet. Qed.
Lemma refresh_run n : in_sync n →
  (match db_gen (n_db n) with
   | Some gen => if gen =? p_applied (n_proc n) then mret () else reload decrypt t
   | None => mret () end) n = (Ok (), refreshed n).
Proof.
  intros (_ & _ & g & Hg & _). unfold refreshed. rewrite Hg. destruct (Z.eqb_spec g (p_applied (n_proc n))) as [->|Hne].
  - by rewrite bool_decide_eq_true_2.
  - rewrite bool_decide_eq_false_2 by naive_solver. unfold reload. by rewrite !query_quiet.
Qed.

Definition reports (now g : Z) (r : pod_row) : Prop := pr_name r = hostname me ∧ pr_applied r = g ∧ pr_heartbeat r = now.
Lemma write_run n (b : bool) : in_sync n →
  ∃ l, (if b then heartbeat me role t else enroll me role t) n = (Ok (), set_fleet l n) ∧
       Exists (reports (tu_now t) (p_applied (n_proc n))) l.
Proof.
  intros Hn. destruct (identity_ok (n_proc n)) as (i & Hi & Hname & _); [apply Hn|].
  assert (He : Exists (reports (tu_now t) (p_applied (n_proc n))) (enrolled_fleet t n i)).
  { apply Exists_exists. destruct (upsert_pod_row (id_pod_name i) (restarted t i (p_applied (n_proc n))) (new_row t i (p_applied (n_proc n))) (n_fleet n)) as (r & Hr & H).
    exists r. split; [exact Hr|]. unfold reports. rewrite <- Hname. destruct H as [->|(q & _ & Hq & ->)]; [done|]. by rewrite <- Hq. }
  destruct b.
  - exists (heartbeat_fleet t n i). rewrite (pod_heartbeat_run _ _ _ Hi), Hquiet. split; [done|]. unfold heartbeat_fleet.
    destruct (existsb _ _) eqn:Eb; [|done]. apply List.existsb_exists in Eb as (r & Hr & Hp). apply Exists_exists.
    exists (beaten t i (p_applied (n_proc n)) r). split.
    + apply list_elem_of_fmap. exists r. rewrite Hp. split; [done|by apply list_elem_of_In].
    + apply is_pod_true in Hp. unfold reports. cbn. by rewrite <- Hname.
  - exists (enrolled_fleet t n i). by rewrite (pod_enroll_run _ _ _ Hi), Hquiet.
Qed.

Lemma fresh_now now ttl r : 0 <= ttl → pr_heartbeat r = now → fresh_pod now ttl r = true.
Proof. intros Ht Hr. unfold fresh_pod. apply Z.leb_le. lia. Qed.
Lemma ttl_min env : 60 <= _pod_ttl_seconds env.
Proof. unfold _pod_ttl_seconds. destruct (py_int _); lia. Qed.

(** The body of a turn without failures, from its parts. *)
Lemma quiet_body lp n : in_sync n →
  ∃ lp' l, turn_body decrypt me role t lp n = (Ok lp', set_fleet l (refreshed n)) ∧
    Exists (reports (tu_now t) (p_applied (n_proc (refreshed n)))) l.
Proof.
  intros Hn. destruct (refreshed_in_sync n Hn) as (Hn' & _).
  destruct (write_run (refreshed n) (lp_enrolled lp) Hn') as (l & Hl & Hex).
  unfold turn_body. rewrite Hup, query_quiet. rewrite (bind_step _ _ n () n) by done. rewrite bind_gets. unfold id.
  rewrite (bind_step _ _ n _ _ (refresh_run n Hn)), (bind_step _ _ _ _ _ Hl).
  destruct (reaper_role role && _); [|unfold mret, SM_ret; eauto].
  unfold reap_stale_pods. rewrite query_quiet. exists (Loop true (tu_monotonic t)). eexists. split; [reflexivity|].
  apply Exists_exists in Hex as (r & Hr & Hrep). apply Exists_exists. exists r. split; [|done].
  apply list_elem_of_filter. split; [|done]. destruct Hrep as (_ & _ & Hb). apply fresh_now; [|done].
  etransitivity; [|apply ttl_min]. lia.
Qed.
End quiet.
End loop.

Lemma snapshot_go_rest keys st : let st' := (snapshot_go keys st).1 in
  p_env st' = p_env st ∧ p_applied st' = p_applied st.
Proof.
  revert st. induction keys as [|spec keys IH]; intros st; [done|]. cbn [snapshot_go].
  destruct (baseline_of spec st) as [v|]; [|done]. exact (IH (set_baseline _ _ st)).
Qed.
Lemma snapshot_rest force st : let st' := (snapshot_baseline force st).1 in
  p_env st' = p_env st ∧ p_applied st' = p_applied st.
Proof. unfold snapshot_baseline. destruct (_ && _); [done|]. apply snapshot_go_rest. Qed.

(** A process that has not loaded the current generation starts in sync. *)
Lemma start_in_sync decrypt force n g :
  fleet_ok (n_fleet n) → port_ok (n_proc n) → db_gen (n_db n) = Some g → p_applied (n_proc n) < g →
  in_sync decrypt (set_proc (snapshot_baseline force (n_proc n)).1 n).
Proof.
  intros Hf Hp Hg Ha. destruct (snapshot_rest force (n_proc n)) as [He Hap]. split_and!; [done| |].
  - eapply port_ok_same; [|exact Hp]. cbn [set_proc n_proc]. by rewrite He.
  - exists g. cbn [set_proc n_proc n_db]. rewrite Hap. split_and!; [done|lia|lia].
Qed.

Module FleetDemo.
Definition me : pod_id := PodId "pod-1" 7.
Definition hl : health := Health None None None None 0.
Definition quiet (now : Z) : turn := Turn now now DbUp (λ _, false) hl.
Definition broken (now : Z) : turn := Turn now now DbUp (λ s, match s with ReadGeneration => true | _ => false end) hl.
Definition start : node := Node (RtDemo.db 1 "a") [] RtDemo.proc.
(** An administrator writes another value. *)
Definition edit (n : node) : node := Node (ConfigDb (Some (default 0 (db_gen (n_db n)) + 1)) [RtDemo.row "b"] (db_audit (n_db n))) (n_fleet n) (n_proc n).
End FleetDemo.

(** C23. A pod follows the database. However the turns of its loop fail, and whatever
    administrators and the other pods commit between them, the loop survives, and
    one turn without failure leaves the pod with the current generation, showing
    the overrides of the database over its baseline, ready, its request gate
    open, and with its row of the fleet reporting this generation at the time of
    the turn; the fleet keeps one row for each pod. *)
Theorem sync_converges decrypt me role ts t w n0 g0 :
  fleet_ok (n_fleet n0) → port_ok (n_proc n0) → db_gen (n_db n0) = Some g0 → p_applied (n_proc n0) < g0 →
  (snapshot_baseline false (n_proc n0)).2 = true → Forall (λ tw, others tw.2) ts → others w →
  tu_conn t = DbUp → (∀ st, tu_fails t st = false) →
  ∃ lp n g, run_config_sync_loop decrypt me role (ts ++ [(t, w)]) n0 = (Ok lp, n) ∧
    db_gen (n_db n) = Some g ∧ p_applied (n_proc n) = g ∧ showing decrypt (db_rows (n_db n)) (n_proc n) ∧
    p_ready (n_proc n) = true ∧ readyz (n_proc n) = (200, Some g) ∧
    Exists (reports me (tu_now t) g) (n_fleet n) ∧ fleet_ok (n_fleet n).
Proof.
  intros Hf Hp Hg Ha Hsnap Hts Hw Hup Hq. unfold run_config_sync_loop. rewrite bind_gets. unfold id.
  pose proof (start_in_sync decrypt false n0 g0 Hf Hp Hg Ha) as Hs.
  destruct (snapshot_baseline false (n_proc n0)) as [st ok]. cbn [fst snd] in *. subst ok. rewrite bind_modify.
  rewrite sync_turns_app. destruct (sync_turns_total decrypt me role ts (Loop false 0) _ Hts Hs) as (lp1 & n1 & E & Hn1).
  rewrite (bind_step _ _ _ _ _ E). cbn [sync_turns]. rewrite bind_modify.
  pose proof (others_in_sync decrypt w n1 Hw Hn1) as Hn2. destruct (quiet_body decrypt me role t Hup Hq lp1 (w n1) Hn2) as (lp' & l & Eb & Hex).
  destruct (refreshed_in_sync decrypt (w n1) Hn2) as ((_ & _ & g & Hg2 & _ & Hshow) & Hdb & Hap).
  pose proof (maintains_run (in_sync decrypt) _ (Hm := turn_maintains decrypt me role t lp1) _ _ _ Eb Hn2) as (Hfl & _).
  rewrite Hdb, Hap in Hg2. injection Hg2 as Hg2. destruct (Hshow Hg2) as [Hr Hsh].
  unfold sync_turn, catch. unfold mbind, SM_bind. rewrite Eb. unfold mret, SM_ret. exists lp'. eexists. exists g. split; [reflexivity|].
  cbn [set_fleet n_db n_proc n_fleet]. rewrite Hdb in *. rewrite <- Hg2. split_and!; [done|done|done|done| |done|done].
  unfold readyz, should_gate_requests. by rewrite Hr, andb_false_r.
Qed.
Lemma edit_others : others FleetDemo.edit.
Proof. intros n g Hg. split_and!; [done|done|]. right. cbn. rewrite Hg. eexists. split; [done|]. cbn. lia. Qed.
Lemma id_others : others id.
Proof. intros n g Hg. split_and!; [done|done|by left]. Qed.
Lemma sync_converges_witness :
  ∃ lp n g, run_config_sync_loop (λ _ _, None) FleetDemo.me None
      ([(FleetDemo.quiet 100, id); (FleetDemo.broken 103, FleetDemo.edit)] ++ [(FleetDemo.quiet 106, id)]) FleetDemo.start = (Ok lp, n) ∧
    db_gen (n_db n) = Some g ∧ p_applied (n_proc n) = g ∧ showing (λ _ _, None) (db_rows (n_db n)) (n_proc n) ∧
    p_ready (n_proc n) = true ∧ readyz (n_proc n) = (200, Some g) ∧
    Exists (reports FleetDemo.me 106 g) (n_fleet n) ∧ fleet_ok (n_fleet n).
Proof.
  apply (sync_converges (λ _ _, None) FleetDemo.me None _ (FleetDemo.quiet 106) id FleetDemo.start 1); try done.
  - split; [constructor|]. intros r Hr. by apply not_elem_of_nil in Hr.
  - by exists 3001.
  - apply Forall_cons. split; [apply id_others|]. apply Forall_cons. split; [apply edit_others|constructor].
  - apply id_others.
Defined.

(** The row of a pod counts the failures of its turns: after one turn that fails
    the next registers the pod again, so that its restart count grows and its
    start time moves although the process, whose identifier is unchanged, did not
    restart. *)
Theorem failure_counts_as_restart decrypt me role t t' lp n i r :
  tu_conn t = DbDown → tu_conn t' = DbUp → (∀ st, tu_fails t' st = false) →
  db_gen (n_db n) = Some (p_applied (n_proc n)) → _pod_identity me role (p_env (n_proc n)) = Ok i →
  n_fleet n = [r] → pr_name r = hostname me → pr_pid r = pid me →
  reaper_role role = false →
  (lp' ← sync_turn decrypt me role t lp; sync_turn decrypt me role t' lp') n =
    (Ok (Loop true (lp_last_reap lp)), set_fleet [restarted t' i (p_applied (n_proc n)) r] n) ∧
  pr_restarts (restarted t' i (p_applied (n_proc n)) r) = pr_restarts r + 1 ∧
  pr_started (restarted t' i (p_applied (n_proc n)) r) = tu_now t' ∧ pr_pid (restarted t' i (p_applied (n_proc n)) r) = pr_pid r.
Proof.
  intros Hdown Hup Hq Hg Hi Hrow Hname Hpid Hrole. assert (Hin : id_pod_name i = hostname me ∧ id_pid i = pid me).
  { unfold _pod_identity in Hi. destruct (py_int _); [|done]. by injection Hi as <-. } destruct Hin as [Hin Hip].
  split; [|cbn; by rewrite Hip]. assert (Hfail : sync_turn decrypt me role t lp n = (Ok (Loop false (lp_last_reap lp)), n)).
  { unfold sync_turn, turn_body. by rewrite Hdown. }
  rewrite (bind_step _ _ _ _ _ Hfail). unfold sync_turn, turn_body. rewrite Hup. unfold catch. rewrite query_quiet by done.
  rewrite (bind_step _ _ n () n) by done. rewrite bind_gets. unfold id. rewrite Hg, Z.eqb_refl.
  rewrite (bind_step _ _ n () n) by done. cbn [lp_enrolled lp_last_reap]. rewrite (bind_step _ _ _ () (set_fleet [restarted t' i (p_applied (n_proc n)) r] n)).
  - by rewrite Hrole.
  - rewrite (pod_enroll_run _ _ _ _ _ Hi), Hq. unfold enrolled_fleet. rewrite Hrow. cbn [upsert_pod]. unfold is_pod.
    by rewrite bool_decide_eq_true_2 by (by rewrite Hname).
Qed.
