(* ===== verification/AdminDb.v ===== *)
(** * Administration database
    The tables that the administration pages write, the constraints of
    [src/db/schema.sql] and the transactions in which the handlers of
    [app/admin/router.py] run. The database checks its constraints at the end of
    each statement; a statement that it refuses aborts the transaction, and every
    later statement raises until the rollback, even when the handler passes over
    the first exception. [COMMIT] of an aborted transaction rolls back. A text with a
    NUL character, which the driver refuses, is left out. *)
From S2P Require Import Prelude Text Json Effects Campaigns Config Cohorts Flags GetConfig Catalog AuditLog.
From Stdlib Require Import Ascii String.
Open Scope Z_scope.

(** ** Tables *)
Record env_row : Type := EnvRow { ev_id : Z; ev_row : env_override; ev_secret : bool }.
Record wait_row : Type := WaitRow { wr_id : Z; wr_row : waitlist_row; wr_by : option string; wr_at : option Z }.
Record comm_row : Type := CommRow {
  cn_id : Z; cn_type : string; cn_title : string; cn_body : string; cn_priority : string;
  cn_plugin : option Z; cn_cohort : option Z; cn_starts : option Z; cn_expires : option Z;
  cn_question : option string; cn_choices : option (list string); cn_multiple : bool; cn_comment : bool;
  cn_status : string; cn_by : option string; cn_updated : Z }.
Record response_row : Type := ResponseRow {
  rp_comm : Z; rp_client : string; rp_email : string; rp_choices : json; rp_comment : string; rp_at : Z }.
Record kc_client : Type := KcClient {
  kc_id : Z; kc_client_id : string; kc_realm : string; kc_description : string; kc_type : string;
  kc_uris : list string; kc_origins : list string; kc_pkce : bool; kc_direct : bool }.

Record adb : Type := Adb {
  d_cat : catalog; d_camps : Life.state; d_statuses : list Status.row; d_cohorts : Service.state; d_flags : flag_state;
  d_env : list env_row; d_wait : list wait_row; d_installs : list installation;
  d_comms : list comm_row; d_acks : list (Z * string); d_responses : list response_row;
  d_kc : list kc_client; d_links : list (Z * Z * string); d_audit : list audit_row; d_next : Z }.
(** [d_next]: the next value of the sequences of [plugins], [plugin_env_overrides],
    [communications] and [keycloak_clients], drawn from one counter. *)
Definition set_cat x d := Adb x (d_camps d) (d_statuses d) (d_cohorts d) (d_flags d) (d_env d) (d_wait d) (d_installs d) (d_comms d) (d_acks d) (d_responses d) (d_kc d) (d_links d) (d_audit d) (d_next d).
Definition set_camps x d := Adb (d_cat d) x (d_statuses d) (d_cohorts d) (d_flags d) (d_env d) (d_wait d) (d_installs d) (d_comms d) (d_acks d) (d_responses d) (d_kc d) (d_links d) (d_audit d) (d_next d).
Definition set_statuses x d := Adb (d_cat d) (d_camps d) x (d_cohorts d) (d_flags d) (d_env d) (d_wait d) (d_installs d) (d_comms d) (d_acks d) (d_responses d) (d_kc d) (d_links d) (d_audit d) (d_next d).
Definition set_cohorts x d := Adb (d_cat d) (d_camps d) (d_statuses d) x (d_flags d) (d_env d) (d_wait d) (d_installs d) (d_comms d) (d_acks d) (d_responses d) (d_kc d) (d_links d) (d_audit d) (d_next d).
Definition set_flags x d := Adb (d_cat d) (d_camps d) (d_statuses d) (d_cohorts d) x (d_env d) (d_wait d) (d_installs d) (d_comms d) (d_acks d) (d_responses d) (d_kc d) (d_links d) (d_audit d) (d_next d).
Definition set_env x d := Adb (d_cat d) (d_camps d) (d_statuses d) (d_cohorts d) (d_flags d) x (d_wait d) (d_installs d) (d_comms d) (d_acks d) (d_responses d) (d_kc d) (d_links d) (d_audit d) (d_next d).
Definition set_wait x d := Adb (d_cat d) (d_camps d) (d_statuses d) (d_cohorts d) (d_flags d) (d_env d) x (d_installs d) (d_comms d) (d_acks d) (d_responses d) (d_kc d) (d_links d) (d_audit d) (d_next d).
Definition set_installs x d := Adb (d_cat d) (d_camps d) (d_statuses d) (d_cohorts d) (d_flags d) (d_env d) (d_wait d) x (d_comms d) (d_acks d) (d_responses d) (d_kc d) (d_links d) (d_audit d) (d_next d).
Definition set_comms x d := Adb (d_cat d) (d_camps d) (d_statuses d) (d_cohorts d) (d_flags d) (d_env d) (d_wait d) (d_installs d) x (d_acks d) (d_responses d) (d_kc d) (d_links d) (d_audit d) (d_next d).
Definition set_acks x d := Adb (d_cat d) (d_camps d) (d_statuses d) (d_cohorts d) (d_flags d) (d_env d) (d_wait d) (d_installs d) (d_comms d) x (d_responses d) (d_kc d) (d_links d) (d_audit d) (d_next d).
Definition set_responses x d := Adb (d_cat d) (d_camps d) (d_statuses d) (d_cohorts d) (d_flags d) (d_env d) (d_wait d) (d_installs d) (d_comms d) (d_acks d) x (d_kc d) (d_links d) (d_audit d) (d_next d).
Definition set_kc x d := Adb (d_cat d) (d_camps d) (d_statuses d) (d_cohorts d) (d_flags d) (d_env d) (d_wait d) (d_installs d) (d_comms d) (d_acks d) (d_responses d) x (d_links d) (d_audit d) (d_next d).
Definition set_links x d := Adb (d_cat d) (d_camps d) (d_statuses d) (d_cohorts d) (d_flags d) (d_env d) (d_wait d) (d_installs d) (d_comms d) (d_acks d) (d_responses d) (d_kc d) x (d_audit d) (d_next d).
Definition set_audit x d := Adb (d_cat d) (d_camps d) (d_statuses d) (d_cohorts d) (d_flags d) (d_env d) (d_wait d) (d_installs d) (d_comms d) (d_acks d) (d_responses d) (d_kc d) (d_links d) x (d_next d).
Definition set_next x d := Adb (d_cat d) (d_camps d) (d_statuses d) (d_cohorts d) (d_flags d) (d_env d) (d_wait d) (d_installs d) (d_comms d) (d_acks d) (d_responses d) (d_kc d) (d_links d) (d_audit d) x.

(** ** Constraints *)
Inductive tbl : Type := TPlugin | TArtifact | TVersion | TCohort | TCampaign | TFlag | TComm | TClient.
Definition keys (d : adb) (t : tbl) : list Z :=
  match t with
  | TPlugin => p_id <$> ct_plugins (d_cat d) | TArtifact => a_id <$> ct_artifacts (d_cat d)
  | TVersion => vr_id <$> ct_versions (d_cat d) | TCohort => co_id <$> Service.st_cohorts (d_cohorts d)
  | TCampaign => cp_id <$> Life.st_rows (d_camps d) | TFlag => ff_id <$> fs_flags (d_flags d)
  | TComm => cn_id <$> d_comms d | TClient => kc_id <$> d_kc d
  end.
(** A nullable reference. *)
Definition opt_ref (t : tbl) (i : option Z) : list (tbl * Z) := match i with Some i => [(t, i)] | None => [] end.
(** The columns declared [REFERENCES]. *)
Definition refs_of_campaign (c : campaign_row) : list (tbl * Z) :=
  opt_ref TPlugin (cp_plugin c) ++ opt_ref TVersion (cp_version c) ++ opt_ref TCohort (cp_target_cohort c) ++
  opt_ref TArtifact (cp_artifact c) ++ opt_ref TArtifact (cp_rollback c).
Definition refs_of_version (v : version_row) : list (tbl * Z) := (TPlugin, vr_plugin v) :: opt_ref TArtifact (vr_artifact v).
Definition refs_of_variant (v : variant_row) : list (tbl * Z) := [(TVersion, va_version v); (TArtifact, va_artifact v)].
Definition refs_of_comm (c : comm_row) : list (tbl * Z) := opt_ref TPlugin (cn_plugin c) ++ opt_ref TCohort (cn_cohort c).
Definition refs (d : adb) : list (tbl * Z) :=
  ((λ a : string * Z, (TPlugin, a.2)) <$> ct_aliases (d_cat d)) ++
  ((λ e, (TPlugin, eo_plugin (ev_row e))) <$> d_env d) ++ ((λ w, (TPlugin, wl_plugin (wr_row w))) <$> d_wait d) ++
  ((λ i, (TPlugin, in_plugin i)) <$> d_installs d) ++
  (ct_versions (d_cat d) ≫= refs_of_version) ++ (ct_variants (d_cat d) ≫= refs_of_variant) ++
  (Life.st_rows (d_camps d) ≫= refs_of_campaign) ++ ((λ s, (TCampaign, Status.ds_campaign s)) <$> d_statuses d) ++
  ((λ m, (TCohort, cm_cohort m)) <$> Service.st_members (d_cohorts d)) ++
  (fs_overrides (d_flags d) ≫= λ o, [(TFlag, fo_feature o); (TCohort, fo_cohort o)]) ++
  (d_comms d ≫= refs_of_comm) ++ ((λ a : Z * string, (TComm, a.1)) <$> d_acks d) ++ ((λ r, (TComm, rp_comm r)) <$> d_responses d) ++
  (d_links d ≫= λ l, [(TPlugin, l.1.1); (TClient, l.1.2)]).
Definition references_ok (d : adb) : bool := forallb (λ r : tbl * Z, bool_decide (r.2 ∈ keys d r.1)) (refs d).

(** The unique keys of the tables written here. *)
Definition live (p : plugin) : bool := negb (bool_decide (pl_status (pg_row p) = "removed")).
Definition live_slugs (d : adb) : list string := (λ p, pl_slug (pg_row p)) <$> filter (λ p, live p = true) (ct_plugins (d_cat d)).
Definition env_key (e : env_row) : Z * string * string := (eo_plugin (ev_row e), eo_environment (ev_row e), eo_key (ev_row e)).
Definition unique_ok (d : adb) : bool :=
  bool_decide (NoDup (live_slugs d)) && bool_decide (NoDup (ct_aliases (d_cat d)).*1) && bool_decide (NoDup (env_key <$> d_env d)) &&
  bool_decide (NoDup (co_name <$> Service.st_cohorts (d_cohorts d))) && bool_decide (NoDup (kc_client_id <$> d_kc d)).

(** The [CHECK] clauses and the lengths of the columns written here. *)
Definition plugin_statuses : list string := ["draft"; "active"; "deprecated"; "removed"].
Definition visibilities : list string := ["public"; "internal"; "hidden"].
Definition plugin_fits (p : plugin) : bool :=
  let r := pg_row p in let i := pg_info p in
  fits 100 (pl_slug r) && fits 200 (pg_name p) && fits 50 (pl_device_type r) && fits 100 (pi_category i) && fits 100 (pi_license i) &&
  fits 200 (pi_publisher i) && bool_decide (pi_visibility i ∈ visibilities) && bool_decide (pl_status r ∈ plugin_statuses).
Definition campaign_types : list string := ["plugin_update"; "config_patch"; "feature_set"].
Definition campaign_statuses : list string := ["draft"; "active"; "paused"; "completed"; "rolled_back"].
Definition campaign_fits (c : campaign_row) : bool :=
  fits 200 (cp_name c) && fits_opt 255 (cp_created_by c) && bool_decide (cp_type c ∈ campaign_types) && bool_decide (cp_status c ∈ campaign_statuses) &&
  match cp_urgency c with Some u => bool_decide (u ∈ ["low"; "normal"; "critical"]) | None => true end.
Definition comm_fits (c : comm_row) : bool :=
  bool_decide (cn_type c ∈ ["announcement"; "alert"; "survey"; "changelog"]) && fits 300 (cn_title c) && fits_opt 255 (cn_by c) &&
  bool_decide (cn_priority c ∈ ["low"; "normal"; "high"; "critical"]) &&
  bool_decide (cn_status c ∈ ["draft"; "active"; "paused"; "completed"; "expired"]).
Definition checks_ok (d : adb) : bool :=
  forallb plugin_fits (ct_plugins (d_cat d)) && forallb campaign_fits (Life.st_rows (d_camps d)) && forallb comm_fits (d_comms d) &&
  forallb (λ a : string * Z, fits 100 a.1) (ct_aliases (d_cat d)) &&
  forallb (λ e, fits 50 (eo_environment (ev_row e)) && fits 200 (eo_key (ev_row e))) (d_env d) &&
  forallb (λ w, fits_opt 255 (wr_by w)) (d_wait d) &&
  forallb (λ c, fits 100 (co_name c)) (Service.st_cohorts (d_cohorts d)) &&
  forallb (λ m, fits 255 (cm_value m)) (Service.st_members (d_cohorts d)) &&
  forallb (λ o, fits_opt 50 (fo_min o)) (fs_overrides (d_flags d)) &&
  forallb (λ f, fits 100 (ff_name f) && fits 100 (ff_slug f) && fits_opt 50 (ff_min f)) (fs_flags (d_flags d)) &&
  forallb (λ k, fits 200 (kc_client_id k) && fits 100 (kc_realm k) && bool_decide (kc_type k ∈ ["public"; "confidential"])) (d_kc d) &&
  forallb (λ l : Z * Z * string, fits 50 l.2) (d_links d).
Definition constraints (d : adb) : bool := references_ok d && unique_ok d && checks_ok d.

(** ** Transactions *)
Record tx : Type := Tx { t_db : adb; t_aborted : bool }.
Definition aborted_error : exc := Exc "current transaction is aborted, commands ignored until end of transaction block".
Definition violation : exc := Exc "constraint violation".
(** One statement. *)
Definition stmt {A} (m : SM adb A) : SM tx A := λ t,
  if t_aborted t then (Err aborted_error, t)
  else match m (t_db t) with
       | (Ok a, d) => if constraints d then (Ok a, Tx d false) else (Err violation, Tx (t_db t) true)
       | (Err e, _) => (Err e, Tx (t_db t) true)
       end.
(** The handler's [try]: [commit] at its end, [rollback] on an exception. *)
Definition transaction {A} (m : SM tx A) : SM adb A := λ d,
  match m (Tx d false) with
  | (Ok a, t) => (Ok a, if t_aborted t then d else t_db t)
  | (Err e, _) => (Err e, d)
  end.
(** [raise HTTPException(400, str(e)) from e] *)
Definition or_400 {A} (m : SM adb A) : SM adb A := catch m (λ e, raise (Http (HttpError 400 (exc_text e)))).
(** [except HTTPException: raise] before it *)
Definition or_400_keep {A} (m : SM adb A) : SM adb A :=
  catch m (λ e, match e with Http _ => raise e | Exc s => raise (Http (HttpError 400 s)) end).

(** Reads of the open transaction. *)
Definition select {A} (f : adb → A) : SM tx A := stmt (gets f).
Definition execute (f : adb → adb) : SM tx () := stmt (modify f).
Definition of_exn {A} (r : result exn A) : SM adb A := match r with Ok a => mret a | Err _ => raise violation end.
Definition on_cat {A} (m : SM catalog A) : SM adb A := zoom d_cat set_cat m.

(** ** Deletions *)
(** [ON DELETE CASCADE]; the other references are checked with the constraints. *)
Definition drop_versions (gone : version_row → bool) (d : adb) : adb :=
  let c := d_cat d in
  let ids := vr_id <$> filter (λ v, gone v = true) (ct_versions c) in
  set_cat (set_variants (filter (λ v, va_version v ∉ ids) (ct_variants c)) (ct_next_var c)
    (set_versions (filter (λ v, gone v = false) (ct_versions c)) (ct_next_ver c) c)) d.
Definition drop_artifacts (gone : art_row → bool) (d : adb) : adb :=
  let c := d_cat d in
  let ids := a_id <$> filter (λ a, gone a = true) (ct_artifacts c) in
  set_cat (set_variants (filter (λ v, va_artifact v ∉ ids) (ct_variants c)) (ct_next_var c)
    (set_artifacts (filter (λ a, gone a = false) (ct_artifacts c)) (ct_next_art c) c)) d.
Definition drop_campaigns (gone : campaign_row → bool) (d : adb) : adb :=
  let ids := cp_id <$> filter (λ c, gone c = true) (Life.st_rows (d_camps d)) in
  set_statuses (filter (λ s, Status.ds_campaign s ∉ ids) (d_statuses d))
    (set_camps (Life.State (filter (λ c, gone c = false) (Life.st_rows (d_camps d))) (Life.st_next (d_camps d))) d).
Definition drop_plugins (ids : list Z) (d : adb) : adb :=
  let d := drop_versions (λ v, bool_decide (vr_plugin v ∈ ids)) d in
  let c := d_cat d in
  let c := Catalog (filter (λ p, p_id p ∉ ids) (ct_plugins c)) (filter (λ a : string * Z, a.2 ∉ ids) (ct_aliases c)) (ct_artifacts c)
             (ct_versions c) (ct_variants c) (ct_next_art c) (ct_next_ver c) (ct_next_var c) in
  set_links (filter (λ l : Z * Z * string, l.1.1 ∉ ids) (d_links d)) (set_installs (filter (λ i, in_plugin i ∉ ids) (d_installs d))
    (set_wait (filter (λ w, wl_plugin (wr_row w) ∉ ids) (d_wait d)) (set_env (filter (λ e, eo_plugin (ev_row e) ∉ ids) (d_env d))
      (set_cat c d)))).
(** [DELETE FROM cohorts] with its members and its flag overrides. *)
Definition drop_cohort (i : Z) (d : adb) : adb :=
  set_flags (FlagState (fs_flags (d_flags d)) (filter (λ o, fo_cohort o ≠ i) (fs_overrides (d_flags d))) (fs_next (d_flags d)))
    (set_cohorts (Service.State (filter (λ c, co_id c ≠ i) (Service.st_cohorts (d_cohorts d)))
       (filter (λ m, cm_cohort m ≠ i) (Service.st_members (d_cohorts d))) (Service.st_next (d_cohorts d))) d).
