(* ===== verification/AdminRoutes.v ===== *)
(** * Administration routes
    The handlers of [app/admin/router.py] that change the database through a form,
    with the services they call ([services/catalog.py], [services/flags.py],
    [services/cohorts.py], [services/campaigns.py], [services/communications.py],
    [services/keycloak.py]). The guard [require_admin] ([AdminAuth]) has admitted
    the session; FastAPI has decoded the form. *)
From S2P Require Import Prelude Text Json Effects Campaigns Config Cohorts Flags GetConfig Catalog AuditLog AdminDb.
From Stdlib Require Import Ascii String.
Open Scope Z_scope.

(** What the database driver and the server do with a value: the literal that
    stands for a Python value ([None]: it has no adapter, which raises before
    anything is sent), the timestamp and the address that a text denotes. *)
Record driver : Type := Driver {
  dr_adapt : json → option string; dr_time : string → option Z; dr_iso : string → option string; dr_inet : string → bool }.
(** The session, the address of the peer and the clock of a request. *)
Record call : Type := Call { c_session : list (string * string); c_ip : option string; c_now : Z }.

Inductive answer : Type :=
| Redirect (url : string)
| Reply (status : Z) (body : list (string * json))
| Page (text : string).

(** [str.splitlines] on code points below 256 *)
Definition line_break (a : ascii) : bool := bool_decide (code a ∈ [10; 11; 12; 13; 28; 29; 30; 133]).
Fixpoint splitlines_go (cur : string) (s : string) : list string :=
  match s with
  | "" => if truthy_str cur then [cur] else []
  | String a r =>
      if line_break a then
        cur :: match r with
               | String b r' => if (code a =? 13) && (code b =? 10) then splitlines_go "" r' else splitlines_go "" r
               | "" => []
               end
      else splitlines_go (cur +:+ String a "") r
  end.
Definition splitlines : string → list string := splitlines_go "".
(** [[x.strip() for x in s.strip().splitlines() if x.strip()]] *)
Definition stripped_lines (s : string) : list string := filter (λ l, truthy_str l = true) (strip <$> splitlines (strip s)).

(** [os.path.splitext(p)[1]]: from the last dot of the file name, unless only dots
    come before it *)
Fixpoint ext_go (seen : bool) (acc : string) (s : string) : string :=
  match s with
  | "" => acc
  | String c r => if is_char "." c then ext_go seen (if seen then s else "") r else ext_go true acc r
  end.
Definition splitext_ext (p : string) : string := ext_go false "" (basename p).

Section routes.
Variables (drv : driver) (cl : call).

Definition actor : string * string := (default "unknown" (dget "email" (c_session cl)), default "unknown" (dget "sub" (c_session cl))).
(** [audit_log(cur, ...)] in the transaction *)
Definition audit (act rtype : string) (rid : option string) (payload : json) : SM tx () :=
  stmt (d ← gets id;
    zoom d_audit set_audit
      (audit_log (ct_plugins (d_cat d)) (fs_flags (d_flags d)) (dr_inet drv) (c_now cl) actor act rtype rid payload (c_ip cl) None None)).
Definition str_id (i : Z) : string := py_str_int i.
(** [int(x)] of a form field *)
Definition form_int (s : string) : result exc Z :=
  match py_int s with Some z => Ok z | None => Err (Exc "invalid literal for int() with base 10") end.
(** [int(x) if x else None] *)
Definition form_id (s : string) : result exc (option Z) :=
  if truthy_str s then match form_int s with Ok z => Ok (Some z) | Err e => Err e end else Ok None.
Definition some_text (s : string) : option string := if truthy_str s then Some s else None.

(** ** Flags *)
(** [{'true': True, 'false': False}.get(value)] *)
Definition forced_of (value : string) : option bool :=
  if decide (value = "true") then Some true else if decide (value = "false") then Some false else None.
Definition opt_json (s : option string) : json := match s with Some t => JStr t | None => JNull end.
Definition bool_json (b : option bool) : json := match b with Some b => JBool b | None => JNull end.

Definition flags_create (name description default_value plugin_slug min_plugin_version : string) : SM adb answer :=
  or_400 (transaction (
    let slug := strip plugin_slug in let min := some_text (strip min_plugin_version) in
    i ← stmt (st ← gets d_flags;
      r ← of_exn (Catalogue.create_flag st name description (forced_of default_value) slug min);
      modify (set_flags r.2);; mret r.1);
    audit "flag.create" "flag" (Some (str_id i))
      (JObj [("name", JStr name); ("default_value", JStr default_value); ("plugin_slug", JStr slug); ("min_plugin_version", opt_json min)]);;
    mret (Redirect "/admin/flags"))).
Definition flag_update_default (flag_id : Z) (value : string) : SM adb answer :=
  or_400 (transaction (
    old ← select (λ d, Catalogue.get_flag (d_flags d) flag_id);
    execute (λ d, set_flags (Catalogue.update_flag_default (d_flags d) flag_id (forced_of value)).2 d);;
    match old with
    | None => raise (Exc "'NoneType' object has no attribute 'get'")
    | Some f =>
        audit "flag.update" "flag" (Some (str_id flag_id))
          (JObj [("before", bool_json (ff_default f)); ("after", bool_json (forced_of value))]);;
        mret (Redirect ("/admin/flags/" +:+ str_id flag_id))
    end)).
Definition flag_add_override (flag_id cohort_id : Z) (value min_plugin_version : string) : SM adb answer :=
  let v := bool_decide (value = "true") in
  or_400 (transaction (
    stmt (d ← gets id;
      r ← of_exn (Catalogue.create_override (λ c, bool_decide (c ∈ keys d TCohort)) (d_flags d) flag_id cohort_id v (some_text min_plugin_version));
      modify (set_flags r));;
    audit "flag.override.create" "flag" (Some (str_id flag_id)) (JObj [("cohort_id", JInt cohort_id); ("value", JBool v)]);;
    mret (Redirect ("/admin/flags/" +:+ str_id flag_id)))).
Definition flag_delete_override (flag_id cohort_id : Z) : SM adb answer :=
  or_400 (transaction (
    execute (λ d, set_flags (Catalogue.delete_override (d_flags d) flag_id cohort_id).2 d);;
    audit "flag.override.delete" "flag" (Some (str_id flag_id)) (JObj [("cohort_id", JInt cohort_id)]);;
    mret (Redirect ("/admin/flags/" +:+ str_id flag_id)))).
Definition flag_delete (flag_id : Z) : SM adb answer :=
  or_400 (transaction (
    audit "flag.delete" "flag" (Some (str_id flag_id)) JNull;;
    execute (λ d, set_flags (Catalogue.delete_flag (d_flags d) flag_id).2 d);;
    mret (Redirect "/admin/flags"))).

(** ** Cohorts *)
(** A line of the form: an identifier of a device or an address. *)
Definition member_of_line (val : string) : string * string :=
  (if has_char "-" val && (30 <? Z.of_nat (String.length val)) then "client_uuid" else "email", val).
Definition member_list (members : string) : list (string * string) :=
  member_of_line <$> stripped_lines members.
(** [cohorts_svc.add_members]: a statement for each member *)
Fixpoint add_members (cohort_id : Z) (members : list (string * string)) (count : Z) : SM tx Z :=
  match members with
  | [] => mret count
  | (t, v) :: r =>
      k ← stmt (d ← gets id;
        st ← of_exn (Service.add_member (d_cohorts d) cohort_id t v); modify (set_cohorts st.2);; mret st.1);
      add_members cohort_id r (count + k)
  end.
Definition create_cohort (name description type : string) : SM tx Z :=
  stmt (d ← gets id;
    r ← of_exn (Service.create_cohort (d_cohorts d) name description type (JObj [])); modify (set_cohorts r.2);; mret r.1).

Definition cohorts_create (name type description members : string) : SM adb answer :=
  or_400 (transaction (
    i ← create_cohort name description type;
    (if bool_decide (type = "manual") && truthy_str (strip members) then add_members i (member_list members) 0 else mret 0);;
    audit "cohort.create" "cohort" (Some (str_id i)) (JObj [("name", JStr name); ("type", JStr type)]);;
    mret (Redirect "/admin/cohorts"))).
Definition cohort_add_members (cohort_id : Z) (members : string) : SM adb answer :=
  or_400 (transaction (
    count ← add_members cohort_id (member_list members) 0;
    audit "cohort.add_members" "cohort" (Some (str_id cohort_id)) (JObj [("added", JInt count)]);;
    mret (Redirect ("/admin/cohorts/" +:+ str_id cohort_id)))).
Definition cohort_delete (cohort_id : Z) : SM adb answer :=
  or_400 (transaction (
    audit "cohort.delete" "cohort" (Some (str_id cohort_id)) JNull;;
    execute (drop_cohort cohort_id);;
    mret (Redirect "/admin/cohorts"))).

(** ** Artifacts and campaigns *)
Definition artifact_toggle (artifact_id : Z) (is_active : string) : SM adb answer :=
  let b := bool_decide (is_active = "true") in
  or_400 (transaction (
    stmt (on_cat (toggle_artifact artifact_id b));;
    audit "artifact.toggle" "artifact" (Some (str_id artifact_id)) (JObj [("is_active", JBool b)]);;
    mret (Redirect "/admin/artifacts"))).
(** [campaigns_svc.create_campaign]: the two statements *)
Definition create_campaign (name description : string) (artifact rollback cohort : option Z) (urgency : string) (deadline : option string)
    (status : string) (rollout : json) (plugin : option Z) : SM tx Z :=
  stmt (st ← gets d_camps;
    (if match deadline with Some t => negb (bool_decide (is_Some (dr_iso drv t))) | None => false end
     then raise (Exc "invalid input syntax for type timestamp") else mret ());;
    let '(i, st') := Life.create_campaign (c_now cl) st name description "plugin_update" artifact rollback cohort urgency
                       (deadline ≫= dr_iso drv) status rollout (dget "email" (c_session cl)) plugin in
    modify (set_camps st');; mret i).
Definition campaign_create (name description artifact_id rollback_artifact_id target_cohort_id urgency deadline_at start_status : string) : SM adb answer :=
  or_400 (transaction (
    a ← lift (form_id artifact_id); r ← lift (form_id rollback_artifact_id); t ← lift (form_id target_cohort_id);
    i ← create_campaign name description a r t urgency (some_text deadline_at) start_status JNull None;
    audit "campaign.create" "campaign" (Some (str_id i)) (JObj [("name", JStr name); ("status", JStr start_status)]);;
    mret (Redirect ("/admin/campaigns/" +:+ str_id i)))).
Definition set_campaign_status (campaign_id : Z) (new_status : string) : SM tx () :=
  execute (λ d, set_camps (Life.update_campaign_status (d_camps d) campaign_id new_status).2 d).
Definition _campaign_action (campaign_id : Z) (new_status action_name redirect_prefix : string) : SM adb answer :=
  or_400 (transaction (
    set_campaign_status campaign_id new_status;;
    audit ("campaign." +:+ action_name) "campaign" (Some (str_id campaign_id)) (JObj [("new_status", JStr new_status)]);;
    mret (Redirect ("/admin/" +:+ redirect_prefix +:+ "/" +:+ str_id campaign_id)))).
Definition _catalog_deploy_action (plugin_id campaign_id : Z) (new_status action_name : string) : SM adb answer :=
  or_400 (transaction (
    set_campaign_status campaign_id new_status;;
    audit ("campaign." +:+ action_name) "campaign" (Some (str_id campaign_id))
      (JObj [("new_status", JStr new_status); ("plugin_id", JInt plugin_id)]);;
    mret (Redirect ("/admin/catalog/" +:+ str_id plugin_id +:+ "?tab=deployments")))).
Definition campaign_activate (i : Z) := _campaign_action i "active" "activate" "campaigns".
Definition campaign_pause (i : Z) := _campaign_action i "paused" "pause" "campaigns".
Definition campaign_resume (i : Z) := _campaign_action i "active" "resume" "campaigns".
Definition campaign_complete (i : Z) := _campaign_action i "completed" "complete" "campaigns".
Definition campaign_rollback (i : Z) := _campaign_action i "rolled_back" "rollback" "campaigns".
Definition deploy_pause (i : Z) := _campaign_action i "paused" "pause" "deploy".
Definition deploy_resume (i : Z) := _campaign_action i "active" "resume" "deploy".
Definition deploy_abort (i : Z) := _campaign_action i "rolled_back" "rollback" "deploy".
Definition deploy_complete (i : Z) := _campaign_action i "completed" "complete" "deploy".
Definition catalog_deploy_pause (p i : Z) := _catalog_deploy_action p i "paused" "pause".
Definition catalog_deploy_resume (p i : Z) := _catalog_deploy_action p i "active" "resume".
Definition catalog_deploy_abort (p i : Z) := _catalog_deploy_action p i "rolled_back" "rollback".
End routes.
