(* ===== verification/AdminCatalog.v ===== *)
(** * Administration of the catalogue
    The handlers of [app/admin/router.py] on the plugins, their versions, aliases,
    settings, waiting list and Keycloak clients, with the services they call
    ([services/catalog.py], [services/keycloak.py]), and the purges. *)
From S2P Require Import Prelude Text Json Effects Campaigns Config Cohorts Flags GetConfig Catalog AuditLog AdminDb AdminRoutes.
From Stdlib Require Import Ascii String.
Open Scope Z_scope.

(** ** [_apply_platform_defaults] *)
Definition _PLATFORM_DEFAULTS : list (string * string) :=
  [("llm_base_urls", "${{LLM_BASE_URL}}"); ("llm_default_models", "${{DEFAULT_MODEL_NAME}}"); ("llm_api_tokens", "${{LLM_API_TOKEN}}");
   ("keycloakIssuerUrl", "${{KEYCLOAK_ISSUER_URL}}"); ("keycloakRealm", "${{KEYCLOAK_REALM}}"); ("keycloakClientId", "${{KEYCLOAK_CLIENT_ID}}");
   ("keycloak_redirect_uri", "${{KEYCLOAK_REDIRECT_URI}}"); ("keycloak_allowed_redirect_uri", "${{KEYCLOAK_ALLOWED_REDIRECT_URI}}")].
Definition server_profile (section_name : string) : bool := negb (bool_decide (section_name ∈ ["configVersion"; "default"; "local"])).
(** [section.get(key) is None or section.get(key) == ""] *)
Definition unset (v : json) : bool := match v with JNull => true | JStr s => negb (truthy_str s) | _ => false end.
Definition fill_section (section : list (string * json)) : list (string * json) :=
  foldl (λ s kp, if unset (jget kp.1 s) then dset kp.1 (JStr kp.2) s else s) section _PLATFORM_DEFAULTS.
Definition _apply_platform_defaults (template : list (string * json)) : list (string * json) :=
  (λ kv : string * json, (kv.1, match kv.2 with JObj s => if server_profile kv.1 then JObj (fill_section s) else kv.2 | v => v end)) <$> template.

Section catalogue.
Variables (drv : driver) (cl : call).
Notation audit := (audit drv cl).

(** ** [services/catalog.py]: plugins *)
Definition get_plugin (d : adb) (plugin_id : Z) : option plugin := find (λ p, bool_decide (p_id p = plugin_id)) (ct_plugins (d_cat d)).
(** Of any status. *)
Definition get_plugin_by_slug (d : adb) (slug : string) : option plugin :=
  find (λ p, bool_decide (pl_slug (pg_row p) = slug)) (ct_plugins (d_cat d)).
Definition map_plugin (plugin_id : Z) (f : plugin → plugin) (d : adb) : adb :=
  set_cat (set_plugins ((λ p, if decide (p_id p = plugin_id) then f p else p) <$> ct_plugins (d_cat d)) (d_cat d)) d.

Definition with_slug (s : string) (p : plugin) : plugin :=
  let r := pg_row p in
  Plugin (PluginRow (pl_id r) s (pl_device_type r) (pl_status r) (pl_template r) (pl_access_mode r) (pl_required_group r))
    (pg_name p) (pg_changelog p) (pg_extension_id p) (pg_gecko_id p) (pg_icon_url p) (pg_info p).
(** A literal in a [JSONB] column. *)
Definition jsonb (literal : string) : SM adb json :=
  match loads literal with
  | Some v => if has_nul v then raise (Exc "unsupported Unicode escape sequence") else mret v
  | None => raise (Exc "invalid input syntax for type json")
  end.
Definition adapt (v : json) : SM tx string :=
  match dr_adapt drv v with Some t => mret t | None => raise (Exc "can't adapt type") end.

(** The arguments of [create_plugin] after the slug. *)
Record plugin_args : Type := PluginArgs {
  pa_name : string; pa_changelog : json; pa_device_type : string; pa_icon_url : string; pa_template : json; pa_info : plugin_info }.
Definition create_plugin (slug : string) (a : plugin_args) : SM tx Z :=
  old ← select (λ d, find (λ p, bool_decide (pl_slug (pg_row p) = slug ∧ pl_status (pg_row p) = "removed")) (ct_plugins (d_cat d)));
  match old with
  | Some p => execute (map_plugin (p_id p) (with_slug (slug +:+ "__removed_" +:+ py_str_int (c_now cl))))
  | None => mret ()
  end;;
  changelog ← adapt (pa_changelog a);
  stmt (cl' ← jsonb changelog;
    features ← jsonb (dumps (pi_features (pa_info a)));
    template ← (if truthy (pa_template a) then jsonb (dumps (pa_template a)) else mret JNull);
    i ← gets d_next;
    let f := pa_info a in
    let info := PluginInfo (pi_description f) (pi_intent f) features (pi_category f) (pi_homepage f) (pi_support f) (pi_doc f) (pi_license f)
                  (pi_publisher f) (pi_visibility f) None None "release" in
    let new := Plugin (PluginRow i slug (pa_device_type a) "active" template (Some "open") None) (pa_name a) cl' None None (Some (pa_icon_url a)) info in
    modify (λ d, set_next (i + 1) (set_cat (set_plugins (ct_plugins (d_cat d) ++ [new]) (d_cat d)) d));;
    mret i).

(** *** [update_plugin]: the columns it accepts, with what an UPDATE of each does *)
Definition set_info (f : plugin_info → plugin_info) (p : plugin) : plugin :=
  Plugin (pg_row p) (pg_name p) (pg_changelog p) (pg_extension_id p) (pg_gecko_id p) (pg_icon_url p) (f (pg_info p)).
Definition text (v : json) : string := match v with JStr s => s | _ => "" end.
Definition set_name (v : json) (p : plugin) : plugin :=
  Plugin (pg_row p) (text v) (pg_changelog p) (pg_extension_id p) (pg_gecko_id p) (pg_icon_url p) (pg_info p).
Definition set_changelog (v : json) (p : plugin) : plugin :=
  Plugin (pg_row p) (pg_name p) v (pg_extension_id p) (pg_gecko_id p) (pg_icon_url p) (pg_info p).
Definition set_icon_url (v : json) (p : plugin) : plugin :=
  Plugin (pg_row p) (pg_name p) (pg_changelog p) (pg_extension_id p) (pg_gecko_id p) (Some (text v)) (pg_info p).
Definition set_status (v : json) (p : plugin) : plugin :=
  let r := pg_row p in
  Plugin (PluginRow (pl_id r) (pl_slug r) (pl_device_type r) (text v) (pl_template r) (pl_access_mode r) (pl_required_group r))
    (pg_name p) (pg_changelog p) (pg_extension_id p) (pg_gecko_id p) (pg_icon_url p) (pg_info p).
Definition set_template (v : json) (p : plugin) : plugin :=
  let r := pg_row p in
  Plugin (PluginRow (pl_id r) (pl_slug r) (pl_device_type r) (pl_status r) v (pl_access_mode r) (pl_required_group r))
    (pg_name p) (pg_changelog p) (pg_extension_id p) (pg_gecko_id p) (pg_icon_url p) (pg_info p).
Definition info_setter (k : string) (v : json) (i : plugin_info) : plugin_info :=
  PluginInfo (if decide (k = "description") then text v else pi_description i) (if decide (k = "intent") then text v else pi_intent i)
    (if decide (k = "key_features") then v else pi_features i) (if decide (k = "category") then text v else pi_category i)
    (if decide (k = "homepage_url") then text v else pi_homepage i) (if decide (k = "support_email") then text v else pi_support i)
    (if decide (k = "doc_url") then text v else pi_doc i) (if decide (k = "license") then text v else pi_license i)
    (if decide (k = "publisher") then text v else pi_publisher i) (if decide (k = "visibility") then text v else pi_visibility i)
    (if decide (k = "icon_path") then Some (text v) else pi_icon_path i) (pi_source i) (pi_maturity i).
Definition allowed : list string :=
  ["name"; "description"; "intent"; "key_features"; "changelog"; "category"; "icon_url"; "icon_path"; "homepage_url"; "support_email";
   "doc_url"; "license"; "publisher"; "visibility"; "status"; "config_template"].
Definition set_column (k : string) (v : json) : plugin → plugin :=
  if decide (k = "name") then set_name v else if decide (k = "changelog") then set_changelog v
  else if decide (k = "icon_url") then set_icon_url v else if decide (k = "status") then set_status v
  else if decide (k = "config_template") then set_template v else set_info (info_setter k v).
Definition json_column (k : string) : bool := bool_decide (k ∈ ["key_features"; "changelog"; "config_template"]).
(** [json.dumps(v) if isinstance(v, list) else v] *)
Definition column_value (k : string) (v : json) : json :=
  match v with JArr _ => if decide (k = "key_features") then JStr (dumps v) else v | _ => v end.
Fixpoint adapt_fields (fields : list (string * json)) : SM tx (list (string * string)) :=
  match fields with
  | [] => mret []
  | (k, v) :: r => t ← adapt (column_value k v); l ← adapt_fields r; mret ((k, t) :: l)
  end.
Fixpoint set_columns (fields : list (string * string)) : SM adb (plugin → plugin) :=
  match fields with
  | [] => mret (λ p, p)
  | (k, t) :: r =>
      v ← (if json_column k then jsonb t else mret (JStr t)); f ← set_columns r; mret (λ p, f (set_column k v p))
  end.
Definition update_plugin (plugin_id : Z) (fields : list (string * json)) : SM tx bool :=
  match filter (λ kv, kv.1 ∈ allowed) fields with
  | [] => mret false
  | kept =>
      lits ← adapt_fields kept;
      stmt (f ← set_columns lits; d ← gets id;
        modify (map_plugin plugin_id f);; mret (bool_decide (plugin_id ∈ keys d TPlugin)))
  end.

(** [purge_removed]: the campaigns, then the plugins with what refers to them *)
Definition removed_ids (d : adb) : list Z := p_id <$> filter (λ p, live p = false) (ct_plugins (d_cat d)).
Definition purge_removed : SM tx Z :=
  ids ← select removed_ids;
  match ids with
  | [] => mret 0
  | _ =>
      execute (drop_campaigns (λ c, match cp_plugin c with Some i => bool_decide (i ∈ ids) | None => false end));;
      stmt (d ← gets id; modify (drop_plugins ids);; mret (Z.of_nat (List.length (filter (λ p, p_id p ∈ ids) (ct_plugins (d_cat d))))))
  end.

(** ** Plugins *)
Definition catalog_plugin_status (plugin_id : Z) (status : string) : SM adb answer :=
  or_400 (transaction (
    update_plugin plugin_id [("status", JStr status)];;
    audit ("plugin." +:+ status) "plugin" (Some (str_id plugin_id)) (JObj [("status", JStr status)]);;
    mret (Redirect ("/admin/catalog/" +:+ str_id plugin_id)))).
Definition catalog_purge_removed : SM adb answer :=
  or_400 (transaction (
    n ← purge_removed;
    audit "plugin.purge_removed" "plugin" (Some "*") (JObj [("deleted_count", JInt n)]);;
    mret (Redirect ("/admin/catalog?purged=" +:+ str_id n)))).
(** [[f.strip() for f in key_features.split(",") if f.strip()]] *)
Definition feature_list (key_features : string) : json :=
  JArr (JStr <$> filter (λ f, truthy_str f = true) (strip <$> split_on "," key_features)).
Record edit_form : Type := EditForm {
  ef_name : string; ef_description : string; ef_intent : string; ef_key_features : string; ef_changelog : string;
  ef_category : string; ef_homepage : string; ef_support : string; ef_publisher : string; ef_visibility : string }.
Definition catalog_plugin_edit (plugin_id : Z) (f : edit_form) : SM adb answer :=
  or_400 (transaction (
    update_plugin plugin_id [("name", JStr (ef_name f)); ("description", JStr (ef_description f)); ("intent", JStr (ef_intent f));
      ("key_features", feature_list (ef_key_features f)); ("changelog", JStr (ef_changelog f)); ("category", JStr (ef_category f));
      ("homepage_url", JStr (ef_homepage f)); ("support_email", JStr (ef_support f)); ("publisher", JStr (ef_publisher f));
      ("visibility", JStr (ef_visibility f))];;
    audit "plugin.update" "plugin" (Some (str_id plugin_id)) (JObj [("name", JStr (ef_name f))]);;
    mret (Redirect ("/admin/catalog/" +:+ str_id plugin_id)))).

(** [while get_plugin_by_slug(slug): n += 1] *)
Definition copy_slug (base : string) (n : Z) : string := if n =? 1 then base else base +:+ "-" +:+ py_str_int n.
Fixpoint free_slug (fuel : nat) (base : string) (n : Z) (d : adb) : option string :=
  match fuel with
  | O => None
  | S k =>
      match get_plugin_by_slug d (copy_slug base n) with
      | Some _ => free_slug k base (n + 1) d
      | None => Some (copy_slug base n)
      end
  end.
(** [isinstance(x, str)] then [json.loads(x)] *)
Definition loaded (v : json) : SM tx json :=
  match v with JStr s => match loads s with Some j => mret j | None => raise (Exc "Expecting value") end | _ => mret v end.
Definition catalog_plugin_duplicate (plugin_id : Z) : SM adb answer :=
  or_400_keep (transaction (
    src ← select (λ d, get_plugin d plugin_id);
    match src with
    | None => raise (Http (HttpError 404 "Plugin introuvable"))
    | Some p =>
        slug ← select (λ d, free_slug (S (List.length (ct_plugins (d_cat d)))) (pl_slug (pg_row p) +:+ "-copy") 1 d);
        template ← loaded (pl_template (pg_row p));
        features ← loaded (jor (pi_features (pg_info p)) (JArr []));
        let i := pg_info p in
        let slug := default "" slug in
        new_id ← create_plugin slug
          (PluginArgs (pg_name p +:+ " (copie)") (pg_changelog p) (pl_device_type (pg_row p)) "" template
             (PluginInfo (pi_description i) (pi_intent i) (jor features (JArr [])) (pi_category i) (pi_homepage i) (pi_support i) "" ""
                (pi_publisher i) (pi_visibility i) None None "release"));
        audit "plugin.duplicate" "plugin" (Some (str_id new_id)) (JObj [("source_plugin_id", JInt plugin_id); ("slug", JStr slug)]);;
        mret (Redirect ("/admin/catalog/" +:+ str_id new_id +:+ "?tab=edit"))
    end)).

(** ** Versions *)
Definition catalog_version_create (plugin_id : Z) (version release_notes artifact_id download_url distribution_mode
    min_host_version max_host_version status : string) : SM adb answer :=
  if negb (truthy_str artifact_id) && negb (truthy_str (strip download_url)) then
    raise (Http (HttpError 400 ("Un artifact ou une URL de t" +:+ String "233" ("l" +:+ String "233" "chargement est requis."))))
  else
    or_400 (transaction (
      a ← lift (form_id artifact_id);
      vid ← stmt (on_cat (create_version (c_now cl) plugin_id version a release_notes download_url min_host_version max_host_version
                            distribution_mode status));
      audit "version.create" "plugin_version" (Some (str_id vid))
        (JObj [("plugin_id", JInt plugin_id); ("version", JStr version); ("status", JStr status)]);;
      mret (Redirect ("/admin/catalog/" +:+ str_id plugin_id +:+ "?tab=versions")))).
Definition catalog_version_status (plugin_id version_id : Z) (status : string) : SM adb answer :=
  or_400 (transaction (
    stmt (on_cat (update_version_status (c_now cl) version_id status));;
    audit ("version." +:+ status) "plugin_version" (Some (str_id version_id)) (JObj [("plugin_id", JInt plugin_id); ("status", JStr status)]);;
    mret (Redirect ("/admin/catalog/" +:+ str_id plugin_id +:+ "?tab=versions")))).

(** *** Purges *)
Definition old_version (plugin_id : Z) (v : version_row) : bool :=
  bool_decide (vr_plugin v = plugin_id ∧ (vr_status v = "deprecated" ∨ vr_status v = "yanked")).
Definition detach_version (ids : list Z) (c : campaign_row) : campaign_row :=
  match cp_version c with
  | Some i =>
      if decide (i ∈ ids) then CampaignRow (cp_id c) (cp_name c) (cp_description c) (cp_type c) (cp_status c) (cp_plugin c) (cp_target_cohort c)
        (cp_artifact c) (cp_rollback c) (cp_rollout c) (cp_urgency c) (cp_deadline c) (cp_created_by c) (cp_created c) None
      else c
  | None => c
  end.
Definition map_campaigns (f : campaign_row → campaign_row) (d : adb) : adb :=
  set_camps (Life.State (f <$> Life.st_rows (d_camps d)) (Life.st_next (d_camps d))) d.
(** Neither the artifact of a version nor one of a campaign. *)
Definition orphan_artifact (d : adb) (a : art_row) : bool :=
  negb (bool_decide (Some (a_id a) ∈ vr_artifact <$> ct_versions (d_cat d))) &&
  negb (bool_decide (Some (a_id a) ∈ cp_artifact <$> Life.st_rows (d_camps d))) &&
  negb (bool_decide (Some (a_id a) ∈ cp_rollback <$> Life.st_rows (d_camps d))).
Definition clean_artifacts : SM tx () := execute (λ d, drop_artifacts (orphan_artifact d) d).
Definition old_versions (plugin_id : Z) (d : adb) : list version_row := filter (λ v, old_version plugin_id v = true) (ct_versions (d_cat d)).

Definition catalog_versions_purge (plugin_id : Z) : SM adb answer :=
  or_400 (transaction (
    execute (λ d, map_campaigns (detach_version (vr_id <$> old_versions plugin_id d)) d);;
    n ← stmt (d ← gets id; modify (drop_versions (old_version plugin_id));; mret (Z.of_nat (List.length (old_versions plugin_id d))));
    clean_artifacts;;
    audit "versions.purge" "plugin" (Some (str_id plugin_id)) (JObj [("deleted_versions", JInt n)]);;
    mret (Redirect ("/admin/catalog/" +:+ str_id plugin_id +:+ "?tab=versions")))).

Definition closed_campaign (plugin_id : Z) (c : campaign_row) : bool :=
  bool_decide (cp_plugin c = Some plugin_id ∧ cp_status c ∈ ["completed"; "rolled_back"; "draft"]).
Definition ownerless_campaign (c : campaign_row) : bool :=
  bool_decide (cp_plugin c = None ∧ cp_status c ∈ ["completed"; "rolled_back"]).
Definition delete_campaigns (gone : campaign_row → bool) : SM tx Z :=
  execute (λ d, set_statuses (filter (λ s, Status.ds_campaign s ∉ cp_id <$> filter (λ c, gone c = true) (Life.st_rows (d_camps d))) (d_statuses d)) d);;
  stmt (d ← gets id; modify (drop_campaigns gone);; mret (Z.of_nat (List.length (filter (λ c, gone c = true) (Life.st_rows (d_camps d)))))).
Definition catalog_deployments_purge (plugin_id : Z) : SM adb answer :=
  or_400 (transaction (
    n ← delete_campaigns (closed_campaign plugin_id);
    m ← delete_campaigns ownerless_campaign;
    clean_artifacts;;
    audit "deployments.purge" "plugin" (Some (str_id plugin_id)) (JObj [("deleted_campaigns", JInt (n + m))]);;
    mret (Redirect ("/admin/catalog/" +:+ str_id plugin_id +:+ "?tab=deployments")))).
End catalogue.
