(* ===== verification/AdminSettings.v ===== *)
(** * Administration of settings and communications
    The handlers of [app/admin/router.py] on the environment overrides, the access
    mode, the waiting list, the aliases, the Keycloak clients, the configuration
    template and the logo of a plugin, and [services/communications.py]. *)
From S2P Require Import Prelude Text Json Effects Base64 Campaigns Config Cohorts Flags GetConfig Catalog AuditLog AdminDb AdminRoutes AdminCatalog.
From Stdlib Require Import Ascii String.
Open Scope Z_scope.

Section settings.
Variables (drv : driver) (cl : call).
Notation audit := (audit drv cl).
Notation update_plugin := (update_plugin drv).
Definition catalog_tab (plugin_id : Z) (tab : string) : answer := Redirect ("/admin/catalog/" +:+ str_id plugin_id +:+ "?tab=" +:+ tab).

(** ** Environment overrides *)
Definition catalog_env_upsert (plugin_id : Z) (environment key value is_secret : string) : SM adb answer :=
  let secret := bool_decide (is_secret = "on") in
  or_400 (transaction (
    execute (λ d, set_next (d_next d + 1) (set_env
      (upsert (λ e, bool_decide (env_key e = (plugin_id, environment, key)))
         (λ e, EnvRow (ev_id e) (EnvOverride (eo_plugin (ev_row e)) (eo_environment (ev_row e)) (eo_key (ev_row e)) value) secret)
         (EnvRow (d_next d) (EnvOverride plugin_id environment key value) secret) (d_env d)) d));;
    audit "env.override.upsert" "plugin" (Some (str_id plugin_id)) (JObj [("env", JStr environment); ("key", JStr key)]);;
    mret (catalog_tab plugin_id "env"))).
Definition catalog_env_delete (plugin_id override_id : Z) : SM adb answer :=
  or_400 (transaction (
    execute (λ d, set_env (filter (λ e, ¬ (ev_id e = override_id ∧ eo_plugin (ev_row e) = plugin_id)) (d_env d)) d);;
    audit "env.override.delete" "plugin" (Some (str_id plugin_id)) (JObj [("override_id", JInt override_id)]);;
    mret (catalog_tab plugin_id "env"))).

(** ** Access and waiting list *)
Definition catalog_access_update (plugin_id : Z) (maturity access_mode required_group : string) : SM adb answer :=
  or_400 (transaction (
    update_plugin plugin_id [("maturity", JStr maturity); ("access_mode", JStr access_mode);
      ("required_group", opt_json (some_text required_group))];;
    audit "plugin.access.update" "plugin" (Some (str_id plugin_id)) (JObj [("maturity", JStr maturity); ("access_mode", JStr access_mode)]);;
    mret (catalog_tab plugin_id "access"))).
Definition review (plugin_id wl_id : Z) (status : string) : SM tx () :=
  execute (λ d, set_wait ((λ w, if decide (wr_id w = wl_id ∧ wl_plugin (wr_row w) = plugin_id)
    then WaitRow (wr_id w) (WaitlistRow (wl_plugin (wr_row w)) (wl_email (wr_row w)) status) (dget "email" (c_session cl)) (Some (c_now cl))
    else w) <$> d_wait d) d).
Definition catalog_waitlist_approve (plugin_id wl_id : Z) : SM adb answer :=
  or_400 (transaction (
    review plugin_id wl_id "approved";;
    audit "waitlist.approve" "plugin" (Some (str_id plugin_id)) (JObj [("waitlist_id", JInt wl_id)]);;
    mret (catalog_tab plugin_id "access"))).
Definition catalog_waitlist_reject (plugin_id wl_id : Z) : SM adb answer :=
  or_400 (transaction (review plugin_id wl_id "rejected";; mret (catalog_tab plugin_id "access"))).

(** ** Aliases *)
Definition catalog_alias_add (plugin_id : Z) (alias : string) : SM adb answer :=
  let alias := lower (strip alias) in
  or_400 (transaction (
    execute (λ d, let c := d_cat d in
      set_cat (Catalog (ct_plugins c) (ct_aliases c ++ [(alias, plugin_id)]) (ct_artifacts c) (ct_versions c) (ct_variants c)
        (ct_next_art c) (ct_next_ver c) (ct_next_var c)) d);;
    audit "alias.add" "plugin" (Some (str_id plugin_id)) (JObj [("alias", JStr alias)]);;
    mret (catalog_tab plugin_id "alias"))).
Definition catalog_alias_delete (plugin_id : Z) (alias : string) : SM adb answer :=
  or_400 (transaction (
    execute (λ d, let c := d_cat d in
      set_cat (Catalog (ct_plugins c) (filter (λ a, a ≠ (alias, plugin_id)) (ct_aliases c)) (ct_artifacts c) (ct_versions c) (ct_variants c)
        (ct_next_art c) (ct_next_ver c) (ct_next_var c)) d);;
    audit "alias.delete" "plugin" (Some (str_id plugin_id)) (JObj [("alias", JStr alias)]);;
    mret (catalog_tab plugin_id "alias"))).

(** ** Keycloak clients *)
Definition create_client (client_id realm description client_type : string) (uris : list string) (pkce : bool) : SM tx Z :=
  stmt (i ← gets d_next;
    modify (λ d, set_next (i + 1) (set_kc (d_kc d ++ [KcClient i client_id realm description client_type uris ["*"] pkce false]) d));; mret i).
(** Errors are answered as JSON. *)
Definition or_json_400 (status : Z) (m : SM adb answer) : SM adb answer :=
  catch m (λ e, mret (Reply status [("error", JStr (exc_text e))])).
Definition api_keycloak_create_client (client_id realm description client_type redirect_uris pkce_enabled : string) : SM adb answer :=
  or_json_400 400 (transaction (
    i ← create_client client_id realm description client_type (stripped_lines redirect_uris) (bool_decide (pkce_enabled = "on"));
    audit "keycloak.client.create" "keycloak_client" (Some (str_id i)) (JObj [("client_id", JStr client_id); ("realm", JStr realm)]);;
    mret (Reply 200 [("ok", JBool true); ("id", JInt i); ("client_id", JStr client_id)]))).
Definition link_plugin_client (plugin_id keycloak_client_id : Z) (environment : string) : SM tx () :=
  execute (λ d, if decide ((plugin_id, keycloak_client_id, environment) ∈ d_links d) then d
                else set_links (d_links d ++ [(plugin_id, keycloak_client_id, environment)]) d).
Definition unlink_plugin_client (plugin_id : Z) (environment : string) : SM tx () :=
  execute (λ d, set_links (filter (λ l : Z * Z * string, ¬ (l.1.1 = plugin_id ∧ l.2 = environment)) (d_links d)) d).
Definition catalog_keycloak_link (plugin_id keycloak_client_id : Z) (environment : string) : SM adb answer :=
  or_400 (transaction (
    link_plugin_client plugin_id keycloak_client_id environment;;
    audit "keycloak.link" "plugin" (Some (str_id plugin_id)) (JObj [("kc_client_id", JInt keycloak_client_id); ("env", JStr environment)]);;
    mret (catalog_tab plugin_id "keycloak"))).
Definition export_keycloak_json (c : kc_client) (plugin_name : string) : list (string * json) :=
  [("clientId", JStr (kc_client_id c));
   ("name", JStr (str_or plugin_name (str_or (kc_description c) (kc_client_id c))));
   ("description", JStr "Client genere par Device Management"); ("enabled", JBool true); ("protocol", JStr "openid-connect");
   ("publicClient", JBool (bool_decide (kc_type c = "public"))); ("standardFlowEnabled", JBool true);
   ("directAccessGrantsEnabled", JBool (kc_direct c)); ("serviceAccountsEnabled", JBool false);
   ("redirectUris", JArr (JStr <$> kc_uris c)); ("webOrigins", JArr (JStr <$> match kc_origins c with [] => ["*"] | l => l end));
   ("attributes", JObj [("pkce.code.challenge.method", JStr (if kc_pkce c then "S256" else "")); ("post.logout.redirect.uris", JStr "+")]);
   ("defaultClientScopes", JArr (JStr <$> ["web-origins"; "profile"; "roles"; "email"]));
   ("optionalClientScopes", JArr (JStr <$> ["offline_access"; "groups"]))].

(** ** Configuration template *)
(** [safe_reconcile_catalog]: nothing it raises reaches the caller, but what the
    database refused has aborted the transaction. *)
Definition safe_reconcile (plugin_slug : string) (template : json) (source : string) : SM tx () :=
  let who := match c_session cl with [] => Call [("email", "system"); ("sub", source)] None (c_now cl) | s => Call s None (c_now cl) end in
  catch (
    diff ← stmt (st ← gets d_flags;
      let '(df, st') := Catalogue.reconcile_catalog_from_template st plugin_slug template in
      modify (set_flags st');;
      mret (JObj [("added", JArr (JStr <$> Catalogue.added df)); ("kept", JArr (JStr <$> Catalogue.kept df));
        ("reactivated", JArr (JStr <$> Catalogue.reactivated df)); ("orphaned", JArr (JStr <$> Catalogue.orphaned df));
        ("already_deprecated", JArr (JStr <$> Catalogue.already_deprecated df))]));
    catch (AdminRoutes.audit drv who "flag.reconcile" "plugin" (Some plugin_slug) diff) (λ _, mret ())) (λ _, mret ()).
Definition catalog_save_config_template (plugin_id : Z) (template : json) : SM adb answer :=
  match template with
  | JObj ((_ :: _) as t) =>
      let t := JObj (_apply_platform_defaults t) in
      or_json_400 500 (
        (* a plugin that is not found returns without commit *)
        λ d, match (ok ← update_plugin plugin_id [("config_template", JStr (dumps t))];
                    if ok : bool then
                      audit "plugin.config_template.update" "plugin" (Some (str_id plugin_id)) JNull;;
                      p ← catch (select (λ d, get_plugin d plugin_id)) (λ _, mret None);
                      (match p with
                       | Some p => let slug := str_or (pl_slug (pg_row p)) (pl_device_type (pg_row p)) in
                                   if truthy_str slug then safe_reconcile slug t "admin:config-template" else mret ()
                       | None => mret ()
                       end);;
                      mret (Some (Reply 200 [("ok", JBool true)]))
                    else mret None) (Tx d false) with
             | (Ok (Some r), t) => (Ok r, if t_aborted t then d else t_db t)
             | (Ok None, _) => (Ok (Reply 404 [("error", JStr "Plugin non trouve")]), d)
             | (Err e, _) => (Err e, d)
             end)
  | _ => mret (Reply 400 [("error", JStr "config_template manquant ou invalide")])
  end.

(** ** Logo *)
(** [base64.b64encode]: the standard alphabet *)
Definition std_char (c : ascii) : ascii := if is_char "-" c then "+"%char else if is_char "_" c then "/"%char else c.
Definition b64encode (b : string) : string := smap std_char (urlsafe_b64encode b).
Definition logo_mimes : list (string * string) :=
  [(".png", "image/png"); (".jpg", "image/jpeg"); (".jpeg", "image/jpeg"); (".svg", "image/svg+xml"); (".webp", "image/webp")].
Definition data_url (mime data : string) : string := "data:" +:+ mime +:+ ";base64," +:+ b64encode data.
Definition flash (text : string) : answer := Page ("<div class='dm-flash dm-flash--error'>" +:+ text +:+ "</div>").
Definition catalog_upload_logo (plugin_id : Z) (filename data : string) : SM adb answer :=
  let ext := lower (splitext_ext filename) in
  match dget ext logo_mimes with
  | None => mret (flash ("Format non supporte (" +:+ ext +:+ "). Utiliser PNG, JPG, SVG ou WebP."))
  | Some mime =>
      if 2 * 1024 * 1024 <? Z.of_nat (String.length data) then mret (flash "Fichier trop volumineux (max 2 Mo).")
      else
        catch (transaction (
          p ← select (λ d, get_plugin d plugin_id);
          match p with
          | None => raise (Http (HttpError 404 "Plugin non trouve"))
          | Some _ =>
              update_plugin plugin_id [("icon_url", JStr (data_url mime data))];;
              audit "plugin.logo.upload" "plugin" (Some (str_id plugin_id))
                (JObj [("filename", JStr filename); ("size", JInt (Z.of_nat (String.length data)))]);;
              mret (catalog_tab plugin_id "edit")
          end)) (λ e, mret (flash ("Erreur: " +:+ exc_text e)))
  end.
End settings.
