(* ===== verification/Communications.v ===== *)
(** * Communications
    [services/communications.py]: announcements, alerts and surveys, their
    acknowledgements and answers, and the two forms that write them. *)
From stdpp Require Import sorting.
From S2P Require Import Prelude Text Json Effects Campaigns Config Cohorts Flags GetConfig Catalog AuditLog AdminDb AdminRoutes.
From Stdlib Require Import Ascii String.
Open Scope Z_scope.

(** ** The table *)
(** The columns of [communications] in [db/schema.sql], and those that the
    [INSERT] of [create_communication] names. *)
Definition communications_columns : list string :=
  ["id"; "type"; "title"; "body"; "priority"; "target_plugin_id"; "target_cohort_id"; "min_plugin_version"; "max_plugin_version";
   "starts_at"; "expires_at"; "survey_question"; "survey_choices"; "survey_allow_multiple"; "survey_allow_comment"; "status";
   "created_by"; "created_at"; "updated_at"].
Definition inserted_columns : list string :=
  ["type"; "title"; "body"; "priority"; "target_plugin_id"; "target_cohort_id"; "target_bundle_id"; "min_plugin_version"; "max_plugin_version";
   "starts_at"; "expires_at"; "survey_question"; "survey_choices"; "survey_allow_multiple"; "survey_allow_comment"; "status"; "created_by"].

Record comm_form : Type := CommForm {
  cf_type : string; cf_title : string; cf_body : string; cf_priority : string; cf_plugin : string; cf_cohort : string;
  cf_starts : string; cf_expires : string; cf_question : string; cf_choices : string; cf_multiple : string; cf_comment : string;
  cf_status : string }.

Section communications.
Variables (drv : driver) (cl : call).
Notation audit := (audit drv cl).

(** [x or None] of an identifier *)
Definition id_or_none (i : option Z) : option Z := match i with Some z => if z =? 0 then None else i | None => None end.
Definition timestamp (s : option string) : SM adb (option Z) :=
  match s with
  | None => mret None
  | Some t => match dr_time drv t with Some z => mret (Some z) | None => raise (Exc "invalid input syntax for type timestamp") end
  end.
Definition create_communication (f : comm_form) (plugin cohort : option Z) (choices : option (list string)) : SM tx Z :=
  stmt (
    if negb (forallb (λ c, bool_decide (c ∈ communications_columns)) inserted_columns)
    then raise (Exc "column of relation communications does not exist")
    else
      starts ← timestamp (some_text (cf_starts f)); expires ← timestamp (some_text (cf_expires f));
      i ← gets d_next;
      let c := CommRow i (cf_type f) (cf_title f) (cf_body f) (cf_priority f) (id_or_none plugin) (id_or_none cohort) starts expires
                 (some_text (cf_question f)) (match choices with Some [] => None | _ => choices end)
                 (bool_decide (cf_multiple f = "on")) (bool_decide (cf_comment f = "on"))
                 (cf_status f) (dget "email" (c_session cl)) (c_now cl) in
      modify (λ d, set_next (i + 1) (set_comms (d_comms d ++ [c]) d));; mret i).
Definition update_communication_status (comm_id : Z) (new_status : string) : SM tx bool :=
  stmt (d ← gets id;
    modify (set_comms ((λ c, if decide (cn_id c = comm_id)
      then CommRow (cn_id c) (cn_type c) (cn_title c) (cn_body c) (cn_priority c) (cn_plugin c) (cn_cohort c) (cn_starts c) (cn_expires c)
             (cn_question c) (cn_choices c) (cn_multiple c) (cn_comment c) new_status (cn_by c) (c_now cl)
      else c) <$> d_comms d));;
    mret (bool_decide (comm_id ∈ cn_id <$> d_comms d))).

Definition communication_create (f : comm_form) : SM adb answer :=
  let choices := if truthy_str (cf_choices f) then Some (stripped_lines (cf_choices f)) else None in
  or_400 (transaction (
    p ← lift (form_id (cf_plugin f)); c ← lift (form_id (cf_cohort f));
    i ← create_communication f p c choices;
    audit "communication.create" "communication" (Some (str_id i)) (JObj [("type", JStr (cf_type f)); ("title", JStr (cf_title f))]);;
    mret (Redirect ("/admin/communications/" +:+ str_id i)))).
Definition communication_status (comm_id : Z) (status : string) : SM adb answer :=
  or_400 (transaction (
    update_communication_status comm_id status;;
    audit ("communication." +:+ status) "communication" (Some (str_id comm_id)) (JObj [("status", JStr status)]);;
    mret (Redirect ("/admin/communications/" +:+ str_id comm_id)))).

(** ** Devices *)
Definition ack_communication (comm_id : Z) (client_uuid : string) : SM tx () :=
  execute (λ d, if decide ((comm_id, client_uuid) ∈ d_acks d) then d else set_acks (d_acks d ++ [(comm_id, client_uuid)]) d).
Definition submit_survey_response (comm_id : Z) (client_uuid email : string) (choices : list json) (comment : string) : SM tx () :=
  execute (λ d, set_responses (upsert (λ r, bool_decide (rp_comm r = comm_id ∧ rp_client r = client_uuid))
    (λ r, ResponseRow (rp_comm r) (rp_client r) (rp_email r) (JArr choices) comment (c_now cl))
    (ResponseRow comm_id client_uuid email (JArr choices) comment (c_now cl)) (d_responses d)) d).
End communications.

(** The [WHERE] of [get_active_communications]. *)
Definition in_window (now : Z) (c : comm_row) : bool :=
  match cn_starts c with Some s => s <=? now | None => true end && match cn_expires c with Some e => now <? e | None => true end.
Definition aimed_at (d : adb) (plugin_slug : string) (c : comm_row) : bool :=
  match cn_plugin c with
  | None => true
  | Some i => match find (λ p, bool_decide (p_id p = i)) (ct_plugins (d_cat d)) with
              | Some p => bool_decide (pl_slug (pg_row p) = plugin_slug)
              | None => true
              end
  end.
Definition shown_to (d : adb) (now : Z) (plugin_slug client_uuid : string) (c : comm_row) : bool :=
  bool_decide (cn_status c = "active") && in_window now c && aimed_at d plugin_slug c &&
  negb (bool_decide ((cn_id c, client_uuid) ∈ d_acks d)).
(** [ORDER BY CASE priority ..., starts_at DESC], nulls first *)
Definition rank (priority : string) : Z :=
  if decide (priority = "critical") then 0 else if decide (priority = "high") then 1 else if decide (priority = "normal") then 2 else 3.
Definition start_before (a b : option Z) : bool :=
  match a, b with None, _ => true | Some _, None => false | Some x, Some y => y <=? x end.
Definition comes_first (a b : comm_row) : Prop :=
  (rank (cn_priority a) <? rank (cn_priority b)) ||
  (rank (cn_priority a) =? rank (cn_priority b)) && start_before (cn_starts a) (cn_starts b) = true.
#[export] Instance comes_first_dec : RelDecision comes_first := λ a b, decide (_ = true).
Definition get_active_communications (d : adb) (now : Z) (plugin_slug client_uuid : string) : list comm_row :=
  take 10 (merge_sort comes_first (filter (λ c, shown_to d now plugin_slug client_uuid c = true) (d_comms d))).

(** ** Survey results *)
(** [choice_counts[str(c)] = choice_counts.get(str(c), 0) + 1] *)
Definition count_choice (counts : list (string * Z)) (c : json) : list (string * Z) :=
  dset (py_str c) (default 0 (dget (py_str c) counts) + 1) counts.
(** The values that [for c in (raw or [])] goes through. *)
Definition choices_of (raw : json) : result exn (list json) :=
  let items v := match v with
                 | JArr l => Ok l | JObj o => Ok (JStr <$> dkeys o)
                 | JStr s => Ok ((λ c, JStr (String c "")) <$> String.list_ascii_of_string s)
                 | v => if truthy v then Err tt else Ok []
                 end in
  match raw with
  | JStr s => match loads s with Some v => items v | None => Err tt end
  | v => items v
  end.
Fixpoint tally (responses : list response_row) (counts : list (string * Z)) : result exn (list (string * Z)) :=
  match responses with
  | [] => Ok counts
  | r :: rest => let* l := choices_of (rp_choices r) in tally rest (foldl count_choice counts l)
  end.
Record survey : Type := Survey { sv_total : Z; sv_counts : list (string * Z); sv_comments : list (string * string * Z) }.
Definition later (a b : response_row) : Prop := rp_at b <= rp_at a.
#[export] Instance later_dec : RelDecision later := λ a b, decide (_ <= _).
Definition get_survey_results (d : adb) (comm_id : Z) : result exn survey :=
  let responses := merge_sort later (filter (λ r, rp_comm r = comm_id) (d_responses d)) in
  let* counts := tally responses [] in
  Ok (Survey (Z.of_nat (List.length responses)) counts
        ((λ r, (rp_email r, rp_comment r, rp_at r)) <$> filter (λ r, truthy_str (rp_comment r) = true) responses)).
Definition get_communication_stats (d : adb) (comm_id : Z) : Z * Z :=
  (Z.of_nat (List.length (filter (λ a : Z * string, a.1 = comm_id) (d_acks d))),
   Z.of_nat (List.length (filter (λ r, rp_comm r = comm_id) (d_responses d)))).
