(* ===== verification/AdminForms.v ===== *)
(** * Administration forms
    The forms of the administration pages as one type, with the handler of each,
    and what holds of all of them: a form that is refused changes nothing, and one
    that changes the database leaves an entry of the audit log under the name of
    the administrator. *)
From S2P Require Import Prelude Text Json Effects Campaigns Config Cohorts Flags GetConfig Catalog AuditLog AdminDb AdminRoutes AdminCatalog AdminSettings Communications.
From Stdlib Require Import Ascii String.
Open Scope Z_scope.

Inductive form : Type :=
| FlagsCreate (name description default_value plugin_slug min_plugin_version : string)
| FlagUpdateDefault (flag_id : Z) (value : string)
| FlagAddOverride (flag_id cohort_id : Z) (value min_plugin_version : string)
| FlagDeleteOverride (flag_id cohort_id : Z)
| FlagDelete (flag_id : Z)
| CohortsCreate (name type description members : string)
| CohortAddMembers (cohort_id : Z) (members : string)
| CohortDelete (cohort_id : Z)
| ArtifactToggle (artifact_id : Z) (is_active : string)
| CampaignCreate (name description artifact_id rollback_artifact_id target_cohort_id urgency deadline_at start_status : string)
| CampaignAction (campaign_id : Z) (new_status action_name redirect_prefix : string)
| CatalogDeployAction (plugin_id campaign_id : Z) (new_status action_name : string)
| PluginStatus (plugin_id : Z) (status : string)
| PluginEdit (plugin_id : Z) (f : edit_form)
| PluginDuplicate (plugin_id : Z)
| PurgeRemoved
| VersionCreate (plugin_id : Z) (version release_notes artifact_id download_url distribution_mode min_host max_host status : string)
| VersionStatus (plugin_id version_id : Z) (status : string)
| VersionsPurge (plugin_id : Z)
| DeploymentsPurge (plugin_id : Z)
| EnvUpsert (plugin_id : Z) (environment key value is_secret : string)
| EnvDelete (plugin_id override_id : Z)
| AccessUpdate (plugin_id : Z) (maturity access_mode required_group : string)
| WaitlistApprove (plugin_id wl_id : Z)
| WaitlistReject (plugin_id wl_id : Z)
| AliasAdd (plugin_id : Z) (alias : string)
| AliasDelete (plugin_id : Z) (alias : string)
| KeycloakCreate (client_id realm description client_type redirect_uris pkce_enabled : string)
| KeycloakLink (plugin_id keycloak_client_id : Z) (environment : string)
| ConfigTemplate (plugin_id : Z) (template : json)
| UploadLogo (plugin_id : Z) (filename data : string)
| CommunicationCreate (f : comm_form)
| CommunicationStatus (comm_id : Z) (status : string).

Definition submit (drv : driver) (cl : call) (f : form) : SM adb answer :=
  match f with
  | FlagsCreate n d v s m => flags_create drv cl n d v s m
  | FlagUpdateDefault i v => flag_update_default drv cl i v
  | FlagAddOverride i c v m => flag_add_override drv cl i c v m
  | FlagDeleteOverride i c => flag_delete_override drv cl i c
  | FlagDelete i => flag_delete drv cl i
  | CohortsCreate n t d m => cohorts_create drv cl n t d m
  | CohortAddMembers i m => cohort_add_members drv cl i m
  | CohortDelete i => cohort_delete drv cl i
  | ArtifactToggle i a => artifact_toggle drv cl i a
  | CampaignCreate n d a r t u dl s => campaign_create drv cl n d a r t u dl s
  | CampaignAction i s a p => _campaign_action drv cl i s a p
  | CatalogDeployAction p i s a => _catalog_deploy_action drv cl p i s a
  | PluginStatus i s => catalog_plugin_status drv cl i s
  | PluginEdit i f => catalog_plugin_edit drv cl i f
  | PluginDuplicate i => catalog_plugin_duplicate drv cl i
  | PurgeRemoved => catalog_purge_removed drv cl
  | VersionCreate p v n a u m lo hi s => catalog_version_create drv cl p v n a u m lo hi s
  | VersionStatus p v s => catalog_version_status drv cl p v s
  | VersionsPurge p => catalog_versions_purge drv cl p
  | DeploymentsPurge p => catalog_deployments_purge drv cl p
  | EnvUpsert p e k v s => catalog_env_upsert drv cl p e k v s
  | EnvDelete p i => catalog_env_delete drv cl p i
  | AccessUpdate p m a g => catalog_access_update drv cl p m a g
  | WaitlistApprove p w => catalog_waitlist_approve drv cl p w
  | WaitlistReject p w => catalog_waitlist_reject cl p w
  | AliasAdd p a => catalog_alias_add drv cl p a
  | AliasDelete p a => catalog_alias_delete drv cl p a
  | KeycloakCreate c r d t u k => api_keycloak_create_client drv cl c r d t u k
  | KeycloakLink p k e => catalog_keycloak_link drv cl p k e
  | ConfigTemplate p t => catalog_save_config_template drv cl p t
  | UploadLogo p f data => catalog_upload_logo drv cl p f data
  | CommunicationCreate f => communication_create drv cl f
  | CommunicationStatus i s => communication_status drv cl i s
  end.

(** ** The audit log grows *)
Section growth.
Variables (drv : driver) (cl : call) (d0 : adb).

Definition by_actor (r : audit_row) : Prop :=
  au_email r = (actor cl).1 ∨ (c_session cl = [] ∧ au_email r = "system").
Definition grown (rows : list audit_row) (t : tx) : Prop :=
  d_audit (t_db t) = d_audit d0 ++ rows ∧ Forall by_actor rows.
(** The transaction so far, and once it holds an entry or has been aborted. *)
Definition running (t : tx) : Prop := constraints (t_db t) = true ∧ ∃ rows, grown rows t.
Definition logged (t : tx) : Prop := t_aborted t = true ∨ ∃ rows, rows ≠ [] ∧ grown rows t.
(** A computation that keeps a transaction well formed, and an entry once written. *)
Class Orderly {A} (m : SM tx A) : Prop := { orderly_running : Maintains running m; orderly_logged : Maintains logged m }.
(** A computation that does not end without an entry. *)
Class Logs {A} (m : SM tx A) : Prop := logs t a t' : running t → m t = (Ok a, t') → logged t'.

#[export] Instance orderly_ret {A} (a : A) : Orderly (mret a).
Proof. constructor; apply _. Qed.
#[export] Instance orderly_raise {A} e : Orderly (raise e : SM tx A).
Proof. constructor; apply _. Qed.
#[export] Instance orderly_lift {A} (r : result exc A) : Orderly (lift r).
Proof. constructor; apply _. Qed.
#[export] Instance orderly_bind {A B} (m : SM tx A) (k : A → SM tx B) : Orderly m → (∀ a, Orderly (k a)) → Orderly (m ≫= k).
Proof. intros [] Hk. constructor; apply maintains_bind; try done; intros a; apply Hk. Qed.
#[export] Instance orderly_catch {A} (m : SM tx A) h : Orderly m → (∀ x, Orderly (h x)) → Orderly (catch m h).
Proof. intros [] Hh. constructor; apply maintains_catch; try done; intros x; apply Hh. Qed.
#[export] Instance orderly_if {A} (b : bool) (m n : SM tx A) : Orderly m → Orderly n → Orderly (if b then m else n).
Proof. by destruct b. Qed.

(** A statement that does not touch the audit log. *)
#[export] Instance orderly_stmt {A} (m : SM adb A) : Keeps d_audit m → Orderly (stmt m).
Proof.
  intros Hk. constructor; intros t Ht; unfold stmt; destruct (t_aborted t) eqn:Ea; try done;
    specialize (Hk (t_db t)); destruct (m (t_db t)) as [[a|e] d]; cbn in Hk |- *.
  - destruct (constraints d) eqn:Ec; [|done]. destruct Ht as [_ [rows Hg]]. split; [done|]. exists rows.
    unfold grown in *. cbn. by rewrite Hk.
  - done.
  - destruct (constraints d) eqn:Ec; cbn; [|by left]. right. destruct Ht as [Ht|(rows & Hr & Hg)]; [by rewrite Ht in Ea|].
    exists rows. split; [done|]. unfold grown in *. cbn. by rewrite Hk.
  - by left.
Qed.
Lemma audit_log_run plugins flags inet now who act rtype rid payload ip ua plugin l a l' :
  audit_log plugins flags inet now who act rtype rid payload ip ua plugin l = (Ok a, l') →
  ∃ r, l' = l ++ [r] ∧ au_email r = who.1.
Proof.
  unfold audit_log. destruct (negb _); [done|]. destruct (negb _); [done|]. unfold modify. intros [= <- <-]. eauto.
Qed.
Lemma audit_run cl' act rtype rid payload t :
  (∃ t', AdminRoutes.audit drv cl' act rtype rid payload t = (Ok (), t') ∧
    t_aborted t = false ∧ t_aborted t' = false ∧ constraints (t_db t') = true ∧
    ∃ r, d_audit (t_db t') = d_audit (t_db t) ++ [r] ∧ au_email r = (actor cl').1) ∨
  ∃ e t', AdminRoutes.audit drv cl' act rtype rid payload t = (Err e, t') ∧ t_aborted t' = true ∧ t_db t' = t_db t.
Proof.
  unfold AdminRoutes.audit, stmt. destruct (t_aborted t) eqn:Ea; [right; eauto|]. rewrite bind_gets. unfold zoom, id.
  destruct (audit_log _ _ _ _ _ _ _ _ _ _ _ _ (d_audit (t_db t))) as [[a|e] l] eqn:E; [|right; eauto].
  destruct (constraints _) eqn:Ec; [|right; eauto]. destruct a. left. eexists. split; [done|]. cbn.
  apply audit_log_run in E as (r & -> & Hr). split_and!; [done|done|exact Ec|eauto].
Qed.
(** The caller, or the system when nobody is signed in. *)
Definition known (cl' : call) : Prop := (actor cl').1 = (actor cl).1 ∨ (c_session cl = [] ∧ (actor cl').1 = "system").
Lemma orderly_audit cl' act rtype rid payload : known cl' → Orderly (AdminRoutes.audit drv cl' act rtype rid payload).
Proof.
  intros Hcl. constructor; intros t Ht; destruct (audit_run cl' act rtype rid payload t) as [(t' & -> & Ha & Ha' & Hc & r & Hl & Hr)|(e & t' & -> & Ha & Hd)]; cbn [snd].
  - split; [done|]. destruct Ht as [_ (rows & Hg & Hf)]. exists (rows ++ [r]). split; [by rewrite Hl, Hg, app_assoc|].
    apply Forall_app. split; [done|]. constructor; [|constructor]. unfold by_actor. by rewrite Hr.
  - unfold running, grown in *. by rewrite Hd.
  - destruct Ht as [Ht|(rows & Hne & Hg & Hf)]; [by rewrite Ht in Ha|]. right. exists (rows ++ [r]). split; [by destruct rows|].
    split; [by rewrite Hl, Hg, app_assoc|]. apply Forall_app. split; [done|]. constructor; [|constructor]. unfold by_actor. by rewrite Hr.
  - by left.
Qed.
#[export] Instance orderly_audit_self act rtype rid payload : Orderly (AdminRoutes.audit drv cl act rtype rid payload).
Proof. apply orderly_audit. by left. Qed.
#[export] Instance logs_audit act rtype rid payload : Logs (AdminRoutes.audit drv cl act rtype rid payload).
Proof.
  intros t a t' Ht E. destruct (audit_run cl act rtype rid payload t) as [(t1 & E1 & _ & _ & _ & r & Hl & Hr)|(e & t1 & E1 & _)]; rewrite E1 in E; [|done].
  injection E as <- <-. right. destruct Ht as [_ (rows & Hg & Hf)]. exists (rows ++ [r]). split; [by destruct rows|].
  split; [by rewrite Hl, Hg, app_assoc|]. apply Forall_app. split; [done|]. constructor; [|constructor]. left. exact Hr.
Qed.
(** An entry written first is kept, one written later is awaited. *)
Lemma logs_bind_l {A B} (m : SM tx A) (k : A → SM tx B) : Logs m → (∀ a, Orderly (k a)) → Logs (m ≫= k).
Proof.
  intros Hm Hk t b t'' Ht (a & t' & E & Ek)%bind_ok. specialize (Hm t a t' Ht E).
  pose proof (orderly_logged (Orderly := Hk a) t' Hm) as H. by rewrite Ek in H.
Qed.
Lemma logs_bind_r {A B} (m : SM tx A) (k : A → SM tx B) : Orderly m → (∀ a, Logs (k a)) → Logs (m ≫= k).
Proof.
  intros Hm Hk t b t'' Ht (a & t' & E & Ek)%bind_ok. apply (Hk a t' b t''); [|done].
  pose proof (orderly_running (Orderly := Hm) t Ht) as H. by rewrite E in H.
Qed.
#[export] Instance logs_raise {A} e : Logs (raise e : SM tx A).
Proof. by intros t a t' _. Qed.
End growth.

(** ** Handlers *)
Section handlers.
Variables (drv : driver) (cl : call).

#[export] Instance keeps_audit_on_cat {A} (m : SM catalog A) : Keeps d_audit (on_cat m).
Proof. intros d. unfold on_cat, zoom. by destruct (m (d_cat d)). Qed.
#[export] Instance keeps_audit_of_exn {A} (r : result exn A) : Keeps d_audit (of_exn r).
Proof. by destruct r. Qed.
#[export] Instance keeps_audit_jsonb t : Keeps d_audit (jsonb t).
Proof. unfold jsonb. destruct (loads t); apply _. Qed.
#[export] Instance keeps_audit_columns l : Keeps d_audit (set_columns l).
Proof. induction l as [|[k t] l IH]; cbn [set_columns]; apply _. Qed.
#[export] Instance keeps_audit_timestamp s : Keeps d_audit (timestamp drv s).
Proof. unfold timestamp. destruct s as [t|]; [destruct (dr_time drv t)|]; apply _. Qed.

Variable d0 : adb.
Notation Orderly := (Orderly cl d0).
Notation Logs := (Logs cl d0).

#[export] Instance orderly_select {A} (f : adb → A) : Orderly (select f).
Proof. unfold select. apply _. Qed.
Lemma orderly_execute f : (∀ d, d_audit (f d) = d_audit d) → Orderly (execute f).
Proof. intros H. unfold execute. apply orderly_stmt. exact H. Qed.
#[export] Instance orderly_adapt v : Orderly (adapt drv v).
Proof. unfold adapt. destruct (dr_adapt drv v); apply _. Qed.
#[export] Instance orderly_adapt_fields l : Orderly (adapt_fields drv l).
Proof. induction l as [|[k v] l IH]; cbn [adapt_fields]; apply _. Qed.
#[export] Instance orderly_update_plugin i fs : Orderly (update_plugin drv i fs).
Proof. unfold update_plugin. destruct (filter _ fs); apply _. Qed.
#[export] Instance orderly_loaded v : Orderly (loaded v).
Proof. unfold loaded. destruct v; try apply _. destruct (loads s); apply _. Qed.
#[export] Instance orderly_create_cohort n x t : Orderly (create_cohort n x t).
Proof. unfold create_cohort. apply _. Qed.
#[export] Instance orderly_add_members i l n : Orderly (add_members i l n).
Proof. revert n. induction l as [|[t v] l IH]; intros n; cbn [add_members]; apply _. Qed.
#[export] Instance orderly_create_campaign n x a r t u dl s ro p : Orderly (create_campaign drv cl n x a r t u dl s ro p).
Proof.
  unfold create_campaign. apply orderly_stmt. apply keeps_bind; [apply _|]. intros st. apply keeps_bind; [apply _|]. intros _.
  destruct (Life.create_campaign _ _ _ _ _ _ _ _ _ _ _ _ _ _). apply _.
Qed.
#[export] Instance orderly_set_campaign_status i s : Orderly (set_campaign_status i s).
Proof. unfold set_campaign_status. by apply orderly_execute. Qed.
#[export] Instance orderly_create_plugin s a : Orderly (create_plugin drv cl s a).
Proof.
  unfold create_plugin. apply orderly_bind; [apply _|]. intros old. apply orderly_bind; [|intros _; apply _].
  destruct old; [by apply orderly_execute|apply _].
Qed.
#[export] Instance orderly_purge_removed : Orderly purge_removed.
Proof.
  unfold purge_removed. apply orderly_bind; [apply _|]. intros [|i l]; [apply _|].
  apply orderly_bind; [by apply orderly_execute|]. intros _. apply _.
Qed.
#[export] Instance orderly_delete_campaigns g : Orderly (delete_campaigns g).
Proof. unfold delete_campaigns. apply orderly_bind; [by apply orderly_execute|]. intros _. apply _. Qed.
#[export] Instance orderly_clean_artifacts : Orderly clean_artifacts.
Proof. by apply orderly_execute. Qed.
#[export] Instance orderly_review p w s : Orderly (review cl p w s).
Proof. by apply orderly_execute. Qed.
#[export] Instance orderly_create_client a b c e f g : Orderly (create_client a b c e f g).
Proof. unfold create_client. apply _. Qed.
#[export] Instance orderly_link p k e : Orderly (link_plugin_client p k e).
Proof. apply orderly_execute. intros d. by case_decide. Qed.
#[export] Instance orderly_create_communication f p c ch : Orderly (create_communication drv cl f p c ch).
Proof. unfold create_communication. apply _. Qed.
#[export] Instance orderly_update_communication_status i s : Orderly (update_communication_status cl i s).
Proof. unfold update_communication_status. apply _. Qed.
#[export] Instance orderly_safe_reconcile slug t src : Orderly (safe_reconcile drv cl slug t src).
Proof.
  unfold safe_reconcile. set (who := match c_session cl with [] => _ | _ => _ end).
  apply orderly_catch; [|intros ?; apply _]. apply orderly_bind.
  { apply orderly_stmt. apply keeps_bind; [apply _|]. intros st. destruct (Catalogue.reconcile_catalog_from_template _ _ _). apply _. }
  intros diff. apply orderly_catch; [|intros ?; apply _]. apply orderly_audit. unfold known, who, actor.
  destruct (c_session cl) as [|kv s] eqn:Es; [right; done|left; done].
Qed.

(** What a handler did: nothing, or a change with its entries. *)
Definition accounted {A} (r : result exc A) (d : adb) : Prop :=
  constraints d = true ∧
  (d = d0 ∨ (∃ a, r = Ok a) ∧ ∃ rows, rows ≠ [] ∧ d_audit d = d_audit d0 ++ rows ∧ Forall (by_actor cl) rows).
Hypothesis Hd0 : constraints d0 = true.

Lemma start_running : running cl d0 (Tx d0 false).
Proof. split; [done|]. exists []. split; [by rewrite app_nil_r|constructor]. Qed.
Lemma committed_accounted {A} (m : SM tx A) a t : Orderly m → Logs m → m (Tx d0 false) = (Ok a, t) →
  accounted (Ok a) (if t_aborted t then d0 else t_db t).
Proof.
  intros Ho Hl E. destruct (t_aborted t) eqn:Ea; [split; [done|by left]|].
  pose proof (@orderly_running cl d0 _ _ Ho _ start_running) as Hr. rewrite E in Hr. destruct Hr as [Hc _]. split; [done|]. right.
  split; [eauto|]. destruct (Hl _ _ _ start_running E) as [Ht|(rows & Hne & Hg & Hf)]; [by rewrite Ea in Ht|eauto].
Qed.
Lemma transaction_accounted {A} (m : SM tx A) : Orderly m → Logs m → accounted (transaction m d0).1 (transaction m d0).2.
Proof.
  intros Ho Hl. unfold transaction. destruct (m (Tx d0 false)) as [[a|e] t] eqn:E; cbn [fst snd].
  - by apply (committed_accounted m).
  - split; [done|by left].
Qed.
(** The [except] clauses keep the state. *)
Lemma catch_accounted {A} (m : SM adb A) h : (∀ e d, (h e d).2 = d) → accounted (m d0).1 (m d0).2 →
  accounted (catch m h d0).1 (catch m h d0).2.
Proof.
  intros Hh. unfold catch. destruct (m d0) as [[a|e] d]; cbn [fst snd]; [done|]. intros [Hc [->|[[a ?] _]]]; [|done].
  rewrite Hh. split; [done|by left].
Qed.
Lemma nothing_accounted {A} (r : result exc A) : accounted r d0.
Proof. split; [done|by left]. Qed.
End handlers.

(** Solves the two obligations of the body of a handler. *)
Ltac logs_body :=
  first [ apply logs_bind_l; [apply _ | intros ?; apply _]
        | apply logs_bind_l; [apply _ | intros ?; repeat (apply orderly_bind; [first [apply _ | by apply orderly_execute] | intros ?]); apply _]
        | apply logs_bind_r; [first [apply _ | by apply orderly_execute] | intros ?; logs_body]
        | apply logs_raise ].
Ltac orderly_body :=
  repeat first [ apply _ | apply orderly_bind; [first [apply _ | by apply orderly_execute] | intros ?] | by apply orderly_execute ].

Section accounts.
Variables (drv : driver) (cl : call) (d0 : adb).
Hypothesis Hd0 : constraints d0 = true.
Notation accounts m := (accounted cl d0 (m d0).1 (m d0).2).

Lemma or_400_accounted {A} (m : SM tx A) : Orderly cl d0 m → Logs cl d0 m → accounts (or_400 (transaction m)).
Proof. intros Ho Hl. unfold or_400. apply catch_accounted; [done|]. by apply transaction_accounted. Qed.
Lemma or_400_keep_accounted {A} (m : SM tx A) : Orderly cl d0 m → Logs cl d0 m → accounts (or_400_keep (transaction m)).
Proof. intros Ho Hl. unfold or_400_keep. apply catch_accounted; [by intros [] d|]. by apply transaction_accounted. Qed.
Lemma json_accounted st (m : SM tx answer) : Orderly cl d0 m → Logs cl d0 m → accounts (or_json_400 st (transaction m)).
Proof. intros Ho Hl. unfold or_json_400. apply catch_accounted; [done|]. by apply transaction_accounted. Qed.

Lemma duplicate_accounted i : accounts (catalog_plugin_duplicate drv cl i).
Proof.
  apply or_400_keep_accounted.
  - apply orderly_bind; [apply _|]. intros [p|]; apply _.
  - apply logs_bind_r; [apply _|]. intros [p|]; logs_body.
Qed.
Lemma flag_default_accounted i v : accounts (flag_update_default drv cl i v).
Proof.
  apply or_400_accounted.
  - apply orderly_bind; [apply _|]. intros [f|]; orderly_body.
  - apply logs_bind_r; [apply _|]. intros [f|]; logs_body.
Qed.
Lemma logo_accounted i f data : accounts (catalog_upload_logo drv cl i f data).
Proof.
  unfold catalog_upload_logo. destruct (dget _ _); [|by apply nothing_accounted]. destruct (_ <? _); [by apply nothing_accounted|].
  apply catch_accounted; [done|]. apply transaction_accounted; [done|..].
  - apply orderly_bind; [apply _|]. intros [p|]; apply _.
  - apply logs_bind_r; [apply _|]. intros [p|]; logs_body.
Qed.
Lemma template_accounted i t : accounts (catalog_save_config_template drv cl i t).
Proof.
  unfold catalog_save_config_template. destruct t as [| | | | |[|kv t]]; try by apply nothing_accounted.
  apply catch_accounted; [done|]. set (body := mbind _ _). cbv beta.
  assert (Ho : Orderly cl d0 body).
  { apply orderly_bind; [apply _|]. intros [|]; [|apply _]. apply orderly_bind; [apply _|]. intros _. apply orderly_bind; [apply _|].
    intros p. apply orderly_bind; [|intros _; apply _]. destruct p; apply _. }
  destruct (body (Tx d0 false)) as [[[a|]|e] tx'] eqn:E; try by apply nothing_accounted. cbn [fst snd].
  destruct (t_aborted tx') eqn:Ea; [by apply nothing_accounted|].
  pose proof (@orderly_running cl d0 _ _ Ho _ (start_running cl d0 Hd0)) as Hr. rewrite E in Hr. destruct Hr as [Hc _].
  split; [done|]. right. split; [eauto|]. unfold body in E. apply bind_ok in E as (ok & t1 & E1 & E2).
  assert (Hr1 : running cl d0 t1).
  { eapply (maintains_run (running cl d0)); [|exact E1|by apply start_running]. apply orderly_running, orderly_update_plugin. }
  destruct ok; [|done].
  assert (Hl : Logs cl d0 (audit drv cl "plugin.config_template.update" "plugin" (Some (str_id i)) JNull;;
    p ← catch (select (λ d, get_plugin d i)) (λ _, mret None);
    (match p with Some p => let slug := str_or (pl_slug (pg_row p)) (pl_device_type (pg_row p)) in
       if truthy_str slug then safe_reconcile drv cl slug (JObj (_apply_platform_defaults (kv :: t))) "admin:config-template" else mret ()
     | None => mret () end);; mret (Some (Reply 200 [("ok", JBool true)])))).
  { apply logs_bind_l; [apply _|]. intros _. apply orderly_bind; [apply _|]. intros p. apply orderly_bind; [|intros _; apply _]. destruct p; cbv zeta; apply _. }
  destruct (Hl _ _ _ Hr1 E2) as [Ht|(rows & Hne & Hg & Hf)]; [by rewrite Ea in Ht|eauto].
Qed.

Lemma version_create_accounted p v n a u m lo hi s : accounts (catalog_version_create drv cl p v n a u m lo hi s).
Proof.
  unfold catalog_version_create. destruct (_ && _); [by apply nothing_accounted|]. apply or_400_accounted; [orderly_body|logs_body].
Qed.
Lemma reject_accounted p w : let rd := catalog_waitlist_reject cl p w d0 in
  constraints rd.2 = true ∧ (rd.2 = d0 ∨ (∃ a, rd.1 = Ok a) ∧ (∃ p' w', WaitlistReject p w = WaitlistReject p' w') ∧ d_audit rd.2 = d_audit d0).
Proof.
  unfold catalog_waitlist_reject, or_400, catch, transaction, review, execute, stmt, modify, mbind, SM_bind, mret, SM_ret. cbn [t_aborted t_db].
  destruct (constraints (set_wait _ _)) eqn:E; cbn; (split; [done|]); [right; split_and!; eauto|by left].
Qed.

(** C8. A form that is refused changes nothing; one that changes the database leaves
    entries of the audit log under the administrator's name, except the rejection
    of a waiting request, which leaves none; the constraints hold after it. *)
Theorem admin_forms_accounted f r d :
  submit drv cl f d0 = (r, d) →
  constraints d = true ∧
  (d = d0 ∨ (∃ a, r = Ok a) ∧
    ((∃ rows, rows ≠ [] ∧ d_audit d = d_audit d0 ++ rows ∧ Forall (by_actor cl) rows) ∨
     (∃ p w, f = WaitlistReject p w) ∧ d_audit d = d_audit d0)).
Proof.
  intros E. cut (accounted cl d0 r d ∨ constraints d = true ∧ (d = d0 ∨ (∃ a, r = Ok a) ∧ (∃ p w, f = WaitlistReject p w) ∧ d_audit d = d_audit d0)).
  { intros [[Hc [->|[Ha Hrows]]]|[Hc [->|(Ha & Hf & Hl)]]]; split; auto. }
  replace r with (submit drv cl f d0).1 by (by rewrite E). replace d with (submit drv cl f d0).2 by (by rewrite E). clear E r d.
  destruct f; cbn [submit].
  all: try match goal with
       | |- context [flag_update_default] => left; apply flag_default_accounted
       | |- context [catalog_plugin_duplicate] => left; apply duplicate_accounted
       | |- context [catalog_upload_logo] => left; apply logo_accounted
       | |- context [catalog_save_config_template] => left; apply template_accounted
       | |- context [catalog_version_create] => left; apply version_create_accounted
       | |- context [api_keycloak_create_client] => left; apply json_accounted; [orderly_body | logs_body]
       | |- context [catalog_waitlist_reject] => fail 1
       | |- _ => left; apply or_400_accounted; [orderly_body | logs_body]
       end.
  right. apply reject_accounted.
Qed.
End accounts.
