(* ===== verification/AdminFacts.v ===== *)
(** * What the administration forms do
    Duplication, purges, access mode, campaigns and templates: what the handlers of
    [AdminRoutes], [AdminCatalog], [AdminSettings] and [Communications] leave in the
    database, and where that is not what the page promises. *)
From S2P Require Import Prelude Text Json Effects Campaigns Config Cohorts Flags GetConfig Catalog AuditLog AdminDb AdminRoutes AdminCatalog AdminSettings Communications AdminForms.
From Stdlib Require Import Ascii String.
Open Scope Z_scope.

(** ** Running a handler *)
Lemma stmt_ok {A} (m : SM adb A) d a t : stmt m (Tx d false) = (Ok a, t) →
  ∃ d', m d = (Ok a, d') ∧ t = Tx d' false ∧ constraints d' = true.
Proof.
  unfold stmt. cbn [t_aborted t_db]. destruct (m d) as [[b|e] d']; [|done]. destruct (constraints d') eqn:E; [|done].
  intros [= -> <-]. eauto.
Qed.
Lemma execute_ok f d a t : execute f (Tx d false) = (Ok a, t) → t = Tx (f d) false ∧ constraints (f d) = true.
Proof. intros (d' & Em & -> & Hc)%stmt_ok. injection Em as _ <-. done. Qed.
Lemma select_ok {A} (f : adb → A) d a t : select f (Tx d false) = (Ok a, t) → a = f d ∧ t = Tx d false.
Proof. intros (d' & Em & -> & _)%stmt_ok. by injection Em as <- <-. Qed.
Lemma audit_ok drv cl act rt rid p d a t : audit drv cl act rt rid p (Tx d false) = (Ok a, t) →
  ∃ rows, t = Tx (set_audit rows d) false ∧ constraints (set_audit rows d) = true.
Proof.
  intros (d' & Em & -> & Hc)%stmt_ok. rewrite bind_gets in Em. apply zoom_ok in Em as (rows & _ & ->). unfold id in *. eauto.
Qed.
(** The entry itself. *)
Lemma audit_entry drv cl act rt rid p d a t : audit drv cl act rt rid p (Tx d false) = (Ok a, t) →
  ∃ row, t = Tx (set_audit (d_audit d ++ [row]) d) false ∧ au_action row = act ∧ au_payload row = (if truthy p then p else JNull) ∧ au_email row = (actor cl).1.
Proof.
  intros (d' & Em & -> & _)%stmt_ok. rewrite bind_gets in Em. apply zoom_ok in Em as (l & Em & ->). unfold audit_log in Em.
  destruct (negb (fits_opt _ _)) in Em; [done|]. destruct (negb _) in Em; [done|]. injection Em as _ <-. eexists. by split_and!.
Qed.
Lemma transaction_ok {A} (m : SM tx A) d a d' : transaction m d = (Ok a, d') →
  ∃ t, m (Tx d false) = (Ok a, t) ∧ d' = (if t_aborted t then d else t_db t).
Proof. unfold transaction. destruct (m (Tx d false)) as [[b|e] t]; [|done]. intros [= -> <-]. eauto. Qed.
Lemma or_400_ok {A} (m : SM adb A) d a d' : or_400 m d = (Ok a, d') → m d = (Ok a, d').
Proof. unfold or_400, catch. by destruct (m d) as [[b|e] s]. Qed.

(** Inverts the run of a handler that succeeded, statement by statement. *)
Ltac run_step :=
  match goal with
  | H : or_400 _ _ = (Ok _, _) |- _ => apply or_400_ok in H
  | H : transaction _ _ = (Ok _, _) |- _ => apply transaction_ok in H as (? & H & ?)
  | H : mbind _ _ _ = (Ok _, _) |- _ => apply bind_ok in H as (? & ? & ? & H)
  | H : execute _ _ = (Ok _, _) |- _ => apply execute_ok in H as [? ?]
  | H : select _ _ = (Ok _, _) |- _ => apply select_ok in H as [? ?]
  | H : audit _ _ _ _ _ _ _ = (Ok _, _) |- _ => apply audit_ok in H as (? & ? & ?)
  | H : stmt _ _ = (Ok _, _) |- _ => apply stmt_ok in H as (? & H & ? & ?)
  | H : mret _ _ = (Ok _, _) |- _ => injection H as ? ?
  | H : gets _ _ = (Ok _, _) |- _ => injection H as ? ?
  | H : modify _ _ = (Ok _, _) |- _ => injection H as ? ?
  | H : on_cat _ _ = (Ok _, _) |- _ => apply zoom_ok in H as (? & H & ?)
  end.
Ltac run := repeat (run_step; subst; cbn [t_aborted t_db] in *); unfold id in *.

(** ** Duplication *)
Lemma sapp_cancel (b x y : string) : b +:+ x = b +:+ y → x = y.
Proof. induction b as [|c b IH]; [done|]. intros [= H]. by apply IH. Qed.
Lemma sapp_longer (b : string) c y : b ≠ b +:+ String c y.
Proof. induction b as [|a b IH]; [done|]. intros [= H]. by apply IH. Qed.
Lemma copy_slug_inj base n m : copy_slug base n = copy_slug base m → n = m.
Proof.
  unfold copy_slug. destruct (Z.eqb_spec n 1) as [->|Hn], (Z.eqb_spec m 1) as [->|Hm]; [done| | |].
  - by intros ?%sapp_longer.
  - by intros ?%eq_sym%sapp_longer.
  - intros H%sapp_cancel%sapp_cancel. apply (f_equal py_int) in H. rewrite !py_int_str_int in H. by injection H.
Qed.

Section free_slug.
Variables (d : adb) (base : string).
Definition taken (s : string) : Prop := s ∈ (λ p, pl_slug (pg_row p)) <$> ct_plugins (d_cat d).
Lemma get_plugin_by_slug_taken s : is_Some (get_plugin_by_slug d s) ↔ taken s.
Proof.
  unfold get_plugin_by_slug, taken. split.
  - intros [p Hp]. apply List.find_some in Hp as [Hin Hb]. apply bool_decide_eq_true in Hb as <-.
    apply (list_elem_of_fmap_2 (λ p, pl_slug (pg_row p))). by apply list_elem_of_In.
  - intros (p & -> & Hp)%list_elem_of_fmap. destruct (find _ _) eqn:E; [eauto|].
    apply list_elem_of_In, (List.find_none _ _ E) in Hp. by apply bool_decide_eq_false in Hp.
Qed.
(** The candidates before the result are all taken; out of fuel, as many
    candidates are. *)
Lemma free_slug_go fuel n :
  match free_slug fuel base n d with
  | Some s => ∃ k, s = copy_slug base (n + Z.of_nat k) ∧ ¬ taken s ∧ ∀ j, (j < k)%nat → taken (copy_slug base (n + Z.of_nat j))
  | None => ∀ j, (j < fuel)%nat → taken (copy_slug base (n + Z.of_nat j))
  end.
Proof.
  revert n. induction fuel as [|fuel IH]; intros n; cbn [free_slug]; [intros; lia|].
  destruct (get_plugin_by_slug d (copy_slug base n)) eqn:E.
  - assert (Ht : taken (copy_slug base n)) by (apply get_plugin_by_slug_taken; eauto). specialize (IH (n + 1)).
    destruct (free_slug fuel base (n + 1) d) as [s|].
    + destruct IH as (k & -> & Hn & Hb). exists (S k). split_and!; [f_equal; lia|done|].
      intros [|j] Hj; [by rewrite Z.add_0_r|]. replace (n + Z.of_nat (S j)) with (n + 1 + Z.of_nat j) by lia. apply Hb. lia.
    + intros [|j] Hj; [by rewrite Z.add_0_r|]. replace (n + Z.of_nat (S j)) with (n + 1 + Z.of_nat j) by lia. apply IH. lia.
  - exists 0%nat. rewrite Z.add_0_r. split_and!; [done| |intros; lia]. rewrite <- get_plugin_by_slug_taken, E. by intros [].
Qed.

(** The search for the slug of a copy ends within as many queries as there are
    plugins, plus one: its result is the first of [base], [base-2], [base-3], ...
    that no plugin has, removed ones included. *)
Theorem copy_slug_found :
  ∃ k, free_slug (S (List.length (ct_plugins (d_cat d)))) base 1 d = Some (copy_slug base (1 + Z.of_nat k)) ∧
    (k ≤ List.length (ct_plugins (d_cat d)))%nat ∧ ¬ taken (copy_slug base (1 + Z.of_nat k)) ∧
    ∀ j, (j < k)%nat → taken (copy_slug base (1 + Z.of_nat j)).
Proof.
  assert (Hpig : ∀ k, (∀ j, (j < k)%nat → taken (copy_slug base (1 + Z.of_nat j))) → (k ≤ List.length (ct_plugins (d_cat d)))%nat).
  { intros k Hk. set (cs := (λ j, copy_slug base (1 + Z.of_nat j)) <$> seq 0 k).
    assert (Hn : NoDup cs). { apply NoDup_fmap_2_strong; [|apply NoDup_seq]. intros x y _ _ H%copy_slug_inj. lia. }
    assert (Hs : cs ⊆ (λ p, pl_slug (pg_row p)) <$> ct_plugins (d_cat d)).
    { intros x (j & -> & Hj)%list_elem_of_fmap. apply Hk. apply elem_of_seq in Hj. lia. }
    pose proof (NoDup_submseteq cs _ Hn Hs) as H%submseteq_length. unfold cs in H. rewrite !length_fmap, length_seq in H. done. }
  pose proof (free_slug_go (S (List.length (ct_plugins (d_cat d)))) 1) as H. destruct (free_slug _ _ _ _) as [s|].
  - destruct H as (k & -> & Hn & Hb). exists k. auto.
  - exfalso. pose proof (Hpig _ H). lia.
Qed.
End free_slug.

(** ** Purges *)
Definition primary (vs : list version_row) (cs : list campaign_row) (i : Z) : Prop :=
  (∃ v, v ∈ vs ∧ vr_artifact v = Some i) ∨ (∃ c, c ∈ cs ∧ (cp_artifact c = Some i ∨ cp_rollback c = Some i)).
Lemma kept_primary d a : orphan_artifact d a = false ↔ primary (ct_versions (d_cat d)) (Life.st_rows (d_camps d)) (a_id a).
Proof.
  unfold orphan_artifact, primary. rewrite !andb_false_iff, !negb_false_iff, !bool_decide_eq_true, !list_elem_of_fmap. naive_solver.
Qed.

Lemma constraints_refs d t i : constraints d = true → (t, i) ∈ refs d → i ∈ keys d t.
Proof.
  unfold constraints, references_ok. intros [[H _]%andb_true_iff _]%andb_true_iff Hin. rewrite forallb_forall in H.
  specialize (H (t, i)). apply list_elem_of_In in Hin. by apply H, bool_decide_eq_true in Hin.
Qed.
Lemma variant_ref d v : v ∈ ct_variants (d_cat d) → (TArtifact, va_artifact v) ∈ refs d.
Proof.
  intros Hv. unfold refs. do 5 (apply elem_of_app; right). apply elem_of_app. left. apply list_elem_of_bind. exists v.
  split; [|done]. unfold refs_of_variant. set_solver.
Qed.

(** Purging the old versions of a plugin: they go, and only they; the campaigns
    forget them; then every artifact that is neither the main artifact of a version
    left, of any plugin, nor an artifact of a campaign goes, and with it the
    variants of published versions that hold it. *)
Theorem versions_purge_spec drv cl p d a d' :
  catalog_versions_purge drv cl p d = (Ok a, d') →
  ct_versions (d_cat d') = filter (λ v, old_version p v = false) (ct_versions (d_cat d)) ∧
  Life.st_rows (d_camps d') = detach_version (vr_id <$> old_versions p d) <$> Life.st_rows (d_camps d) ∧
  (∀ x, x ∈ ct_artifacts (d_cat d') ↔ x ∈ ct_artifacts (d_cat d) ∧ primary (ct_versions (d_cat d')) (Life.st_rows (d_camps d')) (a_id x)) ∧
  (∀ v, v ∈ ct_variants (d_cat d') → v ∈ ct_variants (d_cat d) ∧ primary (ct_versions (d_cat d')) (Life.st_rows (d_camps d')) (va_artifact v)) ∧
  constraints d' = true.
Proof.
  intros E. unfold catalog_versions_purge, clean_artifacts in E. run.
  match goal with H : constraints (set_audit ?r ?d1) = true |- _ => set (d2 := set_audit r d1) in *; rename H into Hc end.
  assert (Ha : ∀ x, x ∈ ct_artifacts (d_cat d2) ↔ x ∈ ct_artifacts (d_cat d) ∧ primary (ct_versions (d_cat d2)) (Life.st_rows (d_camps d2)) (a_id x)).
  { intros x. unfold d2, drop_artifacts. cbn [set_audit d_cat d_camps set_cat ct_artifacts set_artifacts set_variants ct_versions].
    rewrite list_elem_of_filter, kept_primary. cbn. tauto. }
  split_and!; [done|done|exact Ha| |exact Hc]. intros v Hv. split.
  - unfold d2 in Hv. cbn in Hv. by repeat apply list_elem_of_filter in Hv as [_ Hv].
  - apply variant_ref, (constraints_refs d2) in Hv as Hr; [|done]. cbn [keys] in Hr. apply list_elem_of_fmap in Hr as (x & -> & Hx). by apply Ha.
Qed.

(** No row refers to the key [i] of [t]. *)
Definition unreferenced (d : adb) (t : tbl) (i : Z) : Prop := (t, i) ∉ refs d.
(** Purging the removed plugins: when it succeeds they are gone and no removed
    plugin is left, the others are as they were, nothing in the database refers to
    one that went, and no artifact is deleted. *)
Theorem purge_removed_spec drv cl d a d' :
  catalog_purge_removed drv cl d = (Ok a, d') →
  ct_plugins (d_cat d') = filter (λ p, p_id p ∉ removed_ids d) (ct_plugins (d_cat d)) ∧ removed_ids d' = [] ∧
  (∀ i, i ∈ removed_ids d → unreferenced d' TPlugin i) ∧
  ct_artifacts (d_cat d') = ct_artifacts (d_cat d) ∧ constraints d' = true.
Proof.
  intros E. unfold catalog_purge_removed, purge_removed in E. run.
  destruct (removed_ids d) as [|i0 l] eqn:Er; run.
  - assert (Hf : ∀ ps : list plugin, filter (λ p, p_id p ∉ []) ps = ps) by (intros ps; induction ps as [|q ps IH]; [done|]; rewrite filter_cons_True by set_solver; by rewrite IH).
    cbn [set_audit d_cat]. rewrite Hf. split_and!; [done|exact Er|set_solver|done|done].
  - rewrite <- Er in *. clear Er.
    match goal with H : constraints (set_audit ?r ?d1) = true |- _ => set (d2 := set_audit r d1) in *; rename H into Hc end.
    assert (Hp : ct_plugins (d_cat d2) = filter (λ p, p_id p ∉ removed_ids d) (ct_plugins (d_cat d))) by done.
    split_and!; [exact Hp| | |done|exact Hc].
    + destruct (removed_ids d2) as [|i l'] eqn:Ed; [done|]. exfalso.
      assert (Hin : i ∈ removed_ids d2) by (rewrite Ed; set_solver). unfold removed_ids at 1 in Hin. rewrite Hp in Hin.
      apply list_elem_of_fmap in Hin as (p & -> & [Hl [Hn Hin]%list_elem_of_filter]%list_elem_of_filter).
      apply Hn. unfold removed_ids. apply list_elem_of_fmap_2. by apply list_elem_of_filter.
    + intros i Hi Hr. apply (constraints_refs d2) in Hr; [|done]. cbn [keys] in Hr. rewrite Hp in Hr.
      apply list_elem_of_fmap in Hr as (p & -> & Hin). by apply list_elem_of_filter in Hin as [Hn _].
Qed.

(** ** Access *)
(** Nothing but the audit log differs. *)
Definition same_but_log (d d' : adb) : Prop := d' = set_audit (d_audit d') d.
(** The form that sets the access mode of a plugin changes no plugin, nor anything
    but the audit log, whatever mode it is given, and is answered as if it had: the
    service ignores the three columns. *)
Theorem access_update_is_dropped drv cl p maturity access_mode required_group d r d' :
  catalog_access_update drv cl p maturity access_mode required_group d = (r, d') →
  same_but_log d d' ∧ ∀ a, r = Ok a → a = catalog_tab p "access".
Proof.
  intros E. unfold same_but_log, catalog_access_update, or_400, catch, transaction in E.
  assert (Hu : update_plugin drv p [("maturity", JStr maturity); ("access_mode", JStr access_mode);
    ("required_group", AdminRoutes.opt_json (some_text required_group))] (Tx d false) = (Ok false, Tx d false)) by done.
  rewrite (bind_step _ _ _ _ _ Hu) in E. unfold mbind, SM_bind in E.
  destruct (audit_run drv cl "plugin.access.update" "plugin" (Some (str_id p)) (JObj [("maturity", JStr maturity); ("access_mode", JStr access_mode)]) (Tx d false))
    as [(t' & E1 & _ & Ha & _)|(e & t' & E1 & _)]; rewrite E1 in E; cbn in E.
  - rewrite Ha in E. injection E as <- <-. split; [|by intros a [= <-]]. apply audit_ok in E1 as (rows & -> & _). done.
  - injection E as <- <-. split; [by destruct d|done].
Qed.

(** ** Communications *)
(** No communication can be created: the statement names a column that the table
    does not have. *)
Theorem communication_create_refused drv cl f d : ∃ e, communication_create drv cl f d = (Err (Http e), d) ∧ he_status e = 400.
Proof.
  unfold communication_create, or_400, catch, transaction. unfold mbind at 1, SM_bind at 1, lift at 1.
  destruct (form_id (cf_plugin f)) as [p|[h|s]] eqn:Ep; try (by eexists (HttpError _ _)).
  unfold mbind at 1, SM_bind at 1, lift at 1. destruct (form_id (cf_cohort f)) as [c|[h|s]] eqn:Ec; try (by eexists (HttpError _ _)).
Qed.

(** ** Campaigns *)
Definition actives (d : adb) : list campaign_row := filter (λ c, cp_status c = "active" ∧ cp_type c = "plugin_update") (Life.st_rows (d_camps d)).
Lemma complete_older_actives rows :
  Life.complete_older "plugin_update" None rows =
  (λ q, if decide (cp_status q = "active" ∧ cp_type q = "plugin_update") then Life.with_status "completed" q else q) <$> rows.
Proof.
  unfold Life.complete_older. apply list_fmap_ext. intros _ q _. unfold Life.superseded.
  case_decide as H; [rewrite bool_decide_eq_true_2 by tauto|rewrite bool_decide_eq_false_2 by tauto]; done.
Qed.
Lemma completed_not_active rows :
  filter (λ c, cp_status c = "active" ∧ cp_type c = "plugin_update") (Life.complete_older "plugin_update" None rows) = [].
Proof.
  rewrite complete_older_actives. induction rows as [|q rows IH]; [done|]. cbn [fmap list_fmap]. rewrite filter_cons_False; [done|].
  by case_decide as H; [intros []|].
Qed.
(** A campaign that is created active is the only active one afterwards: the others
    are completed, and nothing else about them changes. *)
Theorem created_campaign_is_alone drv cl name description a r t urgency deadline d x d' :
  campaign_create drv cl name description a r t urgency deadline "active" d = (Ok x, d') →
  ∃ c, actives d' = [c] ∧ cp_id c = Life.st_next (d_camps d) ∧ cp_name c = name ∧
       Life.st_rows (d_camps d') =
         ((λ q, if decide (cp_status q = "active" ∧ cp_type q = "plugin_update") then Life.with_status "completed" q else q)
            <$> Life.st_rows (d_camps d)) ++ [c].
Proof.
  intros E. unfold campaign_create, create_campaign in E. run.
  apply lift_ok in H as [_ ->], H0 as [_ ->], H1 as [_ ->]. run.
  match goal with H : (if ?b then raise _ else mret _) _ = _ |- _ => destruct b; [done|]; injection H as ? ?; subst end.
  unfold Life.create_campaign in *. cbn [fst snd] in *. run.
  unfold actives. cbn [set_audit set_camps d_camps Life.st_rows Life.st_next].
  match goal with |- context [Life.complete_older _ _ _ ++ [?c]] => exists c end.
  split_and!; [|reflexivity|reflexivity|].
  - rewrite filter_app, completed_not_active. done.
  - by rewrite complete_older_actives.
Qed.

(** ** Instances *)
Module Demo.
(** Texts and numbers have an adapter; the empty list is sent as an empty array. *)
Definition drv_ex : driver :=
  Driver (λ v, match v with JStr s => Some s | JNull => Some "null" | JArr [] => Some "{}" | _ => None end)
    (λ _, None) (λ t, Some t) (λ _, true).
Definition cl_ex : call := Call [("email", "ana@example.org"); ("sub", "ana")] (Some "10.0.0.1") 1000.
Definition plugin_ex (i : Z) (slug status : string) (template : json) : plugin :=
  Plugin (PluginRow i slug "firefox" status template (Some "open") None) slug (JArr []) None None None default_info.
Definition artifact_ex (i : Z) (variant path : string) : art_row :=
  ArtRow (Artifact i "firefox" (Some "2.0") (Some path) None None None None) (Some variant) true 0.
Definition version_ex (i : Z) (v status : string) (a : Z) : version_row :=
  VersionRow i 1 v (Some a) None None None None status "managed" None.
Definition campaign_ex (i : Z) (status : string) : campaign_row :=
  CampaignRow i "update" "" "plugin_update" status (Some 1) None (Some 1) None JNull (Some "normal") None None 0 None.
(** Version 2.0 of plugin 1 is published, with a main artifact and the artifact of
    a second variant; version 1.0 is deprecated. Plugin 2 has been removed. *)
Definition cat_ex : catalog :=
  Catalog [plugin_ex 1 "mirai" "active" (JObj [("default", JObj [])]); plugin_ex 2 "old" "removed" JNull] []
    [artifact_ex 1 "firefox" "a.xpi"; artifact_ex 2 "edge" "b.zip"; artifact_ex 3 "firefox" "old.xpi"]
    [version_ex 1 "2.0" "published" 1; version_ex 2 "1.0" "deprecated" 3]
    [VariantRow 1 1 1 "firefox"; VariantRow 2 1 2 "edge"; VariantRow 3 2 3 "firefox"] 4 3 4.
Definition db_ex : adb :=
  Adb cat_ex (Life.State [campaign_ex 1 "active"; campaign_ex 2 "paused"] 3) [] (Service.State [] [] 1) (FlagState [] [] 1) [] [] []
    [] [] [] [] [] [] 10.

Lemma db_ex_ok : constraints db_ex = true.
Proof. by vm_compute. Qed.

(** The purge of the deprecated version deletes the second variant of the
    published one. *)
Example purge_deletes_published_variant :
  let d' := (catalog_versions_purge drv_ex cl_ex 1 db_ex).2 in
  a_id <$> ct_artifacts (d_cat d') = [1] ∧ va_variant <$> ct_variants (d_cat d') = ["firefox"] ∧
  vr_status <$> ct_versions (d_cat d') = ["published"].
Proof. by vm_compute. Qed.
(** The edit form is refused unless its changelog is JSON text. *)
Definition edit_ex (changelog : string) : edit_form := EditForm "mirai" "" "" "" changelog "" "" "" "" "public".
Example edit_needs_json_changelog :
  (∃ e, (catalog_plugin_edit drv_ex cl_ex 1 (edit_ex "") db_ex).1 = Err e) ∧
  (∃ a, (catalog_plugin_edit drv_ex cl_ex 1 (edit_ex "[]") db_ex).1 = Ok a).
Proof. vm_compute. eauto. Qed.
(** The copy of a plugin whose changelog is empty gets an object for a changelog;
    one with entries cannot be copied. *)
Example duplicate_changelog :
  (λ p, pg_changelog p) <$> ct_plugins (d_cat (catalog_plugin_duplicate drv_ex cl_ex 1 db_ex).2) = [JArr []; JArr []; JObj []] ∧
  let d := set_cat (set_plugins [set_changelog (JArr [JObj [("version", JStr "2.0")]]) (plugin_ex 1 "mirai" "active" JNull)] (d_cat db_ex)) db_ex in
  (catalog_plugin_duplicate drv_ex cl_ex 1 d).1 = Err (Http (HttpError 400 "can't adapt type")).
Proof. by vm_compute. Qed.
(** A template whose reconciliation the database refuses is answered as saved, and
    is not. *)
Definition long_name : string := concat "" (repeat "0123456789" 11).
Example template_lost :
  let t := JObj [("default", JObj [("featureToggles", JObj [(long_name, JBool true)])])] in
  (catalog_save_config_template drv_ex cl_ex 1 t db_ex).1 = Ok (Reply 200 [("ok", JBool true)]) ∧
  (catalog_save_config_template drv_ex cl_ex 1 t db_ex).2 = db_ex.
Proof. by vm_compute. Qed.
(** Resuming a campaign leaves the other active one active. *)
Example two_active : cp_id <$> actives (campaign_resume drv_ex cl_ex 2 db_ex).2 = [1; 2].
Proof. by vm_compute. Qed.
(** The rejection of a waiting request is not in the audit log; its approval is. *)
Example reject_unlogged :
  let d := set_wait [WaitRow 1 (WaitlistRow 1 "bob@example.org" "pending") None None] db_ex in
  d_audit (catalog_waitlist_reject cl_ex 1 1 d).2 = [] ∧
  (λ w, wl_status (wr_row w)) <$> d_wait (catalog_waitlist_reject cl_ex 1 1 d).2 = ["rejected"] ∧
  au_action <$> d_audit (catalog_waitlist_approve drv_ex cl_ex 1 1 d).2 = ["waitlist.approve"].
Proof. by vm_compute. Qed.

(** The hypotheses of the theorems hold at [db_ex]. *)
Lemma admin_forms_accounted_witness :
  constraints db_ex = true ∧ constraints (submit drv_ex cl_ex (FlagsCreate "beta" "" "true" "" "") db_ex).2 = true.
Proof.
  split; [by vm_compute|]. destruct (submit _ _ _ _) as [r d] eqn:E.
  apply (admin_forms_accounted drv_ex cl_ex db_ex eq_refl (FlagsCreate "beta" "" "true" "" "") r d E).
Defined.
Lemma versions_purge_spec_witness :
  vr_id <$> ct_versions (d_cat (catalog_versions_purge drv_ex cl_ex 1 db_ex).2) = [1].
Proof.
  destruct (catalog_versions_purge drv_ex cl_ex 1 db_ex) as [r d] eqn:E.
  assert (Hr : r = Ok (Redirect "/admin/catalog/1?tab=versions")) by (apply (f_equal fst) in E; vm_compute in E; done). subst r.
  destruct (versions_purge_spec drv_ex cl_ex 1 db_ex _ d E) as [H _]. cbn [snd]. rewrite H. by vm_compute.
Defined.
Lemma purge_removed_spec_witness :
  p_id <$> ct_plugins (d_cat (catalog_purge_removed drv_ex cl_ex db_ex).2) = [1].
Proof.
  destruct (catalog_purge_removed drv_ex cl_ex db_ex) as [r d] eqn:E.
  assert (Hr : r = Ok (Redirect "/admin/catalog?purged=1")) by (apply (f_equal fst) in E; vm_compute in E; done). subst r.
  destruct (purge_removed_spec drv_ex cl_ex db_ex _ d E) as [H _]. cbn [snd]. rewrite H. by vm_compute.
Defined.
Lemma access_update_is_dropped_witness :
  d_cat (catalog_access_update drv_ex cl_ex 1 "beta" "keycloak_group" "admins" db_ex).2 = cat_ex ∧
  (catalog_access_update drv_ex cl_ex 1 "beta" "keycloak_group" "admins" db_ex).1 = Ok (catalog_tab 1 "access").
Proof.
  split; [|by vm_compute]. destruct (catalog_access_update _ _ _ _ _ _ _) as [r d] eqn:E.
  destruct (access_update_is_dropped drv_ex cl_ex 1 "beta" "keycloak_group" "admins" db_ex r d E) as [H _]. cbn [snd]. unfold same_but_log in H. by rewrite H.
Defined.
Lemma created_campaign_is_alone_witness :
  cp_id <$> actives (campaign_create drv_ex cl_ex "new" "" "1" "" "" "normal" "" "active" db_ex).2 = [3].
Proof.
  destruct (campaign_create drv_ex cl_ex "new" "" "1" "" "" "normal" "" "active" db_ex) as [r d] eqn:E.
  assert (Hr : r = Ok (Redirect "/admin/campaigns/3")) by (apply (f_equal fst) in E; vm_compute in E; done). subst r.
  destruct (created_campaign_is_alone drv_ex cl_ex "new" "" "1" "" "" "normal" "" db_ex _ d E) as (c & H & Hi & _).
  cbn [snd]. rewrite H. cbn. by rewrite Hi.
Defined.
End Demo.
