(* ===== verification/Chunks.v ===== *)
(** * Uploads in chunks
    Of [app/admin/router.py] [api_upload_chunk] and [_reassemble_upload]: a file
    sent in pieces to a directory of its own, and put together again. The disk maps
    physical paths to contents; a directory exists while it holds a file (an empty
    one, which only a refused first chunk leaves, is answered like an absent one).
    The symbolic links are those of [Paths]. *)
From stdpp Require Import sorting.
From S2P Require Import Prelude Text Json Effects Paths.
From Stdlib Require Import Ascii String.
Open Scope Z_scope.

(** ** The disk *)
Notation disk := (gmap (list string) string).
(** The components of a resolved path. *)
Definition comps (p : string) : list string := filter (λ c, c ≠ "") (split_on "/" p).
(** The first component of [k] below [d]. *)
Fixpoint below (d k : list string) : option string :=
  match d, k with
  | [], c :: _ => Some c
  | x :: d', y :: k' => if decide (x = y) then below d' k' else None
  | _, [] => None
  end.
(** [os.listdir], in some order *)
Definition listdir (d : list string) (m : disk) : list string := remove_dups (omap (λ kv : list string * string, below d kv.1) (map_to_list m)).
(** [shutil.rmtree(d, ignore_errors=True)] *)
Definition rmtree (d : list string) (m : disk) : disk := filter (λ kv : list string * string, ¬ d `prefix_of` kv.1) m.

(** [f"{i:06d}"] *)
Fixpoint zeros (n : nat) : string := match n with O => "" | S k => String "0" (zeros k) end.
Definition pad (n : nat) (s : string) : string := zeros (n - String.length s) +:+ s.
Definition fmt06 (i : Z) : string := if i <? 0 then String "-" (pad 5 (py_str_int (- i))) else pad 6 (py_str_int i).

Definition _CHUNK_MAX_SIZE : Z := 768 * 1024.
Record chunk_request : Type := ChunkRequest {
  cr_upload_id : string; cr_index : Z; cr_total : Z; cr_filename : string; cr_data : string }.

Section chunks.
(** The links, the working directory, [tempfile.gettempdir()], the paths that the
    disk accepts, and the identifier that [uuid4] draws. *)
Variables (links : gmap (list string) string) (cwd : list string) (tmp : string) (writable : string → bool) (fresh : string).

Definition _CHUNK_DIR : string := OsPath.join tmp "dm-upload-chunks".
Definition place (p : string) : list string := comps (OsPath.realpath links cwd p).
Definition lift_http {A} (r : result http_error A) : SM disk A := lift (match r with Ok a => Ok a | Err e => Err (Http e) end).
Definition put_file (p content : string) : SM disk () :=
  if writable p then modify (λ m : disk, <[place p := content]> m) else raise (Exc "OSError").
Definition chunk_names (d : list string) (m : disk) : list string := filter (λ f, f ≠ "_meta.json") (listdir d m).
Definition chunk_meta (r : chunk_request) (upload_id : string) : json :=
  JObj [("filename", JStr (cr_filename r)); ("total_chunks", JInt (cr_total r)); ("upload_id", JStr upload_id)].
Definition chunk_answer (r : chunk_request) (upload_id : string) (received : Z) : list (string * json) :=
  [("upload_id", JStr upload_id); ("chunk_index", JInt (cr_index r)); ("received", JInt received);
   ("total_chunks", JInt (cr_total r)); ("complete", JBool (cr_total r <=? received))].

Definition api_upload_chunk (r : chunk_request) : SM disk (list (string * json)) :=
  upload_id ← lift_http (safe_segment (str_or (cr_upload_id r) fresh) "upload_id");
  upload_dir ← lift_http (safe_path_join links cwd _CHUNK_DIR upload_id);
  (if writable upload_dir then mret () else raise (Exc "OSError"));;
  (if _CHUNK_MAX_SIZE <? Z.of_nat (String.length (cr_data r)) then raise (Http (HttpError 413 "Chunk too large")) else mret ());;
  put_file (OsPath.join upload_dir (fmt06 (cr_index r))) (cr_data r);;
  put_file (OsPath.join upload_dir "_meta.json") (dumps (chunk_meta r upload_id));;
  received ← gets (λ m, Z.of_nat (List.length (chunk_names (place upload_dir) m)));
  mret (chunk_answer r upload_id received).

(** [len(chunks) < meta.get("total_chunks", 1)] *)
Definition too_few (n : Z) (total : json) : result exc bool :=
  match total with
  | JInt t => Ok (n <? t)
  | JBool b => Ok (n <? if b then 1 else 0)
  | _ => Err (Exc "'<' not supported between instances")
  end.
Fixpoint read_all (d : list string) (names : list string) (m : disk) : option string :=
  match names with
  | [] => Some ""
  | n :: r => c ← m !! (d ++ [n]); t ← read_all d r m; Some (c +:+ t)
  end.
(** A link is not removed. *)
Definition is_link (p : string) : bool :=
  let parent := sjoin "/" (removelast (split_on "/" p)) in
  bool_decide (is_Some (links !! (place (if OsPath.isabs p then str_or parent "/" else parent) ++ [basename p]))).
Definition _reassemble_upload (upload_id : string) : SM disk (option (string * json)) :=
  let upload_dir := OsPath.join _CHUNK_DIR upload_id in
  let d := place upload_dir in
  m ← gets id;
  match m !! place (OsPath.join upload_dir "_meta.json") with
  | None => mret None
  | Some text =>
      match loads text with
      | Some (JObj meta) =>
          let chunks := py_sorted (chunk_names d m) in
          few ← lift (too_few (Z.of_nat (List.length chunks)) (jget_or "total_chunks" meta (JInt 1)));
          if few : bool then mret None
          else
            match read_all d chunks m with
            | None => raise (Exc "IsADirectoryError")
            | Some data =>
                (if is_link upload_dir then mret () else modify (rmtree d));;
                mret (Some (data, jget_or "filename" meta (JStr "upload.bin")))
            end
      | Some _ => raise (Exc "object has no attribute 'get'")
      | None => raise (Exc "Expecting value")
      end
  end.
End chunks.

(** ** Order of the names *)
Lemma ltb_spec x y : str_ltb x y = true ↔ String.compare x y = Lt.
Proof. unfold str_ltb, String.ltb. by destruct (String.compare x y). Qed.
Lemma not_ltb_le x y : str_ltb y x = false → String.le x y.
Proof.
  unfold str_ltb, String.ltb, String.le, String.leb. rewrite (String.compare_antisym y x). by destruct (String.compare x y).
Qed.
Lemma ltb_le x y : str_ltb x y = true → String.le x y.
Proof. unfold String.le, String.leb. by intros ->%ltb_spec. Qed.
Lemma insert_str_sorted x l : StronglySorted String.le l → StronglySorted String.le (insert_str x l).
Proof.
  induction l as [|y l IH]; simpl; [by repeat constructor|]. intros Hs. apply StronglySorted_cons in Hs as [Hy Hs].
  destruct (str_ltb y x) eqn:E; apply StronglySorted_cons; (split; [|auto]).
  - rewrite Forall_forall. intros z Hz. rewrite insert_str_perm in Hz. apply elem_of_cons in Hz as [->|Hz]; [by apply ltb_le|].
    rewrite Forall_forall in Hy. auto.
  - apply not_ltb_le in E. constructor; [done|]. eapply Forall_impl; [exact Hy|]. intros z Hz. by etrans.
  - by apply StronglySorted_cons.
Qed.
Lemma py_sorted_sorted l : StronglySorted String.le (py_sorted l).
Proof. induction l as [|x l IH]; simpl; [constructor|]. by apply insert_str_sorted. Qed.

(** Digit strings of one length are ordered as the numbers they denote. *)
Lemma digits_above s t x y b b' v w :
  sforall is_digit s = true → sforall is_digit t = true → String.length s = String.length t → x < y →
  digits_go x b s = Some v → digits_go y b' t = Some w → v < w.
Proof.
  revert t x y b b'. induction s as [|c s IH]; intros [|d t] x y b b'; simpl; [|done..|].
  - intros _ _ _ Hlt. destruct b, b'; [|done..]. by intros [= ->] [= ->].
  - intros [Hc Hs]%andb_true_iff [Hd Ht]%andb_true_iff [= Hl] Hlt. unfold is_digit in *.
    destruct (digit_val c) as [i|] eqn:Ei; [|done]. destruct (digit_val d) as [j|] eqn:Ej; [|done].
    apply (IH t); [done..|]. unfold digit_val in *. repeat case_match; simplify_eq; bool_hyps; lia.
Qed.
Lemma digits_order s t x b b' v w :
  sforall is_digit s = true → sforall is_digit t = true → String.length s = String.length t →
  digits_go x b s = Some v → digits_go x b' t = Some w → v < w → str_ltb s t = true.
Proof.
  rewrite ltb_spec. revert t x b b'. induction s as [|c s IH]; intros [|d t] x b b'; simpl; [|done..|].
  - intros _ _ _. destruct b, b'; [|done..]. intros [= ->] [= ->]. lia.
  - intros [Hc Hs]%andb_true_iff [Hd Ht]%andb_true_iff [= Hl]. unfold is_digit in *.
    destruct (digit_val c) as [i|] eqn:Ei; [|done]. destruct (digit_val d) as [j|] eqn:Ej; [|done]. intros Ev Ew Hlt.
    destruct (Ascii.compare c d) eqn:E.
    + apply Ascii.compare_eq_iff in E as ->. rewrite Ei in Ej. injection Ej as ->. by eapply IH.
    + done.
    + exfalso. assert (j < i).
      { unfold Ascii.compare in E. apply N.compare_gt_iff in E. unfold digit_val, code in *. repeat case_match; simplify_eq; lia. }
      enough (w < v) by lia. by eapply (digits_above t s (x * 10 + j) (x * 10 + i)); [..|lia| |].
Qed.

Lemma zeros_length n : String.length (zeros n) = n.
Proof. induction n as [|n IH]; simpl; congruence. Qed.
Lemma zeros_digits n : sforall is_digit (zeros n) = true.
Proof. by induction n. Qed.
Lemma digits_zeros n s b v : digits_go 0 false s = Some v → s ≠ "" → digits_go 0 b (zeros n +:+ s) = Some v.
Proof.
  intros Hv Hne. assert (H : ∀ b, digits_go 0 b s = Some v).
  { intros []; [|done]. destruct s as [|c s]; [done|]. simpl in *. destruct (digit_val c); [done|]. by rewrite andb_false_r in Hv. }
  revert b. induction n as [|n IH]; intros b; [apply H|]. change (zeros (S n)) with (String "0" (zeros n)). rewrite sapp_cons. simpl. apply IH.
Qed.
Lemma dec_go_length fuel z k : 0 ≤ z < 10 ^ Z.of_nat k → (0 < k)%nat → (String.length (dec_go fuel z "") ≤ k)%nat.
Proof.
  revert z k. induction fuel as [|f IH]; intros z k Hz Hk; simpl; [lia|]. destruct (z <? 10) eqn:E; [simpl; lia|]. bool_hyps.
  rewrite dec_go_acc, slen_app. simpl. destruct k as [|[|k]]; [lia|change (10 ^ Z.of_nat 1) with 10 in Hz; lia|].
  specialize (IH (z / 10) (S k)). rewrite Nat2Z.inj_succ, Z.pow_succ_r in Hz by lia.
  assert (0 ≤ z / 10 < 10 ^ Z.of_nat (S k)) by (split; [apply Z.div_pos; lia|apply Z.div_lt_upper_bound; lia]).
  specialize (IH ltac:(done) ltac:(lia)). lia.
Qed.
Lemma fmt06_spec i : 0 ≤ i < 1000000 →
  sforall is_digit (fmt06 i) = true ∧ String.length (fmt06 i) = 6%nat ∧ digits_go 0 false (fmt06 i) = Some i.
Proof.
  intros Hi. unfold fmt06, pad, py_str_int. replace (i <? 0) with false by (symmetry; apply Z.ltb_ge; lia).
  destruct (dec_go_spec (dec_fuel i) i ltac:(lia) ltac:(lia)) as (Hd & Hne & Hgo).
  pose proof (dec_go_length (dec_fuel i) i 6 ltac:(lia) ltac:(lia)).
  split_and!; [by rewrite sforall_app, zeros_digits, Hd|rewrite slen_app, zeros_length; lia|by apply digits_zeros].
Qed.
Lemma fmt06_lt i j : 0 ≤ i → i < j → j < 1000000 → str_ltb (fmt06 i) (fmt06 j) = true.
Proof.
  intros Hi Hij Hj. destruct (fmt06_spec i ltac:(lia)) as (Hd & Hl & Hv), (fmt06_spec j ltac:(lia)) as (Hd' & Hl' & Hv').
  by eapply digits_order; [| |by rewrite Hl, Hl'|exact Hv|exact Hv'|].
Qed.
Lemma fmt06_inj i j : 0 ≤ i < 1000000 → 0 ≤ j < 1000000 → fmt06 i = fmt06 j → i = j.
Proof. intros Hi Hj H. destruct (fmt06_spec i Hi) as (_ & _ & E), (fmt06_spec j Hj) as (_ & _ & E'). congruence. Qed.
Lemma fmt06_ok i : 0 ≤ i < 1000000 → comp_ok (fmt06 i) ∧ fmt06 i ≠ "_meta.json".
Proof.
  intros Hi. destruct (fmt06_spec i Hi) as (Hd & Hl & _). destruct (fmt06 i) as [|c s]; [done|].
  assert (Hc : is_digit c = true) by (simpl in Hd; by bool_hyps).
  split; [split_and!|]; [done|by intros [= -> _]|by intros [= -> _]| |by intros [= -> _]].
  unfold no_slash. eapply sforall_impl; [|exact Hd]. intros a Ha. unfold is_char. rewrite bool_decide_eq_false_2; [done|]. by intros ->.
Qed.
Lemma sorted_names n : Z.of_nat n ≤ 1000000 → StronglySorted String.le ((λ i : nat, fmt06 (Z.of_nat i)) <$> seq 0 n).
Proof.
  induction n as [|n IH]; intros Hn; [constructor|]. rewrite seq_S, fmap_app. apply StronglySorted_app.
  split_and!; [|apply IH; lia|by repeat constructor]. intros x y (i & -> & Hi)%list_elem_of_fmap ->%list_elem_of_singleton.
  apply elem_of_seq in Hi. apply ltb_le, fmt06_lt; simpl; lia.
Qed.

(** ** The disk *)
Lemma below_spec d k x : below d k = Some x ↔ ∃ r, k = d ++ x :: r.
Proof.
  revert k. induction d as [|y d IH]; intros [|c k]; simpl.
  - split; [done|]. by intros (? & ?).
  - split; [intros [= ->]; eauto|]. intros (r & [= -> _]). done.
  - split; [done|]. by intros (? & ?).
  - case_decide as Hy; [subst|split; [done|]; intros (r & [= ? ?]); congruence]. rewrite IH. split; intros (r & H); exists r; congruence.
Qed.
Lemma elem_of_listdir d m x : x ∈ listdir d m ↔ ∃ r, is_Some (m !! (d ++ x :: r)).
Proof.
  unfold listdir. rewrite elem_of_remove_dups, list_elem_of_omap. split.
  - intros ((k & v) & Hk & (r & Hr)%below_spec). simpl in Hr. subst k. apply elem_of_map_to_list in Hk. eauto.
  - intros (r & v & Hv). exists (d ++ x :: r, v). split; [by apply elem_of_map_to_list|]. apply below_spec. eauto.
Qed.
Lemma filter_key_all {A} (P : list string → Prop) `{∀ k, Decision (P k)} (m : gmap (list string) A) :
  (∀ k, is_Some (m !! k) → P k) → filter (λ kv, P kv.1) m = m.
Proof. intros Hp. apply map_filter_id. intros k v Hk. apply Hp. eauto. Qed.

(** Components of a path, joined and resolved. *)
Lemma filter_comps cs : Forall comp_ok cs → filter (λ c, c ≠ "") cs = cs.
Proof. induction 1 as [|c cs (Hc & _) _ IH]; [done|]. by rewrite filter_cons_True, IH. Qed.
Lemma comps_path_str cs : Forall comp_ok cs → comps (OsPath.path_str cs) = cs.
Proof.
  intros H. unfold comps. destruct (split_path_str cs H) as (k & -> & Hk). rewrite filter_cons_False by auto.
  rewrite filter_app, filter_comps by done. destruct Hk as [-> | ->]; [by rewrite app_nil_r|]. rewrite filter_cons_False by auto. by rewrite app_nil_r.
Qed.
Lemma join_path_str cs c : cs ≠ [] → Forall comp_ok cs → comp_ok c → OsPath.join (OsPath.path_str cs) c = OsPath.path_str (cs ++ [c]).
Proof.
  intros Hne Hcs (Hc & _ & _ & Hn). rewrite join_rel.
  - rewrite path_str_app by done. simpl. by rewrite sapp_nil_r.
  - by destruct cs.
  - by apply path_str_no_slash_end.
  - destruct c as [|a c]; [done|]. unfold OsPath.isabs. apply starts_slash_false. intros ->. done.
Qed.

Section roundtrip.
Variables (links : gmap (list string) string) (cwd : list string) (tmp fresh : string) (bs : list string) (uid filename : string) (cs : list string).
Notation anywhere := (λ _ : string, true).
Notation upload := (api_upload_chunk links cwd tmp anywhere fresh).
Notation place := (place links cwd).
(** The directory of the uploads is a plain path with no link in it. *)
Hypothesis Hdir : _CHUNK_DIR tmp = OsPath.path_str bs.
Hypothesis Hbs : bs ≠ [].
Hypothesis Hok : Forall comp_ok bs.
Hypothesis Hlinks : ∀ k p, p `prefix_of` bs ++ k → links !! p = None.
Hypothesis Huid : _SAFE_SEGMENT uid = true.
Hypothesis Hcs : Z.of_nat (List.length cs) ≤ 1000000.
Hypothesis Hsize : Forall (λ c, Z.of_nat (String.length c) ≤ _CHUNK_MAX_SIZE) cs.

Lemma uid_ok : comp_ok uid ∧ basename uid = uid.
Proof.
  assert (Hb : basename uid = uid).
  { unfold basename. rewrite split_on_last; [done|]. unfold _SAFE_SEGMENT in Huid. destruct uid as [|c r]; [done|].
    apply andb_true_iff in Huid as [Hc Hr]. unfold no_slash. simpl. apply andb_true_iff. split.
    - unfold is_char. rewrite bool_decide_eq_false_2; [done|]. by intros ->.
    - eapply sforall_impl; [|exact Hr]. intros a Ha. unfold is_char at 1. rewrite bool_decide_eq_false_2; [done|]. by intros ->. }
  split; [|done]. apply (safe_segment_ok uid "x"). unfold safe_segment. by rewrite Hb, Huid.
Qed.
Lemma segment_uid : safe_segment uid "upload_id" = Ok uid.
Proof. destruct uid_ok as [_ Hb]. unfold safe_segment. by rewrite Hb, Huid. Qed.
Definition D : list string := bs ++ [uid].
Lemma D_ok : Forall comp_ok D.
Proof. unfold D. apply Forall_app. split; [done|]. apply Forall_singleton, uid_ok. Qed.
Lemma D_ne : D ≠ [].
Proof. unfold D. by destruct bs. Qed.
Lemma place_path k : Forall comp_ok (D ++ k) → place (OsPath.path_str (D ++ k)) = D ++ k.
Proof.
  intros Hk. unfold Chunks.place. rewrite realpath_physical; [by apply comps_path_str|]. split; [done|].
  intros p Hp _. unfold D in Hp. rewrite <- app_assoc in Hp. by eapply Hlinks.
Qed.
Lemma place_file n : comp_ok n → place (OsPath.join (OsPath.path_str D) n) = D ++ [n].
Proof.
  intros Hn. rewrite join_path_str; [|apply D_ne|apply D_ok|done]. apply place_path. apply Forall_app. split; [apply D_ok|by apply Forall_singleton].
Qed.
Lemma place_D : place (OsPath.path_str D) = D.
Proof. rewrite <- (app_nil_r D) at 1 2. apply place_path. rewrite app_nil_r. apply D_ok. Qed.
Lemma upload_dir : safe_path_join links cwd (_CHUNK_DIR tmp) uid = Ok (OsPath.path_str D).
Proof.
  rewrite Hdir. apply (safe_path_join_plain links cwd _ bs [uid]); [|done|done|].
  - apply realpath_physical. split; [done|]. intros p Hp _. apply (Hlinks []). by rewrite app_nil_r.
  - split; [apply D_ok|]. intros p Hp _. by eapply Hlinks.
Qed.
Lemma reassembled_dir : OsPath.join (_CHUNK_DIR tmp) uid = OsPath.path_str D.
Proof. rewrite Hdir. by apply join_path_str, uid_ok. Qed.
Lemma meta_ok : comp_ok "_meta.json".
Proof. by split_and!. Qed.

(** The request that sends the piece [i]. *)
Definition sends (i : nat) (r : chunk_request) : Prop :=
  str_or (cr_upload_id r) fresh = uid ∧ cr_index r = Z.of_nat i ∧ cr_total r = Z.of_nat (List.length cs) ∧
  cr_filename r = filename ∧ cs !! i = Some (cr_data r).
Definition meta_text : string :=
  dumps (JObj [("filename", JStr filename); ("total_chunks", JInt (Z.of_nat (List.length cs))); ("upload_id", JStr uid)]).
(** The disk when the pieces [seen] have arrived. *)
Record arrived (d0 : disk) (seen : list nat) (m : disk) : Prop := {
  ar_range : ∀ i, i ∈ seen → (i < List.length cs)%nat;
  ar_piece : ∀ i, i ∈ seen → m !! (D ++ [fmt06 (Z.of_nat i)]) = cs !! i;
  ar_meta : seen ≠ [] → m !! (D ++ ["_meta.json"]) = Some meta_text;
  ar_only : ∀ k, is_Some (m !! (D ++ k)) → k = ["_meta.json"] ∨ ∃ i, i ∈ seen ∧ k = [fmt06 (Z.of_nat i)];
  ar_rest : ∀ k, ¬ D `prefix_of` k → m !! k = d0 !! k }.

Lemma piece_name i : (i < List.length cs)%nat → comp_ok (fmt06 (Z.of_nat i)) ∧ fmt06 (Z.of_nat i) ≠ "_meta.json".
Proof. intros Hi. apply fmt06_ok. lia. Qed.
Lemma snoc_inj (x y : string) : D ++ [x] = D ++ [y] → x = y.
Proof. intros H. apply (inj (D ++.)) in H. by injection H. Qed.

Lemma put_anywhere {A} (p c : string) (k : () → SM disk A) (m : disk) : (put_file links cwd anywhere p c ≫= k) m = k () (<[place p := c]> m).
Proof. done. Qed.
Lemma arrived_step d0 seen m i r : arrived d0 seen m → sends i r →
  ∃ a m', upload r m = (Ok a, m') ∧ arrived d0 (i :: seen) m'.
Proof.
  intros Ha (Hu & Hi & Ht & Hf & Hc). assert (Hlt : (i < List.length cs)%nat) by (by eapply lookup_lt_Some).
  destruct (piece_name i Hlt) as [Hn Hnm].
  unfold api_upload_chunk. rewrite Hu, segment_uid. unfold lift_http. rewrite (bind_step _ _ _ uid m) by done. rewrite upload_dir.
  rewrite (bind_step _ _ _ (OsPath.path_str D) m) by done. rewrite (bind_step _ _ _ () m) by done.
  assert (Hsz : (_CHUNK_MAX_SIZE <? Z.of_nat (String.length (cr_data r))) = false).
  { apply Z.ltb_ge. rewrite Forall_lookup in Hsize. by eapply (Hsize i). }
  rewrite Hsz, (bind_step _ _ _ () m) by done. rewrite put_anywhere, Hi, place_file by done.
  rewrite put_anywhere, place_file by apply meta_ok. rewrite bind_gets.
  unfold chunk_meta. rewrite Hf, Ht. fold meta_text.
  eexists _, (<[D ++ ["_meta.json"] := meta_text]> (<[D ++ [fmt06 (Z.of_nat i)] := cr_data r]> m)). split; [reflexivity|].
  constructor.
  - intros j [->|Hj]%elem_of_cons; [done|]. by eapply ar_range.
  - intros j Hj. rewrite lookup_insert_ne.
    2:{ intros H%snoc_inj. apply elem_of_cons in Hj as [->|Hj]; [done|]. destruct (piece_name j (ar_range _ _ _ Ha j Hj)). congruence. }
    destruct (decide (j = i)) as [->|Hne]; [by rewrite lookup_insert_eq|]. apply elem_of_cons in Hj as [->|Hj]; [done|].
    rewrite lookup_insert_ne; [by apply (ar_piece _ _ _ Ha)|]. intros H%snoc_inj. apply Hne. apply fmt06_inj in H; [lia|lia|].
    pose proof (ar_range _ _ _ Ha j Hj). lia.
  - intros _. by rewrite lookup_insert_eq.
  - intros k [v [[Hk _]|[_ [[Hk _]|[_ Hv]]%lookup_insert_Some]]%lookup_insert_Some].
    + left. by apply (inj (D ++.)) in Hk.
    + right. exists i. split; [set_solver|]. by apply (inj (D ++.)) in Hk.
    + destruct (ar_only _ _ _ Ha k ltac:(eauto)) as [?|(j & ? & ?)]; [by left|]. right. exists j. split; [set_solver|done].
  - intros k Hk. rewrite !lookup_insert_ne; [by apply (ar_rest _ _ _ Ha)|intros <-; apply Hk; by eexists..].
Qed.

(** A sequence of requests. *)
Definition upload_all : list chunk_request → SM disk () := foldr (λ r k, upload r;; k) (mret ()).
Lemma arrived_all rs d0 seen m : arrived d0 seen m → Forall (λ r, ∃ i, sends i r) rs →
  ∃ m' seen', upload_all rs m = (Ok (), m') ∧ arrived d0 seen' m' ∧
    (∀ i, i ∈ seen' ↔ i ∈ seen ∨ ∃ r, r ∈ rs ∧ cr_index r = Z.of_nat i).
Proof.
  revert seen m. induction rs as [|r rs IH]; intros seen m Ha Hrs; [exists m, seen; set_solver|].
  apply Forall_cons in Hrs as [[i Hi] Hrs]. destruct (arrived_step d0 seen m i r Ha Hi) as (a & m1 & E & Ha1).
  destruct (IH _ _ Ha1 Hrs) as (m' & seen' & E' & Ha' & Hs). exists m', seen'. split_and!; [|done|].
  - cbn [upload_all foldr]. rewrite (bind_step _ _ _ _ _ E). exact E'.
  - intros j. rewrite Hs, elem_of_cons. destruct Hi as (_ & Hi & _). split.
    + intros [[->|?]|(r' & ? & ?)]; [right; exists r; set_solver|by left|right; exists r'; set_solver].
    + intros [?|(r' & [->|?]%elem_of_cons & Hr)]; [by left; right|left; left; lia|right; eauto].
Qed.

Lemma arrived_names d0 seen m : arrived d0 seen m →
  chunk_names (place (OsPath.path_str D)) m ≡ₚ (λ i : nat, fmt06 (Z.of_nat i)) <$> filter (λ i, i ∈ seen) (seq 0 (List.length cs)).
Proof.
  intros Ha. rewrite place_D. apply NoDup_Permutation.
  - apply NoDup_filter. unfold listdir. apply NoDup_remove_dups.
  - apply NoDup_fmap_2_strong; [|apply NoDup_filter, NoDup_seq]. intros x y [_ Hx]%list_elem_of_filter [_ Hy]%list_elem_of_filter H.
    apply elem_of_seq in Hx, Hy. apply fmt06_inj in H; lia.
  - intros x. unfold chunk_names. rewrite list_elem_of_filter, elem_of_listdir, list_elem_of_fmap. split.
    + intros [Hx (k & Hk)]. destruct (ar_only _ _ _ Ha _ Hk) as [[= ? _]|(i & Hi & [= -> ->])]; [done|]. exists i. split; [done|].
      apply list_elem_of_filter. split; [done|]. apply elem_of_seq. pose proof (ar_range _ _ _ Ha i Hi). lia.
    + intros (i & -> & [Hi _]%list_elem_of_filter). pose proof (ar_range _ _ _ Ha i Hi) as Hlt. split; [by apply piece_name|].
      exists []. rewrite (ar_piece _ _ _ Ha i Hi). by apply lookup_lt_is_Some.
Qed.
Lemma read_pieces d0 seen m : arrived d0 seen m → (∀ i, (i < List.length cs)%nat → i ∈ seen) →
  read_all D ((λ i : nat, fmt06 (Z.of_nat i)) <$> seq 0 (List.length cs)) m = Some (foldr String.append "" cs).
Proof.
  intros Ha Hall.
  enough (∀ n l, (n + List.length l = List.length cs)%nat → drop n cs = l →
    read_all D ((λ i : nat, fmt06 (Z.of_nat i)) <$> seq n (List.length l)) m = Some (foldr String.append "" l)) as H by (by apply H).
  intros n l. revert n. induction l as [|c l IH]; intros n Hn Hl; [done|]. simpl.
  assert (Hc : cs !! n = Some c) by (rewrite <- (Nat.add_0_r n), <- lookup_drop, Hl; done).
  rewrite (ar_piece _ _ _ Ha) by (apply Hall; simpl in Hn; lia). rewrite Hc. simpl.
  rewrite IH; [done|simpl in Hn; lia|]. rewrite <- (Nat.add_1_r n), <- drop_drop, Hl. done.
Qed.
Lemma split_plain l : l ≠ [] → Forall comp_ok l → split_on "/" (OsPath.path_str l) = "" :: l.
Proof. intros Hl H. destruct l as [|c l]; [done|]. simpl. by rewrite split_tail_str. Qed.
Lemma not_a_link : is_link links cwd (OsPath.path_str D) = false.
Proof.
  unfold is_link. rewrite path_str_isabs, (split_plain D D_ne D_ok).
  assert (Hb : basename (OsPath.path_str D) = uid).
  { unfold basename. rewrite (split_plain D D_ne D_ok). unfold D. change ("" :: bs ++ [uid]) with (("" :: bs) ++ [uid]). apply last_last. }
  assert (Hp : sjoin "/" (removelast ("" :: D)) = OsPath.path_str bs).
  { unfold D. change ("" :: bs ++ [uid]) with (("" :: bs) ++ [uid]). rewrite removelast_last, sjoin_tail. by destruct bs. }
  rewrite Hb, Hp. replace (str_or (OsPath.path_str bs) "/") with (OsPath.path_str bs) by (by destruct bs).
  rewrite bool_decide_eq_false_2; [done|]. unfold Chunks.place.
  rewrite realpath_physical; [|split; [done|]; intros p Hp' _; apply (Hlinks []); by rewrite app_nil_r].
  rewrite comps_path_str by done. rewrite (Hlinks [uid]) by done. by intros [].
Qed.

Lemma arrived_start d0 : (∀ k, d0 !! (D ++ k) = None) → arrived d0 [] d0.
Proof. intros Hd. constructor; [by intros ? ?%elem_of_nil..|done|intros k; rewrite Hd; by intros []|done]. Qed.
Lemma removed d0 seen m : (∀ k, d0 !! (D ++ k) = None) → arrived d0 seen m → rmtree D m = d0.
Proof.
  intros Hd Ha. apply map_eq. intros k. unfold rmtree. destruct (decide (D `prefix_of` k)) as [[k' ->]|Hk].
  - rewrite Hd. apply map_lookup_filter_None. right. intros x _. simpl. intros []. by eexists.
  - rewrite <- (ar_rest _ _ _ Ha k Hk). destruct (m !! k) as [v|] eqn:E.
    + by apply map_lookup_filter_Some.
    + apply map_lookup_filter_None. by left.
Qed.
(** What is put together from the pieces [seen]. *)
Lemma reassembled d0 seen m : (∀ k, d0 !! (D ++ k) = None) → arrived d0 seen m → seen ≠ [] →
  _reassemble_upload links cwd tmp uid m =
  if decide (Forall (λ i, i ∈ seen) (seq 0 (List.length cs))) then (Ok (Some (foldr String.append "" cs, JStr filename)), d0) else (Ok None, m).
Proof.
  intros Hd Ha Hne. unfold _reassemble_upload. rewrite reassembled_dir, bind_gets. change (id m) with m. rewrite place_file by apply meta_ok.
  rewrite (ar_meta _ _ _ Ha Hne). unfold meta_text. rewrite loads_dumps.
  2:{ split; [|done]. unfold dict_wf. cbn [dkeys fmap list_fmap fst]. repeat (constructor; [set_solver|]). constructor. }
  set (names := (λ i : nat, fmt06 (Z.of_nat i)) <$> filter (λ i, i ∈ seen) (seq 0 (List.length cs))).
  assert (Hnames : py_sorted (chunk_names (place (OsPath.path_str D)) m) ≡ₚ names).
  { rewrite py_sorted_perm. by apply (arrived_names d0). }
  change (jget_or "total_chunks" _ _) with (JInt (Z.of_nat (List.length cs))). change (jget_or "filename" _ _) with (JStr filename).
  rewrite (bind_step _ _ _ _ _ (eq_refl : lift (too_few _ (JInt (Z.of_nat (List.length cs)))) m = _)).
  rewrite (Permutation_length Hnames). case_decide as Hall.
  - assert (Hf : filter (λ i, i ∈ seen) (seq 0 (List.length cs)) = seq 0 (List.length cs)).
    { clear - Hall. induction Hall as [|i l Hi _ IH]; [done|]. by rewrite filter_cons_True, IH. }
    assert (Hn : py_sorted (chunk_names (place (OsPath.path_str D)) m) = (λ i : nat, fmt06 (Z.of_nat i)) <$> seq 0 (List.length cs)).
    { apply (StronglySorted_unique String.le); [apply py_sorted_sorted|by apply sorted_names|]. rewrite Hnames. unfold names. by rewrite Hf. }
    unfold names. rewrite Hf, length_fmap, length_seq, Z.ltb_irrefl, Hn, place_D, (read_pieces d0 seen) by
      (first [done | intros i Hi; rewrite Forall_forall in Hall; apply Hall, elem_of_seq; lia]).
    rewrite not_a_link. rewrite bind_modify, (removed d0 seen) by done. done.
  - replace (Z.of_nat (List.length names) <? Z.of_nat (List.length cs)) with true; [done|]. symmetry. apply Z.ltb_lt.
    unfold names. rewrite length_fmap. apply Nat2Z.inj_lt. rewrite <- (length_seq (List.length cs) 0) at 2.
    apply not_Forall_Exists in Hall; [|apply _]. apply Exists_exists in Hall as (i & Hi & Hn). by eapply length_filter_lt.
Qed.

End roundtrip.

(** ** Instances *)
Module Demo.
Definition bs_ex : list string := ["tmp"; "dm-upload-chunks"].
Definition piece (i n : Z) (data : string) : chunk_request := ChunkRequest "u1" i n "plugin.xpi" data.
Definition sent_ex : list chunk_request := [piece 1 3 "BBB"; ChunkRequest "" 0 3 "plugin.xpi" "AAA"; piece 2 3 "C"; piece 1 3 "BBB"].
Definition disk_ex : disk := {[ ["tmp"; "other"] := "x" ]}.

(** A directory that was not put together keeps its pieces: a second, shorter file
    sent under the same identifier is given back with what is left of the first. *)
Example stale_pieces :
  (_reassemble_upload ∅ [] "/tmp" "u1" (upload_all ∅ [] "/tmp" "u1" [piece 0 2 "old1"; piece 1 2 "old2"; piece 0 1 "new"] ∅).2).1 =
  Ok (Some ("newold2", JStr "plugin.xpi")).
Proof. by vm_compute. Qed.
End Demo.
