(* ===== verification/PackageForms.v ===== *)
(** * Forms that receive a package
    Of [app/admin/router.py] [artifact_upload], [deploy_create], [catalog_create] and
    [catalog_version_upload]: what is read in the package, the binary that is
    stored, and the artifact, version, cohort and campaign that are created, in one
    transaction of [AdminDb]; the files written stay when it is rolled back. A field
    of a JSON body that is not text is left out. *)
From S2P Require Import Prelude Text Json Effects Hashing Paths Campaigns Config Cohorts Flags GetConfig Ingest Catalog AuditLog Binaries Deploy AdminDb AdminRoutes AdminCatalog AdminSettings Chunks.
From Stdlib Require Import Ascii String.
Open Scope Z_scope.

(** ** State *)
(** The database, the files, and the directories that were made. *)
Record desk : Type := Desk { k_db : adb; k_disk : gmap (list string) string; k_dirs : list (list string) }.
Record work : Type := Work { w_tx : tx; w_disk : gmap (list string) string; w_dirs : list (list string) }.
Definition on_tx {A} (m : SM tx A) : SM work A := zoom w_tx (λ t w, Work t (w_disk w) (w_dirs w)) m.
Definition on_disk {A} (m : SM (gmap (list string) string) A) : SM work A := zoom w_disk (λ d w, Work (w_tx w) d (w_dirs w)) m.
(** The handler's [try]: the files are not part of the transaction. *)
Definition in_transaction {A} (m : SM work A) : SM desk A := λ k,
  match m (Work (Tx (k_db k) false) (k_disk k) (k_dirs k)) with
  | (Ok a, w) => (Ok a, Desk (if t_aborted (w_tx w) then k_db k else t_db (w_tx w)) (w_disk w) (w_dirs w))
  | (Err e, w) => (Err e, Desk (k_db k) (w_disk w) (w_dirs w))
  end.
(** What the handler does to the files before it connects. *)
Definition on_files {A} (m : SM work A) : SM desk A := λ k,
  let '(r, w) := m (Work (Tx (k_db k) false) (k_disk k) (k_dirs k)) in (r, Desk (k_db k) (w_disk w) (w_dirs w)).
(** [except HTTPException: raise], [except Exception as e: raise HTTPException(400, str(e))] *)
Definition as_400 {A} (m : SM desk A) : SM desk A := catch m (λ e, raise (Http (HttpError 400 (exc_text e)))).
Definition as_400_keep {A} (m : SM desk A) : SM desk A :=
  catch m (λ e, match e with Http _ => raise e | Exc s => raise (Http (HttpError 400 s)) end).

Definition ALLOWED_EXTENSIONS : list string := [".oxt"; ".xpi"; ".crx"].
Definition MAX_UPLOAD_SIZE : Z := 100 * 1024 * 1024.
Definition size_of (data : string) : Z := Z.of_nat (String.length data).
(** The message without the list of the extensions, whose order is that of a set. *)
Definition validate_upload (filename : string) (content_length : Z) : option string :=
  let ext := lower (splitext_ext filename) in
  if negb (bool_decide (ext ∈ ALLOWED_EXTENSIONS)) then Some ("Extension " +:+ ext +:+ " non autorisee.")
  else if MAX_UPLOAD_SIZE <? content_length
  then Some ("Fichier trop volumineux (" +:+ py_str_int (content_length / 1024 / 1024) +:+ " Mo > 100 Mo)") else None.
(** [\.[A-Za-z0-9._+-]+] on the whole of an extension *)
Definition ext_ok (ext : string) : bool :=
  match ext with
  | String c r => is_char "." c && truthy_str r && sforall (λ a, is_alnum a || is_char "." a || is_char "_" a || is_char "+" a || is_char "-" a) r
  | "" => false
  end.

Section packages.
Variables (drv : driver) (cl : call) (x : outer) (links : gmap (list string) string) (cwd : list string) (tmp binaries_dir : string).
Notation audit := (AdminRoutes.audit drv cl).
Notation update_plugin := (AdminCatalog.update_plugin drv).
Notation safe_reconcile := (AdminSettings.safe_reconcile drv cl).
Notation place := (Chunks.place links cwd).

(** ** Files *)
Definition of_http_w {A} (r : result http_error A) : SM work A := lift (match r with Ok a => Ok a | Err e => Err (Http e) end).
Definition joined (rel : string) : SM work string := of_http_w (safe_path_join links cwd binaries_dir rel).
Definition makedirs (p : string) : SM work () :=
  if x_writable x p then modify (λ w, Work (w_tx w) (w_disk w) (place p :: w_dirs w)) else raise (Exc "OSError").
(** A directory exists when it was made, leads to one that was, or holds a file. *)
Definition dir_exists (d : list string) (w : work) : bool :=
  existsb (λ m, bool_decide (d `prefix_of` m)) (w_dirs w) || negb (bool_decide (listdir d (w_disk w) = [])).
Definition write_file (p data : string) : SM work () :=
  ok ← gets (dir_exists (removelast (place p)));
  if ok && x_writable x p then modify (λ w, Work (w_tx w) (<[place p := data]> (w_disk w)) (w_dirs w))
  else raise (Exc "No such file or directory").
Definition reassemble (upload_id : string) : SM work (option (string * json)) := on_disk (_reassemble_upload links cwd tmp upload_id).

(** ** The package *)
Definition _strip_dm_metadata_from_zip (data : string) : result exc string :=
  match x_unzip x data with
  | None => Err (Exc "File is not a zip file")
  | Some es =>
      match mapM (λ z, c ← Package.zread es (ze_name z); Some (z, c))
              (filter (λ z, lower (ze_name z) ∉ Package.config_names ++ Package.manifest_names) es) ≫= x_zip x with
      | Some d => Ok d
      | None => Err (Exc "zipfile")
      end
  end.
(** The template, the manifest and the name of the last entry looked at; an
    exception ends the loop. *)
Fixpoint scan (es : list zip_entry) (names : list string) (tpl man : json) (name : string) : json * json * string :=
  match names with
  | [] => (tpl, man, name)
  | n :: r =>
      if bool_decide (Package.base_of n ∈ Package.config_names) then
        match Package.read_json x es n with
        | Some (JObj t) => scan es r (JObj (_apply_platform_defaults t)) man n
        | Some v => (v, man, n)
        | None => (tpl, man, n)
        end
      else if bool_decide (Package.base_of n ∈ Package.manifest_names) then
        match Package.read_json x es n with Some v => scan es r tpl v n | None => (tpl, man, n) end
      else scan es r tpl man n
  end.
Definition read_package (data name : string) : json * json * string :=
  match x_unzip x data with Some es => scan es (ze_name <$> es) JNull JNull name | None => (JNull, JNull, name) end.

(** ** Cohort and rollout of a campaign *)
Definition pct_of (percent : string) : result exc Z := match form_int percent with Ok p => Ok (Z.max 1 (Z.min 100 p)) | Err e => Err e end.
Definition target_cohort (mode cohort_id percent emails prefix : string) (describe : string → string) : SM tx (option Z) :=
  if bool_decide (mode = "existing") && truthy_str cohort_id then i ← lift (form_int cohort_id); mret (Some i)
  else if bool_decide (mode = "percent") then
    pct ← lift (pct_of percent);
    i ← AdminRoutes.create_cohort (prefix +:+ "-" +:+ py_str_int pct +:+ "pct") (describe (py_str_int pct +:+ "% rollout")) "percentage";
    mret (Some i)
  else if bool_decide (mode = "emails") then
    match stripped_lines emails with
    | [] => mret None
    | l =>
        i ← AdminRoutes.create_cohort (prefix +:+ "-manual") (describe (py_str_int (Z.of_nat (List.length l)) +:+ " emails")) "manual";
        AdminRoutes.add_members i ((λ e, ("email", e)) <$> l) 0;;
        mret (Some i)
    end
  else mret None.
Definition progressive (hours : Z) : json :=
  JObj [("stages", JArr [stage 5 hours "Canary (5%)"; stage 25 hours "Early adopters (25%)"; stage 50 hours "Moitie (50%)";
    stage 100 0 "Deploiement complet"])].
Definition rollout_of (strategy stage_hours : string) : result exc json :=
  if decide (strategy = "progressive") then match form_int stage_hours with Ok h => Ok (progressive (Z.max 1 h)) | Err e => Err e end else Ok JNull.

(** [catalog_svc.create_artifact], [create_version] and [link_version_artifact] *)
Definition create_artifact (device_type variant version path checksum changelog_url : string) : SM tx Z :=
  stmt (on_cat (Catalog.create_artifact (c_now cl) device_type variant version path checksum changelog_url)).

(** ** [artifact_upload] *)
Definition ok_flash (text : string) : answer := Page ("<div class='dm-flash dm-flash--success'>" +:+ text +:+ "</div>").
Definition artifact_upload (device_type platform_variant version changelog_url filename data : string) : SM desk answer :=
  match validate_upload filename (size_of data) with
  | Some error => mret (flash error)
  | None =>
      if MAX_UPLOAD_SIZE <? size_of data then mret (flash "Fichier trop volumineux (>100 Mo)")
      else
        r ← on_files (
          device_type ← of_http_w (safe_segment device_type "device_type");
          version ← of_http_w (safe_segment version "version");
          filename ← of_http_w (safe_segment (str_or filename ("upload-" +:+ version +:+ ".oxt")) "filename");
          d ← joined device_type; makedirs d;;
          local_path ← joined (device_type +:+ "/" +:+ version +:+ "_" +:+ filename);
          write_file local_path data;;
          mret (device_type, version, local_path));
        let '(device_type, version, local_path) := (r : string * string * string) in
        catch (in_transaction (on_tx (
          i ← create_artifact device_type platform_variant version local_path (checksum_of data) changelog_url;
          audit "artifact.upload" "artifact" (Some (str_id i))
            (JObj [("device_type", JStr device_type); ("version", JStr version); ("checksum", JStr (checksum_of data))]);;
          mret (ok_flash ("Artifact " +:+ device_type +:+ "/" +:+ version +:+ " uploade (ID: " +:+ str_id i +:+ ")")))))
          (λ e, mret (flash ("Erreur: " +:+ exc_text e)))
  end.

(** ** [deploy_create] *)
Record deploy_fields : Type := DeployFields {
  df_device_type : string; df_version : string; df_target_mode : string; df_cohort_id : string; df_percent : string; df_emails : string;
  df_deploy_type : string; df_stage_hours : string; df_name : string; df_rollback : string; df_filename : string; df_data : string }.
(** [(name or device_type).strip().lower().replace(" ", "-")] *)
Definition dashed (s : string) : string := smap (λ c, if is_char " " c then "-"%char else c) (lower (strip s)).
(** The last active plugin of a device type. *)
Definition last_plugin (d : adb) (ok : plugin → bool) : option plugin :=
  foldl (λ acc p, if ok p then match acc with Some q => if p_id q <? p_id p then Some p else acc | None => Some p end else acc)
    None (ct_plugins (d_cat d)).
Definition of_type (device_type : string) (p : plugin) : bool := bool_decide (pl_device_type (pg_row p) = device_type).
Definition map_plugins (ok : plugin → bool) (f : plugin → plugin) (d : adb) : adb :=
  set_cat (set_plugins ((λ p, if ok p then f p else p) <$> ct_plugins (d_cat d)) (d_cat d)) d.
(** A JSON column of the plugins that [ok] keeps, in a [try]. *)
Definition store_column (ok : plugin → bool) (f : json → plugin → plugin) (v : json) : SM tx () :=
  catch (stmt (j ← jsonb (dumps v); modify (map_plugins ok (f j)))) (λ _, mret ()).

Definition store_deployed (f : deploy_fields) (tpl man : json) : SM tx () :=
  (if truthy tpl then
     store_column (λ p, of_type (df_device_type f) p && live p) set_template tpl;;
     slug ← catch (select (λ d, match last_plugin d (λ p, of_type (df_device_type f) p && live p) with
                                 | Some p => str_or (pl_slug (pg_row p)) (df_device_type f) | None => df_device_type f end))
                  (λ _, mret (df_device_type f));
     safe_reconcile slug tpl "admin:deploy/create"
   else mret ());;
  if truthy man then
    match man with
    | JObj m =>
        match jget_or "changelog" m (JArr []) with
        | JArr ((_ :: _) as l) => store_column (of_type (df_device_type f)) set_changelog (JArr l)
        | _ => mret ()
        end
    | _ => raise (Exc "object has no attribute 'get'")
    end
  else mret ().
Definition create_deployment (f : deploy_fields) (name local_path checksum : string) (tpl man : json) : SM tx answer :=
  artifact_id ← create_artifact (df_device_type f) "" (df_version f) local_path checksum "";
  cohort ← target_cohort (df_target_mode f) (df_cohort_id f) (df_percent f) (df_emails f)
             ("auto-" +:+ df_device_type f +:+ "-" +:+ df_version f) (λ s, "Auto-created: " +:+ s);
  rollout ← lift (rollout_of (df_deploy_type f) (df_stage_hours f));
  let campaign_name := str_or (strip name) ("MaJ " +:+ df_device_type f +:+ " " +:+ df_version f) in
  plugin ← select (λ d, p_id <$> last_plugin d (λ p, of_type (df_device_type f) p && bool_decide (pl_status (pg_row p) = "active")));
  rollback ← lift (form_id (df_rollback f));
  campaign_id ← AdminRoutes.create_campaign drv cl campaign_name "" (Some artifact_id) rollback cohort "normal" None "active" rollout plugin;
  store_deployed f tpl man;;
  audit "deploy.create" "campaign" (Some (str_id campaign_id))
    (JObj [("name", JStr campaign_name); ("device_type", JStr (df_device_type f)); ("version", JStr (df_version f));
           ("deploy_type", JStr (df_deploy_type f)); ("has_config_template", JBool (truthy tpl))]);;
  mret (Redirect ("/admin/deploy/" +:+ str_id campaign_id)).
(** The loop over the entries of the package binds [name] again. *)
Definition deploy_create (f : deploy_fields) : SM desk answer :=
  match validate_upload (df_filename f) (size_of (df_data f)) with
  | Some error => raise (Http (HttpError 400 error))
  | None =>
      if MAX_UPLOAD_SIZE <? size_of (df_data f) then raise (Http (HttpError 400 "Fichier trop volumineux (>100 Mo)"))
      else
        let '(tpl, man, name) := read_package (df_data f) (df_name f) in
        data ← lift (_strip_dm_metadata_from_zip (df_data f));
        let ext := str_or (splitext_ext (df_filename f)) ".oxt" in
        let dir := binaries_dir +:+ "/" +:+ df_device_type f in
        let local_path := dir +:+ "/" +:+ dashed (str_or name (df_device_type f)) +:+ "-" +:+ df_version f +:+ ext in
        on_files (makedirs dir;; write_file local_path data);;
        as_400 (in_transaction (on_tx (create_deployment f name local_path (checksum_of data) tpl man)))
  end.

(** ** [catalog_create] *)
Record create_fields : Type := CreateFields {
  cc_slug : string; cc_name : string; cc_description : string; cc_intent : string; cc_key_features : string; cc_changelog : string;
  cc_device_type : string; cc_category : string; cc_icon_url : string; cc_icon_upload_id : string; cc_homepage : string; cc_doc : string;
  cc_support : string; cc_publisher : string; cc_visibility : string; cc_license : string; cc_template : string; cc_alias : string;
  cc_version : string; cc_notes : string; cc_upload_id : string; cc_binary : option (string * string) }.
(** A JSON array, or a text kept as one entry. *)
Definition parsed_changelog (changelog : string) : json :=
  if truthy_str (strip changelog) then
    match loads changelog with
    | Some v => v
    | None => JArr [JObj [("version", JStr "0.0.0"); ("changes", JArr [JStr (strip changelog)])]]
    end
  else JNull.
Definition parsed_template (template : string) : result exc json :=
  if truthy_str (strip template) then
    match loads template with
    | Some (JObj t) => Ok (JObj (_apply_platform_defaults t))
    | Some _ => Err (Exc "object has no attribute 'items'")
    | None => Ok JNull
    end
  else Ok JNull.
Definition icon_mime (filename : string) : string :=
  if ends_with ".svg" filename then "image/svg+xml"
  else if ends_with ".jpg" filename || ends_with ".jpeg" filename then "image/jpeg" else "image/png".
Definition uploaded_icon (f : create_fields) : SM work string :=
  if truthy_str (cc_icon_upload_id f) then
    r ← reassemble (cc_icon_upload_id f);
    match r with
    | Some (data, JStr filename) => mret (data_url (icon_mime filename) data)
    | Some _ => raise (Exc "object has no attribute 'endswith'")
    | None => mret (cc_icon_url f)
    end
  else mret (cc_icon_url f).
Definition insert_alias (alias : string) (plugin_id : Z) : SM tx () :=
  execute (λ d, let c := d_cat d in
    if decide (alias ∈ (ct_aliases c).*1) then d
    else set_cat (Catalog (ct_plugins c) (ct_aliases c ++ [(alias, plugin_id)]) (ct_artifacts c) (ct_versions c) (ct_variants c)
           (ct_next_art c) (ct_next_ver c) (ct_next_var c)) d).
(** The binary, sent with the form or in chunks. *)
Definition sent_binary (f : create_fields) : SM work (option (string * json)) :=
  if truthy_str (cc_upload_id f) then reassemble (cc_upload_id f)
  else mret (match cc_binary f with Some (filename, data) => if truthy_str filename then Some (data, JStr filename) else None | None => None end).
(** [os.path.splitext(filename)[1] or ".oxt"] *)
Definition ext_of_name (filename : json) : result exc string :=
  match filename with JStr n => Ok (str_or (splitext_ext n) ".oxt") | _ => Err (Exc "expected str, bytes or os.PathLike object") end.
Definition first_version (f : create_fields) (plugin_id : Z) (data : string) (filename : json) : SM work string :=
  data ← lift (_strip_dm_metadata_from_zip data);
  ext ← lift (ext_of_name filename);
  let dir := binaries_dir +:+ "/" +:+ cc_device_type f in
  let local_path := dir +:+ "/" +:+ cc_slug f +:+ "-" +:+ cc_version f +:+ ext in
  makedirs dir;; write_file local_path data;;
  artifact_id ← on_tx (create_artifact (cc_device_type f) "" (cc_version f) local_path (checksum_of data) "");
  on_tx (stmt (on_cat (Catalog.create_version (c_now cl) plugin_id (cc_version f) (Some artifact_id) (cc_notes f) "" "" "" "managed" "published")));;
  mret (cc_version f).
Definition create_in_catalogue (f : create_fields) (icon_url : string) (template : json) : SM work answer :=
  plugin_id ← on_tx (AdminCatalog.create_plugin drv cl (cc_slug f)
    (PluginArgs (cc_name f) (JStr (dumps (jor (parsed_changelog (cc_changelog f)) (JArr [])))) (cc_device_type f) icon_url template
       (PluginInfo (cc_description f) (cc_intent f) (feature_list (cc_key_features f)) (cc_category f) (cc_homepage f) (cc_support f) (cc_doc f)
          (cc_license f) (cc_publisher f) (cc_visibility f) None None "release")));
  on_tx (if truthy template then safe_reconcile (str_or (cc_slug f) (cc_device_type f)) template "admin:catalog-create" else mret ());;
  on_tx (if truthy_str (strip (cc_alias f)) then catch (insert_alias (lower (strip (cc_alias f))) plugin_id) (λ _, mret ()) else mret ());;
  binary ← sent_binary f;
  version_created ← (match binary with
    | Some (data, filename) =>
        if truthy_str (cc_version f) && truthy_str data then catch (first_version f plugin_id data filename) (λ _, mret "") else mret ""
    | None => mret ""
    end);
  on_tx (audit "plugin.create" "plugin" (Some (str_id plugin_id))
    (JObj [("slug", JStr (cc_slug f)); ("name", JStr (cc_name f)); ("alias", JStr (cc_alias f)); ("initial_version", JStr version_created)]));;
  mret (Redirect ("/admin/catalog/" +:+ str_id plugin_id +:+ "?created=1")).
Definition catalog_create (f : create_fields) : SM desk answer :=
  template ← lift (parsed_template (cc_template f));
  icon_url ← on_files (uploaded_icon f);
  as_400 (in_transaction (create_in_catalogue f icon_url template)).

(** ** [catalog_version_upload] *)
Inductive package_source : Type :=
| InChunks (upload_id : string) (* a JSON body *)
| InForm (binary : option (string * string)).
Record version_fields : Type := VersionFields {
  vf_version : string; vf_notes : string; vf_mode : string; vf_variant : string; vf_min_host : string; vf_max_host : string;
  vf_environment : string; vf_strategy : string; vf_stage_hours : string; vf_target_mode : string; vf_cohort_id : string;
  vf_percent : string; vf_emails : string; vf_action : string; vf_source : package_source }.
Definition received (s : package_source) : SM work (string * json) :=
  match s with
  | InChunks upload_id =>
      if negb (truthy_str upload_id) then raise (Http (HttpError 400 "Missing upload_id in JSON body"))
      else
        r ← reassemble upload_id;
        match r with Some p => mret p | None => raise (Http (HttpError 400 "Upload not found or incomplete")) end
  | InForm None => raise (Http (HttpError 400 "Missing binary file"))
  | InForm (Some (filename, data)) =>
      match validate_upload filename (size_of data) with
      | Some error => raise (Http (HttpError 400 error))
      | None => mret (data, JStr (str_or filename "upload.oxt"))
      end
  end.
(** [os.path.splitext(filename or "")[1] or ".oxt"], then the check *)
Definition checked_ext (filename : json) : result exc string :=
  match (if truthy filename then filename else JStr "") with
  | JStr n => let e := str_or (splitext_ext n) ".oxt" in Ok (if ext_ok e then e else ".oxt")
  | _ => Err (Exc "expected str, bytes or os.PathLike object")
  end.
(** Steps 3 to 5: the file, the artifact, the version and its variant. *)
Definition store_version (plugin_id : Z) (p : plugin) (f : version_fields) (variant data : string) (filename : json) : SM work (string * Z * Z) :=
  device_type ← of_http_w (safe_segment (pl_device_type (pg_row p)) "device_type");
  slug ← of_http_w (safe_segment (pl_slug (pg_row p)) "slug");
  version ← of_http_w (safe_segment (vf_version f) "version");
  ext ← lift (checked_ext filename);
  suffix ← (if truthy_str variant then s ← of_http_w (safe_segment variant "platform_variant"); mret ("-" +:+ s) else mret "");
  d ← joined device_type; makedirs d;;
  local_path ← joined (device_type +:+ "/" +:+ slug +:+ "-" +:+ version +:+ suffix +:+ ext);
  write_file local_path data;;
  artifact_id ← on_tx (create_artifact device_type variant version local_path (checksum_of data) "");
  vid ← on_tx (stmt (on_cat (Catalog.create_version (c_now cl) plugin_id version (Some artifact_id) (vf_notes f) "" (vf_min_host f) (vf_max_host f)
                       (vf_mode f) "published")));
  on_tx (if truthy_str variant then stmt (on_cat (Catalog.link_version_artifact vid artifact_id variant));; mret () else mret ());;
  mret (version, artifact_id, vid).
(** Step 6: the template. *)
Definition import_template (plugin_id : Z) (tpl : json) : SM tx () :=
  if truthy tpl then
    catch (update_plugin plugin_id [("config_template", tpl)];; mret ()) (λ _, mret ());;
    p ← catch (select (λ d, get_plugin d plugin_id)) (λ _, mret None);
    match p with
    | Some p => let slug := str_or (pl_slug (pg_row p)) (pl_device_type (pg_row p)) in
                if truthy_str slug then safe_reconcile slug tpl "admin:catalog-version-upload" else mret ()
    | None => mret ()
    end
  else mret ().
Definition set_notes (vid : Z) (notes : string) (d : adb) : adb :=
  let c := d_cat d in
  set_cat (set_versions ((λ v, if decide (vr_id v = vid)
    then VersionRow (vr_id v) (vr_plugin v) (vr_version v) (vr_artifact v) (Some notes) (vr_url v) (vr_min_host v) (vr_max_host v)
           (vr_status v) (vr_mode v) (vr_published v) else v) <$> ct_versions c) (ct_next_ver c) c) d.
(** Step 6b: the notes of the version in the manifest, and its changelog. *)
Fixpoint manifest_notes (version : string) (vid : Z) (entries : list json) : SM tx () :=
  match entries with
  | [] => mret ()
  | JObj e :: r =>
      if is_text version (jget "version" e) then
        match Traces.py_iter (jget_or "changes" e (JArr [])) with
        | Ok cs => catch (execute (set_notes vid (sjoin (String "010" "") ((λ c, "- " +:+ py_str c) <$> cs)))) (λ _, mret ())
        | Err _ => raise (Exc "object is not iterable")
        end
      else manifest_notes version vid r
  | _ :: _ => raise (Exc "object has no attribute 'get'")
  end.
Definition import_manifest (plugin_id vid : Z) (version notes : string) (man : json) : SM tx () :=
  if truthy man then
    match man with
    | JObj m =>
        match jget_or "changelog" m (JArr []) with
        | JArr ((_ :: _) as l) =>
            (if truthy_str notes then mret () else manifest_notes version vid l);;
            catch (update_plugin plugin_id [("changelog", JStr (dumps (JArr l)))];; mret ()) (λ _, mret ())
        | _ => mret ()
        end
    | _ => raise (Exc "object has no attribute 'get'")
    end
  else mret ().
(** [UPDATE campaigns SET environment, plugin_id, version_id] *)
Definition bind_campaign (environment : string) (plugin_id vid campaign_id : Z) : SM tx () :=
  stmt (if fits 50 environment then
          modify (map_campaigns (λ c, if decide (cp_id c = campaign_id)
            then CampaignRow (cp_id c) (cp_name c) (cp_description c) (cp_type c) (cp_status c) (Some plugin_id) (cp_target_cohort c) (cp_artifact c)
                   (cp_rollback c) (cp_rollout c) (cp_urgency c) (cp_deadline c) (cp_created_by c) (cp_created c) (Some vid) else c))
        else raise violation).
(** Step 7. *)
Definition deploy_version (plugin_id : Z) (p : plugin) (f : version_fields) (version : string) (artifact_id vid : Z) : SM tx () :=
  device_type ← lift (match safe_segment (pl_device_type (pg_row p)) "device_type" with Ok s => Ok s | Err e => Err (Http e) end);
  cohort ← target_cohort (vf_target_mode f) (vf_cohort_id f) (vf_percent f) (vf_emails f)
             ("auto-" +:+ device_type +:+ "-" +:+ version +:+ "-" +:+ vf_environment f) (λ s, "Auto: " +:+ s +:+ " on " +:+ vf_environment f);
  rollout ← lift (rollout_of (vf_strategy f) (vf_stage_hours f));
  campaign_id ← AdminRoutes.create_campaign drv cl ("MaJ " +:+ pg_name p +:+ " " +:+ version +:+ " [" +:+ vf_environment f +:+ "]") "" (Some artifact_id)
                  None cohort "normal" None "active" rollout (Some plugin_id);
  bind_campaign (vf_environment f) plugin_id vid campaign_id;;
  audit "deploy.create" "campaign" (Some (str_id campaign_id))
    (JObj [("plugin_id", JInt plugin_id); ("version", JStr version); ("environment", JStr (vf_environment f)); ("strategy", JStr (vf_strategy f))]).
Definition version_steps (plugin_id : Z) (f : version_fields) (data : string) (filename tpl man : json) : SM work answer :=
  p ← on_tx (select (λ d, get_plugin d plugin_id));
  match p with
  | None => raise (Http (HttpError 404 "Plugin introuvable"))
  | Some p =>
      r ← store_version plugin_id p f (strip (vf_variant f)) data filename;
      let '(version, artifact_id, vid) := (r : string * Z * Z) in
      on_tx (import_template plugin_id tpl);;
      on_tx (import_manifest plugin_id vid version (vf_notes f) man);;
      on_tx (audit "version.upload" "plugin_version" (Some (str_id vid))
        (JObj [("plugin_id", JInt plugin_id); ("version", JStr version); ("has_config_template", JBool (truthy tpl))]));;
      if decide (vf_action f = "deploy") then
        on_tx (deploy_version plugin_id p f version artifact_id vid);; mret (catalog_tab plugin_id "deployments")
      else mret (catalog_tab plugin_id "versions")
  end.
Definition catalog_version_upload (plugin_id : Z) (f : version_fields) : SM desk answer :=
  r ← on_files (received (vf_source f));
  let '(data, filename) := (r : string * json) in
  if negb (truthy_str (vf_version f)) then raise (Http (HttpError 400 "Missing version"))
  else if MAX_UPLOAD_SIZE <? size_of data then raise (Http (HttpError 400 "Fichier trop volumineux (>100 Mo)"))
  else
    let '(tpl, man, _) := read_package data "" in
    data ← lift (_strip_dm_metadata_from_zip data);
    as_400_keep (in_transaction (version_steps plugin_id f data filename tpl man)).
End packages.
