(* ===== verification/PackageFacts.v ===== *)
(** * What the forms that receive a package do
    A refused form leaves the database as it was; what an accepted upload of a
    version publishes; which files are written. *)
From S2P Require Import Prelude Text Json Effects Hashing Paths Campaigns Config Cohorts Flags GetConfig Ingest Catalog AuditLog Binaries Deploy AdminDb AdminRoutes AdminCatalog AdminSettings AdminForms AdminFacts Chunks PackageForms.
From Stdlib Require Import Ascii String.
Open Scope Z_scope.

(** ** The forms *)
Inductive package_form : Type :=
| ArtifactUpload (device_type platform_variant version changelog_url filename data : string)
| DeployCreate (f : deploy_fields)
| CatalogCreate (f : create_fields)
| VersionUpload (plugin_id : Z) (f : version_fields).
Definition receive (drv : driver) (cl : call) (x : outer) (links : gmap (list string) string) (cwd : list string) (tmp dir : string)
    (f : package_form) : SM desk answer :=
  match f with
  | ArtifactUpload dt pv v url n data => artifact_upload drv cl x links cwd dir dt pv v url n data
  | DeployCreate f => deploy_create drv cl x links cwd dir f
  | CatalogCreate f => catalog_create drv cl x links cwd tmp dir f
  | VersionUpload i f => catalog_version_upload drv cl x links cwd tmp dir i f
  end.

(** ** Transactions with files *)
Lemma on_tx_ok {A} (m : SM tx A) w a w' : on_tx m w = (Ok a, w') → ∃ t, m (w_tx w) = (Ok a, t) ∧ w' = Work t (w_disk w) (w_dirs w).
Proof. apply zoom_ok. Qed.
Lemma in_transaction_ok {A} (m : SM work A) k a k' : in_transaction m k = (Ok a, k') →
  ∃ w, m (Work (Tx (k_db k) false) (k_disk k) (k_dirs k)) = (Ok a, w) ∧
    k' = Desk (if t_aborted (w_tx w) then k_db k else t_db (w_tx w)) (w_disk w) (w_dirs w).
Proof. unfold in_transaction. destruct (m _) as [[b|e] w]; [|done]. intros [= -> <-]. eauto. Qed.
Lemma on_files_ok {A} (m : SM work A) k a k' : on_files m k = (Ok a, k') →
  ∃ w, m (Work (Tx (k_db k) false) (k_disk k) (k_dirs k)) = (Ok a, w) ∧ k' = Desk (k_db k) (w_disk w) (w_dirs w).
Proof. unfold on_files. destruct (m _) as [[b|e] w]; [|done]. intros [= -> <-]. eauto. Qed.
Lemma catch_raise_ok {S A} (m : SM S A) h s a s' : (∀ e s1, ∃ e', h e s1 = (Err e', s1)) → catch m h s = (Ok a, s') → m s = (Ok a, s').
Proof. intros Hh. unfold catch. destruct (m s) as [[b|e] s1]; [done|]. by destruct (Hh e s1) as [e' ->]. Qed.
Lemma as_400_keep_ok {A} (m : SM desk A) k a k' : as_400_keep m k = (Ok a, k') → m k = (Ok a, k').
Proof. apply catch_raise_ok. intros [h|t] s1; unfold raise; eauto. Qed.

(** ** Accounts *)
Section accounts.
Variables (drv : driver) (cl : call) (x : outer) (links : gmap (list string) string) (cwd : list string) (tmp dir : string) (k0 : desk).
Hypothesis Hk0 : constraints (k_db k0) = true.
Notation running := (running cl (k_db k0)).
Notation logged := (logged cl (k_db k0)).
Class OrderlyW {A} (m : SM work A) : Prop := {
  orderly_w_running : Maintains (λ w, running (w_tx w)) m; orderly_w_logged : Maintains (λ w, logged (w_tx w)) m }.
Class LogsW {A} (m : SM work A) : Prop := logs_w w a w' : running (w_tx w) → m w = (Ok a, w') → logged (w_tx w').

#[local] Instance w_ret {A} (a : A) : OrderlyW (mret a).
Proof. constructor; apply _. Qed.
#[local] Instance w_raise {A} e : OrderlyW (raise e : SM work A).
Proof. constructor; apply _. Qed.
#[local] Instance w_gets {A} (f : work → A) : OrderlyW (gets f).
Proof. constructor; apply _. Qed.
#[local] Instance w_lift {A} (r : result exc A) : OrderlyW (lift r).
Proof. constructor; apply _. Qed.
#[local] Instance w_bind {A B} (m : SM work A) (k : A → SM work B) : OrderlyW m → (∀ a, OrderlyW (k a)) → OrderlyW (m ≫= k).
Proof. intros [] Hk. constructor; apply maintains_bind; try done; intros a; apply Hk. Qed.
#[local] Instance w_catch {A} (m : SM work A) h : OrderlyW m → (∀ e, OrderlyW (h e)) → OrderlyW (catch m h).
Proof. intros [] Hh. constructor; apply maintains_catch; try done; intros e; apply Hh. Qed.
#[local] Instance w_if {A} (b : bool) (m n : SM work A) : OrderlyW m → OrderlyW n → OrderlyW (if b then m else n).
Proof. by destruct b. Qed.
#[local] Instance w_keeps {A} (m : SM work A) : Keeps w_tx m → OrderlyW m.
Proof. intros Hk. constructor; intros w Hw; by rewrite (Hk w). Qed.
#[local] Instance w_on_tx {A} (m : SM tx A) : Orderly cl (k_db k0) m → OrderlyW (on_tx m).
Proof.
  intros [Hr Hl]. constructor; intros w Hw; unfold on_tx, zoom; [specialize (Hr (w_tx w) Hw)|specialize (Hl (w_tx w) Hw)];
    by destruct (m (w_tx w)).
Qed.
#[local] Instance keeps_on_disk {A} (m : SM (gmap (list string) string) A) : Keeps w_tx (on_disk m).
Proof. intros w. unfold on_disk, zoom. by destruct (m (w_disk w)). Qed.
#[local] Instance keeps_makedirs p : Keeps w_tx (PackageForms.makedirs x links cwd p).
Proof. unfold PackageForms.makedirs. apply _. Qed.
#[local] Instance keeps_write_file p data : Keeps w_tx (PackageForms.write_file x links cwd p data).
Proof. unfold PackageForms.write_file. apply _. Qed.

Lemma logs_w_on_tx {A} (m : SM tx A) : Logs cl (k_db k0) m → LogsW (on_tx m).
Proof. intros Hl w a w' Hw (t & E & ->)%on_tx_ok. by eapply Hl. Qed.
Lemma logs_w_l {A B} (m : SM work A) (k : A → SM work B) : LogsW m → (∀ a, OrderlyW (k a)) → LogsW (m ≫= k).
Proof.
  intros Hm Hk w b w' Hw (a & w1 & E & Ek)%bind_ok. specialize (Hm w a w1 Hw E).
  pose proof (orderly_w_logged (OrderlyW := Hk a) w1 Hm) as H. by rewrite Ek in H.
Qed.
Lemma logs_w_r {A B} (m : SM work A) (k : A → SM work B) : OrderlyW m → (∀ a, LogsW (k a)) → LogsW (m ≫= k).
Proof.
  intros Hm Hk w b w' Hw (a & w1 & E & Ek)%bind_ok. apply (Hk a w1 b w'); [|done].
  pose proof (orderly_w_running (OrderlyW := Hm) w Hw) as H. by rewrite E in H.
Qed.
Lemma logs_w_raise {A} e : LogsW (raise e : SM work A).
Proof. by intros w a w' _. Qed.

(** What the handler did, from the state [k]: nothing, or a change with its entry. *)
Definition accounts_from {A} (m : SM desk A) (k : desk) : Prop := accounted cl (k_db k0) (m k).1 (k_db (m k).2).
Lemma in_transaction_accounts {A} (m : SM work A) k : OrderlyW m → LogsW m → k_db k = k_db k0 → accounts_from (in_transaction m) k.
Proof.
  intros Ho Hl Hk. unfold accounts_from, in_transaction. rewrite Hk. set (w0 := Work _ _ _).
  assert (Hw : running (w_tx w0)) by (by apply start_running).
  pose proof (orderly_w_running (OrderlyW := Ho) w0 Hw) as Hr. destruct (m w0) as [[a|e] w] eqn:E; cbn [fst snd k_db] in *; [|by apply nothing_accounted].
  destruct (t_aborted (w_tx w)) eqn:Ea; [by apply nothing_accounted|]. destruct Hr as [Hc _]. split; [done|]. right. split; [eauto|].
  destruct (Hl w0 a w Hw E) as [Ht|(rows & ? & Hg & ?)]; [by rewrite Ea in Ht|]. exists rows. split_and!; done.
Qed.
Lemma catch_accounts {A} (m : SM desk A) h k : (∀ e k1, k_db (h e k1).2 = k_db k1) → accounts_from m k → accounts_from (catch m h) k.
Proof.
  intros Hh. unfold accounts_from, catch. destruct (m k) as [[a|e] k1]; cbn [fst snd]; [done|]. intros [Hc [Hd|[[a ?] _]]]; [|done].
  split; rewrite Hh; [done|by left].
Qed.
Lemma files_accounts {A B} (m : SM work A) (f : A → SM desk B) k : k_db k = k_db k0 →
  (∀ a k1, k_db k1 = k_db k0 → accounts_from (f a) k1) → accounts_from (on_files m ≫= f) k.
Proof.
  intros Hk Hf. unfold accounts_from, on_files, mbind, SM_bind in *. destruct (m _) as [[a|e] w]; [by apply Hf|].
  cbn. rewrite Hk. by apply nothing_accounted.
Qed.
Lemma lift_accounts {A B} (r : result exc A) (f : A → SM desk B) k : k_db k = k_db k0 →
  (∀ a, accounts_from (f a) k) → accounts_from (lift r ≫= f) k.
Proof. intros Hk Hf. unfold accounts_from, mbind, SM_bind, lift. destruct r; [apply Hf|]. cbn. rewrite Hk. by apply nothing_accounted. Qed.
Lemma quiet_accounts {A} (r : result exc A) k : k_db k = k_db k0 → accounts_from (λ k, (r, k)) k.
Proof. intros Hk. unfold accounts_from. cbn. rewrite Hk. by apply nothing_accounted. Qed.

(** *** The steps *)
Notation Orderly := (Orderly cl (k_db k0)).
#[local] Instance o_if_decide {A} (P : Prop) `{!Decision P} (m n : SM tx A) : Orderly m → Orderly n → Orderly (if decide P then m else n).
Proof. by destruct (decide P). Qed.
#[local] Instance o_create_artifact dt pv v path sum url : Orderly (PackageForms.create_artifact cl dt pv v path sum url).
Proof. unfold PackageForms.create_artifact. apply _. Qed.
#[local] Instance o_target_cohort mode cid percent emails prefix describe : Orderly (target_cohort mode cid percent emails prefix describe).
Proof.
  unfold target_cohort. apply orderly_if; [apply _|]. apply orderly_if; [apply _|]. apply orderly_if; [|apply _].
  destruct (stripped_lines emails); apply _.
Qed.
#[local] Instance o_store_column ok f v : Orderly (store_column ok f v).
Proof. unfold store_column. apply _. Qed.
#[local] Instance o_store_deployed f tpl man : Orderly (store_deployed drv cl f tpl man).
Proof.
  unfold store_deployed. apply orderly_bind; [apply orderly_if; apply _|]. intros _. apply orderly_if; [|apply _].
  destruct man as [| | | | |m]; try apply _. destruct (jget_or "changelog" m (JArr [])) as [| | | |[|j l]|]; apply _.
Qed.
#[local] Instance o_create_deployment f name path sum tpl man : Orderly (create_deployment drv cl f name path sum tpl man).
Proof. unfold create_deployment. apply _. Qed.
#[local] Instance o_insert_alias alias i : Orderly (insert_alias alias i).
Proof. apply orderly_execute. intros d. cbv zeta. by case_decide. Qed.
#[local] Instance o_import_template i tpl : Orderly (import_template drv cl i tpl).
Proof.
  unfold import_template. apply orderly_if; [|apply _]. apply orderly_bind; [apply _|]. intros _. apply orderly_bind; [apply _|].
  intros [p|]; cbv zeta; apply _.
Qed.
#[local] Instance o_manifest_notes v vid l : Orderly (manifest_notes v vid l).
Proof.
  induction l as [|e l IH]; cbn [manifest_notes]; [apply _|]. destruct e; try apply _. apply orderly_if; [|done].
  destruct (Traces.py_iter _); [|apply _]. apply orderly_catch; [by apply orderly_execute|intros ?; apply _].
Qed.
#[local] Instance o_import_manifest i vid v notes man : Orderly (import_manifest drv i vid v notes man).
Proof.
  unfold import_manifest. apply orderly_if; [|apply _].
  destruct man as [| | | | |m]; try apply _. destruct (jget_or "changelog" m (JArr [])) as [| | | |[|j l]|]; apply _.
Qed.
#[local] Instance o_bind_campaign e i vid c : Orderly (bind_campaign e i vid c).
Proof. unfold bind_campaign. apply orderly_stmt. apply keeps_if; apply _. Qed.
#[local] Instance o_deploy_version i p f v a vid : Orderly (deploy_version drv cl i p f v a vid).
Proof. unfold deploy_version. apply _. Qed.
#[local] Instance w_joined rel : OrderlyW (joined links cwd dir rel).
Proof. unfold joined, of_http_w. apply _. Qed.
#[local] Instance w_store_version i p f variant data filename : OrderlyW (store_version cl x links cwd dir i p f variant data filename).
Proof. unfold store_version, of_http_w. apply _. Qed.
#[local] Instance w_sent_binary f : OrderlyW (sent_binary links cwd tmp f).
Proof. unfold sent_binary, reassemble. apply _. Qed.
#[local] Instance w_first_version f i data filename : OrderlyW (first_version cl x links cwd dir f i data filename).
Proof. unfold first_version. apply _. Qed.

Lemma create_in_catalogue_logs f icon tpl : LogsW (create_in_catalogue drv cl x links cwd tmp dir f icon tpl).
Proof.
  unfold create_in_catalogue. apply logs_w_r; [apply _|]. intros i. apply logs_w_r; [apply _|]. intros _. apply logs_w_r; [apply _|]. intros _.
  apply logs_w_r; [apply _|]. intros b. apply logs_w_r; [destruct b as [[d n]|]; apply _|]. intros v.
  apply logs_w_l; [apply logs_w_on_tx, _|intros _; apply _].
Qed.
#[local] Instance w_create_in_catalogue f icon tpl : OrderlyW (create_in_catalogue drv cl x links cwd tmp dir f icon tpl).
Proof.
  unfold create_in_catalogue. do 4 (apply w_bind; [apply _|intros ?]). apply w_bind; [|apply _]. repeat case_match; apply _.
Qed.
#[local] Instance w_version_steps i f data filename tpl man : OrderlyW (version_steps drv cl x links cwd dir i f data filename tpl man).
Proof.
  unfold version_steps. apply w_bind; [apply _|]. intros [p|]; [|apply _]. apply w_bind; [apply _|]. intros [[v a] vid].
  do 3 (apply w_bind; [apply _|intros ?]). case_decide; apply _.
Qed.
Lemma version_steps_logs i f data filename tpl man : LogsW (version_steps drv cl x links cwd dir i f data filename tpl man).
Proof.
  unfold version_steps. apply logs_w_r; [apply _|]. intros [p|]; [|apply logs_w_raise]. apply logs_w_r; [apply _|]. intros [[v a] vid].
  do 2 (apply logs_w_r; [apply _|intros _]). apply logs_w_l; [apply logs_w_on_tx, _|]. intros _. case_decide; apply _.
Qed.
Lemma create_deployment_logs f name path sum tpl man : LogsW (on_tx (create_deployment drv cl f name path sum tpl man)).
Proof. apply logs_w_on_tx. unfold create_deployment. logs_body. Qed.
Lemma receive_accounts f : accounts_from (receive drv cl x links cwd tmp dir f) k0.
Proof.
  destruct f as [dt pv v url n data|f|f|i f]; cbn [receive].
  - unfold artifact_upload. destruct (validate_upload n (size_of data)); [by apply quiet_accounts|]. case_match; [by apply quiet_accounts|].
    apply files_accounts; [done|]. intros [[a b] c] k1 Hk1. apply catch_accounts; [done|]. apply in_transaction_accounts; [apply _| |done].
    apply logs_w_on_tx. logs_body.
  - unfold deploy_create. destruct (validate_upload _ _); [by apply quiet_accounts|]. case_match; [by apply quiet_accounts|].
    destruct (read_package _ _ _) as [[tpl man] name]. apply lift_accounts; [done|]. intros data. cbv zeta.
    apply files_accounts; [done|]. intros _ k1 Hk1. apply catch_accounts; [done|].
    apply in_transaction_accounts; [apply _|apply create_deployment_logs|done].
  - unfold catalog_create. apply lift_accounts; [done|]. intros tpl. apply files_accounts; [done|]. intros icon k1 Hk1.
    apply catch_accounts; [done|]. apply in_transaction_accounts; [apply _|apply create_in_catalogue_logs|done].
  - unfold catalog_version_upload. apply files_accounts; [done|]. intros [data filename] k1 Hk1. case_match; [by apply quiet_accounts|].
    case_match; [by apply quiet_accounts|]. destruct (read_package _ _ _) as [[tpl man] name]. apply lift_accounts; [done|]. intros data'.
    apply catch_accounts; [by intros []|]. apply in_transaction_accounts; [apply _|apply version_steps_logs|done].
Qed.

End accounts.

(** ** What an accepted version publishes *)
(** What the last steps of the upload leave as the first ones made it: the
    artifacts, and of each version all but its notes. *)
Definition vcore (v : version_row) : Z * Z * string * option Z * string := (vr_id v, vr_plugin v, vr_version v, vr_artifact v, vr_status v).
Definition stored (d : adb) : list art_row * list (Z * Z * string * option Z * string) :=
  (ct_artifacts (d_cat d), vcore <$> ct_versions (d_cat d)).
Definition tstored (t : tx) := stored (t_db t).

Section stored.
Variables (drv : driver) (cl : call).
#[export] Instance stored_stmt {A} (m : SM adb A) : Keeps stored m → Keeps tstored (stmt m).
Proof.
  intros Hk t. unfold stmt. destruct (t_aborted t); [done|]. specialize (Hk (t_db t)). destruct (m (t_db t)) as [[a|e] d]; [|done].
  by destruct (constraints d).
Qed.
Lemma stored_execute f : (∀ d, stored (f d) = stored d) → Keeps tstored (execute f).
Proof. intros H. unfold execute. apply stored_stmt. exact H. Qed.
#[export] Instance stored_select {A} (f : adb → A) : Keeps tstored (select f).
Proof. unfold select. apply _. Qed.
#[export] Instance stored_zoom {T A} (get : adb → T) put (m : SM T A) : (∀ t d, stored (put t d) = stored d) → Keeps stored (zoom get put m).
Proof. intros H d. unfold zoom. destruct (m (get d)) as [r t]. apply H. Qed.
#[export] Instance stored_audit cl' act rt rid p : Keeps tstored (AdminRoutes.audit drv cl' act rt rid p).
Proof. unfold AdminRoutes.audit. apply stored_stmt. apply keeps_bind; [apply _|]. intros d. by apply stored_zoom. Qed.
#[export] Instance stored_jsonb l : Keeps stored (jsonb l).
Proof. unfold jsonb. destruct (loads l); apply _. Qed.
#[export] Instance stored_set_columns l : Keeps stored (set_columns l).
Proof. induction l as [|[k t] l IH]; cbn [set_columns]; apply _. Qed.
#[export] Instance stored_adapt_fields l : Keeps tstored (adapt_fields drv l).
Proof. induction l as [|[k v] l IH]; cbn [adapt_fields]; [apply _|]. unfold adapt. destruct (dr_adapt drv (column_value k v)); apply _. Qed.
#[export] Instance stored_update_plugin i fs : Keeps tstored (update_plugin drv i fs).
Proof. unfold update_plugin. destruct (filter _ fs); apply _. Qed.
#[export] Instance stored_safe_reconcile slug t src : Keeps tstored (safe_reconcile drv cl slug t src).
Proof.
  unfold safe_reconcile. set (who := match c_session cl with [] => _ | _ => _ end).
  apply keeps_catch; [|intros ?; apply _]. apply keeps_bind; [|intros ?; apply _]. apply stored_stmt. apply keeps_bind; [apply _|].
  intros st. destruct (Catalogue.reconcile_catalog_from_template _ _ _). apply _.
Qed.
#[export] Instance stored_import_template i tpl : Keeps tstored (import_template drv cl i tpl).
Proof. unfold import_template. apply keeps_if; [|apply _]. do 2 (apply keeps_bind; [apply _|intros ?]). case_match; cbv zeta; apply _. Qed.
Lemma stored_set_notes vid notes d : stored (set_notes vid notes d) = stored d.
Proof. unfold stored. cbn. f_equal. rewrite <- list_fmap_compose. apply list_fmap_ext. intros ? v _. simpl. by case_decide. Qed.
#[export] Instance stored_manifest_notes v vid l : Keeps tstored (manifest_notes v vid l).
Proof.
  induction l as [|e l IH]; cbn [manifest_notes]; [apply _|]. destruct e; try apply _. apply keeps_if; [|done].
  destruct (Traces.py_iter _); [|apply _]. apply keeps_catch; [|intros ?; apply _]. apply stored_execute. intros ?. apply stored_set_notes.
Qed.
#[export] Instance stored_import_manifest i vid v notes man : Keeps tstored (import_manifest drv i vid v notes man).
Proof.
  unfold import_manifest. apply keeps_if; [|apply _].
  destruct man as [| | | | |m]; try apply _. destruct (jget_or "changelog" m (JArr [])) as [| | | |[|j l]|]; apply _.
Qed.
#[export] Instance stored_create_cohort n x t : Keeps tstored (AdminRoutes.create_cohort n x t).
Proof. unfold AdminRoutes.create_cohort. apply stored_stmt, keeps_bind; [apply _|]. intros d. unfold of_exn. destruct (Service.create_cohort _ _ _ _ _); apply _. Qed.
#[export] Instance stored_add_members i l n : Keeps tstored (AdminRoutes.add_members i l n).
Proof.
  revert n. induction l as [|[t v] l IH]; intros n; cbn [AdminRoutes.add_members]; [apply _|]. apply keeps_bind; [|intros k; apply IH].
  apply stored_stmt, keeps_bind; [apply _|]. intros d. unfold of_exn. destruct (Service.add_member _ _ _ _); apply _.
Qed.
#[export] Instance stored_target_cohort mode cid percent emails prefix describe : Keeps tstored (target_cohort mode cid percent emails prefix describe).
Proof. unfold target_cohort. do 3 (apply keeps_if; [apply _ || idtac|]); [|apply _]. destruct (stripped_lines emails); apply _. Qed.
#[export] Instance stored_create_campaign n x a r t u dl s ro p : Keeps tstored (AdminRoutes.create_campaign drv cl n x a r t u dl s ro p).
Proof.
  unfold AdminRoutes.create_campaign. apply stored_stmt, keeps_bind; [apply _|]. intros st. apply keeps_bind; [apply _|]. intros _.
  destruct (Life.create_campaign _ _ _ _ _ _ _ _ _ _ _ _ _ _). apply _.
Qed.
#[export] Instance stored_bind_campaign e i vid c : Keeps tstored (bind_campaign e i vid c).
Proof. unfold bind_campaign. apply _. Qed.
#[export] Instance stored_deploy_version i p f v a vid : Keeps tstored (deploy_version drv cl i p f v a vid).
Proof. unfold deploy_version. apply _. Qed.
End stored.

(** *** Steps 3 to 5, and the campaign *)
Lemma stmt_live {A} (m : SM adb A) t a t' : stmt m t = (Ok a, t') →
  ∃ d d', t = Tx d false ∧ m d = (Ok a, d') ∧ t' = Tx d' false ∧ constraints d' = true.
Proof.
  destruct t as [d []]; [done|]. intros (d' & E & -> & Hc)%stmt_ok. eauto 10.
Qed.
Lemma on_cat_ok {A} (m : SM catalog A) d a d' : on_cat m d = (Ok a, d') → ∃ c, m (d_cat d) = (Ok a, c) ∧ d' = set_cat c d.
Proof. apply zoom_ok. Qed.
Lemma joined_ok links cwd dir rel w p w' : joined links cwd dir rel w = (Ok p, w') → safe_path_join links cwd dir rel = Ok p ∧ w' = w.
Proof. unfold joined, of_http_w. intros [H ->]%lift_ok. split; [|done]. destruct (safe_path_join _ _ _ _); congruence. Qed.
Lemma of_http_w_ok {A} (r : result http_error A) w a w' : of_http_w r w = (Ok a, w') → r = Ok a ∧ w' = w.
Proof. unfold of_http_w. intros [H ->]%lift_ok. split; [|done]. destruct r; congruence. Qed.
Lemma makedirs_ok x links cwd p w a w' : PackageForms.makedirs x links cwd p w = (Ok a, w') →
  w_tx w' = w_tx w ∧ w_disk w' = w_disk w.
Proof. unfold PackageForms.makedirs. destruct (x_writable x p); [|done]. by intros [= _ <-]. Qed.
Lemma wrote_file x links cwd p data w a w' : PackageForms.write_file x links cwd p data w = (Ok a, w') →
  w' = Work (w_tx w) (<[place links cwd p := data]> (w_disk w)) (w_dirs w).
Proof. unfold PackageForms.write_file. rewrite bind_gets. destruct (_ && _); [|done]. by intros [= _ <-]. Qed.

(** The row of a published version and its artifact. *)
Definition publishes (d : adb) (plugin_id : Z) (device_type variant version path data : string) (aid vid : Z) : Prop :=
  (∃ a, a ∈ ct_artifacts (d_cat d) ∧ a_id a = aid ∧ art_key a = (device_type, Some variant, Some version) ∧
     art_s3_path (ar_art a) = Some path ∧ art_checksum (ar_art a) = Some (checksum_of data)) ∧
  (∃ v, v ∈ ct_versions (d_cat d) ∧ vcore v = (vid, plugin_id, version, Some aid, "published")) ∧
  ∀ v, v ∈ ct_versions (d_cat d) → published_of plugin_id v = true → vr_id v = vid.
Lemma publishes_stored d d' i dt pv v path data aid vid : stored d' = stored d →
  publishes d i dt pv v path data aid vid → publishes d' i dt pv v path data aid vid.
Proof.
  intros [= Ha Hv] (Hart & (r & Hr & Hc) & Hone). unfold publishes. rewrite Ha. split_and!; [done|..].
  - apply (list_elem_of_fmap_2 vcore) in Hr. rewrite <- Hv in Hr. apply list_elem_of_fmap in Hr as (r' & Hc' & Hr').
    exists r'. split; congruence.
  - intros r' Hr' Hp. apply (list_elem_of_fmap_2 vcore) in Hr'. rewrite Hv in Hr'. apply list_elem_of_fmap in Hr' as (r0 & Hc' & Hr0).
    unfold vcore in Hc'. injection Hc' as Hid Hpl _ _ Hst. rewrite Hid. apply Hone; [done|].
    unfold published_of in *. bool_hyps. apply bool_decide_eq_true. naive_solver congruence.
Qed.

Section publish.
Variables (drv : driver) (cl : call) (x : outer) (links : gmap (list string) string) (cwd : list string) (tmp dir : string).
Notation place := (Chunks.place links cwd).

Lemma published_in_catalogue i dt pv v path data notes mi ma mode t aid t1 vid t2 :
  catalog_ok (d_cat (t_db t)) →
  PackageForms.create_artifact cl dt pv v path (checksum_of data) "" t = (Ok aid, t1) →
  stmt (on_cat (Catalog.create_version (c_now cl) i v (Some aid) notes "" mi ma mode "published")) t1 = (Ok vid, t2) →
  publishes (t_db t2) i dt pv v path data aid vid ∧ d_camps (t_db t2) = d_camps (t_db t).
Proof.
  intros Hok (d & d1 & -> & (c1 & E1 & ->)%on_cat_ok & -> & _)%stmt_live (d' & d2 & [= <-] & (c2 & E2 & ->)%on_cat_ok & -> & _)%stmt_live.
  cbn [t_db d_cat set_cat d_camps] in *. unfold Catalog.create_artifact in E1.
  pose proof (maintains_run catalog_ok _ _ _ _ E1 Hok) as Hok1.
  apply upsert_artifact_spec in E1 as (a & arts & -> & Ha & Hid & Hkey & Hpath & Hsum & _); [|done].
  assert (Hpos : 0 < aid) by (rewrite <- Hid; by apply (ok_art_next _ Hok1)).
  apply create_version_spec in E2 as (r & vs & -> & Hr & Hri & Hrp & Hrv & Hra & Hrs & Hone & _); [|done|done].
  split; [|done]. split_and!.
  - exists a. by split_and!.
  - exists r. split; [done|]. unfold vcore. congruence.
  - intros v' Hv' Hp. rewrite <- Hri. f_equal. by apply Hone.
Qed.

Lemma store_version_ok i p f variant data filename w version aid vid w' :
  catalog_ok (d_cat (t_db (w_tx w))) →
  store_version cl x links cwd dir i p f variant data filename w = (Ok (version, aid, vid), w') →
  ∃ rel path, safe_path_join links cwd dir rel = Ok path ∧ w_disk w' = <[place path := data]> (w_disk w) ∧
    safe_segment (vf_version f) "version" = Ok version ∧
    publishes (t_db (w_tx w')) i (basename (pl_device_type (pg_row p))) variant version path data aid vid.
Proof.
  intros Hok H. unfold store_version in H.
  apply bind_ok in H as (dt & ? & [Hdt ->]%of_http_w_ok & H). apply bind_ok in H as (slug & ? & [_ ->]%of_http_w_ok & H).
  apply bind_ok in H as (v & ? & [Hv ->]%of_http_w_ok & H). apply bind_ok in H as (ext & ? & [_ ->]%lift_ok & H).
  apply bind_ok in H as (suffix & w1 & Hs & H). assert (w1 = w) as ->.
  { destruct (truthy_str variant); [|by injection Hs]. apply bind_ok in Hs as (s & ? & [_ ->]%of_http_w_ok & Hs). by injection Hs. }
  apply bind_ok in H as (d & ? & [_ ->]%joined_ok & H). apply bind_ok in H as ([] & w1 & [Ht1 Hd1]%makedirs_ok & H).
  apply bind_ok in H as (path & ? & [Hp ->]%joined_ok & H). apply bind_ok in H as ([] & w2 & ->%wrote_file & H).
  apply bind_ok in H as (aid' & w3 & (t3 & E3 & ->)%on_tx_ok & H). apply bind_ok in H as (vid' & w4 & (t4 & E4 & ->)%on_tx_ok & H).
  apply bind_ok in H as ([] & w5 & (t5 & E5 & ->)%on_tx_ok & H). injection H as <- <- <- <-. cbn [w_tx w_disk w_dirs] in *.
  rewrite Ht1 in E3. pose proof (published_in_catalogue _ _ _ _ _ _ _ _ _ _ _ _ _ _ _ Hok E3 E4) as [Hpub _].
  exists (dt +:+ "/" +:+ slug +:+ "-" +:+ v +:+ suffix +:+ ext), path. rewrite Hd1. split_and!; [done|done|done|].
  assert (dt = basename (pl_device_type (pg_row p))) as <-.
  { unfold safe_segment in Hdt. destruct (_SAFE_SEGMENT _); congruence. }
  destruct (truthy_str variant); [|injection E5 as <-; exact Hpub].
  apply bind_ok in E5 as (lid & t6 & E6 & E7). injection E7 as <-. apply stmt_live in E6 as (d6 & d7 & -> & (c & E6 & ->)%on_cat_ok & -> & _).
  eapply publishes_stored; [|exact Hpub]. unfold link_version_artifact in E6. rewrite bind_gets in E6. destruct (negb _); [done|].
  destruct (bool_decide _); [|done]. rewrite bind_modify in E6. by injection E6 as _ <-.
Qed.

(** The campaign of the version, and the update campaigns of the plugin that it ends. *)
Definition deploys (d : adb) (plugin_id aid vid : Z) : Prop :=
  ∃ c, c ∈ Life.st_rows (d_camps d) ∧ cp_status c = "active" ∧ cp_type c = "plugin_update" ∧ cp_plugin c = Some plugin_id ∧
    cp_artifact c = Some aid ∧ cp_version c = Some vid ∧
    ∀ c', c' ∈ Life.st_rows (d_camps d) → cp_status c' = "active" → cp_type c' = "plugin_update" →
      cp_id c' = cp_id c ∨ ∃ q, cp_plugin c' = Some q ∧ q ≠ plugin_id.
Lemma created_campaign now st name desc aid cohort rollout by_ i :
  let '(cid, st') := Life.create_campaign now st name desc "plugin_update" (Some aid) None cohort "normal" None "active" rollout by_ (Some i) in
  ∃ c, c ∈ Life.st_rows st' ∧ cp_id c = cid ∧ cp_status c = "active" ∧ cp_type c = "plugin_update" ∧ cp_artifact c = Some aid.
Proof. unfold Life.create_campaign. cbv zeta. eexists. split; [cbn [Life.st_rows]; apply elem_of_app; right; by left|done]. Qed.
Lemma deploy_version_ok i p f v aid vid t t' : deploy_version drv cl i p f v aid vid t = (Ok (), t') → deploys (t_db t') i aid vid.
Proof.
  intros H. unfold deploy_version in H. apply bind_ok in H as (dt & ? & [_ ->]%lift_ok & H). apply bind_ok in H as (cohort & t1 & _ & H).
  apply bind_ok in H as (rollout & ? & [_ ->]%lift_ok & H). apply bind_ok in H as (cid & t2 & E2 & H). apply bind_ok in H as ([] & t3 & E3 & H).
  apply stmt_live in E2 as (d1 & d2 & -> & E2 & -> & _). rewrite bind_gets in E2. rewrite (bind_step _ _ _ () d1) in E2 by done.
  cbn [mbind option_bind] in E2.
  pose proof (create_campaign_supersedes (c_now cl) (d_camps d1) ("MaJ " +:+ pg_name p +:+ " " +:+ v +:+ " [" +:+ vf_environment f +:+ "]") "" "plugin_update"
    (Some aid) None cohort "normal" None rollout (dget "email" (c_session cl)) (Some i)) as Hs.
  pose proof (created_campaign (c_now cl) (d_camps d1) ("MaJ " +:+ pg_name p +:+ " " +:+ v +:+ " [" +:+ vf_environment f +:+ "]") ""
    aid cohort rollout (dget "email" (c_session cl)) i) as Hc.
  destruct (Life.create_campaign _ _ _ _ _ _ _ _ _ _ _ _ _ _) as [cid' st']. rewrite bind_modify in E2. injection E2 as -> <-.
  destruct Hs as [Hone _], Hc as (c & Hc & Hid & Hst & Hty & Har).
  apply stmt_live in E3 as (d2 & d3 & [= <-] & E3 & -> & _). destruct (fits 50 (vf_environment f)); [|done]. injection E3 as <-.
  apply audit_ok in H as (rows & -> & _). cbn [t_db set_audit d_camps set_camps]. unfold deploys. cbn.
  eexists. split; [apply list_elem_of_fmap_2, Hc|]. case_decide; [|done]. cbn. split_and!; try done.
  intros c' (c0 & -> & Hc0)%list_elem_of_fmap Hst' Hty'. case_decide as Hd; cbn in *; [left; congruence|].
  destruct (Hone c0 Hc0 Hst' Hty') as [?|(p' & q & [= <-] & Hq & Hne)]; [done|]. right. exists q. split; [done|congruence].
Qed.

Lemma on_tx_disk {A} (m : SM tx A) w a w' : on_tx m w = (Ok a, w') → w_disk w' = w_disk w ∧ m (w_tx w) = (Ok a, w_tx w').
Proof. by intros (t & E & ->)%on_tx_ok. Qed.
Lemma tstored_run {A} (m : SM tx A) `{!Keeps tstored m} t a t' : m t = (Ok a, t') → stored (t_db t') = stored (t_db t).
Proof. intros E. pose proof (keeps (f := tstored) (m := m) t) as H. by rewrite E in H. Qed.
Lemma version_steps_ok i f data filename tpl man w a w' : catalog_ok (d_cat (t_db (w_tx w))) →
  version_steps drv cl x links cwd dir i f data filename tpl man w = (Ok a, w') →
  ∃ p rel path aid vid, get_plugin (t_db (w_tx w)) i = Some p ∧ safe_path_join links cwd dir rel = Ok path ∧
    w_disk w' !! place path = Some data ∧ t_aborted (w_tx w') = false ∧
    publishes (t_db (w_tx w')) i (basename (pl_device_type (pg_row p))) (strip (vf_variant f)) (basename (vf_version f)) path data aid vid ∧
    (vf_action f = "deploy" → deploys (t_db (w_tx w')) i aid vid).
Proof.
  intros Hok H. unfold version_steps in H. apply bind_ok in H as (p0 & w0 & (t0 & E0 & ->)%on_tx_ok & H).
  apply stmt_live in E0 as (d & d' & Et & E0 & -> & _). rewrite Et in Hok. injection E0 as <- <-.
  destruct (get_plugin d i) as [p|] eqn:Ep; [|done]. apply bind_ok in H as ([[v aid] vid] & w1 & E1 & H).
  apply store_version_ok in E1 as (rel & path & Hpath & Hd & Hv & Hpub); [|done].
  apply bind_ok in H as ([] & w2 & [D2 E2]%on_tx_disk & H). apply bind_ok in H as ([] & w3 & [D3 E3]%on_tx_disk & H).
  apply bind_ok in H as ([] & w4 & [D4 E4]%on_tx_disk & H).
  assert (v = basename (vf_version f)) as ->. { unfold safe_segment in Hv. destruct (_SAFE_SEGMENT _); congruence. }
  apply (tstored_run _) in E2. apply (tstored_run _) in E3. apply stmt_live in E4 as E5. destruct E5 as (d4 & d5 & _ & _ & E5 & _).
  apply (tstored_run _) in E4. rewrite Et. cbn [t_db w_disk] in *.
  assert (Hdisk : w_disk w4 !! place path = Some data) by (rewrite D4, D3, D2, Hd; apply lookup_insert_eq).
  assert (Hpub' : publishes (t_db (w_tx w4)) i (basename (pl_device_type (pg_row p))) (strip (vf_variant f)) (basename (vf_version f)) path data aid vid).
  { eapply publishes_stored; [|exact Hpub]. congruence. }
  exists p, rel, path, aid, vid. destruct (decide (vf_action f = "deploy")) as [Ha|Ha].
  - apply bind_ok in H as ([] & w5 & [D5 E6]%on_tx_disk & H). injection H as _ <-.
    split_and!; try done; [congruence|..].
    + unfold deploy_version in E6. repeat (let t := fresh "t" in apply bind_ok in E6 as (? & t & _ & E6)).
      apply stmt_live in E6 as (? & ? & _ & _ & -> & _). done.
    + eapply publishes_stored; [|exact Hpub']. by eapply tstored_run, E6; apply _.
    + intros _. by eapply deploy_version_ok.
  - injection H as _ <-. split_and!; try done. by rewrite E5.
Qed.

(** An accepted upload of a version: the package without its metadata is on the disk
    at a path below the directory of the binaries, the artifact of the plugin's
    device type, of that version and variant, has this path and the checksum of
    those bytes, the version is published with this artifact and no other version of
    the plugin is published; when the form asks for it, a campaign that serves
    them is active, and every other active update campaign is bound to another
    plugin. *)
Theorem version_upload_publishes i f k a k' :
  catalog_ok (d_cat (k_db k)) →
  catalog_version_upload drv cl x links cwd tmp dir i f k = (Ok a, k') →
  ∃ p sent name data rel path aid vid,
    (received links cwd tmp (vf_source f) (Work (Tx (k_db k) false) (k_disk k) (k_dirs k))).1 = Ok (sent, name) ∧
    _strip_dm_metadata_from_zip x sent = Ok data ∧ get_plugin (k_db k) i = Some p ∧
    safe_path_join links cwd dir rel = Ok path ∧ k_disk k' !! place path = Some data ∧
    publishes (k_db k') i (basename (pl_device_type (pg_row p))) (strip (vf_variant f)) (basename (vf_version f)) path data aid vid ∧
    (vf_action f = "deploy" → deploys (k_db k') i aid vid).
Proof.
  intros Hok H. unfold catalog_version_upload in H. apply bind_ok in H as ([sent name] & k1 & (w & E & ->)%on_files_ok & H).
  destruct (negb _); [done|]. destruct (_ <? _); [done|]. destruct (read_package x sent "") as [[tpl man] nm].
  apply bind_ok in H as (data & ? & [Hs ->]%lift_ok & H). apply as_400_keep_ok, in_transaction_ok in H as (w' & H & ->).
  apply version_steps_ok in H as (p & rel & path & aid & vid & Hp & Hpath & Hd & Hab & Hpub & Hdep); [|done].
  exists p, sent, name, data, rel, path, aid, vid. cbn [k_db k_disk w_tx t_db] in *. rewrite E, Hab. by split_and!.
Qed.
End publish.
