(* ===== verification/PackageDisk.v ===== *)
(** * Where the forms that receive a package write
    The disk after the forms of [PackageForms]: two of them join the path they write
    to safely, two do not; instances of what each form does. *)
From S2P Require Import Prelude Text Json Effects Hashing Paths Campaigns Config Cohorts Flags GetConfig Ingest Catalog AuditLog Binaries Deploy AdminDb AdminRoutes AdminCatalog AdminSettings AdminForms AdminFacts Chunks PackageForms PackageFacts.
From Stdlib Require Import Ascii String.
Open Scope Z_scope.

(** ** What is written on the disk *)
Section confined.
Variables (drv : driver) (cl : call) (x : outer) (links : gmap (list string) string) (cwd : list string) (tmp dir : string) (d0 : disk) (upload_id : option string).
Notation place := (Chunks.place links cwd).
(** The disk differs from [d0] at paths joined safely to the directory of the
    binaries, and by the pieces of the upload, once they are put together. *)
Definition within (d : disk) : Prop := ∀ key, d !! key ≠ d0 !! key →
  (∃ rel p, safe_path_join links cwd dir rel = Ok p ∧ key = place p) ∨
  d !! key = None ∧ ∃ u, upload_id = Some u ∧ place (OsPath.join (_CHUNK_DIR tmp) u) `prefix_of` key.
Notation stays m := (Maintains (λ w, within (w_disk w)) m).

Lemma stays_keeps {A} (m : SM work A) : Keeps w_disk m → stays m.
Proof. intros Hk w Hw. by rewrite (Hk w). Qed.
#[local] Instance keeps_on_tx {A} (m : SM tx A) : Keeps w_disk (on_tx m).
Proof. intros w. unfold on_tx, zoom. by destruct (m (w_tx w)). Qed.
#[local] Instance keeps_disk_makedirs p : Keeps w_disk (PackageForms.makedirs x links cwd p).
Proof. unfold PackageForms.makedirs. apply _. Qed.
Lemma stays_write rel p data : safe_path_join links cwd dir rel = Ok p → stays (PackageForms.write_file x links cwd p data).
Proof.
  intros Hp w Hw. unfold PackageForms.write_file. rewrite bind_gets. destruct (_ && _); [|done]. cbn. intros key.
  destruct (decide (key = place p)) as [->|Hne]; [left; eauto|]. rewrite lookup_insert_ne by done. apply Hw.
Qed.
Lemma stays_join {A} rel (k : string → SM work A) : (∀ p, safe_path_join links cwd dir rel = Ok p → stays (k p)) → stays (joined links cwd dir rel ≫= k).
Proof.
  intros Hk w Hw. unfold joined, of_http_w, mbind, SM_bind, lift. destruct (safe_path_join links cwd dir rel) as [p|e]; [by apply Hk|done].
Qed.
Lemma stays_bind {A B} (m : SM work A) (k : A → SM work B) : Keeps w_disk m → (∀ a, stays (k a)) → stays (m ≫= k).
Proof. intros Hm Hk. apply maintains_bind; [by apply stays_keeps|done]. Qed.

Lemma store_version_stays i p f variant data filename : stays (store_version cl x links cwd dir i p f variant data filename).
Proof.
  unfold store_version, of_http_w. do 5 (apply stays_bind; [apply _|intros ?]). apply stays_join. intros d _.
  apply stays_bind; [apply _|]. intros _. apply stays_join. intros path Hp. apply maintains_bind; [by eapply stays_write|].
  intros _. apply stays_keeps. apply _.
Qed.
Lemma version_steps_stays i f data filename tpl man : stays (version_steps drv cl x links cwd dir i f data filename tpl man).
Proof.
  unfold version_steps. apply stays_bind; [apply _|]. intros [p|]; [|apply stays_keeps, _]. apply maintains_bind; [apply store_version_stays|].
  intros [[v aid] vid]. apply stays_keeps. repeat (apply keeps_bind; [apply _|intros _]). case_decide; apply _.
Qed.
Lemma rmtree_within d u : upload_id = Some u → within d → within (rmtree (place (OsPath.join (_CHUNK_DIR tmp) u)) d).
Proof.
  intros Hu Hd key Hne. unfold rmtree in Hne |- *. destruct (decide (place (OsPath.join (_CHUNK_DIR tmp) u) `prefix_of` key)) as [Hp|Hp].
  - right. split; [|eauto]. apply map_lookup_filter_None. right. intros c _ H. by apply H.
  - assert (E : filter (λ kv : list string * string, ¬ place (OsPath.join (_CHUNK_DIR tmp) u) `prefix_of` kv.1) d !! key = d !! key).
    { destruct (d !! key) as [c|] eqn:E; [by apply map_lookup_filter_Some|]. apply map_lookup_filter_None. by left. }
    rewrite E in Hne |- *. by apply Hd.
Qed.
Lemma reassemble_stays u : upload_id = Some u → stays (reassemble links cwd tmp u).
Proof.
  intros Hu. assert (Hm : Maintains within (_reassemble_upload links cwd tmp u)).
  { unfold _reassemble_upload. cbv zeta. apply maintains_bind; [apply _|]. intros m.
    destruct (m !! _) as [text|]; [|apply _]. destruct (loads text) as [[| | | | |meta]|]; try apply _.
    apply maintains_bind; [apply _|]. intros few. apply maintains_if; [apply _|]. destruct (read_all _ _ _); [|apply _].
    apply maintains_bind; [|apply _]. apply maintains_if; [apply _|]. intros d. by apply rmtree_within. }
  intros w Hw. specialize (Hm (w_disk w) Hw). unfold reassemble, on_disk, zoom. by destruct (_reassemble_upload _ _ _ _ _) as [r d].
Qed.
Lemma received_stays s : (∀ u, s = InChunks u → upload_id = Some u) → stays (received links cwd tmp s).
Proof.
  intros Hs. destruct s as [u|[[n data]|]]; cbn [received].
  - destruct (negb _); [apply stays_keeps, _|]. apply maintains_bind; [by apply reassemble_stays, Hs|]. intros [|]; apply _.
  - destruct (validate_upload _ _); apply stays_keeps, _.
  - apply _.
Qed.

(** The disk after a computation of the handler. *)
Definition leaves {A} (m : SM desk A) (k : desk) : Prop := within (k_disk k) → within (k_disk (m k).2).
Lemma leaves_files {A B} (m : SM work A) (f : A → SM desk B) k : stays m → (∀ a k1, leaves (f a) k1) → leaves (on_files m ≫= f) k.
Proof.
  intros Hm Hf Hk. unfold on_files, mbind, SM_bind. specialize (Hm (Work (Tx (k_db k) false) (k_disk k) (k_dirs k)) Hk).
  destruct (m _) as [[a|e] w]; [by apply Hf|done].
Qed.
Lemma leaves_transaction {A} (m : SM work A) k : stays m → leaves (in_transaction m) k.
Proof.
  intros Hm Hk. unfold in_transaction. specialize (Hm (Work (Tx (k_db k) false) (k_disk k) (k_dirs k)) Hk).
  by destruct (m _) as [[a|e] w].
Qed.
Lemma leaves_catch {A} (m : SM desk A) h k : (∀ e k1, (h e k1).2 = k1) → leaves m k → leaves (catch m h) k.
Proof. intros Hh Hm Hk. unfold catch. specialize (Hm Hk). destruct (m k) as [[a|e] k1]; [done|]. by rewrite Hh. Qed.
Lemma leaves_lift {A B} (r : result exc A) (f : A → SM desk B) k : (∀ a, leaves (f a) k) → leaves (lift r ≫= f) k.
Proof. intros Hf. unfold leaves, mbind, SM_bind, lift in *. destruct r; [apply Hf|done]. Qed.

Lemma artifact_upload_leaves dt pv v url n data k : leaves (artifact_upload drv cl x links cwd dir dt pv v url n data) k.
Proof.
  unfold artifact_upload. destruct (validate_upload _ _); [by intros ?|]. destruct (_ <? _); [by intros ?|]. apply leaves_files.
  - unfold of_http_w. do 3 (apply stays_bind; [apply _|intros ?]). apply stays_join. intros d _. apply stays_bind; [apply _|]. intros _.
    apply stays_join. intros path Hp. apply maintains_bind; [by eapply stays_write|]. intros _. apply _.
  - intros [[a b] c] k1. apply leaves_catch; [done|]. apply leaves_transaction. apply stays_keeps. apply _.
Qed.
Lemma version_upload_leaves i f k : (∀ u, vf_source f = InChunks u → upload_id = Some u) →
  leaves (catalog_version_upload drv cl x links cwd tmp dir i f) k.
Proof.
  intros Hs. unfold catalog_version_upload. apply leaves_files; [by apply received_stays|]. intros [data filename] k1.
  destruct (negb _); [by intros ?|]. destruct (_ <? _); [by intros ?|]. destruct (read_package _ _ _) as [[tpl man] name].
  apply leaves_lift. intros data'. apply leaves_catch; [by intros []|]. apply leaves_transaction, version_steps_stays.
Qed.
End confined.

(** The forms whose paths are joined safely, and the upload that a form puts together. *)
Definition joins_safely (f : package_form) : bool := match f with ArtifactUpload _ _ _ _ _ _ | VersionUpload _ _ => true | _ => false end.
Definition chunks_of (f : package_form) : option string :=
  match f with VersionUpload _ f => match vf_source f with InChunks u => Some u | InForm _ => None end | _ => None end.


(** ** Instances *)
Module Demo.
Import AdminFacts.Demo.
(** Two packages: one with a template at its end, one whose last entry is in a
    subdirectory. *)
Definition template_text : string := dumps (JObj [("default", JObj [("featureToggles", JObj [("dark-mode", JBool true)])])]).
Definition entries_ex : list zip_entry := [ZipEntry "manifest.json" "" (Some "{}"); ZipEntry "dm-config.json" "" (Some template_text)].
Definition nested_ex : list zip_entry := [ZipEntry "manifest.json" "" (Some "{}"); ZipEntry "content/app.js" "" (Some "js")].
Definition outer_ex : outer :=
  Outer (λ _ _, None) (λ _, None) (λ _, true) (λ _, true)
    (λ d, if decide (d = "package") then Some entries_ex else if decide (d = "nested") then Some nested_ex else None)
    (λ l, Some (sjoin "," ((λ zc : zip_entry * string, ze_name zc.1) <$> l))) id.
Definition desk_ex : desk :=
  Desk (set_cat (Catalog [plugin_ex 1 "mirai" "active" JNull] [] [artifact_ex 1 "edge" "a.xpi"] [version_ex 1 "1.0" "published" 1] [] 2 2 1) db_ex)
    ∅ [["bin"]].
Definition upload_ex (action : string) (source : package_source) : version_fields :=
  VersionFields "2.0" "" "managed" "firefox" "" "" "dev" "patch_all" "24" "all" "" "10" "" action source.
Definition sent (data : string) : package_source := InForm (Some ("mirai.xpi", data)).
Definition run_ex (f : package_form) : result exc answer * desk := receive drv_ex cl_ex outer_ex ∅ [] "/tmp" "/bin" f desk_ex.

Lemma desk_ok : catalog_ok (d_cat (k_db desk_ex)).
Proof. constructor; simpl; repeat constructor; set_solver by lia. Qed.
Lemma desk_db_ok : constraints (k_db desk_ex) = true.
Proof. by vm_compute. Qed.
Lemma version_upload_publishes_witness : ∃ path aid vid,
  k_disk (run_ex (VersionUpload 1 (upload_ex "deploy" (sent "package")))).2 !! place ∅ [] path = Some "manifest.json" ∧
  publishes (k_db (run_ex (VersionUpload 1 (upload_ex "deploy" (sent "package")))).2) 1 "firefox" "firefox" "2.0" path "manifest.json" aid vid ∧
  deploys (k_db (run_ex (VersionUpload 1 (upload_ex "deploy" (sent "package")))).2) 1 aid vid.
Proof.
  destruct (version_upload_publishes drv_ex cl_ex outer_ex ∅ [] "/tmp" "/bin" 1 (upload_ex "deploy" (sent "package")) desk_ex
    (Redirect "/admin/catalog/1?tab=deployments") (run_ex (VersionUpload 1 (upload_ex "deploy" (sent "package")))).2)
    as (p & s & name & data & rel & path & aid & vid & Hs & Hd & Hp & _ & Hdisk & Hpub & Hdep).
  - exact desk_ok.
  - by vm_compute.
  - injection Hs as <- <-. vm_compute in Hd. injection Hd as <-. injection Hp as <-. exists path, aid, vid. split_and!; [exact Hdisk|exact Hpub|by apply Hdep].
Defined.

(** The template of an uploaded version creates its flags, but is not stored. *)
Example template_not_stored :
  let d := k_db (run_ex (VersionUpload 1 (upload_ex "keep" (sent "package")))).2 in
  (pl_template ∘ pg_row <$> ct_plugins (d_cat d)) = [JNull] ∧ (ff_slug <$> fs_flags (d_flags d)) ≠ [].
Proof. by vm_compute. Qed.
(** The deployment takes its name and its path from the last entry of the package,
    whatever name the form gives, and fails when that entry is in a subdirectory. *)
Definition deploy_ex (device_type data : string) : package_form :=
  DeployCreate (DeployFields device_type "2.0" "all" "" "10" "" "immediate" "24" "Spring update" "" "mirai.xpi" data).
Example deployment_named_after_entry :
  let k := (run_ex (deploy_ex "firefox" "package")).2 in
  "dm-config.json" ∈ cp_name <$> Life.st_rows (d_camps (k_db k)) ∧ (map_to_list (k_disk k)).*1 = [["bin"; "firefox"; "dm-config.json-2.0.xpi"]].
Proof. split; [apply (bool_decide_unpack _)|]; by vm_compute. Qed.
Example deployment_of_nested_entry : (run_ex (deploy_ex "firefox" "nested")).1 = Err (Exc "No such file or directory").
Proof. by vm_compute. Qed.
(** Its device type is not checked: the file lands outside the directory. *)
Example deployment_outside :
  (map_to_list (k_disk (run_ex (deploy_ex "../etc" "package")).2)).*1 = [["etc"; "dm-config.json-2.0.xpi"]].
Proof. by vm_compute. Qed.
End Demo.
