(* ===== verification/PublicUrl.v ===== *)
(** * Public addresses
    Of [app/admin/suggest_utils.py] [validate_public_url]: the target of a fetch that
    an administrator asks for. What it uses of [urllib.parse] and [ipaddress]
    (Python 3.12) is written out; the resolver is an argument. *)
From S2P Require Import Prelude Text Json Effects Paths.
From Stdlib Require Import Ascii String ZifyBool.
Open Scope Z_scope.

Definition value_error {A} (text : string) : result exc A := Err (Exc text).

(** ** [urllib.parse.urlsplit] *)
Module Url.
Record parts : Type := Parts { scheme : string; netloc : string }.
Definition c0_or_space (c : ascii) : bool := code c <=? 32.
Definition unsafe (c : ascii) : bool := bool_decide (code c ∈ [9; 10; 13]).
Fixpoint sfilter (p : ascii → bool) (s : string) : string :=
  match s with "" => "" | String c r => if p c then String c (sfilter p r) else sfilter p r end.
Definition is_alpha (c : ascii) : bool := is_alnum c && negb (is_digit c).
Definition scheme_char (c : ascii) : bool := is_alnum c || bool_decide (c ∈ ["+"%char; "-"%char; "."%char]).
Definition host_end (c : ascii) : bool := bool_decide (c ∈ ["/"%char; "?"%char; "#"%char]).
Fixpoint until (p : ascii → bool) (s : string) : string :=
  match s with "" => "" | String c r => if p c then "" else String c (until p r) end.
Definition split_scheme (url : string) : string * string :=
  match split_once ":" url with
  | Some ((String c _ as s), r) => if is_alpha c && sforall scheme_char s then (lower s, r) else ("", url)
  | _ => ("", url)
  end.

(** *** [_hostinfo]: the host and the text of the port *)
Definition host_and_port (netloc : string) : string := List.last (split_on "@" netloc) "".
(** [s.partition(c)]: before and after *)
Definition partition (c : ascii) (s : string) : string * string := default (s, "") (split_once c s).
Definition _hostinfo (netloc : string) : string * string :=
  match split_once "[" (host_and_port netloc) with
  | Some (_, bracketed) => let '(h, p) := partition "]" bracketed in (h, (partition ":" p).2)
  | None => partition ":" (host_and_port netloc)
  end.
Definition hostname (u : parts) : option string :=
  match (_hostinfo (netloc u)).1 with
  | "" => None
  | h => Some (match split_once "%" h with Some (a, zone) => lower a +:+ "%" +:+ zone | None => lower h end)
  end.
Definition port (u : parts) : result exc (option Z) :=
  match (_hostinfo (netloc u)).2 with
  | "" => Ok None
  | p =>
      match (if sforall is_digit p then py_int p else None) with
      | Some n => if n <=? 65535 then Ok (Some n) else value_error "Port out of range 0-65535"
      | None => value_error "Port could not be cast to integer value"
      end
  end.
End Url.

(** ** [ipaddress.ip_address] *)
Module Ip.
Inductive ip : Type := V4 (a : Z) | V6 (a : Z).
Definition octet (s : string) : option Z :=
  if truthy_str s && sforall is_digit s && (String.length s <=? 3)%nat && (bool_decide (s = "0") || negb (starts_with "0" s))
  then n ← py_int s; if n <=? 255 then Some n else None else None.
Definition number (base : Z) (l : list Z) : Z := foldl (λ acc x, acc * base + x) 0 l.
Definition ipv4 (s : string) : option Z :=
  let octets := split_on "." s in
  if (List.length octets =? 4)%nat then number 256 <$> mapM octet octets else None.

Definition hex_number (s : string) : option Z :=
  match mapM hex_val (list_ascii_of_string s) with Some ((_ :: _) as l) => Some (number 16 l) | _ => None end.
Definition hextet (s : string) : option Z := if (String.length s <=? 4)%nat then hex_number s else None.
Definition hextets : list string → option Z := λ l, number 65536 <$> mapM hextet l.
(** A dotted suffix counts for two parts. *)
Definition with_suffix (parts : list string) : option (list string) :=
  let s := List.last parts "" in
  if has_char "." s then n ← ipv4 s; Some (removelast parts ++ [hex2 (n / 2 ^ 24) +:+ hex2 (n / 2 ^ 16 mod 256); hex2 (n / 256 mod 256) +:+ hex2 (n mod 256)])
  else Some parts.
(** The places, other than the ends, where nothing stands between two colons. *)
Definition gaps (parts : list string) : list nat :=
  filter (λ i, parts !! i = Some "") (seq 1 (List.length parts - 2)).
Definition ipv6_int (s : string) : option Z :=
  let parts := split_on ":" s in
  if (List.length parts <? 3)%nat then None
  else
    parts ← with_suffix parts;
    if (9 <? List.length parts)%nat then None
    else
      match gaps parts with
      | [] => if (List.length parts =? 8)%nat then hextets parts else None
      | [i] =>
          let hi := if decide (parts !! 0%nat = Some "") then [] else take i parts in
          let lo := if decide (List.last parts "" = "") then [] else drop (S i) parts in
          if (bool_decide (parts !! 0%nat = Some "") && negb (i =? 1)%nat) ||
             (bool_decide (List.last parts "" = "") && negb (S (S i) =? List.length parts)%nat) ||
             (8 <=? List.length hi + List.length lo)%nat then None
          else h ← hextets hi; l ← hextets lo; Some (h * 65536 ^ (8 - Z.of_nat (List.length hi)) + l)
      | _ => None
      end.
Definition ipv6 (s : string) : option Z :=
  if has_char "/" s then None
  else
    match split_once "%" s with
    | Some (a, zone) => if negb (truthy_str zone) || has_char "%" zone then None else ipv6_int a
    | None => ipv6_int s
    end.
Definition ip_address (s : string) : result exc ip :=
  match ipv4 s, ipv6 s with
  | Some a, _ => Ok (V4 a)
  | None, Some a => Ok (V6 a)
  | None, None => value_error "does not appear to be an IPv4 or IPv6 address"
  end.

(** *** Networks: an address of [w] bits, its first [n] bits *)
Definition in_net (w a : Z) (net : Z * Z) : bool := a / 2 ^ (w - net.2) =? net.1 / 2 ^ (w - net.2).
Definition quad (a b c d : Z) : Z := number 256 [a; b; c; d].
Definition first_hextets (l : list Z) : Z := number 65536 (take 8 (l ++ repeat 0 8)).
Definition private4 : list (Z * Z) :=
  [(quad 0 0 0 0, 8); (quad 10 0 0 0, 8); (quad 127 0 0 0, 8); (quad 169 254 0 0, 16); (quad 172 16 0 0, 12); (quad 192 0 0 0, 24);
   (quad 192 0 0 170, 31); (quad 192 0 2 0, 24); (quad 192 168 0 0, 16); (quad 198 18 0 0, 15); (quad 198 51 100 0, 24);
   (quad 203 0 113 0, 24); (quad 240 0 0 0, 4); (quad 255 255 255 255, 32)].
Definition private4_exceptions : list (Z * Z) := [(quad 192 0 0 9, 32); (quad 192 0 0 10, 32)].
Definition private6 : list (Z * Z) :=
  [(1, 128); (0, 128); (first_hextets [0; 0; 0; 0; 0; 0xffff], 96); (first_hextets [0x64; 0xff9b; 1], 48); (first_hextets [0x100], 64);
   (first_hextets [0x2001], 23); (first_hextets [0x2001; 0xdb8], 32); (first_hextets [0x2002], 16); (first_hextets [0xfc00], 7);
   (first_hextets [0xfe80], 10)].
Definition private6_exceptions : list (Z * Z) :=
  [(first_hextets [0x2001; 1; 0; 0; 0; 0; 0; 1], 128); (first_hextets [0x2001; 1; 0; 0; 0; 0; 0; 2], 128); (first_hextets [0x2001; 3], 32);
   (first_hextets [0x2001; 4; 0x112], 48); (first_hextets [0x2001; 0x20], 28); (first_hextets [0x2001; 0x30], 28)].
Definition reserved6 : list (Z * Z) :=
  [(0, 8); (first_hextets [0x100], 8); (first_hextets [0x200], 7); (first_hextets [0x400], 6); (first_hextets [0x800], 5);
   (first_hextets [0x1000], 4); (first_hextets [0x4000], 3); (first_hextets [0x6000], 3); (first_hextets [0x8000], 3);
   (first_hextets [0xa000], 3); (first_hextets [0xc000], 3); (first_hextets [0xe000], 4); (first_hextets [0xf000], 5);
   (first_hextets [0xf800], 6); (first_hextets [0xfe00], 9)].
Definition private_v4 (a : Z) : bool := existsb (in_net 32 a) private4 && negb (existsb (in_net 32 a) private4_exceptions).
(** [ipv4_mapped] *)
Definition mapped (a : Z) : option Z := if a / 2 ^ 32 =? 0xffff then Some (a mod 2 ^ 32) else None.
Definition is_private (i : ip) : bool :=
  match i with
  | V4 a => private_v4 a
  | V6 a => match mapped a with Some b => private_v4 b
            | None => existsb (in_net 128 a) private6 && negb (existsb (in_net 128 a) private6_exceptions) end
  end.
Definition is_loopback (i : ip) : bool := match i with V4 a => in_net 32 a (quad 127 0 0 0, 8) | V6 a => a =? 1 end.
Definition is_link_local (i : ip) : bool :=
  match i with V4 a => in_net 32 a (quad 169 254 0 0, 16) | V6 a => in_net 128 a (first_hextets [0xfe80], 10) end.
Definition is_multicast (i : ip) : bool :=
  match i with V4 a => in_net 32 a (quad 224 0 0 0, 4) | V6 a => in_net 128 a (first_hextets [0xff00], 8) end.
Definition is_reserved (i : ip) : bool :=
  match i with V4 a => in_net 32 a (quad 240 0 0 0, 4) | V6 a => existsb (in_net 128 a) reserved6 end.
Definition is_unspecified (i : ip) : bool := match i with V4 a | V6 a => a =? 0 end.
End Ip.

(** *** The check of a host in brackets *)
Definition future_address (s : string) : bool :=
  match split_once "." (sdrop 1 s) with
  | Some (v, r) => truthy_str v && sforall (λ c, bool_decide (is_Some (hex_val c))) v && truthy_str r
  | None => false
  end.
Definition _check_bracketed_host (h : string) : result exc () :=
  if starts_with "v" h then (if future_address h then Ok () else value_error "IPvFuture address is invalid")
  else
    match Ip.ip_address h with
    | Ok (Ip.V6 _) => Ok ()
    | Ok (Ip.V4 _) => value_error "An IPv4 address cannot be in brackets"
    | Err e => Err e
    end.
Definition invalid_ipv6 {A} : result exc A := value_error "Invalid IPv6 URL".
Definition _check_bracketed_netloc (netloc : string) : result exc () :=
  match split_once "[" (Url.host_and_port netloc) with
  | Some (before, bracketed) =>
      if truthy_str before then invalid_ipv6
      else
        let '(h, p) := Url.partition "]" bracketed in
        if truthy_str p && negb (starts_with ":" p) then invalid_ipv6 else _check_bracketed_host h
  | None => _check_bracketed_host (Url.partition ":" (Url.host_and_port netloc)).1
  end.
Definition urlparse (url : string) : result exc Url.parts :=
  let url := Url.sfilter (λ c, negb (Url.unsafe c)) (lstrip_by Url.c0_or_space url) in
  let '(scheme, rest) := Url.split_scheme url in
  if starts_with "//" rest then
    let netloc := Url.until Url.host_end (sdrop 2 rest) in
    match has_char "[" netloc, has_char "]" netloc with
    | true, true => let* _ := _check_bracketed_netloc netloc in Ok (Url.Parts scheme netloc)
    | false, false => Ok (Url.Parts scheme netloc)
    | _, _ => invalid_ipv6
    end
  else Ok (Url.Parts scheme "").

(** ** [validate_public_url] *)
(** The answer of [socket.getaddrinfo]: the texts of the addresses, an [OSError], or a
    name that it cannot encode. *)
Inductive lookup : Type := Addresses (l : list string) | NoHost | Unencodable.
Definition internal (i : Ip.ip) : bool :=
  Ip.is_private i || Ip.is_loopback i || Ip.is_link_local i || Ip.is_multicast i || Ip.is_reserved i || Ip.is_unspecified i.
Fixpoint check_addresses (l : list string) : result exc () :=
  match l with
  | [] => Ok ()
  | t :: r =>
      let* i := Ip.ip_address t in
      if internal i then Err (Http (HttpError 400 ("URL non autoris" +:+ String "233" ("e (cible interne/priv" +:+ String "233" "e)"))))
      else check_addresses r
  end.
Definition bad_url {A} (why : string) : result exc A := Err (Http (HttpError 400 ("URL invalide : " +:+ why))).
Definition validate_public_url (getaddrinfo : string → Z → lookup) (url : string) : result exc string :=
  let raw := strip url in
  let* parsed := urlparse raw in
  if negb (bool_decide (Url.scheme parsed ∈ ["http"; "https"])) then bad_url ("seules les URL http(s) sont autoris" +:+ String "233" "es")
  else
    match Url.hostname parsed with
    | None => bad_url ("h" +:+ String "244" "te manquant")
    | Some host =>
        let* p := Url.port parsed in
        let port := match p with Some n => if n =? 0 then None else Some n | None => None end in
        match getaddrinfo host (default (if decide (Url.scheme parsed = "https") then 443 else 80) port) with
        | NoHost => bad_url ("h" +:+ String "244" ("te non r" +:+ String "233" "solvable"))
        | Unencodable => value_error "label empty or too long"
        | Addresses l => let* _ := check_addresses l in Ok raw
        end
    end.

(** ** Which addresses are public *)
(** Networks as ranges. *)
Definition between (a : Z) (r : Z * Z) : bool := (r.1 <=? a) && (a <=? r.2).
Definition range (w : Z) (net : Z * Z) : Z * Z := let u := 2 ^ (w - net.2) in let lo := net.1 / u * u in (lo, lo + u - 1).
Lemma in_net_range w a net : net.2 ≤ w → Ip.in_net w a net = between a (range w net).
Proof.
  intros Hn. unfold Ip.in_net, between, range. cbn [fst snd]. assert (Hu : 0 < 2 ^ (w - net.2)) by (apply Z.pow_pos_nonneg; lia).
  revert Hu. generalize (2 ^ (w - net.2)). intros u Hu.
  apply eq_true_iff_eq. rewrite andb_true_iff, Z.eqb_eq, !Z.leb_le. split.
  - intros <-. pose proof (Z.mul_div_le a u Hu). pose proof (Z.mul_succ_div_gt a u Hu). lia.
  - intros H. symmetry. apply (Z.div_unique a u _ (a - net.1 / u * u)); lia.
Qed.
Lemma in_nets w a nets l : forallb (λ net : Z * Z, net.2 <=? w) nets = true → range w <$> nets = l → existsb (Ip.in_net w a) nets = existsb (between a) l.
Proof.
  intros Hw <-. induction nets as [|net nets IH]; [done|]. cbn in *. bool_hyps. by rewrite in_net_range, IH.
Qed.
Lemma in_one w a net l : (net.2 <=? w) = true → range w net = l → Ip.in_net w a net = between a l.
Proof. intros H <-. apply in_net_range. lia. Qed.
(** Turns the networks of the goal into ranges of numbers. *)
Ltac nets :=
  repeat match goal with
  | |- context [existsb (Ip.in_net ?w ?a) ?n] =>
      let l := eval vm_compute in (range w <$> n) in rewrite (in_nets w a n l) by (vm_compute; reflexivity)
  | |- context [Ip.in_net ?w ?a ?n] =>
      let l := eval vm_compute in (range w n) in rewrite (in_one w a n l) by (vm_compute; reflexivity)
  end.
(** The addresses of version 4 that are refused, and those of version 6 that are not. *)
Definition closed4 : list (Z * Z) :=
  [(Ip.quad 0 0 0 0, Ip.quad 0 255 255 255); (Ip.quad 10 0 0 0, Ip.quad 10 255 255 255); (Ip.quad 127 0 0 0, Ip.quad 127 255 255 255);
   (Ip.quad 169 254 0 0, Ip.quad 169 254 255 255); (Ip.quad 172 16 0 0, Ip.quad 172 31 255 255); (Ip.quad 192 0 0 0, Ip.quad 192 0 0 8);
   (Ip.quad 192 0 0 11, Ip.quad 192 0 0 255); (Ip.quad 192 0 2 0, Ip.quad 192 0 2 255); (Ip.quad 192 168 0 0, Ip.quad 192 168 255 255);
   (Ip.quad 198 18 0 0, Ip.quad 198 19 255 255); (Ip.quad 198 51 100 0, Ip.quad 198 51 100 255); (Ip.quad 203 0 113 0, Ip.quad 203 0 113 255);
   (Ip.quad 224 0 0 0, Ip.quad 255 255 255 255)].
Lemma internal4 a : internal (Ip.V4 a) = existsb (between a) closed4.
Proof.
  unfold internal. cbn [Ip.is_private Ip.is_loopback Ip.is_link_local Ip.is_multicast Ip.is_reserved Ip.is_unspecified]. unfold Ip.private_v4. nets.
  let l := eval vm_compute in closed4 in assert (E : closed4 = l) by (vm_compute; reflexivity); rewrite E.
  cbn [existsb between fst snd]. unfold between. cbn [fst snd].  lia.
Qed.
Definition open6 : list (Z * Z) :=
  let h := Ip.first_hextets in
  [(h [0x2000], h [0x2001] - 1); (h [0x2001; 1; 0; 0; 0; 0; 0; 1], h [0x2001; 1; 0; 0; 0; 0; 0; 2]); (h [0x2001; 3], h [0x2001; 4] - 1);
   (h [0x2001; 4; 0x112], h [0x2001; 4; 0x113] - 1); (h [0x2001; 0x20], h [0x2001; 0x40] - 1); (h [0x2001; 0x200], h [0x2001; 0xdb8] - 1);
   (h [0x2001; 0xdb9], h [0x2002] - 1); (h [0x2003], h [0x4000] - 1); (h [0xfec0], h [0xff00] - 1)].
(** The mapped addresses are reserved. *)
Lemma mapped_reserved a b : 0 ≤ a → Ip.mapped a = Some b → internal (Ip.V6 a) = true.
Proof.
  unfold Ip.mapped. intros Ha. destruct (_ =? _) eqn:E; [|done]. intros _. bool_hyps.
  assert (a < 65536 * 2 ^ 32). { pose proof (Z.mul_succ_div_gt a (2 ^ 32)). lia. }
  unfold internal. replace (Ip.is_reserved (Ip.V6 a)) with true; [by rewrite !orb_true_r|]. symmetry. cbn [Ip.is_reserved]. nets.
  cbn [existsb]. unfold between at 1. cbn [fst snd]. apply orb_true_iff. left. lia.
Qed.
Lemma internal6 a : 0 ≤ a < 2 ^ 128 → internal (Ip.V6 a) = negb (existsb (between a) open6).
Proof.
  intros Ha. destruct (Ip.mapped a) as [b|] eqn:E.
  - rewrite (mapped_reserved a b) by (done || lia). symmetry. apply negb_true_iff.
    unfold Ip.mapped in E. destruct (a / 2 ^ 32 =? 65535) eqn:Em; [|done]. bool_hyps.
    assert (a < 65536 * 2 ^ 32). { pose proof (Z.mul_succ_div_gt a (2 ^ 32)). lia. }
    let l := eval vm_compute in open6 in assert (Eo : open6 = l) by (vm_compute; reflexivity); rewrite Eo.
    cbn [existsb]. unfold between. cbn [fst snd]. lia.
  - unfold internal. cbn [Ip.is_private Ip.is_loopback Ip.is_link_local Ip.is_multicast Ip.is_reserved Ip.is_unspecified]. rewrite E. nets.
  let l := eval vm_compute in open6 in assert (Eo : open6 = l) by (vm_compute; reflexivity); rewrite Eo.
  cbn [existsb]. unfold between. cbn [fst snd]. change (2 ^ 128) with 340282366920938463463374607431768211456 in Ha.  lia.
Qed.

(** *** The values of an address *)
Lemma number_bound b l : 1 < b → Forall (λ x, 0 ≤ x < b) l → 0 ≤ Ip.number b l < b ^ Z.of_nat (List.length l).
Proof.
  intros Hb. unfold Ip.number. induction l as [|x l IH] using rev_ind; [done|]. intros [Hl Hx]%Forall_app. specialize (IH Hl).
  rewrite foldl_app, length_app. cbn [foldl List.length]. rewrite Forall_singleton in Hx. rewrite Nat2Z.inj_add, Z.pow_add_r by lia.
  change (b ^ Z.of_nat 1) with (b ^ 1). rewrite Z.pow_1_r. revert IH. generalize (foldl (λ acc x, acc * b + x) 0 l), (b ^ Z.of_nat (List.length l)).
  intros n q IH. assert ((n + 1) * b ≤ q * b) by (apply Z.mul_le_mono_nonneg_r; lia). nia.
Qed.
Lemma hex_val_bound c x : hex_val c = Some x → 0 ≤ x < 16.
Proof. unfold hex_val, code. repeat case_match; intros; simplify_eq; bool_hyps; lia. Qed.
Lemma mapM_bound {A} (f : A → option Z) (P : Z → Prop) l r : (∀ a x, f a = Some x → P x) → mapM f l = Some r → Forall P r ∧ List.length r = List.length l.
Proof.
  intros Hf H%mapM_Some. induction H as [|a x l r Ha _ [IH IHl]]; [by split|]. split; [constructor; eauto|]. cbn. congruence.
Qed.
Lemma hextet_bound s x : Ip.hextet s = Some x → 0 ≤ x < 65536.
Proof.
  unfold Ip.hextet, Ip.hex_number. destruct (_ <=? _)%nat eqn:El; [|done]. destruct (mapM hex_val _) as [l|] eqn:E; [|done].
  apply (mapM_bound _ (λ x, 0 ≤ x < 16)) in E as [Hl Hn]; [|apply hex_val_bound]. intros Hx.
  assert (x = Ip.number 16 l) as -> by (destruct l; [done|by injection Hx]).
  pose proof (number_bound 16 l ltac:(lia) Hl) as Hb. apply Nat.leb_le in El.
  assert (Hlen : (List.length l ≤ 4)%nat). { rewrite Hn. clear - El. revert El. generalize 4%nat. induction s as [|c s IH]; intros [|k]; cbn; try lia. intros H. specialize (IH k). lia. }
  assert (16 ^ Z.of_nat (List.length l) ≤ 65536); [|lia]. change 65536 with (16 ^ 4). apply Z.pow_le_mono_r; lia.
Qed.
Lemma hextets_bound l a : Ip.hextets l = Some a → 0 ≤ a < 65536 ^ Z.of_nat (List.length l).
Proof.
  unfold Ip.hextets. intros (r & E & ->)%fmap_Some. apply (mapM_bound _ (λ x, 0 ≤ x < 65536)) in E as [Hr <-]; [|apply hextet_bound].
  by apply number_bound.
Qed.
Lemma ipv6_bound s a : Ip.ipv6 s = Some a → 0 ≤ a < 2 ^ 128.
Proof.
  assert (Hint : ∀ s, Ip.ipv6_int s = Some a → 0 ≤ a < 2 ^ 128).
  { clear s. intros s. unfold Ip.ipv6_int. destruct (_ <? _)%nat; [done|]. destruct (Ip.with_suffix _) as [parts|]; [|done]. cbn [mbind option_bind].
    destruct (_ <? _)%nat; [done|]. destruct (Ip.gaps parts) as [|i [|]]; [| |done].
    - destruct (_ =? 8)%nat eqn:El; [|done]. apply Nat.eqb_eq in El. intros H%hextets_bound. by rewrite El in H.
    - set (hi := if decide _ then [] else take i parts). set (lo := if decide _ then [] else drop (S i) parts).
      destruct (_ || _) eqn:El; [done|]. apply orb_false_iff in El as [_ El]. apply Nat.leb_gt in El.
      destruct (Ip.hextets hi) as [h|] eqn:Eh; [|done]. destruct (Ip.hextets lo) as [l|] eqn:Elo; [|done]. intros [= <-].
      apply hextets_bound in Eh, Elo. set (n := Z.of_nat (List.length hi)) in *.
      assert (l < 65536 ^ (8 - n)). { eapply Z.lt_le_trans; [apply Elo|]. apply Z.pow_le_mono_r; lia. }
      assert (65536 ^ n * 65536 ^ (8 - n) = 2 ^ 128) by (rewrite <- Z.pow_add_r by lia; by replace (n + (8 - n)) with 8 by lia). nia. }
  unfold Ip.ipv6. destruct (has_char _ _); [done|]. destruct (split_once _ _) as [[x zone]|]; [destruct (_ || _); [done|]|]; apply Hint.
Qed.

(** Reachable from outside, as [ipaddress] sees it. *)
Definition public (i : Ip.ip) : bool :=
  match i with Ip.V4 a => negb (existsb (between a) closed4) | Ip.V6 a => existsb (between a) open6 end.
Lemma internal_public t i : Ip.ip_address t = Ok i → internal i = negb (public i).
Proof.
  unfold Ip.ip_address. destruct (Ip.ipv4 t) as [a|]; [|destruct (Ip.ipv6 t) as [a|] eqn:E; [|done]]; intros [= <-]; cbn [public].
  - by rewrite internal4, negb_involutive.
  - apply internal6. by eapply ipv6_bound.
Qed.
Lemma check_addresses_ok l : check_addresses l = Ok () ↔ Forall (λ t, ∃ i, Ip.ip_address t = Ok i ∧ public i = true) l.
Proof.
  induction l as [|t l IH]; [by split|]. rewrite Forall_cons, <- IH. cbn [check_addresses]. unfold rbind.
  destruct (Ip.ip_address t) as [i|e] eqn:E; [|naive_solver]. rewrite (internal_public t i E). destruct (public i) eqn:Ep; naive_solver congruence.
Qed.

(** The port that is resolved. *)
Definition target_port (u : Url.parts) (p : option Z) : Z :=
  default (if decide (Url.scheme u = "https") then 443 else 80) (match p with Some n => if n =? 0 then None else Some n | None => None end).
(** C30. An address is accepted exactly when it is an http or https URL with a host whose
    addresses, at the time of the call, all lie in the ranges written above: for
    version 4 outside the private, loopback, link-local, documentation, multicast
    and reserved networks, for version 6 inside 2000::/3 less its special networks,
    or in fec0::/10. *)
Theorem validate_public_url_spec getaddrinfo url raw :
  validate_public_url getaddrinfo url = Ok raw ↔
  raw = strip url ∧ ∃ u host p l,
    urlparse raw = Ok u ∧ Url.scheme u ∈ ["http"; "https"] ∧ Url.hostname u = Some host ∧ Url.port u = Ok p ∧
    getaddrinfo host (target_port u p) = Addresses l ∧ Forall (λ t, ∃ i, Ip.ip_address t = Ok i ∧ public i = true) l.
Proof.
  unfold validate_public_url, rbind. split.
  - destruct (urlparse (strip url)) as [u|] eqn:Eu; [|done]. destruct (bool_decide _) eqn:Es; cbn [negb]; [|done]. bool_hyps.
    destruct (Url.hostname u) as [host|] eqn:Eh; [|done]. destruct (Url.port u) as [p|] eqn:Ep; [|done]. fold (target_port u p).
    destruct (getaddrinfo host (target_port u p)) as [l| |] eqn:El; try done. destruct (check_addresses l) as [[]|] eqn:Ec; [|done].
    intros [= <-]. split; [done|]. exists u, host, p, l. apply check_addresses_ok in Ec. by split_and!.
  - intros (-> & u & host & p & l & -> & Hs & -> & -> & Hl & Hall). rewrite bool_decide_eq_true_2 by done. cbn [negb].
    fold (target_port u p). rewrite Hl. apply check_addresses_ok in Hall. by rewrite Hall.
Qed.

(** ** Instances *)
Module Demo.
Definition resolver (name : string) (port : Z) : lookup :=
  if decide (name = "example.org") then Addresses ["93.184.216.34"; "2606:2800:220:1:248:1893:25c8:1946"]
  else if decide (name = "mixed.example.org") then Addresses ["93.184.216.34"; "127.0.0.1"]
  else if decide (name = "pods.example.org") then Addresses ["100.64.0.1"; "fec0::1"]
  else Addresses [name].
Example accepted : validate_public_url resolver " https://example.org/README.md " = Ok "https://example.org/README.md".
Proof. by vm_compute. Qed.
Example refused :
  Forall (λ u, ∃ d, validate_public_url resolver u = Err (Http (HttpError 400 d)))
    ["http://169.254.169.254/latest/meta-data"; "http://127.0.0.1:8000/"; "http://[::1]/"; "http://[::ffff:10.0.0.1]/"; "http://user@10.1.2.3/";
     "http://mixed.example.org/"; "file:///etc/passwd"; "http:///x"].
Proof. repeat constructor; eexists; by vm_compute. Qed.
(** Neither the shared addresses of 100.64.0.0/10 nor the site-local ones of fec0::/10
    count as private. *)
Example shared_addresses_accepted : validate_public_url resolver "http://pods.example.org/" = Ok "http://pods.example.org/".
Proof. by vm_compute. Qed.
(** A port that is no number is not a refusal. *)
Example bad_port : validate_public_url resolver "http://example.org:x/" = Err (Exc "Port could not be cast to integer value").
Proof. by vm_compute. Qed.
End Demo.
