(* ===== verification/Suggest.v ===== *)
(** * Suggestions for a catalogue entry
    Of [app/admin/suggest_utils.py] the bounded reader of a package, the reader of a
    model's answer, the filter of a suggestion and the rate limit; of
    [app/admin/router.py] [api_catalog_suggest], which uses them. The archive format,
    the XML parser, the decoder of UTF-8 with replacement, the resolver and the two
    HTTP calls are arguments. *)
From S2P Require Import Prelude Text Json Effects Paths Campaigns Config Cohorts Flags GetConfig Catalog AuditLog AdminDb AdminRoutes AdminSettings PublicUrl.
From Stdlib Require Import Ascii String.
Open Scope Z_scope.

Definition MAX_UPLOAD_BYTES : Z := 25 * 1024 * 1024.
Definition MAX_DECOMPRESSED_BYTES : Z := 50 * 1024 * 1024.
Definition MAX_FILE_BYTES : Z := 5 * 1024 * 1024.
Definition INTERESTING_FILES : list string :=
  ["manifest.json"; "description.xml"; "package.json"; "readme.md"; "readme.txt"; "readme"; "readme.rst"; "notice-utilisateur.md";
   "notice-utilisateur.txt"; "notice_utilisateur.md"; "notice_utilisateur.txt"; "changelog.md"; "changelog.txt"; "changes.md"; "history.md";
   "dm-config.json"; "dm_config.json"; "dm-manifest.json"; "dm_manifest.json"].
Definition ICON_BASENAMES : list string := ["logo.png"; "icon128.png"; "icon48.png"].
Definition ALLOWED_SUGGESTION_KEYS : list string :=
  ["slug"; "name"; "description"; "intent"; "device_type"; "category"; "publisher"; "visibility"; "homepage_url"; "support_email"; "icon_url";
   "doc_url"; "license"; "key_features"; "changelog"; "oxt_version"; "oxt_identifier"; "config_template"; "_has_readme"; "_has_manifest";
   "_has_config_template"; "_source"; "icon_data_url"].
Definition _URL_FIELDS : list string := ["homepage_url"; "icon_url"; "doc_url"; "icon_data_url"].

Definition zlen (s : string) : Z := Z.of_nat (String.length s).
(** [s[:n]] *)
Fixpoint ztake (n : Z) (s : string) : string :=
  match s with "" => "" | String c r => if n <=? 0 then "" else String c (ztake (n - 1) r) end.

(** ** The package *)
(** What reading an entry gives: bytes, a [BadZipFile], or another exception. *)
Inductive content : Type := Data (bytes : string) | Corrupt | Unreadable (e : exc).
Record member : Type := Member { m_name : string; m_size : Z; m_content : content }.
Record parsed : Type := Parsed {
  ps_extracted : list string; ps_manifest : json; ps_has_readme : bool; ps_has_manifest : bool; ps_has_template : bool; ps_template : json;
  ps_version : string; ps_identifier : string; ps_icon : option (string * string) }.
Definition nothing_parsed : parsed := Parsed [] JNull false false false JNull "" "" None.

Section package.
Variables (unzip : string → option (list member)) (decode : string → string)
  (* the values of the version and identifier elements; [None]: it raises *)
  (xml : string → option (option string * option string)).

Definition too_big {A} (what : string) : result exc A := Err (Http (HttpError 413 what)).
(** The last entry of that name. *)
Definition getinfo (es : list member) (name : string) : option member := find (λ m, bool_decide (m_name m = name)) (rev es).
Definition _read_zip_member (es : list member) (name : string) : result exc content :=
  match getinfo es name with
  | Some m =>
      if MAX_FILE_BYTES <? m_size m then too_big "Fichier du plugin trop volumineux"
      else Ok (match m_content m with Data s => Data (ztake MAX_FILE_BYTES s) | c => c end)
  | None => Err (Exc "There is no item named")
  end.
Definition base_of (name : string) : string := lower (basename name).
Definition is_icon (name : string) : bool := bool_decide (base_of name ∈ ICON_BASENAMES) && contains "assets/" (lower name).
(** What an entry of interest adds. *)
Definition take_in (name raw : string) (p : parsed) : parsed :=
  let base := base_of name in
  let text := "--- " +:+ name +:+ " ---" +:+ String "010" (ztake 8000 raw) in
  if bool_decide (base ∈ ["dm-config.json"; "dm_config.json"]) then
    match loads raw with
    | Some v => Parsed (ps_extracted p) (ps_manifest p) (ps_has_readme p) (ps_has_manifest p) true v (ps_version p) (ps_identifier p) (ps_icon p)
    | None => p
    end
  else if bool_decide (base ∈ ["dm-manifest.json"; "dm_manifest.json"]) then
    match loads raw with
    | Some v => Parsed (ps_extracted p) v (ps_has_readme p) true (ps_has_template p) (ps_template p) (ps_version p) (ps_identifier p) (ps_icon p)
    | None => p
    end
  else if bool_decide (base = "description.xml") then
    let '(version, identifier) := default (None, None) (xml raw) in
    Parsed (ps_extracted p ++ [text]) (ps_manifest p) (ps_has_readme p) (ps_has_manifest p) (ps_has_template p) (ps_template p)
      (default (ps_version p) version) (default (ps_identifier p) identifier) (ps_icon p)
  else
    Parsed (ps_extracted p ++ [text]) (ps_manifest p) (ps_has_readme p || starts_with "readme" base || starts_with "notice" base) (ps_has_manifest p)
      (ps_has_template p) (ps_template p) (ps_version p) (ps_identifier p) (ps_icon p).
Definition with_icon (icon : string * string) (p : parsed) : parsed :=
  Parsed (ps_extracted p) (ps_manifest p) (ps_has_readme p) (ps_has_manifest p) (ps_has_template p) (ps_template p) (ps_version p) (ps_identifier p)
    (Some icon).
(** [total] counts the characters taken in so far. *)
Fixpoint scan (es : list member) (names : list string) (total : Z) (p : parsed) : result exc parsed :=
  match names with
  | [] => Ok p
  | name :: r =>
      if is_icon name then
        let* c := _read_zip_member es name in
        match c with Data s => scan es r total (with_icon (s, base_of name) p) | Corrupt => Ok p | Unreadable e => Err e end
      else if bool_decide (base_of name ∈ INTERESTING_FILES) then
        let* c := _read_zip_member es name in
        match c with
        | Data s =>
            let raw := decode s in
            if MAX_DECOMPRESSED_BYTES <? total + zlen raw then Ok p else scan es r (total + zlen raw) (take_in name raw p)
        | Corrupt => Ok p
        | Unreadable e => Err e
        end
      else scan es r total p
  end.
Definition sum_sizes (es : list member) : Z := foldr (λ m n, m_size m + n) 0 es.
Definition parse_plugin_zip (pdata : string) : result exc parsed :=
  if MAX_UPLOAD_BYTES <? zlen pdata then too_big "Fichier trop volumineux"
  else
    match unzip pdata with
    | None => Ok nothing_parsed
    | Some es =>
        if MAX_DECOMPRESSED_BYTES <? sum_sizes es then too_big ("Archive trop volumineuse une fois d" +:+ String "233" ("compress" +:+ String "233" "e"))
        else scan es (m_name <$> es) 0 nothing_parsed
    end.
End package.

(** ** The answer of the model *)
Definition tick3 (a b c : ascii) : bool := is_char "`" a && is_char "`" b && is_char "`" c.
Definition put (c : ascii) (l : list string) : list string := match l with h :: t => String c h :: t | [] => [] end.
(** [text.split("```")] *)
Fixpoint split_fences (s : string) : list string :=
  match s with
  | "" => [""]
  | String a r =>
      match r with
      | String b (String c r3) => if tick3 a b c then "" :: split_fences r3 else put a (split_fences r)
      | _ => put a (split_fences r)
      end
  end.
Fixpoint from_brace (s : string) : option string :=
  match s with "" => None | String c r => if is_char "{" c then Some s else from_brace r end.
Fixpoint to_last_brace (s : string) : option string :=
  match s with
  | "" => None
  | String c r => match to_last_brace r with Some t => Some (String c t) | None => if is_char "}" c then Some "}" else None end
  end.
(** [re.search(r"\{.*\}", text, re.DOTALL)] *)
Definition braces (s : string) : option string := from_brace s ≫= to_last_brace.
Definition fenced (text : string) : string :=
  let parts := split_fences text in
  let candidate := match parts with _ :: b :: _ :: _ => b | _ => List.last parts "" end in
  let l := lstrip_by py_isspace candidate in
  strip (if starts_with "json" (lower l) then sdrop 4 l else candidate).
Definition extract_suggestion_json (content : string) : result exc (list (string * json)) :=
  if negb (truthy_str (strip content)) then value_error ("r" +:+ String "233" "ponse LLM vide")
  else
    let text := strip content in
    let text := if contains "```" text then fenced text else text in
    match (match loads text with Some v => Some v | None => braces text ≫= loads end) with
    | Some (JObj d) => Ok d
    | Some _ => value_error ("r" +:+ String "233" "ponse LLM non conforme (objet attendu)")
    | None => value_error ("aucun JSON exploitable dans la r" +:+ String "233" "ponse LLM")
    end.

(** ** The filter of a suggestion *)
Definition safe_url_text (v : string) : bool :=
  let l := lower v in starts_with "data:image/" l || starts_with "http://" l || starts_with "https://" l.
Definition _safe_url_value (val : json) : string :=
  match val with JStr s => let v := strip s in if safe_url_text v then v else "" | _ => "" end.
Definition sanitize_suggestion (suggestion : list (string * json)) : list (string * json) :=
  foldl (λ clean kv,
      if bool_decide (kv.1 ∈ ALLOWED_SUGGESTION_KEYS)
      then dset kv.1 (if bool_decide (kv.1 ∈ _URL_FIELDS) then JStr (_safe_url_value kv.2) else kv.2) clean
      else clean) [] suggestion.

(** ** The rate limit *)
(** [_RL_HITS]: the times of the accepted calls, oldest first. *)
Definition hits : Type := list (string * list Z).
Definition rate_limit_ok (key : string) (limit window_seconds now : Z) (st : hits) : bool * hits :=
  if limit <=? 0 then (true, st)
  else
    let kept := filter (λ t, now - window_seconds < t) (default [] (dget key st)) in
    if limit <=? Z.of_nat (List.length kept) then (false, dset key kept st) else (true, dset key (kept ++ [now]) st).

(** ** [api_catalog_suggest] *)
Inductive outgoing : Type := Fetch (url : string) | Chat (url model system user : string).
Record desk : Type := Desk { g_hits : hits; g_db : adb; g_calls : list outgoing }.
Definition set_hits (h : hits) (g : desk) : desk := Desk h (g_db g) (g_calls g).
Definition set_db (d : adb) (g : desk) : desk := Desk (g_hits g) d (g_calls g).
Definition calling (c : outgoing) : SM desk () := modify (λ g, Desk (g_hits g) (g_db g) (g_calls g ++ [c])).

Record outside : Type := Outside {
  o_unzip : string → option (list member); o_decode : string → string; o_xml : string → option (option string * option string);
  o_lookup : string → Z → lookup; o_fetch : string → option string; o_chat : string → option json }.
Record host : Type := Host {
  h_limited : bool; h_per_min : Z; h_llm_url : string; h_llm_token : string; h_model : string; h_prompt : string }.
Record suggest_request : Type := SuggestRequest {
  sr_forwarded : string; sr_peer : option string; sr_readme : option (string * string); sr_readme_url : string;
  sr_plugin : option (string * string) }.

Section handler.
Variables (drv : driver) (cl : call) (o : outside) (h : host).

Definition client_ip (r : suggest_request) : string := str_or (strip (hd "" (split_on "," (sr_forwarded r)))) (default "unknown" (sr_peer r)).
(** [_audit]: nothing it raises reaches the answer. *)
Definition _audit (ip source : string) : SM desk () :=
  catch (zoom g_db set_db (transaction
    (AdminRoutes.audit drv (Call (c_session cl) (Some ip) (c_now cl)) "catalog.suggest" "catalog" (Some source) JNull))) (λ _, mret ()).
Definition icon_mimes : list (string * string) :=
  [("png", "image/png"); ("jpg", "image/jpeg"); ("jpeg", "image/jpeg"); ("svg", "image/svg+xml"); ("webp", "image/webp")].
Definition _icon_data_url (data filename : string) : string :=
  data_url (default "image/png" (dget (lower (List.last (split_on "." filename) "")) icon_mimes)) data.
(** What the package adds to a suggestion. *)
Definition with_package (p : parsed) (s : list (string * json)) : list (string * json) :=
  let s := if truthy_str (ps_version p) then dset "oxt_version" (JStr (ps_version p)) s else s in
  let s := if truthy_str (ps_identifier p) then dset "oxt_identifier" (JStr (ps_identifier p)) s else s in
  let s := if truthy (ps_template p) then dset "config_template" (ps_template p) s else s in
  match ps_icon p with
  | Some (data, filename) =>
      if truthy_str data && truthy_str filename then
        let u := JStr (_icon_data_url data filename) in dset "icon_url" u (dset "icon_data_url" u s)
      else s
  | None => s
  end.
Definition of_manifest (m : list (string * json)) (p : parsed) : list (string * json) :=
  let f k d := (k, jget_or k m d) in
  [f "slug" (JStr ""); f "name" (JStr ""); f "description" (JStr ""); f "intent" (JStr ""); f "device_type" (JStr "libreoffice");
   f "category" (JStr "productivity"); f "publisher" (JStr ""); f "visibility" (JStr "public"); f "homepage_url" (JStr "");
   f "support_email" (JStr ""); f "icon_url" (JStr ""); f "doc_url" (JStr ""); f "license" (JStr ""); f "key_features" (JArr []);
   f "changelog" (JArr []); ("_has_readme", JBool (ps_has_readme p)); ("_has_manifest", JBool true);
   ("_has_config_template", JBool (ps_has_template p)); ("_source", JStr "dm-manifest.json")].
Definition fetched_readme (url : string) : SM desk (list string) :=
  if truthy_str (strip url) then
    safe ← lift (validate_public_url (o_lookup o) (strip url));
    calling (Fetch safe);;
    mret [match o_fetch o safe with
          | Some text => "=== README (URL) ===" +:+ String "010" (ztake 15000 text)
          | None => "=== README URL error ===" end]
  else mret [].
Definition blank_line : string := String "010" (String "010" "").
Definition plugin_text (filename : string) (p : parsed) : list string :=
  match ps_extracted p with [] => [] | l => ["=== Plugin (" +:+ filename +:+ ") ===" +:+ String "010" (sjoin blank_line l)] end.
(** [result["choices"][0]["message"]["content"]] *)
Definition content_of (result : json) : option string :=
  match jget "choices" (default [] (as_dict result)) with
  | JArr (JObj c :: _) => match jget "content" (default [] (as_dict (jget "message" c))) with JStr s => Some s | _ => None end
  | _ => None
  end.
Definition error_reply (status : Z) (text : string) : answer := Reply status [("error", JStr text)].
Definition ask_model (ip combined : string) (p : parsed) : SM desk answer :=
  let url := rstrip_char "/" (h_llm_url h) in
  if negb (truthy_str url) || negb (truthy_str (h_llm_token h)) then mret (error_reply 503 "LLM non configure (LLM_BASE_URL / LLM_API_TOKEN)")
  else
    calling (Chat url (h_model h) (h_prompt h) combined);;
    match o_chat o combined ≫= content_of with
    | Some content =>
        match extract_suggestion_json content with
        | Ok s =>
            _audit ip "llm";;
            mret (Reply 200 (sanitize_suggestion (with_package p
              (dset "_has_config_template" (JBool (ps_has_template p)) (dset "_has_readme" (JBool (ps_has_readme p)) s)))))
        | Err _ => mret (error_reply 502 ("R" +:+ String "233" ("ponse du mod" +:+ String "232" "le invalide ou indisponible")))
        end
    | None => mret (error_reply 502 ("R" +:+ String "233" ("ponse du mod" +:+ String "232" "le invalide ou indisponible")))
    end.
Definition suggest (ip : string) (r : suggest_request) : SM desk answer :=
  let readme := match sr_readme r with
    | Some (name, data) => ["=== README (" +:+ name +:+ ") ===" +:+ String "010" (ztake 15000 (o_decode o data))] | None => [] end in
  fetched ← fetched_readme (sr_readme_url r);
  p ← lift (match sr_plugin r with Some (_, data) => parse_plugin_zip (o_unzip o) (o_decode o) (o_xml o) data | None => Ok nothing_parsed end);
  let texts := readme ++ fetched ++ match sr_plugin r with Some (name, _) => plugin_text name p | None => [] end in
  if ps_has_manifest p && truthy (ps_manifest p) then
    match ps_manifest p with
    | JObj m => _audit ip "dm-manifest.json";; mret (Reply 200 (sanitize_suggestion (with_package p (of_manifest m p))))
    | _ => raise (Exc "object has no attribute 'get'")
    end
  else
    match texts with
    | [] => mret (error_reply 400 "Aucune source fournie")
    | _ => ask_model ip (ztake 20000 (sjoin blank_line texts)) p
    end.
Definition api_catalog_suggest (r : suggest_request) : SM desk answer :=
  let ip := client_ip r in
  ok ← (if h_limited h then zoom g_hits set_hits (λ st, let '(b, st') := rate_limit_ok ("suggest:" +:+ ip) (h_per_min h) 60 (c_now cl) st in (Ok b, st'))
        else mret true);
  if ok : bool then suggest ip r
  else mret (error_reply 429 ("Trop de requ" +:+ String "234" ("tes, r" +:+ String "233" "essayez plus tard"))).
End handler.
