(* ===== verification/SuggestFacts.v ===== *)
(** * What the suggestion route keeps
    The rate limit against its reference, the bounds of what is read in a package,
    the answers of the model that are understood, and what a suggestion may hold. *)
From stdpp Require Import sorting.
From S2P Require Import Prelude Text Json Effects Paths Campaigns Config Cohorts Flags GetConfig Catalog AuditLog AdminDb AdminRoutes AdminSettings PublicUrl Suggest.
From Stdlib Require Import Ascii String.
Open Scope Z_scope.

(** ** The rate limit *)
Section rate.
Variables (limit window : Z).
Hypothesis Hlimit : 0 < limit.
Notation event := (string * Z)%type.

(** The code, over a sequence of calls. *)
Fixpoint admitted (calls : list event) (st : hits) : list bool :=
  match calls with
  | [] => []
  | (k, t) :: r => let '(b, st') := rate_limit_ok k limit window t st in b :: admitted r st'
  end.
(** The reference keeps every accepted call and counts those of the key in the
    window that ends at the call. *)
Definition recent (k : string) (from : Z) (hist : list event) : list event := filter (λ e, e.1 = k ∧ from < e.2) hist.
Fixpoint reference (calls hist : list event) : list bool :=
  match calls with
  | [] => []
  | (k, t) :: r =>
      let b := negb (limit <=? Z.of_nat (List.length (recent k (t - window) hist))) in
      b :: reference r (if b then hist ++ [(k, t)] else hist)
  end.
Definition accepted (calls : list event) (bs : list bool) : list event := fst <$> filter (λ cb : event * bool, cb.2 = true) (zip calls bs).

Definition in_step (now : Z) (st : hits) (hist : list event) : Prop :=
  ∀ k n, now ≤ n → filter (λ t, n - window < t) (default [] (dget k st)) = snd <$> recent k (n - window) hist.
Lemma filter_later (f g : Z) (l : list Z) : f ≤ g → filter (λ t, g < t) (filter (λ t, f < t) l) = filter (λ t, g < t) l.
Proof. intros Hfg. rewrite list_filter_filter. apply list_filter_iff. intros t. lia. Qed.
Lemma recent_snoc k from hist e : recent k from (hist ++ [e]) = recent k from hist ++ (if decide (e.1 = k ∧ from < e.2) then [e] else []).
Proof. unfold recent. rewrite filter_app. f_equal. Qed.
Lemma in_step_call now k t st hist : now ≤ t → in_step now st hist →
  let b := negb (limit <=? Z.of_nat (List.length (recent k (t - window) hist))) in
  (rate_limit_ok k limit window t st).1 = b ∧ in_step t (rate_limit_ok k limit window t st).2 (if b then hist ++ [(k, t)] else hist).
Proof.
  intros Ht Hs. cbv zeta. unfold rate_limit_ok. replace (limit <=? 0) with false by lia. pose proof (Hs k t Ht) as Hk. cbv zeta in *. rewrite Hk, length_fmap.
  destruct (limit <=? _) eqn:E; cbn [negb fst snd]; (split; [done|]); intros k' n Hn.
  - rewrite dget_dset. case_decide as Hd; [subst k'|apply Hs; lia]. cbn [default]. unfold id. rewrite <- Hk, filter_later by lia. apply Hs. lia.
  - rewrite recent_snoc, fmap_app, dget_dset. cbn [fst snd]. case_decide as Hd.
    + subst k'. cbn [default]. unfold id. rewrite filter_app, <- Hk, filter_later, Hs by lia. f_equal. cbn [filter list_filter]. repeat case_decide; naive_solver.
    + rewrite decide_False by naive_solver. rewrite app_nil_r. apply Hs. lia.
Qed.
Lemma admitted_reference calls now st hist : in_step now st hist → StronglySorted (λ a b : event, a.2 ≤ b.2) calls → Forall (λ c : event, now ≤ c.2) calls →
  admitted calls st = reference calls hist.
Proof.
  revert now st hist. induction calls as [|[k t] calls IH]; intros now st hist Hs Hsorted Hnow; [done|]. cbn [admitted reference].
  apply StronglySorted_cons in Hsorted as [Hlater Hsorted]. apply Forall_cons in Hnow as [Ht _]. cbn in Ht.
  destruct (in_step_call now k t st hist Ht Hs) as [Hb Hs']. destruct (rate_limit_ok k limit window t st) as [b st']. cbn in Hb, Hs'. subst b.
  f_equal. eapply IH; [exact Hs'|done|exact Hlater].
Qed.

(** *** No window holds more than the limit *)
Definition within_limit (hist : list event) : Prop :=
  ∀ k x, Z.of_nat (List.length (filter (λ e : event, e.1 = k ∧ x - window < e.2 ≤ x) hist)) ≤ limit.
Lemma within_call k t hist : Forall (λ e : event, e.2 ≤ t) hist → within_limit hist →
  Z.of_nat (List.length (recent k (t - window) hist)) < limit → within_limit (hist ++ [(k, t)]).
Proof.
  intros Hle Hw Hc k' x. rewrite filter_app, length_app. specialize (Hw k' x) as Hx. cbn [filter list_filter fst snd].
  case_decide as Hd; cbn [List.length]; [|lia]. destruct Hd as [-> [Hd1 Hd2]].
  enough (Nat.le (List.length (filter (λ e : event, e.1 = k' ∧ x - window < e.2 ≤ x) hist)) (List.length (recent k' (t - window) hist))) by lia.
  unfold recent. clear - Hd2. induction hist as [|e hist IH]; [done|]. rewrite !filter_cons. repeat case_decide; cbn [List.length]; try lia. naive_solver lia.
Qed.
Lemma accepted_cons c calls b bs : accepted (c :: calls) (b :: bs) = (if b then [c] else []) ++ accepted calls bs.
Proof. unfold accepted. cbn [zip zip_with]. rewrite filter_cons. destruct b; by case_decide. Qed.
Lemma reference_within calls hist : Forall (λ e : event, Forall (λ c : event, e.2 ≤ c.2) calls) hist → within_limit hist →
  StronglySorted (λ a b : event, a.2 ≤ b.2) calls → within_limit (hist ++ accepted calls (reference calls hist)).
Proof.
  revert hist. induction calls as [|[k t] calls IH]; intros hist Hle Hw Hs; [by rewrite app_nil_r|]. cbn [reference]. rewrite accepted_cons.
  apply StronglySorted_cons in Hs as [Hlater Hs]. set (b := negb _). assert (Hle' : Forall (λ e : event, Forall (λ c : event, e.2 ≤ c.2) calls) hist).
  { eapply Forall_impl; [exact Hle|]. intros e He. by apply Forall_cons in He as [_ He]. }
  destruct b eqn:Eb; [|by apply IH]. rewrite app_assoc. apply IH; [|apply within_call; [|done|subst b; bool_hyps; lia]|done].
  - apply Forall_app. split; [done|]. rewrite Forall_singleton. exact Hlater.
  - eapply Forall_impl; [exact Hle|]. intros e He. by apply Forall_cons in He as [He _].
Qed.

End rate.

(** ** The package *)
Section package.
Variables (unzip : string → option (list member)) (decode : string → string) (xml : string → option (option string * option string)).
Lemma ztake_length n s : zlen (ztake n s) ≤ Z.max 0 n.
Proof. unfold zlen. revert n. induction s as [|c s IH]; intros n; cbn; [lia|]. destruct (n <=? 0) eqn:E; cbn [String.length]; [lia|]. specialize (IH (n - 1)). lia. Qed.
Definition excerpt (t : string) : Prop := ∃ name raw, t = "--- " +:+ name +:+ " ---" +:+ String "010" raw ∧ zlen raw ≤ 8000.
(** What is kept of the first [n] entries looked at. *)
Record bounded (n : nat) (p : parsed) : Prop := {
  bd_count : (List.length (ps_extracted p) ≤ n)%nat; bd_text : Forall excerpt (ps_extracted p);
  bd_icon : ∀ data name, ps_icon p = Some (data, name) → zlen data ≤ MAX_FILE_BYTES }.
Lemma bounded_more n p : bounded n p → bounded (S n) p.
Proof. intros [? ? ?]. constructor; [lia|done|done]. Qed.
Lemma take_in_bounded n name raw p : bounded n p → bounded (S n) (take_in xml name raw p).
Proof.
  intros [Hc Ht Hi]. assert (He : excerpt ("--- " +:+ name +:+ " ---" +:+ String "010" (ztake 8000 raw))).
  { exists name, (ztake 8000 raw). split; [done|]. pose proof (ztake_length 8000 raw). lia. }
  unfold take_in. repeat case_match; constructor; cbn [ps_extracted ps_icon]; rewrite ?length_app; cbn [List.length]; try done; try lia; apply Forall_app; split; auto.
Qed.
Lemma read_member_ok es name c : _read_zip_member es name = Ok c →
  (∀ s, c = Data s → zlen s ≤ MAX_FILE_BYTES) ∧ ∀ e, c = Unreadable e → ∃ m, m ∈ es ∧ m_content m = Unreadable e.
Proof.
  unfold _read_zip_member, getinfo. destruct (find _ _) as [m|] eqn:Em; [|done]. destruct (_ <? _); [done|]. intros [= <-].
  apply List.find_some in Em as [Hm _]. apply in_rev, list_elem_of_In in Hm. destruct (m_content m) eqn:Ec; split; try done.
  - intros s [= <-]. pose proof (ztake_length MAX_FILE_BYTES bytes). unfold MAX_FILE_BYTES in *. lia.
  - intros e' [= <-]. eauto.
Qed.
(** The exceptions: a refusal for its size, or what an entry raises when read. *)
Definition refusal (es : list member) (e : exc) : Prop :=
  (∃ what, e = Http (HttpError 413 what)) ∨ ∃ m, m ∈ es ∧ m_content m = Unreadable e.
Lemma read_member_err es name e : name ∈ m_name <$> es → _read_zip_member es name = Err e → refusal es e.
Proof.
  intros Hn. unfold _read_zip_member, getinfo. destruct (find _ _) as [m|] eqn:Em.
  - destruct (_ <? _); [|by destruct (m_content m)]. intros [= <-]. left. eauto.
  - exfalso. apply list_elem_of_fmap in Hn as (m & -> & Hm).
    assert (Hf : bool_decide (m_name m = m_name m) = false) by (apply (List.find_none _ _ Em), in_rev; by rewrite rev_involutive; apply list_elem_of_In).
    by rewrite bool_decide_eq_true_2 in Hf.
Qed.
Definition scanned (es : list member) (n : nat) (r : result exc parsed) : Prop :=
  match r with Ok p => bounded n p | Err e => refusal es e end.
Lemma scan_bounded es names total p n : (∀ x, x ∈ names → x ∈ m_name <$> es) → bounded n p →
  scanned es (n + List.length names) (scan decode xml es names total p).
Proof.
  revert total p n. induction names as [|name names IH]; intros total p n Hn Hp; cbn [scan List.length]; [by rewrite Nat.add_0_r|].
  rewrite Nat.add_succ_r. change (S (n + List.length names)) with (S n + List.length names)%nat.
  assert (Hin : name ∈ m_name <$> es) by (apply Hn; left). assert (Hn' : ∀ x, x ∈ names → x ∈ m_name <$> es) by (intros x Hx; apply Hn; by right).
  assert (Hweak : bounded (S n + List.length names) p). { destruct Hp as [? ? ?]. constructor; [lia|done|done]. }
  destruct (is_icon name); [|destruct (bool_decide _); [|apply IH; [done|by apply bounded_more]]];
    (destruct (_read_zip_member es name) as [c|e] eqn:E; cbn [rbind]; [|by apply read_member_err in E]); apply read_member_ok in E as [Hs Hu];
    (destruct c as [s| |e]; [|exact Hweak|right; by apply Hu]).
  - apply IH; [done|]. apply bounded_more in Hp as [? ? ?]. constructor; [done|done|]. intros data nm [= <- <-]. by apply Hs.
  - destruct (_ <? _); [exact Hweak|]. apply IH; [done|]. by apply take_in_bounded.
Qed.
(** Reading a package returns, or refuses it for its size, or raises what one of its
    entries raises when read; what it returns was read in at most 25 MiB that declare
    at most 50, and holds at most one excerpt of 8,000 characters for each entry and
    an icon of at most 5 MiB; bytes that are no archive give the empty result. *)
Theorem package_reading_bounded pdata :
  match parse_plugin_zip unzip decode xml pdata with
  | Ok p => zlen pdata ≤ MAX_UPLOAD_BYTES ∧
      match unzip pdata with
      | Some es => sum_sizes es ≤ MAX_DECOMPRESSED_BYTES ∧ bounded (List.length es) p
      | None => p = nothing_parsed
      end
  | Err e => refusal (default [] (unzip pdata)) e
  end.
Proof.
  unfold parse_plugin_zip. destruct (_ <? zlen pdata) eqn:E1; [left; by eexists|]. destruct (unzip pdata) as [es|]; [|split; [lia|done]].
  destruct (_ <? sum_sizes es) eqn:E2; [left; by eexists|].
  assert (H0 : bounded 0 nothing_parsed) by (constructor; [done|constructor|done]).
  pose proof (scan_bounded es (m_name <$> es) 0 nothing_parsed 0 ltac:(done) H0) as H. rewrite length_fmap in H.
  destruct (scan _ _ _ _ _ _) as [p|e]; cbn [scanned default] in *; [|done]. split_and!; [lia|lia|done].
Qed.
End package.

(** ** The filter of a suggestion *)
Definition url_value (v : json) : Prop := ∃ s, v = JStr s ∧ (s = "" ∨ safe_url_text s = true).
Definition clean (d : list (string * json)) : Prop :=
  ∀ k v, (k, v) ∈ d → k ∈ ALLOWED_SUGGESTION_KEYS ∧ (k ∈ _URL_FIELDS → url_value v).
Lemma safe_url_clean v : url_value (JStr (_safe_url_value v)).
Proof.
  eexists. split; [done|]. destruct v; cbn; try by left. destruct (safe_url_text (strip s)) eqn:E; [by right|by left].
Qed.
Lemma sanitize_clean s : clean (sanitize_suggestion s).
Proof.
  unfold sanitize_suggestion. assert (H0 : clean []) by (intros k v Hk; by apply elem_of_nil in Hk). revert H0. generalize (@nil (string * json)).
  induction s as [|[k v] s IH]; intros acc Hacc; [done|]. cbn [foldl fst snd]. apply IH. destruct (bool_decide _) eqn:Ek; [|done]. bool_hyps.
  intros k' v' [[-> ->]|?]%elem_of_dset; [|by apply Hacc]. split; [done|]. intros Hu. rewrite bool_decide_eq_true_2 by done. apply safe_url_clean.
Qed.

(** ** The answer of the model *)
Definition no_tick (s : string) : Prop := sforall (λ c, negb (is_char "`" c)) s = true.
Definition blank (s : string) : Prop := sforall py_isspace s = true.
Lemma lstrip_app p a c b : p c = false → lstrip_by p (a +:+ String c b) = lstrip_by p a +:+ String c b.
Proof. intros Hc. induction a as [|x a IH]; [rewrite sapp_nil_l; cbn; by rewrite Hc|]. rewrite sapp_cons. cbn. destruct (p x); [done|]. by rewrite sapp_cons. Qed.
Lemma rstrip_app p a c b : p c = false → rstrip_by p (a +:+ String c b) = a +:+ String c (rstrip_by p b).
Proof.
  intros Hc. induction a as [|x a IH]; [rewrite !sapp_nil_l; cbn; destruct (rstrip_by p b); by rewrite ?Hc|]. rewrite !sapp_cons. cbn. rewrite IH. by destruct a.
Qed.
Lemma strip_around pre c m c' post : py_isspace c = false → py_isspace c' = false →
  strip (pre +:+ String c (m +:+ String c' post)) = lstrip_by py_isspace pre +:+ String c (m +:+ String c' (rstrip_by py_isspace post)).
Proof.
  intros Hc Hc'. unfold strip. rewrite lstrip_app by done. change (String c (m +:+ String c' post)) with (String c m +:+ String c' post).
  rewrite <- sapp_assoc, rstrip_app by done. by rewrite sapp_assoc.
Qed.
Lemma lstrip_blank w : blank w → lstrip_by py_isspace w = "".
Proof. unfold blank. induction w as [|c w IH]; [done|]. cbn. intros [-> Hw]%andb_true_iff. auto. Qed.
Lemma rstrip_blank w : blank w → rstrip_by py_isspace w = "".
Proof. unfold blank. induction w as [|c w IH]; [done|]. cbn. intros [Hc Hw]%andb_true_iff. by rewrite IH, Hc. Qed.
Lemma sforall_lstrip p q s : sforall p s = true → sforall p (lstrip_by q s) = true.
Proof. induction s as [|c s IH]; [done|]. cbn. intros [Hc Hs]%andb_true_iff. destruct (q c); [auto|]. cbn. by rewrite Hc. Qed.
Lemma sforall_rstrip p q s : sforall p s = true → sforall p (rstrip_by q s) = true.
Proof.
  induction s as [|c s IH]; [done|]. cbn. intros [Hc Hs]%andb_true_iff. specialize (IH Hs). destruct (rstrip_by q s); [destruct (q c); [done|]|]; cbn in *; by rewrite Hc.
Qed.

(** *** Fences *)
Lemma split_plain_text s : no_tick s → split_fences s = [s].
Proof.
  unfold no_tick. induction s as [|a r IH]; [done|]. cbn [sforall]. intros [Ha Hr]%andb_true_iff. specialize (IH Hr). bool_hyps. cbn [split_fences].
  rewrite IH. destruct r as [|b [|c r3]]; [done..|]. unfold tick3. by rewrite Ha.
Qed.
Lemma split_at_fence a b : no_tick a → split_fences (a +:+ "```" +:+ b) = a :: split_fences b.
Proof.
  unfold no_tick. induction a as [|x a IH]; [done|]. cbn [sforall]. intros [Hx Ha]%andb_true_iff. specialize (IH Ha). bool_hyps. rewrite sapp_cons.
  cbn [split_fences]. rewrite IH. destruct (a +:+ _) as [|y [|z r3]]; [done..|]. unfold tick3. by rewrite Hx.
Qed.
Lemma contains_after a b : contains "```" (a +:+ "```" +:+ b) = true.
Proof.
  induction a as [|x a IH]; [rewrite !sapp_nil_l, !sapp_cons; cbn [contains]; unfold starts_with; cbn; by destruct b|].
  rewrite sapp_cons. cbn [contains]. by rewrite IH, orb_true_r.
Qed.
Lemma contains_plain s : no_tick s → contains "```" s = false.
Proof.
  unfold no_tick. induction s as [|a s IH]; [done|]. cbn [sforall]. intros [Ha Hs]%andb_true_iff. cbn [contains]. rewrite IH by done. rewrite orb_false_r.
  bool_hyps. unfold is_char in Ha. bool_hyps. destruct (starts_with "```" (String a s)) eqn:E; [|done]. by apply starts_with_true in E as (r & [= -> _]).
Qed.

(** *** The text between the first opening brace and the last closing one *)
Lemma to_last_brace_app m post : sforall (λ c, negb (is_char "}" c)) post = true → to_last_brace (m +:+ String "}" post) = Some (m +:+ "}").
Proof.
  intros Hp. induction m as [|x m IH]; [|rewrite !sapp_cons; cbn; by rewrite IH]. rewrite !sapp_nil_l. cbn.
  enough (to_last_brace post = None) as -> by done. induction post as [|c post IH]; [done|]. cbn in Hp. bool_hyps. cbn. by rewrite IH, H.
Qed.
Lemma braces_around pre m post : sforall (λ c, negb (is_char "{" c)) pre = true → sforall (λ c, negb (is_char "}" c)) post = true →
  braces (pre +:+ String "{" (m +:+ String "}" post)) = Some (String "{" (m +:+ "}")).
Proof.
  intros Hpre Hpost. assert (E : from_brace (pre +:+ String "{" (m +:+ String "}" post)) = Some (String "{" (m +:+ String "}" post))).
  { induction pre as [|c pre IH]; [done|]. cbn in Hpre. bool_hyps. rewrite sapp_cons. cbn. rewrite H. auto. }
  unfold braces. rewrite E. cbn [mbind option_bind]. rewrite <- !sapp_cons. rewrite (to_last_brace_app (String "{" m) post) by done. by rewrite sapp_cons.
Qed.
Lemma dumps_object d : ∃ m, dumps (JObj d) = String "{" (m +:+ "}").
Proof. eexists. unfold dumps. cbn [dumps_with]. by rewrite sapp_cons, sapp_nil_l. Qed.

(** The ways of writing an object that are understood. *)
Definition newline : string := String "010" "".
Inductive presents (j : string) : string → Prop :=
| Bare w w' : blank w → blank w' → presents j (w +:+ j +:+ w')
| Fenced pre lang post : no_tick pre → lang ∈ [""; "json"; "JSON"] →
    presents j (pre +:+ "```" +:+ lang +:+ newline +:+ j +:+ newline +:+ "```" +:+ post)
| Prose pre post : no_tick pre → no_tick post → sforall (λ c, negb (is_char "{" c)) pre = true → sforall (λ c, negb (is_char "}" c)) post = true →
    loads (strip (pre +:+ j +:+ post)) = None → presents j (pre +:+ j +:+ post).
Lemma read_object d t : truthy_str (strip t) = true →
  (let text := if contains "```" (strip t) then fenced (strip t) else strip t in match loads text with Some v => Some v | None => braces text ≫= loads end) = Some (JObj d) →
  extract_suggestion_json t = Ok d.
Proof. intros Ht H. unfold extract_suggestion_json. rewrite Ht. cbn [negb]. cbv zeta in *. by rewrite H. Qed.
Lemma no_tick_app s t : no_tick (s +:+ t) ↔ no_tick s ∧ no_tick t.
Proof. unfold no_tick. by rewrite sforall_app, andb_true_iff. Qed.

Lemma put_ne c l : l ≠ [] → put c l ≠ [].
Proof. by destruct l. Qed.
Lemma split_fences_ne s : split_fences s ≠ [].
Proof.
  assert (H : ∀ n s, (String.length s ≤ n)%nat → split_fences s ≠ []); [|by apply (H (String.length s))]. clear s.
  induction n as [|n IH]; intros [|a r] Hn; cbn in Hn; try done; try lia. cbn [split_fences].
  destruct r as [|b [|c r3]]; [apply put_ne, IH; cbn in *; lia..|]. destruct (tick3 a b c); [done|]. apply put_ne, IH. cbn in *. lia.
Qed.
Lemma strip_object w m w' : blank w → blank w' → strip (w +:+ String "{" (m +:+ "}") +:+ w') = String "{" (m +:+ "}").
Proof.
  intros Hw Hw'. rewrite sapp_cons, sapp_assoc, sapp_cons, sapp_nil_l, strip_around by done. by rewrite lstrip_blank, rstrip_blank.
Qed.
Lemma fenced_body pre lang m post : no_tick pre → no_tick (String "{" (m +:+ "}")) → lang ∈ [""; "json"; "JSON"] →
  fenced (pre +:+ "```" +:+ (lang +:+ newline +:+ String "{" (m +:+ "}") +:+ newline) +:+ "```" +:+ post) = String "{" (m +:+ "}").
Proof.
  intros Hpre Hj Hlang. unfold fenced. set (body := lang +:+ _). assert (Hb : no_tick body).
  { unfold body. rewrite !no_tick_app. split_and!; [|done|done|done]. by repeat (apply elem_of_cons in Hlang as [->|Hlang]; [done|]); apply elem_of_nil in Hlang. }
  rewrite !split_at_fence by done. destruct (split_fences post) eqn:E; [by destruct (split_fences_ne post)|]. cbv zeta beta iota.
  pose proof (strip_object newline m newline eq_refl eq_refl) as Hs. unfold body.
  repeat (apply elem_of_cons in Hlang as [->|Hlang]); [..|by apply elem_of_nil in Hlang]; exact Hs.
Qed.

(** An answer that presents an object, bare, in a fenced block or within prose, gives
    the object back, when no text of the object holds a backquote. *)
Theorem suggestion_roundtrip d t : json_wf (JObj d) → no_tick (dumps (JObj d)) → presents (dumps (JObj d)) t → extract_suggestion_json t = Ok d.
Proof.
  intros Hwf Hj Hp. pose proof (loads_dumps _ Hwf) as Hl. destruct (dumps_object d) as [m Hm]. rewrite Hm in *.
  destruct Hp as [w w' Hw Hw'|pre lang post Hpre Hlang|pre post Hpre Hpost Hb Hb' Hnone].
  - apply read_object; rewrite strip_object by done; [done|]. rewrite contains_plain by done. cbv zeta. by rewrite Hl.
  - set (mid := "``" +:+ (lang +:+ newline +:+ String "{" (m +:+ "}") +:+ newline) +:+ "``").
    assert (E : strip (pre +:+ "```" +:+ lang +:+ newline +:+ String "{" (m +:+ "}") +:+ newline +:+ "```" +:+ post) =
      lstrip_by py_isspace pre +:+ "```" +:+ (lang +:+ newline +:+ String "{" (m +:+ "}") +:+ newline) +:+ "```" +:+ rstrip_by py_isspace post).
    { pose proof (strip_around pre "`" mid "`" post eq_refl eq_refl) as H. unfold mid in H. rewrite !sapp_assoc in H. rewrite !sapp_assoc. exact H. }
    apply read_object; rewrite E; [by destruct (lstrip_by _ pre)|]. rewrite contains_after. cbv zeta.
    rewrite fenced_body by (done || by apply sforall_lstrip). by rewrite Hl.
  - assert (E : strip (pre +:+ String "{" (m +:+ "}") +:+ post) = lstrip_by py_isspace pre +:+ String "{" (m +:+ String "}" (rstrip_by py_isspace post))).
    { rewrite sapp_cons, sapp_assoc, sapp_cons, sapp_nil_l. by rewrite strip_around. }
    apply read_object; [rewrite E; by destruct (lstrip_by _ pre)|]. rewrite contains_plain; cbv zeta.
    + rewrite Hnone, E, braces_around; [exact Hl|by apply sforall_lstrip|by apply sforall_rstrip].
    + rewrite E. apply no_tick_app. split; [by apply sforall_lstrip|]. change (no_tick (String "{" m +:+ "}" +:+ rstrip_by py_isspace post)).
      change (no_tick (String "{" m +:+ "}")) in Hj. rewrite no_tick_app in Hj. rewrite !no_tick_app. destruct Hj. split_and!; [done|done|by apply sforall_rstrip].
Qed.

(** ** The route *)
Section route.
Variables (drv : driver) (cl : call) (o : outside) (h : host).
Lemma audit_quiet ip source g : ∃ d, _audit drv cl ip source g = (Ok (), Desk (g_hits g) d (g_calls g)).
Proof. unfold _audit, catch, zoom. destruct (transaction _ (g_db g)) as [[[]|e] d]; by exists d. Qed.
(** The calls a request may cause: at most one fetch, of the address it names once it
    was accepted, then at most one call of the model with a bounded text. *)
Definition proper_fetch (r : suggest_request) (cs : list outgoing) : Prop :=
  cs = [] ∨ ∃ u, cs = [Fetch u] ∧ validate_public_url (o_lookup o) (strip (sr_readme_url r)) = Ok u.
Definition proper_chat (cs : list outgoing) : Prop :=
  cs = [] ∨ ∃ url user, cs = [Chat url (h_model h) (h_prompt h) user] ∧ zlen user ≤ 20000 ∧ h_llm_token h ≠ "".
(** A reply of status 200 holds a clean suggestion. *)
Definition proper_reply (res : result exc answer) : Prop := ∀ body, res = Ok (Reply 200 body) → clean body.
Lemma reply_other status text : status ≠ 200 → proper_reply (Ok (error_reply status text)).
Proof. intros Hs body [= -> _]. done. Qed.
Lemma ask_model_sound ip combined p g res g' : zlen combined ≤ 20000 → ask_model drv cl o h ip combined p g = (res, g') →
  g_hits g' = g_hits g ∧ proper_reply res ∧ ∃ cs, g_calls g' = g_calls g ++ cs ∧ proper_chat cs.
Proof.
  intros Hc. unfold ask_model. destruct (_ || _) eqn:Et.
  - intros [= <- <-]. split_and!; [done|by apply reply_other|]. exists []. rewrite app_nil_r. split; [done|by left].
  - apply orb_false_iff in Et as [_ Et]. apply negb_false_iff, truthy_str_true in Et.
    assert (Hchat : proper_chat [Chat (rstrip_char "/" (h_llm_url h)) (h_model h) (h_prompt h) combined]) by (right; eauto).
    unfold calling. rewrite bind_modify. destruct (o_chat o combined ≫= content_of) as [content|].
    + destruct (extract_suggestion_json content) as [s|e].
      * destruct (audit_quiet ip "llm" (Desk (g_hits g) (g_db g) (g_calls g ++ [Chat (rstrip_char "/" (h_llm_url h)) (h_model h) (h_prompt h) combined]))) as [d Hd].
        rewrite (bind_step _ _ _ _ _ Hd). intros [= <- <-]. split_and!; [done| |by eexists]. intros body [= <-]. apply sanitize_clean.
      * intros [= <- <-]. split_and!; [done|by apply reply_other|by eexists].
    + intros [= <- <-]. split_and!; [done|by apply reply_other|by eexists].
Qed.
Lemma fetched_sound url g res g' : fetched_readme o url g = (res, g') →
  g_hits g' = g_hits g ∧ g_db g' = g_db g ∧ ∃ cs, g_calls g' = g_calls g ++ cs ∧
    (cs = [] ∨ ∃ u, cs = [Fetch u] ∧ validate_public_url (o_lookup o) (strip url) = Ok u).
Proof.
  assert (H0 : ∀ x : result exc (list string), (x, g) = (res, g') → g_hits g' = g_hits g ∧ g_db g' = g_db g ∧ ∃ cs, g_calls g' = g_calls g ++ cs ∧
    (cs = [] ∨ ∃ u, cs = [Fetch u] ∧ validate_public_url (o_lookup o) (strip url) = Ok u)).
  { intros x [= _ <-]. split_and!; [done..|]. exists []. rewrite app_nil_r. split; [done|by left]. }
  unfold fetched_readme. destruct (truthy_str _).
  - destruct (validate_public_url _ _) as [u|e] eqn:E.
    + rewrite (bind_step _ _ _ u g) by done. unfold calling. rewrite bind_modify. intros [= _ <-]. split_and!; [done..|]. eexists. split; [done|]. right. eauto.
    + apply H0.
  - apply H0.
Qed.
Lemma suggest_sound_body ip r g res g' : suggest drv cl o h ip r g = (res, g') →
  g_hits g' = g_hits g ∧ proper_reply res ∧ ∃ fs cs, g_calls g' = g_calls g ++ fs ++ cs ∧ proper_fetch r fs ∧ proper_chat cs.
Proof.
  unfold suggest, proper_fetch. set (readme := match sr_readme r with Some _ => _ | None => [] end). unfold mbind at 1, SM_bind at 1.
  destruct (fetched_readme o (sr_readme_url r) g) as [rf g1] eqn:Ef. apply fetched_sound in Ef as (Hh & _ & fs & Hcalls & Hf).
  assert (Hend : ∀ res, proper_reply res → g_hits g1 = g_hits g ∧ proper_reply res ∧ ∃ fs cs, g_calls g1 = g_calls g ++ fs ++ cs ∧ 
    (fs = [] ∨ ∃ u, fs = [Fetch u] ∧ validate_public_url (o_lookup o) (strip (sr_readme_url r)) = Ok u) ∧ proper_chat cs).
  { intros x Hx. split_and!; [done..|]. exists fs, []. rewrite app_nil_r. split_and!; [done..|by left]. }
  destruct rf as [fetched|e]; [|intros [= <- <-]; by apply Hend]. unfold mbind at 1, SM_bind at 1, lift at 1.
  destruct (match sr_plugin r with Some _ => _ | None => _ end) as [p|e]; [|intros [= <- <-]; by apply Hend].
  set (texts := readme ++ fetched ++ _). destruct (_ && _).
  - destruct (ps_manifest p) as [| | | | |m]; try (intros [= <- <-]; by apply Hend).
    destruct (audit_quiet ip "dm-manifest.json" g1) as [d Hd]. rewrite (bind_step _ _ _ _ _ Hd). intros [= <- <-].
    split_and!; [done| |].
    + intros body [= <-]. apply sanitize_clean.
    + exists fs, []. rewrite app_nil_r. split_and!; [done..|by left].
  - destruct texts; [intros [= <- <-]; apply Hend; by apply reply_other|]. intros Ha. apply ask_model_sound in Ha as (Hh' & Hr & cs & Hc & Hchat).
    + split_and!; [congruence|done|]. exists fs, cs. split_and!; [|done..]. by rewrite Hc, Hcalls, app_assoc.
    + pose proof (ztake_length 20000 (sjoin blank_line (s :: texts))). lia.
Qed.

End route.

(** ** Instances *)
Module Demo.
Definition burst_ex : list (string * Z) := [("a", 0); ("a", 10); ("b", 10); ("a", 20); ("a", 61); ("a", 62)].

Definition answer_ex : list (string * json) := [("name", JStr "Mirai"); ("key_features", JArr [JStr "SSO"])].
Lemma answer_wf : json_wf (JObj answer_ex).
Proof. cbn. split_and!; try done. by apply (bool_decide_unpack _). Qed.
Lemma suggestion_roundtrip_witness :
  extract_suggestion_json ("Here it is:" +:+ "```" +:+ "json" +:+ newline +:+ dumps (JObj answer_ex) +:+ newline +:+ "```" +:+ " Enjoy.") = Ok answer_ex.
Proof. apply (suggestion_roundtrip answer_ex); [exact answer_wf|done|]. apply Fenced; [done|set_solver]. Defined.
(** A text of the object that holds a code fence is not understood. *)
Example fence_inside_text :
  extract_suggestion_json (dumps (JObj [("changelog", JStr "```sh make```")])) = value_error ("aucun JSON exploitable dans la r" +:+ String "233" "ponse LLM").
Proof. by vm_compute. Qed.

Definition drv_ex : driver := Driver (λ _, None) (λ _, None) (λ t, Some t) (λ ip, bool_decide (ip = "10.0.0.1")).
Definition cl_ex : call := Call [("email", "ana@example.org"); ("sub", "ana")] (Some "10.0.0.1") 1000.
Definition db_ex : adb :=
  Adb (Catalog [] [] [] [] [] 1 1 1) (Life.State [] 1) [] (Service.State [] [] 1) (FlagState [] [] 1) [] [] [] [] [] [] [] [] [] 1.
(** A model that follows the instructions hidden in a remote file. *)
Definition model_text : string :=
  dumps (JObj [("name", JStr "Mirai"); ("homepage_url", JStr "javascript:alert(1)"); ("icon_url", JStr "https://example.org/i.png"); ("admin", JBool true)]).
Definition outside_ex : outside :=
  Outside (λ _, None) id (λ _, None) PublicUrl.Demo.resolver (λ _, Some "README")
    (λ _, Some (JObj [("choices", JArr [JObj [("message", JObj [("content", JStr model_text)])]])])).
Definition host_ex : host := Host true 1 "https://llm/v1/" "token" "model" "prompt".
Definition request_ex (forwarded : string) : suggest_request := SuggestRequest forwarded (Some "10.0.0.1") None "https://example.org/README.md" None.
Definition run_ex (forwarded : string) (g : desk) : result exc answer * desk := api_catalog_suggest drv_ex cl_ex outside_ex host_ex (request_ex forwarded) g.
Definition desk_ex : desk := Desk [] db_ex [].
(** The key of the limiter is the first address of a header that the caller writes:
    another value is another caller, and one that is no address leaves no entry in
    the audit log. *)
Example forwarded_header_evades :
  let g := (run_ex "" desk_ex).2 in
  (∃ body, (run_ex "x" g).1 = Ok (Reply 200 body)) ∧ List.length (d_audit (g_db g)) = 1%nat ∧ List.length (d_audit (g_db (run_ex "x" g).2)) = 1%nat.
Proof. vm_compute. split_and!; [eexists; reflexivity|done|done]. Qed.
End Demo.
