(* ===== verification/AdminLogin.v ===== *)
(** * Signing in to the administration
    Of [app/admin/auth.py] the settings of the identity provider, its discovery
    document with the addresses rewritten for calls from the server, and the
    redirection that [require_admin] answers; of [app/admin/router.py]
    [oidc_callback] and [logout]. The provider is an argument: the discovery
    document, the answer to an exchange, and what the JWT library accepts. A
    discovery document that is no object is left out. *)
From S2P Require Import Prelude Text Json Effects Hashing Base64 Tokens AdminAuth PublicUrl.
From Stdlib Require Import Ascii String.
Open Scope Z_scope.

(** ** Settings *)
Record oidc_env : Type := OidcEnv {
  oe_issuer_url : string; oe_kc_issuer : string; oe_kc_realm : string; oe_base_url : string; oe_public_issuer : string;
  oe_client_id : string; oe_client_secret : string; oe_group : string; oe_session_secret : string }.
Record provider : Type := Provider {
  o_discovery : string → option (list (string * json));
  o_exchange : string → string → option json;
  (* the address of the keys, the token, the audience and the issuer *)
  o_verify : json → json → string → json → option (list (string * json)) }.

(** [s.replace(old, new)] with a non-empty [old] *)
Fixpoint sreplace (old new : string) (skip : nat) (s : string) : string :=
  match s, skip with
  | "", _ => ""
  | String _ r, S k => sreplace old new k r
  | String c r, O => if starts_with old s then new +:+ sreplace old new (String.length old - 1) r else String c (sreplace old new 0 r)
  end.
(** [urllib.parse.urlencode] of texts *)
Definition upper_hex (d : Z) : ascii := if d <? 10 then chr (48 + d) else chr (55 + d).
Definition quote_char (c : ascii) : string :=
  if Paths.is_alnum c || bool_decide (c ∈ ["_"%char; "."%char; "-"%char; "~"%char]) then String c ""
  else if is_char " " c then "+" else String "%" (String (upper_hex (code c / 16)) (String (upper_hex (code c mod 16)) "")).
Definition quote_plus (s : string) : string := sflat quote_char (utf8_encode s).
Definition urlencode (params : list (string * string)) : string := sjoin "&" ((λ kv, quote_plus kv.1 +:+ "=" +:+ quote_plus kv.2) <$> params).

Section login.
Variables (e : oidc_env) (o : provider).

Definition _oidc_issuer_url : string :=
  let explicit := strip (oe_issuer_url e) in
  if truthy_str explicit then explicit
  else
    let base := rstrip_char "/" (strip (oe_kc_issuer e)) in
    let realm := strip (oe_kc_realm e) in
    if truthy_str base && truthy_str realm then base +:+ "/realms/" +:+ realm else base.
Definition _admin_redirect_uri : result exc string :=
  let* parts := urlparse (strip (oe_base_url e)) in
  Ok (if negb (truthy_str (Url.scheme parts)) || negb (truthy_str (Url.netloc parts)) then ""
      else Url.scheme parts +:+ "://" +:+ Url.netloc parts +:+ "/admin/callback").

(** ** Discovery *)
(** The cached document, and the exchanges sent. *)
Record login_state : Type := LoginState { ls_config : list (string * json); ls_sent : list (string * string) }.
Definition set_config (c : list (string * json)) (s : login_state) : login_state := LoginState c (ls_sent s).
Definition text_at (k : string) : SM login_state string :=
  c ← gets ls_config;
  match jget_or k c (JStr "") with JStr t => mret t | _ => raise (Exc "object has no attribute 'rstrip'") end.
Definition store (k v : string) : SM login_state () := modify (λ s, set_config (dset k (JStr v) (ls_config s)) s).
(** After the lock is released. *)
Definition rewrite_endpoints : SM login_state () :=
  let issuer := _oidc_issuer_url in
  if truthy_str (oe_public_issuer e) && negb (bool_decide (issuer = oe_public_issuer e)) then
    iss ← text_at "issuer";
    let public_base := rstrip_char "/" iss in
    let internal_base := rstrip_char "/" issuer in
    raw_token_ep ← text_at "token_endpoint";
    raw_jwks ← text_at "jwks_uri";
    if truthy_str public_base && truthy_str internal_base && negb (bool_decide (public_base = internal_base)) then
      store "_internal_token_endpoint" (sreplace public_base internal_base 0 raw_token_ep);;
      store "_internal_jwks_uri" (sreplace public_base internal_base 0 raw_jwks)
    else
      store "_internal_token_endpoint" raw_token_ep;;
      store "_internal_jwks_uri" raw_jwks
  else mret ().
(** The document is in the cache, for every thread, when this returns. *)
Definition publish_config : SM login_state bool :=
  match o_discovery o (rstrip_char "/" _oidc_issuer_url +:+ "/.well-known/openid-configuration") with
  | Some cfg => modify (set_config cfg);; mret true
  | None => mret false
  end.
Definition _get_oidc_config : SM login_state (list (string * json)) :=
  c ← gets ls_config;
  match c with
  | _ :: _ => mret c
  | [] =>
      if negb (truthy_str _oidc_issuer_url) then mret []
      else
        found ← publish_config;
        (if found : bool then rewrite_endpoints else mret ());;
        gets ls_config
  end.
Definition _get_jwks_uri : SM login_state json := c ← _get_oidc_config; mret (jor (jget "_internal_jwks_uri" c) (jget_or "jwks_uri" c (JStr ""))).
Definition _get_token_endpoint : SM login_state json :=
  c ← _get_oidc_config; mret (jor (jget "_internal_token_endpoint" c) (jget_or "token_endpoint" c (JStr ""))).

(** ** The redirection to the provider *)
Record response : Type := Response { rs_status : Z; rs_location : string; rs_set : list (string * string); rs_deleted : list string }.
(** The bytes that [os.urandom] draws. *)
Definition state_of (drawn16 : string) : string := hexlify drawn16.
Definition verifier_of (drawn32 : string) : string := b64url_encode drawn32.
Definition challenge_of (verifier : string) : string := b64url_encode (sha256 (utf8_encode verifier)).
Definition login_params (redirect_uri state challenge : string) : list (string * string) :=
  [("response_type", "code"); ("client_id", oe_client_id e); ("redirect_uri", redirect_uri); ("scope", "openid profile email");
   ("state", state); ("code_challenge", challenge); ("code_challenge_method", "S256")].
Definition login_redirect (drawn16 drawn32 : string) : SM login_state response :=
  redirect_uri ← lift _admin_redirect_uri;
  cfg ← _get_oidc_config;
  match cfg with
  | [] => raise (Http (HttpError 503 "OIDC provider not configured or unreachable"))
  | _ =>
      match dget "authorization_endpoint" cfg with
      | Some endpoint =>
          let verifier := verifier_of drawn32 in
          mret (Response 307 (py_str endpoint +:+ "?" +:+ urlencode (login_params redirect_uri (state_of drawn16) (challenge_of verifier)))
                  [("dm_oidc_state", state_of drawn16); ("dm_pkce_verifier", verifier)] [])
      | None => raise (Exc "KeyError: authorization_endpoint")
      end
  end.

(** ** [oidc_callback] *)
Definition SESSION_COOKIE : string := "dm_admin_session".
Definition CSRF_COOKIE : string := "dm_csrf_token".
Definition token_params (redirect_uri code : string) (verifier : option string) : list (string * string) :=
  [("grant_type", "authorization_code"); ("code", code); ("redirect_uri", redirect_uri); ("client_id", oe_client_id e)] ++
  (if truthy_str (oe_client_secret e) then [("client_secret", oe_client_secret e)] else []) ++
  match verifier with Some v => if truthy_str v then [("code_verifier", v)] else [] | None => [] end.
Definition login_session (now : Z) (claims : list (string * json)) (id_token : json) : list (string * json) :=
  [("sub", jget "sub" claims); ("email", jget "email" claims); ("name", jget_or "name" claims (jget "preferred_username" claims));
   ("id_token", id_token); ("exp", JInt (now + SESSION_TTL))].
Definition refuse {A} (status : Z) (detail : string) : SM login_state A := raise (Http (HttpError status detail)).
Definition exchange (url body : string) : SM login_state json :=
  modify (λ s, LoginState (ls_config s) (ls_sent s ++ [(url, body)]));;
  match o_exchange o url body with Some t => mret t | None => refuse 502 "Token exchange failed" end.
Definition of_exn {A} (r : result exn A) : SM login_state A := match r with Ok a => mret a | Err _ => raise (Exc "TypeError") end.
Definition oidc_callback (now : Z) (csrf16 code state : string) (cookies : list (string * string)) : SM login_state response :=
  redirect_uri ← lift _admin_redirect_uri;
  if negb (bool_decide (dget "dm_oidc_state" cookies = Some state)) then refuse 400 "Invalid state"
  else
    cfg ← _get_oidc_config;
    match cfg with
    | [] => refuse 503 "OIDC provider not configured"
    | _ =>
        endpoint ← _get_token_endpoint;
        tokens ← exchange (py_str endpoint) (urlencode (token_params redirect_uri code (dget "dm_pkce_verifier" cookies)));
        match tokens with
        | JObj t =>
            let id_token := jor (jget "id_token" t) (JStr "") in
            let jwks_uri := jor (jget "_internal_jwks_uri" cfg) (jget "jwks_uri" cfg) in
            if negb (truthy jwks_uri) then refuse 502 "OIDC discovery missing jwks_uri"
            else
              match o_verify o jwks_uri id_token (oe_client_id e) (jget "issuer" cfg) with
              | None => refuse 401 "ID token verification failed"
              | Some claims =>
                  ok ← of_exn (_has_admin_group (oe_group e) (oe_client_id e) claims);
                  if negb ok then refuse 403 "Acces refuse"
                  else
                    match dget "id_token" t with
                    | Some id_token =>
                        mret (Response 302 "/admin/"
                          [(SESSION_COOKIE, _sign_session (oe_session_secret e) (JObj (login_session now claims id_token))); (CSRF_COOKIE, hexlify csrf16)]
                          ["dm_oidc_state"; "dm_pkce_verifier"])
                    | None => raise (Exc "KeyError: id_token")
                    end
              end
        | _ => raise (Exc "object has no attribute 'get'")
        end
    end.

(** ** [logout] *)
Definition https_base (base_url : string) : string :=
  let base := rstrip_char "/" base_url in
  if starts_with "http://" base && negb (contains "localhost" base) then "https://" +:+ sdrop 7 base else base.
Definition logout (now : Z) (base_url : string) (cookies : list (string * string)) : SM login_state response :=
  cfg ← _get_oidc_config;
  let end_session := jget_or "end_session_endpoint" cfg (JStr "") in
  let url :=
    if truthy end_session then
      let session := match dget SESSION_COOKIE cookies with
        | Some c => if truthy_str c then default [] (_verify_session (oe_session_secret e) now c) else [] | None => [] end in
      let hint := jget "id_token" session in
      py_str end_session +:+ "?" +:+ urlencode ([("post_logout_redirect_uri", https_base base_url +:+ "/admin/"); ("client_id", oe_client_id e)] ++
        (if truthy hint then [("id_token_hint", py_str hint)] else []))
    else "/admin/" in
  mret (Response 302 url [] [SESSION_COOKIE]).
End login.
