(* ===== verification/LoginFacts.v ===== *)
(** * Facts about signing in
    Who gets a session, for how long, and the proof key (PKCE) that ties the
    exchange to the browser the redirection was sent to. *)
From S2P Require Import Prelude Text Json Effects Hashing Base64 Tokens AdminAuth PublicUrl AdminLogin.
From Stdlib Require Import Ascii String.
Open Scope Z_scope.

(** What the JWT library checks besides the signature: the audience, one or
    in a list, and the issuer when one is expected. *)
Definition audience_of (client : string) (claims : list (string * json)) : Prop :=
  match dget "aud" claims with
  | Some (JStr a) => a = client
  | Some (JArr l) => JStr client ∈ l
  | _ => False
  end.
Definition issued_by (iss : json) (claims : list (string * json)) : Prop := truthy iss = true → dget "iss" claims = Some iss.
Class Verifier (o : provider) : Prop := {
  verified_wf j t aud iss claims : o_verify o j t aud iss = Some claims → json_wf (JObj claims);
  verified_aud j t aud iss claims : o_verify o j t aud iss = Some claims → audience_of aud claims;
  verified_iss j t aud iss claims : o_verify o j t aud iss = Some claims → issued_by iss claims;
  exchanged_wf u b t : o_exchange o u b = Some t → json_wf t }.

(** ** Well-formed values *)
Lemma dget_json_wf k d v : json_wf (JObj d) → dget k d = Some v → json_wf v.
Proof.
  intros [_ H] E%dget_Some_elem. induction d as [|kv d IH]; [by apply elem_of_nil in E|].
  destruct H as [H1 H2]. apply elem_of_cons in E as [<-|E]; [done|by apply IH].
Qed.
Lemma jget_json_wf k d : json_wf (JObj d) → json_wf (jget k d).
Proof. intros H. unfold jget. destruct (dget k d) eqn:E; [exact (dget_json_wf _ _ _ H E)|done]. Qed.
Lemma login_session_wf now claims t : json_wf (JObj claims) → json_wf t → json_wf (JObj (login_session now claims t)).
Proof.
  intros Hc Ht. split; [apply (bool_decide_unpack _); reflexivity|].
  simpl. split_and!; try done; try by apply jget_json_wf. unfold jget_or.
  destruct (dget "name" claims) eqn:E; [exact (dget_json_wf _ _ _ Hc E)|by apply jget_json_wf].
Qed.

(** A cookie that the server signed admits its bearer while it lasts, whatever
    the rest of the configuration. *)
Lemma signed_admitted secret issuer dev cfg t d exp :
  json_wf (JObj d) → dget "exp" d = Some (JInt exp) → t ≤ exp →
  require_admin secret issuer dev cfg t (Some (_sign_session secret (JObj d))) = Admit d.
Proof.
  intros Hwf He Ht. pose proof (session_roundtrip secret t d exp Hwf He) as H. rewrite (proj2 (Z.ltb_ge _ _) Ht) in H.
  unfold require_admin. destruct (truthy_str _) eqn:E; [rewrite H; by destruct d|].
  apply truthy_str_false in E. by rewrite E in H.
Qed.
Lemma signed_expired secret issuer cfg t d exp :
  json_wf (JObj d) → dget "exp" d = Some (JInt exp) → exp < t →
  require_admin secret issuer false cfg t (Some (_sign_session secret (JObj d))) = if cfg : bool then RedirectToLogin else Unavailable.
Proof.
  intros Hwf He Ht. pose proof (session_roundtrip secret t d exp Hwf He) as H. rewrite (proj2 (Z.ltb_lt _ _) Ht) in H.
  unfold require_admin. rewrite H. by destruct (truthy_str _).
Qed.

(** ** Reading a form *)
Definition hex_value (c : ascii) : Z :=
  if is_digit c then code c - 48 else if 97 <=? code c then code c - 87 else code c - 55.
Fixpoint unquote_bytes (s : string) : string :=
  match s with
  | String "+" r => String " " (unquote_bytes r)
  | String "%" (String a (String b r)) => String (chr (16 * hex_value a + hex_value b)) (unquote_bytes r)
  | String c r => String c (unquote_bytes r)
  | "" => ""
  end.
Definition unquote_plus (s : string) : option string := utf8_decode (unquote_bytes s).
Definition read_field (s : string) : option (string * string) :=
  match split_once "=" s with
  | Some (k, v) => k' ← unquote_plus k; v' ← unquote_plus v; Some (k', v')
  | None => None
  end.
Definition read_form (s : string) : option (list (string * string)) := mapM read_field (split_on "&" s).

Lemma unquote_char c r : unquote_bytes (quote_char c +:+ r) = String c (unquote_bytes r).
Proof. destruct c as [[] [] [] [] [] [] [] []]; reflexivity. Qed.
Definition plain (c : ascii) : bool := negb (is_char "&" c) && negb (is_char "=" c).
Lemma quote_char_plain c : sforall plain (quote_char c) = true.
Proof. destruct c as [[] [] [] [] [] [] [] []]; vm_compute; reflexivity. Qed.
Lemma quote_plus_plain s : sforall plain (quote_plus s) = true.
Proof. unfold quote_plus. induction (utf8_encode s) as [|c t IH]; [done|]. simpl. by rewrite sforall_app, quote_char_plain, IH. Qed.
Lemma unquote_quote_plus s : unquote_plus (quote_plus s) = Some s.
Proof.
  unfold unquote_plus, quote_plus. rewrite <- (utf8_decode_encode s). f_equal.
  induction (utf8_encode s) as [|c t IH]; [done|]. simpl. by rewrite unquote_char, IH.
Qed.
Lemma plain_no_amp s : sforall plain s = true → sforall (λ a, negb (is_char "&" a)) s = true.
Proof. apply sforall_impl. by intros c [? ?]%andb_true_iff. Qed.
Lemma plain_no_eq s : sforall plain s = true → sforall (λ a, negb (is_char "=" a)) s = true.
Proof. apply sforall_impl. by intros c [? ?]%andb_true_iff. Qed.
Lemma read_field_quoted k v : read_field (quote_plus k +:+ "=" +:+ quote_plus v) = Some (k, v).
Proof.
  unfold read_field. change ("=" +:+ quote_plus v) with (String "=" (quote_plus v)).
  rewrite split_once_app by apply plain_no_eq, quote_plus_plain. by rewrite !unquote_quote_plus.
Qed.
Lemma field_no_amp k v : sforall (λ a, negb (is_char "&" a)) (quote_plus k +:+ "=" +:+ quote_plus v) = true.
Proof. by rewrite !sforall_app, !(plain_no_amp _ (quote_plus_plain _)). Qed.
(** A receiver reads exactly the parameters that were sent, whatever
    characters they hold. *)
Lemma read_urlencode l : l ≠ [] → read_form (urlencode l) = Some l.
Proof.
  unfold read_form, urlencode. induction l as [|[k v] l IH]; [done|intros _].
  destruct l as [|kv l].
  - simpl. rewrite split_on_none by apply field_no_amp. simpl. by rewrite read_field_quoted.
  - specialize (IH ltac:(done)).
    change (sjoin "&" _) with ((quote_plus k +:+ "=" +:+ quote_plus v) +:+ String "&" (sjoin "&" ((λ kv, quote_plus kv.1 +:+ "=" +:+ quote_plus kv.2) <$> kv :: l))).
    rewrite split_on_app by apply field_no_amp. cbn [mapM]. by rewrite read_field_quoted, IH.
Qed.

(** ** Discovery sends nothing *)
#[export] Instance config_quiet e o : Keeps ls_sent (_get_oidc_config e o).
Proof.
  unfold _get_oidc_config, publish_config, rewrite_endpoints, text_at, store.
  repeat first [apply keeps_bind; [|intros ?]|apply _|case_match].
Qed.
#[export] Instance endpoint_quiet e o : Keeps ls_sent (_get_token_endpoint e o).
Proof. unfold _get_token_endpoint. apply _. Qed.

(** The cache once it holds a document. *)
Lemma config_cached e o s : ls_config s ≠ [] → _get_oidc_config e o s = (Ok (ls_config s), s).
Proof. intros H. unfold _get_oidc_config. rewrite bind_gets. by destruct (ls_config s). Qed.
Lemma config_answer e o s cfg s' : _get_oidc_config e o s = (Ok cfg, s') → cfg ≠ [] → ls_config s' = cfg.
Proof.
  unfold _get_oidc_config. rewrite bind_gets. destruct (ls_config s) as [|kv c] eqn:Ec; [|intros [= <- <-]; by rewrite Ec].
  destruct (negb _); [intros [= <- <-]; done|].
  intros ([] & s1 & _ & (u & s2 & _ & [= <- <-])%bind_ok)%bind_ok _; done.
Qed.

(** ** The callback *)
Lemma exchange_run o url body s t s' :
  exchange o url body s = (Ok t, s') → o_exchange o url body = Some t ∧ s' = LoginState (ls_config s) (ls_sent s ++ [(url, body)]).
Proof. unfold exchange. rewrite bind_modify. destruct (o_exchange o url body); [|done]. by intros [= <- <-]. Qed.

(** C12. A session is granted only to the browser that holds the state of the
    redirection, for one exchange of its code, and for claims that the JWT
    library verified, meant for this client and issued by the configured
    provider, with the required group. The cookie it sets opens the
    administration, as that user, for one hour and not longer. *)
Theorem callback_sound e o `{!Verifier o} now csrf16 code state cookies s resp s' :
  oidc_callback e o now csrf16 code state cookies s = (Ok resp, s') →
  dget "dm_oidc_state" cookies = Some state ∧
  ∃ url redirect_uri claims presented id_token cookie,
    _admin_redirect_uri e = Ok redirect_uri ∧
    ls_sent s' = ls_sent s ++ [(url, urlencode (token_params e redirect_uri code (dget "dm_pkce_verifier" cookies)))] ∧
    (∃ jwks, o_verify o jwks presented (oe_client_id e) (jget "issuer" (ls_config s')) = Some claims) ∧
    audience_of (oe_client_id e) claims ∧ issued_by (jget "issuer" (ls_config s')) claims ∧
    _has_admin_group (oe_group e) (oe_client_id e) claims = Ok true ∧
    dget SESSION_COOKIE (rs_set resp) = Some cookie ∧
    ∀ t issuer cfg,
      (t ≤ now + SESSION_TTL → require_admin (oe_session_secret e) issuer false cfg t (Some cookie) = Admit (login_session now claims id_token)) ∧
      (now + SESSION_TTL < t → require_admin (oe_session_secret e) issuer false cfg t (Some cookie) = if cfg : bool then RedirectToLogin else Unavailable).
Proof.
  intros (redirect_uri & s0 & [Hr ->]%lift_ok & H)%bind_ok. destruct (negb _) eqn:Hs in H; [done|].
  apply negb_false_iff, bool_decide_eq_true in Hs. split; [done|].
  apply bind_ok in H as (cfg & s1 & Hc & H). destruct cfg as [|kv cfg]; [done|].
  pose proof (config_answer _ _ _ _ _ Hc ltac:(done)) as Hcfg.
  assert (Hq1 : ls_sent s1 = ls_sent s) by (pose proof (config_quiet e o s) as Hq; unfold Keeps in Hq; by rewrite Hc in Hq).
  apply bind_ok in H as (ep & s2 & He & H). unfold _get_token_endpoint in He.
  rewrite (bind_step _ _ _ _ _ (config_cached e o s1 ltac:(by rewrite Hcfg))) in He. injection He as <- <-.
  apply bind_ok in H as (tokens & s3 & [Hx ->]%exchange_run & H). destruct tokens as [| | | | |t]; try done.
  cbv zeta in H. destruct (negb (truthy _)) in H; [done|]. destruct (o_verify _ _ _ _ _) as [claims|] eqn:Hv; [|done].
  apply bind_ok in H as (ok & s4 & Hg & H). destruct (_has_admin_group _ _ _) as [ok'|] eqn:Hadm in Hg; [|done].
  injection Hg as <- <-. destruct ok'; [|done]. cbn [negb] in H. destruct (dget "id_token" t) as [id_token|] eqn:Hid; [|done].
  injection H as <- <-. pose proof (exchanged_wf _ _ _ Hx) as Ht.
  eexists _, _, claims, _, id_token, _. split_and!; [done|by rewrite <- Hq1|by rewrite Hcfg; eauto
    |exact (verified_aud _ _ _ _ _ Hv)|rewrite Hcfg; exact (verified_iss _ _ _ _ _ Hv)|done|reflexivity|].
  pose proof (login_session_wf now _ _ (verified_wf _ _ _ _ _ Hv) (dget_json_wf _ _ _ Ht Hid)) as Hwf.
  intros u issuer ok. split; intros Hu; [by eapply signed_admitted|by eapply signed_expired].
Qed.

(** ** The proof key *)
Lemma callback_sends e o now csrf16 code st cookies s x s' :
  oidc_callback e o now csrf16 code st cookies s = (x, s') →
  ls_sent s' = ls_sent s ∨
  dget "dm_oidc_state" cookies = Some st ∧ ∃ url redirect_uri, _admin_redirect_uri e = Ok redirect_uri ∧
    ls_sent s' = ls_sent s ++ [(url, urlencode (token_params e redirect_uri code (dget "dm_pkce_verifier" cookies)))].
Proof.
  unfold oidc_callback. unfold lift at 1, mbind at 1, SM_bind at 1. destruct (_admin_redirect_uri e) as [r|]; [|intros [= _ <-]; by left].
  case_bool_decide as Hs; [|intros [= _ <-]; by left]. cbn [negb].
  unfold mbind at 1, SM_bind at 1. pose proof (config_quiet e o s) as Hq. unfold Keeps in Hq.
  destruct (_get_oidc_config e o s) as [[cfg|] s1] eqn:Hc; cbn in Hq; [|intros [= _ <-]; by left].
  destruct cfg; [intros [= _ <-]; by left|].
  unfold mbind at 1, SM_bind at 1. pose proof (endpoint_quiet e o s1) as Hq2. unfold Keeps in Hq2.
  destruct (_get_token_endpoint e o s1) as [[ep|] s2] eqn:He; cbn in Hq2; [|intros [= _ <-]; left; congruence].
  intros H. right. split; [done|]. eexists (py_str ep), r. split; [done|]. rewrite <- Hq, <- Hq2.
  unfold mbind at 1, SM_bind at 1, exchange in H. rewrite bind_modify in H.
  destruct (o_exchange _ _ _) as [t|]; [|by injection H as _ <-]. 
  unfold mret at 1, SM_ret at 1 in H. cbv beta iota in H.
  match type of H with ?m ?s = _ => assert (Hk : Keeps ls_sent m) end.
  { repeat first [apply keeps_bind; [|intros ?]|apply _|case_match]. all: unfold of_exn; case_match; apply _. }
  unfold Keeps in Hk. specialize (Hk (LoginState (ls_config s2) (ls_sent s2 ++ [(py_str ep, urlencode (token_params e r code (dget "dm_pkce_verifier" cookies)))]))).
  rewrite H in Hk. exact Hk.
Qed.


Lemma verifier_some d : d ≠ "" → truthy_str (verifier_of d) = true.
Proof.
  intros Hd. apply truthy_str_true. intros H. unfold verifier_of in H. pose proof (b64url_roundtrip d) as Hr.
  rewrite H in Hr. vm_compute in Hr. congruence.
Qed.
(** A field of a form, as its receiver reads it. *)
Definition field (k body : string) : option string := read_form body ≫= dget k.
Lemma field_urlencode k l : l ≠ [] → field k (urlencode l) = dget k l.
Proof. intros H. unfold field. by rewrite read_urlencode. Qed.
Lemma token_field e r code v k u :
  dget k (token_params e r code v) = Some u → field k (urlencode (token_params e r code v)) = Some u.
Proof. intros H. by rewrite field_urlencode. Qed.
Lemma sent_verifier e r code v : truthy_str v = true → dget "code_verifier" (token_params e r code (Some v)) = Some v.
Proof. intros H. unfold token_params. rewrite H. by destruct (truthy_str (oe_client_secret e)). Qed.

(** C32. The callback that follows a redirection either sends nothing, or has the
    state of that redirection and sends one form in which the provider reads
    that code, the address announced, and the verifier whose hash was announced
    as the challenge, whatever characters these hold. *)
Theorem proof_key_bound e o drawn16 drawn32 s r s1 now csrf16 code st cookies s2 x s3 :
  drawn32 ≠ "" → login_redirect e o drawn16 drawn32 s = (Ok r, s1) →
  Forall (λ kv, dget kv.1 cookies = Some kv.2) (rs_set r) →
  oidc_callback e o now csrf16 code st cookies s2 = (x, s3) →
  ∃ endpoint asked redirect_uri state verifier,
    rs_location r = endpoint +:+ "?" +:+ asked ∧
    field "redirect_uri" asked = Some redirect_uri ∧ field "state" asked = Some state ∧
    field "code_challenge" asked = Some (b64url_encode (sha256 (utf8_encode verifier))) ∧
    (ls_sent s3 = ls_sent s2 ∨
     st = state ∧ ∃ url body, ls_sent s3 = ls_sent s2 ++ [(url, body)] ∧ field "code" body = Some code ∧
       field "redirect_uri" body = Some redirect_uri ∧ field "code_verifier" body = Some verifier).
Proof.
  intros Hd (uri & s0 & [Hr ->]%lift_ok & H)%bind_ok Hck Hcb. apply bind_ok in H as (cfg & s4 & _ & H).
  destruct cfg as [|kv cfg]; [done|]. destruct (dget "authorization_endpoint" _) as [ep|]; [|done]. injection H as <- <-.
  cbn [rs_set] in Hck. rewrite !Forall_cons in Hck. cbn [fst snd] in Hck. destruct Hck as (Hst & Hvf & _).
  eexists (py_str ep), _, uri, (state_of drawn16), (verifier_of drawn32).
  split; [reflexivity|]. rewrite !field_urlencode by done. split_and!; [done..|].
  destruct (callback_sends _ _ _ _ _ _ _ _ _ _ Hcb) as [?|(Hst' & url & uri' & Hr' & Hs)]; [by left|right].
  rewrite Hr in Hr'. injection Hr' as <-. split; [congruence|]. eexists url, _. split; [exact Hs|]. rewrite Hvf.
  split_and!; apply token_field; [done..|by apply sent_verifier, verifier_some].
Qed.

(** ** A sign-in *)
Module Demo.
Definition env : oidc_env := OidcEnv "" "http://proxy" "dm" "https://dm.example/bootstrap" "https://sso.example/realms/dm" "admin-dm-ui" "" "admin-dm" "secret".
Definition document : list (string * json) :=
  [("issuer", JStr "https://sso.example/realms/dm"); ("authorization_endpoint", JStr "https://sso.example/realms/dm/auth");
   ("token_endpoint", JStr "https://sso.example/realms/dm/token"); ("jwks_uri", JStr "https://sso.example/realms/dm/certs")].
Definition claims : list (string * json) :=
  [("iss", JStr "https://sso.example/realms/dm"); ("aud", JStr "admin-dm-ui"); ("sub", JStr "u1"); ("groups", JArr [JStr "admin-dm"])].
Definition sso : provider := Provider (λ _, Some document) (λ _ _, Some (JObj [("id_token", JStr "tok")]))
  (λ _ t aud iss, match t, iss with
     | JStr t', JStr i => if bool_decide (t' = "tok" ∧ aud = "admin-dm-ui" ∧ i = "https://sso.example/realms/dm") then Some claims else None
     | _, _ => None end).
#[export] Instance sso_verifier : Verifier sso.
Proof.
  split.
  1-3: intros j t aud iss c; simpl; destruct t as [| | |t| |]; try done; destruct iss as [| | |i| |]; try done;
       case_bool_decide as H; [destruct H as (-> & -> & ->)|done]; intros [= <-].
  - split; [apply (bool_decide_unpack _); reflexivity|by repeat split].
  - done.
  - done.
  - intros u b t [= <-]. split; [apply (bool_decide_unpack _); reflexivity|by repeat split].
Qed.
Definition fresh : login_state := LoginState [] [].
Definition drawn : string := "0123456789abcdef0123456789abcdef".
Definition cookies : list (string * string) := [("dm_oidc_state", state_of "0123456789abcdef"); ("dm_pkce_verifier", verifier_of drawn)].
Definition signed_in := oidc_callback env sso 1000 "0123456789abcdef" "c&d=1" (state_of "0123456789abcdef") cookies fresh.
Definition granted (x : result exc response * login_state) : response := match x.1 with Ok r => r | Err _ => Response 0 "" [] [] end.
Lemma signed_in_run :
  oidc_callback env sso 1000 "0123456789abcdef" "c&d=1" (state_of "0123456789abcdef") cookies fresh = (Ok (granted signed_in), signed_in.2).
Proof. vm_compute. reflexivity. Qed.
Lemma callback_sound_witness :
  ∃ cl tok cookie, _has_admin_group "admin-dm" "admin-dm-ui" cl = Ok true ∧ dget SESSION_COOKIE (rs_set (granted signed_in)) = Some cookie ∧
    require_admin "secret" "https://sso.example/realms/dm" false true 4600 (Some cookie) = Admit (login_session 1000 cl tok).
Proof.
  destruct (callback_sound env sso 1000 "0123456789abcdef" "c&d=1" (state_of "0123456789abcdef") cookies fresh (granted signed_in) signed_in.2 signed_in_run)
    as (_ & url & uri & cl & pres & tok & cookie & _ & _ & _ & _ & _ & Hg & Hc & Ha).
  exists cl, tok, cookie. split; [exact Hg|]. split; [exact Hc|].
  apply (Ha 4600 "https://sso.example/realms/dm" true). done.
Defined.
Definition redirected := login_redirect env sso "0123456789abcdef" drawn fresh.
Lemma redirected_run : login_redirect env sso "0123456789abcdef" drawn fresh = (Ok (granted redirected), redirected.2).
Proof. vm_compute. reflexivity. Qed.
Lemma proof_key_bound_witness :
  ∃ endpoint asked redirect_uri state verifier,
    rs_location (granted redirected) = endpoint +:+ "?" +:+ asked ∧
    field "redirect_uri" asked = Some redirect_uri ∧ field "state" asked = Some state ∧
    field "code_challenge" asked = Some (b64url_encode (sha256 (utf8_encode verifier))) ∧
    (ls_sent signed_in.2 = [] ∨
     state_of "0123456789abcdef" = state ∧ ∃ url body, ls_sent signed_in.2 = [] ++ [(url, body)] ∧ field "code" body = Some "c&d=1" ∧
       field "redirect_uri" body = Some redirect_uri ∧ field "code_verifier" body = Some verifier).
Proof.
  eapply (proof_key_bound env sso "0123456789abcdef" drawn fresh (granted redirected) redirected.2 1000 "0123456789abcdef" "c&d=1" (state_of "0123456789abcdef") cookies fresh (Ok (granted signed_in)) signed_in.2);
    [done|exact redirected_run| |exact signed_in_run].
  apply (bool_decide_unpack _). vm_compute. reflexivity.
Defined.

(** The document is in the cache before its addresses are rewritten, outside
    the lock: a thread that comes in between exchanges its code at the public
    address, which the server cannot reach. *)
Example discovery_race :
  let published := (publish_config env sso fresh).2 in
  (_get_token_endpoint env sso published).1 = Ok (JStr "https://sso.example/realms/dm/token") ∧
  (_get_token_endpoint env sso (rewrite_endpoints env published).2).1 = Ok (JStr "http://proxy/realms/dm/token") ∧
  (_get_token_endpoint env sso fresh).1 = Ok (JStr "http://proxy/realms/dm/token").
Proof. vm_compute. done. Qed.
(** Another state is refused, and nothing is sent. *)
Example other_state_refused : oidc_callback env sso 1000 "" "code" "other" cookies fresh = (Err (Http (HttpError 400 "Invalid state")), fresh).
Proof. vm_compute. reflexivity. Qed.
End Demo.
