(* ===== verification/Traffic.v ===== *)
(** * LLM traffic counters
    [app/llm/traffic.py]: the accumulator of each process, its flush into the
    table [llm_traffic] that the replicas share, and the retention; of
    [app/admin/services/llm_traffic.py] the series of the dashboard. The flush
    is a sequence of steps, between which requests are recorded, and its
    connection commits each statement. Durations and instants are in
    microseconds, buckets in seconds. *)
From S2P Require Import Prelude Text Json RuntimeConfig.
From stdpp Require Import sorting.
From Stdlib Require Import Ascii String.
Open Scope Z_scope.

Definition MICRO : Z := 1000000.
Definition BUCKET_SECONDS : Z := 300.
Definition MAX_PENDING_KEYS : nat := 1000.
Definition PURGE_AFTER_DAYS : Z := 90.
Definition _PURGE_EVERY_SECONDS : Z := 6 * 3600.

(** [(bucket, route, model, status_class)] *)
Record key : Type := Key { k_bucket : Z; k_route : string; k_model : string; k_class : string }.
#[export] Instance key_eq_dec : EqDecision key.
Proof. solve_decision. Defined.
#[export] Instance key_countable : Countable key.
Proof.
  exact (inj_countable' (λ k, (k_bucket k, k_route k, k_model k, k_class k)) (λ t, Key t.1.1.1 t.1.1.2 t.1.2 t.2) (λ '(Key _ _ _ _), eq_refl)).
Defined.
(** The order of tuples. *)
Definition key_ltb (a b : key) : bool :=
  if negb (k_bucket a =? k_bucket b) then k_bucket a <? k_bucket b
  else if negb (bool_decide (k_route a = k_route b)) then str_ltb (k_route a) (k_route b)
  else if negb (bool_decide (k_model a = k_model b)) then str_ltb (k_model a) (k_model b)
  else str_ltb (k_class a) (k_class b).

(** [[count, duration_ms_sum, duration_ms_max, tokens_sum]] *)
Record row : Type := Row { r_count : Z; r_sum : Z; r_max : Z; r_tokens : Z }.
Definition merge (a b : row) : row := Row (r_count a + r_count b) (r_sum a + r_sum b) (Z.max (r_max a) (r_max b)) (r_tokens a + r_tokens b).

(** ** The accumulator, a dictionary in insertion order *)
Definition accumulator : Type := list (key * row).
Fixpoint lookup_row (k : key) (acc : accumulator) : option row :=
  match acc with [] => None | (k', v) :: r => if decide (k' = k) then Some v else lookup_row k r end.
Fixpoint add_to (k : key) (v : row) (acc : accumulator) : accumulator :=
  match acc with [] => [] | (k', w) :: r => if decide (k' = k) then (k', merge w v) :: r else (k', w) :: add_to k v r end.
(** [min(_acc)] *)
Fixpoint oldest (best : key) (acc : accumulator) : key :=
  match acc with [] => best | (k, _) :: r => oldest (if key_ltb k best then k else best) r end.
Fixpoint pop (k : key) (acc : accumulator) : accumulator :=
  match acc with [] => [] | (k', w) :: r => if decide (k' = k) then r else (k', w) :: pop k r end.

(** ** [record] *)
Definition _status_class (status : Z) : string := py_str_int (status / 100) +:+ "xx".
Definition route_name (route : string) : string :=
  if bool_decide (route = "chat/completions") then "chat" else if truthy_str route then route else "?".
Definition tokens_of (usage : option json) : Z :=
  match usage with
  | Some (JObj u) => match py_int_json (jor (jget "total_tokens" u) (JInt 0)) with Ok n => n | Err _ => 0 end
  | _ => 0
  end.
Definition entry (now : Z) (route model : string) (status duration : Z) (usage : option json) : key * row :=
  let dur_ms := Z.max 0 (Z.quot duration 1000) in
  (Key (now / (BUCKET_SECONDS * MICRO) * BUCKET_SECONDS) (route_name route) (stake 200 model) (_status_class status),
   Row 1 dur_ms dur_ms (tokens_of usage)).
(** Under the lock: the accumulator, and the row that it gives up. *)
Definition put (k : key) (v : row) (acc : accumulator) : accumulator * list (key * row) :=
  match lookup_row k acc with
  | Some _ => (add_to k v acc, [])
  | None =>
      match acc with
      | (k0, _) :: r =>
          if (MAX_PENDING_KEYS <=? List.length acc)%nat then
            let o := oldest k0 r in
            (pop o acc ++ [(k, v)], match lookup_row o acc with Some w => [(o, w)] | None => [] end)
          else (acc ++ [(k, v)], [])
      | [] => ([(k, v)], [])
      end
  end.

(** ** The table *)
Definition int4 (z : Z) : bool := (-2147483648 <=? z) && (z <=? 2147483647).
Definition int8 (z : Z) : bool := (-9223372036854775808 <=? z) && (z <=? 9223372036854775807).
(** A value that the columns hold. *)
Definition row_fits (v : row) : bool := int4 (r_count v) && int8 (r_sum v) && int4 (r_max v) && int8 (r_tokens v).
Definition text_fits (width : nat) (s : string) : bool := (String.length s <=? width)%nat && sforall (λ c, negb (code c =? 0)) s.
Definition key_fits (k : key) : bool := text_fits 30 (k_route k) && text_fits 200 (k_model k) && text_fits 5 (k_class k).
(** [INSERT ... ON CONFLICT DO UPDATE]: [None] when the statement fails. *)
Definition upsert (k : key) (v : row) (t : gmap key row) : option (gmap key row) :=
  let w := match t !! k with Some old => merge old v | None => v end in
  if key_fits k && row_fits v && row_fits w then Some (<[k := w]> t) else None.
Definition expired (now : Z) (k : key) : bool := k_bucket k * MICRO <? now - PURGE_AFTER_DAYS * 86400 * MICRO.
(** The purge of a process whose last one was at [last]: the table and the time
    of the last purge. *)
Definition _maybe_purge (now last : Z) (reached : bool) (t : gmap key row) : gmap key row * Z :=
  if now - last <? _PURGE_EVERY_SECONDS * MICRO then (t, last)
  else (if reached then filter (λ kv : key * row, expired now kv.1 = false) t else t, now).

(** ** [flush_now] *)
(** The loop over [pending] when the connection serves [reach] statements: the
    rows written, the rest, and the table. *)
Fixpoint write_rows (reach : nat) (pending : accumulator) (t : gmap key row) : accumulator * accumulator * gmap key row :=
  match pending, reach with
  | [], _ => ([], [], t)
  | _, O => ([], pending, t)
  | (k, v) :: r, S reach =>
      match upsert k v t with
      | Some t => let '(written, rest, t) := write_rows reach r t in ((k, v) :: written, rest, t)
      | None => ([], pending, t)
      end
  end.
(** The exception handler: [None] instead of a row that finds no place. *)
Definition merge_one (acc : accumulator) (kv : key * row) : accumulator :=
  match lookup_row kv.1 acc with
  | Some _ => add_to kv.1 kv.2 acc
  | None => if (List.length acc <? MAX_PENDING_KEYS)%nat then acc ++ [kv] else acc
  end.
Definition merge_back (pending acc : accumulator) : accumulator := foldl merge_one acc pending.
Record process : Type := Process { p_acc : accumulator; p_last_purge : Z }.
(** Without requests in between: the number returned. *)
Definition flush_now (now : Z) (reach : nat) (p : process) (t : gmap key row) : nat * process * gmap key row :=
  match p_acc p with
  | [] => (0%nat, p, t)
  | pending =>
      match write_rows reach pending t with
      | (_, [], t) =>
          let '(t, last) := _maybe_purge now (p_last_purge p) (List.length pending <? reach)%nat t in
          (List.length pending, Process [] last, t)
      | (_, _ :: _, t) => (0%nat, Process (merge_back pending []) (p_last_purge p), t)
      end
  end.

(** ** The replicas *)
(** A process with the flush under way, its rows written and the rest. *)
Record pod : Type := Pod { d_acc : accumulator; d_flight : option (accumulator * accumulator); d_last : Z }.
Record fleet : Type := Fleet { f_table : gmap key row; f_pods : list pod }.
Inductive action : Type :=
| Record_request (i : nat) (now : Z) (route model : string) (status duration : Z) (usage : option json)
| Take (i : nat)
| Write (i : nat)
| Finish (i : nat) (now : Z) (reached : bool)
| Break (i : nat).
(** What an action adds to the account: the rows recorded, those given up, and
    those counted a second time. *)
Record tally : Type := Tally { y_recorded : list (key * row); y_lost : list (key * row); y_again : list (key * row) }.
Definition nothing : tally := Tally [] [] [].
Definition set_pod (i : nat) (d : pod) (f : fleet) : fleet := Fleet (f_table f) (<[i := d]> (f_pods f)).
Definition set_table (t : gmap key row) (f : fleet) : fleet := Fleet t (f_pods f).
(** The rows that [merge_back] has no place for. *)
Fixpoint refused (pending acc : accumulator) : list (key * row) :=
  match pending with
  | [] => []
  | kv :: r =>
      (match lookup_row kv.1 acc with Some _ => [] | None => if (List.length acc <? MAX_PENDING_KEYS)%nat then [] else [kv] end)
      ++ refused r (merge_one acc kv)
  end.
Definition act (a : action) (f : fleet) : fleet * tally :=
  match a with
  | Record_request i now route model status duration usage =>
      match f_pods f !! i with
      | Some d =>
          let kv := entry now route model status duration usage in
          let '(acc, gone) := put kv.1 kv.2 (d_acc d) in
          (set_pod i (Pod acc (d_flight d) (d_last d)) f, Tally [kv] gone [])
      | None => (f, nothing)
      end
  | Take i =>
      match f_pods f !! i with
      | Some (Pod (kv :: r) None last) => (set_pod i (Pod [] (Some ([], kv :: r)) last) f, nothing)
      | _ => (f, nothing)
      end
  | Write i =>
      match f_pods f !! i with
      | Some (Pod acc (Some (written, kv :: rest)) last) =>
          match upsert kv.1 kv.2 (f_table f) with
          | Some t => (set_pod i (Pod acc (Some (written ++ [kv], rest)) last) (set_table t f), nothing)
          | None => (f, nothing)
          end
      | _ => (f, nothing)
      end
  | Finish i now reached =>
      match f_pods f !! i with
      | Some (Pod acc (Some (written, [])) last) =>
          let '(t, last) := _maybe_purge now last reached (f_table f) in
          (set_pod i (Pod acc None last) (set_table t f), Tally [] (map_to_list (f_table f ∖ t)) [])
      | _ => (f, nothing)
      end
  | Break i =>
      match f_pods f !! i with
      | Some (Pod acc (Some (written, rest)) last) =>
          (set_pod i (Pod (merge_back (written ++ rest) acc) None last) f, Tally [] (refused (written ++ rest) acc) written)
      | _ => (f, nothing)
      end
  end.
Definition join (a b : tally) : tally := Tally (y_recorded a ++ y_recorded b) (y_lost a ++ y_lost b) (y_again a ++ y_again b).
Fixpoint acts (l : list action) (f : fleet) : fleet * tally :=
  match l with
  | [] => (f, nothing)
  | a :: r => let '(f, y) := act a f in let '(f, y') := acts r f in (f, join y y')
  end.
Definition started (n : nat) : fleet := Fleet ∅ (replicate n (Pod [] None 0)).

(** ** Accounting *)
(** A column that adds up. *)
Class Additive (m : row → Z) : Prop := additive a b : m (merge a b) = m a + m b.
#[export] Instance count_additive : Additive r_count.
Proof. done. Qed.
#[export] Instance sum_additive : Additive r_sum.
Proof. done. Qed.
#[export] Instance tokens_additive : Additive r_tokens.
Proof. done. Qed.

Section account.
Context (m : row → Z) `{!Additive m} (k : key).

(** What a list of rows holds under the key, and what the table does. *)
Fixpoint total (l : list (key * row)) : Z :=
  match l with [] => 0 | kv :: r => (if decide (kv.1 = k) then m kv.2 else 0) + total r end.
Definition amount (t : gmap key row) : Z := match t !! k with Some v => m v | None => 0 end.

Lemma total_app l l' : total (l ++ l') = total l + total l'.
Proof. induction l as [|kv l IH]; [done|]. cbn [total app]. lia. Qed.
#[local] Instance total_proper : Proper ((≡ₚ) ==> (=)) total.
Proof. intros l l'. induction 1; cbn [total]; lia. Qed.

Lemma total_add_to k' v w acc : lookup_row k' acc = Some w → total (add_to k' v acc) = total acc + total [(k', v)].
Proof.
  induction acc as [|[k1 u] acc IH]; [done|]. simpl. destruct (decide (k1 = k')) as [->|]; intros H.
  - simpl. case_decide; [rewrite additive|]; lia.
  - simpl. rewrite (IH H). simpl. lia.
Qed.
Lemma total_pop o acc : total acc = total (pop o acc) + total (match lookup_row o acc with Some w => [(o, w)] | None => [] end).
Proof.
  induction acc as [|[k1 u] acc IH]; [done|]. simpl. destruct (decide (k1 = o)) as [->|]; simpl; lia.
Qed.
Lemma total_put k' v acc : total (put k' v acc).1 + total (put k' v acc).2 = total acc + total [(k', v)].
Proof.
  unfold put. destruct (lookup_row k' acc) as [w|] eqn:E; [cbn [fst snd]; rewrite (total_add_to k' v w acc E); cbn [total]; lia|].
  destruct acc as [|[k0 u] r]; [cbn [fst snd total]; lia|].
  destruct (_ <=? _)%nat; cbn [fst snd]; rewrite total_app; [|cbn [total]; lia].
  pose proof (total_pop (oldest k0 r) ((k0, u) :: r)). lia.
Qed.
Lemma total_merge_back p acc : total (merge_back p acc) + total (refused p acc) = total acc + total p.
Proof.
  revert acc. induction p as [|[k1 v] p IH]; intros acc; [cbn; lia|].
  unfold merge_back. cbn [foldl refused]. rewrite total_app. specialize (IH (merge_one acc (k1, v))). unfold merge_back in IH.
  enough (total (merge_one acc (k1, v)) + total (match lookup_row k1 acc with Some _ => [] | None => if (List.length acc <? MAX_PENDING_KEYS)%nat then [] else [(k1, v)] end)
    = total acc + total [(k1, v)]) by (cbn [total fst snd] in *; lia).
  unfold merge_one. cbn [fst snd]. destruct (lookup_row k1 acc) as [w|] eqn:E; [rewrite (total_add_to k1 v w acc E); cbn [total]; lia|].
  destruct (_ <? _)%nat; [rewrite total_app; cbn [total]; lia|done].
Qed.

Lemma amount_upsert k' v t t' : upsert k' v t = Some t' → amount t' = amount t + total [(k', v)].
Proof.
  unfold upsert, amount. destruct (_ && _ && _); [|done]. intros [= <-]. cbn [total fst snd]. destruct (decide (k' = k)) as [->|Hk].
  - rewrite lookup_insert_eq. destruct (t !! k) as [old|]; [rewrite additive|]; lia.
  - rewrite lookup_insert_ne by done. lia.
Qed.
Lemma total_map_to_list t : total (map_to_list t) = amount t.
Proof.
  unfold amount. induction t as [|k' v t Hk IH] using map_ind; [by rewrite map_to_list_empty, lookup_empty|].
  rewrite map_to_list_insert by done. cbn [total fst snd]. rewrite IH. destruct (decide (k' = k)) as [->|].
  - rewrite lookup_insert_eq, Hk. lia.
  - rewrite lookup_insert_ne by done. lia.
Qed.
Lemma amount_purge now last reached t : amount t = amount (_maybe_purge now last reached t).1 + total (map_to_list (t ∖ (_maybe_purge now last reached t).1)).
Proof.
  rewrite total_map_to_list. unfold _maybe_purge, amount.
  assert (E : ∀ t', (t' = t ∨ t' = filter (λ kv : key * row, expired now kv.1 = false) t) →
    match t !! k with Some v => m v | None => 0 end = match t' !! k with Some v => m v | None => 0 end + match (t ∖ t') !! k with Some v => m v | None => 0 end).
  { intros t' [->| ->]; rewrite lookup_difference.
    - destruct (t !! k); lia.
    - rewrite map_lookup_filter. destruct (t !! k) as [v|]; simpl; [|lia]. case_guard; simpl; lia. }
  destruct (_ <? _); [apply E; by left|]. destruct reached; apply E; [by right|by left].
Qed.
End account.

(** ** The replicas account for every request *)
Section fleet_account.
Context (m : row → Z) `{!Additive m} (k : key).
(** Waiting in a process, in its accumulator or in the part of its flush that
    is not written. *)
Definition waiting (d : pod) : Z := total m k (d_acc d) + match d_flight d with Some (_, rest) => total m k rest | None => 0 end.
Definition held (f : fleet) : Z := amount m k (f_table f) + zsum waiting (f_pods f).

Lemma held_set_pod i d d' f : f_pods f !! i = Some d → held (set_pod i d' f) = held f - waiting d + waiting d'.
Proof. intros H. unfold held. cbn. rewrite (zsum_insert _ _ _ _ _ H). lia. Qed.
Lemma held_set_table t f : held (set_table t f) = held f - amount m k (f_table f) + amount m k t.
Proof. unfold held. cbn. lia. Qed.

Lemma act_account a f :
  held (act a f).1 + total m k (y_lost (act a f).2) = held f + total m k (y_recorded (act a f).2) + total m k (y_again (act a f).2).
Proof.
  destruct a as [i now route model status dur usage|i|i|i now reached|i]; cbn [act];
    destruct (f_pods f !! i) as [[acc [[written rest]|] last]|] eqn:Ed; try (cbn; lia).
  - pose proof (total_put m k (entry now route model status dur usage).1 (entry now route model status dur usage).2 acc) as Hp.
    destruct (put _ _ _) as [acc' gone]. cbn in *. rewrite (held_set_pod _ _ _ _ Ed). unfold waiting. cbn. lia.
  - pose proof (total_put m k (entry now route model status dur usage).1 (entry now route model status dur usage).2 acc) as Hp.
    destruct (put _ _ _) as [acc' gone]. cbn in *. rewrite (held_set_pod _ _ _ _ Ed). unfold waiting. cbn. lia.
  - destruct acc; cbn; lia.
  - destruct acc; [cbn; lia|]. cbn [fst snd]. rewrite (held_set_pod _ _ _ _ Ed). unfold waiting. cbn. lia.
  - destruct rest as [|kv rest]; [cbn; lia|]. destruct (upsert _ _ _) as [t|] eqn:Eu; [|cbn; lia]. cbn [fst snd].
    rewrite (held_set_pod i (Pod acc (Some (written, kv :: rest)) last)) by done. rewrite held_set_table, (amount_upsert m k _ _ _ _ Eu).
    unfold waiting. cbn. lia.
  - destruct rest; [|cbn; lia]. pose proof (amount_purge m k now last reached (f_table f)) as Ha.
    destruct (_maybe_purge _ _ _ _) as [t last']. cbn [fst snd y_lost y_recorded y_again] in *.
    rewrite (held_set_pod i (Pod acc (Some (written, [])) last)) by done. rewrite held_set_table. unfold waiting. cbn. lia.
  - pose proof (total_merge_back m k (written ++ rest) acc) as Hm. rewrite (total_app m k written rest) in Hm. cbn [fst snd y_lost y_recorded y_again].
    rewrite (held_set_pod _ _ _ _ Ed). unfold waiting. cbn [d_acc d_flight]. cbn [total]. lia.
Qed.
Lemma acts_account l f :
  held (acts l f).1 + total m k (y_lost (acts l f).2) = held f + total m k (y_recorded (acts l f).2) + total m k (y_again (acts l f).2).
Proof.
  revert f. induction l as [|a l IH]; intros f; [cbn; lia|]. cbn [acts]. pose proof (act_account a f) as Ha. destruct (act a f) as [f1 y].
  specialize (IH f1). destruct (acts l f1) as [f2 y']. cbn [fst snd join y_lost y_recorded y_again] in *. rewrite !total_app. lia.
Qed.
Lemma held_started n : held (started n) = 0.
Proof. unfold held, started, amount. cbn. rewrite lookup_empty. induction n as [|n IH]; [done|]. exact IH. Qed.
End fleet_account.

(** ** Bounded memory *)
Lemma oldest_in b acc : oldest b acc = b ∨ oldest b acc ∈ acc.*1.
Proof.
  revert b. induction acc as [|[k v] acc IH]; intros b; [by left|]. cbn [oldest fmap list_fmap fst].
  destruct (IH (if key_ltb k b then k else b)) as [->|H]; [destruct (key_ltb k b); set_solver|set_solver].
Qed.
Lemma pop_length k acc : k ∈ acc.*1 → S (List.length (pop k acc)) = List.length acc.
Proof.
  induction acc as [|[k' v] acc IH]; [by intros ?%elem_of_nil|]. cbn [fmap list_fmap fst pop]. intros H. case_decide; [done|].
  cbn [List.length]. rewrite IH; [done|]. set_solver.
Qed.
Lemma add_to_length k v acc : List.length (add_to k v acc) = List.length acc.
Proof. induction acc as [|[k' w] acc IH]; [done|]. simpl. case_decide; simpl; [done|by rewrite IH]. Qed.
Lemma put_bound k v acc : (List.length acc ≤ MAX_PENDING_KEYS)%nat → (List.length (put k v acc).1 ≤ MAX_PENDING_KEYS)%nat.
Proof.
  intros H. unfold put. destruct (lookup_row k acc); [cbn [fst]; by rewrite add_to_length|]. destruct acc as [|[k0 w] r]; [unfold MAX_PENDING_KEYS; simpl; lia|].
  destruct (Nat.leb_spec MAX_PENDING_KEYS (List.length ((k0, w) :: r))); cbn [fst]; rewrite length_app; cbn [List.length]; [|cbn [List.length] in *; lia].
  pose proof (pop_length (oldest k0 r) ((k0, w) :: r)) as Hp. cbn [fmap list_fmap fst List.length] in *.
  rewrite <- Hp in H; [lia|]. destruct (oldest_in k0 r) as [->|]; set_solver.
Qed.
Lemma merge_back_bound p acc : (List.length acc ≤ MAX_PENDING_KEYS)%nat → (List.length (merge_back p acc) ≤ MAX_PENDING_KEYS)%nat.
Proof.
  revert acc. unfold merge_back. induction p as [|kv p IH]; intros acc H; [done|]. apply IH. unfold merge_one.
  destruct (lookup_row _ _); [by rewrite add_to_length|]. destruct (Nat.ltb_spec (List.length acc) MAX_PENDING_KEYS); [|done].
  rewrite length_app. simpl. lia.
Qed.
Definition bounded (f : fleet) : Prop := Forall (λ d, (List.length (d_acc d) ≤ MAX_PENDING_KEYS)%nat) (f_pods f).
Lemma act_bounded a f : bounded f → bounded (act a f).1.
Proof.
  intros H. destruct a as [i now route model status dur usage|i|i|i now reached|i]; cbn [act];
    destruct (f_pods f !! i) as [d|] eqn:Ed; try exact H; pose proof (Forall_lookup_1 _ _ _ _ H Ed) as Hd.
  - pose proof (put_bound (entry now route model status dur usage).1 (entry now route model status dur usage).2 _ Hd) as Hp.
    destruct (put _ _ _). by apply Forall_insert.
  - destruct d as [[|kv r] [|] last]; try exact H. apply Forall_insert; [exact H|]. cbn. unfold MAX_PENDING_KEYS. lia.
  - destruct d as [acc [[written [|kv rest]]|] last]; try exact H. destruct (upsert _ _ _); [|exact H]. by apply Forall_insert.
  - destruct d as [acc [[written [|kv rest]]|] last]; try exact H. destruct (_maybe_purge _ _ _ _). by apply Forall_insert.
  - destruct d as [acc [[written rest]|] last]; try exact H. apply Forall_insert; [exact H|]. by apply merge_back_bound.
Qed.
Lemma acts_bounded l f : bounded f → bounded (acts l f).1.
Proof.
  revert f. induction l as [|a l IH]; intros f H; [exact H|]. cbn [acts]. pose proof (act_bounded a f H) as Ha. destruct (act a f) as [f1 y].
  specialize (IH f1 Ha). by destruct (acts l f1).
Qed.

Definition breaks (a : action) : bool := match a with Break _ => true | _ => false end.
Lemma act_again a f : breaks a = false → y_again (act a f).2 = [].
Proof. destruct a; cbn [act breaks]; intros H; try done; repeat case_match; done. Qed.
Lemma acts_again l f : Forall (λ a, breaks a = false) l → y_again (acts l f).2 = [].
Proof.
  revert f. induction l as [|a l IH]; intros f H; [done|]. apply Forall_cons in H as [Ha Hl]. cbn [acts].
  pose proof (act_again a f Ha) as H1. destruct (act a f) as [f1 y]. pose proof (IH f1 Hl) as H2. destruct (acts l f1). cbn in *. by rewrite H1, H2.
Qed.

(** C20. In every run of any number of replicas, whatever the interleaving of
    requests, statements and failed flushes, the counts in the table, those
    that wait in the processes and those given up (dropped for want of room, or
    purged) add up to the requests recorded and to what failed flushes counted
    again; without a failed flush nothing is counted again. The same holds of
    durations and tokens, and no accumulator has more than the 1000 keys allowed. *)
Theorem traffic_accounted n l m `{!Additive m} k :
  let '(f, y) := acts l (started n) in
  amount m k (f_table f) + zsum (waiting m k) (f_pods f) + total m k (y_lost y) = total m k (y_recorded y) + total m k (y_again y) ∧
  (Forall (λ a, breaks a = false) l → y_again y = []) ∧
  Forall (λ d, (List.length (d_acc d) ≤ MAX_PENDING_KEYS)%nat) (f_pods f).
Proof.
  pose proof (acts_account m k l (started n)) as Ha. rewrite held_started in Ha. pose proof (acts_again l (started n)) as Hg.
  assert (Hb : bounded (acts l (started n)).1).
  { apply acts_bounded, Forall_replicate. cbn. unfold MAX_PENDING_KEYS. lia. }
  destruct (acts l (started n)) as [f y]. unfold held in Ha. cbn [fst snd] in *. split_and!; [lia|exact Hg|exact Hb].
Qed.

(** ** A flush is a sequence of steps *)
Lemma acts_app l l' f : (acts (l ++ l') f).1 = (acts l' (acts l f).1).1.
Proof.
  revert f. induction l as [|a l IH]; intros f; [done|]. cbn [acts app]. destruct (act a f) as [f1 y]. specialize (IH f1).
  destruct (acts (l ++ l') f1), (acts l f1). exact IH.
Qed.
Lemma set_pod_twice i d d' f t : set_pod i d' (set_table t (set_pod i d f)) = set_pod i d' (set_table t f).
Proof. unfold set_pod, set_table. cbn. by rewrite list_insert_insert_eq. Qed.
Lemma set_pod_same i d f : f_pods f !! i = Some d → set_pod i d (set_table (f_table f) f) = f.
Proof. intros H. unfold set_pod, set_table. destruct f as [t pods]. cbn in *. by rewrite list_insert_id. Qed.
Lemma lookup_set_pod i d d' f : f_pods f !! i = Some d → f_pods (set_pod i d' f) !! i = Some d'.
Proof. intros H. cbn. apply list_lookup_insert_eq. by eapply lookup_lt_Some. Qed.

Lemma write_steps reach pending pre t acc last i f w rest t' :
  write_rows reach pending t = (w, rest, t') → f_table f = t → f_pods f !! i = Some (Pod acc (Some (pre, pending)) last) →
  (acts (replicate (List.length w) (Write i)) f).1 = set_pod i (Pod acc (Some (pre ++ w, rest)) last) (set_table t' f).
Proof.
  revert reach pre t f w. induction pending as [|[k v] r IH]; intros reach pre t f w H <- Hd.
  - destruct reach; injection H as <- <- <-; rewrite app_nil_r; cbn; by rewrite set_pod_same.
  - destruct reach as [|reach]; cbn [write_rows] in H; [injection H as <- <- <-; rewrite app_nil_r; cbn; by rewrite set_pod_same|].
    destruct (upsert k v (f_table f)) as [t1|] eqn:Eu; [|injection H as <- <- <-; rewrite app_nil_r; cbn; by rewrite set_pod_same].
    destruct (write_rows reach r t1) as [[w1 rest1] t2] eqn:Ew. injection H as <- <- <-. cbn [List.length replicate acts act].
    rewrite Hd. cbn [fst snd]. rewrite Eu. set (f1 := set_pod i _ _).
    pose proof (IH reach (pre ++ [(k, v)]) t1 f1 w1 Ew eq_refl (lookup_set_pod _ _ _ _ Hd)) as Hs.
    destruct (acts (replicate (List.length w1) (Write i)) f1) as [f2 y]. cbn [fst] in *. rewrite Hs. subst f1.
    rewrite set_pod_twice. by rewrite <- app_assoc.
Qed.
Lemma write_rows_all reach pending t : let '(w, rest, _) := write_rows reach pending t in w ++ rest = pending.
Proof.
  revert reach t. induction pending as [|[k v] r IH]; intros [|reach] t; cbn; try done.
  destruct (upsert k v t) as [t1|]; [|done]. specialize (IH reach t1). destruct (write_rows reach r t1) as [[w rest] t2]. by subst r.
Qed.

Lemma lookup_row_none k acc : k ∉ acc.*1 → lookup_row k acc = None.
Proof. induction acc as [|[k' v] acc IH]; [done|]. cbn. intros H. rewrite decide_False by set_solver. apply IH. set_solver. Qed.
Lemma merge_back_app p acc : NoDup (acc ++ p).*1 → (List.length (acc ++ p) ≤ MAX_PENDING_KEYS)%nat → merge_back p acc = acc ++ p.
Proof.
  revert acc. unfold merge_back. induction p as [|[k v] p IH]; intros acc Hn Hl; [by rewrite app_nil_r|]. cbn [foldl].
  assert (E : merge_one acc (k, v) = acc ++ [(k, v)]).
  { unfold merge_one. cbn [fst snd]. rewrite lookup_row_none.
    - rewrite (proj2 (Nat.ltb_lt _ _)); [done|]. rewrite length_app in Hl. cbn [List.length] in Hl. lia.
    - rewrite fmap_app, NoDup_app in Hn. intros Hk. apply (proj1 (proj2 Hn) k Hk). set_solver. }
  rewrite E, IH; rewrite <- app_assoc; done.
Qed.

(** A flush that no request interrupts is the sequence of its steps: it
    takes the accumulator, writes rows, and either finishes with the accumulator
    empty and every row counted in its answer, or breaks, answers zero and puts
    back exactly the accumulator it took, rows already written included. *)
Theorem flush_is_steps i f acc last now reach :
  f_pods f !! i = Some (Pod acc None last) → acc ≠ [] → NoDup acc.*1 → (List.length acc ≤ MAX_PENDING_KEYS)%nat →
  let '(n, p, t) := flush_now now reach (Process acc last) (f_table f) in
  ∃ w last_step, (acts (([Take i] ++ replicate w (Write i)) ++ [last_step]) f).1 = set_pod i (Pod (p_acc p) None (p_last_purge p)) (set_table t f) ∧
    (n = List.length acc ∧ p_acc p = [] ∧ breaks last_step = false ∨ n = 0%nat ∧ p_acc p = acc ∧ last_step = Break i).
Proof.
  intros Hd Hne Hnd Hlen. unfold flush_now. cbn [p_acc p_last_purge]. destruct acc as [|kv r] eqn:Ea; [done|]. rewrite <- Ea in *. clear Hne.
  pose proof (write_rows_all reach acc (f_table f)) as Hall. destruct (write_rows reach acc (f_table f)) as [[w rest] t] eqn:Ew.
  set (f1 := set_pod i (Pod [] (Some ([], acc)) last) f).
  assert (Hs : (acts ([Take i] ++ replicate (List.length w) (Write i)) f).1 = set_pod i (Pod [] (Some (w, rest)) last) (set_table t f)).
  { assert (E1 : (act (Take i) f).1 = f1) by (subst acc; cbn [act]; by rewrite Hd). rewrite (acts_app [Take i]).
    cbn [acts]. destruct (act (Take i) f) as [f1' y]. cbn [fst] in *. subst f1'.
    rewrite (write_steps reach acc [] (f_table f) [] last i f1 w rest t Ew eq_refl (lookup_set_pod _ _ _ _ Hd)). apply set_pod_twice. }
  assert (Hp : f_pods (set_pod i (Pod [] (Some (w, rest)) last) (set_table t f)) !! i = Some (Pod [] (Some (w, rest)) last)).
  { apply lookup_set_pod with (d := Pod acc None last). exact Hd. }
  destruct rest as [|kv' rest].
  - destruct (_maybe_purge now last (List.length acc <? reach)%nat t) as [t' last'] eqn:Eg.
    exists (List.length w), (Finish i now (List.length acc <? reach)%nat). split; [|left; done].
    rewrite acts_app. rewrite Hs. cbn [acts act]. rewrite Hp. cbn [set_pod f_table set_table]. rewrite Eg. unfold set_pod, set_table. cbn. by rewrite list_insert_insert_eq.
  - exists (List.length w), (Break i). split; [|right; split; [done|]; split; [|done]].
    + rewrite acts_app. rewrite Hs. cbn [acts act]. rewrite Hp. cbn [fst p_acc p_last_purge]. rewrite Hall. unfold set_pod. cbn. by rewrite list_insert_insert_eq.
    + cbn [p_acc]. by rewrite merge_back_app.
Qed.

(** ** Reading the series *)
(** [date_trunc] in UTC, and the rows of the window grouped by it. *)
Definition _PERIODS : list (string * (Z * Z)) :=
  [("1J", (86400, 3600)); ("1S", (7 * 86400, 86400)); ("1M", (30 * 86400, 86400)); ("3M", (90 * 86400, 86400))].
Definition date_trunc (unit t : Z) : Z := t / unit * unit.
Record point : Type := Point { pt_date : Z; pt_chat : Z; pt_embeddings : Z; pt_errors : Z }.
Definition counted (p : key → bool) (rows : list (key * row)) : Z := zsum (λ kv, if p kv.1 then r_count kv.2 else 0) rows.
Definition is_chat (k : key) : bool := bool_decide (k_route k = "chat").
Definition is_embeddings (k : key) : bool := bool_decide (k_route k = "embeddings").
Definition is_error (k : key) : bool := negb (bool_decide (k_class k = "2xx")).
(** [bucket_ts > now() - interval] *)
Definition in_window (now interval : Z) (k : key) : bool := now - interval * MICRO <? k_bucket k * MICRO.
Definition series (now : Z) (period : string) (t : gmap key row) : list point :=
  let '(interval, unit) := match dget period _PERIODS with Some x => x | None => (86400, 3600) end in
  let rows := filter (λ kv : key * row, in_window now interval kv.1 = true) (map_to_list t) in
  let dates := merge_sort Z.le (remove_dups ((λ kv : key * row, date_trunc unit (k_bucket kv.1)) <$> rows)) in
  (λ d, let group := filter (λ kv : key * row, date_trunc unit (k_bucket kv.1) = d) rows in
        Point d (counted is_chat group) (counted is_embeddings group) (counted is_error group)) <$> dates.

(** ** Examples *)
Module Demo.
Definition ask (model : string) : action := Record_request 0 (1000 * MICRO) "chat/completions" model 200 1500000 None.
Definition nul : string := String (chr 0) "".
(** The steps of a flush that fails after its first row. *)
Definition failing : list action := [Take 0; Write 0; Write 0; Break 0].
Definition ordinary : key := Key 900 "chat" "m" "2xx".
(** A model name with a zero byte, which the caller chooses, is a text that the
    column cannot hold: no flush succeeds any more, and each one counts again
    the rows that come before. One request to [m] is counted three times. *)
Example poisoned_flush :
  let f := (acts ([ask "m"; ask nul] ++ failing ++ failing ++ failing) (started 1)).1 in
  amount r_count ordinary (f_table f) = 3 ∧ (d_acc <$> f_pods f) = [[(ordinary, Row 1 1500 1500 0); (Key 900 "chat" nul "2xx", Row 1 1500 1500 0)]] ∧
  series (2000 * MICRO) "1J" (f_table f) = [Point 0 3 0 0].
Proof. vm_compute. done. Qed.
(** A flush that succeeds. *)
Example sound_flush :
  let f := (acts [ask "m"; ask "m"; Take 0; ask "m"; Write 0; Finish 0 0 true] (started 1)).1 in
  amount r_count ordinary (f_table f) = 2 ∧ zsum (waiting r_count ordinary) (f_pods f) = 1.
Proof. vm_compute. done. Qed.
Lemma traffic_accounted_witness :
  let l := [ask "m"; Take 0; Write 0; Finish 0 0 true] in let '(f, y) := acts l (started 1) in
  amount r_count ordinary (f_table f) + zsum (waiting r_count ordinary) (f_pods f) + total r_count ordinary (y_lost y)
    = total r_count ordinary (y_recorded y) + total r_count ordinary (y_again y) ∧
  (Forall (λ a, breaks a = false) l → y_again y = []) ∧
  Forall (λ d, (List.length (d_acc d) ≤ MAX_PENDING_KEYS)%nat) (f_pods f).
Proof. exact (traffic_accounted 1 [ask "m"; Take 0; Write 0; Finish 0 0 true] r_count ordinary). Defined.
Definition loaded : fleet := (acts [ask "m"; ask nul] (started 1)).1.
Definition held_rows : accumulator := [(ordinary, Row 1 1500 1500 0); (Key 900 "chat" nul "2xx", Row 1 1500 1500 0)].
Lemma flush_is_steps_witness :
  let '(n, p, t) := flush_now 0 9 (Process held_rows 0) (f_table loaded) in
  ∃ w last_step, (acts (([Take 0] ++ replicate w (Write 0)) ++ [last_step]) loaded).1 = set_pod 0 (Pod (p_acc p) None (p_last_purge p)) (set_table t loaded) ∧
    (n = List.length held_rows ∧ p_acc p = [] ∧ breaks last_step = false ∨ n = 0%nat ∧ p_acc p = held_rows ∧ last_step = Break 0).
Proof.
  apply (flush_is_steps 0 loaded held_rows 0 0 9); [reflexivity|done|apply (bool_decide_unpack _); reflexivity|apply Nat.leb_le; reflexivity].
Defined.
End Demo.
