(* ===== verification/LogFilter.v ===== *)
(** * The access log
    [app/logfilters.py]: the filter that keeps the probes out of the access log,
    counts what it drops and says so from time to time. Instants and intervals
    are in microseconds. *)
From S2P Require Import Prelude Text Json.
From Stdlib Require Import Ascii String.
Open Scope Z_scope.

Definition PROBE_PATHS : list string := ["/livez"; "/healthz"; "/readyz"].
Definition POLL_PATHS : list string := ["/admin/api/config/propagation"].
Definition FILTERED_PATHS : list string := PROBE_PATHS ++ POLL_PATHS.

(** A record: its arguments when they are a tuple ([None] for one that is no
    text) and its message, when it can be formatted. *)
Record log_record : Type := LogRecord { lr_args : option (list (option string)); lr_message : option string }.

(** [s.split()] *)
Fixpoint split_blank (word s : string) : list string :=
  let flush := if truthy_str word then [word] else [] in
  match s with
  | "" => flush
  | String c r => if py_isspace c then flush ++ split_blank "" r else split_blank (word +:+ String c "") r
  end.
(** The text between the first two quotes. *)
Definition quoted (msg : string) : option string :=
  match split_once dquote msg with
  | Some (_, r) => fst <$> split_once dquote r
  | None => None
  end.
Definition _extract_path (record : log_record) : option string :=
  let fallback :=
    match lr_message record ≫= quoted with
    | Some inside => match split_blank "" inside with _ :: path :: _ => Some path | _ => None end
    | None => None
    end in
  match lr_args record with
  | Some (_ :: _ :: Some path :: _) => Some path
  | _ => fallback
  end.
Definition matches (path p : string) : bool := bool_decide (path = p) || starts_with (p +:+ "?") path.
Definition _match_filtered (path : option string) : option string :=
  match path with
  | None => None
  | Some path => if truthy_str path then find (matches path) FILTERED_PATHS else None
  end.

(** ** The filter *)
Record settings : Type := Settings { summary_interval : Z; startup_grace : Z }.
Record state : Type := State { counts : list (string * Z); last_summary : option Z; created : Z }.
Definition __init__ (now : Z) : state := State [] None now.
(** A line of synthesis: the seconds elapsed and the counts in the order of the paths. *)
Record summary : Type := Summary { su_elapsed : Z; su_counts : list (string * Z) }.
Definition sorted_counts (d : list (string * Z)) : list (string * Z) := (λ k, (k, default 0 (dget k d))) <$> py_sorted (dkeys d).
Definition _maybe_emit_summary (cfg : settings) (now : Z) (st : state) : state * option summary :=
  match last_summary st with
  | None => (State (counts st) (Some now) (created st), None)
  | Some last =>
      match counts st with
      | _ :: _ =>
          if summary_interval cfg <=? now - last then
            (State [] (Some now) (created st), Some (Summary (Z.quot (now - last) 1000000) (sorted_counts (counts st))))
          else (st, None)
      | [] => (st, None)
      end
  end.
Definition filter (cfg : settings) (now : Z) (record : log_record) (st : state) : bool * option summary * state :=
  let hit := _match_filtered (_extract_path record) in
  let in_grace := now - created st <? startup_grace cfg in
  let st :=
    match hit with
    | Some p => if in_grace then st else State (dset p (default 0 (dget p (counts st)) + 1) (counts st)) (last_summary st) (created st)
    | None => st
    end in
  let '(st, line) := _maybe_emit_summary cfg now st in
  (match hit with None => true | Some _ => in_grace end, line, st).
(** The records of a process, in order: what the filter answers and says. *)
Fixpoint run (cfg : settings) (l : list (Z * log_record)) (st : state) : list (bool * option summary) * state :=
  match l with
  | [] => ([], st)
  | (now, r) :: l => let '(kept, line, st) := filter cfg now r st in let '(out, st) := run cfg l st in ((kept, line) :: out, st)
  end.

(** ** Nothing is dropped without being counted *)
Definition hit_of (r : log_record) : option string := _match_filtered (_extract_path r).
Definition now_dropped (p : string) (r : log_record) (kept : bool) : Z := if bool_decide (hit_of r = Some p) && negb kept then 1 else 0.
Definition line_count (p : string) (line : option summary) : Z :=
  match line with Some s => default 0 (dget p (su_counts s)) | None => 0 end.
(** The records of [p] dropped in a run, those its lines report, and those still counted. *)
Definition dropped (p : string) (l : list (Z * log_record)) (out : list (bool * option summary)) : Z :=
  zsum (λ x : (Z * log_record) * (bool * option summary), now_dropped p x.1.2 x.2.1) (zip l out).
Definition reported (p : string) (out : list (bool * option summary)) : Z := zsum (λ x : bool * option summary, line_count p x.2) out.
Definition pending (p : string) (st : state) : Z := default 0 (dget p (counts st)).

Lemma dget_map (f : string → Z) k l : k ∈ l → dget k ((λ k, (k, f k)) <$> l) = Some (f k).
Proof. induction l as [|x l IH]; [by intros ?%elem_of_nil|]. intros H. cbn. case_decide; [by subst|]. apply IH. set_solver. Qed.
Lemma sorted_counts_get k d : default 0 (dget k (sorted_counts d)) = default 0 (dget k d).
Proof.
  unfold sorted_counts. destruct (decide (k ∈ dkeys d)) as [H|H].
  - by rewrite dget_map by (by apply elem_of_py_sorted).
  - assert (dget k ((λ k, (k, default 0 (dget k d))) <$> py_sorted (dkeys d)) = None) as ->; [|by apply dget_None in H as ->].
    apply dget_None. unfold dkeys. rewrite <- list_fmap_compose. change (fst ∘ _) with (λ k : string, k). rewrite list_fmap_id.
    by rewrite elem_of_py_sorted.
Qed.
Lemma emit_account cfg now st p :
  let '(st', line) := _maybe_emit_summary cfg now st in pending p st' + line_count p line = pending p st.
Proof.
  unfold _maybe_emit_summary, pending. destruct (last_summary st) as [last|]; [|cbn; lia]. destruct (counts st) as [|kv c] eqn:Ec; [rewrite Ec; cbn; lia|].
  destruct (_ <=? _); [|rewrite Ec; cbn [line_count]; lia]. cbn [line_count counts su_counts]. rewrite sorted_counts_get. cbn [dget default from_option]. lia.
Qed.
Lemma filter_account cfg now r st p :
  let '(kept, line, st') := filter cfg now r st in pending p st' + line_count p line = pending p st + now_dropped p r kept.
Proof.
  unfold filter, now_dropped, hit_of. set (hit := _match_filtered _).
  match goal with |- context [_maybe_emit_summary cfg now ?s] => pose proof (emit_account cfg now s p) as He; destruct (_maybe_emit_summary cfg now s) as [st' line] end.
  rewrite He. clear He. unfold pending. destruct hit as [q|]; [|rewrite bool_decide_eq_false_2 by done; cbn; lia].
  destruct (_ <? _); cbn [negb]; [rewrite andb_false_r; lia|]. rewrite andb_true_r. cbn [counts]. rewrite dget_dset.
  destruct (decide (p = q)) as [->|Hq]; [rewrite bool_decide_eq_true_2 by done; cbn; lia|rewrite bool_decide_eq_false_2 by congruence; lia].
Qed.
Lemma run_account cfg l st p : let '(out, st') := run cfg l st in pending p st' + reported p out = pending p st + dropped p l out.
Proof.
  unfold reported, dropped. revert st. induction l as [|[now r] l IH]; intros st; [cbn; lia|]. cbn [run].
  pose proof (filter_account cfg now r st p) as Hf. destruct (filter cfg now r st) as [[kept line] st1].
  specialize (IH st1). destruct (run cfg l st1) as [out st2]. cbn [zip zip_with zsum fst snd]. lia.
Qed.

(** Only a probe or a polled address after the grace period is dropped. *)
Lemma filter_kept cfg now r st :
  (filter cfg now r st).1.1 = match hit_of r with None => true | Some _ => now - created st <? startup_grace cfg end ∧
  created (filter cfg now r st).2 = created st.
Proof.
  unfold filter, hit_of. match goal with |- context [_maybe_emit_summary cfg now ?s] => set (s1 := s) end.
  assert (H : created (_maybe_emit_summary cfg now s1).1 = created st).
  { assert (created s1 = created st) as <- by (subst s1; destruct (_match_filtered _); [by destruct (now - created st <? startup_grace cfg)|done]).
    unfold _maybe_emit_summary. destruct (last_summary s1), (counts s1); try done. by destruct (_ <=? _). }
  by destruct (_maybe_emit_summary cfg now s1).
Qed.
Lemma run_kept cfg l st :
  (run cfg l st).1.*1 = (λ x : Z * log_record, match hit_of x.2 with None => true | Some _ => x.1 - created st <? startup_grace cfg end) <$> l.
Proof.
  revert st. induction l as [|[now r] l IH]; intros st; [done|]. cbn [run]. destruct (filter_kept cfg now r st) as [Hk Hc].
  destruct (filter cfg now r st) as [[kept line] st1]. specialize (IH st1). cbn [fst snd] in *. destruct (run cfg l st1) as [out st2].
  cbn [fst fmap list_fmap]. f_equal; [done|]. rewrite <- Hc. exact IH.
Qed.

(** Whatever the records, a process keeps every one that is not for a
    probe or a polled address, and those during its first seconds; the others
    are dropped, and for each address the lines of synthesis and the count in
    memory add up to the number dropped. *)
Theorem log_filter_accounted cfg start l p :
  let '(out, st) := run cfg l (__init__ start) in
  out.*1 = (λ x : Z * log_record, match hit_of x.2 with None => true | Some _ => x.1 - start <? startup_grace cfg end) <$> l ∧
  dropped p l out = reported p out + pending p st.
Proof.
  pose proof (run_account cfg l (__init__ start) p) as Ha. pose proof (run_kept cfg l (__init__ start)) as Hk.
  destruct (run cfg l (__init__ start)) as [out st]. split; [exact Hk|]. unfold pending at 2 in Ha. cbn in Ha. lia.
Qed.

(** ** Examples *)
Module Demo.
Definition second : Z := 1000000.
Definition cfg : settings := Settings (900 * second) (60 * second).
Definition get (path : string) : log_record := LogRecord (Some [Some "10.0.0.1:1"; Some "GET"; Some path]) None.
Definition rendered : log_record :=
  LogRecord None (Some ("10.0.0.1 - " +:+ String dquote ("GET /livez?x HTTP/1.1" +:+ String dquote " 200"))).
Example extracted : hit_of rendered = Some "/livez" ∧ hit_of (get "/livez/x") = None ∧ hit_of (get "/readyz?full=1") = Some "/readyz".
Proof. vm_compute. done. Qed.
Example one_hour :
  (run cfg [(0, get "/livez"); (61 * second, get "/livez"); (62 * second, get "/config/x"); (200 * second, rendered); (961 * second, get "/healthz")] (__init__ 0)).1
  = [(true, None); (false, None); (true, None); (false, None); (false, Some (Summary 961 [("/healthz", 1); ("/livez", 2)]))].
Proof. vm_compute. reflexivity. Qed.
End Demo.
