(* ===== verification/Wizard.v ===== *)
(** * The deployment wizard
    Of [app/admin/router.py]: [api_extract_version], which looks at a package
    before it is deployed, [api_check_slug], and the migration and preview of the
    configuration templates. The archive format and the decoder of UTF-8 with
    replacement are arguments; JSON in UTF-16 and the text of the exceptions of
    the JSON parser are left out. *)
From S2P Require Import Prelude Text Json Effects Paths Campaigns Config Cohorts Flags GetConfig Catalog AuditLog AdminDb AdminRoutes AdminCatalog AdminSettings PublicUrl Suggest.
From Stdlib Require Import Ascii String.
Open Scope Z_scope.

(** ** Versions in a text *)
(** [\d+] *)
Fixpoint digits (s : string) : string * string :=
  match s with
  | String c r => if is_digit c then let '(d, t) := digits r in (String c d, t) else ("", s)
  | "" => ("", "")
  end.
(** [(?:\.\d+)*]; every turn consumes a character *)
Fixpoint groups (fuel : nat) (s : string) : string * string :=
  match fuel, s with
  | S fuel, String c r =>
      if is_char "." c then
        match digits r with
        | ("", _) => ("", s)
        | (d, t) => let '(g, t) := groups fuel t in (String c (d +:+ g), t)
        end
      else ("", s)
  | _, _ => ("", s)
  end.
(** [\d+\.\d+(?:\.\d+)*] at the start of [s]: the match and the rest. *)
Definition match_version (s : string) : option (string * string) :=
  match digits s with
  | ("", _) => None
  | (d, t) => match groups (String.length t) t with ("", _) => None | (g, t) => Some (d +:+ g, t) end
  end.
(** [re.search(r'(...)', s)] *)
Fixpoint search_version (s : string) : option string :=
  match match_version s with
  | Some (v, _) => Some v
  | None => match s with String _ r => search_version r | "" => None end
  end.
(** [re.search(r'attr="(...)"', s)] *)
Fixpoint search_attribute (attr s : string) : option string :=
  let here :=
    if starts_with (attr +:+ "=" +:+ String dquote "") s then
      match match_version (sdrop (String.length attr + 2) s) with
      | Some (v, String q _) => if Ascii.eqb q dquote then Some v else None
      | _ => None
      end
    else None in
  match here, s with
  | Some v, _ => Some v
  | None, String _ r => search_attribute attr r
  | None, "" => None
  end.

(** ** [==] on JSON values: an int equals a bool, objects have no order *)
Definition number (v : json) : option Z := match v with JInt z => Some z | JBool b => Some (if b then 1 else 0) | _ => None end.
Fixpoint py_equal (a b : json) : bool :=
  match a, b with
  | JNull, JNull => true
  | JStr s, JStr s' => bool_decide (s = s')
  | (JInt _ | JBool _), (JInt _ | JBool _) => bool_decide (number a = number b)
  | JArr l, JArr l' =>
      (fix go (l l' : list json) : bool :=
         match l, l' with [], [] => true | x :: r, x' :: r' => py_equal x x' && go r r' | _, _ => false end) l l'
  | JObj d, JObj d' =>
      (List.length d =? List.length d')%nat &&
      (fix go (d : list (string * json)) : bool :=
         match d with [] => true | (k, v) :: r => match dget k d' with Some w => py_equal v w | None => false end && go r end) d
  | _, _ => false
  end.

(** ** [api_extract_version] *)
(** The elements that [for x in v] gives; [None]: it raises. *)
Definition elements (v : json) : option (list json) :=
  match v with
  | JArr l => Some l
  | JStr s => Some ((λ c, JStr (String c "")) <$> list_ascii_of_string s)
  | JObj d => Some (JStr <$> dkeys d)
  | _ => None
  end.
Definition jmethod (v : json) (k : string) (dflt : json) : result exc json :=
  match v with JObj d => Ok (jget_or k d dflt) | _ => Err (Exc "object has no attribute 'get'") end.

Section extract.
Variables (unzip : string → option (list member)) (decode : string → string).

(** [zf.read(name)]: [None] for a [BadZipFile]. *)
Definition read (es : list member) (name : string) : result exc (option string) :=
  match getinfo es name with
  | Some m => match m_content m with Data s => Ok (Some s) | Corrupt => Ok None | Unreadable e => Err e end
  | None => Err (Exc "There is no item named")
  end.
Definition json_bytes (s : string) : result exc json :=
  match utf8_decode s ≫= loads with Some v => Ok v | None => Err (Exc "Expecting value") end.
Definition has_entry (es : list member) (name : string) : bool := existsb (λ m, bool_decide (m_name m = name)) es.
(** A reading of the archive, for as long as none of its entries is corrupt. *)
Definition from_attribute (es : list member) (name attr : string) (version : json) : result exc (json * bool) :=
  if negb (truthy version) && has_entry es name then
    let* c := read es name in
    Ok match c with
       | Some s => (match search_attribute attr (decode s) with Some v => JStr v | None => version end, true)
       | None => (version, false)
       end
  else Ok (version, true).
Definition package_version (es : list member) : result exc json :=
  let* first :=
    if has_entry es "manifest.json" then
      let* c := read es "manifest.json" in
      match c with
      | Some s => let* manifest := json_bytes s in let* v := jmethod manifest "version" JNull in Ok (v, true)
      | None => Ok (JNull, false)
      end
    else Ok (JNull, true) in
  let '(version, going) := first in
  if negb going then Ok version
  else
    let* second := from_attribute es "description.xml" "value" version in
    let '(version, going) := second in
    if negb (going : bool) then Ok version
    else let* third := from_attribute es "META-INF/manifest.xml" "version" version in Ok third.1.
Definition found_version (data filename : string) : result exc json :=
  let* version := match unzip data with Some es => package_version es | None => Ok JNull end in
  Ok (if truthy version then version else match search_version filename with Some v => JStr v | None => version end).
Definition extension (filename : string) : string := if contains "." filename then lower (List.last (split_on "." filename) "") else "".
Definition packaged : list string := ["oxt"; "xpi"; "crx"].
Definition problems (data ext : string) : list string :=
  (if bool_decide (ext ∈ packaged) then [] else ["Extension ." +:+ ext +:+ " non supportee (attendu: .oxt, .xpi, .crx)"]) ++
  (if zlen data =? 0 then ["Fichier vide"]
   else if 100 * 1024 * 1024 <? zlen data then ["Fichier trop volumineux (" +:+ py_str_int (zlen data / (1024 * 1024)) +:+ " Mo > 100 Mo)"] else []) ++
  (match unzip data with Some _ => [] | None => ["Le fichier n'est pas une archive ZIP valide"] end).
Definition remarks (data ext : string) (version : json) : list string :=
  (match unzip data with
   | Some es =>
       (if bool_decide (ext = "xpi") && negb (has_entry es "manifest.json") then ["manifest.json absent du XPI"] else []) ++
       (if bool_decide (ext = "oxt") && negb (has_entry es "META-INF/manifest.xml") && negb (has_entry es "description.xml")
        then ["description.xml et META-INF/manifest.xml absents du OXT"] else [])
   | None => []
   end) ++
  (if negb (truthy version) && match problems data ext with [] => true | _ => false end
   then ["Version non detectee dans le package " +:+ String "226" (String "128" (String "148" " saisie manuelle requise"))] else []).
Definition of_browser (ext : string) : string := if bool_decide (ext = "xpi") then "firefox" else "chrome".
Definition device_of_manifest (ext : string) (mf : json) : result exc string :=
  let* apps := jmethod mf "applications" (JObj []) in
  let* bss := jmethod mf "browser_specific_settings" apps in
  let* tb := jmethod bss "thunderbird" JNull in
  let* perms := jmethod mf "permissions" (JArr []) in
  if truthy tb || contains "messenger" (lower (dumps perms)) then Ok "matisse"
  else if bool_decide (ext = "crx") then Ok "chrome" else Ok "firefox".
Definition device_type (data ext : string) : result exc (option string) :=
  if bool_decide (ext = "oxt") then Ok (Some "libreoffice")
  else if bool_decide (ext ∈ ["xpi"; "crx"]) then
    match unzip data with
    | Some es =>
        if has_entry es "manifest.json" then
          let* c := read es "manifest.json" in
          match c with
          | Some s => let* mf := json_bytes s in let* d := device_of_manifest ext mf in Ok (Some d)
          | None => Ok (Some (of_browser ext))
          end
        else Ok (Some (of_browser ext))
    | None => Ok (Some (of_browser ext))
    end
  else Ok None.
(** The notes of the entry for the version; [None] when something raises. *)
Fixpoint notes_for (version : json) (entries : list json) : option string :=
  match entries with
  | [] => Some ""
  | JObj e :: r =>
      if py_equal (jget "version" e) version then
        l ← elements (jget_or "changes" e (JArr [])); Some (sjoin (String "010" "") ((λ c, "- " +:+ py_str c) <$> l))
      else notes_for version r
  | _ => None
  end.
Definition manifest_name (name : string) : bool := bool_decide (base_of name ∈ ["dm-manifest.json"; "dm_manifest.json"]).
Definition release_notes (data : string) (version : json) : string :=
  match unzip data with
  | Some es =>
      match find (λ m, manifest_name (m_name m)) es with
      | Some m =>
          match read es (m_name m) with
          | Ok (Some s) =>
              match loads (decode s) with
              | Some (JObj d) => default "" (l ← elements (jget_or "changelog" d (JArr [])); notes_for version l)
              | _ => ""
              end
          | _ => ""
          end
      | None => ""
      end
  | None => ""
  end.
Definition api_extract_version (data filename : string) : result exc answer :=
  let* version := found_version data filename in
  let ext := extension filename in
  let* device := device_type data ext in
  Ok (Reply 200
    [("version", jor version (JStr "")); ("source", JStr (if truthy version then "package" else "filename"));
     ("device_type", opt_json device); ("valid", JBool (match problems data ext with [] => true | _ => false end));
     ("is_valid_zip", JBool (match unzip data with Some _ => true | None => false end)); ("file_size", JInt (zlen data));
     ("extension", JStr ext); ("errors", JArr (JStr <$> problems data ext)); ("warnings", JArr (JStr <$> remarks data ext version));
     ("release_notes", JStr (release_notes data version))]).
End extract.

(** ** [api_check_slug] *)
Definition slug_char (c : ascii) : bool := is_digit c || ((97 <=? code c) && (code c <=? 122)).
(** [re.sub(r'[^a-z0-9]+', '-', s)]; [gap]: the last character was replaced *)
Fixpoint dashes (gap : bool) (s : string) : string :=
  match s with
  | "" => ""
  | String c r => if slug_char c then String c (dashes false r) else if gap then dashes true r else String "-" (dashes true r)
  end.
Definition slug_of (slug : string) : string := lstrip_char "-" (rstrip_char "-" (dashes false (lower slug))).
Definition taken (d : adb) (slug : string) : bool := existsb (λ p, bool_decide (pl_slug (pg_row p) = slug)) (ct_plugins (d_cat d)).
Fixpoint free_among (n : nat) (d : adb) (candidates : list string) : list string :=
  match n, candidates with
  | S n', c :: r => if taken d c then free_among n d r else c :: free_among n' d r
  | _, _ => []
  end.
Definition suffixes : list string := ["-2"; "-v2"; "-new"; "-ext"; "-pro"].
Definition api_check_slug (slug : string) (d : adb) : answer :=
  let slug := slug_of slug in
  if negb (truthy_str slug) then Reply 200 [("available", JBool false); ("slug", JStr ""); ("alternatives", JArr [])]
  else
    let alternatives := if taken d slug then free_among 3 d ((λ s, slug +:+ s) <$> suffixes) else [] in
    Reply 200 [("available", JBool (negb (taken d slug))); ("slug", JStr slug); ("alternatives", JArr (JStr <$> alternatives))].

(** ** [catalog_migrate_config_templates] *)
Section migrate.
Variables (drv : driver) (cl : call) (files : string → option string) (config_dir repo_root : string).

(** The templates of the file system: no cursor is passed. *)
Definition file_config (profile device slug : string) : result exc json :=
  match _load_config_template files config_dir repo_root None profile (Some device) (Some slug) with
  | Ok (JObj cfg) => Ok (jget_or "config" cfg (JObj cfg))
  | Ok _ => Err (Exc "object has no attribute 'get'")
  | Err _ => Err (Exc "Expecting value")
  end.
Definition differing (dflt config : list (string * json)) : list (string * json) :=
  filter (λ kv : string * json, py_equal (jget kv.1 dflt) kv.2 = false) config.
Definition section_of (dflt config : json) : result exc (list (string * json)) :=
  match config, dflt with
  | JObj [], _ => Ok []
  | JObj c, JObj d => Ok (differing d c)
  | JObj _, _ => Err (Exc "object has no attribute 'get'")
  | _, _ => Err (Exc "object has no attribute 'items'")
  end.
Definition add_section (profile device slug : string) (dflt : json) (template : list (string * json)) : result exc (list (string * json)) :=
  let* config := file_config profile device slug in
  let* diff := section_of dflt config in
  Ok match diff with [] => template | _ => template ++ [(profile, JObj diff)] end.
Definition file_template (device slug : string) : result exc (list (string * json)) :=
  let* dflt := file_config "dev" device slug in
  let* t := add_section "int" device slug dflt [("configVersion", JInt 1); ("default", dflt)] in
  add_section "prod" device slug dflt t.

Definition migrate_one (p : plugin) : SM tx () :=
  let device := pl_device_type (pg_row p) in let slug := pl_slug (pg_row p) in
  t ← lift (file_template device slug);
  let template := JObj (_apply_platform_defaults t) in
  stmt (v ← jsonb (dumps template); modify (map_plugin (p_id p) (set_template v)));;
  safe_reconcile drv (Call [] None (c_now cl)) (str_or slug device) template "admin:migrate-config-templates".
Definition report (p : plugin) (k v : string) : json := JObj [("slug", JStr (pl_slug (pg_row p))); (k, JStr v)].
Fixpoint migrate_all (ps : list plugin) : SM tx (list json * list json) :=
  match ps with
  | [] => mret ([], [])
  | p :: r =>
      done ← (if truthy (pl_template (pg_row p)) then mret ([report p "status" "skipped (already has template)"], [])
              else catch (migrate_one p;; mret ([report p "status" "migrated"], [])) (λ e, mret ([], [report p "error" (exc_text e)])));
      rest ← migrate_all r;
      mret (done.1 ++ rest.1, done.2 ++ rest.2)
  end.
Definition catalog_migrate_config_templates : SM adb answer :=
  or_json_400 500 (transaction (
    plugins ← select (λ d, ct_plugins (d_cat d));
    r ← migrate_all plugins;
    mret (Reply 200 [("migrated", JArr r.1); ("errors", JArr r.2)]))).
End migrate.
