(* ===== verification/WizardFacts.v ===== *)
(** * Facts about the wizard
    The versions found in a text, the slugs, and what the migration of a
    template keeps of the files it reads. *)
From S2P Require Import Prelude Text Json Effects Paths Campaigns Config Cohorts Flags GetConfig Catalog AuditLog AdminDb AdminRoutes AdminCatalog AdminSettings PublicUrl Suggest Wizard.
From Stdlib Require Import Ascii String.
Open Scope Z_scope.

(** *** Versions *)
Definition one_or_more (d : string) : Prop := d ≠ "" ∧ sforall is_digit d = true.
(** [n.n], [n.n.n] and so on *)
Inductive dotted : string → Prop :=
| dotted_two d e : one_or_more d → one_or_more e → dotted (d +:+ String "." e)
| dotted_more v e : dotted v → one_or_more e → dotted (v +:+ String "." e).
(** A digit, a dot and a digit in a row. *)
Definition decimal (s : string) : Prop := ∃ p a b q, is_digit a = true ∧ is_digit b = true ∧ s = p +:+ String a (String "." (String b q)).

Lemma digits_spec s d t : digits s = (d, t) → s = d +:+ t ∧ sforall is_digit d = true ∧ match t with String c _ => is_digit c = false | "" => True end.
Proof.
  revert d t. induction s as [|c s IH]; intros d t; [by intros [= <- <-]|]. cbn [digits]. destruct (is_digit c) eqn:Ec.
  - destruct (digits s) as [d' t']. intros [= <- <-]. destruct (IH _ _ eq_refl) as (-> & Hd & Ht). cbn [sforall]. by rewrite Ec, Hd, sapp_cons.
  - intros [= <- <-]. by rewrite sapp_nil_l.
Qed.
Lemma groups_stop s v : s = "" +:+ s ∧ ("" ≠ "" → ∀ d, one_or_more d → dotted (d +:+ "")) ∧ (dotted v → dotted (v +:+ "")).
Proof. rewrite sapp_nil_l, sapp_nil_r. by split_and!. Qed.
Lemma groups_spec fuel s g t v : (String.length s ≤ fuel)%nat → groups fuel s = (g, t) → s = g +:+ t ∧
  (g ≠ "" → ∀ d, one_or_more d → dotted (d +:+ g)) ∧ (dotted v → dotted (v +:+ g)).
Proof.
  revert s g t v. induction fuel as [|fuel IH]; intros s g t v Hl; [intros [= <- <-]; apply groups_stop|].
  destruct s as [|c r]; cbn [groups]; [intros [= <- <-]; apply groups_stop|].
  destruct (is_char "." c) eqn:Ec; [|intros [= <- <-]; apply groups_stop].
  destruct (digits r) as [d u] eqn:Ed. destruct d as [|d0 d]; [intros [= <- <-]; apply groups_stop|].
  destruct (groups fuel u) as [g' t'] eqn:Eg. intros [= <- <-]. destruct (digits_spec _ _ _ Ed) as (-> & Hd & _).
  assert (c = "."%char) as -> by (unfold is_char in Ec; by apply bool_decide_eq_true in Ec).
  assert (Hu : (String.length u ≤ fuel)%nat) by (cbn in Hl; rewrite slen_app in Hl; cbn in Hl; lia).
  assert (Ha : ∀ e, e +:+ String "." (String d0 d +:+ g') = (e +:+ String "." (String d0 d)) +:+ g') by (intros e; by rewrite sapp_assoc, !sapp_cons).
  split_and!; [|intros _ e He|intros Hv].
  - destruct (IH u g' t' "" Hu Eg) as (-> & _). by rewrite !sapp_cons, sapp_assoc.
  - rewrite Ha. apply (IH u g' t' _ Hu Eg). by constructor.
  - rewrite Ha. apply (IH u g' t' _ Hu Eg). by constructor.
Qed.
Lemma match_version_spec s v t : match_version s = Some (v, t) → s = v +:+ t ∧ dotted v.
Proof.
  unfold match_version. destruct (digits s) as [d u] eqn:Ed. destruct (digits_spec _ _ _ Ed) as (-> & Hd & _). destruct d as [|d0 d]; [done|].
  destruct (groups (String.length u) u) as [g w] eqn:Eg. destruct (groups_spec _ _ _ _ "" ltac:(done) Eg) as (Hu & Hg & _).
  destruct g as [|g0 g]; [done|]. intros [= <- <-]. split; [rewrite Hu, sapp_assoc; done|by apply Hg].
Qed.
Lemma groups_decimal n b q : is_digit b = true → ∃ g t, groups (S n) (String "." (String b q)) = (String "." g, t).
Proof.
  intros Hb. cbn [groups]. rewrite (eq_refl : is_char "." "." = true). cbn [digits]. rewrite Hb. destruct (digits q) as [d t].
  destruct (groups n t). eauto.
Qed.
Lemma match_version_decimal a b q : is_digit a = true → is_digit b = true → is_Some (match_version (String a (String "." (String b q)))).
Proof.
  intros Ha Hb. unfold match_version. cbn [digits]. rewrite Ha, (eq_refl : is_digit "." = false).
  destruct (groups_decimal (S (String.length q)) b q Hb) as (g & t & E). change (String.length _) with (S (S (String.length q))). rewrite E. by eexists.
Qed.
Lemma search_version_some s v : search_version s = Some v → dotted v ∧ ∃ p q, s = p +:+ v +:+ q.
Proof.
  induction s as [|c s IH]; intros H; cbn [search_version] in H; destruct (match_version _) as [[w t]|] eqn:E.
  - done.
  - done.
  - injection H as ->. destruct (match_version_spec _ _ _ E) as [-> ?]. split; [done|]. by exists "", t.
  - destruct (IH H) as [? (p & q & ->)]. split; [done|]. by exists (String c p), q.
Qed.
Lemma search_version_none s : search_version s = None ↔ ¬ decimal s.
Proof.
  split.
  - intros H (p & a & b & q & Ha & Hb & ->). induction p as [|c p IH].
    + rewrite sapp_nil_l in H. destruct (match_version_decimal a b q Ha Hb) as [[v t] E]. cbn [search_version] in H. by rewrite E in H.
    + apply IH. rewrite sapp_cons in H. cbn [search_version] in H. by destruct (match_version _) as [[]|].
  - intros H. destruct (search_version s) as [v|] eqn:E; [|done]. destruct H. destruct (search_version_some s v E) as [Hv (p & q & ->)]. clear E.
    revert p q. induction Hv as [d e [Hd Hds] [He Hes]|v e Hv IH [He Hes]]; intros p q.
    + destruct e as [|b e]; [done|]. cbn in Hes. apply andb_true_iff in Hes as [Hb _].
      assert (∃ d' a, d = d' +:+ String a "" ∧ is_digit a = true) as (d' & a & -> & Ha).
      { clear -Hd Hds. induction d as [|c d IH]; [done|]. cbn in Hds. apply andb_true_iff in Hds as [Hc Hds]. destruct d as [|c' d].
        - by exists "", c.
        - destruct (IH ltac:(done) Hds) as (d' & a & -> & Ha). by exists (String c d'), a. }
      exists (p +:+ d'), a, b, (e +:+ q). split_and!; [done|done|]. by rewrite !sapp_assoc, !sapp_cons, sapp_nil_l.
    + rewrite sapp_assoc. apply IH.
Qed.

(** *** Slugs *)
(** Letters, digits and single dashes; [gap]: a dash comes before. *)
Fixpoint tidy (gap : bool) (s : string) : bool :=
  match s with
  | "" => true
  | String c r => if slug_char c then tidy false r else is_char "-" c && negb gap && tidy true r
  end.
(** A slug: tidy, and no dash at either end. *)
Definition slug_form (s : string) : Prop := tidy true s = true ∧ rstrip_char "-" s = s.

Lemma dash_no_slug : slug_char "-" = false.
Proof. reflexivity. Qed.
Lemma dashes_tidy g s : tidy g (dashes g s) = true.
Proof.
  revert g. induction s as [|c s IH]; intros g; [done|]. cbn [dashes]. destruct (slug_char c) eqn:Ec; [cbn [tidy]; by rewrite Ec|].
  destruct g; [done|]. cbn [tidy]. rewrite dash_no_slug. exact (IH true).
Qed.
Lemma dashes_id g s : tidy g s = true → dashes g s = s.
Proof.
  revert g. induction s as [|c s IH]; intros g; [done|]. cbn [tidy dashes]. destruct (slug_char c); [intros H; by rewrite IH|].
  intros H. apply andb_true_iff in H as [[Hc Hg]%andb_true_iff H]. unfold is_char in Hc. apply bool_decide_eq_true in Hc as ->. destruct g; [done|]. by rewrite IH.
Qed.
Lemma rstrip_cons p c s : rstrip_by p (String c s) = match rstrip_by p s with "" => if p c then "" else String c "" | t => String c t end.
Proof. reflexivity. Qed.
Lemma rstrip_tidy p g s : tidy g s = true → tidy g (rstrip_by p s) = true.
Proof.
  revert g. induction s as [|c s IH]; intros g H; [done|]. rewrite rstrip_cons. cbn [tidy] in H.
  assert (Ht : ∀ g', tidy g' s = true → tidy g' (rstrip_by p s) = true) by auto.
  destruct (rstrip_by p s) as [|c' t] eqn:E.
  - destruct (p c); [done|]. cbn. destruct (slug_char c); [done|]. apply andb_true_iff in H as [H _]. by rewrite H.
  - cbn [tidy]. destruct (slug_char c); [by apply Ht|]. apply andb_true_iff in H as [-> H]. by apply Ht.
Qed.
Lemma rstrip_tail p c s : rstrip_by p (String c s) = String c s → rstrip_by p s = s.
Proof. rewrite rstrip_cons. destruct (rstrip_by p s) as [|c' t]; [destruct (p c); [done|]; by intros [= <-]|by intros [= ->]]. Qed.
Lemma rstrip_twice p s : rstrip_by p (rstrip_by p s) = rstrip_by p s.
Proof.
  induction s as [|c s IH]; [done|]. rewrite rstrip_cons. destruct (rstrip_by p s) as [|c' t].
  - destruct (p c) eqn:E; [done|]. cbn. by rewrite E.
  - by rewrite rstrip_cons, IH.
Qed.
Lemma lstrip_rstripped p s : rstrip_by p s = s → rstrip_by p (lstrip_by p s) = lstrip_by p s.
Proof. induction s as [|c s IH]; intros H; [done|]. cbn [lstrip_by]. destruct (p c); [apply IH; by eapply rstrip_tail|done]. Qed.
Lemma lstrip_tidy s : tidy false s = true → tidy true (lstrip_char "-" s) = true.
Proof.
  unfold lstrip_char. destruct s as [|c s]; [done|]. cbn [lstrip_by tidy]. destruct (slug_char c) eqn:Ec.
  - intros H. destruct (is_char "-" c) eqn:Ed; [unfold is_char in Ed; apply bool_decide_eq_true in Ed as ->; done|]. cbn [tidy]. by rewrite Ec.
  - rewrite andb_true_r. intros [Hc H]%andb_true_iff. rewrite Hc. clear Hc. destruct s as [|c' s]; [done|]. cbn [lstrip_by].
    destruct (is_char "-" c') eqn:Ed; [|done]. unfold is_char in Ed. apply bool_decide_eq_true in Ed as ->. cbn [tidy] in H. by rewrite dash_no_slug, andb_false_r in H.
Qed.
Lemma lstrip_id s : tidy true s = true → lstrip_char "-" s = s.
Proof.
  unfold lstrip_char. destruct s as [|c s]; [done|]. cbn [lstrip_by tidy]. destruct (is_char "-" c) eqn:Ed; [|done].
  unfold is_char in Ed. apply bool_decide_eq_true in Ed as ->. by rewrite dash_no_slug, andb_false_r.
Qed.
Lemma lower_slug c : slug_char c = true ∨ c = "-"%char → lower_char c = c.
Proof. intros [H| ->]; [|reflexivity]. destruct c as [[] [] [] [] [] [] [] []]; first [reflexivity|discriminate H]. Qed.
Lemma lower_tidy g s : tidy g s = true → lower s = s.
Proof.
  unfold lower. revert g. induction s as [|c s IH]; intros g; [done|]. cbn [tidy smap]. destruct (slug_char c) eqn:Ec.
  - intros H. rewrite (IH _ H). by rewrite lower_slug by (by left).
  - intros [[Hc _]%andb_true_iff H]%andb_true_iff. rewrite (IH _ H). unfold is_char in Hc. apply bool_decide_eq_true in Hc as ->. by rewrite lower_slug by (by right).
Qed.
Lemma slug_of_form s : slug_form (slug_of s).
Proof.
  unfold slug_of, slug_form. split.
  - apply lstrip_tidy, rstrip_tidy, dashes_tidy.
  - apply lstrip_rstripped, rstrip_twice.
Qed.
Lemma slug_of_id s : slug_form s → slug_of s = s.
Proof.
  intros [Ht Hr]. unfold slug_of. rewrite (lower_tidy _ _ Ht).
  assert (tidy false s = true) as Hf.
  { destruct s as [|c s]; [done|]. cbn [tidy] in *. destruct (slug_char c); [done|]. by rewrite andb_false_r in Ht. }
  rewrite (dashes_id _ _ Hf), Hr. by apply lstrip_id.
Qed.

Lemma free_among_take n d l : free_among n d l = take n (filter (λ c, taken d c = false) l).
Proof.
  revert n. induction l as [|c l IH]; intros [|n]; cbn [free_among]; try done. rewrite filter_cons. destruct (taken d c) eqn:E.
  - rewrite decide_False by done. apply (IH (S n)).
  - rewrite decide_True by done. cbn [take]. by rewrite IH.
Qed.
Lemma taken_spec d s : taken d s = true ↔ s ∈ (λ p, pl_slug (pg_row p)) <$> ct_plugins (d_cat d).
Proof.
  unfold taken. rewrite existsb_exists, list_elem_of_fmap. split; intros (p & H); exists p.
  - destruct H as [Hp H%bool_decide_eq_true]. by rewrite list_elem_of_In.
  - destruct H as [-> H]. rewrite <- list_elem_of_In. by rewrite bool_decide_eq_true_2.
Qed.

Lemma live_slugs_slugs s d : s ∈ live_slugs d → s ∈ (λ p, pl_slug (pg_row p)) <$> ct_plugins (d_cat d).
Proof. unfold live_slugs. intros (p & -> & H)%list_elem_of_fmap. apply list_elem_of_filter in H as [_ H]. apply list_elem_of_fmap. eauto. Qed.

(** The slug checked is made of letters, digits and single dashes inside,
    and is the text itself when that has this form; it is free exactly when no
    plugin has it, in which case a plugin created with it keeps the slugs
    unique; the alternatives are at most three free extensions of it, and there
    is one unless all five are taken. *)
Theorem slug_check_sound slug d :
  ∃ s available alternatives, api_check_slug slug d = Reply 200 [("available", JBool available); ("slug", JStr s); ("alternatives", JArr (JStr <$> alternatives))] ∧
    slug_form s ∧ (slug_form slug → s = slug) ∧
    (available = true ↔ s ≠ "" ∧ s ∉ (λ p, pl_slug (pg_row p)) <$> ct_plugins (d_cat d)) ∧
    (available = true → NoDup (live_slugs d) → NoDup (s :: live_slugs d)) ∧
    Forall (λ a, taken d a = false ∧ ∃ x, x ∈ suffixes ∧ a = s +:+ x) alternatives ∧ (List.length alternatives ≤ 3)%nat ∧
    (alternatives = [] → available = true ∨ s = "" ∨ Forall (λ x, taken d (s +:+ x) = true) suffixes).
Proof.
  unfold api_check_slug. pose proof (slug_of_form slug) as Hf. pose proof (slug_of_id slug) as Hi. set (s := slug_of slug) in *.
  destruct (truthy_str s) eqn:Es; cbn [negb].
  2: { apply truthy_str_false in Es. exists "", false, []. rewrite Es in *. split_and!; try done; [naive_solver|cbn; lia|by right; left]. }
  apply truthy_str_true in Es. pose proof (taken_spec d s) as Ht. destruct (taken d s) eqn:Et; cbn [negb].
  - eexists s, false, _. split; [reflexivity|]. split_and!; [done|done|naive_solver|done| | |].
    + rewrite free_among_take. apply Forall_take, Forall_forall. intros a [Ha Hin]%list_elem_of_filter. split; [done|].
      apply list_elem_of_fmap in Hin as (x & -> & Hx). eauto.
    + rewrite free_among_take, length_take. lia.
    + rewrite free_among_take. intros H. right. right. apply Forall_forall. intros x Hx. destruct (taken d (s +:+ x)) eqn:E; [done|].
      assert (Hin : s +:+ x ∈ filter (λ c, taken d c = false) ((λ s0, s +:+ s0) <$> suffixes)).
      { apply list_elem_of_filter. split; [done|]. apply list_elem_of_fmap. eauto. }
      destruct (filter _ _); [by apply elem_of_nil in Hin|done].
  - eexists s, true, []. split; [reflexivity|]. assert (s ∉ (λ p, pl_slug (pg_row p)) <$> ct_plugins (d_cat d)) as Hn by (intros H; by apply Ht in H).
    split_and!; [done|done|done| |constructor|cbn; lia|by left]. intros _ Hl. constructor; [|done]. intros H. by apply Hn, live_slugs_slugs.
Qed.

(** *** Migrated templates *)
Lemma dget_differing k d c : dict_wf c → dget k (differing d c) = match dget k c with Some v => if py_equal (jget k d) v then None else Some v | None => None end.
Proof.
  unfold differing, dict_wf. induction c as [|[k' v] c IH]; [done|]. intros Hn. inversion Hn as [|? ? Hk Hc]; subst. rewrite filter_cons. cbn [fst snd dget].
  destruct (decide (k = k')) as [->|Hne].
  - destruct (py_equal (jget k' d) v) eqn:E.
    + rewrite decide_False by done. rewrite (IH Hc). destruct (dget k' c) eqn:Ec; [|done]. apply dget_Some_elem in Ec. destruct Hk. unfold dkeys. apply list_elem_of_fmap. by exists (k', j).
    + rewrite decide_True by done. cbn [dget]. by rewrite decide_True.
  - destruct (py_equal (jget k' d) v) eqn:E; [rewrite decide_False by done; apply (IH Hc)|rewrite decide_True by done]. cbn [dget]. rewrite decide_False by done. apply (IH Hc).
Qed.
Definition platform_keys : list string := _PLATFORM_DEFAULTS.*1.
Lemma differing_wf d c : dict_wf c → dict_wf (differing d c).
Proof.
  unfold dict_wf, differing, dkeys. induction c as [|kv c IH]; [done|]. cbn [fmap list_fmap]. intros [Hn Hc]%NoDup_cons.
  rewrite filter_cons. case_decide; [|by apply IH]. cbn [fmap list_fmap]. apply NoDup_cons. split; [|by apply IH].
  intros (x & Hx & [_ Hin]%list_elem_of_filter)%list_elem_of_fmap. apply Hn. rewrite Hx. by apply list_elem_of_fmap_2.
Qed.
Lemma fill_fold_dget k l s : k ∉ l.*1 →
  dget k (foldl (λ s (kp : string * string), if unset (jget kp.1 s) then dset kp.1 (JStr kp.2) s else s) s l) = dget k s.
Proof.
  revert s. induction l as [|[k' v] l IH]; intros s H; [done|]. cbn [foldl fst snd]. rewrite IH by (cbn in H; set_solver).
  destruct (unset _); [|done]. apply dget_dset_ne. cbn in H. set_solver.
Qed.
Lemma fill_section_dget k s : k ∉ platform_keys → dget k (fill_section s) = dget k s.
Proof. apply fill_fold_dget. Qed.
Lemma fill_section_wf s : dict_wf s → dict_wf (fill_section s).
Proof.
  unfold fill_section. revert s. induction _PLATFORM_DEFAULTS as [|[k v] l IH]; intros s H; [done|]. cbn [foldl]. apply IH.
  destruct (unset _); [by apply dset_wf|done].
Qed.

(** The section of a profile once the platform defaults are in, and what a
    configuration of that profile then holds. *)
Definition final_section (d c : list (string * json)) : list (string * json) :=
  match differing d c with [] => [] | e => fill_section e end.
Lemma final_section_dget k d c : dict_wf c → k ∉ platform_keys →
  dget k (final_section d c) = match dget k c with Some v => if py_equal (jget k d) v then None else Some v | None => None end.
Proof.
  intros Hc Hk. rewrite <- (dget_differing k d c Hc). unfold final_section. destruct (differing d c) as [|kv e]; [done|].
  by rewrite fill_section_dget.
Qed.
Lemma final_section_wf d c : dict_wf c → dict_wf (final_section d c).
Proof.
  intros Hc. unfold final_section. pose proof (differing_wf d c Hc). destruct (differing d c); [done|]. by apply fill_section_wf.
Qed.

Section preserved.
Variables (files : string → option string) (config_dir repo_root device slug : string).
Notation file_config := (file_config files config_dir repo_root).
Notation file_template := (file_template files config_dir repo_root).

(** What the template says of a profile, after the platform defaults. *)
Lemma file_template_sections t d prof c :
  file_template device slug = Ok t → file_config "dev" device slug = Ok (JObj d) → prof = "int" ∨ prof = "prod" →
  file_config prof device slug = Ok (JObj c) →
  jget_or "default" (_apply_platform_defaults t) (JObj []) = JObj d ∧
  jget_or prof (_apply_platform_defaults t) (JObj []) = JObj (final_section d c).
Proof.
  assert (Hs : ∀ l di, section_of (JObj d) (JObj l) = Ok di → di = differing d l) by (intros [|kv l] di; by intros [= <-]).
  unfold Wizard.file_template, add_section. intros H Hd Hp Hc. rewrite Hd in H. cbn [rbind] in H.
  destruct (file_config "int" device slug) as [i|] eqn:Ei; [|done]. cbn [rbind] in H.
  destruct (section_of (JObj d) i) as [di|] eqn:Edi; [|done]. cbn [rbind] in H.
  destruct (file_config "prod" device slug) as [p|] eqn:Ep; [|done]. cbn [rbind] in H.
  destruct (section_of (JObj d) p) as [dp|] eqn:Edp; [|done]. cbn [rbind] in H. injection H as <-.
  destruct Hp as [-> | ->].
  - rewrite Ei in Hc. injection Hc as ->. rewrite (Hs _ _ Edi). unfold final_section. destruct (differing d c), dp; split; reflexivity.
  - rewrite Ep in Hc. injection Hc as ->. rewrite (Hs _ _ Edp). unfold final_section. destruct di, (differing d c); split; reflexivity.
Qed.

(** A template migrated from files gives, for the integration and production
    profiles, the values of their files, and the values of the development file
    for the keys that they do not have; the keys of the platform, the feature
    switches and the description apart. *)
Theorem migration_preserves t d prof c :
  file_template device slug = Ok t → file_config "dev" device slug = Ok (JObj d) → prof = "int" ∨ prof = "prod" →
  file_config prof device slug = Ok (JObj c) → dict_wf c →
  ∃ cfg r, _build_config_from_template (JObj (_apply_platform_defaults t)) prof = Ok cfg ∧ config_of cfg = Some r ∧
    ∀ k, k ∉ platform_keys → k ≠ "featureToggles" → k ≠ "_description" →
      (k ∈ dkeys c → jget k r = jget k c ∨ py_equal (jget k r) (jget k c) = true) ∧ (k ∉ dkeys c → jget k r = jget k d).
Proof.
  intros Ht Hd Hp Hc Hwf. destruct (file_template_sections t d prof c Ht Hd Hp Hc) as [H1 H2].
  unfold _build_config_from_template. rewrite H1, H2. cbn [rbind]. set (e := final_section d c).
  eexists _, _. split; [reflexivity|]. split; [reflexivity|]. intros k Hk Hf Hn.
  assert (E : ∀ m, (m = dupdate d e ∨ ∃ v, m = dset "featureToggles" v (dupdate d e)) →
    jget k (dpop "_description" m) = match dget k c with Some v => if py_equal (jget k d) v then jget k d else v | None => jget k d end).
  { intros m Hm. unfold jget at 1. rewrite dget_dpop_ne by done.
    assert (dget k m = dget k (dupdate d e)) as -> by (destruct Hm as [->|[v ->]]; [done|by apply dget_dset_ne]).
    rewrite dupdate_dget by (by apply final_section_wf). unfold e. rewrite final_section_dget by done. unfold jget.
    destruct (dget k c) as [v|]; [|done]. by destruct (py_equal _ v). }
  match goal with |- context [dpop "_description" ?m] => specialize (E m) end. rewrite E.
  2: { destruct (jget "featureToggles" d); try (by left). destruct (jget "featureToggles" e); try (by left). right. eauto. }
  clear E. split; intros Hin.
  - destruct (dget k c) as [v|] eqn:Ek; [|by apply dget_None in Ek]. assert (jget k c = v) as -> by (unfold jget; by rewrite Ek).
    destruct (py_equal (jget k d) v) eqn:Ev; [by right|by left].
  - apply dget_None in Hin. by rewrite Hin.
Qed.
End preserved.

(** ** Examples *)
Module Demo.
Definition q (s : string) : string := String dquote (s +:+ String dquote "").
Definition bare_plugin (i : Z) (slug : string) (template : json) : plugin :=
  Plugin (PluginRow i slug "firefox" "active" template (Some "open") None) slug (JArr []) None None None default_info.
Definition bare_db (ps : list plugin) : adb :=
  Adb (Catalog ps [] [] [] [] 1 1 1) (Life.State [] 1) [] (Service.State [] [] 1) (FlagState [] [] 1) [] [] [] [] [] [] [] [] [] 10.

(** The version of the file name is said to come from the package. *)
Example version_of_file_name :
  found_version (λ _, None) id "not an archive" "mirai-1.2.3.oxt" = Ok (JStr "1.2.3") ∧
  match api_extract_version (λ _, None) id "not an archive" "mirai-1.2.3.oxt" with
  | Ok (Reply 200 body) => dget "source" body = Some (JStr "package") ∧ dget "valid" body = Some (JBool false)
  | _ => False
  end.
Proof. vm_compute. done. Qed.
(** A manifest that is no JSON is an error of the server, not a refusal. *)
Example broken_manifest :
  api_extract_version (λ _, Some [Member "manifest.json" 1 (Data "{")]) id "zip" "a.xpi" = Err (Exc "Expecting value").
Proof. vm_compute. reflexivity. Qed.
Definition manifest_ex : json := JObj [("version", JStr "2.0"); ("permissions", JArr [JStr "messengerTabs"])].
Definition notes_ex : json := JObj [("changelog", JArr [JObj [("version", JStr "2.0"); ("changes", JArr [JStr "Faster"; JInt 2])]])].
Example thunderbird_package :
  match api_extract_version (λ _, Some [Member "manifest.json" 9 (Data (dumps manifest_ex)); Member "d/DM-manifest.json" 9 (Data (dumps notes_ex))]) id "zip" "a.xpi" with
  | Ok (Reply 200 body) => dget "version" body = Some (JStr "2.0") ∧ dget "device_type" body = Some (JStr "matisse") ∧
      dget "release_notes" body = Some (JStr ("- Faster" +:+ String "010" "- 2")) ∧ dget "valid" body = Some (JBool true)
  | _ => False
  end.
Proof. vm_compute. done. Qed.
(** The slug of a removed plugin counts as taken, although it may be used again. *)
Example removed_is_taken :
  let removed := Plugin (PluginRow 1 "mirai" "firefox" "removed" JNull None None) "mirai" (JArr []) None None None default_info in
  api_check_slug "--Mirai!!" (bare_db [removed]) =
    Reply 200 [("available", JBool false); ("slug", JStr "mirai"); ("alternatives", JArr [JStr "mirai-2"; JStr "mirai-v2"; JStr "mirai-new"])] ∧
  live_slugs (bare_db [removed]) = [].
Proof. vm_compute. done. Qed.

(** *** Migration *)
Definition files_of (dev prod : json) : string → option string := λ path,
  if bool_decide (path = "cfg/mirai/config.dev.json") then Some (dumps (JObj [("config", dev)]))
  else if bool_decide (path = "cfg/mirai/config.prod.json") then Some (dumps (JObj [("config", prod)]))
  else None.
Definition dev_ex : list (string * json) := [("llm_base_urls", JStr "https://llm.example"); ("theme", JStr "dark"); ("beta", JBool true)].
Definition prod_ex : list (string * json) := [("llm_base_urls", JStr "https://llm.example"); ("theme", JStr "light")].
Definition files_ex := files_of (JObj dev_ex) (JObj prod_ex).
Definition template_ex : list (string * json) :=
  match file_template files_ex "cfg" "." "firefox" "mirai" with Ok t => t | Err _ => [] end.
Lemma migration_preserves_witness :
  ∃ cfg r, _build_config_from_template (JObj (_apply_platform_defaults template_ex)) "prod" = Ok cfg ∧ config_of cfg = Some r ∧
    ∀ k, k ∉ platform_keys → k ≠ "featureToggles" → k ≠ "_description" →
      (k ∈ dkeys prod_ex → jget k r = jget k prod_ex ∨ py_equal (jget k r) (jget k prod_ex) = true) ∧ (k ∉ dkeys prod_ex → jget k r = jget k dev_ex).
Proof.
  apply (migration_preserves files_ex "cfg" "." "firefox" "mirai" template_ex dev_ex "prod" prod_ex);
    [vm_compute; reflexivity|vm_compute; reflexivity|by right|vm_compute; reflexivity|].
  apply (bool_decide_unpack _). reflexivity.
Defined.
(** A platform key that production shares with the default section is left out
    of the production section, then taken for missing and replaced. *)
Example platform_key_replaced :
  match _build_config_from_template (JObj (_apply_platform_defaults template_ex)) "prod" with
  | Ok cfg => jget "llm_base_urls" (default [] (config_of cfg)) = JStr "${{LLM_BASE_URL}}" ∧ jget "beta" (default [] (config_of cfg)) = JBool true
  | Err _ => False
  end.
Proof. vm_compute. done. Qed.
(** A template that the database refuses aborts the transaction: the migration
    of the plugins before it is reported, and undone. *)
Definition drv_ex : driver := Driver (λ _, None) (λ _, None) (λ t, Some t) (λ _, true).
Definition cl_ex : call := Call [("email", "ana@example.org"); ("sub", "ana")] (Some "10.0.0.1") 1000.
Definition poisoned : string → option string := λ path,
  if bool_decide (path = "cfg/bad/config.dev.json") then Some (dumps (JObj [("config", JObj [("key", JStr (String (chr 0) ""))])])) else None.
Definition two_plugins : adb := bare_db [bare_plugin 1 "good" JNull; bare_plugin 2 "bad" JNull].
Example migration_lost :
  let '(r, d) := catalog_migrate_config_templates drv_ex cl_ex poisoned "cfg" "." two_plugins in
  d = two_plugins ∧
  r = Ok (Reply 200 [("migrated", JArr [JObj [("slug", JStr "good"); ("status", JStr "migrated")]]);
                     ("errors", JArr [JObj [("slug", JStr "bad"); ("error", JStr "unsupported Unicode escape sequence")]])]).
Proof. vm_compute. done. Qed.
End Demo.
