(* ===== verification/PublicCatalog.v ===== *)
(** * The public catalogue
    Of [app/main.py]: [api_public_plugins], [api_public_plugin_detail], the icons
    with [_resolve_plugin_icon], [api_catalog_status], and the pages
    [catalog_index] and [catalog_detail] up to the template that prints them.
    Texts are ordered by their bytes, as under the collation [C]. *)
From S2P Require Import Prelude Text Json Effects Base64 Campaigns Config Cohorts Flags GetConfig Catalog AuditLog AdminDb AdminRoutes AdminSettings Download.
From stdpp Require Import sorting.
From Stdlib Require Import Ascii String.
Open Scope Z_scope.

(** [base64.b64decode]: the standard alphabet, in which [-] and [_] are skipped. *)
Fixpoint drop_urlsafe (s : string) : string :=
  match s with "" => "" | String c r => if is_char "-" c || is_char "_" c then drop_urlsafe r else String c (drop_urlsafe r) end.
Definition b64decode (s : string) : option string := if is_ascii s then urlsafe_b64decode (drop_urlsafe s) else None.

Definition _MIME_TO_EXT : list (string * string) := [("image/png", "png"); ("image/jpeg", "jpg"); ("image/svg+xml", "svg"); ("image/webp", "webp")].
Definition _EXT_TO_MIME : list (string * string) := (λ kv : string * string, (kv.2, kv.1)) <$> _MIME_TO_EXT.
Definition maturity_labels : list (string * string) :=
  [("dev", "Dev"); ("alpha", "Alpha"); ("beta", "Beta"); ("pre-release", "Pre-release"); ("release", "Stable")].

(** The database read: the catalogue and the installations; [None]: it is not
    configured. [c_updated] prints the date of a row. *)
Record shelf : Type := Shelf { c_cat : catalog; c_installs : list installation; c_updated : plugin → option string }.
Inductive page : Type :=
| PJson (status : Z) (body : list (string * json)) (headers : list (string * string))
| PTemplate (name : string) (context : list (string * json))
| PBytes (media_type content : string) (headers : list (string * string))
| PMoved (status : Z) (url : string).

(** ** Rows *)
Definition listed (p : plugin) : bool :=
  bool_decide (pl_status (pg_row p) = "active") && bool_decide (pi_visibility (pg_info p) ∈ ["public"; "internal"]).
Definition name_le (p q : plugin) : Prop := str_ltb (pg_name q) (pg_name p) = false.
#[export] Instance name_le_dec p q : Decision (name_le p q).
Proof. unfold name_le. apply _. Defined.
(** [ORDER BY p.name] *)
Definition listed_plugins (c : catalog) : list plugin := merge_sort name_le (filter (λ p, listed p = true) (ct_plugins c)).
(** [COUNT(DISTINCT client_uuid) FILTER (WHERE status = 'active')] *)
Definition install_count (l : list installation) (plugin_id : Z) : Z :=
  Z.of_nat (List.length (remove_dups (in_client <$> filter (λ i, in_plugin i = plugin_id ∧ in_status i = "active") l))).
(** [MAX(version) FILTER (WHERE status = 'published')], the order of texts *)
Fixpoint max_text (l : list string) : option string :=
  match l with
  | [] => None
  | v :: r => match max_text r with Some w => Some (if str_ltb v w then w else v) | None => Some v end
  end.
Definition published_versions (c : catalog) (plugin_id : Z) : list version_row := filter (λ v, published_of plugin_id v = true) (ct_versions c).
Definition latest_text (c : catalog) (plugin_id : Z) : option string := max_text (vr_version <$> published_versions c plugin_id).
(** [ORDER BY published_at DESC LIMIT 1]: a row without a date comes first. *)
Definition latest_dated (c : catalog) (plugin_id : Z) : option version_row :=
  let vs := published_versions c plugin_id in
  match find (λ v, match vr_published v with None => true | Some _ => false end) vs with
  | Some v => Some v
  | None => first_max (λ v, default 0 (vr_published v)) vs
  end.
Definition active_plugin (c : catalog) (slug : string) : option plugin :=
  find (λ p, bool_decide (pl_slug (pg_row p) = slug ∧ pl_status (pg_row p) = "active")) (ct_plugins c).
Definition key_features (p : plugin) : result exc json :=
  let kf := jor (pi_features (pg_info p)) (JArr []) in
  match kf with JStr s => match loads s with Some v => Ok v | None => Err (Exc "Expecting value") end | _ => Ok kf end.
(** The type of an icon kept as a data URL. *)
Definition icon_mime (url : string) : string := List.hd "" (split_on ";" (nth 1 (split_on ":" url) "")).
Definition icon_ext (mime : string) : string := default "png" (dget mime _MIME_TO_EXT).
Definition icon_of (base : string) (p : plugin) : option string :=
  let raw := default "" (pg_icon_url p) in
  let at_ := base +:+ "/catalog/api/plugins/" +:+ pl_slug (pg_row p) +:+ "/icon" in
  if starts_with "data:" raw then Some (at_ +:+ "." +:+ icon_ext (icon_mime raw))
  else if truthy_str raw || truthy_str (default "" (pi_icon_path (pg_info p))) then Some at_
  else None.
Definition opt_text (s : option string) : json := match s with Some t => JStr t | None => JNull end.
Definition public_base (base : string) : string := rstrip_char "/" base.
Definition public_headers : list (string * string) := [("Access-Control-Allow-Origin", "*"); ("Cache-Control", "public, max-age=300")].
(** The fields that the list and the page of a plugin share. *)
Definition common (kf : json) (icon : option string) (latest : option string) (installs : Z) (p : plugin) : list (string * json) :=
  let r := pg_row p in let i := pg_info p in
  [("slug", JStr (pl_slug r)); ("name", JStr (pg_name p)); ("intent", JStr (pi_intent i)); ("device_type", JStr (pl_device_type r));
   ("category", JStr (pi_category i)); ("publisher", JStr (str_or (pi_publisher i) "DNUM")); ("maturity", JStr (str_or (pi_maturity i) "release"));
   ("maturity_label", JStr (default "Stable" (dget (pi_maturity i) maturity_labels))); ("icon_url", opt_text icon);
   ("latest_version", opt_text latest); ("install_count", JInt installs); ("key_features", kf)].
Definition links (base : string) (p : plugin) : list (string * json) :=
  [("detail_url", JStr (base +:+ "/catalog/" +:+ pl_slug (pg_row p))); ("download_url", JStr (base +:+ "/catalog/" +:+ pl_slug (pg_row p) +:+ "/download"))].
Definition more (p : plugin) : list (string * json) :=
  let i := pg_info p in
  [("source_url", opt_text (pi_source i)); ("homepage_url", JStr (pi_homepage i)); ("support_email", JStr (pi_support i)); ("doc_url", JStr (pi_doc i));
   ("license", JStr (pi_license i))].

(** ** Handlers *)
Section handlers.
Variables (base_url : string) (now : string) (s : option shelf).

Definition list_entry (sh : shelf) (p : plugin) : result exc (list (string * json)) :=
  let base := public_base base_url in
  let* kf := key_features p in
  Ok ([("id", JInt (p_id p))] ++
      common kf (icon_of base p) (latest_text (c_cat sh) (p_id p)) (install_count (c_installs sh) (p_id p)) p ++
      [("access_mode", JStr (str_or (default "" (pl_access_mode (pg_row p))) "open")); ("source_url", opt_text (pi_source (pg_info p)))] ++ links base p).
Definition api_public_plugins : result exc page :=
  match s with
  | None => Ok (PJson 200 [("plugins", JArr []); ("total", JInt 0)] [("Access-Control-Allow-Origin", "*")])
  | Some sh =>
      let* plugins := mapR (list_entry sh) (listed_plugins (c_cat sh)) in
      Ok (PJson 200 [("plugins", JArr (JObj <$> plugins)); ("total", JInt (Z.of_nat (List.length plugins))); ("generated_at", JStr now)] public_headers)
  end.
Definition not_found {A} (detail : string) : result exc A := Err (Http (HttpError 404 detail)).
Definition detail_entry (sh : shelf) (p : plugin) : result exc (list (string * json)) :=
  let base := public_base base_url in
  let v := latest_dated (c_cat sh) (p_id p) in
  let* kf := key_features p in
  Ok ([("id", JInt (p_id p))] ++
      common kf (icon_of base p) (vr_version <$> v) (install_count (c_installs sh) (p_id p)) p ++
      [("description", JStr (pi_description (pg_info p))); ("access_mode", JStr (str_or (default "" (pl_access_mode (pg_row p))) "open"));
       ("changelog_summary", JStr (stake 200 (default "" (v ≫= vr_notes))))] ++ more p ++ links base p).
Definition api_public_plugin_detail (slug : string) : result exc page :=
  match s with
  | None => not_found "Not Found"
  | Some sh =>
      match active_plugin (c_cat sh) slug with
      | None => not_found "Not Found"
      | Some p => let* body := detail_entry sh p in Ok (PJson 200 body public_headers)
      end
  end.

(** *** Icons *)
Definition _resolve_plugin_icon (slug : string) : option (string * string) :=
  match (match s with Some sh => active_plugin (c_cat sh) slug | None => None end) ≫= pg_icon_url with
  | Some url =>
      if starts_with "data:" url then
        match split_once "," url with
        | Some (header, b64data) =>
            match split_on ":" header with
            | _ :: m :: _ => (λ raw, (raw, List.hd "" (split_on ";" m))) <$> b64decode b64data
            | _ => None
            end
        | None => None
        end
      else None
  | None => None
  end.
Definition api_public_plugin_icon_ext (slug ext : string) : result exc page :=
  match _resolve_plugin_icon slug with
  | Some (raw, mime) =>
      Ok (PBytes (default mime (dget ext _EXT_TO_MIME)) raw [("Cache-Control", "public, max-age=86400"); ("Access-Control-Allow-Origin", "*")])
  | None => not_found "Icon not found"
  end.
Definition api_public_plugin_icon (slug : string) : result exc page :=
  match _resolve_plugin_icon slug with
  | Some (_, mime) => Ok (PMoved 301 ("/catalog/api/plugins/" +:+ slug +:+ "/icon." +:+ icon_ext mime))
  | None => not_found "Icon not found"
  end.

(** *** State and pages *)
(** [reachable]: a connection opens; [None]: there is no driver. *)
Definition api_catalog_status (reachable : option bool) : page :=
  let ok := match reachable with Some b => b | None => true end in
  PJson 200 [("status", JStr (if ok then "ok" else "degraded"));
             ("status_label", JStr (if ok then "Tous les services sont operationnels" else "Service degrade"));
             ("services", JObj [("api", JStr "ok"); ("database", JStr (if ok then "ok" else "error"))])]
    [("Access-Control-Allow-Origin", "*"); ("Cache-Control", "public, max-age=30")].
Definition index_entry (sh : shelf) (p : plugin) : result exc (list (string * json)) :=
  let* kf := key_features p in
  Ok (common kf (icon_of "" p) (latest_text (c_cat sh) (p_id p)) (install_count (c_installs sh) (p_id p)) p).
Definition categories (ps : list plugin) : list string :=
  py_sorted (filter (λ c, c ≠ "") (remove_dups ((λ p, pi_category (pg_info p)) <$> ps))).
Definition in_category (category : option string) (p : plugin) : bool :=
  match category with
  | Some c => if truthy_str c then bool_decide (lower (pi_category (pg_info p)) = lower c) else true
  | None => true
  end.
Definition catalog_index (category : option string) : result exc page :=
  match s with
  | None => Ok (PTemplate "catalog_index.html" [("plugins", JArr []); ("categories", JArr []); ("current_category", JNull); ("total_installs", JInt 0)])
  | Some sh =>
      let rows := listed_plugins (c_cat sh) in
      let shown := filter (λ p, in_category category p = true) rows in
      let* plugins := mapR (index_entry sh) shown in
      Ok (PTemplate "catalog_index.html"
        [("plugins", JArr (JObj <$> plugins)); ("categories", JArr (JStr <$> categories rows)); ("current_category", opt_text category);
         ("total_installs", JInt (zsum (λ p, install_count (c_installs sh) (p_id p)) shown))])
  end.
Definition catalog_detail (slug : string) : result exc page :=
  match s with
  | None => not_found "Not Found"
  | Some sh =>
      match active_plugin (c_cat sh) slug with
      | None => not_found "Plugin introuvable"
      | Some p =>
          let v := latest_dated (c_cat sh) (p_id p) in
          let* kf := key_features p in
          let plugin := common kf (icon_of "" p) (vr_version <$> v) (install_count (c_installs sh) (p_id p)) p ++
            [("description", JStr (pi_description (pg_info p))); ("changelog_summary", JStr (default "" (v ≫= vr_notes)))] ++ more p ++
            [("updated_at", opt_text (c_updated sh p))] in
          Ok (PTemplate "catalog_detail.html" [("plugin", JObj plugin); ("file_ext", opt_text (dget (pl_device_type (pg_row p)) _DEVICE_TYPE_EXT))])
      end
  end.
End handlers.
