(* ===== verification/PublicFacts.v ===== *)
(** * Facts about the public catalogue
    What the list shows, how it agrees with the page of a plugin, and the icons. *)
From S2P Require Import Prelude Text Json Effects Base64 Campaigns Config Cohorts Flags GetConfig Catalog AuditLog AdminDb AdminRoutes AdminSettings Download PublicCatalog.
From stdpp Require Import sorting.
From Stdlib Require Import Ascii String.
Open Scope Z_scope.

(** ** Standard base64 *)
Lemma b64_val_std c : b64_val (std_char c) = b64_val c ∧ is_char "=" (std_char c) = is_char "=" c.
Proof. destruct c as [[] [] [] [] [] [] [] []]; vm_compute; done. Qed.
Lemma a2b_std q left pads s : a2b_go q left pads (smap std_char s) = a2b_go q left pads s.
Proof.
  revert q left pads. induction s as [|c s IH]; intros q left pads; [done|]. cbn [smap a2b_go]. destruct (b64_val_std c) as [-> ->].
  destruct (is_char "=" c); [by rewrite !IH|]. destruct (b64_val c); [|apply IH]. by rewrite !IH.
Qed.
Lemma drop_std s : drop_urlsafe (smap std_char s) = smap std_char s.
Proof.
  induction s as [|c s IH]; [done|]. cbn [smap drop_urlsafe].
  assert (is_char "-" (std_char c) || is_char "_" (std_char c) = false) as ->; [|by rewrite IH].
  destruct c as [[] [] [] [] [] [] [] []]; vm_compute; done.
Qed.
Lemma std_ascii s : is_ascii s = true → is_ascii (smap std_char s) = true.
Proof.
  unfold is_ascii. induction s as [|c s IH]; [done|]. cbn [smap sforall]. intros [Hc H]%andb_true_iff. rewrite (IH H), andb_true_r.
  unfold std_char. by destruct (is_char "-" c), (is_char "_" c).
Qed.
Lemma b64_roundtrip b : b64decode (b64encode b) = Some b.
Proof.
  unfold b64decode, b64encode. rewrite std_ascii by apply urlsafe_b64encode_ascii. rewrite drop_std. unfold urlsafe_b64decode. rewrite a2b_std.
  apply urlsafe_b64_roundtrip.
Qed.

Lemma b64_char_no_colon n : 0 ≤ n < 64 → negb (is_char ":" (std_char (b64_char n))) = true.
Proof.
  intros Hn. rewrite <- (Z2Nat.id n) by lia. assert (Z.to_nat n < 64)%nat as H by lia. revert H. generalize (Z.to_nat n) as m. clear. intros m H.
  do 64 (destruct m as [|m]; [vm_compute; done|]). lia.
Qed.
Lemma b64_no_colon b : sforall (λ c, negb (is_char ":" c)) (b64encode b) = true.
Proof.
  unfold b64encode. induction b as [|x|x y|x y z r IH] using string_ind3; [done|..]; cbn [urlsafe_b64encode smap sforall];
    rewrite !b64_char_no_colon by euclid; done.
Qed.

(** ** Icons *)
Definition plain_mime (m : string) : bool := sforall (λ c, negb (is_char ":" c) && negb (is_char ";" c) && negb (is_char "," c)) m.
Lemma plain_no (d : ascii) m : (d = ":" ∨ d = ";" ∨ d = ",")%char → plain_mime m = true → sforall (λ c, negb (is_char d c)) m = true.
Proof. intros Hd. apply sforall_impl. intros c H. apply andb_true_iff in H as [[H1 H2]%andb_true_iff H3]. by destruct Hd as [->|[->| ->]]. Qed.

Section icon.
Variables (s : shelf) (p : plugin) (mime raw : string).
Hypotheses (Hmime : plain_mime mime = true) (Hicon : pg_icon_url p = Some (data_url mime raw)).

Lemma is_data_url : starts_with "data:" (data_url mime raw) = true.
Proof. unfold data_url. apply starts_with_app. Qed.
Lemma data_url_split : split_once "," (data_url mime raw) = Some ("data:" +:+ mime +:+ ";base64", b64encode raw).
Proof.
  unfold data_url. replace ("data:" +:+ mime +:+ ";base64," +:+ b64encode raw) with (("data:" +:+ mime +:+ ";base64") +:+ String "," (b64encode raw)).
  - apply split_once_app. rewrite !sforall_app, (plain_no "," mime) by (tauto || done). reflexivity.
  - by rewrite !sapp_assoc.
Qed.
Lemma header_split t : sforall (λ c, negb (is_char ":" c)) t = true → split_on ":" ("data:" +:+ mime +:+ String ";" t) = ["data"; mime +:+ String ";" t].
Proof.
  intros Ht. change ("data:" +:+ mime +:+ String ";" t) with ("data" +:+ String ":" (mime +:+ String ";" t)). rewrite split_on_app by reflexivity.
  f_equal. apply split_on_none. rewrite sforall_app, (plain_no ":" mime) by (tauto || done). cbn [sforall]. by rewrite Ht.
Qed.
Lemma mime_split t : List.hd "" (split_on ";" (mime +:+ String ";" t)) = mime.
Proof. rewrite split_on_app; [done|]. apply plain_no; [tauto|done]. Qed.
Lemma resolve_icon slug : active_plugin (c_cat s) slug = Some p → _resolve_plugin_icon (Some s) slug = Some (raw, mime).
Proof.
  intros Hp. unfold _resolve_plugin_icon. rewrite Hp. cbn [mbind option_bind]. rewrite Hicon.
  rewrite is_data_url, data_url_split.
  change (mime +:+ ";base64") with (mime +:+ String ";" "base64"). rewrite header_split by reflexivity. by rewrite mime_split, b64_roundtrip.
Qed.
Lemma announced_icon base : icon_of base p = Some (base +:+ "/catalog/api/plugins/" +:+ pl_slug (pg_row p) +:+ "/icon." +:+ icon_ext mime).
Proof.
  unfold icon_of. rewrite Hicon. change (default "" (Some (data_url mime raw))) with (data_url mime raw). rewrite is_data_url.
  unfold icon_mime, data_url. change (mime +:+ ";base64," +:+ b64encode raw) with (mime +:+ String ";" ("base64," +:+ b64encode raw)).
  rewrite header_split by (rewrite sforall_app, b64_no_colon; reflexivity). cbn [nth]. rewrite mime_split. by rewrite !sapp_assoc.
Qed.
End icon.

(** The type announced is the one served. *)
Lemma ext_roundtrip mime : mime ∈ logo_mimes.*2 → dget (icon_ext mime) _EXT_TO_MIME = Some mime ∧ plain_mime mime = true.
Proof. intros H. cbn in H. repeat (apply elem_of_cons in H as [->|H]; [vm_compute; done|]). by apply elem_of_nil in H. Qed.

(** An icon that the administration stores as a data URL is announced with
    the extension of its type, the plain address leads there, and what is served
    under it is the bytes uploaded with the type uploaded. *)
Theorem icon_roundtrip base_url slug s p mime raw :
  active_plugin (c_cat s) slug = Some p → mime ∈ logo_mimes.*2 → pg_icon_url p = Some (data_url mime raw) →
  ∃ ext, icon_of (public_base base_url) p = Some (public_base base_url +:+ "/catalog/api/plugins/" +:+ slug +:+ "/icon." +:+ ext) ∧
    api_public_plugin_icon (Some s) slug = Ok (PMoved 301 ("/catalog/api/plugins/" +:+ slug +:+ "/icon." +:+ ext)) ∧
    ∃ headers, api_public_plugin_icon_ext (Some s) slug ext = Ok (PBytes mime raw headers).
Proof.
  intros Hp Hm Hi. destruct (ext_roundtrip mime Hm) as [He Hpl]. exists (icon_ext mime).
  assert (pl_slug (pg_row p) = slug) as Hslug.
  { unfold active_plugin in Hp. apply List.find_some in Hp as [_ [H _]%bool_decide_eq_true]. done. }
  split_and!.
  - rewrite (announced_icon p mime raw) by done. by rewrite Hslug.
  - unfold api_public_plugin_icon. by rewrite (resolve_icon s p mime raw).
  - eexists. unfold api_public_plugin_icon_ext. rewrite (resolve_icon s p mime raw) by done. by rewrite He.
Qed.

(** ** The list and the page of a plugin *)
Lemma listed_plugins_spec c p : p ∈ listed_plugins c ↔ p ∈ ct_plugins c ∧ pl_status (pg_row p) = "active" ∧ pi_visibility (pg_info p) ∈ ["public"; "internal"].
Proof.
  unfold listed_plugins. rewrite merge_sort_Permutation, list_elem_of_filter. unfold listed. rewrite andb_true_iff, !bool_decide_eq_true. tauto.
Qed.
Lemma max_text_single l v : l = [v] → max_text l = Some v.
Proof. by intros ->. Qed.
Lemma first_max_single {A} (f : A → Z) v : first_max f [v] = Some v.
Proof. reflexivity. Qed.
Lemma latest_single c i v : published_versions c i = [v] → latest_text c i = Some (vr_version v) ∧ latest_dated c i = Some v.
Proof. unfold latest_text, latest_dated. intros ->. cbn. by destruct (vr_published v). Qed.

Lemma find_unique c p : NoDup ((λ p, pl_slug (pg_row p)) <$> filter (λ p, pl_status (pg_row p) = "active") (ct_plugins c)) →
  p ∈ ct_plugins c → pl_status (pg_row p) = "active" → active_plugin c (pl_slug (pg_row p)) = Some p.
Proof.
  unfold active_plugin. induction (ct_plugins c) as [|q l IH]; intros Hn Hin Ha; [by apply elem_of_nil in Hin|]. cbn [find].
  rewrite filter_cons in Hn. destruct (decide (pl_status (pg_row q) = "active")) as [Hq|Hq].
  - rewrite fmap_cons, NoDup_cons in Hn. destruct Hn as [Hq' Hn]. apply elem_of_cons in Hin as [->|Hin]; [by rewrite bool_decide_eq_true_2|].
    rewrite bool_decide_eq_false_2; [by apply IH|]. intros [Hs _]. apply Hq'. rewrite Hs. apply list_elem_of_fmap. exists p. split; [done|].
    by apply list_elem_of_filter.
  - rewrite bool_decide_eq_false_2 by tauto. apply elem_of_cons in Hin as [->|Hin]; [done|by apply IH].
Qed.
Lemma entries_agree base s p e : list_entry base s p = Ok e →
  ∃ d, detail_entry base s p = Ok d ∧ (∀ k, k ∈ dkeys e → k ≠ "latest_version" → dget k d = dget k e) ∧
    (∀ v, published_versions (c_cat s) (p_id p) = [v] → dget "latest_version" d = dget "latest_version" e).
Proof.
  unfold list_entry, detail_entry. destruct (key_features p) as [kf|]; [|done]. cbn [rbind]. intros [= <-]. eexists. split; [reflexivity|]. split.
  - intros k Hk Hne. cbn in Hk. repeat (apply elem_of_cons in Hk as [->|Hk]; [first [by destruct Hne|reflexivity]|]). by apply elem_of_nil in Hk.
  - intros v Hv. destruct (latest_single _ _ _ Hv) as [H1 H2]. rewrite H1, H2. reflexivity.
Qed.

(** A page that says what the entry of the list says, but for the latest version. *)
Definition same_entry (d e : list (string * json)) : Prop := ∀ k, k ∈ dkeys e → k ≠ "latest_version" → dget k d = dget k e.
(** C34. The public list holds exactly the active plugins that are not hidden,
    counts them, and says of each what its own page says, field by field, except
    for the latest version, which agrees when one version is published. *)
Theorem public_list_agrees base now s page :
  NoDup ((λ p, pl_slug (pg_row p)) <$> filter (λ p, pl_status (pg_row p) = "active") (ct_plugins (c_cat s))) →
  api_public_plugins base now (Some s) = Ok page →
  ∃ entries, page = PJson 200 [("plugins", JArr (JObj <$> entries)); ("total", JInt (Z.of_nat (List.length entries))); ("generated_at", JStr now)] public_headers ∧
    (∀ p, p ∈ listed_plugins (c_cat s) ↔ p ∈ ct_plugins (c_cat s) ∧ pl_status (pg_row p) = "active" ∧ pi_visibility (pg_info p) ∈ ["public"; "internal"]) ∧
    Forall2 (λ p e, dget "slug" e = Some (JStr (pl_slug (pg_row p))) ∧
      ∃ d, api_public_plugin_detail base (Some s) (pl_slug (pg_row p)) = Ok (PJson 200 d public_headers) ∧
        same_entry d e ∧
        (∀ v, published_versions (c_cat s) (p_id p) = [v] → dget "latest_version" d = dget "latest_version" e))
      (listed_plugins (c_cat s)) entries.
Proof.
  intros Hn. unfold api_public_plugins. destruct (mapR (list_entry base s) (listed_plugins (c_cat s))) as [entries|] eqn:E; [|done]. cbn [rbind].
  intros [= <-]. exists entries. split; [done|]. split; [intros p; apply listed_plugins_spec|]. apply mapR_ok in E.
  assert (Hall : Forall (λ p, p ∈ ct_plugins (c_cat s) ∧ pl_status (pg_row p) = "active") (listed_plugins (c_cat s))).
  { apply Forall_forall. intros p Hp. apply listed_plugins_spec in Hp. tauto. }
  induction E as [|p e ps es He _ IH]; [constructor|]. apply Forall_cons in Hall as [[Hin Ha] Hall]. constructor; [|by apply IH].
  destruct (entries_agree base s p e He) as (d & Hd & Hk & Hv). split.
  - unfold list_entry in He. destruct (key_features p); [|done]. by injection He as <-.
  - exists d. unfold api_public_plugin_detail. rewrite find_unique by done. by rewrite Hd.
Qed.

(** ** Examples *)
Module Demo.
Definition version_ex (i : Z) (v : string) (t : Z) : version_row := VersionRow i 1 v None (Some ("notes of " +:+ v)) None None None "published" "managed" (Some t).
Definition info_ex (visibility : string) : plugin_info :=
  PluginInfo "" "Helps" (JArr [JStr "fast"]) "productivity" "" "" "" "" "" visibility None None "beta".
Definition plugin_ex (i : Z) (slug visibility : string) (icon : option string) : plugin :=
  Plugin (PluginRow i slug "firefox" "active" JNull None None) slug (JArr []) None None icon (info_ex visibility).
Definition png : string := String "137" "PNG bytes".
Definition shelf_ex : shelf :=
  Shelf (Catalog [plugin_ex 1 "mirai" "public" (Some (data_url "image/png" png)); plugin_ex 2 "secret" "hidden" None] [] []
           [version_ex 1 "1.9.0" 10; version_ex 2 "1.10.0" 20] [] 1 3 1)
    [Installation 1 "c1" "" "1.9.0" "active" 0; Installation 1 "c2" "" "1.9.0" "removed" 0] (λ _, None).
Definition one_version : shelf :=
  Shelf (Catalog [plugin_ex 1 "mirai" "public" None] [] [] [version_ex 1 "1.9.0" 10] [] 1 3 1) [] (λ _, None).
Definition body_of (r : result exc page) : list (string * json) := match r with Ok (PJson _ b _) => b | _ => [] end.
(** The list compares versions as texts; the page takes the last one published. *)
Example latest_versions_differ :
  match jget "plugins" (body_of (api_public_plugins "https://dm/" "now" (Some shelf_ex))) with
  | JArr [JObj e] => dget "latest_version" e = Some (JStr "1.9.0") ∧ dget "install_count" e = Some (JInt 1)
  | _ => False
  end ∧
  dget "latest_version" (body_of (api_public_plugin_detail "https://dm/" (Some shelf_ex) "mirai")) = Some (JStr "1.10.0").
Proof. vm_compute. done. Qed.
(** A hidden plugin is absent from the list, and served to who knows its slug. *)
Example hidden_is_served :
  dget "name" (body_of (api_public_plugin_detail "" (Some shelf_ex) "secret")) = Some (JStr "secret") ∧
  (match catalog_detail (Some shelf_ex) "secret" with Ok _ => True | Err _ => False end) ∧
  "secret" ∉ (λ p, pl_slug (pg_row p)) <$> listed_plugins (c_cat shelf_ex).
Proof. split; [vm_compute; done|]. split; [vm_compute; done|]. apply (bool_decide_unpack _). vm_compute. done. Qed.
(** The extension in the address decides the type: a PNG is served as an SVG. *)
Example type_of_extension :
  match api_public_plugin_icon_ext (Some shelf_ex) "mirai" "svg" with Ok (PBytes m b _) => m = "image/svg+xml" ∧ b = png | _ => False end.
Proof. vm_compute. done. Qed.
Lemma icon_roundtrip_witness :
  ∃ ext, icon_of (public_base "https://dm/") (plugin_ex 1 "mirai" "public" (Some (data_url "image/png" png))) =
      Some (public_base "https://dm/" +:+ "/catalog/api/plugins/" +:+ "mirai" +:+ "/icon." +:+ ext) ∧
    api_public_plugin_icon (Some shelf_ex) "mirai" = Ok (PMoved 301 ("/catalog/api/plugins/" +:+ "mirai" +:+ "/icon." +:+ ext)) ∧
    ∃ headers, api_public_plugin_icon_ext (Some shelf_ex) "mirai" ext = Ok (PBytes "image/png" png headers).
Proof.
  apply icon_roundtrip; [vm_compute; reflexivity| |reflexivity]. apply (bool_decide_unpack _). vm_compute. done.
Defined.
Definition page_ex : page := match api_public_plugins "https://dm/" "now" (Some one_version) with Ok p => p | Err _ => PMoved 0 "" end.
Lemma public_list_agrees_witness :
  ∃ entries, page_ex = PJson 200 [("plugins", JArr (JObj <$> entries)); ("total", JInt (Z.of_nat (List.length entries))); ("generated_at", JStr "now")] public_headers ∧
    List.length entries = 1%nat.
Proof.
  destruct (public_list_agrees "https://dm/" "now" one_version page_ex) as (entries & He & _ & Hf).
  - apply (bool_decide_unpack _). vm_compute. done.
  - vm_compute. reflexivity.
  - exists entries. split; [exact He|]. apply Forall2_length in Hf. rewrite <- Hf. vm_compute. reflexivity.
Defined.
End Demo.
