(* ===== verification/Forward.v ===== *)
(** * Proxies
    Of [app/main.py]: [relay_assistant_proxy] with the map of its upstreams,
    [keycloak_token_proxy] and [get_telemetry_token]. The upstream server is an
    argument; [None]: the call raises. Headers are the pairs that [items()]
    gives. *)
From S2P Require Import Prelude Text Json Effects Base64 Tokens RuntimeConfig Campaigns Config Cohorts Flags GetConfig Catalog AuditLog AdminDb AdminRoutes AdminSettings Download PublicCatalog PublicFacts.
From Stdlib Require Import Ascii String.
Open Scope Z_scope.

Record outbound : Type := Outbound { ob_method : string; ob_url : string; ob_headers : list (string * string); ob_body : string }.
Record inbound : Type := Inbound { ib_status : Z; ib_headers : list (string * string); ib_content : string }.
(** What was sent. *)
Definition wire : Type := list outbound.
Definition send (upstream : outbound → option inbound) (o : outbound) : SM wire inbound :=
  modify (λ w, w ++ [o]);;
  match upstream o with Some r => mret r | None => raise (Exc "httpx error") end.

(** ** [relay_assistant_proxy] *)
Definition relay_variables : list (string * string) :=
  [("keycloak", "RELAY_KEYCLOAK_UPSTREAM"); ("compte-rendu", "RELAY_COMPTE_RENDU_UPSTREAM"); ("mcr-api", "RELAY_MCR_API_UPSTREAM")].
(** [_RELAY_UPSTREAM_MAP], built when the module is loaded *)
Definition _RELAY_UPSTREAM_MAP (env : environ) : list (string * string) :=
  filter (λ kv : string * string, kv.2 ≠ "") ((λ kv : string * string, (kv.1, rstrip_char "/" (strip (getenv kv.2 "" env)))) <$> relay_variables).
Definition _RELAY_HOP_HEADERS : list string :=
  ["host"; "transfer-encoding"; "connection"; "keep-alive"; "proxy-authenticate"; "proxy-authorization"; "te"; "trailers"; "upgrade"].
(** [{k: v for k, v in h if k.lower() not in _RELAY_HOP_HEADERS}] *)
Definition without_hop (h : list (string * string)) : list (string * string) :=
  foldl (λ d (kv : string * string), if decide (lower kv.1 ∈ _RELAY_HOP_HEADERS) then d else dset kv.1 kv.2 d) [] h.
(** [path.split("/", 1)]: the target and the rest. *)
Definition target_of (path : string) : string * string := match split_once "/" path with Some (t, r) => (t, r) | None => (path, "") end.
Definition upstream_url (base remainder query : string) : string :=
  let url := if truthy_str remainder then base +:+ "/" +:+ remainder else base in
  if truthy_str query then url +:+ "?" +:+ query else url.
Definition relay_assistant_proxy (env : environ) (upstream : outbound → option inbound) (http_method path query : string)
    (headers : list (string * string)) (body : string) : SM wire inbound :=
  let '(target, remainder) := target_of path in
  match dget target (_RELAY_UPSTREAM_MAP env) with
  | None => raise (Http (HttpError 404 ("Unknown relay target: " +:+ target)))
  | Some base =>
      r ← send upstream (Outbound http_method (upstream_url base remainder query) (without_hop headers) body);
      mret (Inbound (ib_status r) (without_hop (ib_headers r)) (ib_content r))
  end.

(** ** [keycloak_token_proxy] *)
Definition keycloak_token_proxy (env : environ) (upstream : outbound → option inbound) (http_method : string) (body : option json) : SM wire inbound :=
  if bool_decide (http_method = "OPTIONS") then mret (Inbound 204 [] "")
  else
    let base := rstrip_char "/" (getenv "RELAY_KEYCLOAK_UPSTREAM" "" env) in
    if negb (truthy_str base) then raise (Http (HttpError 503 "RELAY_KEYCLOAK_UPSTREAM not configured"))
    else
      match body with
      | None => raise (Exc "Expecting value")
      | Some (JObj d) =>
          let p := jget "p" d in
          if negb (truthy p) then raise (Http (HttpError 400 "Missing 'p' field (base64 form payload)"))
          else
            match (match p with JStr s => b64decode s | _ => None end) with
            | None => raise (Http (HttpError 400 "Invalid base64 in 'p' field"))
            | Some form =>
                r ← send upstream (Outbound "POST" (base +:+ "/protocol/openid-connect/token") [("Content-Type", "application/x-www-form-urlencoded")] form);
                mret (Inbound (ib_status r) [("content-type", default "application/json" (dget "content-type" (ib_headers r)))] (ib_content r))
            end
      | Some _ => raise (Exc "object has no attribute 'get'")
      end.

(** ** [get_telemetry_token] *)
(** [require_token]: [settings.telemetry_require_token]. *)
Definition get_telemetry_token (st : settings) (env : environ) (require_token : bool) (now : Z) (jti : string)
    (profile device : option string) (client_uuid : string) : result exc page :=
  let prof := lower (strip (str_or (default "" profile) (getenv "DM_CONFIG_PROFILE" "prod" env))) in
  let dev := lower (strip (default "" device)) in
  if negb (telemetry_enabled st) then
    Ok (PJson 200 [("telemetryEnabled", JBool false); ("telemetryAuthorizationType", JStr (telemetry_authorization_type st)); ("telemetryKey", JStr "")] [])
  else
    let '(token, exp) := Telemetry._mint_telemetry_token now jti (telemetry_token_signing_key st) (telemetry_token_ttl_seconds st)
                           (if truthy_str dev then Some dev else None) prof (strip client_uuid) in
    if require_token && negb (truthy_str token) then Err (Http (HttpError 503 "Telemetry signing key is not configured."))
    else
      Ok (PJson 200 [("telemetryEnabled", JBool true); ("telemetryEndpoint", JStr (_resolve_public_telemetry_endpoint st env));
            ("telemetryAuthorizationType", JStr (telemetry_authorization_type st)); ("telemetryKey", JStr token);
            ("telemetryKeyExpiresAt", match exp with Some t => JInt t | None => JNull end);
            ("telemetryKeyTtlSeconds", JInt (telemetry_token_ttl_seconds st))] [("Cache-Control", "no-store")]).

(** ** Facts *)
Lemma without_hop_aux d h : Forall (λ kv : string * string, lower kv.1 ∉ _RELAY_HOP_HEADERS) d →
  Forall (λ kv : string * string, lower kv.1 ∉ _RELAY_HOP_HEADERS)
    (foldl (λ d (kv : string * string), if decide (lower kv.1 ∈ _RELAY_HOP_HEADERS) then d else dset kv.1 kv.2 d) d h).
Proof.
  revert d. induction h as [|[k v] h IH]; intros d Hd; [done|]. cbn [foldl fst snd]. apply IH. destruct (decide _) as [|Hk]; [done|].
  rewrite Forall_forall in *. intros [k' v'] H. apply elem_of_dset in H as [[-> ->]|H]; [done|]. by apply (Hd (k', v')).
Qed.
Lemma without_hop_ok h : Forall (λ kv : string * string, lower kv.1 ∉ _RELAY_HOP_HEADERS) (without_hop h).
Proof. apply without_hop_aux. constructor. Qed.
Lemma without_hop_get_aux k d h : lower k ∉ _RELAY_HOP_HEADERS → dict_wf h →
  dget k (foldl (λ d (kv : string * string), if decide (lower kv.1 ∈ _RELAY_HOP_HEADERS) then d else dset kv.1 kv.2 d) d h)
  = match dget k h with Some v => Some v | None => dget k d end.
Proof.
  intros Hk. revert d. induction h as [|[k' v] h IH]; intros d Hw; [done|]. unfold dict_wf in Hw. cbn in Hw. apply NoDup_cons in Hw as [Hn Hw].
  cbn [foldl fst snd]. rewrite (IH _ Hw). cbn [dget]. destruct (decide (k = k')) as [->|Hne].
  - rewrite decide_False by done. apply dget_None in Hn. by rewrite Hn, dget_dset_eq.
  - destruct (decide (lower k' ∈ _RELAY_HOP_HEADERS)); [done|]. by rewrite dget_dset_ne.
Qed.
Lemma without_hop_get k h : lower k ∉ _RELAY_HOP_HEADERS → dict_wf h → dget k (without_hop h) = dget k h.
Proof. intros Hk Hw. unfold without_hop. rewrite without_hop_get_aux by done. by destruct (dget k h). Qed.
Lemma upstream_url_base base r q : starts_with base (upstream_url base r q) = true.
Proof.
  unfold upstream_url. destruct (truthy_str r), (truthy_str q); rewrite ?sapp_assoc; try apply starts_with_app.
  rewrite <- (sapp_nil_r base) at 2. apply starts_with_app.
Qed.
Lemma send_run up o w : send up o w = (match up o with Some r => Ok r | None => Err (Exc "httpx error") end, w ++ [o]).
Proof. unfold send. rewrite bind_modify. by destruct (up o). Qed.

(** A request relayed goes once, to the address configured for the first
    segment of its path, with its method, its body and every header that is not
    about the connection; the answer comes back with its status and body. An
    unknown target is refused, and nothing is sent. *)
Theorem relay_forwards env up m path query headers body w r w' :
  relay_assistant_proxy env up m path query headers body w = (r, w') →
  (dget (target_of path).1 (_RELAY_UPSTREAM_MAP env) = None ∧ w' = w ∧ ∃ detail, r = Err (Http (HttpError 404 detail))) ∨
  ∃ base o, dget (target_of path).1 (_RELAY_UPSTREAM_MAP env) = Some base ∧ w' = w ++ [o] ∧
    starts_with base (ob_url o) = true ∧ ob_method o = m ∧ ob_body o = body ∧
    Forall (λ kv : string * string, lower kv.1 ∉ _RELAY_HOP_HEADERS) (ob_headers o) ∧
    (dict_wf headers → ∀ k, lower k ∉ _RELAY_HOP_HEADERS → dget k (ob_headers o) = dget k headers) ∧
    match up o with
    | Some a => ∃ h, r = Ok (Inbound (ib_status a) h (ib_content a)) ∧ Forall (λ kv : string * string, lower kv.1 ∉ _RELAY_HOP_HEADERS) h
    | None => ∃ e, r = Err e
    end.
Proof.
  unfold relay_assistant_proxy. destruct (target_of path) as [target remainder]. cbn [fst].
  destruct (dget target (_RELAY_UPSTREAM_MAP env)) as [base|]; [|intros [= <- <-]; left; eauto].
  set (o := Outbound m _ _ body). unfold mbind, SM_bind. rewrite send_run. intros H. right. exists base, o.
  assert (w' = w ++ [o]) as -> by (destruct (up o); by injection H). split_and!; try done.
  - apply upstream_url_base.
  - apply without_hop_ok.
  - intros Hw k Hk. by apply without_hop_get.
  - destruct (up o) as [a|]; injection H as <-; [|eauto]. eexists. split; [done|]. apply without_hop_ok.
Qed.

(** The token proxy is transparent: a form sent in base64 reaches the token
    endpoint of the configured realm as it was, once, and the answer comes back. *)
Theorem token_proxy_transparent env up form extra w a :
  form ≠ "" → truthy_str (rstrip_char "/" (getenv "RELAY_KEYCLOAK_UPSTREAM" "" env)) = true →
  let o := Outbound "POST" (rstrip_char "/" (getenv "RELAY_KEYCLOAK_UPSTREAM" "" env) +:+ "/protocol/openid-connect/token")
             [("Content-Type", "application/x-www-form-urlencoded")] form in
  up o = Some a →
  keycloak_token_proxy env up "POST" (Some (JObj (("p", JStr (b64encode form)) :: extra))) w =
    (Ok (Inbound (ib_status a) [("content-type", default "application/json" (dget "content-type" (ib_headers a)))] (ib_content a)), w ++ [o]).
Proof.
  intros Hf Hb o Ho. unfold keycloak_token_proxy. rewrite bool_decide_eq_false_2 by done. rewrite Hb. cbn [negb].
  assert (jget "p" (("p", JStr (b64encode form)) :: extra) = JStr (b64encode form)) as -> by reflexivity.
  assert (truthy (JStr (b64encode form)) = true) as ->.
  { apply truthy_str_true. intros H. pose proof (b64_roundtrip form) as Hr. rewrite H in Hr. vm_compute in Hr. congruence. }
  cbn [negb]. rewrite b64_roundtrip. unfold mbind, SM_bind. rewrite send_run. fold o. by rewrite Ho.
Qed.

(** ** Examples *)
Module Demo.
Definition env_ex : environ := [("RELAY_KEYCLOAK_UPSTREAM", "https://sso.example/realms/dm/")].
Definition echo (o : outbound) : option inbound := Some (Inbound 200 [("content-type", "text/plain"); ("connection", "close")] (ob_url o)).
Definition get (path : string) := relay_assistant_proxy env_ex echo "GET" path "" [("host", "dm"); ("authorization", "Bearer t")] "" [].
Example relayed :
  get "keycloak/protocol/openid-connect/certs" =
    (Ok (Inbound 200 [("content-type", "text/plain")] "https://sso.example/realms/dm/protocol/openid-connect/certs"),
     [Outbound "GET" "https://sso.example/realms/dm/protocol/openid-connect/certs" [("authorization", "Bearer t")] ""]).
Proof. vm_compute. reflexivity. Qed.
(** The path is not normalised: it may lead out of the realm configured. *)
Example out_of_realm : ob_url <$> (get "keycloak/../../admin/realms").2 = ["https://sso.example/realms/dm/../../admin/realms"].
Proof. vm_compute. reflexivity. Qed.
Definition first_request : wire := (get "keycloak/x").2.
Lemma relay_forwards_witness :
  ∃ base o, dget "keycloak" (_RELAY_UPSTREAM_MAP env_ex) = Some base ∧ first_request = [] ++ [o] ∧ starts_with base (ob_url o) = true.
Proof.
  destruct (relay_forwards env_ex echo "GET" "keycloak/x" "" [("host", "dm"); ("authorization", "Bearer t")] "" [] (get "keycloak/x").1 first_request) as [(H & _)|(base & o & H & Hw & Hs & _)].
  - vm_compute. reflexivity.
  - discriminate H.
  - exists base, o. split; [exact H|]. split; [exact Hw|exact Hs].
Defined.
Lemma token_proxy_transparent_witness :
  keycloak_token_proxy env_ex echo "POST" (Some (JObj [("p", JStr (b64encode "grant_type=authorization_code&code=x"))])) [] =
    (Ok (Inbound 200 [("content-type", "text/plain")] "https://sso.example/realms/dm/protocol/openid-connect/token"),
     [] ++ [Outbound "POST" "https://sso.example/realms/dm/protocol/openid-connect/token" [("Content-Type", "application/x-www-form-urlencoded")] "grant_type=authorization_code&code=x"]).
Proof. apply (token_proxy_transparent env_ex echo "grant_type=authorization_code&code=x" [] [] (Inbound 200 [("content-type", "text/plain"); ("connection", "close")] "https://sso.example/realms/dm/protocol/openid-connect/token")); [done|reflexivity|reflexivity]. Defined.
(** A lifetime below thirty seconds is raised to thirty, and announced as it was. *)
Definition settings_ex : settings := Settings true "" "Bearer" "key" 10 false false false "" "" true "".
Example announced_lifetime :
  match get_telemetry_token settings_ex [] true 1000 "j" None (Some "Mirai") "" with
  | Ok (PJson _ b _) => dget "telemetryKeyExpiresAt" b = Some (JInt 1030) ∧ dget "telemetryKeyTtlSeconds" b = Some (JInt 10)
  | _ => False
  end.
Proof. vm_compute. done. Qed.
End Demo.
