(* ===== verification/AuditQuery.v ===== *)
(** * Reading the audit log
    [app/admin/services/audit.py] and, of [app/admin/router.py], the audit pages:
    [_audit_date_bounds], [audit_list], [audit_export] with the CSV it writes.
    What the database makes of a date and of a JSON value as text are arguments;
    [=] on equal instants keeps the order of the table. *)
From S2P Require Import Prelude Text Json Effects RuntimeConfig Campaigns Config Cohorts Flags GetConfig Catalog AuditLog AdminDb AdminRoutes AdminFacts AdminLogin.
From stdpp Require Import sorting.
From Stdlib Require Import Ascii String.
Open Scope Z_scope.

(** ** [ILIKE] *)
Inductive token : Type := Lit (c : ascii) | One | Any.
(** [None]: the pattern ends in the escape character. *)
Fixpoint tokens (p : string) : option (list token) :=
  match p with
  | "" => Some []
  | String c r =>
      if is_char "\" c then match r with String d r' => cons (Lit d) <$> tokens r' | "" => None end
      else cons (if is_char "%" c then Any else if is_char "_" c then One else Lit c) <$> tokens r
  end.
Fixpoint like (p : list token) (s : string) : bool :=
  match p with
  | [] => negb (truthy_str s)
  | Lit c :: p => match s with String d r => bool_decide (lower_char c = lower_char d) && like p r | "" => false end
  | One :: p => match s with String _ r => like p r | "" => false end
  | Any :: p => (fix go (s : string) : bool := like p s || match s with "" => false | String _ r => go r end) s
  end.
(** [x ILIKE '%q%'] *)
Definition ilike_within (x : option string) (q : string) : result exc bool :=
  match tokens ("%" +:+ q +:+ "%") with
  | Some p => Ok match x with Some s => like p s | None => false end
  | None => Err (Exc "LIKE pattern must not end with escape character")
  end.

(** ** The entries *)
Record db : Type := Db { b_rows : list (Z * audit_row); b_plugins : list plugin; b_flags : list flag_row }.
Section query.
(** [payload::text], [payload->>k] of a value that is no text, [x::timestamptz] *)
Variables (jsonb_text : json → string) (time : string → option Z) (d : db).

Definition numeric (s : string) : bool := truthy_str s && sforall is_digit s.
Definition int_cast (s : string) : result exc Z :=
  match py_int s with
  | Some z => if z <=? 2147483647 then Ok z else Err (Exc "integer out of range")
  | None => Err (Exc "invalid input syntax for type integer")
  end.
(** [payload->>k] *)
Definition field (payload : json) (k : string) : option string :=
  match payload with
  | JObj o => match dget k o with Some JNull | None => None | Some (JStr s) => Some s | Some v => Some (jsonb_text v) end
  | _ => None
  end.
Definition slug_by_id (s : string) : result exc (option string) :=
  let* i := int_cast s in Ok ((λ p, pl_slug (pg_row p)) <$> find (λ p, bool_decide (p_id p = i)) (b_plugins d)).
(** One branch of the [COALESCE]. *)
Definition or_else (a : result exc (option string)) (b : result exc (option string)) : result exc (option string) :=
  let* x := a in match x with Some _ => Ok x | None => b end.
Definition _PLUGIN_EXPR (r : audit_row) : result exc (option string) :=
  let rid := default "" (au_id r) in
  let some_id := match au_id r with Some _ => true | None => false end in
  let is_plugin := bool_decide (au_type r = "plugin") && some_id in
  or_else (Ok (au_plugin r))
  (or_else (Ok (if is_plugin && negb (numeric rid) && negb (bool_decide (rid = "*")) then Some rid else None))
  (or_else (if is_plugin && numeric rid then slug_by_id rid else Ok None)
  (or_else (Ok (field (au_payload r) "plugin_slug"))
  (or_else (match field (au_payload r) "plugin_id" with Some i => if numeric i then slug_by_id i else Ok None | None => Ok None end)
           (if bool_decide (au_type r = "flag") && some_id && numeric rid then
              let* i := int_cast rid in
              Ok (find (λ f, bool_decide (ff_id f = i)) (b_flags d) ≫= λ f, or_none (ff_slug f))
            else Ok None))))).

Record filters : Type := Filters {
  fi_actor : string; fi_action : string; fi_type : string; fi_from : option string; fi_to : option string; fi_q : string; fi_plugin : string }.
Definition all_of (l : list (result exc bool)) : result exc bool :=
  foldr (λ x acc, let* a := x in let* b := acc in Ok (a && b)) (Ok true) l.
Definition when (s : string) (c : result exc bool) : list (result exc bool) := if truthy_str s then [c] else [].
Definition bound (s : option string) (c : Z → bool) : list (result exc bool) :=
  match s with
  | Some t => if truthy_str t then [match time t with Some z => Ok (c z) | None => Err (Exc "invalid input syntax for type timestamp") end] else []
  | None => []
  end.
Definition either (a b : result exc bool) : result exc bool := let* x := a in let* y := b in Ok (x || y).
Definition kept (f : filters) (r : audit_row) : result exc bool :=
  all_of (
    when (fi_actor f) (ilike_within (Some (au_email r)) (fi_actor f)) ++
    when (fi_action f) (ilike_within (Some (au_action r)) (fi_action f)) ++
    when (fi_type f) (Ok (bool_decide (au_type r = fi_type f))) ++
    bound (fi_from f) (λ z, z <=? au_at r) ++ bound (fi_to f) (λ z, au_at r <=? z) ++
    when (fi_q f) (either (ilike_within (match au_payload r with JNull => None | v => Some (jsonb_text v) end) (fi_q f)) (ilike_within (au_id r) (fi_q f))) ++
    when (fi_plugin f) (let* x := _PLUGIN_EXPR r in ilike_within x (fi_plugin f))).
Fixpoint filterR {A} (p : A → result exc bool) (l : list A) : result exc (list A) :=
  match l with [] => Ok [] | x :: r => let* b := p x in let* ys := filterR p r in Ok (if b : bool then x :: ys else ys) end.
Record entry : Type := Entry { en_id : Z; en_row : audit_row; en_plugin : option string }.
Definition later (a b : entry) : Prop := au_at (en_row b) ≤ au_at (en_row a).
#[export] Instance later_dec a b : Decision (later a b).
Proof. unfold later. apply _. Defined.
(** The entries that the filters keep, the last first. *)
Definition matching (f : filters) : result exc (list entry) :=
  let* rows := filterR (λ x : Z * audit_row, kept f x.2) (b_rows d) in
  let* es := mapR (λ x : Z * audit_row, let* p := _PLUGIN_EXPR x.2 in Ok (Entry x.1 x.2 p)) rows in
  Ok (merge_sort later es).
Definition list_audit_entries (f : filters) (limit offset : Z) : result exc (list entry) :=
  let* es := matching f in
  if offset <? 0 then Err (Exc "OFFSET must not be negative") else Ok (take (Z.to_nat limit) (drop (Z.to_nat offset) es)).
Definition facet (f : audit_row → string) : list string :=
  take 200 (py_sorted (filter (λ s, s ≠ "") (remove_dups ((λ x : Z * audit_row, f x.2) <$> b_rows d)))).
Definition get_audit_facets : list (string * list string) :=
  [("actors", facet au_email); ("actions", facet au_action); ("resource_types", facet au_type);
   ("plugins", py_sorted ((λ p, pl_slug (pg_row p)) <$> filter (λ p, pl_status (pg_row p) ≠ "removed") (b_plugins d)))].

(** ** The page *)
Definition _AUDIT_PAGE_SIZE : Z := 50.
Definition presets : list (string * Z) := [("24h", 1); ("7d", 7); ("30d", 30)].
(** [iso]: the instant [n] days ago, as [isoformat] prints it. *)
Definition _audit_date_bounds (iso : Z → string) (period date_from date_to : string) : option string * option string :=
  match dget period presets with
  | Some days => (Some (iso days), None)
  | None =>
      if bool_decide (period = "custom") then
        let d_from := or_none (strip date_from) in
        let d_to := or_none (strip date_to) in
        (d_from, match d_to with Some t => if (String.length t =? 10)%nat then Some (t +:+ "T23:59:59") else Some t | None => None end)
      else (None, None)
  end.
Record audit_form : Type := AuditForm {
  fm_actor : string; fm_action : string; fm_type : string; fm_q : string; fm_period : string; fm_from : string; fm_to : string; fm_plugin : string }.
Definition filters_of (iso : Z → string) (f : audit_form) : filters :=
  let '(from, to) := _audit_date_bounds iso (fm_period f) (fm_from f) (fm_to f) in
  Filters (fm_actor f) (fm_action f) (fm_type f) from to (fm_q f) (fm_plugin f).
Definition filters_qs (f : audit_form) : string :=
  urlencode (filter (λ kv : string * string, kv.2 ≠ "")
    [("actor", fm_actor f); ("action", fm_action f); ("resource_type", fm_type f); ("q", fm_q f); ("period", fm_period f);
     ("date_from", fm_from f); ("date_to", fm_to f); ("plugin", fm_plugin f)]).
Record audit_page : Type := AuditPage {
  ap_template : string; ap_entries : list entry; ap_page : Z; ap_more : bool; ap_qs : string; ap_facets : option (list (string * list string)) }.
Definition audit_list (iso : Z → string) (f : audit_form) (page : Z) (partial : string) (htmx : bool) : result exc audit_page :=
  let* es := list_audit_entries (filters_of iso f) _AUDIT_PAGE_SIZE (page * _AUDIT_PAGE_SIZE) in
  let template := if bool_decide (partial = "rows") then "_audit_rows.html" else if htmx then "_audit_table.html" else "audit_log.html" in
  Ok (AuditPage template es page (_AUDIT_PAGE_SIZE <=? Z.of_nat (List.length es)) (filters_qs f)
        (if negb (truthy_str partial) && negb htmx then Some get_audit_facets else None)).
End query.

(** ** The export *)
Definition quote_needed (c : ascii) : bool := is_char "," c || is_char dquote c || is_char "010" c || is_char "013" c.
Fixpoint double_quotes (s : string) : string :=
  match s with "" => "" | String c r => if is_char dquote c then String c (String c (double_quotes r)) else String c (double_quotes r) end.
(** A field as [csv.writer] writes it. *)
Definition csv_field (s : string) : string :=
  if sforall (λ c, negb (quote_needed c)) s then s else String dquote (double_quotes s +:+ String dquote "").
Definition crlf : string := String "013" (String "010" "").
(** A row of one empty field is quoted, so that it is no blank line. *)
Definition csv_row (fields : list string) : string :=
  (match fields with [""] => String dquote (String dquote "") | _ => sjoin "," (csv_field <$> fields) end) +:+ crlf.
Definition csv_text (rows : list (list string)) : string := foldr (λ r s, csv_row r +:+ s) "" rows.
(** [stamp] prints an instant. *)
Definition export_row (stamp : Z → string) (e : entry) : list string :=
  let r := en_row e in
  [stamp (au_at r); au_email r; au_action r; default "" (en_plugin e); au_type r; default "" (au_id r);
   if truthy (au_payload r) then dumps (au_payload r) else ""].
Definition export_header : list string := ["horodatage"; "acteur"; "action"; "plugin"; "type_ressource"; "id_ressource"; "details"].
(** [serial i]: the number that the table gave to its [i]-th row. *)
Definition audit_tables (serial : nat → Z) (d : adb) : db :=
  Db (imap (λ i r, (serial i, r)) (d_audit d)) (ct_plugins (d_cat d)) (fs_flags (d_flags d)).
(** The log of the export is part of the same transaction. *)
Definition audit_export (drv : driver) (cl : call) (jsonb_text : json → string) (iso stamp : Z → string) (serial : nat → Z) (f : audit_form) : SM adb string :=
  transaction (
    d ← select (audit_tables serial);
    es ← stmt (lift (list_audit_entries jsonb_text (dr_time drv) d (filters_of iso f) 10000 0));
    audit drv cl "audit.export" "audit" None (JObj [("count", JInt (Z.of_nat (List.length es)))]);;
    mret (csv_text (export_header :: (export_row stamp <$> es)))).

(** ** [csv.reader] *)
Inductive csv_state : Type := RowStart | FieldStart | Bare | Quoted | QuoteInQuoted | AfterCR.
Definition newline_char (c : ascii) : bool := is_char "010" c || is_char "013" c.
Definition after_newline (c : ascii) : csv_state := if is_char "013" c then AfterCR else RowStart.
Fixpoint csv_go (st : csv_state) (field : string) (row : list string) (s : string) : list (list string) :=
  match s with
  | "" => match st with RowStart | AfterCR => [] | _ => [row ++ [field]] end
  | String c r =>
      let at_field_start :=
        if is_char dquote c then csv_go Quoted "" row r
        else if is_char "," c then csv_go FieldStart "" (row ++ [""]) r
        else if newline_char c then (row ++ [""]) :: csv_go (after_newline c) "" [] r
        else csv_go Bare (String c "") row r in
      let at_row_start := if newline_char c then [] :: csv_go (after_newline c) "" [] r else at_field_start in
      let unquoted :=
        if is_char "," c then csv_go FieldStart "" (row ++ [field]) r
        else if newline_char c then (row ++ [field]) :: csv_go (after_newline c) "" [] r
        else csv_go Bare (field +:+ String c "") row r in
      match st with
      | AfterCR => if is_char "010" c then csv_go RowStart "" [] r else at_row_start
      | RowStart => at_row_start
      | FieldStart => at_field_start
      | Bare => unquoted
      | Quoted => if is_char dquote c then csv_go QuoteInQuoted field row r else csv_go Quoted (field +:+ String c "") row r
      | QuoteInQuoted => if is_char dquote c then csv_go Quoted (field +:+ String c "") row r else unquoted
      end
  end.
Definition csv_read (s : string) : list (list string) := csv_go RowStart "" [] s.

(** ** The export is read back *)
Definition ends_field (c : ascii) : Prop := c = ","%char ∨ c = "013"%char.
(** What follows a field. *)
Definition next_field (c : ascii) (row : list string) (f s : string) : list (list string) :=
  if is_char "," c then csv_go FieldStart "" (row ++ [f]) s else (row ++ [f]) :: csv_go AfterCR "" [] s.

Lemma bare_run f acc row c s : sforall (λ c, negb (quote_needed c)) f = true → ends_field c →
  csv_go Bare acc row (f +:+ String c s) = next_field c row (acc +:+ f) s.
Proof.
  intros Hf Hc. revert acc Hf. induction f as [|a f IH]; intros acc Hf.
  - rewrite sapp_nil_l, sapp_nil_r. by destruct Hc as [->| ->].
  - cbn [sforall] in Hf. apply andb_true_iff in Hf as [Ha Hf]. rewrite sapp_cons. cbn [csv_go]. unfold quote_needed in Ha. unfold newline_char.
    destruct (is_char "," a); [done|]. destruct (is_char "010" a); [by rewrite !orb_true_r in Ha|]. destruct (is_char "013" a); [by rewrite !orb_true_r in Ha|].
    cbn [orb]. rewrite (IH _ Hf). f_equal. by rewrite sapp_assoc, sapp_cons, sapp_nil_l.
Qed.
Lemma quoted_run f acc row c s : ends_field c →
  csv_go Quoted acc row (double_quotes f +:+ String dquote (String c s)) = next_field c row (acc +:+ f) s.
Proof.
  intros Hc. revert acc. induction f as [|a f IH]; intros acc.
  - cbn [double_quotes]. rewrite sapp_nil_l, sapp_nil_r. by destruct Hc as [->| ->].
  - cbn [double_quotes]. destruct (is_char dquote a) eqn:Ea; rewrite !sapp_cons; cbn [csv_go]; rewrite Ea.
    + rewrite IH. f_equal. by rewrite sapp_assoc, sapp_cons, sapp_nil_l.
    + rewrite IH. f_equal. by rewrite sapp_assoc, sapp_cons, sapp_nil_l.
Qed.
Lemma field_run f row c s : ends_field c → csv_go FieldStart "" row (csv_field f +:+ String c s) = next_field c row f s.
Proof.
  intros Hc. unfold csv_field. destruct (sforall _ f) eqn:Hf.
  - destruct f as [|a f]; [rewrite sapp_nil_l; by destruct Hc as [->| ->]|]. cbn [sforall] in Hf. apply andb_true_iff in Hf as [Ha Hf].
    rewrite sapp_cons. cbn [csv_go]. unfold quote_needed in Ha. unfold newline_char.
    destruct (is_char "," a); [done|]. destruct (is_char dquote a); [done|].
    destruct (is_char "010" a); [done|]. destruct (is_char "013" a); [done|]. cbn [orb]. rewrite bare_run by done. by rewrite sapp_cons, sapp_nil_l.
  - rewrite !sapp_cons. change (csv_go FieldStart "" row (String dquote ?t)) with (csv_go Quoted "" row t).
    rewrite sapp_assoc, sapp_cons, sapp_nil_l, quoted_run by done. by rewrite sapp_nil_l.
Qed.
Lemma fields_run f fs row s :
  csv_go FieldStart "" row (sjoin "," (csv_field <$> f :: fs) +:+ crlf +:+ s) = (row ++ f :: fs) :: csv_go RowStart "" [] s.
Proof.
  revert f row. induction fs as [|g fs IH]; intros f row.
  - cbn [fmap list_fmap sjoin]. unfold crlf. rewrite sapp_cons, field_run by (by right). reflexivity.
  - cbn [fmap list_fmap]. change (sjoin "," (csv_field f :: csv_field g :: (csv_field <$> fs)))
      with (csv_field f +:+ String "," (sjoin "," (csv_field <$> g :: fs))).
    rewrite sapp_assoc, sapp_cons, field_run by (by left). unfold next_field. rewrite (eq_refl : is_char "," "," = true), IH.
    by rewrite <- app_assoc.
Qed.
Definition no_newline_first (s : string) : bool := match s with "" => false | String c _ => negb (newline_char c) end.
Lemma row_start s : no_newline_first s = true → csv_go RowStart "" [] s = csv_go FieldStart "" [] s.
Proof. destruct s as [|c s]; [done|]. cbn [no_newline_first csv_go]. intros H. apply negb_true_iff in H. by rewrite H. Qed.
Lemma csv_field_first f s : f ≠ "" ∨ no_newline_first s = true → no_newline_first (csv_field f +:+ s) = true.
Proof.
  unfold csv_field. destruct (sforall _ f) eqn:Hf; [|by rewrite sapp_cons]. destruct f as [|a f]; [rewrite sapp_nil_l; tauto|]. intros _.
  cbn [sforall] in Hf. apply andb_true_iff in Hf as [Ha _]. rewrite sapp_cons. cbn [no_newline_first]. unfold newline_char.
  unfold quote_needed in Ha. by destruct (is_char "," a), (is_char dquote a), (is_char "010" a), (is_char "013" a).
Qed.
Lemma row_run fields s : csv_go RowStart "" [] (csv_row fields +:+ s) = fields :: csv_go RowStart "" [] s.
Proof.
  unfold csv_row. rewrite sapp_assoc. destruct fields as [|f fs]; [reflexivity|]. destruct (decide (f :: fs = [""])) as [E|Hne].
  { injection E as -> ->. reflexivity. }
  assert (match f :: fs with [""] => String dquote (String dquote "") | _ => sjoin "," (csv_field <$> f :: fs) end = sjoin "," (csv_field <$> f :: fs)) as ->
    by (destruct f, fs; done).
  rewrite row_start, fields_run; [done|]. destruct fs as [|g fs].
  - cbn [fmap list_fmap sjoin]. apply csv_field_first. left. intros ->. done.
  - cbn [fmap list_fmap]. change (sjoin "," (csv_field f :: csv_field g :: (csv_field <$> fs)))
      with (csv_field f +:+ String "," (sjoin "," (csv_field <$> g :: fs))). rewrite sapp_assoc. apply csv_field_first. by right.
Qed.
Lemma csv_read_text rows : csv_read (csv_text rows) = rows.
Proof. unfold csv_read. induction rows as [|r rows IH]; [done|]. cbn [csv_text foldr]. rewrite row_run. f_equal. exact IH. Qed.

(** C25. The export of the audit log loses nothing and hides nothing: the text that it
    answers, read back as CSV, is the heading followed by one row per entry that the
    filters of the request keep (10 000 at most), field for field, whatever commas, quotes
    or line breaks the entries hold; and the export leaves an entry of its own in the log,
    under the name of the administrator who asked for it, with the number of rows taken. *)
Theorem export_faithful drv cl jsonb_text iso stamp serial f d text d' :
  audit_export drv cl jsonb_text iso stamp serial f d = (Ok text, d') →
  ∃ es row, list_audit_entries jsonb_text (dr_time drv) (audit_tables serial d) (filters_of iso f) 10000 0 = Ok es ∧
    csv_read text = export_header :: (export_row stamp <$> es) ∧
    d' = set_audit (d_audit d ++ [row]) d ∧ au_action row = "audit.export" ∧
    au_payload row = JObj [("count", JInt (Z.of_nat (List.length es)))] ∧ au_email row = (actor cl).1.
Proof.
  unfold audit_export. intros (t & E & ->)%transaction_ok.
  apply bind_ok in E as (x & t1 & [-> ->]%select_ok & E).
  apply bind_ok in E as (es & t2 & (d2 & [Hes ->]%lift_ok & -> & _)%stmt_ok & E).
  apply bind_ok in E as (u & t3 & (row & -> & Ha & Hp & He)%audit_entry & [= <- <-]). cbn [t_aborted t_db] in *.
  exists es, row. split; [exact Hes|]. split; [exact (csv_read_text (export_header :: (export_row stamp <$> es)))|]. by split_and!.
Qed.

(** Scrolling through the audit log shows every entry once: as long as the log does not
    change, the pages that the scroll asks for one after the other, put end to end, are the
    entries that the filters keep, in order; and a page announces that nothing follows only
    when nothing does. *)
Theorem audit_pages_complete jsonb_text time d f es n :
  matching jsonb_text time d f = Ok es → Z.of_nat (List.length es) ≤ n * _AUDIT_PAGE_SIZE →
  ∃ pages, Forall2 (λ i p, list_audit_entries jsonb_text time d f _AUDIT_PAGE_SIZE (i * _AUDIT_PAGE_SIZE) = Ok p ∧
      ((_AUDIT_PAGE_SIZE <=? Z.of_nat (List.length p)) = false → Z.of_nat (List.length es) < (i + 1) * _AUDIT_PAGE_SIZE)) (seqZ 0 n) pages ∧
    List.concat pages = es.
Proof.
  intros Hm Hn. set (page := λ i, take 50 (drop (Z.to_nat (i * 50)) es)). exists (page <$> seqZ 0 n). split.
  - apply Forall2_fmap_r, Forall_Forall2_diag, Forall_forall. intros i Hi. apply elem_of_seqZ in Hi. unfold list_audit_entries. rewrite Hm. cbn [rbind].
    rewrite (proj2 (Z.ltb_ge _ _)) by (unfold _AUDIT_PAGE_SIZE; lia). split; [done|]. intros H%Z.leb_gt. unfold page in H.
    rewrite length_take, length_drop in H. unfold _AUDIT_PAGE_SIZE in *. lia.
  - assert (H : ∀ k : nat, List.concat (page <$> seqZ 0 (Z.of_nat k)) = take (k * 50) es).
    { induction k as [|k IH]; [by rewrite seqZ_nil|]. rewrite seqZ_S. rewrite fmap_app, List.concat_app, IH. cbn [fmap list_fmap List.concat].
      rewrite app_nil_r. unfold page. replace (Z.to_nat ((0 + Z.of_nat k) * 50)) with (k * 50)%nat by lia. rewrite take_take_drop. f_equal. lia. }
    destruct (decide (0 ≤ n)).
    + rewrite <- (Z2Nat.id n) by lia. rewrite H. apply take_ge. unfold _AUDIT_PAGE_SIZE in Hn. lia.
    + assert (es = []) as -> by (destruct es; [done|unfold _AUDIT_PAGE_SIZE in Hn; cbn in Hn; lia]). rewrite seqZ_nil by lia. done.
Qed.

Module Demo.
Definition row_ex (at_ : Z) (email act rtype : string) (rid : option string) (payload : json) : audit_row :=
  AuditRow at_ email "sub" act rtype rid payload None None None.
Definition rows_ex : list audit_row :=
  [row_ex 10 "ana@example.org" "plugin.update" "plugin" (Some "1") (JObj [("name", JStr "a,b")]);
   row_ex 20 "bob@example.org" "flag.create" "flag" (Some "7") JNull;
   row_ex 30 "ana@example.org" "plugin.delete" "plugin" (Some "mirai") JNull].
Definition adb_ex : adb := set_audit rows_ex AdminFacts.Demo.db_ex.
Definition serial_ex (i : nat) : Z := Z.of_nat i + 1.
Definition stamp_ex (z : Z) : string := py_str_int z.
Definition form_ex : audit_form := AuditForm "ana" "" "" "" "" "" "" "".
Definition tables_ex : db := audit_tables serial_ex adb_ex.
Definition everything : filters := Filters "" "" "" None None "" "".

(** The plugin of an entry that names it by number is found in the catalogue. *)
Example shown :
  match matching dumps (λ _, None) tables_ex everything with Ok es => (λ e, (en_id e, en_plugin e)) <$> es | Err _ => [] end
  = [(3, Some "mirai"); (2, None); (1, Some "mirai")].
Proof. vm_compute. reflexivity. Qed.
(** [_] in a filter stands for any character. *)
Example underscore_is_any : ilike_within (Some "plugin.update") "plugin_up" = Ok true ∧ ilike_within (Some "plugin.update") "PLUGIN\_up" = Ok false.
Proof. by vm_compute. Qed.
(** A last day given without a time counts in full. *)
Example bounds_ex :
  _audit_date_bounds py_str_int "custom" "2026-01-02" "2026-01-31" = (Some "2026-01-02", Some "2026-01-31T23:59:59") ∧
  _audit_date_bounds py_str_int "7d" "2026-01-02" "" = (Some "7", None).
Proof. by vm_compute. Qed.

Lemma export_faithful_witness : ∃ es row text,
  list_audit_entries dumps (λ _, None) tables_ex (filters_of py_str_int form_ex) 10000 0 = Ok es ∧
  csv_read text = export_header :: (export_row stamp_ex <$> es) ∧ List.length es = 2%nat ∧ au_action row = "audit.export".
Proof.
  destruct (audit_export AdminFacts.Demo.drv_ex AdminFacts.Demo.cl_ex dumps py_str_int stamp_ex serial_ex form_ex adb_ex) as [[text|e] d'] eqn:E;
    [|vm_compute in E; done].
  destruct (export_faithful AdminFacts.Demo.drv_ex AdminFacts.Demo.cl_ex dumps py_str_int stamp_ex serial_ex form_ex adb_ex text d' E)
    as (es & row & H1 & H2 & _ & H4 & _).
  exists es, row, text. split; [exact H1|]. split; [exact H2|]. split; [|exact H4].
  vm_compute in H1. injection H1 as <-. reflexivity.
Defined.
Lemma audit_pages_complete_witness : ∃ es pages, matching dumps (λ _, None) tables_ex everything = Ok es ∧ List.length es = 3%nat ∧
  list_audit_entries dumps (λ _, None) tables_ex everything 50 0 = Ok es ∧ List.concat pages = es ∧ List.length pages = 1%nat.
Proof.
  destruct (matching dumps (λ _, None) tables_ex everything) as [es|e] eqn:E; [|vm_compute in E; done].
  assert (List.length es = 3%nat) as Hl by (vm_compute in E; injection E as <-; reflexivity).
  destruct (audit_pages_complete dumps (λ _, None) tables_ex everything es 1 E) as (pages & H & Hc).
  { rewrite Hl. unfold _AUDIT_PAGE_SIZE. lia. }
  exists es, pages. split; [done|]. split; [exact Hl|]. split; [|split; [exact Hc|by rewrite <- (Forall2_length _ _ _ H)]].
  unfold list_audit_entries. rewrite E. cbn [rbind]. vm_compute in E. injection E as <-. reflexivity.
Defined.
End Demo.
