(* ===== verification/Devices.v ===== *)
(** * Devices
    [app/admin/services/devices.py], the pages over it and the revocation of the relay
    credentials of a device in [app/admin/router.py], and of [app/admin/helpers.py] the
    displayed times, labels and health. Times are whole seconds, as in [Ingest]; the calendar,
    the reading of an identifier by the database and the pictograms are arguments. *)
From S2P Require Import Prelude Text Json Effects AuditLog AuditQuery Campaigns Cohorts Flags Ingest Catalog PublicCatalog AdminDb AdminRoutes AdminFacts Tokens Relay.
From stdpp Require Import sorting.
From Stdlib Require Import Ascii String.
Open Scope Z_scope.

Definition HOUR : Z := 3600.

(** ** [helpers.py] *)
(** What a template may hand over: nothing, a number, a text, a date. *)
Inductive moment : Type := Absent | Number (at_ : Z) | Written (text : string) | At (at_ : Z).
Section display.
Variables (isoformat : string → option Z) (calendar : Z → string) (icon : string → string).
Definition timeago (now : Z) (dt : moment) : string :=
  let ago t :=
    let seconds := now - t in
    if seconds <? 60 then "il y a quelques secondes"
    else if seconds <? 3600 then "il y a " +:+ py_str_int (seconds / 60) +:+ " min"
    else if seconds <? 86400 then "il y a " +:+ py_str_int (seconds / 3600) +:+ "h"
    else
      let days := seconds / 86400 in
      if days =? 1 then "il y a 1 jour" else if days <? 30 then "il y a " +:+ py_str_int days +:+ " jours" else calendar t in
  match dt with
  | Absent => "jamais"
  | Number t | At t => ago t
  | Written s => match isoformat s with Some t => ago t | None => s end
  end.
Definition SPAN_LABELS : list (string * string) :=
  [("ExtensionLoaded", "Demarrage plugin"); ("ExtensionUpdated", "Mise a jour"); ("BootstrapConfig", "Config bootstrap"); ("EnrollSuccess", "Enrollment OK");
   ("EnrollFailed", "Enrollment echoue"); ("ExtendSelection", "Generer la suite"); ("EditSelection", "Modifier selection"); ("ResizeSelection", "Ajuster longueur");
   ("SummarizeSelection", "Resumer"); ("SimplifySelection", "Reformuler"); ("TransformToColumn", "Transformer colonnes"); ("GenerateFormula", "Formule IA");
   ("AnalyzeRange", "Analyser plage"); ("OpenmiraiWebsite", "Site web"); ("OpenDocumentation", "Documentation"); ("OpenSettings", "Parametres");
   ("AboutDialog", "A propos"); ("TranslateSelection", "Traduction"); ("SummarizeDocument", "Resume"); ("LoginSuccess", "Connexion SSO");
   ("LoginError", "Echec connexion"); ("ConfigFetched", "Config rechargee"); ("TelemetryError", "Erreur telemetrie")].
(** [icon]: the pictogram of a span, "" for the default one. *)
Definition span_label (span_name : string) : string :=
  match dget span_name SPAN_LABELS with Some label => icon span_name +:+ " " +:+ label | None => icon "" +:+ " " +:+ span_name end.
Definition compute_device_health (now : Z) (last_contact_at : moment) (last_error : string) : string :=
  let seen t := if truthy_str last_error then "error" else if 24 * HOUR <? now - t then "stale" else "ok" in
  match last_contact_at with
  | Absent => "never"
  | Number t | At t => seen t
  | Written s => match isoformat s with Some t => seen t | None => "never" end
  end.
End display.

(** ** The list *)
Record device_row : Type := DeviceRow {
  dv_uuid : string; dv_email : string; dv_platform : string; dv_agent : option string; dv_last : option Z; dv_enrollment : option string; dv_health : string }.
(** [MAX(created_at)] *)
Definition latest (l : list conn_row) : option Z :=
  foldr (λ c m, Some (match m with Some x => Z.max (dc_at c) x | None => dc_at c end)) None l.
(** The CASE of the query. *)
Definition health_case (now : Z) (last : option Z) : string :=
  match last with None => "never" | Some t => if 24 * HOUR <? now - t then "stale" else "ok" end.
(** LEFT JOIN provisioning *)
Definition enrolments (prov : list prov_row) (client_uuid : string) : list (option string) :=
  match filter (λ p, pv_client_uuid p = client_uuid ∧ pv_status p ∈ ["PENDING"; "ENROLLED"]) prov with
  | [] => [None] | l => (λ p, Some (pv_status p)) <$> l
  end.
Definition joined (prov : list prov_row) (c : conn_row) : list (conn_row * option string) := (λ s, (c, s)) <$> enrolments prov (dc_client_uuid c).
(** The group of a row; the column of addresses ignores case. *)
Definition group_key (x : conn_row * option string) : string * string * string * option string :=
  (dc_client_uuid x.1, lower (dc_email x.1), dc_action x.1, x.2).
Definition device_of (now : Z) (rows : list (conn_row * option string)) (k : string * string * string * option string) : device_row :=
  let l := (filter (λ x, group_key x = k) rows).*1 in
  DeviceRow k.1.1.1 (match l with c :: _ => dc_email c | [] => "" end) k.1.2 (max_text (omap dc_user_agent l)) (latest l) k.2 (health_case now (latest l)).
Definition owner_matches (owner : string) (c : conn_row) : result exc bool :=
  if truthy_str owner then either (ilike_within (Some (dc_email c)) owner) (ilike_within (dc_user_agent c) owner) else Ok true.
Definition platform_matches (platform : string) (c : conn_row) : bool := negb (truthy_str platform) || bool_decide (dc_action c = platform).
(** [ORDER BY MAX(created_at) DESC NULLS LAST] *)
Definition seen_later (a b : device_row) : Prop :=
  match dv_last a, dv_last b with Some x, Some y => y ≤ x | None, Some _ => False | _, None => True end.
#[export] Instance seen_later_dec a b : Decision (seen_later a b).
Proof. unfold seen_later. destruct (dv_last a), (dv_last b); apply _. Defined.
(** All pages together. *)
Definition matching_devices (now : Z) (conns : list conn_row) (prov : list prov_row) (owner platform health : string) : result exc (list device_row) :=
  let* kept := filterR (owner_matches owner) (filter (λ c, platform_matches platform c = true) conns) in
  let rows := kept ≫= joined prov in
  let devices := device_of now rows <$> remove_dups (group_key <$> rows) in
  Ok (merge_sort seen_later (filter (λ d, negb (truthy_str health) || bool_decide (dv_health d = health) = true) devices)).
Definition list_devices (now : Z) conns prov (owner platform health : string) (limit offset : Z) : result exc (list device_row) :=
  let* l := matching_devices now conns prov owner platform health in
  if offset <? 0 then Err (Exc "OFFSET must not be negative") else Ok (take (Z.to_nat limit) (drop (Z.to_nat offset) l)).

(** ** The counters *)
Record summary : Type := Summary { ok_count : Z; stale_count : Z; error_count : Z; never_count : Z }.
Definition last_contacts (conns : list conn_row) : list (option Z) :=
  (λ u, latest (filter (λ c, dc_client_uuid c = u) conns)) <$> remove_dups (dc_client_uuid <$> conns).
Definition count {A} (p : A → bool) (l : list A) : Z := Z.of_nat (List.length (filter (λ x, p x = true) l)).
Definition fresh (now : Z) (last : option Z) : bool := match last with Some t => now - t <=? 24 * HOUR | None => false end.
Definition idle (now : Z) (last : option Z) : bool := match last with Some t => (24 * HOUR <? now - t) && (now - t <=? 7 * 24 * HOUR) | None => false end.
Definition health_summary (now : Z) (conns : list conn_row) : summary :=
  let l := last_contacts conns in
  Summary (count (fresh now) l) (count (idle now) l) 0 (count (λ last : option Z, negb (bool_decide (is_Some last))) l).
Definition devices_list (now : Z) conns prov (owner platform health : string) (page : Z) : result exc (summary * list device_row) :=
  let* l := list_devices now conns prov owner platform health 50 (page * 50) in Ok (health_summary now conns, l).

(** ** One device *)
Record device_detail_row : Type := DeviceDetail { dd_conn : conn_row; dd_enrollment : option string; dd_device_name : option string }.
(** The last connection; [client_uuid::text] is compared with the text of the request. *)
Definition get_device_detail (conns : list conn_row) (prov : list prov_row) (client_uuid : string) : option device_detail_row :=
  match first_max dc_at (filter (λ c, dc_client_uuid c = client_uuid) conns) with
  | None => None
  | Some c =>
      match find (λ p, bool_decide (pv_client_uuid p = client_uuid ∧ pv_status p ∈ ["PENDING"; "ENROLLED"])) prov with
      | Some p => Some (DeviceDetail c (Some (pv_status p)) (Some (pv_device_name p)))
      | None => Some (DeviceDetail c None None)
      end
  end.
Definition conn_later (a b : conn_row) : Prop := dc_at b ≤ dc_at a.
#[export] Instance conn_later_dec a b : Decision (conn_later a b).
Proof. unfold conn_later. apply _. Defined.
Definition get_device_connections (conns : list conn_row) (client_uuid : string) (limit : nat) : list conn_row :=
  take limit (merge_sort conn_later (filter (λ c, dc_client_uuid c = client_uuid) conns)).
Record campaign_status_row : Type := CampaignStatus { cs_name : string; cs_campaign_status : string; cs_row : Status.row }.
Definition status_later (a b : campaign_status_row) : Prop := Status.ds_updated (cs_row b) ≤ Status.ds_updated (cs_row a).
#[export] Instance status_later_dec a b : Decision (status_later a b).
Proof. unfold status_later. apply _. Defined.
Definition get_device_campaign_statuses (campaigns : list campaign_row) (statuses : list Status.row) (client_uuid : string) : list campaign_status_row :=
  merge_sort status_later (
    filter (λ s, Status.ds_client s = client_uuid) statuses ≫= λ s,
      (λ c, CampaignStatus (cp_name c) (cp_status c) s) <$> filter (λ c, cp_id c = Status.ds_campaign s) campaigns).
(** A flag with one of its overrides and its cohort, if any. *)
Record device_flag : Type := DeviceFlag { df_flag : flag_row; df_override : option override_row; df_cohort : option string }.
(** LEFT JOIN: a row without match stays, once. *)
Definition left_join {A} (l : list A) : list (option A) := match l with [] => [None] | _ => Some <$> l end.
Definition member_matches (client_uuid email : string) (m : member_row) : bool :=
  bool_decide (cm_type m = "client_uuid" ∧ cm_value m = client_uuid) || bool_decide (cm_type m = "email" ∧ cm_value m = email).
Definition flag_rows (overrides : list override_row) (st : Service.state) (client_uuid email : string) (f : flag_row) : list device_flag :=
  o ← left_join (filter (λ o, fo_feature o = ff_id f) overrides);
  c ← left_join (match o with Some o => filter (λ c, co_id c = fo_cohort o) (Service.st_cohorts st) | None => [] end);
  _ ← left_join (match c with Some c => filter (λ m, cm_cohort m = co_id c ∧ member_matches client_uuid email m = true) (Service.st_members st) | None => [] end);
  [DeviceFlag f o (option_map co_name c)].
Definition flag_name_le (a b : device_flag) : Prop := str_ltb (ff_name (df_flag b)) (ff_name (df_flag a)) = false.
#[export] Instance flag_name_le_dec a b : Decision (flag_name_le a b).
Proof. unfold flag_name_le. apply _. Defined.
Definition get_device_flags (flags : list flag_row) (overrides : list override_row) (st : Service.state) (client_uuid email : string) : list device_flag :=
  merge_sort flag_name_le (flags ≫= flag_rows overrides st client_uuid email).
Record device_page : Type := DevicePage {
  dg_device : device_detail_row; dg_connections : list conn_row; dg_campaigns : list campaign_status_row; dg_flags : list device_flag }.
Definition device_detail (conns : list conn_row) (prov : list prov_row) (d : adb) (client_uuid : string) : result exc device_page :=
  match get_device_detail conns prov client_uuid with
  | None => Err (Http (HttpError 404 "Appareil non trouve"))
  | Some device =>
      Ok (DevicePage device (get_device_connections conns client_uuid 20)
            (get_device_campaign_statuses (Life.st_rows (d_camps d)) (d_statuses d) client_uuid)
            (get_device_flags (fs_flags (d_flags d)) (fs_overrides (d_flags d)) (d_cohorts d) client_uuid (dc_email (dd_conn device))))
  end.

(** ** Revocation *)
Record office : Type := Office { of_relay : list relay_row; of_db : adb }.
Section revocation.
(** [as_uuid]: the identifier that the database reads in a text, as it prints it. *)
Variables (drv : driver) (cl : call) (as_uuid : string → option string).
Definition active_rows (u : string) (l : list relay_row) : list relay_row := filter (λ r, rl_client_uuid r = u ∧ rl_revoked r = false) l.
Definition device_revoke_relay (client_uuid : string) : SM office answer := λ s,
  match as_uuid client_uuid with
  | None => (Err (Http (HttpError 400 "invalid input syntax for type uuid")), s)
  | Some u =>
      let revoked := Z.of_nat (List.length (active_rows u (of_relay s))) in
      match transaction (audit drv cl "relay.revoke" "relay_client" (Some client_uuid) (JObj [("revoked_rows", JInt revoked)])) (of_db s) with
      | (Ok _, d) => (Ok (Redirect ("/admin/devices/" +:+ client_uuid)), Office (revoke_client u <$> of_relay s) d)
      | (Err e, _) => (Err (Http (HttpError 400 (exc_text e))), s)
      end
  end.
End revocation.

(** ** Facts about the revocation *)
Lemma first_max_fmap {A B} (f : A → B) (g : B → Z) (l : list A) : first_max g (f <$> l) = f <$> first_max (λ a, g (f a)) l.
Proof.
  induction l as [|x l IH]; [done|]. cbn [fmap list_fmap first_max]. fold (f <$> l). rewrite IH. destruct (first_max _ l) as [b|]; cbn; [|done].
  by destruct (_ <? _).
Qed.
Lemma filter_fmap_same {A} (P : A → Prop) `{!∀ x, Decision (P x)} (f : A → A) (l : list A) : (∀ x, P (f x) ↔ P x) → filter P (f <$> l) = f <$> filter P l.
Proof.
  intros HP. induction l as [|x l IH]; [done|]. cbn [fmap list_fmap]. rewrite !filter_cons. specialize (HP x). rewrite IH. repeat case_decide; naive_solver.
Qed.
Lemma revoked_field {A} (g : relay_row → A) u r : (∀ i c e h t x b n, g (RelayRow i c e h t x b n) = g (RelayRow i c e h t x (negb b) n)) → g (revoke_client u r) = g r.
Proof. intros H. unfold revoke_client. case_decide as Hd; [|done]. destruct r. simpl in *. destruct Hd as [_ ->]. by rewrite H. Qed.
Lemma revoke_cases u r : rl_client_uuid r = u ∧ rl_revoked r = false ∧ rl_client_uuid (revoke_client u r) = u ∧ rl_revoked (revoke_client u r) = true ∨
  revoke_client u r = r ∧ ¬ (rl_client_uuid r = u ∧ rl_revoked r = false).
Proof. unfold revoke_client. case_decide as Hd; [left; cbn; tauto|by right]. Qed.
Lemma lookup_revoked u rows id : lookup_row (Db (revoke_client u <$> rows)) id = revoke_client u <$> lookup_row (Db rows) id.
Proof.
  unfold lookup_row. rewrite filter_fmap_same by (intros r; by rewrite (revoked_field rl_id)). rewrite first_max_fmap. f_equal.
  induction (filter _ rows) as [|r l IH]; [done|]. cbn [first_max]. rewrite IH. destruct (first_max rl_created l) as [b|]; [|done].
  by rewrite !(revoked_field rl_created).
Qed.
Lemma verify_revoked now pepper u rows id key target info :
  _verify_relay_credentials now pepper (Db (revoke_client u <$> rows)) id key target = Ok info ↔
  _verify_relay_credentials now pepper (Db rows) id key target = Ok info ∧ ri_client_uuid info ≠ u.
Proof.
  unfold _verify_relay_credentials. rewrite lookup_revoked. destruct (_ || _); [naive_solver|].
  destruct (lookup_row (Db rows) (strip id)) as [r|]; cbn [fmap option_fmap option_map]; [|naive_solver].
  unfold revoke_client. case_decide as Hd; cbn.
  - destruct Hd as [<- Hr]. split; [done|]. intros [H Hne]. exfalso. apply Hne. rewrite Hr in H.
    repeat (case_match; try done). by injection H as <-.
  - split; [|tauto]. intros H. split; [done|]. intros Hu. apply Hd. destruct (rl_revoked r); [done|].
    split; [|done]. rewrite <- Hu. repeat (case_match; try done). by injection H as <-.
Qed.
Lemma active_revoked now u rows v : LlmAuth._client_uuid_is_active now (Db (revoke_client u <$> rows)) v =
  LlmAuth._client_uuid_is_active now (Db rows) v && negb (bool_decide (v = u)).
Proof.
  unfold LlmAuth._client_uuid_is_active. destruct (truthy_str v); [|done]. cbn [negb].
  induction rows as [|r rows IH]; [done|]. cbn [fmap list_fmap existsb]. fold (revoke_client u <$> rows). rewrite IH.
  rewrite andb_orb_distrib_l. f_equal. pose proof (revoke_cases u r) as Hc. destruct (decide (v = u)) as [->|Hv].
  - rewrite (bool_decide_eq_true_2 (u = u)), andb_false_r by done. apply bool_decide_eq_false_2. intros (H1 & H2 & _).
    destruct Hc as [(_ & _ & _ & Hr)|[Hr Hn]]; [congruence|]. apply Hn. by rewrite <- Hr.
  - rewrite (bool_decide_eq_false_2 (v = u)), andb_true_r by done. apply bool_decide_ext.
    destruct Hc as [(H1 & _ & H2 & _)|[-> _]]; [|done]. split; intros (H & _); congruence.
Qed.
Lemma none_active u rows : active_rows u (revoke_client u <$> rows) = [].
Proof.
  unfold active_rows. induction rows as [|r rows IH]; [done|]. cbn [fmap list_fmap]. rewrite filter_cons_False; [done|].
  intros [H1 H2]. destruct (revoke_cases u r) as [(_ & _ & _ & Hr)|[Hr Hn]]; [congruence|]. apply Hn. by rewrite <- Hr.
Qed.
Lemma revoke_twice u (rows : list relay_row) : revoke_client u <$> (revoke_client u <$> rows) = revoke_client u <$> rows.
Proof.
  rewrite <- list_fmap_compose. apply list_fmap_ext. intros i r _. cbn. destruct (revoke_cases u (revoke_client u r)) as [(_ & H & _)|[-> _]]; [|done].
  destruct (revoke_cases u r) as [(_ & _ & _ & Hr)|[Hr Hn]]; [congruence|by rewrite !Hr].
Qed.

(** C29. Revoking the relay credentials of a device ends them at once and only them: from
    then on the presentation of a credential is accepted exactly when it was accepted before
    and belongs to another device, and so for the tokens of the LLM proxy; the entry of the
    audit log counts the credentials that were active; doing it again changes no
    credential; and a revocation that is refused changes nothing. *)
Theorem revocation_is_exact drv cl as_uuid client_uuid s r s' : device_revoke_relay drv cl as_uuid client_uuid s = (r, s') →
  (∃ e, r = Err (Http (HttpError 400 e)) ∧ s' = s) ∨
  ∃ u row, r = Ok (Redirect ("/admin/devices/" +:+ client_uuid)) ∧ as_uuid client_uuid = Some u ∧
    (∀ now pepper id key target info, _verify_relay_credentials now pepper (Db (of_relay s')) id key target = Ok info ↔
       _verify_relay_credentials now pepper (Db (of_relay s)) id key target = Ok info ∧ ri_client_uuid info ≠ u) ∧
    (∀ now v, LlmAuth._client_uuid_is_active now (Db (of_relay s')) v = LlmAuth._client_uuid_is_active now (Db (of_relay s)) v && negb (bool_decide (v = u))) ∧
    of_db s' = set_audit (d_audit (of_db s) ++ [row]) (of_db s) ∧ au_action row = "relay.revoke" ∧ au_email row = (actor cl).1 ∧
    au_payload row = JObj [("revoked_rows", JInt (Z.of_nat (List.length (active_rows u (of_relay s)))))] ∧
    active_rows u (of_relay s') = [] ∧ ∀ cl', of_relay (device_revoke_relay drv cl' as_uuid client_uuid s').2 = of_relay s'.
Proof.
  unfold device_revoke_relay. destruct (as_uuid client_uuid) as [u|]; [|intros [= <- <-]; left; eauto].
  destruct (transaction _ _) as [[[]|e] d] eqn:E; intros [= <- <-]; [|left; eauto]. right.
  apply transaction_ok in E as (t & E & ->). apply audit_entry in E as (row & -> & Ha & Hp & He). exists u, row. cbn [t_aborted t_db of_relay of_db].
  split_and!; [done|done|intros; apply verify_revoked|intros; apply active_revoked|done|done|done|done|apply none_active|].
  intros cl'. destruct (transaction _ _) as [[x|e] d']; cbn; [apply revoke_twice|done].
Qed.

(** ** Facts about the health *)
Lemma latest_Some l t : latest l = Some t ↔ (∃ c, c ∈ l ∧ dc_at c = t) ∧ ∀ c, c ∈ l → dc_at c ≤ t.
Proof.
  revert t. induction l as [|c l IH]; intros t; cbn [latest foldr].
  - split; [done|]. by intros [(x & Hx%elem_of_nil & _) _].
  - fold (latest l). destruct (latest l) as [m|] eqn:E.
    + destruct (proj1 (IH m) eq_refl) as [(b & Hb & Hm) Hall]. split.
      * intros [= <-]. split; [|intros x [->|Hx]%elem_of_cons; [lia|specialize (Hall x Hx); lia]].
        destruct (Z.max_spec (dc_at c) m) as [[_ ->]|[_ ->]]; [exists b|exists c]; (split; [|done]); [by right|by left].
      * intros [(x & Hx & <-) Ht]. f_equal. pose proof (Ht c ltac:(by left)). pose proof (Ht b ltac:(by right)).
        apply elem_of_cons in Hx as [->|Hx]; [|specialize (Hall x Hx)]; lia.
    + assert (l = []) as ->.
      { destruct l as [|b l']; [done|]. cbn in E. done. }
      split; [intros [= <-]; split; [exists c; split; [by left|done]|intros x Hx%list_elem_of_singleton; by subst]|].
      intros [(x & Hx%list_elem_of_singleton & <-) _]. by subst.
Qed.
Lemma latest_ne l : l ≠ [] → is_Some (latest l).
Proof. destruct l; [done|]. intros _. cbn. eauto. Qed.
Lemma fresh_latest now l : fresh now (latest l) = true ↔ ∃ c, c ∈ l ∧ now - dc_at c ≤ 24 * HOUR.
Proof.
  destruct (latest l) as [t|] eqn:E; cbn [fresh].
  - apply latest_Some in E as [(c & Hc & <-) Hall]. rewrite Z.leb_le. split; [by eauto|]. intros (b & Hb & H). specialize (Hall b Hb). lia.
  - destruct l as [|c l]; [|cbn in E; done]. split; [done|]. by intros (c & Hc%elem_of_nil & _).
Qed.
Lemma health_ok now last : health_case now last = "ok" ↔ fresh now last = true.
Proof. destruct last as [t|]; cbn; [|done]. destruct (_ <? _) eqn:E; rewrite Z.leb_le; [split; [done|lia]|split; [lia|done]]. Qed.
Lemma enrolments_ne prov u : ∃ s, s ∈ enrolments prov u.
Proof. unfold enrolments. destruct (filter _ prov) as [|p l]; [exists None; by left|]. exists (Some (pv_status p)). by left. Qed.
Lemma elem_joined prov conns x : x ∈ conns ≫= joined prov ↔ x.1 ∈ conns ∧ x.2 ∈ enrolments prov (dc_client_uuid x.1).
Proof.
  rewrite list_elem_of_bind. unfold joined. split.
  - intros (c & (s & -> & Hs)%list_elem_of_fmap & Hc). done.
  - destruct x as [c s]. intros [Hc Hs]. exists c. split; [|done]. apply list_elem_of_fmap. eauto.
Qed.
Lemma filter_id {A} (P : A → Prop) `{!∀ x, Decision (P x)} (l : list A) : (∀ x, P x) → filter P l = l.
Proof. intros HP. induction l as [|x l IH]; [done|]. rewrite filter_cons_True by apply HP. by rewrite IH. Qed.
Lemma filterR_all {A} (p : A → result exc bool) l : (∀ x, p x = Ok true) → filterR p l = Ok l.
Proof. intros H. induction l as [|x l IH]; [done|]. cbn [filterR]. rewrite H. cbn [rbind]. by rewrite IH. Qed.
Lemma all_devices now conns prov : ∃ l, matching_devices now conns prov "" "" "" = Ok l ∧
  ∀ d, d ∈ l ↔ ∃ x, x.1 ∈ conns ∧ x.2 ∈ enrolments prov (dc_client_uuid x.1) ∧ d = device_of now (conns ≫= joined prov) (group_key x).
Proof.
  unfold matching_devices. rewrite (filter_id (λ c, platform_matches "" c = true)) by done.
  rewrite filterR_all by done. cbn [rbind]. eexists. split; [reflexivity|]. intros d.
  rewrite merge_sort_Permutation, list_elem_of_filter, list_elem_of_fmap. split.
  - intros (_ & k & -> & Hk). rewrite elem_of_remove_dups in Hk. apply list_elem_of_fmap in Hk as (x & -> & Hx). apply elem_joined in Hx as [H1 H2]. eauto.
  - intros (x & H1 & H2 & ->). split; [done|]. exists (group_key x). split; [done|]. rewrite elem_of_remove_dups. apply list_elem_of_fmap.
    exists x. split; [done|]. by apply elem_joined.
Qed.
(** A device is in good health in the list, under some of its rows, when it is so in the counters. *)
Lemma listed_ok now conns prov l u : matching_devices now conns prov "" "" "" = Ok l →
  u ∈ dv_uuid <$> filter (λ d, dv_health d = "ok") l ↔ ∃ c, c ∈ conns ∧ dc_client_uuid c = u ∧ now - dc_at c ≤ 24 * HOUR.
Proof.
  destruct (all_devices now conns prov) as (l' & -> & Hl). intros [= <-]. rewrite list_elem_of_fmap. split.
  - intros (d & -> & [Hok (x & H1 & H2 & ->)%Hl]%list_elem_of_filter). apply health_ok, fresh_latest in Hok as (c & Hc & H).
    apply list_elem_of_fmap in Hc as (y & -> & [Hk Hy]%list_elem_of_filter). apply elem_joined in Hy as [Hy _].
    exists y.1. split_and!; [done| |done]. injection Hk as Hu _ _ _. exact Hu.
  - intros (c & Hc & <- & H). destruct (enrolments_ne prov (dc_client_uuid c)) as [s Hs].
    exists (device_of now (conns ≫= joined prov) (group_key (c, s))). split; [done|]. apply list_elem_of_filter. split.
    + apply health_ok, fresh_latest. exists c. split; [|done]. apply list_elem_of_fmap. exists (c, s). split; [done|].
      apply list_elem_of_filter. split; [done|]. by apply elem_joined.
    + apply Hl. exists (c, s). done.
Qed.
Lemma count_fmap {A B} (f : A → B) (p : B → bool) l : count p (f <$> l) = count (λ x, p (f x)) l.
Proof. unfold count. induction l as [|x l IH]; [done|]. cbn [fmap list_fmap]. rewrite !filter_cons. destruct (decide (p (f x) = true)); cbn [List.length]; rewrite ?Nat2Z.inj_succ; fold (f <$> l); lia. Qed.
Lemma count_ext {A} (p q : A → bool) l : (∀ x, x ∈ l → p x = q x) → count p l = count q l.
Proof.
  unfold count. induction l as [|x l IH]; intros H; [done|]. rewrite !filter_cons, (H x) by (by left).
  specialize (IH (λ y Hy, H y ltac:(by right))). destruct (decide (q x = true)); cbn [List.length]; lia.
Qed.
Lemma count_add {A} (p q : A → bool) l : (∀ x, x ∈ l → p x && q x = false) → count p l + count q l = count (λ x, p x || q x) l.
Proof.
  unfold count. induction l as [|x l IH]; intros H; [done|]. rewrite !filter_cons. specialize (IH (λ y Hy, H y ltac:(by right))).
  specialize (H x ltac:(by left)). destruct (p x), (q x); try done; cbn [decide decide_rel List.length]; repeat case_decide; try done; cbn [List.length]; lia.
Qed.
Lemma count_all {A} (p : A → bool) l : (∀ x, x ∈ l → p x = true) → count p l = Z.of_nat (List.length l).
Proof.
  unfold count. induction l as [|x l IH]; intros H; [done|]. rewrite filter_cons_True by (apply H; by left).
  specialize (IH (λ y Hy, H y ltac:(by right))). cbn [List.length]. lia.
Qed.
Lemma contacted conns last : last ∈ last_contacts conns → is_Some last.
Proof.
  intros (u & -> & Hu)%list_elem_of_fmap. apply latest_ne. rewrite elem_of_remove_dups in Hu. apply list_elem_of_fmap in Hu as (c & -> & Hc).
  intros E. assert (c ∈ filter (λ c', dc_client_uuid c' = dc_client_uuid c) conns) as Hin by (by apply list_elem_of_filter). rewrite E in Hin. by apply elem_of_nil in Hin.
Qed.
(** Not seen for more than a week. *)
Definition forgotten (now : Z) (last : option Z) : bool := match last with Some t => 7 * 24 * HOUR <? now - t | None => false end.

(** The counters of the devices agree with their list: a device counts as in good health
    exactly when one of its rows in the list shows it so, as [compute_device_health] would;
    those and the idle ones are all the devices but those not seen for a week, which no counter
    shows; and none is counted as never seen. *)
Theorem health_counts isoformat now conns prov l : matching_devices now conns prov "" "" "" = Ok l →
  let s := health_summary now conns in let devices := remove_dups (dc_client_uuid <$> conns) in
  ok_count s = Z.of_nat (List.length (filter (λ u, u ∈ dv_uuid <$> filter (λ d, dv_health d = "ok") l) devices)) ∧
  ok_count s + stale_count s + count (forgotten now) (last_contacts conns) = Z.of_nat (List.length devices) ∧ never_count s = 0 ∧
  (∀ d, d ∈ l → ∃ t, dv_last d = Some t ∧ dv_health d = compute_device_health isoformat now (At t) "").
Proof.
  intros Hl. cbn [health_summary ok_count stale_count never_count]. split_and!.
  - unfold last_contacts. rewrite count_fmap. rewrite (count_ext _ (λ u, bool_decide (u ∈ dv_uuid <$> filter (λ d, dv_health d = "ok") l))).
    + unfold count. do 2 f_equal. apply list_filter_iff. intros u. by rewrite bool_decide_eq_true.
    + intros u _. apply eq_bool_prop_intro. rewrite bool_decide_spec, Is_true_true, fresh_latest, (listed_ok now conns prov l u Hl).
      split; intros (c & H).
      * destruct H as [[Hu Hc]%list_elem_of_filter H]. eauto.
      * destruct H as (Hc & Hu & H). exists c. split; [by apply list_elem_of_filter|done].
  - rewrite !count_add; [|intros [t|] _; cbn; unfold HOUR; lia..].
    rewrite count_all; [unfold last_contacts; by rewrite length_fmap|]. intros last [t ->]%contacted. cbn. unfold HOUR. lia.
  - rewrite (count_ext _ (λ _, false)); [|intros last [t ->]%contacted; done]. unfold count. by rewrite filter_none.
  - destruct (all_devices now conns prov) as (l' & Hl' & Hd). rewrite Hl in Hl'. injection Hl' as <-. intros d (x & H1 & H2 & ->)%Hd.
    destruct (latest_ne ((filter (λ y, group_key y = group_key x) (conns ≫= joined prov)).*1)) as [t Ht].
    + intros E. assert (x.1 ∈ (filter (λ y, group_key y = group_key x) (conns ≫= joined prov)).*1) as Hin.
      { apply list_elem_of_fmap. exists x. split; [done|]. apply list_elem_of_filter. split; [done|]. by apply elem_joined. }
      rewrite E in Hin. by apply elem_of_nil in Hin.
    + exists t. cbn [device_of dv_last dv_health]. rewrite Ht. done.
Qed.

(** ** Facts about the flags shown *)
Lemma left_join_ne {A} (l : list A) : ∃ x, x ∈ left_join l.
Proof. destruct l as [|x l]; [exists None|exists (Some x)]; by left. Qed.
(** The flags shown for a device do not depend on it: the page lists each flag with every
    override of it and the cohort of that override, or alone when it has none, whoever the
    device and its user are; the members of the cohorts only repeat rows. *)
Theorem flags_shown flags overrides st client_uuid email x : x ∈ get_device_flags flags overrides st client_uuid email ↔
  df_flag x ∈ flags ∧ df_override x ∈ left_join (filter (λ o, fo_feature o = ff_id (df_flag x)) overrides) ∧
  df_cohort x ∈ option_map co_name <$> left_join (match df_override x with Some o => filter (λ c, co_id c = fo_cohort o) (Service.st_cohorts st) | None => [] end).
Proof.
  unfold get_device_flags. rewrite merge_sort_Permutation, list_elem_of_bind. unfold flag_rows. split.
  - intros (f & Hx & Hf). apply list_elem_of_bind in Hx as (o & Hx & Ho). apply list_elem_of_bind in Hx as (c & Hx & Hc).
    apply list_elem_of_bind in Hx as (m & ->%list_elem_of_singleton & _). cbn. split_and!; [done..|]. apply list_elem_of_fmap. eauto.
  - intros (Hf & Ho & (c & Ec & Hc)%list_elem_of_fmap). exists (df_flag x). split; [|done].
    apply list_elem_of_bind. exists (df_override x). split; [|done]. apply list_elem_of_bind. exists c. split; [|done].
    match goal with |- context [left_join ?l] => destruct (left_join_ne l) as [m Hm] end.
    apply list_elem_of_bind. exists m. split; [|done]. apply list_elem_of_singleton. destruct x. cbn in *. by rewrite Ec.
Qed.

(** ** Examples *)
Module Demo.
Definition conn (client : string) (t : Z) : conn_row := ConnRow "ana@example.org" client "WRITER" "fp" t None (Some "LibreOffice").
Definition HOURS (n : Z) : Z := n * HOUR.
Definition now_ex : Z := HOURS 1000.
Definition conns_ex : list conn_row := [conn "a" (HOURS 900); conn "a" (HOURS 990); conn "b" (HOURS 970); conn "c" (HOURS 800)].
Definition prov_ex : list prov_row := [ProvRow "ana@example.org" "mirai" "a" "ENROLLED" "" "" 0].
Definition listed (health : string) : list (string * string) :=
  match list_devices now_ex conns_ex prov_ex "" "" health 50 0 with Ok l => (λ d, (dv_uuid d, dv_health d)) <$> l | Err _ => [] end.
(** The device that has been silent for more than a week is in the list of the idle ones and in no counter. *)
Example week_is_uncounted :
  listed "stale" = [("b", "stale"); ("c", "stale")] ∧ health_summary now_ex conns_ex = Summary 1 1 0 0 ∧ listed "ok" = [("a", "ok")] ∧ listed "never" = [].
Proof. vm_compute. done. Qed.
Example ago :
  timeago (λ _, None) (λ _, "01/01/2026") now_ex (At (HOURS 999)) = "il y a 1h" ∧ timeago (λ _, None) (λ _, "01/01/2026") now_ex (At (HOURS 940)) = "il y a 2 jours" ∧
  timeago (λ _, None) (λ _, "01/01/2026") now_ex (At (HOURS 1)) = "01/01/2026" ∧ timeago (λ _, None) (λ _, "") now_ex (Written "?") = "?" ∧
  timeago (λ _, None) (λ _, "") now_ex (At (HOURS 2000)) = "il y a quelques secondes".
Proof. vm_compute. done. Qed.
Definition flag_ex : flag_row := FlagRow 1 "beta" "" "" None false None.
Definition cohort_ex : Service.state := Service.State [CohortRow 7 "testers" "" "manual" (JObj [])] [MemberRow 7 "email" "bob@example.org"] 8.
(** An override for the testers is shown on the page of a device that is not among them. *)
Example override_of_others :
  (λ x, (df_override x, df_cohort x)) <$> get_device_flags [flag_ex] [OverrideRow 1 7 true None] cohort_ex "a" "ana@example.org" = [(Some (OverrideRow 1 7 true None), Some "testers")].
Proof. vm_compute. reflexivity. Qed.

Lemma health_counts_witness : ∃ l, matching_devices now_ex conns_ex prov_ex "" "" "" = Ok l ∧
  ok_count (health_summary now_ex conns_ex) + stale_count (health_summary now_ex conns_ex) + count (forgotten now_ex) (last_contacts conns_ex) = 3.
Proof.
  eexists. split; [vm_compute; reflexivity|].
  destruct (health_counts (λ _, None) now_ex conns_ex prov_ex _ eq_refl) as (_ & H & _). rewrite H. by vm_compute.
Defined.

Definition drv_ex : driver := Driver (λ _, None) (λ _, None) (λ t, Some t) (λ ip, bool_decide (ip = "10.0.0.1")).
Definition cl_ex : call := Call [("email", "ana@example.org"); ("sub", "ana")] (Some "10.0.0.1") 1000.
Definition db_ex : adb :=
  Adb (Catalog [] [] [] [] [] 1 1 1) (Life.State [] 1) [] (Service.State [] [] 1) (FlagState [] [] 1) [] [] [] [] [] [] [] [] [] 1.
Definition relay_ex : list relay_row :=
  [RelayRow "rc_1" "a" "" (Crypto.hash_relay_secret "rc_1" "k1" "") ["config"] 0 false 1; RelayRow "rc_2" "b" "" (Crypto.hash_relay_secret "rc_2" "k2" "") ["config"] 0 false 2].
Definition office_ex : office := Office relay_ex db_ex.
Definition revoke (id : string) := device_revoke_relay drv_ex cl_ex (λ s, or_none (lower s)) id office_ex.
Lemma revocation_is_exact_witness :
  (revoke "").1 = Err (Http (HttpError 400 "invalid input syntax for type uuid")) ∧
  ∃ info, _verify_relay_credentials 5 "" (Db (of_relay (revoke "A").2)) "rc_2" "k2" "config" = Ok info ∧
    LlmAuth._client_uuid_is_active 5 (Db (of_relay (revoke "A").2)) "a" = false.
Proof.
  split; [reflexivity|].
  destruct (revocation_is_exact drv_ex cl_ex (λ s, or_none (lower s)) "A" office_ex _ _ (surjective_pairing _)) as [(e & H & _)|(u & row & _ & Hu & Hv & Ha & _)];
    [discriminate H|]. injection Hu as <-. destruct (_verify_relay_credentials 5 "" (Db relay_ex) "rc_2" "k2" "config") as [info|] eqn:E; [|vm_compute in E; discriminate E].
  exists info. unfold revoke. split; [|rewrite (Ha 5 "a"), bool_decide_eq_true_2, andb_false_r by done; done].
  apply Hv. split; [exact E|]. vm_compute in E. injection E as <-. done.
Defined.
End Demo.
