(* ===== verification/FileBrowser.v ===== *)
(** * The file browser
    Of [app/admin/router.py] the pages [files_index], [files_browse] and
    [files_download] over the three directories of [_FILE_ROOTS], and the files API
    of the admin pod with its token ([admin_files_upload], [admin_files_get],
    [admin_files_list]); of [app/main.py] [files_list]. The disk is a tree: physical
    paths to files and folders; symbolic links are those of [Paths]. The order in
    which the system lists a folder, and the reading of bytes as text, are arguments. *)
From S2P Require Import Prelude Text Json Effects Paths AdminAuth Relay RuntimeConfig Ingest Binaries Chunks.
From stdpp Require Import sorting.
From Stdlib Require Import Ascii String.
Open Scope Z_scope.

(** ** [pathlib.PurePosixPath] *)
Definition splitroot (p : string) : string * string :=
  match p with
  | String a r =>
      if is_char "/" a then
        match r with String b r' => if is_char "/" b && negb (starts_with "/" r') then ("//", r') else ("/", r) | "" => ("/", "") end
      else ("", p)
  | "" => ("", "")
  end.
Definition tail_parts (rel : string) : list string := filter (λ x, x ≠ "" ∧ x ≠ ".") (split_on "/" rel).
Definition posix_parts (p : string) : list string :=
  let '(root, rel) := splitroot p in (if truthy_str root then [root] else []) ++ tail_parts rel.
(** [str(Path(p))] *)
Definition path_text (p : string) : string :=
  let '(root, rel) := splitroot p in str_or (root +:+ sjoin "/" (tail_parts rel)) ".".
(** [p.suffix] *)
Definition suffix (name : string) : string :=
  let ws := split_on "." name in
  let ext := List.last ws "" in
  if (1 <? List.length ws)%nat && truthy_str ext && truthy_str (sjoin "." (removelast ws)) then "." +:+ ext else "".

(** ** [_human_size] *)
(** [f"{n / d:.1f}"], exact below 2^53: the tenth nearest, the even one of two. *)
Definition tenths (n d : Z) : Z := half_even (10 * n) d.
Definition one_decimal (n d : Z) : string := let t := tenths n d in py_str_int (t / 10) +:+ "." +:+ py_str_int (t mod 10).
Fixpoint size_in (units : list string) (n d : Z) : string :=
  match units with
  | [] => one_decimal n d +:+ " To"
  | u :: us => if n <? 1024 * d then (if u =? "o" then py_str_int n else one_decimal n d)%string +:+ " " +:+ u else size_in us n (d * 1024)
  end.
Definition _human_size (size_bytes : Z) : string := size_in ["o"; "Ko"; "Mo"; "Go"] size_bytes 1.

(** ** The disk *)
Inductive node : Type := File (content : string) (mtime : Z) | Folder (mtime : Z).
Notation tree := (gmap (list string) node).
(** What lies at a place and below. *)
Definition inside {A} (d : list string) (m : gmap (list string) A) : gmap (list string) A := filter (λ kv, d `prefix_of` kv.1) m.
Definition child (d k : list string) : option string := if decide (k ≠ [] ∧ removelast k = d) then last k else None.
Definition node_size (n : node) : Z := match n with File c _ => Z.of_nat (String.length c) | Folder _ => 0 end.
Definition is_file (n : option node) : bool := match n with Some (File _ _) => true | _ => false end.
Definition is_folder (n : option node) : bool := match n with Some (Folder _) => true | _ => false end.
Definition missing {A} : result exc A := Err (Exc "[Errno 2] No such file or directory").

Record file_entry : Type := FileEntry { fe_name : string; fe_is_dir : bool; fe_size : Z; fe_size_human : string; fe_mtime : Z }.
Record root_info : Type := RootInfo { ro_name : string; ro_exists : bool; ro_count : Z }.
Inductive view : Type :=
| Roots (l : list root_info)
| Listing (entries : list file_entry) (current_path : string) (breadcrumbs : list (string * string))
| Detail (e : file_entry) (sfx : string) (preview : option string) (current_path : string) (breadcrumbs : list (string * string)) (download_url : string)
| ToIndex
| Attachment (content filename : string).

Section browser.
Variables (links : gmap (list string) string) (cwd : list string) (env : environ) (decode : string → string).

Definition _FILE_ROOTS : list (string * string) :=
  [("enroll", path_text (getenv "DM_ENROLL_DIR" "/data/enroll" env));
   ("binaries", path_text (getenv "DM_LOCAL_BINARIES_DIR" "/data/content/binaries" env));
   ("config", path_text (getenv "DM_CONFIG_DIR" "/data/content/config" env))].
Definition _safe_resolve (root subpath : string) : result exc string := of_http (safe_path_join links cwd root subpath).

Section reading.
Variable t : tree.
(** Links are followed; a link to nothing and one that leads back to itself are absent. *)
Definition stat (p : string) : option node := t !! place links cwd p.
(** [directory.iterdir()]: the names. *)
Definition iterdir (p : string) : list string :=
  let d := place links cwd p in omap (child d) (map_to_list (inside d t)).*1 ++ omap (child d) (map_to_list (inside d links)).*1.
Definition listed_entry (p name : string) : result exc file_entry :=
  match stat (OsPath.join p name) with
  | Some (File c m) => let n := Z.of_nat (String.length c) in Ok (FileEntry name false n (_human_size n) m)
  | Some (Folder m) => Ok (FileEntry name true 0 "-" m)
  | None => missing
  end.
(** The key of a name: folders first. *)
Definition entry_key (p name : string) : bool * string := (is_folder (stat (OsPath.join p name)), lower name).
Definition key_le (a b : (bool * string) * string) : Prop :=
  match a.1.1, b.1.1 with true, false => True | false, true => False | _, _ => str_ltb b.1.2 a.1.2 = false end.
#[export] Instance key_le_dec a b : Decision (key_le a b).
Proof. unfold key_le. destruct a.1.1, b.1.1; apply _. Defined.
Definition _list_dir (p : string) : result exc (list file_entry) :=
  if is_folder (stat p) then
    mapR (listed_entry p) (merge_sort key_le ((λ n, (entry_key p n, n)) <$> iterdir p)).*2
  else Ok [].

Definition files_index : view :=
  Roots ((λ r : string * string, let there := is_folder (stat r.2) in
           RootInfo r.1 there (if there then Z.of_nat (List.length (iterdir r.2)) else 0)) <$> _FILE_ROOTS).
(** [accumulated] *)
Fixpoint crumbs (acc : string) (parts : list string) : list (string * string) :=
  match parts with [] => [] | p :: ps => let acc := acc +:+ "/" +:+ p in (p, acc) :: crumbs acc ps end.
Definition previewed : list string := [".json"; ".txt"; ".log"; ".yaml"; ".yml"; ".conf"; ".md"; ".csv"].
Definition files_browse (path : string) : result exc view :=
  match posix_parts path with
  | [] => Ok ToIndex
  | root_name :: parts =>
      match dget root_name _FILE_ROOTS with
      | None => Err (Http (HttpError 404 ("Repertoire inconnu: " +:+ root_name)))
      | Some root =>
          let* resolved := _safe_resolve root (sjoin "/" parts) in
          let breadcrumbs := (root_name, root_name) :: crumbs root_name parts in
          match stat resolved with
          | None => Err (Http (HttpError 404 "Fichier ou repertoire introuvable"))
          | Some (Folder _) => let* entries := _list_dir resolved in Ok (Listing entries path breadcrumbs)
          | Some (File c m) =>
              let name := basename resolved in
              let n := Z.of_nat (String.length c) in
              Ok (Detail (FileEntry name false n (_human_size n) m) (suffix name)
                    (if bool_decide (suffix name ∈ previewed) then Some (stake (Z.to_nat 10000) (decode c)) else None)
                    path breadcrumbs ("/admin/files-dl/" +:+ path))
          end
      end
  end.
Definition files_download (path : string) : result exc view :=
  match posix_parts path with
  | [] => Err (Http (HttpError 404 "Not Found"))
  | root_name :: parts =>
      match dget root_name _FILE_ROOTS with
      | None => Err (Http (HttpError 404 "Not Found"))
      | Some root =>
          let* resolved := _safe_resolve root (sjoin "/" parts) in
          match stat resolved with
          | Some (File c _) => Ok (Attachment c (basename resolved))
          | _ => Err (Http (HttpError 404 "Fichier introuvable"))
          end
      end
  end.

(** ** The files API *)
(** The components, below [d], of what [os.walk] takes for a file: it does not
    enter the folders that are links. *)
Definition walk (d : list string) : list (list string) :=
  omap (λ kv : list string * node, if is_file (Some kv.2) then Some (drop (List.length d) kv.1) else None) (map_to_list (inside d t)) ++
  omap (λ kv : list string * string, if is_folder (stat (OsPath.path_str kv.1)) then None else Some (drop (List.length d) kv.1)) (map_to_list (inside d links)).
Definition abspath (p : string) : list string :=
  filter (λ c, c ≠ "") (split_on "/" (OsPath.normpath (if OsPath.isabs p then p else OsPath.join (OsPath.path_str cwd) p))).
Fixpoint relative (path start : list string) : list string :=
  match path, start with
  | x :: p, y :: s => if decide (x = y) then relative p s else (const ".." <$> start) ++ path
  | _, _ => (const ".." <$> start) ++ path
  end.
(** [os.path.relpath] *)
Definition relpath (path start : string) : string := str_or (sjoin "/" (relative (abspath path) (abspath start))) ".".
Definition path_le (a b : string * Z) : Prop := str_ltb b.1 a.1 = false.
#[export] Instance path_le_dec a b : Decision (path_le a b).
Proof. unfold path_le. apply _. Defined.
Definition files_under (base target : string) : result exc (list (string * Z)) :=
  let* l := mapR (λ r, let full := foldl OsPath.join target r in
                       match stat full with Some n => Ok (relpath full base, node_size n) | None => missing end)
                 (walk (place links cwd target)) in
  Ok (merge_sort path_le l).
Definition binaries_dir : string := getenv "DM_LOCAL_BINARIES_DIR" "/data/content/binaries" env.
Definition _files_token_check (hs : headers) : result exc bool :=
  let expected := strip (getenv "DM_QUEUE_ADMIN_TOKEN" "" env) in
  if negb (truthy_str expected) then Ok false
  else match compare_digest_str (strip (hget "x-admin-token" hs)) expected with
       | Ok b => Ok b
       | Err _ => Err (Exc "comparing strings with non-ASCII characters is not supported")
       end.
Definition with_token {A} (hs : headers) (k : result exc A) : result exc A :=
  let* ok := _files_token_check hs in if ok : bool then k else Err (Http (HttpError 403 "Invalid token")).
Definition target_of (base prefix : string) : result exc string := if truthy_str prefix then _safe_resolve base prefix else Ok base.
Definition admin_files_list (hs : headers) (prefix : string) : result exc (list (string * Z)) :=
  with_token hs (
    let* target := target_of binaries_dir prefix in
    if is_folder (stat target) then files_under binaries_dir target else Ok []).
(** [files_list] of the API pod, once its guard has let the request through;
    [base]: [settings.local_binaries_dir]. *)
Definition files_list (base prefix : string) : result exc (list (string * Z)) :=
  if is_folder (stat base) then
    let* target := target_of base prefix in
    if is_folder (stat target) then files_under base target else Ok []
  else Ok [].
Definition admin_files_get (hs : headers) (path : string) : result exc view :=
  with_token hs (
    let* full := _safe_resolve binaries_dir path in
    match stat full with Some (File c _) => Ok (Attachment c "") | _ => Err (Http (HttpError 404 "File not found")) end).
End reading.

(** [os.makedirs(d, exist_ok=True)]: a file on the way makes it fail. *)
Fixpoint make_folders (now : Z) (d rest : list string) (t : tree) : option tree :=
  match t !! d with
  | Some (File _ _) => None
  | at_d => let t := match at_d with None => <[d := Folder now]> t | Some _ => t end in
            match rest with [] => Some t | c :: rest => make_folders now (d ++ [c]) rest t end
  end.
Definition admin_files_upload (now : Z) (hs : headers) (path data : string) : SM tree (list (string * json)) := λ t,
  match with_token hs (_safe_resolve binaries_dir path) with
  | Err e => (Err e, t)
  | Ok full =>
      let k := place links cwd full in
      match make_folders now [] (removelast k) t with
      | None => (Err (Exc "[Errno 20] Not a directory"), t)
      | Some t =>
          match t !! k with
          | Some (Folder _) => (Err (Exc "[Errno 21] Is a directory"), t)
          | _ => (Ok [("ok", JBool true); ("path", JStr path); ("size", JInt (Z.of_nat (String.length data)))], <[k := File data now]> t)
          end
      end
  end.
End browser.
