(* ===== verification/FileFacts.v ===== *)
(** * What the file browser shows
    Nothing outside its directories, as long as no link leads out of them, and what the
    files API lists is what it serves. *)
From S2P Require Import Prelude Text Json Effects Paths AdminAuth Relay RuntimeConfig Ingest Binaries Chunks FileBrowser.
From stdpp Require Import sorting.
From Stdlib Require Import Ascii String.
Open Scope Z_scope.

(** ** A directory no link leads out of *)
Record clean (links : gmap (list string) string) (d : string) (bs : list string) : Prop := Clean {
  cl_text : d = OsPath.path_str bs; cl_ne : bs ≠ []; cl_phys : physical links bs;
  cl_below : ∀ k, bs `prefix_of` k → links !! k = None }.
Definition same_inside (bs : list string) (t1 t2 : gmap (list string) node) : Prop := ∀ k, bs `prefix_of` k → t1 !! k = t2 !! k.
Definition plain (t : gmap (list string) node) : Prop := map_Forall (λ k _, Forall comp_ok k) t.

Section clean.
Variables (links : gmap (list string) string) (cwd : list string) (d : string) (bs : list string).
Hypothesis C : clean links d bs.

Lemma clean_physical cs : bs `prefix_of` cs → Forall comp_ok cs → physical links cs.
Proof.
  intros Hp Hok. split; [done|]. intros q Hq Hne. destruct (prefix_weak_total q bs cs Hq Hp) as [H|H].
  - by apply (cl_phys _ _ _ C).
  - by apply (cl_below _ _ _ C).
Qed.
Lemma clean_place cs : bs `prefix_of` cs → Forall comp_ok cs → place links cwd (OsPath.path_str cs) = cs.
Proof. intros Hp Hok. unfold place. rewrite realpath_physical by by apply clean_physical. by apply comps_path_str. Qed.
Lemma clean_base : place links cwd d = bs.
Proof. rewrite (cl_text _ _ _ C). apply clean_place; [done|]. apply (cl_phys _ _ _ C). Qed.
Lemma clean_join x p : physical links cwd → safe_path_join links cwd d x = Ok p →
  ∃ cs, p = OsPath.path_str cs ∧ bs `prefix_of` cs ∧ Forall comp_ok cs.
Proof.
  intros Hcwd. unfold safe_path_join. pose proof (cl_text _ _ _ C) as Hd. pose proof (cl_ne _ _ _ C) as Hne. pose proof (cl_phys _ _ _ C) as Hph. rewrite Hd, realpath_physical by done. set (cand := OsPath.join _ _).
  destruct (realpath_canonical links cwd cand Hcwd) as (cs & [Hok Hcs] & _).
  case_match eqn:E; [|done]. intros [= <-]. apply orb_true_iff in E as [E%bool_decide_eq_true|E].
  - exists bs. split_and!; [done..|]. by destruct Hph.
  - assert (bs `prefix_of` cs) as Hp by (eapply (starts_with_base (OsPath.path_str bs)); [split; [exact (proj1 Hph)|by left]|split; [exact Hok|exact Hcs]|exact E]).
    exists cs. split; [|done]. destruct Hcs as [?|Hcs]; [done|]. exfalso. rewrite Hcs in E.
    apply starts_with_true in E as [r Hr]. destruct bs as [|b bs']; [done|]. destruct Hph as [[(a & r' & -> & Ha)%comp_ok_head _]%Forall_cons _].
    cbn [OsPath.path_str OsPath.tail_str foldr] in Hr. rewrite !sapp_cons in Hr. injection Hr as Hr.
    pose proof (path_str_isabs cs) as H. rewrite Hr in H. unfold OsPath.isabs in H. by rewrite starts_slash_false in H.
Qed.

(** The names in a folder below. *)
Lemma child_spec k x q : child k q = Some x ↔ q = k ++ [x].
Proof.
  unfold child. split.
  - case_decide as H; [|done]. destruct H as [Hne <-]. intros Hl. rewrite last_lookup in Hl. revert Hl.
    destruct q as [|y q _] using rev_ind; [done|]. rewrite removelast_last. intros Hl. f_equal. f_equal.
    rewrite length_app in Hl. cbn in Hl. rewrite lookup_app_r in Hl by lia.
    replace (Nat.pred (List.length q + 1) - List.length q)%nat with O in Hl by lia. cbn in Hl. congruence.
  - intros ->. rewrite decide_True by (split; [by destruct k|by rewrite removelast_last]). apply last_snoc.
Qed.
Lemma no_links_inside k : bs `prefix_of` k → inside k links = ∅.
Proof.
  intros Hk. apply map_eq. intros q. rewrite lookup_empty. apply map_lookup_filter_None. right. intros t Ht Hq. simpl in Hq.
  rewrite (cl_below _ _ _ C) in Ht; [done|]. by etrans.
Qed.
End clean.

Lemma inside_same bs t1 t2 k : same_inside bs t1 t2 → bs `prefix_of` k → inside k t1 = inside k t2.
Proof.
  intros H Hk. apply map_eq. intros q. unfold inside. apply option_eq. intros n. rewrite !map_lookup_filter_Some. simpl.
  split; intros [Hq Hp]; (split; [|done]); [rewrite <- H|rewrite H]; try done; by etrans.
Qed.

Section agree.
Variables (links : gmap (list string) string) (cwd : list string) (env : environ) (decode : string → string) (d : string) (bs : list string)
  (t1 t2 : gmap (list string) node).
Hypotheses (C : clean links d bs) (S : same_inside bs t1 t2) (P : plain t1).

Lemma stat_same cs : bs `prefix_of` cs → Forall comp_ok cs → stat links cwd t1 (OsPath.path_str cs) = stat links cwd t2 (OsPath.path_str cs).
Proof. intros Hp Hok. unfold stat. rewrite (clean_place _ _ _ _ C) by done. by apply S. Qed.
Lemma iterdir_same cs : bs `prefix_of` cs → Forall comp_ok cs → iterdir links cwd t1 (OsPath.path_str cs) = iterdir links cwd t2 (OsPath.path_str cs).
Proof.
  intros Hp Hok. unfold iterdir. rewrite (clean_place _ _ _ _ C) by done. by rewrite (inside_same bs t1 t2).
Qed.
Lemma iterdir_names cs n : bs `prefix_of` cs → Forall comp_ok cs → n ∈ iterdir links cwd t1 (OsPath.path_str cs) → comp_ok n.
Proof.
  intros Hp Hok. unfold iterdir. rewrite (clean_place _ _ _ _ C), (no_links_inside _ _ _ C) by done. rewrite map_to_list_empty. cbn. rewrite app_nil_r.
  intros (q & Hq & Hc)%list_elem_of_omap. apply child_spec in Hc as ->. apply list_elem_of_fmap in Hq as ([q x] & Eq & Hq%elem_of_map_to_list). simpl in Eq. subst q.
  apply map_lookup_filter_Some in Hq as [Hq _]. apply P in Hq. simpl in Hq. apply Forall_app in Hq as [_ Hq]. by apply Forall_inv in Hq.
Qed.
Lemma clean_ne cs : bs `prefix_of` cs → cs ≠ [].
Proof. intros Hp ->. apply prefix_nil_inv in Hp. by apply (cl_ne _ _ _ C). Qed.
Lemma child_same cs n : bs `prefix_of` cs → Forall comp_ok cs → comp_ok n →
  stat links cwd t1 (OsPath.join (OsPath.path_str cs) n) = stat links cwd t2 (OsPath.join (OsPath.path_str cs) n).
Proof.
  intros Hp Hok Hn. rewrite join_path_str by first [done|by apply clean_ne]. apply stat_same.
  - by apply prefix_app_r.
  - apply Forall_app. split; [done|by apply Forall_singleton].
Qed.
Lemma list_dir_same cs : bs `prefix_of` cs → Forall comp_ok cs →
  _list_dir links cwd t1 (OsPath.path_str cs) = _list_dir links cwd t2 (OsPath.path_str cs).
Proof.
  intros Hp Hok. unfold _list_dir. rewrite <- stat_same by done. destruct (is_folder _); [|done].
  pose proof (iterdir_names cs) as Hn. rewrite <- (iterdir_same cs) by done. set (ns := iterdir _ _ _ _) in *.
  assert ((λ n, (entry_key links cwd t1 (OsPath.path_str cs) n, n)) <$> ns = (λ n, (entry_key links cwd t2 (OsPath.path_str cs) n, n)) <$> ns) as <-.
  { apply list_fmap_ext. intros i n Hi. unfold entry_key. rewrite child_same; [done..|]. apply Hn; [done..|]. by eapply list_elem_of_lookup_2. }
  apply mapR_ext. intros n Hin. unfold listed_entry. rewrite child_same; [done..|]. apply Hn; [done..|].
  apply list_elem_of_fmap in Hin as ([kk m] & -> & Hin). rewrite merge_sort_Permutation in Hin. apply list_elem_of_fmap in Hin as (m' & [= -> ->] & Hin). done.
Qed.
End agree.

Lemma join_all cs r : cs ≠ [] → Forall comp_ok (cs ++ r) → foldl OsPath.join (OsPath.path_str cs) r = OsPath.path_str (cs ++ r).
Proof.
  revert cs. induction r as [|c r IH]; intros cs Hne Hok; [by rewrite app_nil_r|]. cbn [foldl].
  replace (cs ++ c :: r) with ((cs ++ [c]) ++ r) in * by (by rewrite <- app_assoc).
  assert (Forall comp_ok cs ∧ comp_ok c) as [H1 H2] by (rewrite !Forall_app, Forall_singleton in Hok; tauto).
  rewrite join_path_str by done. apply IH; [by destruct cs|done].
Qed.
Section roots.
Variables (links : gmap (list string) string) (cwd : list string) (env : environ) (decode : string → string) (d : string) (bs : list string)
  (t : gmap (list string) node).
Hypotheses (C : clean links d bs) (P : plain t).
(** What a walk finds below a folder of a clean directory. *)
Lemma walk_spec cs r : bs `prefix_of` cs → Forall comp_ok cs →
  r ∈ walk links cwd t cs ↔ is_file (t !! (cs ++ r)) = true.
Proof.
  intros Hp Hok. unfold walk. rewrite (no_links_inside _ _ _ C) by done. rewrite map_to_list_empty. cbn. rewrite app_nil_r, list_elem_of_omap. split.
  - intros ([q n] & Hq & Hr). apply elem_of_map_to_list, map_lookup_filter_Some in Hq as [Hq [r' Eq]]. simpl in Eq. subst q. cbn [fst snd] in *.
    destruct n as [c m|]; [|done]. cbn in Hr. rewrite drop_app_length in Hr. injection Hr as ->. by rewrite Hq.
  - intros H. destruct (t !! (cs ++ r)) as [[c m|]|] eqn:E; [|done..]. exists (cs ++ r, File c m). split.
    + apply elem_of_map_to_list, map_lookup_filter_Some. split; [done|]. by exists r.
    + cbn. by rewrite drop_app_length.
Qed.
Lemma plain_key k : is_file (t !! k) = true → Forall comp_ok k.
Proof. destruct (t !! k) eqn:E; [|done]. intros _. exact (P k _ E). Qed.
End roots.
Section listings.
Variables (links : gmap (list string) string) (cwd : list string) (env : environ) (decode : string → string) (d : string) (bs : list string)
  (t1 t2 : gmap (list string) node).
Hypotheses (W : physical links cwd) (C : clean links d bs) (S : same_inside bs t1 t2) (P : plain t1).
Lemma files_under_same cs : bs `prefix_of` cs → Forall comp_ok cs →
  files_under links cwd t1 d (OsPath.path_str cs) = files_under links cwd t2 d (OsPath.path_str cs).
Proof.
  intros Hp Hok. unfold files_under. rewrite (clean_place _ _ _ _ C) by done.
  assert (walk links cwd t1 cs = walk links cwd t2 cs) as <-.
  { unfold walk. rewrite (no_links_inside _ _ _ C) by done. by rewrite (inside_same bs t1 t2). }
  f_equal. apply mapR_ext. intros r Hr%(walk_spec _ _ _ _ _ C); [|done..]. apply plain_key in Hr; [|done]. rewrite join_all by (done || by eapply clean_ne).
  rewrite (stat_same _ _ _ _ _ _ C S); [done| |done]. by apply prefix_app_r.
Qed.
Lemma listing_same prefix p : target_of links cwd d prefix = Ok p →
  stat links cwd t1 p = stat links cwd t2 p ∧ files_under links cwd t1 d p = files_under links cwd t2 d p.
Proof.
  intros H. assert (∃ cs, p = OsPath.path_str cs ∧ bs `prefix_of` cs ∧ Forall comp_ok cs) as (cs & -> & Hp & Hok).
  { unfold target_of, _safe_resolve in H. destruct (truthy_str prefix).
    - destruct (safe_path_join links cwd d prefix) as [q|] eqn:Ej; [|done]. injection H as <-. by apply (clean_join _ _ _ _ C) in Ej.
    - injection H as <-. exists bs. split; [apply (cl_text _ _ _ C)|]. split; [done|apply (cl_phys _ _ _ C)]. }
  split; [by eapply stat_same|by apply files_under_same].
Qed.
Lemma target_same prefix k1 k2 : (∀ p, target_of links cwd d prefix = Ok p → k1 p = k2 p) →
  rbind (target_of links cwd d prefix) k1 = rbind (target_of links cwd d prefix) k2 :> result exc (list (string * Z)).
Proof. intros H. destruct (target_of _ _ _ _) as [p|]; [by apply H|done]. Qed.
End listings.

Section requests.
Variables (links : gmap (list string) string) (cwd : list string) (env : environ) (decode : string → string) (t1 t2 : gmap (list string) node).
Hypotheses (W : physical links cwd) (P : plain t1).
Definition shared (d : string) : Prop := ∃ bs, clean links d bs ∧ same_inside bs t1 t2.
(** The directories that the browser and the files API are given. *)
Definition directories : list string := binaries_dir env :: (_FILE_ROOTS env).*2.

Lemma shared_resolve d x p : shared d → _safe_resolve links cwd d x = Ok p →
  stat links cwd t1 p = stat links cwd t2 p ∧ _list_dir links cwd t1 p = _list_dir links cwd t2 p.
Proof.
  intros (bs & C & S) H. unfold _safe_resolve in H. destruct (safe_path_join links cwd d x) as [q|] eqn:E; [|done]. injection H as <-.
  apply (clean_join _ _ _ _ C) in E as (cs & -> & Hp & Hok); [|done]. split; [by eapply stat_same|by eapply list_dir_same].
Qed.
Lemma root_shared n d : Forall shared directories → dget n (_FILE_ROOTS env) = Some d → shared d.
Proof.
  intros [_ H]%Forall_cons Hd. apply dget_Some_elem in Hd. rewrite Forall_forall in H. apply H, list_elem_of_fmap. by exists (n, d).
Qed.
Lemma files_browse_same path : Forall shared directories → files_browse links cwd env decode t1 path = files_browse links cwd env decode t2 path.
Proof.
  intros H. unfold files_browse. destruct (posix_parts path) as [|n parts]; [done|]. destruct (dget n (_FILE_ROOTS env)) as [d|] eqn:Hd; [|done].
  destruct (_safe_resolve links cwd d _) as [p|] eqn:E; [|done]. cbn [rbind].
  apply shared_resolve in E as [Hs Hl]; [|by eapply root_shared]. by rewrite Hs, Hl.
Qed.
Lemma files_download_same path : Forall shared directories → files_download links cwd env t1 path = files_download links cwd env t2 path.
Proof.
  intros H. unfold files_download. destruct (posix_parts path) as [|n parts]; [done|]. destruct (dget n (_FILE_ROOTS env)) as [d|] eqn:Hd; [|done].
  destruct (_safe_resolve links cwd d _) as [p|] eqn:E; [|done]. cbn [rbind]. apply shared_resolve in E as [-> _]; [done|by eapply root_shared].
Qed.
Lemma files_index_same : Forall shared directories → files_index links cwd env t1 = files_index links cwd env t2.
Proof.
  intros [_ H]%Forall_cons. unfold files_index. f_equal. apply list_fmap_ext. intros i [n d] Hi. simpl.
  rewrite Forall_forall in H. destruct (H d) as (bs & C & S); [apply list_elem_of_fmap; exists (n, d); split; [done|by eapply list_elem_of_lookup_2]|].
  assert (bs `prefix_of` bs ∧ Forall comp_ok bs) as [Hp Hok] by (split; [done|apply (cl_phys _ _ _ C)]).
  pose proof (stat_same _ cwd _ _ _ _ C S bs Hp Hok) as Hs. pose proof (iterdir_same _ cwd _ _ _ _ C S bs Hp Hok) as Hf.
  rewrite <- (cl_text _ _ _ C) in Hs, Hf. by rewrite Hs, Hf.
Qed.
Lemma admin_files_get_same hs path : Forall shared directories → admin_files_get links cwd env t1 hs path = admin_files_get links cwd env t2 hs path.
Proof.
  intros [H _]%Forall_cons. unfold admin_files_get, with_token. destruct (_files_token_check env hs) as [[]|]; [|done..]. cbn [rbind].
  destruct (_safe_resolve links cwd _ path) as [p|] eqn:E; [|done]. cbn [rbind]. by apply shared_resolve in E as [-> _].
Qed.
Lemma admin_files_list_same hs prefix : Forall shared directories → admin_files_list links cwd env t1 hs prefix = admin_files_list links cwd env t2 hs prefix.
Proof.
  intros [(bs & C & S) _]%Forall_cons. unfold admin_files_list, with_token. destruct (_files_token_check env hs) as [[]|]; [|done..]. cbn [rbind].
  apply target_same. intros p Hp. by destruct (listing_same _ _ _ _ _ _ W C S P _ _ Hp) as [-> ->].
Qed.
Lemma files_list_same prefix : Forall shared directories → files_list links cwd t1 (binaries_dir env) prefix = files_list links cwd t2 (binaries_dir env) prefix.
Proof.
  intros [(bs & C & S) _]%Forall_cons. unfold files_list.
  destruct (listing_same _ _ _ _ _ _ W C S P "" _ eq_refl) as [-> _]. destruct (is_folder _); [|done].
  apply target_same. intros p Hp. by destruct (listing_same _ _ _ _ _ _ W C S P _ _ Hp) as [-> ->].
Qed.
End requests.

(** C16. Browsing reveals nothing but the three directories: on two disks that hold the same
    files below the directories of [_FILE_ROOTS] and of the files API, and differ in
    anything else, every page, every download and every listing is the same, whatever the
    path asked for; provided that no symbolic link lies below these directories, because
    the pages follow the links that do. *)
Theorem browser_reads_roots_only links cwd env decode t1 t2 : physical links cwd → plain t1 →
  Forall (shared links t1 t2) (directories env) →
  files_index links cwd env t1 = files_index links cwd env t2 ∧
  (∀ path, files_browse links cwd env decode t1 path = files_browse links cwd env decode t2 path ∧
           files_download links cwd env t1 path = files_download links cwd env t2 path) ∧
  (∀ hs path, admin_files_get links cwd env t1 hs path = admin_files_get links cwd env t2 hs path) ∧
  (∀ hs prefix, admin_files_list links cwd env t1 hs prefix = admin_files_list links cwd env t2 hs prefix) ∧
  (∀ prefix, files_list links cwd t1 (binaries_dir env) prefix = files_list links cwd t2 (binaries_dir env) prefix).
Proof.
  intros W P H. split_and!.
  - by apply files_index_same.
  - intros path. split; [by apply files_browse_same|by apply files_download_same].
  - intros hs path. by apply admin_files_get_same.
  - intros hs prefix. by apply admin_files_list_same.
  - intros prefix. by apply files_list_same.
Qed.

(** ** What is listed is served *)
Lemma normpath_plain cs : cs ≠ [] → Forall comp_ok cs → OsPath.normpath (OsPath.path_str cs) = OsPath.path_str cs.
Proof.
  intros Hne Hok. unfold OsPath.normpath. rewrite split_plain by done.
  assert (∀ acc, foldl OsPath.norm_step acc cs = acc ++ cs) as H.
  { clear Hne. induction cs as [|c cs IH]; intros acc; [by rewrite app_nil_r|]. apply Forall_cons in Hok as [(H1 & H2 & H3 & _) Hok]. cbn [foldl].
    rewrite IH by done. unfold OsPath.norm_step. rewrite !decide_False by tauto. by rewrite <- app_assoc. }
  cbn [foldl]. change (OsPath.norm_step [] "") with (@nil string). rewrite H. cbn [app].
  replace (starts_with "//" (OsPath.path_str cs)) with false; [done|]. symmetry. destruct (starts_with _ _) eqn:E; [|done].
  apply starts_with_true in E as [r Hr]. destruct cs as [|c cs]; [done|]. apply Forall_cons in Hok as [(a & r' & -> & Ha)%comp_ok_head _].
  exfalso. cbn [OsPath.path_str OsPath.tail_str foldr] in Hr. rewrite !sapp_cons in Hr. congruence.
Qed.
Lemma abspath_plain cwd cs : cs ≠ [] → Forall comp_ok cs → abspath cwd (OsPath.path_str cs) = cs.
Proof.
  intros Hne Hok. unfold abspath. rewrite path_str_isabs, normpath_plain by done. by apply comps_path_str.
Qed.
Lemma relative_below bs rs : relative (bs ++ rs) bs = rs.
Proof. induction bs as [|b bs IH]; [by destruct rs|]. cbn [app relative]. by rewrite decide_True. Qed.
Lemma sjoin_ne r rs : r ≠ "" → sjoin "/" (r :: rs) ≠ "".
Proof. intros Hr. rewrite sjoin_tail. by destruct r. Qed.
Lemma relpath_below cwd bs rs : bs ≠ [] → rs ≠ [] → Forall comp_ok (bs ++ rs) →
  relpath cwd (OsPath.path_str (bs ++ rs)) (OsPath.path_str bs) = sjoin "/" rs.
Proof.
  intros Hb Hr Hok. pose proof Hok as [Hok1 Hok2]%Forall_app. unfold relpath. rewrite !abspath_plain by (done || by destruct bs).
  rewrite relative_below. unfold str_or. destruct rs as [|r rs]; [done|]. apply Forall_cons in Hok2 as [[Hr0 _] _].
  apply (sjoin_ne r rs), truthy_str_true in Hr0. by rewrite Hr0.
Qed.
Lemma split_joined rs : rs ≠ [] → Forall comp_ok rs → split_on "/" (sjoin "/" rs) = rs.
Proof. intros Hne Hok. destruct rs as [|r rs]; [done|]. rewrite sjoin_tail. by apply split_tail_str. Qed.
Lemma tail_parts_plain rs : rs ≠ [] → Forall comp_ok rs → tail_parts (sjoin "/" rs) = rs.
Proof.
  intros Hne Hok. unfold tail_parts. rewrite split_joined by done. clear Hne. induction Hok as [|r rs (H1 & H2 & _) _ IH]; [done|].
  rewrite filter_cons_True by done. by rewrite IH.
Qed.
Lemma posix_parts_plain r rs : Forall comp_ok (r :: rs) → posix_parts (sjoin "/" (r :: rs)) = r :: rs.
Proof.
  intros Hok. unfold posix_parts. replace (splitroot (sjoin "/" (r :: rs))) with ("", sjoin "/" (r :: rs)); [by apply (tail_parts_plain (r :: rs))|].
  pose proof Hok as [(a & r' & -> & Ha)%comp_ok_head _]%Forall_cons. rewrite sjoin_tail, sapp_cons. unfold splitroot.
  unfold is_char. by rewrite bool_decide_eq_false_2.
Qed.
Lemma path_text_plain cs : cs ≠ [] → Forall comp_ok cs → path_text (OsPath.path_str cs) = OsPath.path_str cs.
Proof.
  intros Hne Hok. destruct cs as [|c cs]; [done|]. unfold path_text.
  replace (splitroot (OsPath.path_str (c :: cs))) with ("/", sjoin "/" (c :: cs)).
  - rewrite tail_parts_plain by done. rewrite sjoin_tail. reflexivity.
  - rewrite sjoin_tail. pose proof Hok as [(a & r' & -> & Ha)%comp_ok_head _]%Forall_cons. cbn [OsPath.path_str OsPath.tail_str foldr]. rewrite !sapp_cons.
    unfold splitroot. unfold is_char at 2. rewrite (bool_decide_eq_false_2 (a = _)) by done. reflexivity.
Qed.
Lemma basename_plain bs rs : rs ≠ [] → Forall comp_ok (bs ++ rs) → basename (OsPath.path_str (bs ++ rs)) = List.last rs "".
Proof.
  intros Hr Hok. unfold basename. rewrite split_plain by (by destruct bs). destruct rs as [|r rs _] using rev_ind; [done|].
  rewrite app_assoc, app_comm_cons. by rewrite !List.last_last.
Qed.
Section served.
Variables (links : gmap (list string) string) (cwd : list string) (env : environ) (bs : list string) (t : gmap (list string) node).
Hypotheses (W : physical links cwd) (P : plain t) (C : clean links (binaries_dir env) bs).
Lemma stat_inside rs : Forall comp_ok (bs ++ rs) → stat links cwd t (OsPath.path_str (bs ++ rs)) = t !! (bs ++ rs).
Proof. intros Hok. unfold stat. by rewrite (clean_place _ _ _ _ C) by (done || by apply prefix_app_r). Qed.
Lemma resolve_inside rs : rs ≠ [] → Forall comp_ok (bs ++ rs) →
  _safe_resolve links cwd (binaries_dir env) (sjoin "/" rs) = Ok (OsPath.path_str (bs ++ rs)).
Proof.
  intros Hr Hok. unfold _safe_resolve. rewrite (safe_path_join_plain _ _ _ bs); [done| |apply (cl_ne _ _ _ C)|done|].
  - rewrite (cl_text _ _ _ C). apply realpath_physical, (cl_phys _ _ _ C).
  - apply (clean_physical _ _ _ C); [by apply prefix_app_r|done].
Qed.
Lemma binaries_root : dget "binaries" (_FILE_ROOTS env) = Some (binaries_dir env).
Proof.
  change (Some (path_text (binaries_dir env)) = Some (binaries_dir env)). f_equal. rewrite (cl_text _ _ _ C). apply path_text_plain; [apply (cl_ne _ _ _ C)|apply (cl_phys _ _ _ C)].
Qed.
Lemma downloads rs c m : t !! (bs ++ rs) = Some (File c m) → rs ≠ [] →
  files_download links cwd env t ("binaries/" +:+ sjoin "/" rs) = Ok (Attachment c (List.last rs "")).
Proof.
  intros Ht Hr. pose proof (P _ _ Ht) as Hok. simpl in Hok. unfold files_download.
  replace ("binaries/" +:+ sjoin "/" rs) with (sjoin "/" ("binaries" :: rs)) by (by destruct rs).
  rewrite posix_parts_plain by (constructor; [done|by apply Forall_app in Hok as [_ ?]]). rewrite binaries_root, resolve_inside by done. cbn [rbind].
  rewrite stat_inside, Ht by done. by rewrite basename_plain.
Qed.
Lemma listing_inside l : t !! bs = Some (Folder l) → ∃ ps, files_under links cwd t (binaries_dir env) (binaries_dir env) = Ok ps ∧
  ∀ path size, (path, size) ∈ ps ↔ ∃ rs c m, rs ≠ [] ∧ t !! (bs ++ rs) = Some (File c m) ∧ path = sjoin "/" rs ∧ size = Z.of_nat (String.length c).
Proof.
  intros Hb. pose proof (cl_ne _ _ _ C) as Hne. assert (Forall comp_ok bs) as Hbs by apply (cl_phys _ _ _ C). unfold files_under.
  rewrite (clean_base _ cwd _ _ C). match goal with |- context [mapR ?g _] => set (f := g) end.
  assert (∀ r, r ∈ walk links cwd t bs → ∃ c m, t !! (bs ++ r) = Some (File c m) ∧ r ≠ [] ∧ f r = Ok (sjoin "/" r, Z.of_nat (String.length c))) as H.
  { intros r Hr%(walk_spec _ _ _ _ _ C); [|done..]. destruct (t !! (bs ++ r)) as [[c m|]|] eqn:E; [|done..]. exists c, m.
    assert (r ≠ []) as Hr0 by (intros ->; rewrite app_nil_r in E; congruence). split; [done|]. split; [done|]. pose proof (P _ _ E) as Hok. simpl in Hok.
    unfold f. rewrite (cl_text _ _ _ C), join_all, stat_inside, E by done. cbn [node_size]. by rewrite relpath_below. }
  destruct (mapR f (walk links cwd t bs)) as [qs|e] eqn:E.
  - exists (merge_sort path_le qs). split; [done|]. apply mapR_ok in E. intros path size. rewrite merge_sort_Permutation. split.
    + intros Hin. apply list_elem_of_lookup in Hin as [i Hi].
      destruct (Forall2_lookup_r _ _ _ _ _ E Hi) as (r & Hr & Hf). destruct (H r) as (c & m & Ht & Hr0 & Hf'); [by eapply list_elem_of_lookup_2|].
      rewrite Hf' in Hf. exists r, c, m. by simplify_eq.
    + intros (rs & c & m & Hr0 & Ht & -> & ->). assert (rs ∈ walk links cwd t bs) as Hin by (apply (walk_spec _ _ _ _ _ C); [done..|by rewrite Ht]).
      destruct (H rs Hin) as (c' & m' & Ht' & _ & Hf). apply list_elem_of_lookup in Hin as [i Hi].
      destruct (Forall2_lookup_l _ _ _ _ _ E Hi) as (y & Hy & Hf'). rewrite Hf in Hf'. injection Hf' as Ey. rewrite <- Ey in Hy. rewrite Ht in Ht'. injection Ht' as <- <-. by eapply list_elem_of_lookup_2.
  - exfalso. revert E. generalize H. generalize (walk links cwd t bs). intros w Hw. induction w as [|r w IH]; [done|]. cbn [mapR].
    destruct (Hw r) as (c & m & _ & _ & ->); [by left|]. cbn [rbind].
    destruct (mapR f w) as [ys|e'] eqn:Ew; cbn [rbind]; intros [=]. subst e'. apply IH; [|done]. intros q Hq. apply Hw. by right.
Qed.
End served.

(** What the files API lists, it serves, and so does the browser: with the token of the
    service, the listing of the directory of binaries is made of exactly the files below it,
    each under its path from there and with its size; asking the files API for a path of
    the listing gives that file, and so does the download of the browser, under the name
    that ends the path. *)
Theorem listed_is_served links cwd env t bs now hs : physical links cwd → plain t → clean links (binaries_dir env) bs →
  t !! bs = Some (Folder now) → _files_token_check env hs = Ok true →
  ∃ ps, admin_files_list links cwd env t hs "" = Ok ps ∧
    ∀ path size, (path, size) ∈ ps ↔ ∃ rs c m, rs ≠ [] ∧ t !! (bs ++ rs) = Some (File c m) ∧
      path = sjoin "/" rs ∧ size = Z.of_nat (String.length c) ∧
      admin_files_get links cwd env t hs path = Ok (Attachment c "") ∧
      files_download links cwd env t ("binaries/" +:+ path) = Ok (Attachment c (List.last rs "")).
Proof.
  intros W P C Hb Ht. destruct (listing_inside links cwd env bs t P C now Hb) as (ps & Hps & Hin). exists ps. split.
  - unfold admin_files_list, with_token. rewrite Ht. cbn [rbind target_of truthy_str].
    replace (stat links cwd t (binaries_dir env)) with (Some (Folder now)); [done|]. unfold stat. by rewrite (clean_base _ cwd _ _ C).
  - intros path size. rewrite Hin. split; [|intros (rs & c & m & ?); exists rs, c, m; tauto].
    intros (rs & c & m & Hr & Hf & -> & ->). exists rs, c, m. split_and!; try done; [|by eapply downloads].
    unfold admin_files_get, with_token. rewrite Ht. cbn [rbind]. pose proof (P _ _ Hf) as Hok. simpl in Hok.
    rewrite (resolve_inside links cwd env bs C) by done. cbn [rbind]. by rewrite (stat_inside links cwd env bs t C), Hf.
Qed.

Module Demo.
Definition env_ex : environ := [("DM_QUEUE_ADMIN_TOKEN", "svc"); ("DM_ENROLL_DIR", "/d/enroll"); ("DM_LOCAL_BINARIES_DIR", "/d/bin"); ("DM_CONFIG_DIR", "/d/conf")].
Definition headers_ex : headers := [("x-admin-token", "svc")].
Definition tree_ex : gmap (list string) node :=
  {[ []:= Folder 0; ["d"] := Folder 0; ["d"; "enroll"] := Folder 0; ["d"; "bin"] := Folder 0; ["d"; "conf"] := Folder 0;
     ["d"; "bin"; "firefox"] := Folder 0; ["d"; "bin"; "firefox"; "1.0.xpi"] := File "xpi" 5; ["d"; "bin"; "readme.txt"] := File "hello" 6;
     ["etc"] := Folder 0; ["etc"; "shadow"] := File "root:x" 7 ]}.
(** The same with other secrets. *)
Definition tree_ex' : gmap (list string) node := <[["etc"; "shadow"] := File "root:longer" 8]> (delete ["etc"; "passwd"] tree_ex).
Definition links_out : gmap (list string) string := {[ ["d"; "bin"; "link"] := "/etc/shadow" ]}.
Definition links_dead : gmap (list string) string := {[ ["d"; "bin"; "link"] := "/nowhere" ]}.
Definition entries_of (v : result exc view) : list (string * bool * Z * string) :=
  match v with Ok (Listing es _ _) => (λ e, (fe_name e, fe_is_dir e, fe_size e, fe_size_human e)) <$> es | _ => [] end.

Example browsed : entries_of (files_browse ∅ [] env_ex id tree_ex "binaries") = [("firefox", true, 0, "-"); ("readme.txt", false, 5, "5 o")].
Proof. vm_compute. reflexivity. Qed.
(** The size of a file elsewhere shows through a link, although the file itself is refused. *)
Example sizes_outside :
  entries_of (files_browse links_out [] env_ex id tree_ex "binaries")
  = [("firefox", true, 0, "-"); ("link", false, 6, "6 o"); ("readme.txt", false, 5, "5 o")] ∧
  files_download links_out [] env_ex tree_ex "binaries/link" = Err (Http (HttpError 400 "Invalid path")).
Proof. by vm_compute. Qed.
(** A link to nothing makes the page of its folder fail, and the listing too. *)
Example dead_link :
  files_browse links_dead [] env_ex id tree_ex "binaries" = missing ∧ admin_files_list links_dead [] env_ex tree_ex headers_ex "" = missing.
Proof. by vm_compute. Qed.
(** Nothing is rounded up to the next unit. *)
Example sizes : _human_size 1048575 = "1024.0 Ko" ∧ _human_size 1023 = "1023 o" ∧ _human_size 1536 = "1.5 Ko" ∧ _human_size 1152921504606846976 = "1048576.0 To".
Proof. by vm_compute. Qed.
(** The paths of a listing with a prefix are counted from the directory as it is
    written: where that is a link, they lead out of it. *)
Example listed_through_link :
  admin_files_list {[ ["srv"] := "/d" ]} [] [("DM_QUEUE_ADMIN_TOKEN", "svc"); ("DM_LOCAL_BINARIES_DIR", "/srv/bin")] tree_ex headers_ex "firefox"
  = Ok [("../../d/bin/firefox/1.0.xpi", 3)].
Proof. vm_compute. reflexivity. Qed.

Lemma plain_ex : plain tree_ex.
Proof. unfold plain, tree_ex. repeat first [apply map_Forall_insert_2|apply map_Forall_singleton]; repeat constructor; done. Qed.
Lemma clean_ex c : comp_ok c → clean ∅ (OsPath.path_str ["d"; c]) ["d"; c].
Proof.
  intros Hc. split; [done|done| |by intros]. split; [|by intros].
  apply Forall_cons. split; [by split_and!|by apply Forall_singleton].
Qed.
Lemma same_ex c : same_inside ["d"; c] tree_ex tree_ex'.
Proof.
  intros k [r ->]. unfold tree_ex'. rewrite lookup_insert_ne by done. by rewrite lookup_delete_ne by done.
Qed.
Lemma browser_reads_roots_only_witness :
  tree_ex !! ["etc"; "shadow"] ≠ tree_ex' !! ["etc"; "shadow"] ∧
  files_browse ∅ [] env_ex id tree_ex "binaries/firefox" = files_browse ∅ [] env_ex id tree_ex' "binaries/firefox".
Proof.
  split; [by vm_compute|].
  destruct (browser_reads_roots_only ∅ [] env_ex id tree_ex tree_ex' (physical_nil ∅) plain_ex) as (_ & H & _).
  - assert (∀ c, comp_ok c → shared ∅ tree_ex tree_ex' (OsPath.path_str ["d"; c])) as Hs by (intros c Hc; exists ["d"; c]; split; [by apply clean_ex|apply same_ex]).
    apply Forall_cons; split; [|apply Forall_cons; split; [|apply Forall_cons; split; [|apply Forall_singleton]]];
      [apply (Hs "bin")|apply (Hs "enroll")|apply (Hs "bin")|apply (Hs "conf")]; by split_and!.
  - exact (proj1 (H "binaries/firefox")).
Defined.
Lemma listed_is_served_witness : ∃ ps, admin_files_list ∅ [] env_ex tree_ex headers_ex "" = Ok ps ∧
  ("firefox/1.0.xpi", 3) ∈ ps ∧
  ∃ c n, files_download ∅ [] env_ex tree_ex "binaries/firefox/1.0.xpi" = Ok (Attachment c n) ∧ Z.of_nat (String.length c) = 3.
Proof.
  destruct (listed_is_served ∅ [] env_ex tree_ex ["d"; "bin"] 0 headers_ex (physical_nil ∅) plain_ex) as (ps & Hps & H).
  - apply (clean_ex "bin"). split_and!; done.
  - vm_compute. reflexivity.
  - vm_compute. reflexivity.
  - exists ps. split; [exact Hps|]. assert (("firefox/1.0.xpi", 3) ∈ ps) as Hin.
    { apply H. exists ["firefox"; "1.0.xpi"], "xpi", 5. split_and!; vm_compute; reflexivity || done. }
    split; [exact Hin|]. destruct (proj1 (H _ _) Hin) as (rs & c & m & _ & _ & _ & Hs & _ & Hd). exists c, (List.last rs ""). by split.
Defined.
End Demo.
