(* ===== verification/Schema.v ===== *)
(** * Schema and migrations
    [app/services/db.py] [apply_schema], which every pod runs at its start: the fixups of an
    older database, the script [db/schema.sql] and the index on slugs; and of
    [alembic/versions/] the splitting of the script into statements (001) and the second
    migration. A database is its tables with their columns, the indexes, and the rows that
    a statement reads or rewrites. Of the script, the tables that the fixups name and those
    they refer to; of the constraints, those that the fixups name. *)
From S2P Require Import Prelude Text Json Effects Config Flags Catalog AuditLog AuditQuery.
From Stdlib Require Import Ascii String.
Open Scope Z_scope.

(** ** Databases
    An index is kept with its table. *)
Record column : Type := Column { c_type : string; c_default : option string }.
Record table : Type := Table { t_cols : gmap string column; t_cons : gmap string string }.
Record base : Type := Base { tables : gmap string table; indexes : gmap string string; rows : AuditQuery.db }.
Definition set_tables (t : gmap string table) (b : base) : base := Base t (indexes b) (rows b).
Definition set_rows (r : list (Z * audit_row)) (b : base) : base :=
  Base (tables b) (indexes b) (AuditQuery.Db r (b_plugins (rows b)) (b_flags (rows b))).
Definition undefined_table {A} : result exc A := Err (Exc "relation does not exist").
Definition undefined_column {A} : result exc A := Err (Exc "column does not exist").
Definition exists_all (names : list string) (b : base) : bool := forallb (λ n, bool_decide (is_Some (tables b !! n))) names.
Definition has_columns (n : string) (cols : list string) (b : base) : bool :=
  match tables b !! n with Some t => forallb (λ c, bool_decide (is_Some (t_cols t !! c))) cols | None => false end.
Definition with_table (n : string) (f : table → result exc table) (b : base) : result exc base :=
  match tables b !! n with
  | None => undefined_table
  | Some t => let* t' := f t in Ok (set_tables (<[n := t']> (tables b)) b)
  end.

(** ** The script *)
Inductive ddl : Type :=
| CreateTable (name : string) (cols : list (string * column)) (named : list (string * string)) (refs : list string)
| CreateIndex (name on : string) (cols : list string) (unique : AuditQuery.db → bool)
| AddMissingColumn (on name : string) (c : column)
| DropColumn (on name : string)
| DropTable (name : string).
(** Each with its [IF NOT EXISTS] or [IF EXISTS]. *)
Definition run_ddl (s : ddl) (b : base) : result exc base :=
  match s with
  | CreateTable n cols named refs =>
      match tables b !! n with
      | Some _ => Ok b
      | None => if exists_all refs b then Ok (set_tables (<[n := Table (list_to_map cols) (list_to_map named)]> (tables b)) b) else undefined_table
      end
  | CreateIndex n on cols unique =>
      if decide (is_Some (indexes b !! n)) then Ok b
      else if negb (has_columns on cols b) then undefined_column
      else if unique (rows b) then Ok (Base (tables b) (<[n := on]> (indexes b)) (rows b)) else Err (Exc "could not create unique index")
  | AddMissingColumn on n c =>
      with_table on (λ t, Ok (match t_cols t !! n with Some _ => t | None => Table (<[n := c]> (t_cols t)) (t_cons t) end)) b
  | DropColumn on n => with_table on (λ t, Ok (Table (delete n (t_cols t)) (t_cons t))) b
  | DropTable n => Ok (Base (delete n (tables b)) (filter (λ i, i.2 ≠ n) (indexes b)) (rows b))
  end.
Fixpoint run_all {A} (f : A → base → result exc base) (l : list A) (b : base) : result exc base :=
  match l with [] => Ok b | s :: r => let* b := f s b in run_all f r b end.

Definition col (n t : string) : string * column := (n, Column t None).
Definition dflt (n t d : string) : string * column := (n, Column t (Some d)).
Definition stamped (n : string) : string * column := dflt n "TIMESTAMPTZ" "now()".
Definition any (_ : AuditQuery.db) : bool := true.
Definition live_slugs_unique (d : AuditQuery.db) : bool :=
  bool_decide (NoDup ((λ p, pl_slug (pg_row p)) <$> filter (λ p, pl_status (pg_row p) ≠ "removed") (b_plugins d))).
Definition flag_names_unique (d : AuditQuery.db) : bool := bool_decide (NoDup ((λ f, (ff_slug f, ff_name f)) <$> b_flags d)).
Definition slug_index : ddl := CreateIndex "uq_plugins_slug_active" "plugins" ["slug"; "status"] live_slugs_unique.
Definition schema_sql : list ddl :=
  [CreateTable "plugins"
     [col "id" "SERIAL"; col "slug" "VARCHAR(100)"; col "name" "VARCHAR(200)"; col "description" "TEXT"; col "intent" "TEXT"; dflt "key_features" "JSONB" "[]";
      dflt "changelog" "JSONB" "[]"; col "icon_url" "TEXT"; col "icon_path" "TEXT"; col "source_url" "TEXT"; col "device_type" "VARCHAR(50)";
      dflt "category" "VARCHAR(100)" "productivity"; col "homepage_url" "TEXT"; col "support_email" "TEXT"; col "doc_url" "TEXT"; col "license" "VARCHAR(100)";
      dflt "publisher" "VARCHAR(200)" "DNUM"; dflt "visibility" "VARCHAR(20)" "public"; dflt "status" "VARCHAR(20)" "active"; dflt "maturity" "VARCHAR(20)" "release";
      dflt "access_mode" "VARCHAR(20)" "open"; col "required_group" "VARCHAR(200)"; col "config_template" "JSONB"; col "extension_id" "VARCHAR(64)";
      col "gecko_id" "VARCHAR(128)"; stamped "created_at"; stamped "updated_at"] [] [];
   slug_index; CreateIndex "idx_plugins_status" "plugins" ["status"] any; CreateIndex "idx_plugins_device_type" "plugins" ["device_type"] any;
   CreateTable "artifacts"
     [col "id" "SERIAL"; col "device_type" "VARCHAR(50)"; col "platform_variant" "VARCHAR(50)"; col "version" "VARCHAR(50)"; col "s3_path" "TEXT";
      col "checksum" "VARCHAR(128)"; col "min_host_version" "VARCHAR(50)"; col "max_host_version" "VARCHAR(50)"; col "changelog_url" "TEXT";
      dflt "is_active" "BOOLEAN" "true"; stamped "released_at"] [] [];
   CreateTable "plugin_versions"
     [col "id" "SERIAL"; col "plugin_id" "INT"; col "artifact_id" "INT"; col "version" "VARCHAR(50)"; col "release_notes" "TEXT"; col "download_url" "TEXT";
      col "min_host_version" "VARCHAR(50)"; col "max_host_version" "VARCHAR(50)"; dflt "status" "VARCHAR(20)" "draft"; dflt "distribution_mode" "VARCHAR(20)" "managed";
      col "published_at" "TIMESTAMPTZ"; stamped "created_at"] [] ["plugins"; "artifacts"];
   CreateIndex "idx_pv_plugin" "plugin_versions" ["plugin_id"] any;
   CreateTable "plugin_version_artifacts"
     [col "id" "SERIAL"; col "plugin_version_id" "INT"; col "artifact_id" "INT"; col "platform_variant" "VARCHAR(50)"; stamped "created_at"] [] ["plugin_versions"; "artifacts"];
   CreateIndex "idx_pva_version" "plugin_version_artifacts" ["plugin_version_id"] any;
   CreateTable "plugin_installations"
     [col "id" "SERIAL"; col "plugin_id" "INT"; col "client_uuid" "VARCHAR(255)"; col "email" "VARCHAR(255)"; col "installed_version" "VARCHAR(50)";
      stamped "installed_at"; stamped "last_seen_at"; dflt "status" "VARCHAR(20)" "active"] [("plugin_installations_plugin_id_fkey", "CASCADE")] ["plugins"];
   CreateIndex "idx_pi_plugin" "plugin_installations" ["plugin_id"] any;
   CreateTable "cohorts"
     [col "id" "SERIAL"; col "name" "VARCHAR(100)"; col "description" "TEXT"; col "type" "VARCHAR(20)"; col "config" "JSONB"; stamped "created_at"; stamped "updated_at"] [] [];
   CreateTable "campaigns"
     [col "id" "SERIAL"; col "name" "VARCHAR(200)"; col "description" "TEXT"; dflt "type" "VARCHAR(30)" "plugin_update"; dflt "status" "VARCHAR(20)" "draft";
      col "environment" "VARCHAR(50)"; col "plugin_id" "INT"; col "version_id" "INT"; col "target_cohort_id" "INT"; col "artifact_id" "INT";
      col "rollback_artifact_id" "INT"; col "rollout_config" "JSONB"; dflt "urgency" "VARCHAR(10)" "normal"; col "deadline_at" "TIMESTAMPTZ";
      col "created_by" "VARCHAR(255)"; stamped "created_at"; stamped "updated_at"] [] ["plugins"; "plugin_versions"; "cohorts"; "artifacts"];
   CreateIndex "idx_camp_plugin" "campaigns" ["plugin_id"; "environment"] any;
   CreateTable "feature_flags"
     [col "id" "SERIAL"; col "name" "VARCHAR(100)"; dflt "plugin_slug" "VARCHAR(100)" ""; col "description" "TEXT"; col "default_value" "BOOLEAN";
      dflt "deprecated" "BOOLEAN" "false"; col "min_plugin_version" "VARCHAR(50)"; stamped "created_at"; stamped "updated_at"] [] [];
   CreateIndex "ux_feature_flags_slug_name" "feature_flags" ["plugin_slug"; "name"] flag_names_unique;
   CreateIndex "ix_feature_flags_plugin_slug" "feature_flags" ["plugin_slug"] any;
   CreateTable "feature_flag_overrides"
     [col "feature_id" "INT"; col "cohort_id" "INT"; col "value" "BOOLEAN"; col "min_plugin_version" "VARCHAR(50)"; stamped "updated_at"] [] ["feature_flags"; "cohorts"];
   CreateTable "admin_audit_log"
     [col "id" "BIGSERIAL"; stamped "created_at"; col "actor_email" "TEXT"; col "actor_sub" "TEXT"; col "action" "TEXT"; col "resource_type" "TEXT";
      col "resource_id" "TEXT"; col "payload" "JSONB"; col "ip_address" "INET"; col "user_agent" "TEXT"; col "plugin_slug" "VARCHAR(100)"] [] [];
   CreateIndex "idx_audit_at" "admin_audit_log" ["created_at"] any; CreateIndex "idx_audit_actor" "admin_audit_log" ["actor_email"] any;
   CreateIndex "idx_audit_plugin" "admin_audit_log" ["plugin_slug"] any].

(** ** The fixups, in the order of the block *)
Inductive fixup : Type :=
| AddColumn (on name : string) (c : column) (ref : option string)
| DropConstraint (on name : string)
| DropDefault (on name : string)
| Cascade (on name ref : string)
| Backfill (on name : string).
Definition fixups : list fixup :=
  [AddColumn "campaigns" "environment" (Column "VARCHAR(50)" None) None;
   AddColumn "campaigns" "plugin_id" (Column "INT" None) (Some "plugins");
   AddColumn "campaigns" "version_id" (Column "INT" None) (Some "plugin_versions");
   DropConstraint "plugins" "plugins_slug_key";
   AddColumn "plugins" "extension_id" (Column "VARCHAR(64)" None) None;
   AddColumn "plugins" "gecko_id" (Column "VARCHAR(128)" None) None;
   AddColumn "feature_flags" "plugin_slug" (Column "VARCHAR(100)" (Some "")) None;
   AddColumn "feature_flags" "deprecated" (Column "BOOLEAN" (Some "false")) None;
   AddColumn "feature_flags" "min_plugin_version" (Column "VARCHAR(50)" None) None;
   DropConstraint "feature_flags" "feature_flags_name_key";
   AddColumn "feature_flag_overrides" "updated_at" (Column "TIMESTAMPTZ" (Some "now()")) None;
   DropDefault "feature_flags" "default_value";
   Cascade "plugin_installations" "plugin_installations_plugin_id_fkey" "plugins";
   Backfill "admin_audit_log" "plugin_slug"].
Definition fix_table (f : fixup) : string :=
  match f with AddColumn t _ _ _ | DropConstraint t _ | DropDefault t _ | Cascade t _ _ | Backfill t _ => t end.

Section apply.
Variable jsonb_text : json → string.

Definition without_plugin (r : audit_row) : audit_row :=
  AuditRow (au_at r) (au_email r) (au_sub r) (au_action r) (au_type r) (au_id r) (au_payload r) (au_ip r) (au_agent r) None.
Definition with_plugin (p : option string) (r : audit_row) : audit_row :=
  AuditRow (au_at r) (au_email r) (au_sub r) (au_action r) (au_type r) (au_id r) (au_payload r) (au_ip r) (au_agent r) p.
(** The plugin of an entry, derived as the page does. *)
Definition backfilled (d : AuditQuery.db) (x : Z * audit_row) : result exc (Z * audit_row) :=
  let* p := _PLUGIN_EXPR jsonb_text d (without_plugin x.2) in
  if fits_opt 100 p then Ok (x.1, with_plugin p x.2) else Err (Exc "value too long for type character varying(100)").
Definition add_column (n : string) (c : column) (t : table) : table := Table (<[n := c]> (t_cols t)) (t_cons t).
(** What a fixup does to the table, which exists. *)
Definition fix_one (f : fixup) (t : table) (b : base) : result exc base :=
  let store t := set_tables (<[fix_table f := t]> (tables b)) b in
  match f with
  | AddColumn _ n c ref =>
      match t_cols t !! n with
      | Some _ => Ok b
      | None => if exists_all (match ref with Some r => [r] | None => [] end) b then Ok (store (add_column n c t)) else undefined_table
      end
  | DropConstraint _ n => Ok (match t_cons t !! n with Some _ => store (Table (t_cols t) (delete n (t_cons t))) | None => b end)
  | DropDefault _ n =>
      match t_cols t !! n with
      | Some c => Ok (store (Table (<[n := Column (c_type c) None]> (t_cols t)) (t_cons t)))
      | None => undefined_column
      end
  | Cascade _ n ref =>
      match t_cons t !! n with
      | Some a => if decide (a = "CASCADE") then Ok b else if exists_all [ref] b then Ok (store (Table (t_cols t) (<[n := "CASCADE"]> (t_cons t)))) else undefined_table
      | None => Ok b
      end
  | Backfill _ n =>
      match t_cols t !! n with
      | Some _ => Ok b
      | None =>
          let b' := store (add_column n (Column "VARCHAR(100)" None) t) in
          if exists_all ["plugins"; "feature_flags"] b' then let* l := mapR (backfilled (rows b')) (b_rows (rows b')) in Ok (set_rows l b')
          else undefined_table
      end
  end.
Definition run_fixup (f : fixup) (b : base) : result exc base :=
  match tables b !! fix_table f with None => Ok b | Some t => fix_one f t b end.

(** A statement, or the block: all of it or nothing. *)
Definition statement (f : base → result exc base) : SM base () := λ b, match f b with Ok b' => (Ok (), b') | Err e => (Err e, b) end.
(** [script]: what [schema_path] holds. *)
Definition apply_schema (psycopg2 : bool) (script : option (list ddl)) (reachable : bool) : SM base () :=
  if negb psycopg2 then raise (Exc "psycopg2 is not installed.")
  else match script with
       | None => raise (Exc "Schema SQL not found")
       | Some sql =>
           if negb reachable then raise (Exc "OperationalError")
           else statement (run_all run_fixup fixups);; statement (run_all run_ddl sql);; statement (run_ddl slug_index)
       end.
End apply.

(** ** [alembic] *)
(** 001 runs the script as it is; 002 and its inverse. *)
Definition upgrade_001 : base → result exc base := run_all run_ddl schema_sql.
Definition upgrade_002 : base → result exc base := run_all run_ddl
  [AddMissingColumn "plugins" "extension_id" (Column "VARCHAR(64)" None); AddMissingColumn "plugins" "gecko_id" (Column "VARCHAR(128)" None);
   CreateTable "plugin_version_artifacts"
     [col "id" "SERIAL"; col "plugin_version_id" "INT"; col "artifact_id" "INT"; col "platform_variant" "VARCHAR(50)"; stamped "created_at"] [] ["plugin_versions"; "artifacts"];
   CreateIndex "idx_pva_version" "plugin_version_artifacts" ["plugin_version_id"] any].
Definition downgrade_002 : base → result exc base := run_all run_ddl
  [DropTable "plugin_version_artifacts"; DropColumn "plugins" "gecko_id"; DropColumn "plugins" "extension_id"].

(** [_execute_sql]: the statements of a script. *)
Fixpoint count_dollars (s : string) : nat :=
  match s with
  | "" => 0
  | String c r => match r with String d r' => if is_char "$" c && is_char "$" d then S (count_dollars r') else count_dollars r | "" => 0 end
  end.
Definition skipped (in_block : bool) (line : string) : bool :=
  negb in_block && (negb (truthy_str (strip line)) || starts_with "--" (strip line)).
Definition toggled (in_block : bool) (line : string) : bool := if Nat.odd (count_dollars line) then negb in_block else in_block.
(** The lines of each statement; [current]: those of the statement that is read. *)
Fixpoint line_groups (in_block : bool) (current : list string) (lines : list string) : list (list string) :=
  match lines with
  | [] => match current with [] => [] | _ => [current] end
  | l :: r =>
      if skipped in_block l then line_groups in_block current r
      else
        let in_block := toggled in_block l in
        let current := current ++ [l] in
        if ends_with ";" (strip l) && negb in_block then current :: line_groups in_block [] r else line_groups in_block current r
  end.
Definition statement_text (lines : list string) : string := strip (sjoin (String "010" "") lines).
Definition statements (sql : string) : list string :=
  filter (λ s, truthy_str s = true ∧ s ≠ ";") (statement_text <$> line_groups false [] (split_on "010" sql)).
