(* ===== verification/SchemaFacts.v ===== *)
(** * What the migrations leave
    That [apply_schema] settles and repeats without effect, that the backfill of the audit
    log changes nothing on the page, and that the statements of a script are all kept. *)
From S2P Require Import Prelude Text Json Effects Config Flags Catalog AuditLog AuditQuery Schema.
From Stdlib Require Import Ascii String.
Open Scope Z_scope.

(** ** Settled tables *)
(** Nothing is left for the fixup to do on the table. *)
Definition settled (f : fixup) (t : table) : bool :=
  match f with
  | AddColumn _ n _ _ | Backfill _ n => bool_decide (is_Some (t_cols t !! n))
  | DropConstraint _ n => bool_decide (t_cons t !! n = None)
  | DropDefault _ n => match t_cols t !! n with Some c => bool_decide (c_default c = None) | None => false end
  | Cascade _ n _ => match t_cons t !! n with Some a => bool_decide (a = "CASCADE") | None => true end
  end.
Definition settled_in (b : base) (f : fixup) : Prop := ∀ t, tables b !! fix_table f = Some t → settled f t = true.
(** What the second may do after the first. *)
Definition compatible (f g : fixup) : bool :=
  match f, g with
  | DropConstraint a n, Cascade a' n' _ => negb (bool_decide (a = a' ∧ n = n'))
  | _, _ => true
  end.

Lemma run_all_ok {A} (f : A → base → result exc base) l b b' :
  run_all f l b = Ok b' → ∀ (P : base → Prop), P b → (∀ x b1 b2, x ∈ l → P b1 → f x b1 = Ok b2 → P b2) → P b'.
Proof.
  revert b. induction l as [|x l IH]; intros b; cbn [run_all].
  - by intros [= ->].
  - destruct (f x b) as [b1|] eqn:E; [|done]. cbn [rbind]. intros H P Hb Hs. apply (IH b1 H P); [eapply Hs; [by left|done..]|].
    intros y b2 b3 Hy. apply Hs. by right.
Qed.

Section fixups.
Variable jsonb_text : json → string.

Lemma settled_add_column g n c t :
  match g with DropDefault _ n' => n' ≠ n ∨ is_Some (t_cols t !! n') | _ => True end → t_cols t !! n = None → settled g t = true → settled g (add_column n c t) = true.
Proof.
  intros Hc Hn. destruct g as [a m c' ref|a m|a m|a m ref|a m]; cbn [settled add_column t_cols t_cons]; try done.
  - intros H%bool_decide_eq_true. apply bool_decide_eq_true. destruct (decide (m = n)) as [->|]; [by rewrite lookup_insert_eq|by rewrite lookup_insert_ne].
  - destruct (t_cols t !! m) as [x|] eqn:E; [|done]. intros H. rewrite lookup_insert_ne by congruence. by rewrite E.
  - intros H%bool_decide_eq_true. apply bool_decide_eq_true. destruct (decide (m = n)) as [->|]; [by rewrite lookup_insert_eq|by rewrite lookup_insert_ne].
Qed.
Lemma fix_one_ok f t b b' : tables b !! fix_table f = Some t → fix_one jsonb_text f t b = Ok b' →
  ∃ t', tables b' = <[fix_table f := t']> (tables b) ∧ indexes b' = indexes b ∧ settled f t' = true ∧
    ∀ g, fix_table g = fix_table f → compatible g f = true → settled g t = true → settled g t' = true.
Proof.
  intros Ht. assert (tables b = <[fix_table f := t]> (tables b)) as Hid by (by rewrite insert_id).
  destruct f as [a n c ref|a n|a n|a n ref|a n]; cbn [fix_one fix_table settled] in *.
  - destruct (t_cols t !! n) as [x|] eqn:E.
    + intros [= <-]. exists t. rewrite E. done.
    + destruct (exists_all _ b); [|done]. intros [= <-]. exists (add_column n c t). split; [done|]. split; [done|]. split.
      { cbn. rewrite lookup_insert_eq. done. }
      intros g _ _ Hg. apply settled_add_column; [|done..]. destruct g; try done. right. cbn in Hg. by destruct (t_cols t !! name).
  - intros [= <-]. destruct (t_cons t !! n) as [x|] eqn:E.
    + exists (Table (t_cols t) (delete n (t_cons t))). split; [done|]. split; [done|]. split; [cbn; by rewrite lookup_delete_eq|].
      intros g _ _. destruct g as [a' m c' ref|a' m|a' m|a' m ref|a' m]; cbn [settled t_cols t_cons]; try done.
      * intros H%bool_decide_eq_true. apply bool_decide_eq_true. apply lookup_delete_None. by right.
      * destruct (decide (m = n)) as [->|]; [by rewrite lookup_delete_eq|by rewrite lookup_delete_ne].
    + exists t. rewrite E. done.
  - destruct (t_cols t !! n) as [x|] eqn:E; [|done]. intros [= <-].
    exists (Table (<[n := Column (c_type x) None]> (t_cols t)) (t_cons t)). split; [done|]. split; [done|]. split; [cbn; by rewrite lookup_insert_eq|].
    intros g _ _. destruct g as [a' m c' ref|a' m|a' m|a' m ref|a' m]; cbn [settled t_cols t_cons]; try done.
    + intros H%bool_decide_eq_true. apply bool_decide_eq_true. destruct (decide (m = n)) as [->|]; [by rewrite lookup_insert_eq|by rewrite lookup_insert_ne].
    + destruct (decide (m = n)) as [->|]; [by rewrite lookup_insert_eq|by rewrite lookup_insert_ne].
    + intros H%bool_decide_eq_true. apply bool_decide_eq_true. destruct (decide (m = n)) as [->|]; [by rewrite lookup_insert_eq|by rewrite lookup_insert_ne].
  - destruct (t_cons t !! n) as [x|] eqn:E; [case_decide; [|destruct (exists_all _ b); [|done]]|].
    + intros [= <-]. exists t. rewrite E. split_and!; try done. by apply bool_decide_eq_true.
    + intros [= <-]. exists (Table (t_cols t) (<[n := "CASCADE"]> (t_cons t))). split; [done|]. split; [done|]. split; [cbn; by rewrite lookup_insert_eq|].
      intros g Hg Hc. destruct g as [a' m c' ref'|a' m|a' m|a' m ref'|a' m]; cbn [settled t_cols t_cons]; try done.
      * cbn in Hc, Hg. apply negb_true_iff, bool_decide_eq_false in Hc. intros Hm%bool_decide_eq_true. apply bool_decide_eq_true.
        rewrite lookup_insert_ne; [done|]. intros ->. by apply Hc.
      * destruct (decide (m = n)) as [->|]; [by rewrite lookup_insert_eq|by rewrite lookup_insert_ne].
    + intros [= <-]. exists t. rewrite E. done.
  - destruct (t_cols t !! n) as [x|] eqn:E.
    + intros [= <-]. exists t. rewrite E. done.
    + destruct (exists_all _ _); [|done]. destruct (mapR _ _) as [l|]; [|done]. intros [= <-].
      exists (add_column n (Column "VARCHAR(100)" None) t). split; [done|]. split; [done|]. split; [cbn; by rewrite lookup_insert_eq|].
      intros g _ _ Hg. apply settled_add_column; [|done..]. destruct g; try done. right. cbn in Hg. by destruct (t_cols t !! name).
Qed.
Lemma run_fixup_ok f b b' : run_fixup jsonb_text f b = Ok b' →
  indexes b' = indexes b ∧ settled_in b' f ∧ ∀ g, compatible g f = true → settled_in b g → settled_in b' g.
Proof.
  unfold run_fixup. destruct (tables b !! fix_table f) as [t|] eqn:Ht.
  - intros H. apply fix_one_ok in H as (t' & Hb & Hi & Hf & Hg); [|done]. split; [done|]. split.
    + intros u. rewrite Hb, lookup_insert_eq. by intros [= <-].
    + intros g Hc Hs u. rewrite Hb. destruct (decide (fix_table g = fix_table f)) as [E|E].
      * rewrite E, lookup_insert_eq. intros [= <-]. apply Hg; [done..|]. apply Hs. by rewrite E.
      * rewrite lookup_insert_ne by done. apply Hs.
  - intros [= <-]. split; [done|]. split; [|done]. intros u Hu. congruence.
Qed.
Lemma run_fixups_ok l b b' : (∀ f g, f ∈ l → g ∈ l → compatible f g = true) → run_all (run_fixup jsonb_text) l b = Ok b' →
  ∀ f, f ∈ l → settled_in b' f.
Proof.
  revert b. induction l as [|g l IH]; intros b Hc; [intros _ f Hf; inversion Hf|]. cbn [run_all].
  destruct (run_fixup jsonb_text g b) as [b1|] eqn:E; [|done]. cbn [rbind]. intros H f [->|Hf]%elem_of_cons.
  - apply (run_all_ok _ _ _ _ H (λ b, settled_in b g)); [by apply run_fixup_ok in E as (_ & ? & _)|].
    intros x b2 b3 Hx Hs Hr. apply run_fixup_ok in Hr as (_ & _ & Hr). apply Hr; [|done]. apply Hc; [by left|by right].
  - eapply IH; [|done..]. intros f' g' Hf' Hg'. apply Hc; by right.
Qed.
Lemma settled_idle f b : settled_in b f → run_fixup jsonb_text f b = Ok b.
Proof.
  intros Hs. unfold run_fixup. destruct (tables b !! fix_table f) as [t|] eqn:Ht; [|done]. specialize (Hs t Ht).
  destruct f as [a n c ref|a n|a n|a n ref|a n]; cbn [fix_one settled fix_table] in *.
  - apply bool_decide_eq_true in Hs as [x ->]. done.
  - apply bool_decide_eq_true in Hs as ->. done.
  - destruct (t_cols t !! n) as [[ty d]|] eqn:E; [|done]. apply bool_decide_eq_true in Hs. cbn in Hs. subst d. cbn [c_type].
    rewrite (insert_id (t_cols t)) by done. destruct t as [tc tk]. cbn [t_cols t_cons]. rewrite insert_id by done. by destruct b.
  - destruct (t_cons t !! n) as [x|]; [|done]. apply bool_decide_eq_true in Hs as ->. by rewrite decide_True.
  - apply bool_decide_eq_true in Hs as [x ->]. done.
Qed.
Lemma run_all_idle {A} (f : A → base → result exc base) l b : (∀ x, x ∈ l → f x b = Ok b) → run_all f l b = Ok b.
Proof.
  induction l as [|x l IH]; intros H; [done|]. cbn [run_all]. rewrite H by (by left). cbn [rbind]. apply IH. intros y Hy. apply H. by right.
Qed.
End fixups.

(** ** The script *)
(** A statement that only creates, and whose table leaves nothing to the fixups. *)
Definition creates (s : ddl) : bool :=
  match s with
  | CreateTable n cols named _ => forallb (λ f, negb (bool_decide (fix_table f = n)) || settled f (Table (list_to_map cols) (list_to_map named))) fixups
  | CreateIndex _ _ _ _ => true
  | _ => false
  end.
Definition done_in (b : base) (s : ddl) : Prop :=
  match s with CreateTable n _ _ _ => is_Some (tables b !! n) | CreateIndex n _ _ _ => is_Some (indexes b !! n) | _ => False end.
Lemma creates_ok s b b' : creates s = true → run_ddl s b = Ok b' →
  rows b' = rows b ∧ done_in b' s ∧ (∀ s', done_in b s' → done_in b' s') ∧ (∀ f, f ∈ fixups → settled_in b f → settled_in b' f).
Proof.
  destruct s as [n cols named refs|n on cols u| | |]; cbn [creates run_ddl done_in]; try done; intros Hc.
  - destruct (tables b !! n) as [t|] eqn:E; [intros [= <-]; by rewrite E|]. destruct (exists_all refs b); [|done]. intros [= <-]. cbn [set_tables tables indexes rows].
    split; [done|]. split; [by rewrite lookup_insert_eq|]. split.
    + intros [m ? ? ?|m ? ? ?| | |]; cbn; try done. intros Hm. rewrite lookup_insert_ne; [done|]. intros ->. rewrite E in Hm. by destruct Hm.
    + intros f Hf Hs t. cbn [tables]. destruct (decide (fix_table f = n)) as [Hn|Hn].
      * rewrite Hn. unfold set_tables. cbn [tables]. rewrite lookup_insert_eq. intros [= <-]. rewrite forallb_forall in Hc. specialize (Hc f (proj1 (list_elem_of_In _ _) Hf)).
        rewrite bool_decide_eq_true_2 in Hc by done. done.
      * unfold set_tables; cbn [tables]; rewrite lookup_insert_ne by done. apply Hs.
  - destruct (decide _) as [H|H]; [by intros [= <-]|]. destruct (negb _); [done|]. destruct (u (rows b)); [|done]. intros [= <-]. cbn [tables indexes rows].
    split; [done|]. split; [by rewrite lookup_insert_eq|]. split; [|done].
    intros [m ? ? ?|m ? ? ?| | |]; cbn; [done| |done..]. intros Hm. destruct (decide (m = n)) as [->|]; [by rewrite lookup_insert_eq|by rewrite lookup_insert_ne].
Qed.
Lemma done_idle s b : done_in b s → run_ddl s b = Ok b.
Proof.
  destruct s as [n cols named refs|n on cols u| | |]; cbn [run_ddl done_in]; try done; intros H.
  - by destruct H as [t ->].
  - by rewrite decide_True.
Qed.
Lemma script_creates : forallb creates schema_sql = true.
Proof. vm_compute. reflexivity. Qed.
Lemma creates_in s : s ∈ schema_sql → creates s = true.
Proof. intros Hs. pose proof script_creates as H. rewrite forallb_forall in H. by apply H, list_elem_of_In. Qed.
Lemma script_ok b b' : run_all run_ddl schema_sql b = Ok b' →
  rows b' = rows b ∧ (∀ s, s ∈ schema_sql → done_in b' s) ∧ (∀ f, f ∈ fixups → settled_in b f → settled_in b' f).
Proof.
  intros H. split; [|split].
  - apply (run_all_ok _ _ _ _ H (λ b2, rows b2 = rows b)); [done|]. intros s b1 b2 Hs E Hr. apply creates_ok in Hr as (Hr & _); [congruence|by apply creates_in].
  - enough (∀ l, (∀ s, s ∈ l → s ∈ schema_sql) → ∀ b, run_all run_ddl l b = Ok b' → ∀ s, s ∈ l → done_in b' s) as Hl by (by apply (Hl schema_sql (λ _, id) b)).
    clear. intros l. induction l as [|s l IH]; intros Hl b; [intros _ s Hs; inversion Hs|]. cbn [run_all].
    destruct (run_ddl s b) as [b1|] eqn:E; [|done]. cbn [rbind]. intros H s' [->|Hs]%elem_of_cons.
    + apply (run_all_ok _ _ _ _ H (λ b, done_in b s)).
      * apply creates_ok in E as (_ & E & _); [done|]. apply creates_in, Hl. by left.
      * intros x b2 b3 Hx Hd Hr. apply creates_ok in Hr as (_ & _ & Hr & _); [by apply Hr|]. apply creates_in, Hl. by right.
    + eapply IH; [|done..]. intros x Hx. apply Hl. by right.
  - intros f Hf Hs. apply (run_all_ok _ _ _ _ H (λ b, settled_in b f)); [done|]. intros s b1 b2 Hin Hb Hr.
    apply creates_ok in Hr as (_ & _ & _ & Hr); [by apply Hr|by apply creates_in].
Qed.
Lemma fixups_compatible f g : f ∈ fixups → g ∈ fixups → compatible f g = true.
Proof.
  assert (forallb (λ f, forallb (compatible f) fixups) fixups = true) as H by (vm_compute; reflexivity).
  intros Hf%list_elem_of_In Hg%list_elem_of_In. rewrite forallb_forall in H. specialize (H f Hf). rewrite forallb_forall in H. by apply H.
Qed.
Lemma apply_steps jsonb_text d d' : apply_schema jsonb_text true (Some schema_sql) true d = (Ok (), d') →
  ∃ b1, run_all (run_fixup jsonb_text) fixups d = Ok b1 ∧ run_all run_ddl schema_sql b1 = Ok d'.
Proof.
  unfold apply_schema. cbn [negb]. intros H. apply bind_ok in H as (u & b1 & H1 & H). unfold statement in H1.
  destruct (run_all (run_fixup _) _ d) as [b|] eqn:E1; [|done]. injection H1 as _ <-.
  apply bind_ok in H as (v & b2 & H2 & H). unfold statement in H2. destruct (run_all run_ddl _ b) as [b'|] eqn:E2; [|done]. injection H2 as _ <-.
  unfold statement in H. rewrite done_idle in H; [injection H as <-; eauto|].
  apply script_ok in E2 as (_ & Hd & _). apply Hd. right. by left.
Qed.


(** ** The backfill of the audit log *)
Lemma run_all_app {A} (f : A → base → result exc base) l1 l2 b : run_all f (l1 ++ l2) b = rbind (run_all f l1 b) (run_all f l2).
Proof. revert b. induction l1 as [|x l1 IH]; intros b; [done|]. cbn [app run_all]. destruct (f x b); [apply IH|done]. Qed.
Definition is_backfill (f : fixup) : bool := match f with Backfill _ _ => true | _ => false end.
Lemma fixup_keeps jsonb_text f b b' : is_backfill f = false → run_fixup jsonb_text f b = Ok b' →
  rows b' = rows b ∧ ∀ n, n ≠ fix_table f → tables b' !! n = tables b !! n.
Proof.
  intros Hb. unfold run_fixup. destruct (tables b !! fix_table f) as [t|] eqn:Ht; [|by intros [= <-]]. intros H. split.
  - destruct f; cbn [fix_one] in H; repeat case_match; simplify_eq; done.
  - intros n Hn. apply fix_one_ok in H as (t' & -> & _); [|done]. by rewrite lookup_insert_ne.
Qed.
Lemma plugin_expr_plugin jsonb_text d r p : au_plugin r = Some p → _PLUGIN_EXPR jsonb_text d r = Ok (Some p).
Proof. intros H. unfold _PLUGIN_EXPR, or_else. by rewrite H. Qed.
Lemma plugin_expr_tables jsonb_text d d' r : b_plugins d' = b_plugins d → b_flags d' = b_flags d → _PLUGIN_EXPR jsonb_text d' r = _PLUGIN_EXPR jsonb_text d r.
Proof. intros H1 H2. unfold _PLUGIN_EXPR, slug_by_id. by rewrite H1, H2. Qed.
Lemma plugin_expr_none jsonb_text d r : _PLUGIN_EXPR jsonb_text d (with_plugin None r) = _PLUGIN_EXPR jsonb_text d (without_plugin r).
Proof. done. Qed.
Lemma without_plugin_none r : au_plugin r = None → without_plugin r = r.
Proof. destruct r. cbn. by intros ->. Qed.
Lemma backfilled_ok jsonb_text d x y : au_plugin x.2 = None → backfilled jsonb_text d x = Ok y →
  y.1 = x.1 ∧ without_plugin y.2 = without_plugin x.2 ∧ _PLUGIN_EXPR jsonb_text d x.2 = Ok (au_plugin y.2) ∧ _PLUGIN_EXPR jsonb_text d y.2 = Ok (au_plugin y.2).
Proof.
  intros Hx. unfold backfilled. rewrite without_plugin_none by done. destruct (_PLUGIN_EXPR jsonb_text d x.2) as [p|] eqn:E; [|done]. cbn [rbind].
  destruct (fits_opt 100 p); [|done]. intros [= <-]. cbn [fst snd with_plugin au_plugin]. split; [reflexivity|]. split; [exact (without_plugin_none _ Hx)|]. split; [first [exact E|reflexivity]|]. destruct p as [p|].
  - by apply plugin_expr_plugin.
  - rewrite plugin_expr_none, without_plugin_none by done. exact E.
Qed.

(** The entry [y] is the entry [x] with the plugin that the page derived and still derives. *)
Definition filled (jsonb_text : json → string) (before after : AuditQuery.db) (x y : Z * audit_row) : Prop :=
  y.1 = x.1 ∧ without_plugin y.2 = without_plugin x.2 ∧
  _PLUGIN_EXPR jsonb_text before x.2 = Ok (au_plugin y.2) ∧ _PLUGIN_EXPR jsonb_text after y.2 = Ok (au_plugin y.2).

(** ** The statements of a script *)
Fixpoint kept (in_block : bool) (lines : list string) : list string :=
  match lines with
  | [] => []
  | l :: r => if skipped in_block l then kept in_block r else l :: kept (toggled in_block l) r
  end.
Definition dollars (lines : list string) : nat := sum_list (count_dollars <$> lines).
(** Whole: it ends with a semicolon, outside of the blocks between [$$]. *)
Definition whole (lines : list string) : Prop := Nat.even (dollars lines) = true ∧ ∃ l, last lines = Some l ∧ ends_with ";" (strip l) = true.
Lemma dollars_snoc cur l : dollars (cur ++ [l]) = (dollars cur + count_dollars l)%nat.
Proof. unfold dollars. rewrite fmap_app. induction cur as [|x cur IH]; cbn in *; [lia|]. rewrite IH. lia. Qed.
Lemma toggled_spec in_block cur l : in_block = Nat.odd (dollars cur) → toggled in_block l = Nat.odd (dollars (cur ++ [l])).
Proof.
  intros ->. unfold toggled. rewrite dollars_snoc, Nat.odd_add. by destruct (Nat.odd (count_dollars l)), (Nat.odd (dollars cur)).
Qed.
Lemma line_groups_ok lines in_block cur : in_block = Nat.odd (dollars cur) →
  List.concat (line_groups in_block cur lines) = cur ++ kept in_block lines ∧
  ∃ gs rest, line_groups in_block cur lines = gs ++ rest ∧ Forall whole gs ∧ (List.length rest ≤ 1)%nat.
Proof.
  revert in_block cur. induction lines as [|l r IH]; intros in_block cur Hb; cbn [line_groups kept].
  - destruct cur as [|c cur]; (split; [cbn; rewrite ?app_nil_r; done|]).
    + exists [], []. cbn. split_and!; [done|constructor|lia].
    + exists [], [c :: cur]. cbn. split_and!; [done|constructor|lia].
  - destruct (skipped in_block l); [by apply IH|]. pose proof (toggled_spec in_block cur l Hb) as Ht.
    destruct (ends_with ";" (strip l) && negb (toggled in_block l)) eqn:E.
    + apply andb_true_iff in E as [E1 E2%negb_true_iff]. destruct (IH (toggled in_block l) [] (eq_trans E2 eq_refl)) as (Hc & gs & rest & Hg & Hw & Hl).
      rewrite E2 in *. split.
      * cbn [List.concat]. rewrite Hc. cbn [app]. by rewrite <- app_assoc.
      * exists ((cur ++ [l]) :: gs), rest. rewrite Hg. split_and!; [done| |done]. constructor; [|done]. split.
        { rewrite <- Nat.negb_odd, <- Ht. done. }
        { exists l. by rewrite last_snoc. }
    + destruct (IH (toggled in_block l) (cur ++ [l]) Ht) as (Hc & H). split; [|done]. rewrite Hc. by rewrite <- app_assoc.
Qed.
(** Every line of a script that is neither blank nor a comment, and all of a block, is in
    exactly one of the statements that 001 executes, in order; each but the last is whole. *)
Lemma script_split sql :
  List.concat (line_groups false [] (split_on "010" sql)) = kept false (split_on "010" sql) ∧
  ∃ gs rest, line_groups false [] (split_on "010" sql) = gs ++ rest ∧ Forall whole gs ∧ (List.length rest ≤ 1)%nat.
Proof. by apply (line_groups_ok _ false []). Qed.

Module Demo.
Definition empty_base : base := Base ∅ ∅ (AuditQuery.Db [] [] []).
Definition table_of (cols : list (string * column)) (named : list (string * string)) : table := Table (list_to_map cols) (list_to_map named).
(** A database of an earlier version: flags without catalogue, a unique slug, a foreign key
    that blocks, a log that does not know the plugins. *)
Definition old_tables : gmap string table :=
  {[ "plugins" := table_of [col "id" "SERIAL"; col "slug" "VARCHAR(100)"; col "status" "VARCHAR(20)"; col "device_type" "VARCHAR(50)"] [("plugins_slug_key", "UNIQUE")];
     "feature_flags" := table_of [col "id" "SERIAL"; col "name" "VARCHAR(100)"; dflt "default_value" "BOOLEAN" "true"] [("feature_flags_name_key", "UNIQUE")];
     "plugin_installations" := table_of [col "plugin_id" "INT"] [("plugin_installations_plugin_id_fkey", "NO ACTION")];
     "admin_audit_log" := table_of [col "id" "BIGSERIAL"; stamped "created_at"; col "actor_email" "TEXT"] [] ]}.
Definition old_base : base := Base old_tables ∅ AuditQuery.Demo.tables_ex.
Definition upgrade (d : base) : result exc () * base := apply_schema dumps true (Some schema_sql) true d.
Definition upgraded (d : base) : base := (upgrade d).2.

Example old_is_upgraded :
  (upgrade old_base).1 = Ok () ∧ ((λ x, au_plugin x.2) <$> b_rows (rows (upgraded old_base))) = [Some "mirai"; None; Some "mirai"] ∧
  (tables (upgraded old_base) !! "plugin_installations" ≫= λ t, t_cons t !! "plugin_installations_plugin_id_fkey") = Some "CASCADE".
Proof. by vm_compute. Qed.
(** A database with campaigns and without plugins: the fixups run before the script that
    would create the table they refer to, and every start fails. *)
Example campaigns_before_plugins :
  upgrade (Base {[ "campaigns" := table_of [col "id" "SERIAL"] [] ]} ∅ (AuditQuery.Db [] [] []))
  = (undefined_table, Base {[ "campaigns" := table_of [col "id" "SERIAL"] [] ]} ∅ (AuditQuery.Db [] [] [])).
Proof. vm_compute. reflexivity. Qed.
(** The first migration, which runs the script without the fixups, refuses that database of an earlier version. *)
Example migration_refuses_old : upgrade_001 old_base = undefined_column.
Proof. vm_compute. reflexivity. Qed.
(** The second migration and its inverse, after the fixups: columns that were there before are dropped. *)
Example downgrade_drops :
  ((λ b, tables b !! "plugins" ≫= λ t, t_cols t !! "gecko_id") <$>
    match rbind (upgrade_002 (upgraded empty_base)) downgrade_002 with Ok b => Some b | Err _ => None end) = Some None ∧
  (tables (upgraded empty_base) !! "plugins" ≫= λ t, t_cols t !! "gecko_id") = Some (Column "VARCHAR(128)" None).
Proof. by vm_compute. Qed.
Example two_statements :
  statements ("-- a comment" +:+ String "010" ("CREATE FUNCTION f() AS $$" +:+ String "010" ("  SELECT 1;" +:+ String "010" ("$$;" +:+ String "010" ("SELECT 2;")))))
  = ["CREATE FUNCTION f() AS $$" +:+ String "010" ("  SELECT 1;" +:+ String "010" "$$;"); "SELECT 2;"].
Proof. vm_compute. reflexivity. Qed.

End Demo.
