(* ===== verification/Startup.v ===== *)
(** * Database connections and startup
    Of [app/services/db.py] the URLs of the databases, the connection pool, the wait for the
    server, the creation of the database and of its role; of [app/main.py]
    [_startup_db_init], which puts them together with [apply_schema]. The server is a
    cluster of databases; which database a URL opens is an argument. *)
From S2P Require Import Prelude Text Json Effects Paths PublicUrl RuntimeConfig Catalog AuditQuery Schema.
From Stdlib Require Import Ascii String.
Open Scope Z_scope.

(** ** URLs *)
(** [ParseResult] *)
Record url : Type := UrlParts { u_scheme : string; u_netloc : string; u_path : string; u_params : string; u_query : string; u_fragment : string }.
Definition uses_params : list string :=
  [""; "ftp"; "hdl"; "prospero"; "http"; "https"; "shttp"; "rtsp"; "rtsps"; "rtspu"; "sip"; "sips"; "mms"; "sftp"; "tel"].
Definition uses_netloc : list string :=
  [""; "ftp"; "http"; "gopher"; "nntp"; "telnet"; "imap"; "wais"; "file"; "mms"; "https"; "shttp"; "snews"; "prospero"; "rtsp"; "rtsps"; "rtspu";
   "rsync"; "svn"; "svn+ssh"; "sftp"; "nfs"; "git"; "git+ssh"; "ws"; "wss"; "itms-services"].
(** The parameters of the last segment. *)
Definition _splitparams (path : string) : string * string :=
  match split_once ";" (basename path) with
  | Some (_, params) => (stake (String.length path - String.length params - 1) path, params)
  | None => (path, "")
  end.
Definition parse_url (s : string) : result exc url :=
  let s := Url.sfilter (λ c, negb (Url.unsafe c)) (lstrip_by Url.c0_or_space s) in
  let* head := urlparse s in
  let rest := (Url.split_scheme s).2 in
  let tail := if starts_with "//" rest then sdrop (2 + String.length (Url.netloc head)) rest else rest in
  let '(tail, fragment) := Url.partition "#" tail in
  let '(path, query) := Url.partition "?" tail in
  let '(path, params) := if bool_decide (Url.scheme head ∈ uses_params) then _splitparams path else (path, "") in
  Ok (UrlParts (Url.scheme head) (Url.netloc head) path params query fragment).
Definition urlunparse (u : url) : string :=
  let path := if truthy_str (u_params u) then u_path u +:+ ";" +:+ u_params u else u_path u in
  let path :=
    if truthy_str (u_netloc u) || truthy_str (u_scheme u) && bool_decide (u_scheme u ∈ uses_netloc) && negb (starts_with "//" path)
    then "//" +:+ u_netloc u +:+ (if truthy_str path && negb (starts_with "/" path) then String "/" path else path)
    else path in
  let s := if truthy_str (u_scheme u) then u_scheme u +:+ ":" +:+ path else path in
  let s := if truthy_str (u_query u) then s +:+ "?" +:+ u_query u else s in
  if truthy_str (u_fragment u) then s +:+ "#" +:+ u_fragment u else s.
Definition set_path (p : string) (u : url) : url := UrlParts (u_scheme u) (u_netloc u) p (u_params u) (u_query u) (u_fragment u).
Definition set_netloc (n : string) (u : url) : url := UrlParts (u_scheme u) n (u_path u) (u_params u) (u_query u) (u_fragment u).
Definition _with_db (s db_name : string) : result exc string :=
  let* parsed := parse_url s in Ok (urlunparse (set_path (String "/" db_name) parsed)).

Section urls.
(** [configured]: [settings.database_url]. *)
Variables (env : environ) (configured : string).
Definition db_url : option string := or_none (str_or (getenv "DATABASE_URL" "" env) configured).
Definition db_url_bootstrap : result exc (option string) :=
  match db_url with None => Ok None | Some b => let* u := _with_db b "bootstrap" in Ok (Some u) end.
(** The first variable that is set to something. *)
Fixpoint first_set (names : list string) : option string :=
  match names with [] => None | n :: r => match getenv n "" env with "" => first_set r | v => Some v end end.
Definition admin_db_url (base_url : string) : result exc (option string) :=
  match first_set ["DATABASE_ADMIN_URL"; "DM_DATABASE_ADMIN_URL"] with
  | Some e => Ok (Some e)
  | None =>
      let* parsed := parse_url base_url in
      let admin_user := default "postgres" (first_set ["DB_ADMIN_USER"; "POSTGRES_ADMIN_USER"; "POSTGRES_USER"]) in
      match first_set ["DB_ADMIN_PASSWORD"; "POSTGRES_ADMIN_PASSWORD"; "POSTGRES_PASSWORD"] with
      | None => Ok None
      | Some admin_password =>
          let at_ := Url.Parts (u_scheme parsed) (u_netloc parsed) in
          let netloc := admin_user +:+ ":" +:+ admin_password +:+ "@" +:+ default "None" (Url.hostname at_) in
          let* port := Url.port at_ in
          let netloc := match port with Some p => if p =? 0 then netloc else netloc +:+ ":" +:+ py_str_int p | None => netloc end in
          Ok (Some (urlunparse (set_netloc netloc parsed)))
      end
  end.
End urls.

(** ** [wait_for_db] *)
Definition operational {A} : result exc A := Err (Exc "OperationalError").
(** [attempt k]: whether the [k]-th connection opens, and the time until it is known.
    [None]: the loop has not ended within [fuel] turns. *)
Fixpoint wait_loop (fuel : nat) (attempt : nat → bool * Z) (interval deadline : Z) (k : nat) (failed : bool) (now : Z) : option (result exc () * Z) :=
  if now <? deadline then
    match fuel with
    | O => None
    | S fuel =>
        let '(opens, took) := attempt k in
        if opens : bool then Some (Ok (), now + took) else wait_loop fuel attempt interval deadline (S k) true (now + took + interval)
    end
  else Some (if failed then operational else Ok (), now).
Definition wait_fuel (timeout interval : Z) : nat := Z.to_nat (timeout / interval + 1).
Definition wait_for_db (attempt : nat → bool * Z) (timeout interval now : Z) : option (result exc () * Z) :=
  wait_loop (wait_fuel timeout interval) attempt interval (now + timeout) 0 false now.

(** ** The pool *)
Definition _POOL_MIN : Z := 2.
Definition _POOL_MAX : Z := 10.
Inductive pool : Type := NoPool | Pool (url : string).
(** [creates url]: the pool can be built. *)
Definition get_pool (psycopg2 : bool) (env : environ) (configured : string) (creates : string → bool) : SM pool (option string) := λ p,
  match p with
  | Pool u => (Ok (Some u), p)
  | NoPool =>
      if negb psycopg2 then (Ok None, p)
      else match db_url_bootstrap env configured with
           | Err e => (Err e, p)
           | Ok b =>
               match (match b with Some _ => b | None => db_url env configured end) with
               | None => (Ok None, p)
               | Some u => if creates u then (Ok (Some u), Pool u) else (Ok None, p)
               end
           end
  end.

(** ** The server *)
Record cluster : Type := Cluster { databases : gmap string base; roles : gset string; granted : gset string }.
Record server : Type := Server {
  (** The database that a URL opens, once the server accepts connections. *)
  sv_opens : string → option string;
  (** What the administrator may not do. *)
  sv_may_create_role : bool; sv_may_alter_role : bool; sv_up : bool }.
Definition empty_base : base := Base ∅ ∅ (AuditQuery.Db [] [] []).

Section server.
Variables (sv : server) (jsonb_text : json → string) (psycopg2 : bool) (script : option (list ddl)).
(** [psycopg2.connect]: the name of the database. *)
Definition connect (u : string) : SM cluster string := λ c,
  match (if sv_up sv then sv_opens sv u else None) with
  | Some n => match databases c !! n with Some _ => (Ok n, c) | None => (operational, c) end
  | None => (operational, c)
  end.
(** The attempts all have the same outcome. *)
Definition awaits (u : string) : SM cluster () := _ ← connect u; mret ().
Definition ensure_database_exists (u db_name : string) : SM cluster () :=
  if negb psycopg2 then raise (Exc "psycopg2 is not installed.")
  else
    admin_url ← lift (_with_db u "postgres");
    _ ← connect admin_url;
    modify (λ c, match databases c !! db_name with Some _ => c | None => Cluster (<[db_name := empty_base]> (databases c)) (roles c) (granted c) end).
Definition ensure_dev_role (admin_url : string) : SM cluster () :=
  _ ← connect admin_url;
  c ← gets id;
  (if decide ("dev" ∈ roles c) then mret ()
   else if sv_may_create_role sv then modify (λ c, Cluster (databases c) ({["dev"]} ∪ roles c) (granted c)) else raise (Exc "psycopg2.Error")).
  (* a refused [ALTER ROLE] is logged *)
Definition ensure_dev_privileges (u : string) : SM cluster () :=
  n ← connect u;
  c ← gets id;
  if decide ("dev" ∈ roles c) then modify (λ c, Cluster (databases c) (roles c) ({[n]} ∪ granted c)) else raise (Exc "psycopg2.Error").
Definition on_database (n : string) (m : SM base ()) : SM cluster () := λ c,
  match databases c !! n with
  | Some b => let '(r, b') := m b in (r, Cluster (<[n := b']> (databases c)) (roles c) (granted c))
  | None => (operational, c)
  end.
Definition _apply_schema (u : string) : SM cluster () := n ← connect u; on_database n (apply_schema jsonb_text psycopg2 script true).

(** ** [_startup_db_init] *)
Variables (env : environ) (configured : string).
(** [try: m except Exception: log]: [None] when it raises. *)
Definition logged {A} (m : SM cluster A) : SM cluster (option A) := catch (a ← m; mret (Some a)) (λ _, mret None).
(** The first part, with what it has found of the administrator's URL when it fails. *)
Definition bootstrap_exists (base_url : string) : SM cluster (option string) :=
  found ← logged (lift (admin_db_url env base_url));
  match found with
  | Some (Some u) =>
      url ← logged (lift (_with_db u "postgres"));
      match url with
      | None => mret (Some u)
      | Some admin_url =>
          logged (awaits admin_url;; logged (ensure_dev_role admin_url);; ensure_database_exists admin_url "bootstrap");;
          mret (Some admin_url)
      end
  | _ => mret None
  end.
Definition schema_applied (admin_url : option string) : SM cluster () :=
  bootstrap_url ← lift (db_url_bootstrap env configured);
  match admin_url with
  | Some a =>
      u ← lift (_with_db a "bootstrap");
      awaits u;; _apply_schema u;; ensure_dev_privileges u
  | None => match bootstrap_url with Some u => awaits u;; _apply_schema u | None => mret () end
  end.
Definition _startup_db_init : SM cluster () :=
  if negb psycopg2 then mret ()
  else match db_url env configured with
       | None => mret ()
       | Some base_url => admin_url ← bootstrap_exists base_url; logged (schema_applied admin_url);; mret ()
       end.
End server.
