(* ===== verification/Dashboard.v ===== *)
(** * Dashboard
    Of [app/admin/services/campaigns.py] the statistics and the events of a campaign, of
    [app/admin/router.py] the pages of a campaign, the metrics, the versions and the adoption
    of the dashboard, of [app/main.py] [api_campaign_progress], of
    [app/admin/services/llm_traffic.py] the tiles. Times are whole seconds and dates are
    counted in days, in UTC. A quotient is a number of 53 bits, as Python computes it. *)
From S2P Require Import Prelude Text Json Effects Hashing Campaigns Cohorts Flags Config Wizard GetConfig Catalog Relay Ingest RuntimeConfig Gate AuditQuery Traffic Fleet AdminDb AdminCatalog Devices.
From stdpp Require Import sorting.
From Stdlib Require Import SpecFloat.
From Stdlib Require Import Ascii String.
Open Scope Z_scope.

(** ** Numbers *)
(** What JSON shows: an integer, or a number of [digits] decimals. *)
Inductive number : Type := Whole (z : Z) | Decimal (digits z : Z).
Definition float_of (z : Z) : spec_float := binary_normalize 53 1024 z 0 false.
(** [a / b] *)
Definition fdiv (a b : Z) : spec_float := SFdiv 53 1024 (float_of a) (float_of b).
Definition times100 (x : spec_float) : spec_float := SFmul 53 1024 x (float_of 100).
(** [round(x, digits)], in units of the last digit. *)
Definition round_to (digits : Z) (x : spec_float) : Z :=
  match x with
  | S754_finite s m e =>
      let v := (if s then - Z.pos m else Z.pos m) * 10 ^ digits in if 0 <=? e then v * 2 ^ e else half_even v (2 ^ (- e))
  | _ => 0
  end.
(** [round(part / total * 100, 1) if total else 0] *)
Definition percent1 (part total : Z) : number := if total =? 0 then Whole 0 else Decimal 1 (round_to 1 (times100 (fdiv part total))).
(** [round(part / total * 100) if total else 0] *)
Definition percent0 (part total : Z) : Z := if total =? 0 then 0 else round_to 0 (times100 (fdiv part total)).
Definition tenths_of (n : number) : Z := match n with Whole z => 10 * z | Decimal 1 z => z | Decimal d z => z / 10 ^ (d - 1) end.
Definition distinct {A} `{EqDecision A} (l : list A) : Z := Z.of_nat (List.length (remove_dups l)).

(** ** One campaign *)
Record stats : Type := Stats {
  st_total : Z; st_updated : Z; st_notified : Z; st_pending : Z; st_failed : Z; st_rolled_back : Z; st_progress : number; st_error : number }.
Definition rows_of (l : list Status.row) (campaign_id : Z) : list Status.row := filter (λ s, Status.ds_campaign s = campaign_id) l.
(** [COUNT( * ) FILTER (WHERE status = ...)] *)
Definition with_status (status : string) (l : list Status.row) : Z := count (λ s, bool_decide (Status.ds_status s = status)) l.
Definition get_campaign_stats (statuses : list Status.row) (campaign_id : Z) : stats :=
  let l := rows_of statuses campaign_id in
  let total := Z.of_nat (List.length l) in
  let updated := with_status "updated" l in let failed := with_status "failed" l in
  Stats total updated (with_status "notified" l) (with_status "pending" l) failed (with_status "rolled_back" l) (percent1 updated total) (percent1 failed total).
Definition event_later (a b : Status.row) : Prop := Status.ds_updated b ≤ Status.ds_updated a.
#[export] Instance event_later_dec a b : Decision (event_later a b).
Proof. unfold event_later. apply _. Defined.
Definition get_campaign_events (statuses : list Status.row) (campaign_id : Z) (limit : nat) : list Status.row :=
  take limit (merge_sort event_later (rows_of statuses campaign_id)).
(** A campaign with its cohort and its artifacts. *)
Record campaign_view : Type := CampaignView {
  cv_row : campaign_row; cv_cohort : option cohort_row; cv_artifact : option artifact; cv_rollback : option artifact }.
Definition view_of (d : adb) (c : campaign_row) : campaign_view :=
  let arts := ar_art <$> ct_artifacts (d_cat d) in
  CampaignView c (cp_target_cohort c ≫= λ i, find (λ co, bool_decide (co_id co = i)) (Service.st_cohorts (d_cohorts d)))
    (Serve.join_artifact arts (cp_artifact c)) (Serve.join_artifact arts (cp_rollback c)).
Definition get_campaign (d : adb) (campaign_id : Z) : option campaign_view :=
  view_of d <$> find (λ c, bool_decide (cp_id c = campaign_id)) (Life.st_rows (d_camps d)).
(** [updated_at]: that column of a campaign. *)
Definition updated_later (updated_at : campaign_row → Z) (a b : campaign_row) : Prop := updated_at b ≤ updated_at a.
#[export] Instance updated_later_dec f a b : Decision (updated_later f a b).
Proof. unfold updated_later. apply _. Defined.
Definition list_campaigns (updated_at : campaign_row → Z) (d : adb) (status : string) (limit offset : nat) : list campaign_view :=
  let rows := if truthy_str status then filter (λ c, cp_status c = status) (Life.st_rows (d_camps d)) else Life.st_rows (d_camps d) in
  view_of d <$> take limit (drop offset (merge_sort (updated_later updated_at) rows)).
(** What the fragment of the page shows. *)
Record stats_tiles : Type := StatsTiles { tl_stats : stats; tl_error_class : string }.
Definition api_campaign_stats (d : adb) (campaign_id : Z) : stats_tiles :=
  let s := get_campaign_stats (d_statuses d) campaign_id in
  StatsTiles s (if 100 <=? tenths_of (st_error s) then "dm-metric-tile--error" else if 20 <? tenths_of (st_error s) then "dm-metric-tile--warning" else "").
Definition campaign_detail (d : adb) (campaign_id : Z) : result exc (campaign_view * stats * list Status.row) :=
  match get_campaign d campaign_id with
  | None => Err (Http (HttpError 404 "Campagne non trouvee"))
  | Some c => Ok (c, get_campaign_stats (d_statuses d) campaign_id, get_campaign_events (d_statuses d) campaign_id 20)
  end.
(** The plugin whose icon the page shows. *)
Definition shown_plugin (d : adb) (c : campaign_view) : option plugin :=
  let own := match cp_plugin (cv_row c) with Some i => if i =? 0 then None else get_plugin d i | None => None end in
  match own with
  | Some p => Some p
  | None =>
      let dt := match cv_artifact c with Some a => art_device_type a | None => "" end in
      if truthy_str dt then find (λ p, bool_decide (pl_device_type (pg_row p) = dt ∧ pl_status (pg_row p) = "active")) (ct_plugins (d_cat d)) else None
  end.
Definition deploy_tracking (d : adb) (campaign_id : Z) : result exc (campaign_view * stats * list Status.row * option plugin) :=
  match get_campaign d campaign_id with
  | None => Err (Http (HttpError 404 "Deploiement non trouve"))
  | Some c => Ok (c, get_campaign_stats (d_statuses d) campaign_id, get_campaign_events (d_statuses d) campaign_id 10, shown_plugin d c)
  end.
Record progress : Type := Progress { pg_id : Z; pg_status : string; pg_created : Z; pg_stages : json; pg_stats : stats; pg_events : list Status.row }.
(** [(rollout_config or {}).get("stages", [])], of a text after reading it. *)
Definition stages_of (rollout : json) : result exc json :=
  let* cfg := match rollout with JStr s => match loads s with Some v => Ok v | None => Err (Exc "Expecting value") end | v => Ok v end in
  jmethod (jor cfg (JObj [])) "stages" (JArr []).
(** [None]: the answer 404. *)
Definition api_deploy_progress (d : adb) (campaign_id : Z) : result exc (option progress) :=
  match get_campaign d campaign_id with
  | None => Ok None
  | Some c =>
      let* stages := stages_of (cp_rollout (cv_row c)) in
      Ok (Some (Progress campaign_id (cp_status (cv_row c)) (cp_created (cv_row c)) stages
                  (get_campaign_stats (d_statuses d) campaign_id) (get_campaign_events (d_statuses d) campaign_id 10)))
  end.

(** ** [api_campaign_progress] *)
Record api_progress : Type := ApiProgress {
  ap_id : Z; ap_status : string; ap_stage : json; ap_total : Z; ap_installed : Z; ap_failed : Z; ap_notified : Z; ap_pending : Z; ap_failure_rate : number }.
(** [SELECT status, COUNT( * ) ... GROUP BY status] *)
Definition grouped (l : list Status.row) : list (string * Z) := (λ s, (s, with_status s l)) <$> remove_dups (Status.ds_status <$> l).
Definition failure_rate (installed failed : Z) : number := Decimal 4 (round_to 4 (fdiv failed (Z.max (installed + failed) 1))).
(** The loop over the stages: the first that reaches the percentage. *)
Fixpoint stage_label (current : Z) (stages : list json) : result exn json :=
  match stages with
  | [] => Ok (JStr "unknown")
  | s :: r =>
      let* p := Serve.stage_get s "percent" 100 in
      let* p := Serve.num p in
      if current <=? p then Ok match s with JObj d => jget_or "label" d (JStr "unknown") | _ => JStr "unknown" end else stage_label current r
  end.
Definition current_stage (now : Z) (rollout : json) : result exn json :=
  match rollout with
  | JObj cfg =>
      match Wizard.elements (jget_or "stages" cfg (JArr [])) with
      | Some stages =>
          let* percent := Serve._get_current_rollout_percent now None stages in
          let* percent := Serve.num percent in
          stage_label percent stages
      | None => Err tt
      end
  | _ => Ok (JStr "unknown")
  end.
Definition campaign_progress (now : Z) (d : adb) (campaign_id : Z) : result http_error api_progress :=
  match find (λ c, bool_decide (cp_id c = campaign_id)) (Life.st_rows (d_camps d)) with
  | None => Err (HttpError 404 "Campaign not found")
  | Some c =>
      let stats := grouped (rows_of (d_statuses d) campaign_id) in
      let at_ (s : string) := default 0 (dget s stats) in
      let installed := at_ "updated" in let failed := at_ "failed" in
      match current_stage now (cp_rollout c) with
      | Ok stage => Ok (ApiProgress campaign_id (cp_status c) stage (zsum snd stats) installed failed (at_ "notified") (at_ "pending") (failure_rate installed failed))
      | Err _ => Err (HttpError 500 "")
      end
  end.
Definition api_campaign_progress (env : environ) (h : headers) (now : Z) (d : adb) (campaign_id : Z) : result http_error api_progress :=
  CampaignApi.guard env h (campaign_progress now d campaign_id).

(** ** Metrics *)
Definition DAY : Z := 24 * HOUR.
Record tiles_row : Type := TilesRow { ti_calls : Z; ti_avg_ms : Z; ti_error_rate : number; ti_embed_share : Z; ti_tokens : Z }.
Definition tiles (now : Z) (t : gmap key row) : tiles_row :=
  let l := filter (λ kv : key * row, in_window (now * MICRO) 86400 kv.1 = true) (map_to_list t) in
  let sum (f : row → Z) (p : key → bool) := zsum (λ kv : key * row, if p kv.1 then f kv.2 else 0) l in
  let total := sum r_count (λ _, true) in
  TilesRow total (if total =? 0 then 0 else round_to 0 (fdiv (sum r_sum (λ _, true)) total))
    (percent1 (sum r_count is_error) total) (percent0 (sum r_count is_embeddings) total) (sum r_tokens (λ _, true)).
Definition error_rate_24h (now : Z) (t : gmap key row) : number := ti_error_rate (tiles now t).
(** [None]: a query that raises; the series and the tiles are then empty. *)
Definition api_llm_traffic (now : Z) (period : string) (t : option (gmap key row)) : list point * option tiles_row :=
  match t with Some t => (series (now * MICRO) period t, Some (tiles now t)) | None => ([], None) end.
Record metrics : Type := Metrics { mt_active : Z; mt_interactions : Z; mt_enrollment : number; mt_error : number; mt_campaigns : Z }.
Definition _compute_dashboard_metrics (now : Z) (d : adb) (conns : list conn_row) (prov : list prov_row) (t : option (gmap key row)) : metrics :=
  Metrics
    (distinct (in_client <$> filter (λ i, now - 7 * DAY < in_seen i) (d_installs d)))
    (count (λ c, now - 7 * DAY <? dc_at c) conns)
    (percent1 (count (λ p, bool_decide (pv_status p = "ENROLLED")) prov) (Z.of_nat (List.length prov)))
    (match t with Some t => error_rate_24h now t | None => Whole 0 end)
    (count (λ c, bool_decide (cp_status c = "active")) (Life.st_rows (d_camps d))).
(** [ORDER BY pods DESC, app_version] *)
Definition version_before (a b : string * Z) : Prop := b.2 < a.2 ∨ b.2 = a.2 ∧ str_ltb b.1 a.1 = false.
#[export] Instance version_before_dec a b : Decision (version_before a b).
Proof. unfold version_before. apply _. Defined.
Definition _dashboard_versions (now : Z) (fleet : list pod_row) : list (string * Z) :=
  let l := pr_version <$> filter (λ r, now - 15 * 60 < pr_heartbeat r) fleet in
  (λ v : string * Z, (str_or v.1 "dev", v.2)) <$> merge_sort version_before ((λ v, (v, count (λ w, bool_decide (w = v)) l)) <$> remove_dups l).
Record dashboard_page : Type := DashboardPage {
  db_metrics : metrics; db_versions : list (string * Z); db_local_version : string; db_campaigns : list (campaign_view * number * number);
  db_recent : list AuditQuery.entry }.
Definition no_filters : AuditQuery.filters := AuditQuery.Filters "" "" "" None None "" "".
(** [fleet] is [None] when the table of the pods does not exist. *)
Definition dashboard (jsonb_text : json → string) (time : string → option Z) (journal : AuditQuery.db) (env : environ) (updated_at : campaign_row → Z)
    (now : Z) (d : adb) conns prov t (fleet : option (list pod_row)) : result exc dashboard_page :=
  let campaigns := (λ c, let s := get_campaign_stats (d_statuses d) (cp_id (cv_row c)) in (c, st_progress s, st_error s)) <$> list_campaigns updated_at d "active" 50 0 in
  let* recent := AuditQuery.list_audit_entries jsonb_text time journal no_filters 10 0 in
  Ok (DashboardPage (_compute_dashboard_metrics now d conns prov t) (match fleet with Some l => _dashboard_versions now l | None => [] end)
        (str_or (str_or (getenv "DM_APP_VERSION" "" env) (getenv "APP_VERSION" "" env)) "dev") campaigns recent).

(** ** Adoption *)
(** A row of [provisioning] with its creation. *)
Record enrolled_row : Type := Enrolled { er_row : prov_row; er_created : Z }.
Inductive counting : Type := ByDevice | ByUser.
(** The column counted; the column of addresses ignores case. *)
Definition identity (m : counting) (e : enrolled_row) : string :=
  match m with ByDevice => pv_client_uuid (er_row e) | ByUser => lower (pv_email (er_row e)) end.
Definition intervals : list (string * Z) := [("1J", 1); ("1S", 7); ("1M", 30); ("3M", 90); ("6M", 180)].
Definition mode_of (mode : string) : counting := if decide (mode = "user") then ByUser else ByDevice.
Definition enrolled (rows : list enrolled_row) : list enrolled_row := filter (λ e, pv_status (er_row e) = "ENROLLED") rows.
(** [generate_series(now() - interval, now(), '1 day')]: two of them fall on different dates. *)
Definition days (now interval : Z) : list Z := (λ i, now - (interval - i) * DAY) <$> seqZ 0 (interval + 1).
Definition date_of (t : Z) : Z := t / DAY.
Definition by_day (rows : list enrolled_row) (d : Z) : list enrolled_row := filter (λ e, er_created e ≤ d) (enrolled rows).
(** [COALESCE(pl.slug, pl2.slug, p.device_name)] *)
Definition slug_of_device (c : catalog) (device_name : string) : string :=
  if bool_decide (device_name ∈ (λ p, pl_slug (pg_row p)) <$> ct_plugins c) then device_name
  else match dget device_name (ct_aliases c) with
       | Some i => match find (λ p, bool_decide (p_id p = i)) (ct_plugins c) with Some p => pl_slug (pg_row p) | None => device_name end
       | None => device_name
       end.
Definition slug_of_row (c : catalog) (e : enrolled_row) : string := slug_of_device c (pv_device_name (er_row e)).
Record plugin_series : Type := PluginSeries { sr_slug : string; sr_points : list (Z * Z) }.
(** The points of a plugin: a day without any enrolment of it gives no row. *)
Definition points_of (m : counting) (c : catalog) (rows : list enrolled_row) (ds : list Z) (slug : string) : list (Z * Z) :=
  omap (λ d, match identity m <$> filter (λ e, slug_of_row c e = slug) (by_day rows d) with [] => None | l => Some (date_of d, distinct l) end) ds.
Record adoption : Type := Adoption {
  ad_mode : counting; ad_total : Z; ad_new : Z; ad_active_pct : Z; ad_plugins : Z; ad_timeseries : list (Z * Z); ad_series : list plugin_series }.
Definition api_adoption (now : Z) (period mode : string) (d : adb) (rows : list enrolled_row) : adoption :=
  let interval := default 30 (dget period intervals) in
  let m := mode_of mode in
  let seen := filter (λ i, now - 7 * DAY < in_seen i) (d_installs d) in
  let active := match m with
                | ByUser => distinct (filter (λ s, s ≠ "") (in_email <$> seen))
                | ByDevice => distinct (in_client <$> seen)
                end in
  let total := distinct (identity m <$> enrolled rows) in
  let ds := days now interval in
  Adoption m total (distinct (identity m <$> filter (λ e, now - interval * DAY < er_created e) (enrolled rows)))
    (percent0 active total) (count (λ p, bool_decide (pl_status (pg_row p) = "active")) (ct_plugins (d_cat d)))
    ((λ t, (date_of t, distinct (identity m <$> by_day rows t))) <$> ds)
    ((λ s, PluginSeries s (points_of m (d_cat d) rows ds s)) <$>
     py_sorted (remove_dups (slug_of_row (d_cat d) <$> (ds ≫= by_day rows)))).

(** ** Facts about counting *)
Lemma count_cons {A} (p : A → bool) x l : count p (x :: l) = (if p x then 1 else 0) + count p l.
Proof. unfold count. destruct (p x) eqn:E; [rewrite filter_cons_True by done|rewrite filter_cons_False by (by rewrite E)]; cbn [List.length]; cbv iota; lia. Qed.
Lemma zsum_ext {A} (f g : A → Z) l : (∀ x, x ∈ l → f x = g x) → zsum f l = zsum g l.
Proof. induction l as [|x l IH]; intros H; [done|]. cbn [zsum]. rewrite H by (by left). rewrite IH; [done|]. intros y Hy. apply H. by right. Qed.
Lemma zsum_fmap {A B} (f : A → B) (g : B → Z) l : zsum g (f <$> l) = zsum (λ x, g (f x)) l.
Proof. induction l as [|x l IH]; [done|]. cbn [fmap list_fmap zsum]. fold (f <$> l). by rewrite IH. Qed.
Lemma zsum_single {A} `{EqDecision A} (k : A) (f g : A → Z) ks : NoDup ks → k ∈ ks → (∀ x, x ≠ k → f x = g x) → zsum f ks = zsum g ks + (f k - g k).
Proof.
  intros Hn Hk He. induction ks as [|x ks IH]; [by apply elem_of_nil in Hk|]. apply NoDup_cons in Hn as [Hx Hn]. cbn [zsum].
  destruct (decide (x = k)) as [->|Hne].
  - rewrite (zsum_ext f g ks); [lia|]. intros y Hy. apply He. congruence.
  - apply elem_of_cons in Hk as [->|Hk]; [done|]. rewrite (IH Hn Hk), (He x Hne). lia.
Qed.
(** The rows are those of each class, together. *)
Lemma count_classes {A B} `{EqDecision B} (f : A → B) ks l : NoDup ks → (∀ x, x ∈ l → f x ∈ ks) →
  zsum (λ k, count (λ x, bool_decide (f x = k)) l) ks = Z.of_nat (List.length l).
Proof.
  intros Hn. induction l as [|x l IH]; intros H.
  - clear. transitivity (zsum (λ _ : B, 0) ks); [by apply zsum_ext|]. induction ks as [|k ks IH]; [done|]. cbn [zsum]. cbn [List.length] in *. lia.
  - rewrite (zsum_single (f x) _ (λ k, count (λ y, bool_decide (f y = k)) l) ks Hn); [|apply H; by left|intros k Hk; rewrite count_cons, bool_decide_eq_false_2 by done; lia].
    rewrite IH by (intros y Hy; apply H; by right). rewrite count_cons, bool_decide_eq_true_2 by done. cbn [List.length]. lia.
Qed.

(** ** The progress of a campaign *)
Definition device_statuses : list string := ["pending"; "notified"; "updated"; "failed"; "rolled_back"].
Lemma grouped_get s l : default 0 (dget s (grouped l)) = with_status s l.
Proof.
  unfold grouped. assert (∀ ks, dget s ((λ s, (s, with_status s l)) <$> ks) = if decide (s ∈ ks) then Some (with_status s l) else None) as ->.
  { induction ks as [|k ks IH]; [done|]. cbn [fmap list_fmap dget]. fold ((λ s, (s, with_status s l)) <$> ks). destruct (decide (s = k)) as [->|Hk].
    - by rewrite decide_True by (by left).
    - rewrite IH. apply decide_ext. rewrite elem_of_cons. naive_solver. }
  case_decide as Hs; [done|]. cbn. unfold with_status, count. rewrite filter_none; [done|]. intros x Hx Hd. apply bool_decide_eq_true in Hd.
  apply Hs. rewrite elem_of_remove_dups. apply list_elem_of_fmap. eauto.
Qed.
(** Both views of a campaign count the same devices: the progress answered to the
    automation has the totals of the administration page, and the five states of a device
    make up the total; the stage it names does not depend on the time. *)
Theorem progress_agrees env h now d campaign_id p :
  Forall (λ s, Status.ds_status s ∈ device_statuses) (d_statuses d) → api_campaign_progress env h now d campaign_id = Ok p →
  let s := get_campaign_stats (d_statuses d) campaign_id in
  ap_total p = st_total s ∧ ap_installed p = st_updated s ∧ ap_failed p = st_failed s ∧ ap_notified p = st_notified s ∧ ap_pending p = st_pending s ∧
  st_total s = st_updated s + st_notified s + st_pending s + st_failed s + st_rolled_back s ∧
  ∀ now', api_campaign_progress env h now' d campaign_id = Ok p.
Proof.
  intros Hs Hp. assert (∀ now', api_campaign_progress env h now' d campaign_id = Ok p) as Hnow by (intros; exact Hp).
  unfold api_campaign_progress, CampaignApi.guard in Hp. destruct (CampaignApi._verify_admin_token env h) as [[]|]; [|done..]. unfold campaign_progress in Hp.
  destruct (find _ _); [|done]. destruct (current_stage _ _); [|done]. injection Hp as <-. set (l := rows_of (d_statuses d) campaign_id) in *.
  cbn [ap_total ap_installed ap_failed ap_notified ap_pending get_campaign_stats st_total st_updated st_failed st_notified st_pending st_rolled_back].
  fold l. split_and!; [|apply grouped_get..| |exact Hnow].
  - unfold grouped. rewrite zsum_fmap. apply (count_classes Status.ds_status); [apply NoDup_remove_dups|].
    intros x Hx. rewrite elem_of_remove_dups. apply list_elem_of_fmap. eauto.
  - rewrite <- (count_classes Status.ds_status device_statuses l).
    + cbn [device_statuses zsum]. unfold with_status. lia.
    + apply (bool_decide_unpack _). by vm_compute.
    + intros x [_ Hx]%list_elem_of_filter. rewrite Forall_forall in Hs. by apply Hs.
Qed.

(** ** The adoption curve *)
Lemma distinct_cons (x : string) l : distinct (x :: l) = (if decide (x ∈ l) then 0 else 1) + distinct l.
Proof.
  unfold distinct. cbn [remove_dups]. destruct (decide_rel elem_of x l), (decide (x ∈ l)); try done; cbn [List.length]; cbv iota; lia.
Qed.
Lemma distinct_NoDup (l : list string) : NoDup l → distinct l = Z.of_nat (List.length l).
Proof.
  induction 1 as [|x l Hx Hl IH]; [done|]. rewrite distinct_cons, decide_False by done. cbn [List.length]. lia.
Qed.
Lemma distinct_le (l l' : list string) : (∀ x, x ∈ l → x ∈ l') → distinct l ≤ distinct l'.
Proof.
  intros H. apply Nat2Z.inj_le, submseteq_length, NoDup_submseteq; [apply NoDup_remove_dups|].
  intros x. rewrite !elem_of_remove_dups. apply H.
Qed.
Lemma distinct_same (l l' : list string) : (∀ x, x ∈ l ↔ x ∈ l') → distinct l = distinct l'.
Proof. intros H. apply Z.le_antisymm; apply distinct_le; intros x; apply H. Qed.
Lemma NoDup_fmap_filter {A B} (g : A → B) (P : A → Prop) `{!∀ x, Decision (P x)} l : NoDup (g <$> l) → NoDup (g <$> filter P l).
Proof.
  induction l as [|x l IH]; [done|]. cbn [fmap list_fmap]. fold (g <$> l). rewrite filter_cons. intros [Hx Hl]%NoDup_cons. case_decide; [|by apply IH].
  apply NoDup_cons. split; [|by apply IH]. intros (y & E & [_ Hy]%list_elem_of_filter)%list_elem_of_fmap. apply Hx. rewrite E. apply list_elem_of_fmap. eauto.
Qed.
Section classes.
Context {A : Type} (f g : A → string) (ks : list string).
Let class (l : list A) (k : string) : list string := g <$> filter (λ x, f x = k) l.
Lemma class_cons x l k : class (x :: l) k = if decide (f x = k) then g x :: class l k else class l k.
Proof. unfold class. rewrite filter_cons. by case_decide. Qed.
(** Something counted in several classes is counted more than once. *)
Lemma distinct_classes l : NoDup ks → (∀ x, x ∈ l → f x ∈ ks) → distinct (g <$> l) ≤ zsum (λ k, distinct (class l k)) ks.
Proof.
  intros Hn. induction l as [|x l IH]; intros H.
  - clear. induction ks as [|k ks' IH]; [done|]. cbn [zsum]. change (distinct (class [] k)) with 0. lia.
  - specialize (IH (λ y Hy, H y ltac:(by right))). cbn [fmap list_fmap]. fold (g <$> l). rewrite distinct_cons.
    rewrite (zsum_single (f x) _ (λ k, distinct (class l k)) ks Hn); [|apply H; by left|intros k Hk; rewrite class_cons, decide_False; done].
    rewrite class_cons. destruct (decide (f x = f x)) as [_|]; [|done]. rewrite distinct_cons. destruct (decide (g x ∈ g <$> l)) as [|Hx]; [case_decide; lia|].
    rewrite decide_False; [lia|]. intros Hc. apply Hx. unfold class in Hc. apply list_elem_of_fmap in Hc as (y & -> & [_ Hy]%list_elem_of_filter).
    apply list_elem_of_fmap. eauto.
Qed.
Lemma distinct_classes_exact l : NoDup ks → (∀ x, x ∈ l → f x ∈ ks) → NoDup (g <$> l) → distinct (g <$> l) = zsum (λ k, distinct (class l k)) ks.
Proof.
  intros Hn H Hl. rewrite distinct_NoDup, length_fmap by done. rewrite <- (count_classes f ks l Hn H). apply zsum_ext. intros k _.
  rewrite distinct_NoDup by (by apply NoDup_fmap_filter). unfold class, count. rewrite length_fmap. do 2 f_equal. apply list_filter_iff. intros x. by rewrite bool_decide_eq_true.
Qed.
End classes.
(** The value of a series at a date, zero when it has no point. *)
Definition point_at (date : Z) (pts : list (Z * Z)) : Z := default 0 (snd <$> find (λ p, bool_decide (p.1 = date)) pts).
Lemma points_at m c rows ds slug d : d ∈ ds → (∀ d', d' ∈ ds → date_of d' = date_of d → d' = d) →
  point_at (date_of d) (points_of m c rows ds slug) = distinct (identity m <$> filter (λ e, slug_of_row c e = slug) (by_day rows d)).
Proof.
  unfold point_at, points_of. induction ds as [|x ds IH]; intros Hd Hi; [by apply elem_of_nil in Hd|]. cbn [omap list_omap].
  destruct (decide (d = x)) as [<-|Hne].
  - destruct (identity m <$> _) as [|u l] eqn:E; [|cbn; by rewrite bool_decide_eq_true_2].
    destruct (decide (d ∈ ds)) as [Hin|Hout]; [by apply IH; [|intros d' H'; apply Hi; by right]|]. cbn.
    assert (find (λ p : Z * Z, bool_decide (p.1 = date_of d)) (points_of m c rows ds slug) = None) as Hf; [|unfold points_of in Hf; by rewrite Hf].
    apply eq_None_not_Some. intros [p Hp]. apply find_some in Hp as [Hp Hb]. apply bool_decide_eq_true in Hb.
    apply list_elem_of_In, list_elem_of_omap in Hp as (d' & Hd' & Hp). assert (p.1 = date_of d') by (repeat case_match; naive_solver).
    apply Hout. rewrite <- (Hi d'); [done|by right|congruence].
  - apply elem_of_cons in Hd as [->|Hd]; [done|]. assert (date_of x ≠ date_of d) as Hx by (intros E; apply Hne; symmetry; apply Hi; [by left|done]).
    specialize (IH Hd (λ d' H', Hi d' ltac:(by right))).
    destruct (identity m <$> filter _ (by_day rows x)); [exact IH|]. cbn [find]. rewrite bool_decide_eq_false_2 by done. exact IH.
Qed.
Lemma date_shift now k : date_of (now - k * DAY) = date_of now - k.
Proof. unfold date_of. replace (now - k * DAY) with (now + (- k) * DAY) by lia. rewrite Z.div_add by done. lia. Qed.
Lemma days_dates now n d d' : d ∈ days now n → d' ∈ days now n → date_of d = date_of d' → d = d'.
Proof. intros (i & -> & _)%list_elem_of_fmap (j & -> & _)%list_elem_of_fmap. rewrite !date_shift. intros E. f_equal. f_equal. lia. Qed.
Lemma interval_positive period : 0 < default 30 (dget period intervals).
Proof. cbn. repeat case_decide; done. Qed.
Lemma by_day_mono rows d d' x : d ≤ d' → x ∈ by_day rows d → x ∈ by_day rows d'.
Proof. unfold by_day. rewrite !list_elem_of_filter. intros H [Hx ?]. split; [lia|done]. Qed.
Lemma days_increase now n i j d d' : (i ≤ j)%nat → days now n !! i = Some d → days now n !! j = Some d' → d ≤ d'.
Proof.
  unfold days. rewrite !list_lookup_fmap. intros Hij Hi Hj. apply fmap_Some in Hi as (a & Ha & ->). apply fmap_Some in Hj as (b & Hb & ->).
  apply lookup_seqZ in Ha as [-> _]. apply lookup_seqZ in Hb as [-> _]. unfold DAY, HOUR. lia.
Qed.
Lemma days_last now n : 0 ≤ n → last (days now n) = Some now.
Proof.
  intros Hn. unfold days. replace (n + 1) with (Z.of_nat (S (Z.to_nat n))) by lia. rewrite seqZ_S, fmap_app. cbn [fmap list_fmap]. rewrite last_snoc, Z.add_0_l, Z2Nat.id, Z.sub_diag by lia. f_equal. lia.
Qed.

(** C36. The adoption curves agree: counted by device, the curve of all the enrolments is at
    every date the sum of those of the plugins, because a device is enrolled once at most;
    counted by user it is that sum or less; it never falls; and it ends on the total shown
    next to it. *)
Theorem adoption_adds_up now period mode d rows : let a := api_adoption now period mode d rows in
  (∀ date n, (date, n) ∈ ad_timeseries a →
     n ≤ zsum (λ s, point_at date (sr_points s)) (ad_series a) ∧
     (NoDup (identity (ad_mode a) <$> enrolled rows) → n = zsum (λ s, point_at date (sr_points s)) (ad_series a))) ∧
  (∀ i j x y, (i ≤ j)%nat → ad_timeseries a !! i = Some x → ad_timeseries a !! j = Some y → x.2 ≤ y.2) ∧
  (Forall (λ e, er_created e ≤ now) rows → last (ad_timeseries a) = Some (date_of now, ad_total a)).
Proof.
  cbn [api_adoption ad_timeseries ad_series ad_mode ad_total]. set (m := mode_of mode). pose proof (interval_positive period) as Hp.
  set (n0 := default 30 _) in *. set (ds := days now n0). set (c := d_cat d). set (slugs := py_sorted _). split_and!.
  - intros date n Hx. apply list_elem_of_fmap in Hx as (t & [= -> ->] & Ht).
    assert (Hs : NoDup slugs) by (unfold slugs; rewrite py_sorted_perm; apply NoDup_remove_dups).
    assert (Hin : ∀ e, e ∈ by_day rows t → slug_of_row c e ∈ slugs).
    { intros e He. unfold slugs. rewrite elem_of_py_sorted, elem_of_remove_dups. apply list_elem_of_fmap. exists e. split; [done|]. apply list_elem_of_bind. eauto. }
    rewrite zsum_fmap. rewrite (zsum_ext _ (λ k, distinct (identity m <$> filter (λ e, slug_of_row c e = k) (by_day rows t)))).
    + split; [by apply distinct_classes|]. intros Hn. apply distinct_classes_exact; [done..|].
      by apply NoDup_fmap_filter.
    + intros k _. apply points_at; [done|]. intros d' Hd' E. by eapply days_dates.
  - intros i j x y Hij Hi Hj. rewrite list_lookup_fmap in Hi, Hj. apply fmap_Some in Hi as (a & Ha & ->). apply fmap_Some in Hj as (b & Hb & ->). cbn [snd].
    apply distinct_le. intros u (e & -> & He)%list_elem_of_fmap. apply list_elem_of_fmap. exists e. split; [done|].
    eapply by_day_mono; [|exact He]. by eapply (days_increase now n0 i j).
  - intros Hc. rewrite fmap_last. unfold ds. rewrite days_last by lia. cbn [fmap option_fmap option_map]. do 2 f_equal. apply distinct_same. intros u.
    rewrite !list_elem_of_fmap. unfold by_day. rewrite Forall_forall in Hc. split; intros (e & -> & He); exists e; (split; [done|]).
    + by apply list_elem_of_filter in He as [_ He].
    + apply list_elem_of_filter. split; [|done]. apply Hc. by apply list_elem_of_filter in He as [_ He].
Qed.

(** ** Examples *)
Module Demo.
Definition status_ex (campaign : Z) (client status : string) : Status.row := Status.Row campaign client None status None None None None 0.
Definition rollout_ex : json :=
  JObj [("stages", JArr [JObj [("percent", JInt 10); ("duration_hours", JInt 24); ("label", JStr "pilot")]; JObj [("percent", JInt 100); ("label", JStr "all")]])].
Definition campaign_ex : campaign_row :=
  CampaignRow 1 "June" "" "plugin_update" "active" None None None None rollout_ex None None None 1000 None.
Definition statuses_ex : list Status.row := [status_ex 1 "a" "updated"; status_ex 1 "b" "failed"; status_ex 1 "c" "notified"; status_ex 2 "a" "pending"].
Definition db_ex (installs : list installation) : adb :=
  Adb (Catalog [] [("mirai-old", 1)] [] [] [] 1 1 1) (Life.State [campaign_ex] 2) statuses_ex (Service.State [] [] 1) (FlagState [] [] 1) [] [] installs [] [] [] [] [] [] 1.
Definition env_ex : environ := [("DM_QUEUE_ADMIN_TOKEN", "svc")].
Definition progress_ex : api_progress := ApiProgress 1 "active" (JStr "all") 3 1 1 1 0 (Decimal 4 5000).
(** The stage named is the last from the first hour, while a tenth of the devices are told to update. *)
Example stage_at_once :
  api_campaign_progress env_ex [("x-admin-token", "svc")] 1000 (db_ex []) 1 = Ok progress_ex ∧
  Serve._get_current_rollout_percent 1000 (Some 1000) [JObj [("percent", JInt 10); ("duration_hours", JInt 24); ("label", JStr "pilot")]; JObj [("percent", JInt 100); ("label", JStr "all")]] = Ok (JInt 10).
Proof. by vm_compute. Qed.
(** Thirds, a half, and all but one device of two thousand. *)
Example percentages :
  percent1 1 3 = Decimal 1 333 ∧ percent1 1 200 = Decimal 1 5 ∧ percent1 1 2000 = Decimal 1 1 ∧ percent1 1999 2000 = Decimal 1 1000 ∧ percent1 0 0 = Whole 0 ∧ percent0 1 200 = 0 ∧ percent0 3 200 = 2.
Proof. vm_compute. done. Qed.
Definition prov_of (client email name : string) : prov_row := ProvRow email name client "ENROLLED" "" "" 0.
Definition now_ex : Z := 40 * DAY + 5.
Definition rows_ex : list enrolled_row :=
  [Enrolled (prov_of "a" "ana@example.org" "mirai") (39 * DAY); Enrolled (prov_of "b" "Ana@example.org" "matisse") (35 * DAY)].
Definition install_ex (client : string) : installation := Installation 1 client "ana@example.org" "1.0" "active" (40 * DAY).
(** Installations that are not enrolled count as active: three devices of two. *)
Example more_than_all :
  let a := api_adoption now_ex "1S" "device" (db_ex [install_ex "a"; install_ex "b"; install_ex "x"]) rows_ex in
  ad_active_pct a = 150 ∧ ad_total a = 2 ∧ ad_new a = 2 ∧
  ad_timeseries a = [(33, 0); (34, 0); (35, 1); (36, 1); (37, 1); (38, 1); (39, 2); (40, 2)] ∧
  ad_series a = [PluginSeries "matisse" [(35, 1); (36, 1); (37, 1); (38, 1); (39, 1); (40, 1)]; PluginSeries "mirai" [(39, 1); (40, 1)]].
Proof. vm_compute. done. Qed.
Lemma adoption_adds_up_witness : let a := api_adoption now_ex "1S" "device" (db_ex []) rows_ex in
  zsum (λ s, point_at 40 (sr_points s)) (ad_series a) = 2 ∧ last (ad_timeseries a) = Some (40, 2).
Proof.
  destruct (adoption_adds_up now_ex "1S" "device" (db_ex []) rows_ex) as (H1 & _ & H3). split.
  - symmetry. apply (H1 40 2); [|apply (bool_decide_unpack _); reflexivity]. apply (bool_decide_unpack _). vm_compute. reflexivity.
  - apply H3. apply (bool_decide_unpack _). reflexivity.
Defined.
Lemma progress_agrees_witness : let s := get_campaign_stats statuses_ex 1 in
  3 = st_total s ∧ st_total s = st_updated s + st_notified s + st_pending s + st_failed s + st_rolled_back s.
Proof.
  destruct (progress_agrees env_ex [("x-admin-token", "svc")] 1000 (db_ex []) 1 progress_ex) as (H1 & _ & _ & _ & _ & H & _).
  - apply (bool_decide_unpack _). reflexivity.
  - by vm_compute.
  - split; [exact H1|exact H].
Defined.
End Demo.
