(* ===== verification/Edge.v ===== *)
(** * Around the handlers
    Of [app/main.py] the trace identifier, the headers of security and the origins allowed
    to browsers, of [app/observability.py] the request identifier. The layers are functions
    on handlers, composed in the order in which the application registers them; the CORS
    layer of the framework is an argument. Header names are in lower case. *)
From S2P Require Import Prelude Text RuntimeConfig Relay Gate.
From Stdlib Require Import Ascii String.
Open Scope Z_scope.

(** A request with the identifiers that the layers leave in its state. *)
Record request : Type := Request { rq_method : string; rq_path : string; rq_headers : headers; rq_trace : string; rq_request_id : string }.
Record response : Type := Response { rp_status : Z; rp_headers : headers; rp_body : string }.
Definition handler : Type := request → response.
Definition with_header (k v : string) (r : response) : response := Response (rp_status r) (dset k v (rp_headers r)) (rp_body r).

Definition supplied (rq : request) : string := strip (hget "x-request-id" (rq_headers rq)).
(** [drawn]: [uuid.uuid4().hex] *)
Definition trace_id_of (drawn : string) (rq : request) : string := str_or (stake 64 (supplied rq)) drawn.
Definition trace_id_middleware (drawn : string) (call_next : handler) : handler := λ rq,
  let trace_id := trace_id_of drawn rq in
  let r := call_next (Request (rq_method rq) (rq_path rq) (rq_headers rq) trace_id (rq_request_id rq)) in
  match dget "x-request-id" (rp_headers r) with Some _ => r | None => with_header "x-request-id" trace_id r end.
Definition request_id_of (drawn : string) (rq : request) : string := str_or (supplied rq) drawn.
(** What the log lines of the request carry, too. *)
Definition request_id_middleware (drawn : string) (call_next : handler) : handler := λ rq,
  let request_id := request_id_of drawn rq in
  with_header "x-request-id" request_id (call_next (Request (rq_method rq) (rq_path rq) (rq_headers rq) (rq_trace rq) request_id)).
Definition content_policy : string :=
  "default-src 'self'; script-src 'self' 'unsafe-inline' https://unpkg.com https://cdn.jsdelivr.net; style-src 'self' 'unsafe-inline' https://cdn.jsdelivr.net; " +:+
  "img-src 'self' data:; font-src 'self' https://cdn.jsdelivr.net;".
(** [gated]: the pod has no configuration yet; the flush of the cache is in [Gate]. *)
Definition security_layer (gated : bool) (call_next : handler) : handler := λ rq,
  if gated && negb (Middleware.starts_with_any (rq_path rq) Middleware._CONFIG_GATE_EXEMPT_PREFIXES)
  then Response 503 [("retry-after", "3")] "config not loaded"
  else
    let r := with_header "referrer-policy" "strict-origin-when-cross-origin" (with_header "x-content-type-options" "nosniff" (with_header "x-frame-options" "DENY" (call_next rq))) in
    if starts_with "/admin" (rq_path rq) then with_header "content-security-policy" content_policy r else r.
(** The layer registered last is the first to see the request. *)
Definition served (drawn drawn' : string) (gated : bool) (cors : handler → handler) (h : handler) : handler :=
  request_id_middleware drawn' (cors (security_layer gated (trace_id_middleware drawn h))).

(** ** Origins *)
Definition _cors_origins (app_env allow_origins : string) : list string :=
  let l := filter (λ o, o ≠ "") (strip <$> split_on "," allow_origins) in
  match l with [] => if decide (lower (strip app_env) ∈ Boot._PROD_LIKE_ENVS) then [] else ["*"] | _ => l end.
(** The framework lets every origin in when the list holds the star. *)
Definition open_to_all (origins : list string) : bool := bool_decide ("*" ∈ origins).

(** Every answer carries the identifier of the request, the one of the log lines, even when
    the handler gave another; the trace that the handler sees, which the proxy writes in its
    audit lines and sends to the backend, is that identifier when the caller chose one of at
    most 64 characters; otherwise it is the beginning of it, or another draw. *)
Lemma answer_identified drawn drawn' gated cors h rq :
  dget "x-request-id" (rp_headers (served drawn drawn' gated cors h rq)) = Some (request_id_of drawn' rq) ∧
  (supplied rq ≠ "" → (trace_id_of drawn rq = request_id_of drawn' rq ↔ (String.length (supplied rq) ≤ 64)%nat)) ∧
  (supplied rq = "" → trace_id_of drawn rq = drawn ∧ request_id_of drawn' rq = drawn').
Proof.
  split; [unfold served, request_id_middleware, with_header; cbn [rp_headers]; by rewrite dget_dset_eq|].
  unfold trace_id_of, request_id_of. split; [|by intros ->]. intros Hs. unfold str_or.
  destruct (supplied rq) as [|c s] eqn:E; [done|]. clear E Hs. assert (∀ n t, stake n t = t ↔ (String.length t ≤ n)%nat) as Ht.
  { induction n as [|n IH]; intros [|x t]; cbn [stake String.length]; [split; [lia|done]|split; [done|lia]|split; [lia|done]|].
    specialize (IH t). split; [intros [= H]; apply IH in H; lia|intros H; f_equal; apply IH; lia]. }
  rewrite <- Ht. done.
Qed.
(** In production the boot gate leaves no origin by default: only a list that names the star
    next to other origins opens the server to all. *)
Lemma origins_closed app_env env pepper allow_origins : lower (strip app_env) ∈ Boot._PROD_LIKE_ENVS →
  Boot.validate_security_config app_env env pepper allow_origins = [] →
  strip allow_origins ≠ "*" ∧ open_to_all (_cors_origins app_env allow_origins) = bool_decide ("*" ∈ strip <$> split_on "," allow_origins).
Proof.
  intros He. unfold Boot.validate_security_config. rewrite decide_True by done. unfold Boot.problems. intros H.
  apply app_eq_nil in H as [_ H]. apply app_eq_nil in H as [_ H]. apply app_eq_nil in H as [H _].
  split; [intros E; rewrite bool_decide_eq_true_2 in H by done; done|]. unfold open_to_all, _cors_origins.
  assert ("*" ∈ filter (λ o, o ≠ "") (strip <$> split_on "," allow_origins) ↔ "*" ∈ strip <$> split_on "," allow_origins) as Hin.
  { rewrite list_elem_of_filter. split; [by intros [_ ?]|done]. }
  destruct (filter _ _) as [|o l]; [rewrite decide_True by done|]; by apply bool_decide_ext.
Qed.

Module Demo.
Definition env_ex : environ := [("ADMIN_SESSION_SECRET", "long")].
(** A list with the star passes the boot gate of production. *)
Example star_in_a_list :
  Boot.validate_security_config "prod" env_ex "pepper" "https://dm.example, *" = [] ∧ open_to_all (_cors_origins "prod" "https://dm.example, *") = true.
Proof. by vm_compute. Qed.
(** The trace of a handler, as its body. *)
Definition tracing : handler := λ rq, Response 200 [("x-request-id", rq_trace rq)] (rq_trace rq).
(** Without an identifier from the caller, the answer has another one than the audit lines. *)
Example two_identifiers :
  let r := served "trace" "request" false id tracing (Request "POST" "/llm/v1/chat/completions" [] "" "") in
  rp_body r = "trace" ∧ dget "x-request-id" (rp_headers r) = Some "request" ∧ dget "x-frame-options" (rp_headers r) = Some "DENY".
Proof. by vm_compute. Qed.
End Demo.
